(* ===== verification/_CoqProject ===== *)
-Q . S2P
Prelude.v
CLib.v
Common.v
Structs.v
FlowTracker.v
PacketParser.v
Payload.v
Anomaly.v
Double.v
Serializer.v
Scanf.v
ProcNet.v
HostMetrics.v
RuntimeConfig.v
Kernel.v
TcpClient.v
Elf.v
BpfLoader.v
Main.v
Recovery.v
Capture.v
Delivery.v
Stream.v
Program.v
Resources.v
Signals.v
Process.v
ByteOrder.v
Bpf.v
BpfTrace.v
BpfNet.v
BpfEvents.v
Layout.v
Collectors.v
Declarations.v
ProcStreams.v
