(* ===== verification/Prelude.v ===== *)
(** * A verification of the STB eBPF probe

    The C probe of this repository (src/, include/) watches the network of a
    set-top box: it attaches a BPF filter to a raw socket, parses the frames it
    receives, keeps a table of flows, looks for retransmissions and anomalies,
    polls /proc, and posts the events it has queued, with host metrics, as JSON
    to a relay server.  The eBPF programs of bpf/ run in the kernel and submit
    events of their own.  The development models both and proves what makes
    them correct.  Paths below are relative to the root of the repository.

    ** How the code is modelled

    - C integers are [Z] with the wrap-around written out ([u8] ... [u64],
      [s32] below); [char] arrays and buffers are lists of bytes ([CLib]).
    - Code that could perform an undefined operation (an access outside an
      array, a signed overflow, the use of an uninitialised variable) returns
      [exec]: [Undefined] is that operation, and safety is the theorem that
      the result is [Done].
    - Allocations, clocks, the texts of files and received frames are arguments,
      and so is what an array holds before it is written (the buffers of [main],
      the memory a ring buffer reserves).  The use of a local that was never set
      is [Undefined].  System calls go to the [world] of
      [Kernel]: open descriptors, mapped regions, the bytes sent, [errno] and a
      script of answers the kernel will give, over which every theorem
      quantifies; the monad [KM] threads a component's state and the world, and
      a run is [None] when the script is exhausted: the program waits.
    - What the repository does not contain is a parameter: [inet_pton], the
      BPF verifier, [strerror], [malloc]'s success, the widths of [long].

    ** Files

    - [Prelude], [CLib]: machine integers, [exec], arrays, search and counting,
      tactics, the hint database [stb]; strings, [snprintf], [strncpy], [atoi].
    - [Common]: include/common.h and src/config.h: flow keys, values, events,
      host metrics, their well-formedness.
    - [FlowTracker]: src/flow_tracker.c.  The flow table and event queue as the
      two arrays with their counters; [find_record], [flow_tracker_update],
      [flow_tracker_update_single], [flow_tracker_cleanup],
      [flow_tracker_check_tcp_retransmit] and the rest, one definition each.
    - [PacketParser]: src/packet_parser.c.  [packet_parse_raw] on the bytes of
      a frame, [packet_to_flow_event].
    - [Structs]: the C layout rules, and [struct pkt_event_t].
    - [Payload]: the DNS, HTTP and TCP sequence number parsers of src/main.c,
      with checked reads of the payload and checked writes to their arrays.
    - [Anomaly]: src/anomaly.c.
    - [Double], [Serializer]: IEEE 754 numbers and their printing;
      src/serializer.c writing into the output array.
    - [Scanf], [ProcNet], [HostMetrics]: [sscanf] and [fgets];
      src/proc_net.c and src/host_metrics.c on the texts of /proc.
    - [RuntimeConfig]: src/runtime_config.c with the defaults of src/config.h.
    - [Kernel]: system calls and the logic of triples over them.
    - [TcpClient]: src/tcp_client.c.
    - [Elf], [BpfLoader]: src/bpf_loader.c: reading the object file; loading,
      perf buffers, ring reader, cleanup.
    - [Main]: the stages of a round of the loop of src/main.c and the loop,
      proved safe against classes that state what the components promise
      ([tracker_promises], [detector_promises], [client_promises]).
    - [Recovery], [Capture], [Delivery], [Stream], [Program]: a lost connection
      made again; the frames of a round and the events they leave in the queue;
      a round on the wire; any number of rounds; [main] as one function.
    - [Resources], [Signals], [Process]: the allocations and streams of the
      components on a heap; the signal handlers and the loops that test
      [g_stop], with the rounds that run before a signal ([before_stop]);
      [main] with both.
    - [ByteOrder]: bpf/bpf_endian.h, the conversions of bpf/vmlinux_legacy.h,
      the address macros of src/config.h.
    - [Bpf], [BpfTrace], [BpfEvents], [BpfNet]: the eBPF programs: the event
      and byte order, a module per tracing program, all the events they submit,
      and the packet programs.
    - [Layout]: the structures of the headers as bytes, by the rules of [Structs];
      [memcmp] of flow keys, packet events in the perf buffer, the record of an
      event.
    - [Collectors]: the handlers of the Go agent (internal/collector/) that take
      fields out of those records, and the block I/O analyzer of
      pkg/perf/block.go that they feed.
    - [Declarations]: the maps of the eBPF programs, and the constants and macros
      of the headers that no other file uses.
    - [ProcStreams]: src/proc_net.c and src/host_metrics.c with their calls of
      [fopen], [popen], [fgets], [fscanf], [fclose] and [pclose], on a table of
      open streams.

    ** What is proved

    - Invariants: every reachable state of the tracker ([ft_reachable_ok]) and
      of the client ([client_reachable_inv]); descriptors of the loader
      ([loader_lifecycle]).
    - Refinement: the table implements a bounded map until a slot is freed
      ([tracker_refines_map]); the port scan detector implements sets of ports
      ([anomaly_scan_refines]); the process with its heap and signals is [main]
      on exactly the rounds before the signal ([process_refines_main]).
    - Memory safety and termination of the parsers ([packet_parse_raw_within],
      [payload_parsers_safe]), of the ring reader ([drain_records]), and of the
      whole program ([main_safe]) with the exact exceptions
      and conditions on the files of /proc.
    - Round trips: frames, DNS and HTTP payloads, JSON batches, interface
      tables, socket addresses are decoded to what was encoded.
    - Functional behaviour of each operation: queueing, cleanup, retransmission
      classes, classification of packets, what a send puts on the wire, the
      backoff, the object file's code section.
    - Errors: what the process returns and leaves open or allocated
      ([process_exit]); when the
      fallback program is refused; when a batch overruns its buffer.
    - Delivery: each accepted frame is queued once, in order
      ([frames_reported]); a round ends with its events on the wire
      ([round_delivers], [tcp_send_completes]), by a new connection if the old
      one was lost ([report_delivers]); both together, from the frames received
      to the request sent ([frames_on_the_wire]), and over any number of rounds:
      every frame exactly once, in order ([frames_delivered_once]).
    - eBPF: latencies belong to their operation under every interleaving
      ([latencies_are_paired]), the payload events ([payloads_captured]) with
      checked writes, no stale data, agreement of the kernel and user-space packet parsers and
      of the byte-order macros ([byte_order_agrees]).
    - Memory: keys compare as bytes exactly as they compare by field
      ([key_memcmp]); the /proc readers close every stream once, on
      every path ([proc_streams_balanced]).
    - From the kernel to the agent: which field of an event each collector passes
      on ([collectors_read]), what is lost on the way ([traces_lost]), and that
      the packets the traffic-control programs see are shown as they were
      ([flow_record_read]).

    ** Bounds and fuel

    Loops are structural recursions over their input wherever the code has a
    bound.  [send_loop] and the client's mutual recursion take fuel from the
    script of answers, one of which every turn consumes; [drain] takes fuel and
    [drain_records] shows that more than the number of records is enough.  The
    loop of [main] is given the inputs of its rounds; its theorems assume fewer
    than 2^31 frames, the range of the [int] that indexes the ACK ring.  The
    loops over the lines of a file take as fuel the bytes of the file; on streams
    they are [Undefined] without fuel, and [proc_streams_balanced] shows that one
    turn more than the bytes is enough.

    ** Not modelled

    Console output other than the statistics texts; [usleep]; the headers copied
    from libbpf (macros and helper numbers: bpf_helpers.h, bpf_helper_defs.h,
    bpf_tracing.h, bpf_core_read.h), which belong to another project;
    network_flow.bpf.c.bak, which no build uses; the Go agent (cmd/, internal/,
    pkg/) beyond the handlers of [Collectors], which is another program; build
    files, scripts and deployment.

    ** This file

    Shared notation, automation and generic lemmas. *)

From stdpp Require Import base list gmap strings numbers option.
From Stdlib Require Import Lia.

Open Scope Z_scope.

(** ** Machine integers

    A C integer of width [w] is a [Z]; the wrap-around of unsigned arithmetic
    is written out with these functions.  [s32] is the two's complement
    conversion to [int]. *)

Definition u8 (z : Z) : Z := z mod 2 ^ 8.
Definition u16 (z : Z) : Z := z mod 2 ^ 16.
Definition u32 (z : Z) : Z := z mod 2 ^ 32.
Definition u64 (z : Z) : Z := z mod 2 ^ 64.
Definition s32 (z : Z) : Z := (z + 2 ^ 31) mod 2 ^ 32 - 2 ^ 31.

Definition is_u8 (z : Z) : Prop := 0 <= z < 2 ^ 8.
Definition is_u16 (z : Z) : Prop := 0 <= z < 2 ^ 16.
Definition is_u32 (z : Z) : Prop := 0 <= z < 2 ^ 32.
Definition is_u64 (z : Z) : Prop := 0 <= z < 2 ^ 64.

Create HintDb stb discriminated.
Create Rewrite HintDb stb.

Ltac unfold_widths :=
  unfold is_u8, is_u16, is_u32, is_u64 in *.

(** [mlia] decides linear goals that mention the width predicates. *)
Ltac mlia := unfold_widths; lia.

Lemma u8_range z : is_u8 (u8 z).
Proof. apply Z.mod_pos_bound. lia. Qed.
Lemma u16_range z : is_u16 (u16 z).
Proof. apply Z.mod_pos_bound. lia. Qed.
Lemma u32_range z : is_u32 (u32 z).
Proof. apply Z.mod_pos_bound. lia. Qed.
Lemma u64_range z : is_u64 (u64 z).
Proof. apply Z.mod_pos_bound. lia. Qed.

Lemma u8_small z : is_u8 z -> u8 z = z.
Proof. apply Z.mod_small. Qed.
Lemma u16_small z : is_u16 z -> u16 z = z.
Proof. apply Z.mod_small. Qed.
Lemma u32_small z : is_u32 z -> u32 z = z.
Proof. apply Z.mod_small. Qed.
Lemma u64_small z : is_u64 z -> u64 z = z.
Proof. apply Z.mod_small. Qed.

Lemma s32_small z : - 2 ^ 31 <= z < 2 ^ 31 -> s32 z = z.
Proof. intros H. unfold s32. rewrite Z.mod_small by lia. lia. Qed.

Lemma s32_range z : - 2 ^ 31 <= s32 z < 2 ^ 31.
Proof.
  unfold s32. pose proof (Z.mod_pos_bound (z + 2 ^ 31) (2 ^ 32)). lia.
Qed.

#[export] Hint Resolve u8_range u16_range u32_range u64_range : stb.
#[export] Hint Rewrite u8_small u16_small u32_small u64_small
  using (auto with stb; mlia) : stb.

#[export] Hint Extern 8 (is_u8 _) => mlia : stb.
#[export] Hint Extern 8 (is_u16 _) => mlia : stb.
#[export] Hint Extern 8 (is_u32 _) => mlia : stb.
#[export] Hint Extern 8 (is_u64 _) => mlia : stb.

(** Subtraction of two in-range counters is exact when it does not borrow. *)
Lemma u64_sub_exact a b : is_u64 a -> is_u64 b -> b <= a -> u64 (a - b) = a - b.
Proof. intros. apply u64_small. mlia. Qed.

(** Subtraction that borrows lands near the top of the range. *)
Lemma u64_sub_borrow a b : is_u64 a -> is_u64 b -> a < b -> u64 (a - b) = 2 ^ 64 + (a - b).
Proof.
  intros. unfold u64. rewrite <- (Z.mod_add _ 1) by lia.
  rewrite Z.mul_1_l, Z.mod_small; mlia.
Qed.

Lemma u64_add_l a b : u64 (u64 a + b) = u64 (a + b).
Proof. apply Zplus_mod_idemp_l. Qed.

Global Opaque u8 u16 u32 u64 s32.

(** ** Undefined behaviour

    An access outside a C object has no meaning: [exec] is the result of code
    that may perform one.  The monad instances give stdpp's do-notation. *)

Inductive exec (A : Type) : Type :=
| Done (a : A)
| Undefined.
Arguments Done {A} a.
Arguments Undefined {A}.

#[global] Instance exec_ret : MRet exec := @Done.
#[global] Instance exec_bind : MBind exec := fun A B f m =>
  match m with Done a => f a | Undefined => Undefined end.

(** [defined m]: the computation performs no undefined operation. *)
Definition defined {A} (m : exec A) : Prop := exists a, m = Done a.

Lemma bind_Done {A B} (f : A -> exec B) a : (Done a ≫= f) = f a.
Proof. reflexivity. Qed.
Lemma bind_Undefined {A B} (f : A -> exec B) : (Undefined ≫= f) = Undefined.
Proof. reflexivity. Qed.

Lemma bind_Done_inv {A B} (f : A -> exec B) m b :
  m ≫= f = Done b -> exists a, m = Done a /\ f a = Done b.
Proof. destruct m; simpl; [eauto | discriminate]. Qed.

Lemma bind_assoc {A B C} (f : A -> exec B) (g : B -> exec C) m :
  (a ← m; f a ≫= g) = (m ≫= f) ≫= g.
Proof. by destruct m. Qed.

Lemma defined_Done {A} (a : A) : defined (Done a).
Proof. by eexists. Qed.

Lemma defined_bind {A B} (f : A -> exec B) m :
  defined m -> (forall a, m = Done a -> defined (f a)) -> defined (m ≫= f).
Proof. intros [a ->] H. exact (H a eq_refl). Qed.

#[export] Hint Resolve defined_Done : stb.
#[export] Hint Rewrite @bind_Done @bind_Undefined : stb.

(** ** Byte arrays *)

Definition is_byte (z : Z) : Prop := 0 <= z < 256.
Abbreviation bytes := (list Z).
Abbreviation zlen l := (Z.of_nat (length l)).

Definition rd (b : bytes) (i : Z) : exec Z :=
  if 0 <=? i
  then match b !! Z.to_nat i with Some x => Done x | None => Undefined end
  else Undefined.

Definition wr (b : bytes) (i v : Z) : exec bytes :=
  if (0 <=? i) && (i <? zlen b) then Done (<[Z.to_nat i := v]> b) else Undefined.

(** [blit b off s]: [s] written over [b] from offset [off]. *)
Definition blit (b : bytes) (off : nat) (s : bytes) : bytes :=
  take off b ++ s ++ drop (off + length s) b.

Definition wr_bytes (b : bytes) (off : Z) (s : bytes) : exec bytes :=
  if (0 <=? off) && (off + zlen s <=? zlen b)
  then Done (blit b (Z.to_nat off) s) else Undefined.

Lemma rd_defined b i : 0 <= i < zlen b -> exists x, rd b i = Done x /\ b !! Z.to_nat i = Some x.
Proof.
  intros [H0 H1]. unfold rd. rewrite (proj2 (Z.leb_le 0 i)) by lia.
  destruct (lookup_lt_is_Some_2 b (Z.to_nat i)) as [x Hx]; [lia|].
  rewrite Hx. eauto.
Qed.

Lemma rd_Done b i x : rd b i = Done x -> 0 <= i < zlen b /\ b !! Z.to_nat i = Some x.
Proof.
  unfold rd. destruct (Z.leb_spec 0 i); [|discriminate].
  destruct (b !! Z.to_nat i) eqn:E; [|discriminate]. intros [= ->].
  apply lookup_lt_Some in E as ?. split; [lia|done].
Qed.

Lemma rd_lookup b i x : 0 <= i -> b !! Z.to_nat i = Some x -> rd b i = Done x.
Proof. intros H E. unfold rd. by rewrite (proj2 (Z.leb_le 0 i)), E by lia. Qed.

Lemma rd_oob b i : i < 0 \/ zlen b <= i -> rd b i = Undefined.
Proof.
  intros H. unfold rd. destruct (Z.leb_spec 0 i); [|done].
  rewrite (lookup_ge_None_2 b) by lia. done.
Qed.

Lemma rd_byte b i x : Forall is_byte b -> rd b i = Done x -> is_byte x.
Proof. intros Hb [_ H]%rd_Done. by eapply Forall_lookup_1. Qed.

Lemma wr_Done b i v : 0 <= i < zlen b -> wr b i v = Done (<[Z.to_nat i := v]> b).
Proof.
  intros H. unfold wr.
  by rewrite (proj2 (Z.leb_le _ _)), (proj2 (Z.ltb_lt _ _)) by lia.
Qed.

Lemma wr_oob b i v : i < 0 \/ zlen b <= i -> wr b i v = Undefined.
Proof.
  intros H. unfold wr. destruct (Z.leb_spec 0 i), (Z.ltb_spec i (zlen b)); try done; lia.
Qed.

Lemma length_blit b off s : (off + length s <= length b)%nat -> length (blit b off s) = length b.
Proof. intros H. unfold blit. rewrite !length_app, length_take, length_drop. lia. Qed.

Lemma wr_bytes_Done b off s :
  0 <= off -> off + zlen s <= zlen b -> wr_bytes b off s = Done (blit b (Z.to_nat off) s).
Proof.
  intros H1 H2. unfold wr_bytes.
  by rewrite (proj2 (Z.leb_le _ _)), (proj2 (Z.leb_le _ _)) by lia.
Qed.

Lemma wr_bytes_oob b off s : off < 0 \/ zlen b < off + zlen s -> wr_bytes b off s = Undefined.
Proof.
  intros H. unfold wr_bytes.
  destruct (Z.leb_spec 0 off), (Z.leb_spec (off + zlen s) (zlen b)); try done; lia.
Qed.

(** What a buffer holds up to the write position is what was written there. *)
Lemma take_blit b off s n :
  n = (off + length s)%nat -> (n <= length b)%nat -> take n (blit b off s) = take off b ++ s.
Proof.
  intros -> H. unfold blit. rewrite app_assoc, take_app_le.
  - by rewrite take_ge by (rewrite length_app, length_take; lia).
  - rewrite length_app, length_take. lia.
Qed.

Lemma take_blit_le b off s n :
  (n <= off)%nat -> (off <= length b)%nat -> take n (blit b off s) = take n b.
Proof.
  intros H1 H2. unfold blit. rewrite take_app_le by (rewrite length_take; lia).
  rewrite take_take. f_equal. lia.
Qed.

Lemma take_insert_S (b : bytes) n v :
  (n < length b)%nat -> take (S n) (<[n := v]> b) = take n b ++ [v].
Proof.
  intros H. rewrite (take_S_r _ _ v) by (by apply list_lookup_insert_eq).
  by rewrite take_insert_ge by lia.
Qed.

Lemma Forall_blit (P : Z -> Prop) b off s : Forall P b -> Forall P s -> Forall P (blit b off s).
Proof. intros. unfold blit. rewrite !Forall_app. auto using Forall_take, Forall_drop. Qed.

#[export] Hint Resolve Forall_blit : stb.
#[export] Hint Rewrite length_blit using lia : stb.

(** ** Counting and searching in lists *)

Section find_index.
Context {A : Type} (P : A -> bool).

(** The index of the first element that satisfies [P]: the C idiom
    [for (i = 0; i < n; i++) if (P(a[i])) return &a[i];]. *)
Fixpoint find_index (xs : list A) : option nat :=
  match xs with
  | x :: xs' => if P x then Some 0%nat else S <$> find_index xs'
  | [] => None
  end.

Lemma find_index_Some l i :
  find_index l = Some i <->
  (exists x, l !! i = Some x /\ P x = true) /\
  (forall j x, (j < i)%nat -> l !! j = Some x -> P x = false).
Proof.
  revert i. induction l as [|y l IH]; intros i; simpl.
  { split; [done|]. intros [[x [Hx _]] _]. by rewrite lookup_nil in Hx. }
  destruct (P y) eqn:Hy.
  - split.
    + intros [= <-]. split; [by exists y|]. intros j x Hj. lia.
    + intros [_ Hall]. destruct i as [|i]; [done|].
      specialize (Hall 0%nat y ltac:(lia) eq_refl). congruence.
  - destruct i as [|i]; simpl.
    + split; [by destruct (find_index l)|]. intros [[x [[= <-] Hx]] _]. congruence.
    + rewrite fmap_Some. split.
      * intros (i' & Hi & [= ->]). apply IH in Hi as [Hx Hall]. split; [done|].
        intros [|j] x Hj; simpl; [congruence|]. apply Hall. lia.
      * intros [Hx Hall]. exists i. split; [|done]. apply IH. split; [done|].
        intros j x Hj Hjx. apply (Hall (S j) x); [lia|done].
Qed.

Lemma find_index_None l :
  find_index l = None <-> (forall j x, l !! j = Some x -> P x = false).
Proof.
  induction l as [|y l IH]; simpl.
  { split; [|done]. intros _ j x. by rewrite lookup_nil. }
  destruct (P y) eqn:Hy.
  - split; [done|]. intros H. specialize (H 0%nat y eq_refl). congruence.
  - rewrite fmap_None, IH. split; intros H.
    + intros [|j] x; simpl; [congruence|]. apply H.
    + intros j x Hx. apply (H (S j) x Hx).
Qed.

Lemma find_index_lt l i : find_index l = Some i -> (i < length l)%nat.
Proof. intros [[x [Hx _]] _]%find_index_Some. by eapply lookup_lt_Some. Qed.

(** Number of elements that satisfy [P]. *)
Definition countb (l : list A) : nat := length (List.filter P l).

Lemma countb_le l : (countb l <= length l)%nat.
Proof. unfold countb. induction l; simpl; [lia|]. case_match; simpl; lia. Qed.

Lemma countb_app l1 l2 : countb (l1 ++ l2) = (countb l1 + countb l2)%nat.
Proof. unfold countb. by rewrite List.filter_app, length_app. Qed.

Lemma countb_cons x l : countb (x :: l) = ((if P x then 1 else 0) + countb l)%nat.
Proof. unfold countb. simpl. by destruct (P x). Qed.

Lemma countb_insert l i x y :
  l !! i = Some x ->
  (countb (<[i := y]> l) + (if P x then 1 else 0) = countb l + (if P y then 1 else 0))%nat.
Proof.
  revert i. induction l as [|z l IH]; intros [|i]; simpl; try done.
  - intros [= ->]. rewrite !countb_cons. lia.
  - intros H. rewrite !countb_cons. specialize (IH i H). lia.
Qed.

Lemma countb_full l :
  countb l = length l <-> (forall j x, l !! j = Some x -> P x = true).
Proof.
  induction l as [|z l IH]; [split; done|]. rewrite countb_cons. simpl.
  pose proof (countb_le l). split.
  - intros Hc. destruct (P z) eqn:Hz; [|lia].
    intros [|j] x; simpl; [congruence|]. apply IH. lia.
  - intros Hall. rewrite (Hall 0%nat z eq_refl).
    cut (countb l = length l); [lia|]. apply IH. intros j x. apply (Hall (S j)).
Qed.
End find_index.

(** Writing through a pointer to slot [i] of an array. *)
Lemma alter_insert {A} (f : A -> A) (l : list A) i x :
  l !! i = Some x -> alter f i l = <[i := f x]> l.
Proof.
  intros Hi. apply list_eq. intros j. destruct (decide (i = j)) as [<-|].
  - rewrite list_lookup_alter_eq, Hi, list_lookup_insert_eq; [done|].
    by eapply lookup_lt_Some.
  - by rewrite list_lookup_alter_ne, list_lookup_insert_ne.
Qed.

Lemma alter_None {A} (f : A -> A) (l : list A) i : l !! i = None -> alter f i l = l.
Proof.
  intros Hi. apply list_eq. intros j. destruct (decide (i = j)) as [<-|].
  - by rewrite list_lookup_alter_eq, Hi.
  - by rewrite list_lookup_alter_ne.
Qed.

(** ** Case analysis on the tests of the code *)

(** [zcase] splits on the integer comparison the goal is stuck on. *)
Ltac zcase :=
  match goal with
  | |- context [Z.eqb ?a ?b] => destruct (Z.eqb_spec a b)
  | |- context [Z.ltb ?a ?b] => destruct (Z.ltb_spec a b)
  | |- context [Z.leb ?a ?b] => destruct (Z.leb_spec a b)
  end.

(** The test [a <=? b] and the like, rewritten to the value the context fixes. *)
Ltac ztest :=
  repeat match goal with
  | |- context [Z.eqb ?a ?b] =>
      first [ rewrite (proj2 (Z.eqb_eq a b)) by lia
            | rewrite (proj2 (Z.eqb_neq a b)) by lia ]
  | |- context [Z.ltb ?a ?b] =>
      first [ rewrite (proj2 (Z.ltb_lt a b)) by lia
            | rewrite (proj2 (Z.ltb_ge a b)) by lia ]
  | |- context [Z.leb ?a ?b] =>
      first [ rewrite (proj2 (Z.leb_le a b)) by lia
            | rewrite (proj2 (Z.leb_gt a b)) by lia ]
  end.
