(* ===== verification/CLib.v ===== *)
(** CLib: the parts of the C library the probe uses, on byte arrays.

    A [char[n]] field is the list of its [n] bytes; [cstr] is the string it
    holds (the bytes before the first NUL).  [strncpy_buf], [snprintf_buf] and
    [snprintf_at] write the bytes their C namesakes write, [dec] and [decd] are
    the [%u]/[%llu] and [%d] conversions, [strchr], [strcasestr], [atoi] the
    searches and conversions of the HTTP parser. *)

From stdpp Require Import base list strings numbers option.
From S2P Require Import Prelude.

(** ** Strings *)

Definition lit (s : string) : bytes :=
  map (fun a => Z.of_N (Ascii.N_of_ascii a)) (String.list_ascii_of_string s).

(** A literal of the source that holds double quotes, written with
    apostrophes. *)
Definition qlit (s : string) : bytes :=
  map (fun c => if c =? 39 then 34 else c) (lit s).

Fixpoint cstr (b : bytes) : bytes :=
  match b with
  | [] => []
  | c :: b' => if c =? 0 then [] else c :: cstr b'
  end.

Definition no_nul (s : bytes) : Prop := Forall (fun c => c <> 0) s.

Lemma cstr_no_nul s : no_nul s -> cstr s = s.
Proof. induction 1 as [|c s Hc _ IH]; simpl; [done|]. zcase; [done|]. by rewrite IH. Qed.

Lemma no_nul_cstr b : no_nul (cstr b).
Proof. induction b as [|c b IH]; simpl; [constructor|]. zcase; constructor; auto. Qed.

Lemma cstr_app_nul s t : no_nul s -> cstr (s ++ 0 :: t) = s.
Proof. induction 1 as [|c s Hc _ IH]; simpl; [done|]. zcase; [done|]. by rewrite IH. Qed.

Lemma cstr_app s t : no_nul s -> cstr (s ++ t) = s ++ cstr t.
Proof. induction 1 as [|c s Hc _ IH]; simpl; [done|]. zcase; [done|]. by rewrite IH. Qed.

Lemma length_cstr b : (length (cstr b) <= length b)%nat.
Proof. induction b as [|c b IH]; simpl; [lia|]. zcase; simpl; lia. Qed.

Lemma cstr_idem b : cstr (cstr b) = cstr b.
Proof. apply cstr_no_nul, no_nul_cstr. Qed.

Lemma cstr_Forall (P : Z -> Prop) b : Forall P b -> Forall P (cstr b).
Proof. induction 1 as [|c b Hc _ IH]; simpl; [constructor|]. zcase; constructor; auto. Qed.

Lemma cstr_length_lt b i : b !! i = Some 0 -> (length (cstr b) <= i)%nat.
Proof.
  revert i. induction b as [|c b IH]; intros [|i]; simpl; try done.
  - intros [= ->]. done.
  - intros H. zcase; simpl; [lia|]. specialize (IH i H). lia.
Qed.

Lemma no_nul_app s t : no_nul (s ++ t) <-> no_nul s /\ no_nul t.
Proof. apply Forall_app. Qed.

Lemma no_nul_take n s : no_nul s -> no_nul (take n s).
Proof. apply Forall_take. Qed.

Lemma no_nul_dec (s : bytes) : forallb (fun c => negb (c =? 0)) s = true -> no_nul s.
Proof.
  intros H. apply Forall_forall. intros c Hc. rewrite forallb_forall in H.
  specialize (H c Hc). by destruct (Z.eqb_spec c 0).
Qed.

#[export] Hint Resolve no_nul_cstr no_nul_take : stb.

(** ** Writing strings into arrays *)

(** [strncpy(dst, src, n)]: at most [n] characters of [src], then NULs up to
    [n]; what lies beyond is left as it was. *)
Definition strncpy_buf (dst src : bytes) (n : nat) : bytes :=
  let s := take n (cstr src) in
  blit dst 0 (s ++ replicate (n - length s) 0).

(** The idiom [strncpy(f, s, sizeof(f) - 1)]. *)
Definition strncpy_field (dst src : bytes) : bytes :=
  strncpy_buf dst src (length dst - 1).

(** [snprintf(output + off, size, ...)] where the conversion produces [s]. *)
Definition snprintf_at (b : bytes) (off size : Z) (s : bytes) : exec bytes :=
  if size <=? 0 then Done b
  else wr_bytes b off (take (Z.to_nat (size - 1)) s ++ [0]).

(** [snprintf(f, sizeof(f), ...)]. *)
Definition snprintf_field (b s : bytes) : bytes :=
  match b with
  | [] => []
  | _ => blit b 0 (take (length b - 1) s ++ [0])
  end.

(** A [char[n]] whose last byte is NUL, so that reading it as a string stays
    inside it. *)
Definition cfield (n : nat) (b : bytes) : Prop :=
  length b = n /\ b !! (n - 1)%nat = Some 0.

Lemma length_strncpy dst src n : (n <= length dst)%nat -> length (strncpy_buf dst src n) = length dst.
Proof.
  intros H. unfold strncpy_buf. rewrite length_blit; [done|].
  rewrite length_app, length_replicate, length_take. lia.
Qed.

Lemma strncpy_buf_eq dst src n :
  (n <= length dst)%nat ->
  strncpy_buf dst src n =
  take n (cstr src) ++ replicate (n - length (cstr src)) 0 ++ drop n dst.
Proof.
  intros H. unfold strncpy_buf, blit. rewrite take_0, !length_app, length_replicate.
  simpl. rewrite <- app_assoc. f_equal. f_equal; [|f_equal]; rewrite length_take; try f_equal; lia.
Qed.

(** [strncpy] with [sizeof - 1] keeps an already terminated field terminated,
    and the field then holds the source cut to [sizeof - 1] characters. *)
Lemma strncpy_field_cfield n dst src : cfield n dst -> cfield n (strncpy_field dst src).
Proof.
  intros [Hl H0]. pose proof (lookup_lt_Some _ _ _ H0). unfold strncpy_field. split.
  - rewrite length_strncpy; lia.
  - rewrite strncpy_buf_eq by lia. rewrite Hl.
    rewrite app_assoc, lookup_app_r; rewrite length_app, length_replicate, length_take.
    + rewrite lookup_drop, <- H0. f_equal. lia.
    + lia.
Qed.

Lemma cstr_strncpy_field n dst src :
  cfield n dst -> cstr (strncpy_field dst src) = take (n - 1) (cstr src).
Proof.
  intros [Hl H0]. pose proof (lookup_lt_Some _ _ _ H0). unfold strncpy_field.
  rewrite strncpy_buf_eq by lia. rewrite Hl.
  destruct (n - 1 - length (cstr src))%nat as [|k] eqn:Hk.
  - rewrite (drop_S _ 0 (n - 1)) by done. simpl. apply cstr_app_nul. auto with stb.
  - apply cstr_app_nul. auto with stb.
Qed.

Lemma snprintf_field_cfield n b s : cfield n b -> cfield n (snprintf_field b s).
Proof.
  intros [Hl H0]. pose proof (lookup_lt_Some _ _ _ H0).
  assert (Heq : snprintf_field b s = blit b 0 (take (n - 1) s ++ [0])).
  { unfold snprintf_field. rewrite Hl. by destruct b. }
  rewrite Heq. split.
  - rewrite length_blit; rewrite ?length_app, ?length_take; simpl; lia.
  - unfold blit. rewrite take_0, length_app, length_take. simpl.
    destruct (decide (n - 1 <= length s)%nat).
    + rewrite <- app_assoc, lookup_app_r; rewrite length_take; [|lia].
      by replace (n - 1 - (n - 1) `min` length s)%nat with 0%nat by lia.
    + rewrite <- app_assoc, lookup_app_r; rewrite length_take; [|lia].
      rewrite lookup_app_r by (simpl; lia). simpl.
      rewrite lookup_drop, <- H0. f_equal. lia.
Qed.

Lemma cstr_snprintf_field n b s :
  cfield n b -> no_nul s -> cstr (snprintf_field b s) = take (n - 1) s.
Proof.
  intros [Hl H0] Hs. pose proof (lookup_lt_Some _ _ _ H0).
  assert (Heq : snprintf_field b s = blit b 0 (take (n - 1) s ++ [0])).
  { unfold snprintf_field. rewrite Hl. by destruct b. }
  rewrite Heq. unfold blit. rewrite take_0. simpl. rewrite <- app_assoc. simpl.
  apply cstr_app_nul. by apply no_nul_take.
Qed.

Lemma cfield_zeros n : (0 < n)%nat -> cfield n (replicate n 0).
Proof. intros H. split; [apply length_replicate|]. apply lookup_replicate. lia. Qed.

Lemma cfield_no_overread n b : cfield n b -> (length (cstr b) < n)%nat.
Proof.
  intros [Hl H]. apply lookup_lt_Some in H as ?.
  apply cstr_length_lt in H. lia.
Qed.

#[export] Hint Resolve strncpy_field_cfield snprintf_field_cfield : stb.

(** ** Decimal conversions *)

Fixpoint dec_f (fuel : nat) (n : Z) : bytes :=
  match fuel with
  | O => []
  | S f => (if n <? 10 then [] else dec_f f (n / 10)) ++ [48 + n mod 10]
  end.

(** [%u] and [%llu]; 20 digits hold every 64-bit value. *)
Definition dec (n : Z) : bytes := dec_f 20 n.

(** [%d]. *)
Definition decd (n : Z) : bytes := if n <? 0 then 45 :: dec (- n) else dec n.

Definition is_digit (c : Z) : Prop := 48 <= c <= 57.
Definition digitb (c : Z) : bool := (48 <=? c) && (c <=? 57).

(** The value of a string of decimal digits. *)
Definition dval (s : bytes) : Z := fold_left (fun a c => a * 10 + (c - 48)) s 0.

Lemma digitb_true c : is_digit c -> digitb c = true.
Proof. intros []. unfold digitb. by ztest. Qed.

Lemma dval_snoc s c : dval (s ++ [c]) = dval s * 10 + (c - 48).
Proof. unfold dval. by rewrite fold_left_app. Qed.

Lemma dec_f_digits fuel n : 0 <= n -> Forall is_digit (dec_f fuel n).
Proof.
  revert n. induction fuel as [|f IH]; intros n Hn; simpl; [constructor|].
  apply Forall_app. split.
  - zcase; [constructor|]. apply IH, Z.div_pos; lia.
  - repeat constructor; pose proof (Z.mod_pos_bound n 10); unfold is_digit; lia.
Qed.

Lemma dec_f_dval fuel n : 0 <= n < 10 ^ Z.of_nat fuel -> dval (dec_f fuel n) = n.
Proof.
  revert n. induction fuel as [|f IH]; intros n Hn; simpl.
  { change (10 ^ Z.of_nat 0) with 1 in Hn. unfold dval. simpl. lia. }
  rewrite dval_snoc. rewrite Nat2Z.inj_succ, Z.pow_succ_r in Hn by lia.
  zcase.
  - rewrite Z.mod_small by lia. unfold dval. simpl. lia.
  - rewrite IH; [pose proof (Z.div_mod n 10); lia|].
    split; [apply Z.div_pos; lia|]. apply Z.div_lt_upper_bound; lia.
Qed.

Lemma dec_f_length fuel k n :
  (1 <= k)%nat -> 0 <= n < 10 ^ Z.of_nat k -> (length (dec_f fuel n) <= k)%nat.
Proof.
  revert k n. induction fuel as [|f IH]; intros k n Hk Hn; simpl; [lia|].
  rewrite length_app. simpl. zcase; simpl; [lia|].
  destruct k as [|[|k]]; [lia|change (10 ^ Z.of_nat 1) with 10 in Hn; lia|].
  rewrite (Nat2Z.inj_succ (S k)), Z.pow_succ_r in Hn by lia.
  assert (length (dec_f f (n / 10)) <= S k)%nat; [|lia].
  apply IH; [lia|]. split; [apply Z.div_pos; lia|]. apply Z.div_lt_upper_bound; lia.
Qed.

Lemma dec_digits n : 0 <= n -> Forall is_digit (dec n).
Proof. apply dec_f_digits. Qed.

Lemma dec_dval n : is_u64 n -> dval (dec n) = n.
Proof. intros H. apply dec_f_dval. mlia. Qed.

Lemma dec_inj a b : is_u64 a -> is_u64 b -> dec a = dec b -> a = b.
Proof. intros Ha Hb H. by rewrite <- (dec_dval a), H, dec_dval. Qed.

Lemma dec_length k n : (1 <= k)%nat -> 0 <= n < 10 ^ Z.of_nat k -> (length (dec n) <= k)%nat.
Proof. apply dec_f_length. Qed.

Lemma dec_not_nil n : dec n <> [].
Proof.
  unfold dec.
  change (dec_f 20 n) with ((if n <? 10 then [] else dec_f 19 (n / 10)) ++ [48 + n mod 10]).
  by intros [_ [=]]%app_nil.
Qed.

Lemma digits_no_nul s : Forall is_digit s -> no_nul s.
Proof. apply Forall_impl. unfold is_digit. intros x []. lia. Qed.

Lemma dec_no_nul n : 0 <= n -> no_nul (dec n).
Proof. intros. by apply digits_no_nul, dec_digits. Qed.

Lemma decd_no_nul n : no_nul (decd n).
Proof.
  unfold decd. zcase; [constructor; [lia|]|]; apply dec_no_nul; lia.
Qed.

#[export] Hint Resolve dec_digits dec_no_nul decd_no_nul dec_not_nil : stb.

(** ** Searching *)

Definition strchr (b : bytes) (c : Z) : option nat := find_index (fun x => x =? c) (cstr b).

Definition tolower (c : Z) : Z := if (65 <=? c) && (c <=? 90) then c + 32 else c.

Fixpoint prefix_ci (needle hay : bytes) : bool :=
  match needle, hay with
  | [], _ => true
  | _, [] => false
  | n :: needle', h :: hay' => (tolower n =? tolower h) && prefix_ci needle' hay'
  end.

Fixpoint strcasestr_go (hay needle : bytes) : option nat :=
  if prefix_ci needle hay then Some 0%nat
  else match hay with [] => None | _ :: hay' => S <$> strcasestr_go hay' needle end.

(** [strcasestr(b, needle)], as the offset of the match. *)
Definition strcasestr (b needle : bytes) : option nat := strcasestr_go (cstr b) needle.

Fixpoint span_digits (s : bytes) : bytes :=
  match s with
  | c :: s' => if digitb c then c :: span_digits s' else []
  | [] => []
  end.

Definition isspace (c : Z) : bool := (c =? 32) || ((9 <=? c) && (c <=? 13)).

Fixpoint skip_space (s : bytes) : bytes :=
  match s with
  | c :: s' => if isspace c then skip_space s' else s
  | [] => []
  end.

(** [atoi] is [strtol]: on the 32-bit target [long] has 32 bits and an
    out-of-range value saturates. *)
Definition clamp_int (z : Z) : Z := Z.max (- 2 ^ 31) (Z.min z (2 ^ 31 - 1)).

Definition atoi (b : bytes) : Z :=
  match skip_space (cstr b) with
  | [] => 0
  | c :: s =>
      if c =? 45 then clamp_int (- dval (span_digits s))
      else if c =? 43 then clamp_int (dval (span_digits s))
      else clamp_int (dval (span_digits (c :: s)))
  end.

Lemma strchr_lt b c i : strchr b c = Some i -> (i < length (cstr b))%nat.
Proof. apply find_index_lt. Qed.

Lemma strchr_char b c i : strchr b c = Some i -> cstr b !! i = Some c.
Proof.
  intros [[x [Hx Hc]] _]%find_index_Some. by destruct (Z.eqb_spec x c); subst.
Qed.

Lemma strchr_app s c t :
  Forall (fun x => x <> c) s -> no_nul s -> c <> 0 -> strchr (s ++ c :: t) c = Some (length s).
Proof.
  intros Hs Hn Hc. unfold strchr. induction s as [|x s IH]; simpl.
  - rewrite (proj2 (Z.eqb_neq c 0)) by done. simpl. by rewrite Z.eqb_refl.
  - inversion Hs; inversion Hn; subst. rewrite (proj2 (Z.eqb_neq x 0)) by done. simpl.
    rewrite (proj2 (Z.eqb_neq x c)) by done. by rewrite IH.
Qed.

Lemma prefix_ci_length needle hay : prefix_ci needle hay = true -> (length needle <= length hay)%nat.
Proof.
  revert hay. induction needle as [|n needle IH]; intros [|h hay]; simpl; try done; try lia.
  intros [_ H]%andb_true_iff. specialize (IH _ H). lia.
Qed.

Lemma strcasestr_lt b needle i :
  strcasestr b needle = Some i -> (i + length needle <= length (cstr b))%nat.
Proof.
  unfold strcasestr. generalize (cstr b). clear b. intros b. revert i.
  induction b as [|h b IH]; intros i; simpl.
  - destruct (prefix_ci needle []) eqn:E; [|done]. intros [= <-].
    apply prefix_ci_length in E. simpl in E. lia.
  - destruct (prefix_ci needle (h :: b)) eqn:E.
    + intros [= <-]. apply prefix_ci_length in E. simpl in E. lia.
    + intros (j & Hj & ->)%fmap_Some. specialize (IH j Hj). lia.
Qed.

Lemma span_digits_digits s : Forall is_digit (span_digits s).
Proof.
  induction s as [|c s IH]; simpl; [constructor|].
  unfold digitb. zcase; simpl; [|constructor]. zcase; constructor; auto. by split.
Qed.

Lemma span_digits_app s t :
  Forall is_digit s -> (forall c, head t = Some c -> digitb c = false) -> span_digits (s ++ t) = s.
Proof.
  intros Hs Ht. induction Hs as [|c s Hc _ IH]; simpl.
  - destruct t as [|c t]; simpl; [done|]. by rewrite (Ht c eq_refl).
  - by rewrite digitb_true, IH by done.
Qed.

Lemma atoi_range b : - 2 ^ 31 <= atoi b < 2 ^ 31.
Proof.
  unfold atoi, clamp_int. repeat case_match; lia.
Qed.

(** [atoi] reads back what [%u] wrote. *)
Lemma atoi_dec n t :
  0 <= n < 2 ^ 31 -> (forall c, head (cstr t) = Some c -> digitb c = false) ->
  atoi (dec n ++ t) = n.
Proof.
  intros Hn Ht. unfold atoi.
  assert (Hd := dec_digits n ltac:(lia)).
  assert (Hc : cstr (dec n ++ t) = dec n ++ cstr t).
  { clear Ht. induction (digits_no_nul _ Hd) as [|c s Hc _ IH]; simpl; [done|].
    zcase; [done|]. f_equal. apply IH. by inversion Hd. }
  rewrite Hc. destruct (dec n) as [|c s] eqn:E; [by destruct (dec_not_nil n)|].
  inversion Hd as [|? ? Hcd]; subst. destruct Hcd as [? ?].
  cbn [app skip_space].
  assert (isspace c = false) as ->.
  { unfold isspace. by ztest. }
  assert (Hv : dval (span_digits (c :: s ++ cstr t)) = n).
  { change (c :: s ++ cstr t) with ((c :: s) ++ cstr t).
    rewrite span_digits_app, <- E by done. apply dec_dval. mlia. }
  ztest. rewrite Hv. unfold clamp_int. lia.
Qed.

#[global] Arguments dec : simpl never.
#[global] Arguments decd : simpl never.
#[global] Arguments lit : simpl never.
#[global] Arguments qlit : simpl never.
#[global] Arguments strncpy_buf : simpl never.
#[global] Arguments strncpy_field : simpl never.
#[global] Arguments snprintf_field : simpl never.
#[global] Arguments snprintf_at : simpl never.
