(* ===== verification/Common.v ===== *)
(** Common: the shared data of include/common.h and the constants of
    src/config.h.

    Each C struct is a record with the fields of the struct in the source's
    order; a [char] array is the list of its bytes (see [CLib.cfield]), an
    integer field a [Z] that the well-formedness predicates keep within its
    width.  The host is little endian (ARMv7), so the 32-bit word of the four
    bytes [b0 b1 b2 b3] of a packet is [le32 b0 b1 b2 b3]. *)

From stdpp Require Import base list strings numbers option.
From Stdlib Require Import Btauto.
From S2P Require Import Prelude CLib.

(** ** Constants *)

Definition CAT_NETWORK : bytes := lit "network".
Definition CAT_IPTV : bytes := lit "iptv".
Definition CAT_DNS : bytes := lit "dns".
Definition CAT_ICMP : bytes := lit "icmp".

Definition EVT_FLOW : bytes := lit "flow".
Definition EVT_CONNECT : bytes := lit "connect".
Definition EVT_DISCONNECT : bytes := lit "disconnect".
Definition EVT_DNS_QUERY : bytes := lit "dns_query".
Definition EVT_DNS_REPLY : bytes := lit "dns_reply".
Definition EVT_ICMP_ECHO : bytes := lit "icmp_echo".

Definition PROTO_TCP : bytes := lit "TCP".
Definition PROTO_UDP : bytes := lit "UDP".
Definition PROTO_ICMP : bytes := lit "ICMP".

Definition PAYLOAD_HTTP_REQ : Z := 1.
Definition PAYLOAD_HTTP_RESP : Z := 2.

Definition ANOMALY_NONE : Z := 0.
Definition ANOMALY_SPIKE : Z := 1.
Definition ANOMALY_SCAN : Z := 2.
Definition ANOMALY_DROP : Z := 3.

Definition TCP_FLAG_SYN : Z := 0x02.
Definition TCP_FLAG_ACK : Z := 0x10.
Definition TCP_FLAG_FIN : Z := 0x01.
Definition TCP_FLAG_RST : Z := 0x04.
Definition TCP_FLAG_PSH : Z := 0x08.
Definition TCP_FLAG_URG : Z := 0x20.

Definition PORT_DNS : Z := 53.
Definition PORT_HTTP : Z := 80.
Definition PORT_HTTPS : Z := 443.

Definition MAX_PROBE_ID : nat := 64.
Definition MAX_FLOWS : Z := 4096.
Definition MAX_JSON_LEN : Z := 8192.

Definition FLOW_CLEANUP_INTERVAL_S : Z := 60.
Definition POLL_INTERVAL_MS : Z := 5000.

(** The protocol numbers of the system headers. *)
Definition IPPROTO_ICMP : Z := 1.
Definition IPPROTO_TCP : Z := 6.
Definition IPPROTO_UDP : Z := 17.
Definition IPPROTO_ICMPV6 : Z := 58.

(** [if (flags & bit)]. *)
Definition has_flag (flags bit : Z) : bool := negb (Z.land flags bit =? 0).

Lemma has_flag_testbit flags k : 0 <= k -> has_flag flags (2 ^ k) = Z.testbit flags k.
Proof.
  intros Hk. unfold has_flag. destruct (Z.testbit flags k) eqn:E.
  - apply negb_true_iff, Z.eqb_neq. intros H. apply (f_equal (fun z => Z.testbit z k)) in H.
    by rewrite Z.land_spec, E, Z.pow2_bits_true, Z.bits_0 in H by lia.
  - apply negb_false_iff, Z.eqb_eq, Z.bits_inj'. intros n Hn.
    rewrite Z.land_spec, Z.bits_0, Z.pow2_bits_eqb by lia.
    destruct (Z.eqb_spec k n) as [<-|]; [by rewrite E|apply andb_false_r].
Qed.

(** ** Flow keys *)

(** [struct flow_key_t] has no padding of its own: the sixteen bytes that
    [memcmp] compares are the seven fields. *)
Record flow_key_t : Type := mk_key {
  k_src_ip : Z;
  k_dst_ip : Z;
  k_src_port : Z;
  k_dst_port : Z;
  k_protocol : Z;
  k_ip_version : Z;
  k_pad : Z
}.

#[export] Instance flow_key_eq_dec : EqDecision flow_key_t.
Proof. solve_decision. Defined.

(** [memcmp(a, b, sizeof *a) == 0]. *)
Definition key_eqb (a b : flow_key_t) : bool := bool_decide (a = b).

Lemma key_eqb_eq a b : key_eqb a b = true <-> a = b.
Proof. apply bool_decide_eq_true. Qed.
Lemma key_eqb_neq a b : key_eqb a b = false <-> a <> b.
Proof. apply bool_decide_eq_false. Qed.
Lemma key_eqb_refl a : key_eqb a a = true.
Proof. by apply key_eqb_eq. Qed.

(** ** Flow counters *)

(** [struct flow_value_t]: the counters of one flow. *)
Record flow_value_t : Type := mk_value {
  v_bytes : Z;
  v_packets : Z;
  v_first_seen_ns : Z;
  v_last_seen_ns : Z;
  v_pid : Z;
  v_comm : bytes;
  v_max_pkt_size : Z;
  v_min_pkt_size : Z;
  v_tcp_flags_seen : Z;
  v_retransmits : Z;
  v_dup_acks : Z;
  v_out_of_order : Z;
  v_seq_expected : Z
}.

Definition set_v_bytes (v : Z) (r : flow_value_t) : flow_value_t :=
    mk_value v (v_packets r) (v_first_seen_ns r) (v_last_seen_ns r) (v_pid r) (v_comm r)
    (v_max_pkt_size r) (v_min_pkt_size r) (v_tcp_flags_seen r) (v_retransmits r) (v_dup_acks r)
    (v_out_of_order r) (v_seq_expected r).
Definition set_v_packets (v : Z) (r : flow_value_t) : flow_value_t :=
    mk_value (v_bytes r) v (v_first_seen_ns r) (v_last_seen_ns r) (v_pid r) (v_comm r)
    (v_max_pkt_size r) (v_min_pkt_size r) (v_tcp_flags_seen r) (v_retransmits r) (v_dup_acks r)
    (v_out_of_order r) (v_seq_expected r).
Definition set_v_first_seen_ns (v : Z) (r : flow_value_t) : flow_value_t :=
    mk_value (v_bytes r) (v_packets r) v (v_last_seen_ns r) (v_pid r) (v_comm r) (v_max_pkt_size
    r) (v_min_pkt_size r) (v_tcp_flags_seen r) (v_retransmits r) (v_dup_acks r) (v_out_of_order
    r) (v_seq_expected r).
Definition set_v_last_seen_ns (v : Z) (r : flow_value_t) : flow_value_t :=
    mk_value (v_bytes r) (v_packets r) (v_first_seen_ns r) v (v_pid r) (v_comm r)
    (v_max_pkt_size r) (v_min_pkt_size r) (v_tcp_flags_seen r) (v_retransmits r) (v_dup_acks r)
    (v_out_of_order r) (v_seq_expected r).
Definition set_v_retransmits (v : Z) (r : flow_value_t) : flow_value_t :=
    mk_value (v_bytes r) (v_packets r) (v_first_seen_ns r) (v_last_seen_ns r) (v_pid r) (v_comm
    r) (v_max_pkt_size r) (v_min_pkt_size r) (v_tcp_flags_seen r) v (v_dup_acks r)
    (v_out_of_order r) (v_seq_expected r).
Definition set_v_dup_acks (v : Z) (r : flow_value_t) : flow_value_t :=
    mk_value (v_bytes r) (v_packets r) (v_first_seen_ns r) (v_last_seen_ns r) (v_pid r) (v_comm
    r) (v_max_pkt_size r) (v_min_pkt_size r) (v_tcp_flags_seen r) (v_retransmits r) v
    (v_out_of_order r) (v_seq_expected r).
Definition set_v_seq_expected (v : Z) (r : flow_value_t) : flow_value_t :=
    mk_value (v_bytes r) (v_packets r) (v_first_seen_ns r) (v_last_seen_ns r) (v_pid r) (v_comm
    r) (v_max_pkt_size r) (v_min_pkt_size r) (v_tcp_flags_seen r) (v_retransmits r) (v_dup_acks
    r) (v_out_of_order r) v.


Definition zero_value : flow_value_t :=
  mk_value 0 0 0 0 0 (replicate 16 0) 0 0 0 0 0 0 0.

(** ** Events *)

(** [struct flow_event_t]: one record of the report. *)
Record flow_event_t : Type := mk_event {
  e_timestamp_ns : Z;
  e_probe_id : bytes;
  e_category : bytes;
  e_event_type : bytes;
  e_src_ip : Z;
  e_dst_ip : Z;
  e_src_port : Z;
  e_dst_port : Z;
  e_protocol : bytes;
  e_ip_version : Z;
  e_tcp_flags : Z;
  e_payload_type : Z;
  e_anomaly : Z;
  e_pkt_len : Z;
  e_bytes : Z;
  e_packets : Z;
  e_latency_us : Z;
  e_bandwidth_bps : Z;
  e_retransmits : Z;
  e_dup_acks : Z;
  e_pid : Z;
  e_service : bytes;
  e_details : bytes;
  e_tags : bytes
}.

Definition set_e_timestamp_ns (v : Z) (r : flow_event_t) : flow_event_t :=
    mk_event v (e_probe_id r) (e_category r) (e_event_type r) (e_src_ip r) (e_dst_ip r)
    (e_src_port r) (e_dst_port r) (e_protocol r) (e_ip_version r) (e_tcp_flags r)
    (e_payload_type r) (e_anomaly r) (e_pkt_len r) (e_bytes r) (e_packets r) (e_latency_us r)
    (e_bandwidth_bps r) (e_retransmits r) (e_dup_acks r) (e_pid r) (e_service r) (e_details r)
    (e_tags r).
Definition set_e_probe_id (v : bytes) (r : flow_event_t) : flow_event_t :=
    mk_event (e_timestamp_ns r) v (e_category r) (e_event_type r) (e_src_ip r) (e_dst_ip r)
    (e_src_port r) (e_dst_port r) (e_protocol r) (e_ip_version r) (e_tcp_flags r)
    (e_payload_type r) (e_anomaly r) (e_pkt_len r) (e_bytes r) (e_packets r) (e_latency_us r)
    (e_bandwidth_bps r) (e_retransmits r) (e_dup_acks r) (e_pid r) (e_service r) (e_details r)
    (e_tags r).
Definition set_e_category (v : bytes) (r : flow_event_t) : flow_event_t :=
    mk_event (e_timestamp_ns r) (e_probe_id r) v (e_event_type r) (e_src_ip r) (e_dst_ip r)
    (e_src_port r) (e_dst_port r) (e_protocol r) (e_ip_version r) (e_tcp_flags r)
    (e_payload_type r) (e_anomaly r) (e_pkt_len r) (e_bytes r) (e_packets r) (e_latency_us r)
    (e_bandwidth_bps r) (e_retransmits r) (e_dup_acks r) (e_pid r) (e_service r) (e_details r)
    (e_tags r).
Definition set_e_event_type (v : bytes) (r : flow_event_t) : flow_event_t :=
    mk_event (e_timestamp_ns r) (e_probe_id r) (e_category r) v (e_src_ip r) (e_dst_ip r)
    (e_src_port r) (e_dst_port r) (e_protocol r) (e_ip_version r) (e_tcp_flags r)
    (e_payload_type r) (e_anomaly r) (e_pkt_len r) (e_bytes r) (e_packets r) (e_latency_us r)
    (e_bandwidth_bps r) (e_retransmits r) (e_dup_acks r) (e_pid r) (e_service r) (e_details r)
    (e_tags r).
Definition set_e_src_ip (v : Z) (r : flow_event_t) : flow_event_t :=
    mk_event (e_timestamp_ns r) (e_probe_id r) (e_category r) (e_event_type r) v (e_dst_ip r)
    (e_src_port r) (e_dst_port r) (e_protocol r) (e_ip_version r) (e_tcp_flags r)
    (e_payload_type r) (e_anomaly r) (e_pkt_len r) (e_bytes r) (e_packets r) (e_latency_us r)
    (e_bandwidth_bps r) (e_retransmits r) (e_dup_acks r) (e_pid r) (e_service r) (e_details r)
    (e_tags r).
Definition set_e_dst_ip (v : Z) (r : flow_event_t) : flow_event_t :=
    mk_event (e_timestamp_ns r) (e_probe_id r) (e_category r) (e_event_type r) (e_src_ip r) v
    (e_src_port r) (e_dst_port r) (e_protocol r) (e_ip_version r) (e_tcp_flags r)
    (e_payload_type r) (e_anomaly r) (e_pkt_len r) (e_bytes r) (e_packets r) (e_latency_us r)
    (e_bandwidth_bps r) (e_retransmits r) (e_dup_acks r) (e_pid r) (e_service r) (e_details r)
    (e_tags r).
Definition set_e_src_port (v : Z) (r : flow_event_t) : flow_event_t :=
    mk_event (e_timestamp_ns r) (e_probe_id r) (e_category r) (e_event_type r) (e_src_ip r)
    (e_dst_ip r) v (e_dst_port r) (e_protocol r) (e_ip_version r) (e_tcp_flags r)
    (e_payload_type r) (e_anomaly r) (e_pkt_len r) (e_bytes r) (e_packets r) (e_latency_us r)
    (e_bandwidth_bps r) (e_retransmits r) (e_dup_acks r) (e_pid r) (e_service r) (e_details r)
    (e_tags r).
Definition set_e_dst_port (v : Z) (r : flow_event_t) : flow_event_t :=
    mk_event (e_timestamp_ns r) (e_probe_id r) (e_category r) (e_event_type r) (e_src_ip r)
    (e_dst_ip r) (e_src_port r) v (e_protocol r) (e_ip_version r) (e_tcp_flags r)
    (e_payload_type r) (e_anomaly r) (e_pkt_len r) (e_bytes r) (e_packets r) (e_latency_us r)
    (e_bandwidth_bps r) (e_retransmits r) (e_dup_acks r) (e_pid r) (e_service r) (e_details r)
    (e_tags r).
Definition set_e_protocol (v : bytes) (r : flow_event_t) : flow_event_t :=
    mk_event (e_timestamp_ns r) (e_probe_id r) (e_category r) (e_event_type r) (e_src_ip r)
    (e_dst_ip r) (e_src_port r) (e_dst_port r) v (e_ip_version r) (e_tcp_flags r)
    (e_payload_type r) (e_anomaly r) (e_pkt_len r) (e_bytes r) (e_packets r) (e_latency_us r)
    (e_bandwidth_bps r) (e_retransmits r) (e_dup_acks r) (e_pid r) (e_service r) (e_details r)
    (e_tags r).
Definition set_e_ip_version (v : Z) (r : flow_event_t) : flow_event_t :=
    mk_event (e_timestamp_ns r) (e_probe_id r) (e_category r) (e_event_type r) (e_src_ip r)
    (e_dst_ip r) (e_src_port r) (e_dst_port r) (e_protocol r) v (e_tcp_flags r) (e_payload_type
    r) (e_anomaly r) (e_pkt_len r) (e_bytes r) (e_packets r) (e_latency_us r) (e_bandwidth_bps
    r) (e_retransmits r) (e_dup_acks r) (e_pid r) (e_service r) (e_details r) (e_tags r).
Definition set_e_tcp_flags (v : Z) (r : flow_event_t) : flow_event_t :=
    mk_event (e_timestamp_ns r) (e_probe_id r) (e_category r) (e_event_type r) (e_src_ip r)
    (e_dst_ip r) (e_src_port r) (e_dst_port r) (e_protocol r) (e_ip_version r) v (e_payload_type
    r) (e_anomaly r) (e_pkt_len r) (e_bytes r) (e_packets r) (e_latency_us r) (e_bandwidth_bps
    r) (e_retransmits r) (e_dup_acks r) (e_pid r) (e_service r) (e_details r) (e_tags r).
Definition set_e_payload_type (v : Z) (r : flow_event_t) : flow_event_t :=
    mk_event (e_timestamp_ns r) (e_probe_id r) (e_category r) (e_event_type r) (e_src_ip r)
    (e_dst_ip r) (e_src_port r) (e_dst_port r) (e_protocol r) (e_ip_version r) (e_tcp_flags r) v
    (e_anomaly r) (e_pkt_len r) (e_bytes r) (e_packets r) (e_latency_us r) (e_bandwidth_bps r)
    (e_retransmits r) (e_dup_acks r) (e_pid r) (e_service r) (e_details r) (e_tags r).
Definition set_e_anomaly (v : Z) (r : flow_event_t) : flow_event_t :=
    mk_event (e_timestamp_ns r) (e_probe_id r) (e_category r) (e_event_type r) (e_src_ip r)
    (e_dst_ip r) (e_src_port r) (e_dst_port r) (e_protocol r) (e_ip_version r) (e_tcp_flags r)
    (e_payload_type r) v (e_pkt_len r) (e_bytes r) (e_packets r) (e_latency_us r)
    (e_bandwidth_bps r) (e_retransmits r) (e_dup_acks r) (e_pid r) (e_service r) (e_details r)
    (e_tags r).
Definition set_e_pkt_len (v : Z) (r : flow_event_t) : flow_event_t :=
    mk_event (e_timestamp_ns r) (e_probe_id r) (e_category r) (e_event_type r) (e_src_ip r)
    (e_dst_ip r) (e_src_port r) (e_dst_port r) (e_protocol r) (e_ip_version r) (e_tcp_flags r)
    (e_payload_type r) (e_anomaly r) v (e_bytes r) (e_packets r) (e_latency_us r)
    (e_bandwidth_bps r) (e_retransmits r) (e_dup_acks r) (e_pid r) (e_service r) (e_details r)
    (e_tags r).
Definition set_e_bytes (v : Z) (r : flow_event_t) : flow_event_t :=
    mk_event (e_timestamp_ns r) (e_probe_id r) (e_category r) (e_event_type r) (e_src_ip r)
    (e_dst_ip r) (e_src_port r) (e_dst_port r) (e_protocol r) (e_ip_version r) (e_tcp_flags r)
    (e_payload_type r) (e_anomaly r) (e_pkt_len r) v (e_packets r) (e_latency_us r)
    (e_bandwidth_bps r) (e_retransmits r) (e_dup_acks r) (e_pid r) (e_service r) (e_details r)
    (e_tags r).
Definition set_e_packets (v : Z) (r : flow_event_t) : flow_event_t :=
    mk_event (e_timestamp_ns r) (e_probe_id r) (e_category r) (e_event_type r) (e_src_ip r)
    (e_dst_ip r) (e_src_port r) (e_dst_port r) (e_protocol r) (e_ip_version r) (e_tcp_flags r)
    (e_payload_type r) (e_anomaly r) (e_pkt_len r) (e_bytes r) v (e_latency_us r)
    (e_bandwidth_bps r) (e_retransmits r) (e_dup_acks r) (e_pid r) (e_service r) (e_details r)
    (e_tags r).
Definition set_e_latency_us (v : Z) (r : flow_event_t) : flow_event_t :=
    mk_event (e_timestamp_ns r) (e_probe_id r) (e_category r) (e_event_type r) (e_src_ip r)
    (e_dst_ip r) (e_src_port r) (e_dst_port r) (e_protocol r) (e_ip_version r) (e_tcp_flags r)
    (e_payload_type r) (e_anomaly r) (e_pkt_len r) (e_bytes r) (e_packets r) v (e_bandwidth_bps
    r) (e_retransmits r) (e_dup_acks r) (e_pid r) (e_service r) (e_details r) (e_tags r).
Definition set_e_bandwidth_bps (v : Z) (r : flow_event_t) : flow_event_t :=
    mk_event (e_timestamp_ns r) (e_probe_id r) (e_category r) (e_event_type r) (e_src_ip r)
    (e_dst_ip r) (e_src_port r) (e_dst_port r) (e_protocol r) (e_ip_version r) (e_tcp_flags r)
    (e_payload_type r) (e_anomaly r) (e_pkt_len r) (e_bytes r) (e_packets r) (e_latency_us r) v
    (e_retransmits r) (e_dup_acks r) (e_pid r) (e_service r) (e_details r) (e_tags r).
Definition set_e_retransmits (v : Z) (r : flow_event_t) : flow_event_t :=
    mk_event (e_timestamp_ns r) (e_probe_id r) (e_category r) (e_event_type r) (e_src_ip r)
    (e_dst_ip r) (e_src_port r) (e_dst_port r) (e_protocol r) (e_ip_version r) (e_tcp_flags r)
    (e_payload_type r) (e_anomaly r) (e_pkt_len r) (e_bytes r) (e_packets r) (e_latency_us r)
    (e_bandwidth_bps r) v (e_dup_acks r) (e_pid r) (e_service r) (e_details r) (e_tags r).
Definition set_e_dup_acks (v : Z) (r : flow_event_t) : flow_event_t :=
    mk_event (e_timestamp_ns r) (e_probe_id r) (e_category r) (e_event_type r) (e_src_ip r)
    (e_dst_ip r) (e_src_port r) (e_dst_port r) (e_protocol r) (e_ip_version r) (e_tcp_flags r)
    (e_payload_type r) (e_anomaly r) (e_pkt_len r) (e_bytes r) (e_packets r) (e_latency_us r)
    (e_bandwidth_bps r) (e_retransmits r) v (e_pid r) (e_service r) (e_details r) (e_tags r).
Definition set_e_pid (v : Z) (r : flow_event_t) : flow_event_t :=
    mk_event (e_timestamp_ns r) (e_probe_id r) (e_category r) (e_event_type r) (e_src_ip r)
    (e_dst_ip r) (e_src_port r) (e_dst_port r) (e_protocol r) (e_ip_version r) (e_tcp_flags r)
    (e_payload_type r) (e_anomaly r) (e_pkt_len r) (e_bytes r) (e_packets r) (e_latency_us r)
    (e_bandwidth_bps r) (e_retransmits r) (e_dup_acks r) v (e_service r) (e_details r) (e_tags
    r).
Definition set_e_service (v : bytes) (r : flow_event_t) : flow_event_t :=
    mk_event (e_timestamp_ns r) (e_probe_id r) (e_category r) (e_event_type r) (e_src_ip r)
    (e_dst_ip r) (e_src_port r) (e_dst_port r) (e_protocol r) (e_ip_version r) (e_tcp_flags r)
    (e_payload_type r) (e_anomaly r) (e_pkt_len r) (e_bytes r) (e_packets r) (e_latency_us r)
    (e_bandwidth_bps r) (e_retransmits r) (e_dup_acks r) (e_pid r) v (e_details r) (e_tags r).
Definition set_e_details (v : bytes) (r : flow_event_t) : flow_event_t :=
    mk_event (e_timestamp_ns r) (e_probe_id r) (e_category r) (e_event_type r) (e_src_ip r)
    (e_dst_ip r) (e_src_port r) (e_dst_port r) (e_protocol r) (e_ip_version r) (e_tcp_flags r)
    (e_payload_type r) (e_anomaly r) (e_pkt_len r) (e_bytes r) (e_packets r) (e_latency_us r)
    (e_bandwidth_bps r) (e_retransmits r) (e_dup_acks r) (e_pid r) (e_service r) v (e_tags r).
Definition set_e_tags (v : bytes) (r : flow_event_t) : flow_event_t :=
    mk_event (e_timestamp_ns r) (e_probe_id r) (e_category r) (e_event_type r) (e_src_ip r)
    (e_dst_ip r) (e_src_port r) (e_dst_port r) (e_protocol r) (e_ip_version r) (e_tcp_flags r)
    (e_payload_type r) (e_anomaly r) (e_pkt_len r) (e_bytes r) (e_packets r) (e_latency_us r)
    (e_bandwidth_bps r) (e_retransmits r) (e_dup_acks r) (e_pid r) (e_service r) (e_details r)
    v.

(** [struct flow_event_t ev = {0}]. *)
Definition zero_event : flow_event_t :=
  mk_event 0 (replicate MAX_PROBE_ID 0) (replicate 16 0) (replicate 16 0) 0 0 0 0
    (replicate 8 0) 0 0 0 0 0 0 0 0 0 0 0 0
    (replicate 32 0) (replicate 128 0) (replicate 64 0).

(** The text fields have their declared size and end in a NUL. *)
Record event_text_ok (e : flow_event_t) : Prop := {
  eto_probe_id : cfield 64 (e_probe_id e);
  eto_category : cfield 16 (e_category e);
  eto_event_type : cfield 16 (e_event_type e);
  eto_protocol : cfield 8 (e_protocol e);
  eto_service : cfield 32 (e_service e);
  eto_details : cfield 128 (e_details e);
  eto_tags : cfield 64 (e_tags e)
}.

(** The integer fields are within their widths. *)
Record event_ints_ok (e : flow_event_t) : Prop := {
  eio_timestamp : is_u64 (e_timestamp_ns e);
  eio_src_ip : is_u32 (e_src_ip e);
  eio_dst_ip : is_u32 (e_dst_ip e);
  eio_src_port : is_u16 (e_src_port e);
  eio_dst_port : is_u16 (e_dst_port e);
  eio_ip_version : is_u8 (e_ip_version e);
  eio_tcp_flags : is_u8 (e_tcp_flags e);
  eio_payload_type : is_u8 (e_payload_type e);
  eio_anomaly : is_u8 (e_anomaly e);
  eio_pkt_len : is_u16 (e_pkt_len e);
  eio_bytes : is_u64 (e_bytes e);
  eio_packets : is_u64 (e_packets e);
  eio_latency : is_u64 (e_latency_us e);
  eio_bandwidth : is_u64 (e_bandwidth_bps e);
  eio_retransmits : is_u32 (e_retransmits e);
  eio_dup_acks : is_u32 (e_dup_acks e);
  eio_pid : is_u32 (e_pid e)
}.

Definition event_ok (e : flow_event_t) : Prop := event_text_ok e /\ event_ints_ok e.

Lemma zero_event_ok : event_ok zero_event.
Proof.
  split; constructor; simpl; try apply cfield_zeros; mlia.
Qed.

#[global] Arguments zero_event : simpl never.

(** The two idioms that fill a text field: [strncpy(e->f, s, sizeof(e->f) - 1)]
    and [snprintf(e->f, sizeof(e->f), ...)]. *)
Definition put_probe_id (s : bytes) (e : flow_event_t) : flow_event_t :=
  set_e_probe_id (strncpy_field (e_probe_id e) s) e.
Definition put_category (s : bytes) (e : flow_event_t) : flow_event_t :=
  set_e_category (strncpy_field (e_category e) s) e.
Definition put_event_type (s : bytes) (e : flow_event_t) : flow_event_t :=
  set_e_event_type (strncpy_field (e_event_type e) s) e.
Definition put_protocol (s : bytes) (e : flow_event_t) : flow_event_t :=
  set_e_protocol (strncpy_field (e_protocol e) s) e.
Definition put_service (s : bytes) (e : flow_event_t) : flow_event_t :=
  set_e_service (strncpy_field (e_service e) s) e.
Definition put_details (s : bytes) (e : flow_event_t) : flow_event_t :=
  set_e_details (strncpy_field (e_details e) s) e.
Definition put_tags (s : bytes) (e : flow_event_t) : flow_event_t :=
  set_e_tags (strncpy_field (e_tags e) s) e.
Definition print_protocol (s : bytes) (e : flow_event_t) : flow_event_t :=
  set_e_protocol (snprintf_field (e_protocol e) s) e.
Definition print_details (s : bytes) (e : flow_event_t) : flow_event_t :=
  set_e_details (snprintf_field (e_details e) s) e.

(** Each update keeps the text fields terminated; an update of an integer
    field keeps the integers in range when the new value is. *)
Section event_updates.
Implicit Types (e : flow_event_t) (s : bytes) (z : Z).

Lemma put_probe_id_ok s e : event_ok e -> event_ok (put_probe_id s e).
Proof. intros [[] []]. split; constructor; simpl; auto with stb. Qed.
Lemma put_category_ok s e : event_ok e -> event_ok (put_category s e).
Proof. intros [[] []]. split; constructor; simpl; auto with stb. Qed.
Lemma put_event_type_ok s e : event_ok e -> event_ok (put_event_type s e).
Proof. intros [[] []]. split; constructor; simpl; auto with stb. Qed.
Lemma put_protocol_ok s e : event_ok e -> event_ok (put_protocol s e).
Proof. intros [[] []]. split; constructor; simpl; auto with stb. Qed.
Lemma put_service_ok s e : event_ok e -> event_ok (put_service s e).
Proof. intros [[] []]. split; constructor; simpl; auto with stb. Qed.
Lemma put_details_ok s e : event_ok e -> event_ok (put_details s e).
Proof. intros [[] []]. split; constructor; simpl; auto with stb. Qed.
Lemma put_tags_ok s e : event_ok e -> event_ok (put_tags s e).
Proof. intros [[] []]. split; constructor; simpl; auto with stb. Qed.
Lemma print_protocol_ok s e : event_ok e -> event_ok (print_protocol s e).
Proof. intros [[] []]. split; constructor; simpl; auto with stb. Qed.
Lemma print_details_ok s e : event_ok e -> event_ok (print_details s e).
Proof. intros [[] []]. split; constructor; simpl; auto with stb. Qed.
Lemma set_timestamp_ns_ok z e : is_u64 z -> event_ok e -> event_ok (set_e_timestamp_ns z e).
Proof. intros ? [[] []]. split; constructor; simpl; auto. Qed.
Lemma set_src_ip_ok z e : is_u32 z -> event_ok e -> event_ok (set_e_src_ip z e).
Proof. intros ? [[] []]. split; constructor; simpl; auto. Qed.
Lemma set_dst_ip_ok z e : is_u32 z -> event_ok e -> event_ok (set_e_dst_ip z e).
Proof. intros ? [[] []]. split; constructor; simpl; auto. Qed.
Lemma set_src_port_ok z e : is_u16 z -> event_ok e -> event_ok (set_e_src_port z e).
Proof. intros ? [[] []]. split; constructor; simpl; auto. Qed.
Lemma set_dst_port_ok z e : is_u16 z -> event_ok e -> event_ok (set_e_dst_port z e).
Proof. intros ? [[] []]. split; constructor; simpl; auto. Qed.
Lemma set_ip_version_ok z e : is_u8 z -> event_ok e -> event_ok (set_e_ip_version z e).
Proof. intros ? [[] []]. split; constructor; simpl; auto. Qed.
Lemma set_tcp_flags_ok z e : is_u8 z -> event_ok e -> event_ok (set_e_tcp_flags z e).
Proof. intros ? [[] []]. split; constructor; simpl; auto. Qed.
Lemma set_payload_type_ok z e : is_u8 z -> event_ok e -> event_ok (set_e_payload_type z e).
Proof. intros ? [[] []]. split; constructor; simpl; auto. Qed.
Lemma set_anomaly_ok z e : is_u8 z -> event_ok e -> event_ok (set_e_anomaly z e).
Proof. intros ? [[] []]. split; constructor; simpl; auto. Qed.
Lemma set_pkt_len_ok z e : is_u16 z -> event_ok e -> event_ok (set_e_pkt_len z e).
Proof. intros ? [[] []]. split; constructor; simpl; auto. Qed.
Lemma set_bytes_ok z e : is_u64 z -> event_ok e -> event_ok (set_e_bytes z e).
Proof. intros ? [[] []]. split; constructor; simpl; auto. Qed.
Lemma set_packets_ok z e : is_u64 z -> event_ok e -> event_ok (set_e_packets z e).
Proof. intros ? [[] []]. split; constructor; simpl; auto. Qed.
Lemma set_latency_us_ok z e : is_u64 z -> event_ok e -> event_ok (set_e_latency_us z e).
Proof. intros ? [[] []]. split; constructor; simpl; auto. Qed.
Lemma set_bandwidth_bps_ok z e : is_u64 z -> event_ok e -> event_ok (set_e_bandwidth_bps z e).
Proof. intros ? [[] []]. split; constructor; simpl; auto. Qed.
Lemma set_retransmits_ok z e : is_u32 z -> event_ok e -> event_ok (set_e_retransmits z e).
Proof. intros ? [[] []]. split; constructor; simpl; auto. Qed.
Lemma set_dup_acks_ok z e : is_u32 z -> event_ok e -> event_ok (set_e_dup_acks z e).
Proof. intros ? [[] []]. split; constructor; simpl; auto. Qed.
Lemma set_pid_ok z e : is_u32 z -> event_ok e -> event_ok (set_e_pid z e).
Proof. intros ? [[] []]. split; constructor; simpl; auto. Qed.
End event_updates.

#[export] Hint Resolve
  put_probe_id_ok put_category_ok put_event_type_ok put_protocol_ok put_service_ok
  put_details_ok put_tags_ok print_protocol_ok print_details_ok set_timestamp_ns_ok
  set_src_ip_ok set_dst_ip_ok set_src_port_ok set_dst_port_ok set_ip_version_ok
  set_tcp_flags_ok set_payload_type_ok set_anomaly_ok set_pkt_len_ok set_bytes_ok
  set_packets_ok set_latency_us_ok set_bandwidth_bps_ok set_retransmits_ok set_dup_acks_ok
  set_pid_ok
  zero_event_ok : stb.

(** ** Entries of /proc/net *)

Record proc_net_entry : Type := mk_entry {
  p_local_ip : Z;
  p_local_port : Z;
  p_remote_ip : Z;
  p_remote_port : Z;
  p_state : Z;
  p_protocol : Z;
  p_ip_version : Z;
  p_rx_queue : Z;
  p_tx_queue : Z;
  p_uid : Z;
  p_inode : Z
}.

(** ** Addresses *)

(** Loads of a little-endian host, and network-order loads. *)
Definition le16 (b0 b1 : Z) : Z := Z.lor b0 (Z.shiftl b1 8).
Definition le32 (b0 b1 b2 b3 : Z) : Z :=
  Z.lor b0 (Z.lor (Z.shiftl b1 8) (Z.lor (Z.shiftl b2 16) (Z.shiftl b3 24))).
Definition be16 (b0 b1 : Z) : Z := Z.lor (Z.shiftl b0 8) b1.
Definition be32 (b0 b1 b2 b3 : Z) : Z :=
  Z.lor (Z.shiftl b0 24) (Z.lor (Z.shiftl b1 16) (Z.lor (Z.shiftl b2 8) b3)).

(** Byte [i] of the memory image of a word. *)
Definition byte_of (w : Z) (i : Z) : Z := Z.land (Z.shiftr w (8 * i)) 0xFF.

Definition IS_MULTICAST (ip : Z) : bool := Z.land ip 0xF0000000 =? 0xE0000000.
Definition IS_LOOPBACK (ip : Z) : bool := Z.land ip 0xFF000000 =? 0x7F000000.

(** The text of [snprintf(buf, buflen, "%d.%d.%d.%d", b[0], b[1], b[2], b[3])]. *)
Definition ip_to_str (ip : Z) : bytes :=
  dec (byte_of ip 0) ++ lit "." ++ dec (byte_of ip 1) ++ lit "." ++
  dec (byte_of ip 2) ++ lit "." ++ dec (byte_of ip 3).

Lemma byte_of_range w i : is_byte (byte_of w i).
Proof.
  unfold byte_of, is_byte. change 0xFF with (Z.ones 8). rewrite Z.land_ones by lia.
  apply Z.mod_pos_bound. lia.
Qed.

(** A dotted quad takes at most 15 characters: with its NUL it fits the
    [char[16]] of the serializer. *)
Lemma ip_to_str_length ip : (length (ip_to_str ip) <= 15)%nat.
Proof.
  unfold ip_to_str. rewrite !length_app. change (length (lit ".")) with 1%nat.
  assert (forall i, (length (dec (byte_of ip i)) <= 3)%nat).
  { intros i. apply dec_length; [lia|]. pose proof (byte_of_range ip i).
    unfold is_byte in *. change (10 ^ Z.of_nat 3) with 1000. lia. }
  pose proof (H 0). pose proof (H 1). pose proof (H 2). pose proof (H 3). lia.
Qed.

(** ** Words from bytes *)

Lemma lor_shiftl (lo hi k : Z) : 0 <= k -> 0 <= lo < 2 ^ k -> Z.lor lo (Z.shiftl hi k) = lo + hi * 2 ^ k.
Proof.
  revert lo hi k. intros a b n Hn Ha. rewrite <- Z.add_nocarry_lor; [by rewrite Z.shiftl_mul_pow2|].
  apply Z.bits_inj'. intros i Hi. rewrite Z.land_spec, Z.bits_0, Z.shiftl_spec by done.
  destruct (Z.lt_ge_cases i n).
  - by rewrite (Z.testbit_neg_r b), andb_false_r by lia.
  - destruct (Z.eq_dec a 0) as [->|]; [by rewrite Z.bits_0|].
    rewrite (Z.bits_above_log2 a); [done|lia|].
    assert (Z.log2 a < n) by (apply Z.log2_lt_pow2; lia). lia.
Qed.

Lemma be16_val b0 b1 : is_byte b1 -> be16 b0 b1 = b0 * 256 + b1.
Proof. intros H. unfold be16. rewrite Z.lor_comm, lor_shiftl by (unfold is_byte in *; lia). lia. Qed.

Lemma le32_val b0 b1 b2 b3 :
  is_byte b0 -> is_byte b1 -> is_byte b2 ->
  le32 b0 b1 b2 b3 = b0 + b1 * 2 ^ 8 + b2 * 2 ^ 16 + b3 * 2 ^ 24.
Proof.
  unfold is_byte, le32. intros H0 H1 H2.
  rewrite !Z.lor_assoc. rewrite (lor_shiftl b0 b1 8) by lia.
  rewrite (lor_shiftl _ b2 16) by lia. rewrite (lor_shiftl _ b3 24) by lia. lia.
Qed.

Lemma be16_range b0 b1 : is_byte b0 -> is_byte b1 -> is_u16 (be16 b0 b1).
Proof. intros. rewrite be16_val by done. unfold is_byte in *. mlia. Qed.

Lemma le32_range b0 b1 b2 b3 :
  is_byte b0 -> is_byte b1 -> is_byte b2 -> is_byte b3 -> is_u32 (le32 b0 b1 b2 b3).
Proof. intros. rewrite le32_val by done. unfold is_byte in *. mlia. Qed.

Lemma be32_val b0 b1 b2 b3 :
  is_byte b1 -> is_byte b2 -> is_byte b3 ->
  be32 b0 b1 b2 b3 = b0 * 2 ^ 24 + b1 * 2 ^ 16 + b2 * 2 ^ 8 + b3.
Proof.
  intros H1 H2 H3. replace (be32 b0 b1 b2 b3) with (le32 b3 b2 b1 b0).
  { rewrite le32_val by done. lia. }
  unfold be32, le32. apply Z.bits_inj. intros n. rewrite !Z.lor_spec. btauto.
Qed.

Lemma be32_range b0 b1 b2 b3 :
  is_byte b0 -> is_byte b1 -> is_byte b2 -> is_byte b3 -> is_u32 (be32 b0 b1 b2 b3).
Proof. intros. rewrite be32_val by done. unfold is_byte in *. mlia. Qed.

Lemma land_range n a b : 0 <= n -> 0 <= a < 2 ^ n -> 0 <= Z.land a b < 2 ^ n.
Proof.
  intros Hn Ha. split; [apply Z.land_nonneg; lia|].
  rewrite <- (Z.mod_small a (2 ^ n)), <- Z.land_ones by lia.
  rewrite <- Z.land_assoc, (Z.land_comm _ b), Z.land_assoc, Z.land_ones by lia.
  apply Z.mod_pos_bound. lia.
Qed.

Lemma land_ones_shiftl w m k :
  0 <= k -> 0 <= m -> Z.land w (Z.shiftl (Z.ones m) k) = (w / 2 ^ k) mod 2 ^ m * 2 ^ k.
Proof.
  intros Hk Hm. rewrite <- Z.shiftl_mul_pow2, <- Z.land_ones, <- Z.shiftr_div_pow2 by done.
  apply Z.bits_inj'. intros i Hi. rewrite Z.land_spec, !Z.shiftl_spec by done.
  destruct (Z.lt_ge_cases i k).
  - by rewrite !(Z.testbit_neg_r _ (i - k)), andb_false_r by lia.
  - rewrite Z.land_spec, Z.shiftr_spec by lia. by replace (i - k + k) with i by lia.
Qed.

Lemma byte_of_val w i : 0 <= i -> byte_of w i = (w / 2 ^ (8 * i)) mod 2 ^ 8.
Proof.
  intros Hi. unfold byte_of. change 0xFF with (Z.ones 8).
  by rewrite Z.land_ones, Z.shiftr_div_pow2 by lia.
Qed.

(** The memory image of a word, loaded back. *)
Lemma le32_byte_of w : is_u32 w -> le32 (byte_of w 0) (byte_of w 1) (byte_of w 2) (byte_of w 3) = w.
Proof.
  intros Hw. rewrite le32_val by apply byte_of_range. rewrite !byte_of_val by lia.
  unfold is_u32 in Hw. Z.div_mod_to_equations. lia.
Qed.

Lemma byte_of_le32 b0 b1 b2 b3 :
  is_byte b0 -> is_byte b1 -> is_byte b2 -> is_byte b3 ->
  byte_of (le32 b0 b1 b2 b3) 0 = b0 /\ byte_of (le32 b0 b1 b2 b3) 1 = b1 /\
  byte_of (le32 b0 b1 b2 b3) 2 = b2 /\ byte_of (le32 b0 b1 b2 b3) 3 = b3.
Proof.
  intros. rewrite le32_val, !byte_of_val by (done || lia). unfold is_byte in *.
  change (8 * 0) with 0. change (8 * 1) with 8. change (8 * 2) with 16. change (8 * 3) with 24.
  repeat split; Z.div_mod_to_equations; lia.
Qed.

(** The two halves of a port in network order. *)
Definition enc16 (p : Z) : bytes := [p / 256; p mod 256].

Lemma be16_enc16 p : is_u16 p -> be16 (p / 256) (p mod 256) = p.
Proof.
  intros H. rewrite be16_val by (apply Z.mod_pos_bound; lia).
  pose proof (Z.div_mod p 256). lia.
Qed.

(** On a little-endian host [IS_MULTICAST] looks at the last octet of the
    dotted quad, not at the first. *)
Lemma IS_MULTICAST_octet b0 b1 b2 b3 :
  is_byte b0 -> is_byte b1 -> is_byte b2 -> is_byte b3 ->
  IS_MULTICAST (le32 b0 b1 b2 b3) = (224 <=? b3) && (b3 <=? 239).
Proof.
  unfold is_byte. intros H0 H1 H2 H3. unfold IS_MULTICAST.
  change 0xF0000000 with (Z.shiftl (Z.ones 4) 28).
  rewrite land_ones_shiftl, le32_val by (unfold is_byte; lia).
  set (w := b0 + _ + _ + _). assert (Hq : (w / 2 ^ 28) mod 2 ^ 4 = b3 / 16).
  { subst w. Z.div_mod_to_equations. lia. }
  rewrite Hq. pose proof (Z.div_mod b3 16). pose proof (Z.mod_pos_bound b3 16).
  destruct (Z.eqb_spec (b3 / 16 * 2 ^ 28) 0xE0000000), (Z.leb_spec 224 b3),
    (Z.leb_spec b3 239); simpl; try done; lia.
Qed.

#[export] Hint Resolve be16_range le32_range byte_of_range : stb.
