(* ===== verification/Structs.v ===== *)
(** Structs: the layout of structures in memory.

    A structure is the list of its fields.  The C rules are written out: natural
    alignment, as on 32-bit ARM and for the BPF target, or
    [__attribute__((packed))].  [sizeof] and the places of the fields follow
    from the declaration, so a pointer cast to a structure is read by the names
    of its members.  The structures of the program are in Layout, but for
    [struct pkt_event_t], which the perf buffer holds. *)

From stdpp Require Import base list strings numbers option.
From S2P Require Import Prelude.

Local Open Scope nat_scope.

(** ** Layout rules *)

(** A scalar of [w] bytes, or an array. *)
Inductive ctype : Type :=
  | Scalar (w : nat)
  | Array (n : nat) (t : ctype).

Fixpoint sizeof (t : ctype) : nat :=
  match t with Scalar w => w | Array n t => n * sizeof t end.

Fixpoint alignof (t : ctype) : nat :=
  match t with Scalar w => w | Array _ t => alignof t end.

Record cstruct : Type := mk_cstruct {
  cs_packed : bool;
  cs_fields : list (string * ctype)
}.

(** The next multiple of [a] from [off] on. *)
Definition align_up (off a : nat) : nat := (off + (a - 1)) / a * a.

Section placing.
Context (packed : bool).

Definition field_align (t : ctype) : nat := if packed then 1 else alignof t.

(** Where the fields go from [off] on, where the last one ends, and what
    storing their values does to the memory. *)
Fixpoint placed (off : nat) (ts : list ctype) : list nat :=
  match ts with
  | [] => []
  | t :: ts => let o := align_up off (field_align t) in o :: placed (o + sizeof t) ts
  end.

Fixpoint extent (off : nat) (ts : list ctype) : nat :=
  match ts with
  | [] => off
  | t :: ts => extent (align_up off (field_align t) + sizeof t) ts
  end.

Fixpoint store (off : nat) (ts : list ctype) (vals : list bytes) (mem : bytes) : bytes :=
  match ts, vals with
  | t :: ts, v :: vals =>
      let o := align_up off (field_align t) in store (o + sizeof t) ts vals (blit mem o v)
  | _, _ => mem
  end.
End placing.

Definition types (s : cstruct) : list ctype := map snd (cs_fields s).
Definition offsets (s : cstruct) : list nat := placed (cs_packed s) 0 (types s).
Definition struct_align (s : cstruct) : nat := foldr Nat.max 1 (map (field_align (cs_packed s)) (types s)).
Definition struct_size (s : cstruct) : nat := align_up (extent (cs_packed s) 0 (types s)) (struct_align s).
Definition store_struct (s : cstruct) (vals : list bytes) (mem : bytes) : bytes :=
  store (cs_packed s) 0 (types s) vals mem.

(** [offsetof]. *)
Definition offsetof (s : cstruct) (name : string) : option nat :=
  '(i, _) ← list_find (fun f => f.1 = name) (cs_fields s); offsets s !! i.

(** A member: its offset and its type. *)
Definition member (s : cstruct) (name : string) : option (nat * ctype) :=
  '(i, f) ← list_find (fun f => f.1 = name) (cs_fields s); o ← offsets s !! i; Some (o, f.2).

Abbreviation U8 := (Scalar 1).
Abbreviation U16 := (Scalar 2).
Abbreviation U32 := (Scalar 4).
Abbreviation U64 := (Scalar 8).
Abbreviation chars n := (Array n (Scalar 1)).

Local Open Scope string_scope.

Definition pkt_event_struct : cstruct := mk_cstruct false
  [("timestamp_ns", U64); ("src_ip", U32); ("dst_ip", U32); ("src_port", U16); ("dst_port", U16);
   ("protocol", U8); ("tcp_flags", U8); ("pkt_len", U16); ("ifindex", U32); ("pid", U32);
   ("ip_version", U8); ("payload_type", U8); ("_pad", chars 2); ("latency_us", U16)].
