(* ===== verification/FlowTracker.v ===== *)
(** FlowTracker: src/flow_tracker.c.

    The table of flows and the queue of events the probe reports.  Memory is
    the two arrays of the source ([ft_records], [ft_events]) with their
    counters; a [struct flow_record *] is the index of its slot.  The values
    [now_ns ()] returns are arguments: a function that reads the clock twice
    takes two of them.  The first part holds the operations, the second their
    invariant and its preservation, the third the finite map the table
    implements and the refinement. *)

From stdpp Require Import base list gmap strings numbers option relations.
From S2P Require Import Prelude CLib Common.

(** ** Data *)

Record flow_record : Type := mk_rec {
  r_key : flow_key_t;
  r_value : flow_value_t;
  r_prev_rx_queue : Z;
  r_prev_tx_queue : Z;
  r_active : bool
}.

Definition zero_key : flow_key_t := mk_key 0 0 0 0 0 0 0.
Definition zero_record : flow_record := mk_rec zero_key zero_value 0 0 false.

Record flow_tracker : Type := mk_ft {
  ft_records : list flow_record;
  ft_max_flows : Z;
  ft_events : list flow_event_t;
  ft_event_count : Z;
  ft_max_events : Z;
  ft_active_count : Z
}.

Definition set_records (l : list flow_record) (ft : flow_tracker) : flow_tracker :=
  mk_ft l (ft_max_flows ft) (ft_events ft) (ft_event_count ft) (ft_max_events ft)
    (ft_active_count ft).

Definition set_value (f : flow_value_t -> flow_value_t) (r : flow_record) : flow_record :=
  mk_rec (r_key r) (f (r_value r)) (r_prev_rx_queue r) (r_prev_tx_queue r) (r_active r).

(** [rec->field = ...] through the pointer to slot [i]. *)
Definition upd_rec (i : nat) (f : flow_record -> flow_record) (ft : flow_tracker) : flow_tracker :=
  set_records (alter f i (ft_records ft)) ft.

(** The static variables of [flow_tracker_check_tcp_retransmit]. *)
Record ack_state : Type := mk_ack {
  last_ack_per_flow : list Z;
  flow_idx : Z
}.

Definition ack_init : ack_state := mk_ack (replicate 4096 0) 0.

(** ** Operations *)

Definition now_ns (tv_sec tv_nsec : Z) : Z := u64 (u64 (tv_sec * 1000000000) + tv_nsec).

(** The three booleans say whether each [calloc] succeeds. *)
Definition flow_tracker_create (ok_ft ok_records ok_events : bool) (max_flows : Z)
  : option flow_tracker :=
  if negb ok_ft then None
  else if negb ok_records || negb ok_events then None
  else Some (mk_ft (replicate (Z.to_nat max_flows) zero_record) max_flows
               (replicate (Z.to_nat (max_flows * 2)) zero_event) 0 (max_flows * 2) 0).

Definition claim_slot (now : Z) (key : flow_key_t) (r : flow_record) : flow_record :=
  mk_rec key (set_v_first_seen_ns now (r_value r)) (r_prev_rx_queue r) (r_prev_tx_queue r) true.

Definition find_record (now : Z) (ft : flow_tracker) (key : flow_key_t)
  : option (nat * flow_tracker) :=
  match find_index (fun r => r_active r && key_eqb (r_key r) key) (ft_records ft) with
  | Some i => Some (i, ft)
  | None =>
      match find_index (fun r => negb (r_active r)) (ft_records ft) with
      | Some i =>
          Some (i, mk_ft (alter (claim_slot now key) i (ft_records ft)) (ft_max_flows ft)
                     (ft_events ft) (ft_event_count ft) (ft_max_events ft)
                     (ft_active_count ft + 1))
      | None => None
      end
  end.

Definition add_event (ft : flow_tracker) (ev : flow_event_t) : flow_tracker :=
  if ft_event_count ft <? ft_max_events ft
  then mk_ft (ft_records ft) (ft_max_flows ft)
         (<[Z.to_nat (ft_event_count ft) := ev]> (ft_events ft))
         (ft_event_count ft + 1) (ft_max_events ft) (ft_active_count ft)
  else ft.

(** The [switch] that names the protocol. *)
Definition protocol_name (protocol : Z) (ev : flow_event_t) : flow_event_t :=
  if protocol =? 6 then put_protocol PROTO_TCP ev
  else if protocol =? 17 then put_protocol PROTO_UDP ev
  else if protocol =? 1 then put_protocol PROTO_ICMP ev
  else print_protocol (decd protocol) ev.

(** The tail both update functions share: protocol name and IPTV tags. *)
Definition tag_event (protocol dst_ip : Z) (ev : flow_event_t) : flow_event_t :=
  let ev := protocol_name protocol ev in
  if IS_MULTICAST dst_ip
  then put_service (lit "IPTV") (put_tags (lit "iptv,multicast") ev)
  else ev.

(** The fields both update functions set first, [ev] being zeroed. *)
Definition flow_fields (key : flow_key_t) (nbytes : Z) (ev : flow_event_t)
  : flow_event_t :=
  let ev := put_category CAT_NETWORK ev in
  let ev := put_event_type EVT_FLOW ev in
  let ev := set_e_src_ip (k_src_ip key) ev in
  let ev := set_e_dst_ip (k_dst_ip key) ev in
  let ev := set_e_src_port (k_src_port key) ev in
  let ev := set_e_dst_port (k_dst_port key) ev in
  let ev := set_e_bytes nbytes ev in
  set_e_packets 1 ev.

(** The event of [flow_tracker_update]. *)
Definition update_event (ts : Z) (key : flow_key_t) (nbytes : Z) : flow_event_t :=
  flow_fields key nbytes (set_e_timestamp_ns ts zero_event).

(** The event of [flow_tracker_update_single], which also names the probe. *)
Definition single_event (ts : Z) (key : flow_key_t) (nbytes : Z) (probe_id : bytes)
  : flow_event_t :=
  flow_fields key nbytes (put_probe_id probe_id (set_e_timestamp_ns ts zero_event)).

(** One turn of the loop of [flow_tracker_update]; [now] is what [find_record]
    reads from the clock in this turn. *)
Definition entry_key (e : proc_net_entry) : flow_key_t :=
  mk_key (p_local_ip e) (p_remote_ip e) (p_local_port e) (p_remote_port e) (p_protocol e) 0 0.

Definition queue_delta (queue prev : Z) : Z := if prev <=? queue then u64 (queue - prev) else 0.

Definition update_entry (ts now : Z) (ft : flow_tracker) (e : proc_net_entry) : flow_tracker :=
  let key := entry_key e in
  match find_record now ft key with
  | None => ft
  | Some (i, ft) =>
      match ft_records ft !! i with
      | None => ft
      | Some rec =>
          let rx_delta := queue_delta (p_rx_queue e) (r_prev_rx_queue rec) in
          let tx_delta := queue_delta (p_tx_queue e) (r_prev_tx_queue rec) in
          let delta_bytes := u64 (rx_delta + tx_delta) in
          let ft := upd_rec i (fun r =>
            mk_rec (r_key r)
              (set_v_last_seen_ns ts
                (set_v_packets (u64 (v_packets (r_value r) + (if 0 <? delta_bytes then 1 else 0)))
                  (set_v_bytes (u64 (v_bytes (r_value r) + delta_bytes)) (r_value r))))
              (p_rx_queue e) (p_tx_queue e) (r_active r)) ft in
          if 0 <? delta_bytes
          then add_event ft (tag_event (p_protocol e) (k_dst_ip key) (update_event ts key delta_bytes))
          else ft
      end
  end.

Fixpoint update_entries (ts : Z) (now : nat -> Z) (i : nat) (ft : flow_tracker)
    (entries : list proc_net_entry) : flow_tracker :=
  match entries with
  | [] => ft
  | e :: entries' => update_entries ts now (S i) (update_entry ts (now i) ft e) entries'
  end.

(** [ts] is read on entry; [now i] is the clock [find_record] sees at entry [i]. *)
Definition flow_tracker_update (ts : Z) (now : nat -> Z) (ft : flow_tracker)
    (entries : list proc_net_entry) (count : Z) : flow_tracker :=
  update_entries ts now 0 ft (take (Z.to_nat count) entries).

Definition bump_value (ts bytes : Z) (v : flow_value_t) : flow_value_t :=
  set_v_last_seen_ns ts (set_v_packets (u64 (v_packets v + 1)) (set_v_bytes (u64 (v_bytes v + bytes)) v)).

Definition flow_tracker_update_single (ts now : Z) (ft : flow_tracker) (key : flow_key_t)
    (nbytes : Z) (probe_id : bytes) : flow_tracker :=
  match find_record now ft key with
  | None => ft
  | Some (i, ft) =>
      let ft := upd_rec i (set_value (bump_value ts nbytes)) ft in
      add_event ft (tag_event (k_protocol key) (k_dst_ip key) (single_event ts key nbytes probe_id))
  end.

(** The [n] events copied out, and [n]. *)
Definition flow_tracker_get_events (ft : flow_tracker) (max_events : Z) : list flow_event_t * Z :=
  let n := if ft_event_count ft <? max_events then ft_event_count ft else max_events in
  (take (Z.to_nat n) (ft_events ft), n).

Definition flow_tracker_flush (ft : flow_tracker) : flow_tracker :=
  mk_ft (ft_records ft) (ft_max_flows ft) (ft_events ft) 0 (ft_max_events ft) (ft_active_count ft).

(** The test of [flow_tracker_cleanup]. *)
Definition stale (ts max_age_ns : Z) (r : flow_record) : bool :=
  r_active r && (0 <? v_last_seen_ns (r_value r)) &&
  (max_age_ns <? u64 (ts - v_last_seen_ns (r_value r))).

Definition deactivate (r : flow_record) : flow_record :=
  mk_rec (r_key r) (r_value r) (r_prev_rx_queue r) (r_prev_tx_queue r) false.

Fixpoint cleanup_loop (ts max_age_ns : Z) (l : list flow_record) : list flow_record * Z :=
  match l with
  | [] => ([], 0)
  | r :: l' =>
      let '(l'', cleaned) := cleanup_loop ts max_age_ns l' in
      if stale ts max_age_ns r then (deactivate r :: l'', cleaned + 1) else (r :: l'', cleaned)
  end.

Definition flow_tracker_cleanup (ts : Z) (ft : flow_tracker) (max_age_ns : Z) : flow_tracker :=
  let '(l, cleaned) := cleanup_loop ts max_age_ns (ft_records ft) in
  mk_ft l (ft_max_flows ft) (ft_events ft) (ft_event_count ft) (ft_max_events ft)
    (ft_active_count ft - cleaned).

(** The two counters written through [active_flows] and [total_events]. *)
Definition flow_tracker_get_stats (ft : flow_tracker) : Z * Z :=
  (ft_active_count ft, ft_event_count ft).

(** Result of [flow_tracker_check_tcp_retransmit]: the returned code and the
    two outputs. *)
Record retx_result : Type := mk_retx {
  x_ret : Z;
  x_is_retransmit : Z;
  x_is_dup_ack : Z
}.

Definition check_pure_ack (st : ack_state) (seq_num : Z) : exec (bool * ack_state) :=
  let idx := Z.rem (flow_idx st) 4096 in
  last ← rd (last_ack_per_flow st) idx;
  arr ← wr (last_ack_per_flow st) idx seq_num;
  if flow_idx st =? 2 ^ 31 - 1 then Undefined
  else Done ((last =? seq_num) && negb (seq_num =? 0), mk_ack arr (flow_idx st + 1)).

(** [consumes_seq] and the condition of the data branch, as the source
    writes them. *)
Definition consumes_seq (tcp_flags : Z) : bool :=
  has_flag tcp_flags TCP_FLAG_SYN || has_flag tcp_flags TCP_FLAG_FIN.

Definition data_packet (pkt_len tcp_flags : Z) : bool :=
  let has_ack := has_flag tcp_flags TCP_FLAG_ACK in
  let has_data := (0 <? pkt_len) && negb has_ack || (0 <? pkt_len) && has_ack in
  has_data || negb has_ack && (0 <? pkt_len).

Definition behind (seq_num seq_expected : Z) : bool :=
  negb (seq_expected =? 0) && (seq_num <? seq_expected).

Definition count_retransmit (v : flow_value_t) : flow_value_t :=
  set_v_retransmits (u32 (v_retransmits v + 1)) v.

Definition count_dup_ack (v : flow_value_t) : flow_value_t :=
  set_v_dup_acks (u32 (v_dup_acks v + 1)) v.

Definition flow_tracker_check_tcp_retransmit (now : Z) (ft : flow_tracker) (st : ack_state)
    (key : flow_key_t) (seq_num pkt_len tcp_flags : Z)
  : exec (retx_result * flow_tracker * ack_state) :=
  match find_record now ft key with
  | None => Done (mk_retx (-1) 0 0, ft, st)
  | Some (i, ft) =>
      let seq_expected :=
        match ft_records ft !! i with Some r => v_seq_expected (r_value r) | None => 0 end in
      let has_ack := has_flag tcp_flags TCP_FLAG_ACK in
      if consumes_seq tcp_flags
      then Done (mk_retx 0 0 0, upd_rec i (set_value (set_v_seq_expected (u32 (seq_num + 1)))) ft, st)
      else if data_packet pkt_len tcp_flags && behind seq_num seq_expected
      then Done (mk_retx 0 1 0, upd_rec i (set_value count_retransmit) ft, st)
      else
        let ft :=
          if data_packet pkt_len tcp_flags && (0 <? pkt_len)
          then upd_rec i (set_value (set_v_seq_expected (u32 (seq_num + pkt_len)))) ft
          else ft in
        if has_ack && (pkt_len =? 0)
        then '(dup, st) ← check_pure_ack st seq_num;
             Done (if dup : bool
                   then (mk_retx 0 0 1, upd_rec i (set_value count_dup_ack) ft, st)
                   else (mk_retx 0 0 0, ft, st))
        else Done (mk_retx 0 0 0, ft, st)
  end.

(** ** The invariant *)

(** No two active slots hold the same key. *)
Definition unique_keys (l : list flow_record) : Prop :=
  forall i j ri rj,
    l !! i = Some ri -> l !! j = Some rj ->
    r_active ri = true -> r_active rj = true -> r_key ri = r_key rj -> i = j.

Record ft_ok (ft : flow_tracker) : Prop := {
  fo_records : zlen (ft_records ft) = ft_max_flows ft;
  fo_events : zlen (ft_events ft) = ft_max_events ft;
  fo_twice : ft_max_events ft = ft_max_flows ft * 2;
  fo_count : 0 <= ft_event_count ft <= ft_max_events ft;
  fo_active : ft_active_count ft = Z.of_nat (countb r_active (ft_records ft));
  fo_unique : unique_keys (ft_records ft);
  fo_text : Forall event_ok (ft_events ft)
}.

(** Keys with fields of their widths. *)
Record key_ok (k : flow_key_t) : Prop := {
  ko_src_ip : is_u32 (k_src_ip k);
  ko_dst_ip : is_u32 (k_dst_ip k);
  ko_src_port : is_u16 (k_src_port k);
  ko_dst_port : is_u16 (k_dst_port k);
  ko_protocol : is_u8 (k_protocol k);
  ko_ip_version : is_u8 (k_ip_version k)
}.

(** The events the tracker builds are well formed. *)
Lemma protocol_name_ok p ev : event_ok ev -> event_ok (protocol_name p ev).
Proof. intros. unfold protocol_name. repeat case_match; auto with stb. Qed.

Lemma tag_event_ok p ip ev : event_ok ev -> event_ok (tag_event p ip ev).
Proof. intros. unfold tag_event. case_match; auto using protocol_name_ok with stb. Qed.

Lemma flow_fields_ok key n ev :
  key_ok key -> is_u64 n -> event_ok ev -> event_ok (flow_fields key n ev).
Proof. intros [] ? ?. unfold flow_fields. auto 12 with stb. Qed.

Lemma update_event_ok ts key n :
  is_u64 ts -> key_ok key -> is_u64 n -> event_ok (update_event ts key n).
Proof. intros. apply flow_fields_ok; auto with stb. Qed.

Lemma single_event_ok ts key n pid :
  is_u64 ts -> key_ok key -> is_u64 n -> event_ok (single_event ts key n pid).
Proof. intros. apply flow_fields_ok; auto with stb. Qed.

#[local] Hint Resolve tag_event_ok update_event_ok single_event_ok : stb.

Lemma unique_keys_insert l i r r' :
  unique_keys l -> l !! i = Some r ->
  (r_active r' = true ->
   forall j rj, j <> i -> l !! j = Some rj -> r_active rj = true -> r_key rj <> r_key r') ->
  unique_keys (<[i := r']> l).
Proof.
  intros Hu Hi Hnew a b ra rb Ha Hb Aa Ab Hk.
  assert (i < length l)%nat by (by eapply lookup_lt_Some).
  destruct (decide (a = i)) as [->|], (decide (b = i)) as [->|]; [done| | |].
  - rewrite list_lookup_insert_eq in Ha by done. rewrite list_lookup_insert_ne in Hb by done.
    simplify_eq. by destruct (Hnew Aa b rb).
  - rewrite list_lookup_insert_eq in Hb by done. rewrite list_lookup_insert_ne in Ha by done.
    simplify_eq. by destruct (Hnew Ab a ra).
  - rewrite !list_lookup_insert_ne in * by done. by apply (Hu a b ra rb).
Qed.

(** Overwriting a slot without changing its key or its activity. *)
Definition keeps_identity (f : flow_record -> flow_record) : Prop :=
  forall r, r_key (f r) = r_key r /\ r_active (f r) = r_active r.

Lemma set_value_keeps f : keeps_identity (set_value f).
Proof. by split. Qed.
#[local] Hint Resolve set_value_keeps : stb.

Lemma upd_rec_ok ft i f : ft_ok ft -> keeps_identity f -> ft_ok (upd_rec i f ft).
Proof.
  intros [H1 H2 H3 H4 H5 H6 H7] Hf. unfold upd_rec.
  destruct (ft_records ft !! i) as [r|] eqn:Hi.
  - destruct (Hf r) as [Hk Ha]. constructor; simpl; try done;
      rewrite ?length_alter, ?(alter_insert _ _ _ _ Hi); try done.
    + rewrite H5. pose proof (countb_insert r_active _ _ _ (f r) Hi) as C.
      rewrite Ha in C. lia.
    + eapply unique_keys_insert; [done..|]. rewrite Hk, Ha.
      intros Aa j rj Hj Hjr Aj Hkk. apply Hj. by eapply (H6 j i).
  - rewrite (alter_None _ _ _ Hi). by destruct ft.
Qed.

Lemma add_event_ok ft ev : ft_ok ft -> event_ok ev -> ft_ok (add_event ft ev).
Proof.
  intros [] Hev. unfold add_event. zcase; [|by constructor].
  constructor; simpl; rewrite ?length_insert; try done; [lia|]. by apply Forall_insert.
Qed.

(** The three outcomes of [find_record]: the slot of the flow, a claimed free
    slot, or none because the table is full. *)
Definition absent (key : flow_key_t) (l : list flow_record) : Prop :=
  forall j r, l !! j = Some r -> r_active r = true -> r_key r <> key.

Definition claimed (now : Z) (key : flow_key_t) (i : nat) (ft : flow_tracker) : flow_tracker :=
  mk_ft (alter (claim_slot now key) i (ft_records ft)) (ft_max_flows ft)
    (ft_events ft) (ft_event_count ft) (ft_max_events ft) (ft_active_count ft + 1).

Inductive find_record_spec (now : Z) (ft : flow_tracker) (key : flow_key_t)
  : option (nat * flow_tracker) -> Prop :=
| FR_found i r :
    ft_records ft !! i = Some r -> r_active r = true -> r_key r = key ->
    find_record_spec now ft key (Some (i, ft))
| FR_claimed i r :
    absent key (ft_records ft) -> ft_records ft !! i = Some r -> r_active r = false ->
    find_record_spec now ft key (Some (i, claimed now key i ft))
| FR_full :
    absent key (ft_records ft) ->
    countb r_active (ft_records ft) = length (ft_records ft) ->
    find_record_spec now ft key None.

Lemma find_recordP now ft key : find_record_spec now ft key (find_record now ft key).
Proof.
  unfold find_record. destruct (find_index _ (ft_records ft)) as [i|] eqn:E1.
  - apply find_index_Some in E1 as [(r & Hr & [Ha Hk]%andb_true_iff) _].
    econstructor; [done..|]. by apply key_eqb_eq.
  - rewrite find_index_None in E1.
    assert (absent key (ft_records ft)) as Habs.
    { intros j r Hj Ha Hk. specialize (E1 j r Hj). rewrite Ha, Hk, key_eqb_refl in E1. done. }
    destruct (find_index _ (ft_records ft)) as [i|] eqn:E2.
    + apply find_index_Some in E2 as [(r & Hr & Ha%negb_true_iff) _].
      by econstructor.
    + constructor; [done|]. apply countb_full. intros j r Hj.
      rewrite find_index_None in E2. by apply negb_false_iff, (E2 j).
Qed.

Lemma claimed_ok now key i r ft :
  ft_ok ft -> absent key (ft_records ft) -> ft_records ft !! i = Some r -> r_active r = false ->
  ft_ok (claimed now key i ft).
Proof.
  intros [H1 H2 H3 H4 H5 H6 H7] Habs Hi Ha.
  constructor; simpl; rewrite ?length_alter, ?(alter_insert _ _ _ _ Hi); try done.
  - pose proof (countb_insert r_active _ _ _ (claim_slot now key r) Hi) as C.
    rewrite Ha in C. simpl in C. lia.
  - eapply unique_keys_insert; [done..|]. simpl. intros _ j rj _ Hj Aj. by eapply Habs.
Qed.

Lemma find_record_ok now ft key i ft' :
  ft_ok ft -> find_record now ft key = Some (i, ft') -> ft_ok ft'.
Proof.
  intros Hok. destruct (find_recordP now ft key); intros [= <- <-]; [done|].
  by eapply claimed_ok.
Qed.

(** Entries of /proc/net with fields of their widths. *)
Record entry_ok (e : proc_net_entry) : Prop := {
  eo_local_ip : is_u32 (p_local_ip e);
  eo_local_port : is_u16 (p_local_port e);
  eo_remote_ip : is_u32 (p_remote_ip e);
  eo_remote_port : is_u16 (p_remote_port e);
  eo_protocol : is_u8 (p_protocol e);
  eo_rx_queue : is_u64 (p_rx_queue e);
  eo_tx_queue : is_u64 (p_tx_queue e)
}.

Lemma entry_key_ok e : entry_ok e -> key_ok (entry_key e).
Proof. intros []. constructor; simpl; mlia || done. Qed.

Lemma update_entry_ok ts now ft e :
  is_u64 ts -> entry_ok e -> ft_ok ft -> ft_ok (update_entry ts now ft e).
Proof.
  intros Hts He Hok. unfold update_entry. destruct (find_record _ _ _) as [[i ft']|] eqn:E; [|done].
  apply find_record_ok in E; [|done]. destruct (ft_records ft' !! i); [|done].
  case_match; [apply add_event_ok; [|auto using entry_key_ok with stb]|]; by apply upd_rec_ok.
Qed.

Lemma update_entries_ok ts now i ft es :
  is_u64 ts -> Forall entry_ok es -> ft_ok ft -> ft_ok (update_entries ts now i ft es).
Proof.
  intros Hts Hes. revert i ft. induction Hes; simpl; auto using update_entry_ok.
Qed.

Lemma update_ok ts now ft es count :
  is_u64 ts -> Forall entry_ok es -> ft_ok ft -> ft_ok (flow_tracker_update ts now ft es count).
Proof. intros. apply update_entries_ok; auto using Forall_take. Qed.

Lemma update_single_ok ts now ft key n pid :
  is_u64 ts -> key_ok key -> is_u64 n ->
  ft_ok ft -> ft_ok (flow_tracker_update_single ts now ft key n pid).
Proof.
  intros Hts Hk Hn Hok. unfold flow_tracker_update_single.
  destruct (find_record _ _ _) as [[i ft']|] eqn:E; [|done].
  apply find_record_ok in E; [|done]. apply add_event_ok; auto using upd_rec_ok with stb.
Qed.

Lemma flush_ok ft : ft_ok ft -> ft_ok (flow_tracker_flush ft).
Proof. intros []. constructor; simpl; try done. lia. Qed.

(** [flow_tracker_cleanup] deactivates the stale slots and leaves the others. *)
Lemma cleanup_loop_records ts age l :
  fst (cleanup_loop ts age l) = map (fun r => if stale ts age r then deactivate r else r) l.
Proof.
  induction l as [|r l IH]; simpl; [done|].
  destruct (cleanup_loop ts age l) as [l' c]; simpl in *. by case_match; simpl; rewrite IH.
Qed.

Lemma cleanup_loop_count ts age l :
  snd (cleanup_loop ts age l) = Z.of_nat (countb (stale ts age) l).
Proof.
  induction l as [|r l IH]; simpl; [done|].
  destruct (cleanup_loop ts age l) as [l' c]; simpl in *.
  rewrite countb_cons. case_match; simpl; lia.
Qed.

Lemma cleanup_eq ts ft age :
  flow_tracker_cleanup ts ft age =
  mk_ft (map (fun r => if stale ts age r then deactivate r else r) (ft_records ft))
    (ft_max_flows ft) (ft_events ft) (ft_event_count ft) (ft_max_events ft)
    (ft_active_count ft - Z.of_nat (countb (stale ts age) (ft_records ft))).
Proof.
  unfold flow_tracker_cleanup.
  rewrite <- cleanup_loop_records, <- cleanup_loop_count. by destruct (cleanup_loop _ _ _).
Qed.

(** The test, for a slot in use. *)
Lemma stale_iff ts age r :
  r_active r = true ->
  stale ts age r = true <->
  0 < v_last_seen_ns (r_value r) /\ age < (ts - v_last_seen_ns (r_value r)) mod 2 ^ 64.
Proof.
  intros Ha. unfold stale. rewrite Ha, andb_true_l, andb_true_iff, !Z.ltb_lt. done.
Qed.

Lemma cleanup_active ts age l :
  (countb r_active (map (fun r => if stale ts age r then deactivate r else r) l) +
   countb (stale ts age) l = countb r_active l)%nat.
Proof.
  induction l as [|r l IH]; simpl; [done|]. rewrite !countb_cons.
  destruct (stale ts age r) eqn:E; simpl.
  - unfold stale in E. destruct (r_active r); [|done]. lia.
  - lia.
Qed.

Lemma cleanup_ok ts ft age : ft_ok ft -> ft_ok (flow_tracker_cleanup ts ft age).
Proof.
  intros [H1 H2 H3 H4 H5 H6 H7]. rewrite cleanup_eq. constructor; simpl; try done.
  - by rewrite length_map.
  - pose proof (cleanup_active ts age (ft_records ft)). lia.
  - intros i j ri rj. rewrite !list_lookup_fmap, !fmap_Some.
    intros (a & Ha & ->) (b & Hb & ->) Aa Ab Hk.
    destruct (stale ts age a) eqn:Sa; [done|]. destruct (stale ts age b) eqn:Sb; [done|].
    by apply (H6 i j a b).
Qed.

Lemma retransmit_ok now ft st key seq len flags x ft' st' :
  ft_ok ft ->
  flow_tracker_check_tcp_retransmit now ft st key seq len flags = Done (x, ft', st') ->
  ft_ok ft'.
Proof.
  intros Hok. unfold flow_tracker_check_tcp_retransmit.
  destruct (find_record now ft key) as [[i ft1]|] eqn:E; [|by intros [= <- <- <-]].
  apply find_record_ok in E; [|done].
  destruct (consumes_seq flags); [intros [= <- <- <-]; auto using upd_rec_ok with stb|].
  destruct (data_packet _ _ && behind _ _); [intros [= <- <- <-]; auto using upd_rec_ok with stb|].
  cbv zeta. set (ft2 := if _ : bool then upd_rec _ _ _ else _).
  assert (ft_ok ft2) by (subst ft2; case_match; auto using upd_rec_ok with stb).
  clearbody ft2. destruct (_ && (len =? 0)); [|by intros [= <- <- <-]].
  intros ([d st1] & _ & H2)%bind_Done_inv.
  destruct d; injection H2 as <- <- <-; auto using upd_rec_ok with stb.
Qed.

(** ** Runs *)

Definition ack_ok (st : ack_state) : Prop :=
  length (last_ack_per_flow st) = 4096%nat /\ 0 <= flow_idx st < 2 ^ 31.

Lemma create_ok a b c n ft :
  0 <= n -> flow_tracker_create a b c n = Some ft -> ft_ok ft.
Proof.
  intros Hn. unfold flow_tracker_create. destruct a, b, c; try done. intros [= <-].
  constructor; simpl; rewrite ?length_replicate; try lia.
  - replace (countb _ _) with 0%nat; [done|]. induction (Z.to_nat n); [done|].
    simpl. by rewrite countb_cons.
  - intros i j ri rj Hi _ Ha. apply lookup_replicate in Hi as [-> _]. done.
  - apply Forall_replicate, zero_event_ok.
Qed.

Lemma ack_init_ok : ack_ok ack_init.
Proof. split; [apply length_replicate|simpl; lia]. Qed.

(** The pure-ACK ring is accessed inside its bounds. *)
Lemma check_pure_ack_Done st seq :
  ack_ok st -> flow_idx st < 2 ^ 31 - 1 ->
  exists last,
    last_ack_per_flow st !! Z.to_nat (flow_idx st mod 4096) = Some last /\
    check_pure_ack st seq =
      Done ((last =? seq) && negb (seq =? 0),
            mk_ack (<[Z.to_nat (flow_idx st mod 4096) := seq]> (last_ack_per_flow st))
                   (flow_idx st + 1)).
Proof.
  intros [Hl Hi] Hlt. unfold check_pure_ack.
  rewrite Z.rem_mod_nonneg by lia.
  pose proof (Z.mod_pos_bound (flow_idx st) 4096 ltac:(lia)).
  destruct (rd_defined (last_ack_per_flow st) (flow_idx st mod 4096)) as (x & Hx & Hlk); [lia|].
  exists x. split; [done|]. rewrite Hx, bind_Done, wr_Done, bind_Done by lia.
  by rewrite (proj2 (Z.eqb_neq _ _)) by lia.
Qed.

Lemma check_pure_ack_ok st seq d st' :
  ack_ok st -> check_pure_ack st seq = Done (d, st') -> ack_ok st'.
Proof.
  intros Hok H. destruct (decide (flow_idx st < 2 ^ 31 - 1)) as [Hlt|Hge].
  - destruct (check_pure_ack_Done st seq Hok Hlt) as (l & _ & E).
    rewrite E in H. injection H as <- <-. destruct Hok. split; simpl; [|lia].
    by rewrite length_insert.
  - exfalso. revert H. unfold check_pure_ack. destruct Hok as [_ ?].
    rewrite (proj2 (Z.eqb_eq (flow_idx st) (2 ^ 31 - 1))) by lia.
    intros (? & _ & (? & _ & [=])%bind_Done_inv)%bind_Done_inv.
Qed.

Lemma retransmit_ack_ok now ft st key seq len flags x ft' st' :
  ack_ok st ->
  flow_tracker_check_tcp_retransmit now ft st key seq len flags = Done (x, ft', st') ->
  ack_ok st'.
Proof.
  intros Hok. unfold flow_tracker_check_tcp_retransmit.
  destruct (find_record now ft key) as [[i ft1]|]; [|by intros [= <- <- <-]].
  destruct (consumes_seq flags); [by intros [= <- <- <-]|].
  destruct (data_packet _ _ && behind _ _); [by intros [= <- <- <-]|]. cbv zeta.
  destruct (_ && (len =? 0)); [|by intros [= <- <- <-]].
  intros ([d st1] & H1%check_pure_ack_ok & H2)%bind_Done_inv; [|done].
  by destruct d; injection H2 as <- <- <-.
Qed.

(** Every operation of the tracker, with arbitrary arguments of the C types. *)
Inductive ft_step : flow_tracker * ack_state -> flow_tracker * ack_state -> Prop :=
| FS_update ts now ft st entries count :
    is_u64 ts -> Forall entry_ok entries ->
    ft_step (ft, st) (flow_tracker_update ts now ft entries count, st)
| FS_update_single ts now ft st key n pid :
    is_u64 ts -> key_ok key -> is_u64 n ->
    ft_step (ft, st) (flow_tracker_update_single ts now ft key n pid, st)
| FS_retransmit now ft st key seq len flags x ft' st' :
    flow_tracker_check_tcp_retransmit now ft st key seq len flags = Done (x, ft', st') ->
    ft_step (ft, st) (ft', st')
| FS_flush ft st : ft_step (ft, st) (flow_tracker_flush ft, st)
| FS_cleanup ts ft st age : ft_step (ft, st) (flow_tracker_cleanup ts ft age, st).

Definition ft_state_ok (s : flow_tracker * ack_state) : Prop := ft_ok s.1 /\ ack_ok s.2.

Lemma ft_step_ok s s' : ft_step s s' -> ft_state_ok s -> ft_state_ok s'.
Proof.
  intros Hs [Hf Ha]. destruct Hs; split; simpl in *; try done;
    eauto using update_ok, update_single_ok, retransmit_ok, retransmit_ack_ok,
      flush_ok, cleanup_ok.
Qed.

Lemma ft_steps_ok s s' : rtc ft_step s s' -> ft_state_ok s -> ft_state_ok s'.
Proof. induction 1; eauto using ft_step_ok. Qed.

(** ** The finite map the table implements *)

#[export] Instance flow_key_countable : Countable flow_key_t.
Proof.
  apply (inj_countable'
    (fun k => (k_src_ip k, k_dst_ip k, k_src_port k, k_dst_port k, k_protocol k,
               k_ip_version k, k_pad k))
    (fun '(a, b, c, d, e, f, g) => mk_key a b c d e f g)).
  by intros [].
Defined.

(** The active slots, by key. *)
Fixpoint flow_map (l : list flow_record) : gmap flow_key_t flow_record :=
  match l with
  | [] => ∅
  | r :: l' => if r_active r then <[r_key r := r]> (flow_map l') else flow_map l'
  end.

Lemma unique_keys_tail r l : unique_keys (r :: l) -> unique_keys l.
Proof.
  intros Hu i j ri rj Hi Hj Ai Aj Hk.
  assert (S i = S j); [|lia]. by apply (Hu (S i) (S j) ri rj).
Qed.

Lemma unique_keys_head r l : unique_keys (r :: l) -> r_active r = true -> absent (r_key r) l.
Proof. intros Hu Ha j rj Hj Aj Hk. by specialize (Hu (S j) 0%nat rj r Hj eq_refl Aj Ha Hk). Qed.

Lemma flow_map_lookup l k r :
  unique_keys l ->
  flow_map l !! k = Some r <-> exists i, l !! i = Some r /\ r_active r = true /\ r_key r = k.
Proof.
  induction l as [|x l IH]; intros Hu; simpl.
  { rewrite lookup_empty. split; [done|]. intros (i & Hi & _). by rewrite lookup_nil in Hi. }
  specialize (IH (unique_keys_tail _ _ Hu)). destruct (r_active x) eqn:Ax.
  - rewrite lookup_insert. case_decide as Hk.
    + split; [intros [= <-]; by exists 0%nat|]. intros ([|i] & Hi & Ar & Hr); simpl in Hi.
      * congruence.
      * destruct (unique_keys_head _ _ Hu Ax i r Hi Ar). congruence.
    + rewrite IH. split; intros (i & Hi & Ar & Hr).
      * by exists (S i).
      * destruct i as [|i]; simpl in Hi; [congruence|]. eauto.
  - rewrite IH. split; intros (i & Hi & Ar & Hr).
    + by exists (S i).
    + destruct i as [|i]; simpl in Hi; [congruence|]. eauto.
Qed.

Lemma flow_map_None l k : unique_keys l -> flow_map l !! k = None <-> absent k l.
Proof.
  intros Hu. rewrite eq_None_not_Some. split.
  - intros Hn j r Hj Ha Hk. apply Hn. exists r. apply flow_map_lookup; eauto.
  - intros Habs [r Hr]. apply flow_map_lookup in Hr as (i & Hi & Ha & Hk); [|done].
    by eapply Habs.
Qed.

(** The number of flows of the map is the number of active slots. *)
Lemma flow_map_size l : unique_keys l -> size (flow_map l) = countb r_active l.
Proof.
  induction l as [|x l IH]; intros Hu; simpl; [done|].
  specialize (IH (unique_keys_tail _ _ Hu)). rewrite countb_cons.
  destruct (r_active x) eqn:Ax; [|done].
  rewrite map_size_insert_None, IH; [done|].
  apply flow_map_None; eauto using unique_keys_tail, unique_keys_head.
Qed.

(** Writing an active record with key [k] into a slot that held [k], or into a
    free slot when [k] is absent, inserts it in the map. *)
Lemma flow_map_insert l i r r' :
  unique_keys l -> l !! i = Some r -> r_active r' = true ->
  (r_active r = true /\ r_key r = r_key r') \/
  (r_active r = false /\ absent (r_key r') l) ->
  unique_keys (<[i := r']> l) /\ flow_map (<[i := r']> l) = <[r_key r' := r']> (flow_map l).
Proof.
  intros Hu Hi Ar' Hcase.
  assert (Hothers : forall j rj, j <> i -> l !! j = Some rj -> r_active rj = true ->
                                 r_key rj <> r_key r').
  { intros j rj Hji Hj Aj Hk. destruct Hcase as [[Ar Hrk]|[_ Habs]].
    - apply Hji, (Hu j i rj r); congruence.
    - by eapply Habs. }
  assert (Hu' : unique_keys (<[i := r']> l)) by (eapply unique_keys_insert; eauto).
  split; [done|]. apply map_eq. intros k. apply option_eq. intros x.
  rewrite flow_map_lookup, lookup_insert by done.
  assert (i < length l)%nat by (by eapply lookup_lt_Some).
  case_decide as Hk.
  - split.
    + intros (j & Hj & Ax & Hx). destruct (decide (j = i)) as [->|Hji].
      * rewrite list_lookup_insert_eq in Hj by done. congruence.
      * rewrite list_lookup_insert_ne in Hj by done.
        destruct (Hothers j x Hji Hj Ax). congruence.
    + intros [= <-]. exists i. by rewrite list_lookup_insert_eq.
  - rewrite flow_map_lookup by done. split; intros (j & Hj & Ax & Hx); exists j.
    + destruct (decide (j = i)) as [->|Hji]; [|by rewrite list_lookup_insert_ne in Hj].
      rewrite list_lookup_insert_eq in Hj by done. congruence.
    + destruct (decide (j = i)) as [->|Hji]; [|by rewrite list_lookup_insert_ne].
      exfalso. destruct Hcase as [[Ar Hrk]|[Ar _]]; congruence.
Qed.

(** The table as the map of its flows. *)
Definition abs (ft : flow_tracker) : gmap flow_key_t flow_record := flow_map (ft_records ft).

Lemma abs_size ft : ft_ok ft -> Z.of_nat (size (abs ft)) = ft_active_count ft.
Proof. intros []. unfold abs. rewrite flow_map_size by done. lia. Qed.

(** [find_record] seen through the map: it returns the slot [i] of the record
    of [key], creating it from the slot's previous content when there is none. *)
Lemma find_record_abs now ft key i ft' :
  ft_ok ft -> find_record now ft key = Some (i, ft') ->
  exists r, ft_records ft' !! i = Some r /\ r_key r = key /\ r_active r = true /\
    abs ft' = <[key := r]> (abs ft) /\
    (abs ft !! key = Some r \/
     abs ft !! key = None /\
     exists r0, ft_records ft !! i = Some r0 /\ r_active r0 = false /\ r = claim_slot now key r0).
Proof.
  intros Hok. destruct (find_recordP now ft key) as [i' r Hi Ha Hk|i' r Habs Hi Ha|]; [| |done];
    intros [= <- <-].
  - assert (abs ft !! key = Some r) as Hr.
    { apply flow_map_lookup; [apply Hok|]. eauto. }
    exists r. rewrite insert_id by done. eauto 6.
  - exists (claim_slot now key r). unfold claimed, abs at 1. simpl.
    rewrite (alter_insert _ _ _ _ Hi).
    destruct (flow_map_insert (ft_records ft) i' r (claim_slot now key r)) as [_ Hm];
      [apply Hok|done..|by right|].
    split_and!; [apply list_lookup_insert_eq; by eapply lookup_lt_Some|done..|exact Hm|].
    right. split; [|eauto]. apply flow_map_None; [apply Hok|done].
Qed.

Lemma find_record_None_abs now ft key :
  ft_ok ft -> find_record now ft key = None <->
  abs ft !! key = None /\ ft_active_count ft = ft_max_flows ft.
Proof.
  intros Hok. pose proof Hok as [H1 _ _ _ H5 H6 _].
  destruct (find_recordP now ft key) as [i' r Hi Ha Hk|i' r Habs Hi Ha|Habs Hfull].
  - split; [done|]. intros [Hn%flow_map_None _]; [|done]. by destruct (Hn i' r).
  - split; [done|]. intros [_ Hc]. exfalso.
    assert (countb r_active (ft_records ft) = length (ft_records ft)) as Hf by lia.
    rewrite countb_full in Hf. specialize (Hf i' r Hi). congruence.
  - split; [|done]. intros _. split; [by apply flow_map_None|]. lia.
Qed.

(** Overwriting the slot of an active record. *)
Lemma upd_rec_abs ft i r f :
  ft_ok ft -> ft_records ft !! i = Some r -> r_active r = true -> keeps_identity f ->
  abs (upd_rec i f ft) = <[r_key r := f r]> (abs ft).
Proof.
  intros Hok Hi Ha Hf. unfold upd_rec, abs. simpl. rewrite (alter_insert _ _ _ _ Hi).
  destruct (Hf r) as [Hk Hact]. rewrite <- Hk.
  apply (flow_map_insert _ _ r); [apply Hok|done|congruence|]. left. by rewrite Hk.
Qed.

Lemma add_event_abs ft ev : abs (add_event ft ev) = abs ft.
Proof. unfold add_event. by case_match. Qed.

(** ** Specification: a bounded map of counters

    While no slot is reused, the table behaves as a finite map with at most
    [cap] flows in which a new flow starts from zero. *)

Definition fresh_record (now : Z) (key : flow_key_t) : flow_record :=
  claim_slot now key zero_record.

Definition spec_touch (cap now : Z) (key : flow_key_t) (m : gmap flow_key_t flow_record)
  : option flow_record :=
  match m !! key with
  | Some r => Some r
  | None => if Z.of_nat (size m) <? cap then Some (fresh_record now key) else None
  end.

Definition account_entry (ts : Z) (e : proc_net_entry) (r : flow_record) : flow_record :=
  let delta := u64 (queue_delta (p_rx_queue e) (r_prev_rx_queue r) +
                    queue_delta (p_tx_queue e) (r_prev_tx_queue r)) in
  mk_rec (r_key r)
    (set_v_last_seen_ns ts
      (set_v_packets (u64 (v_packets (r_value r) + (if 0 <? delta then 1 else 0)))
        (set_v_bytes (u64 (v_bytes (r_value r) + delta)) (r_value r))))
    (p_rx_queue e) (p_tx_queue e) (r_active r).

Definition spec_account (cap now : Z) (key : flow_key_t) (f : flow_record -> flow_record)
    (m : gmap flow_key_t flow_record) : gmap flow_key_t flow_record :=
  match spec_touch cap now key m with
  | Some r => <[key := f r]> m
  | None => m
  end.

(** Commands that do not free slots. *)
Inductive ft_cmd : Type :=
| CSingle (ts now : Z) (key : flow_key_t) (nbytes : Z) (probe_id : bytes)
| CEntry (ts now : Z) (e : proc_net_entry)
| CFlush.

Definition run_cmd (c : ft_cmd) (ft : flow_tracker) : flow_tracker :=
  match c with
  | CSingle ts now key n pid => flow_tracker_update_single ts now ft key n pid
  | CEntry ts now e => flow_tracker_update ts (fun _ => now) ft [e] 1
  | CFlush => flow_tracker_flush ft
  end.

Definition spec_cmd (cap : Z) (c : ft_cmd) (m : gmap flow_key_t flow_record)
  : gmap flow_key_t flow_record :=
  match c with
  | CSingle ts now key n _ => spec_account cap now key (set_value (bump_value ts n)) m
  | CEntry ts now e => spec_account cap now (entry_key e) (account_entry ts e) m
  | CFlush => m
  end.

Definition cmd_ok (c : ft_cmd) : Prop :=
  match c with
  | CSingle ts _ key n _ => is_u64 ts /\ key_ok key /\ is_u64 n
  | CEntry ts _ e => is_u64 ts /\ entry_ok e
  | CFlush => True
  end.

Definition run_cmds (cs : list ft_cmd) (ft : flow_tracker) : flow_tracker :=
  foldl (fun ft c => run_cmd c ft) ft cs.
Definition spec_cmds (cap : Z) (cs : list ft_cmd) (m : gmap flow_key_t flow_record) :=
  foldl (fun m c => spec_cmd cap c m) m cs.

(** Every free slot is still as [calloc] left it. *)
Definition pristine (ft : flow_tracker) : Prop :=
  forall i r, ft_records ft !! i = Some r -> r_active r = false -> r = zero_record.

Definition ft_capacity (n : Z) (ft : flow_tracker) : Prop := ft_max_flows ft = n.

Lemma pristine_insert ft i r l' :
  pristine ft -> r_active r = true -> ft_records l' = <[i := r]> (ft_records ft) -> pristine l'.
Proof.
  intros Hp Ha E j x. rewrite E. destruct (decide (j = i)) as [->|].
  - destruct (decide (i < length (ft_records ft))%nat).
    + rewrite list_lookup_insert_eq by done. congruence.
    + rewrite list_insert_ge by lia. apply Hp.
  - rewrite list_lookup_insert_ne by done. apply Hp.
Qed.

Lemma pristine_upd_rec ft i f : keeps_identity f -> pristine ft -> 
  (forall r, ft_records ft !! i = Some r -> r_active r = true) -> pristine (upd_rec i f ft).
Proof.
  intros Hf Hp Ha. destruct (ft_records ft !! i) as [r|] eqn:Hi.
  - apply (pristine_insert ft i (f r)); [done| |by apply alter_insert].
    rewrite (proj2 (Hf r)). by apply Ha.
  - intros j x. unfold upd_rec. simpl. rewrite alter_None by done. apply Hp.
Qed.

Lemma pristine_add_event ft ev : pristine ft -> pristine (add_event ft ev).
Proof. unfold add_event. by case_match. Qed.

Lemma max_flows_add_event ft ev : ft_max_flows (add_event ft ev) = ft_max_flows ft.
Proof. unfold add_event. by case_match. Qed.

(** The common step: find the record of [key], rewrite it with [f], maybe
    queue an event. *)
Lemma account_refines cap now ft key i ft' f :
  ft_ok ft -> pristine ft -> ft_max_flows ft = cap -> keeps_identity f ->
  find_record now ft key = Some (i, ft') ->
  abs (upd_rec i f ft') = spec_account cap now key f (abs ft) /\
  pristine (upd_rec i f ft') /\ ft_max_flows ft' = cap.
Proof.
  intros Hok Hp Hcap Hf E.
  pose proof (find_record_ok _ _ _ _ _ Hok E) as Hok'.
  pose proof (find_record_abs _ _ _ _ _ Hok E) as (r & Hi & Hk & Ha & Habs & Hcase).
  pose proof (find_recordP now ft key) as Hs. rewrite E in Hs.
  rewrite (upd_rec_abs _ _ r) by done. rewrite Habs, Hk, insert_insert_eq.
  unfold spec_account, spec_touch. destruct Hcase as [Hm|[Hm (r0 & Hr0 & Ha0 & ->)]]; rewrite Hm.
  - split; [done|]. inversion Hs; subst.
    + split; [|done]. apply pristine_upd_rec; [done..|]. congruence.
    + exfalso. rewrite (proj2 (flow_map_None _ _ ltac:(apply Hok))) in Hm; done.
  - rewrite (Hp i r0 Hr0 Ha0).
    assert (ft_active_count ft <> ft_max_flows ft) as Hne.
    { intros Hc. pose proof (proj2 (find_record_None_abs now ft key Hok) (conj Hm Hc)). congruence. }
    pose proof (abs_size ft Hok).
    assert (ft_active_count ft <= ft_max_flows ft).
    { destruct Hok as [H1 _ _ _ H5 _ _]. pose proof (countb_le r_active (ft_records ft)). lia. }
    rewrite (proj2 (Z.ltb_lt _ _)) by lia. split; [done|].
    inversion Hs; subst.
    { exfalso. by eapply (proj1 (flow_map_None _ _ ltac:(apply Hok)) Hm). }
    split; [|done]. apply pristine_upd_rec; [done| |].
    + by eapply (pristine_insert ft i (claim_slot now key r0)); [..|apply alter_insert].
    + intros x Hx. rewrite Hi in Hx. by injection Hx as <-.
Qed.

Lemma account_full cap now ft key f :
  ft_ok ft -> ft_max_flows ft = cap -> find_record now ft key = None ->
  spec_account cap now key f (abs ft) = abs ft.
Proof.
  intros Hok Hcap [Hm Hc]%find_record_None_abs; [|done].
  unfold spec_account, spec_touch. rewrite Hm. pose proof (abs_size ft Hok).
  by rewrite (proj2 (Z.ltb_ge _ _)) by lia.
Qed.

Lemma account_entry_keeps ts e : keeps_identity (account_entry ts e).
Proof. by split. Qed.
#[local] Hint Resolve account_entry_keeps : stb.

(** [update_entry] writes [account_entry] of the record it finds. *)
Lemma upd_rec_ext i f g ft :
  (forall r, ft_records ft !! i = Some r -> f r = g r) -> upd_rec i f ft = upd_rec i g ft.
Proof.
  intros H. unfold upd_rec. f_equal. destruct (ft_records ft !! i) as [r|] eqn:Hi.
  - rewrite !(alter_insert _ _ _ _ Hi). by rewrite (H r).
  - by rewrite !alter_None.
Qed.

Lemma update_entry_eq ts now ft e i ft' r :
  find_record now ft (entry_key e) = Some (i, ft') -> ft_records ft' !! i = Some r ->
  let delta := u64 (queue_delta (p_rx_queue e) (r_prev_rx_queue r) +
                    queue_delta (p_tx_queue e) (r_prev_tx_queue r)) in
  update_entry ts now ft e =
  let ft1 := upd_rec i (account_entry ts e) ft' in
  if 0 <? delta
  then add_event ft1 (tag_event (p_protocol e) (p_remote_ip e) (update_event ts (entry_key e) delta))
  else ft1.
Proof.
  intros E Hi delta. unfold update_entry. rewrite E, Hi. cbv zeta. fold delta.
  rewrite (upd_rec_ext i _ (account_entry ts e)); [done|].
  intros x Hx. assert (x = r) as -> by congruence. done.
Qed.

Lemma run_cmd_refines cap c ft :
  ft_ok ft -> pristine ft -> ft_max_flows ft = cap -> cmd_ok c ->
  ft_ok (run_cmd c ft) /\
  abs (run_cmd c ft) = spec_cmd cap c (abs ft) /\ pristine (run_cmd c ft) /\ ft_max_flows (run_cmd c ft) = cap.
Proof.
  intros Hok Hp Hcap Hc. destruct c as [ts now key n pid|ts now e|]; simpl in *.
  - destruct Hc as (? & ? & ?).
    split; [by apply update_single_ok|]. unfold flow_tracker_update_single.
    destruct (find_record now ft key) as [[i ft']|] eqn:E.
    + destruct (account_refines cap now ft key i ft' (set_value (bump_value ts n)))
        as (Ha & Hpr & Hm); auto with stb.
      rewrite add_event_abs, max_flows_add_event. auto using pristine_add_event.
    + by rewrite (account_full cap now ft key) by done.
  - destruct Hc as [? He].
    split; [by apply update_ok; auto|]. unfold flow_tracker_update. simpl.
    destruct (find_record now ft (entry_key e)) as [[i ft']|] eqn:E.
    + destruct (find_record_abs _ _ _ _ _ Hok E) as (r & Hi & _).
      destruct (account_refines cap now ft (entry_key e) i ft' (account_entry ts e))
        as (Ha & Hpr & Hm); auto with stb.
      rewrite (update_entry_eq _ _ _ _ _ _ _ E Hi). cbv zeta.
      case_match; [rewrite add_event_abs, max_flows_add_event|]; auto using pristine_add_event.
    + unfold update_entry. rewrite E. by rewrite (account_full cap now ft (entry_key e)) by done.
  - auto using flush_ok.
Qed.

Lemma create_pristine a b c n ft :
  flow_tracker_create a b c n = Some ft -> pristine ft /\ ft_max_flows ft = n /\ abs ft = ∅.
Proof.
  unfold flow_tracker_create. destruct a, b, c; try done. intros [= <-]. split_and!; [|done|].
  - intros i r Hi _. by apply lookup_replicate in Hi as [-> _].
  - unfold abs. simpl. by induction (Z.to_nat n).
Qed.

(** ** Retransmissions *)

Lemma data_packet_eq len flags : data_packet len flags = (0 <? len).
Proof.
  unfold data_packet. by destruct (has_flag flags TCP_FLAG_ACK), (0 <? len).
Qed.

Lemma find_record_present now ft key r :
  ft_ok ft -> abs ft !! key = Some r ->
  exists i, find_record now ft key = Some (i, ft) /\ ft_records ft !! i = Some r /\
    r_key r = key /\ r_active r = true.
Proof.
  intros Hok Hm. destruct (find_recordP now ft key) as [i x Hi Ha Hk|i x Habs|Habs].
  - exists i. assert (abs ft !! key = Some x) as Hx.
    { apply flow_map_lookup; [apply Hok|eauto]. }
    assert (x = r) as -> by congruence. done.
  - apply flow_map_None in Habs; [|apply Hok]. unfold abs in Hm. congruence.
  - apply flow_map_None in Habs; [|apply Hok]. unfold abs in Hm. congruence.
Qed.

(** What a packet that is not a pure ACK does to the record of its flow. *)
Definition retx_spec (seq len flags : Z) (v : flow_value_t) : retx_result * flow_value_t :=
  if consumes_seq flags then (mk_retx 0 0 0, set_v_seq_expected (u32 (seq + 1)) v)
  else if 0 <? len then
    if behind seq (v_seq_expected v)
    then (mk_retx 0 1 0, count_retransmit v)
    else (mk_retx 0 0 0, set_v_seq_expected (u32 (seq + len)) v)
  else (mk_retx 0 0 0, v).

Definition pure_ack (len flags : Z) : bool :=
  negb (consumes_seq flags) && has_flag flags TCP_FLAG_ACK && (len =? 0).

Lemma retransmit_spec now ft st key r seq len flags :
  ft_ok ft -> abs ft !! key = Some r -> 0 <= len -> pure_ack len flags = false ->
  exists ft',
    flow_tracker_check_tcp_retransmit now ft st key seq len flags =
      Done (fst (retx_spec seq len flags (r_value r)), ft', st) /\
    ft_ok ft' /\
    abs ft' = <[key := set_value (fun _ => snd (retx_spec seq len flags (r_value r))) r]> (abs ft).
Proof.
  intros Hok Hm Hlen Hpure.
  destruct (find_record_present now ft key r Hok Hm) as (i & E & Hi & Hk & Ha).
  assert (Hupd : forall f, ft_ok (upd_rec i (set_value f) ft) /\
    abs (upd_rec i (set_value f) ft) = <[key := set_value f r]> (abs ft)).
  { intros f. split; [auto using upd_rec_ok with stb|].
    rewrite (upd_rec_abs _ _ r), Hk; auto with stb. }
  unfold flow_tracker_check_tcp_retransmit, retx_spec, pure_ack in *.
  rewrite E, Hi. cbv zeta. rewrite data_packet_eq.
  destruct (consumes_seq flags); simpl in *.
  { eexists. split; [done|]. apply (Hupd (set_v_seq_expected (u32 (seq + 1)))). }
  destruct (Z.ltb_spec 0 len); simpl.
  - destruct (behind seq _); simpl; [eexists; split; [done|]; apply (Hupd count_retransmit)|].
    rewrite (proj2 (Z.eqb_neq len 0)), andb_false_r by lia.
    eexists. split; [done|]. apply (Hupd (set_v_seq_expected (u32 (seq + len)))).
  - assert (len = 0) as -> by lia.
    destruct (has_flag flags TCP_FLAG_ACK); [done|]. simpl.
    exists ft. split_and!; [done..|]. symmetry. apply insert_id. rewrite Hm. by destruct r.
Qed.

(** Segments of one flow sent in order from sequence number [seq]: the
    [is_retransmit] outputs. *)
Fixpoint in_order (now : Z) (ft : flow_tracker) (st : ack_state) (key : flow_key_t)
    (seq : Z) (lens : list Z) : exec (list Z) :=
  match lens with
  | [] => Done []
  | len :: lens' =>
      '(x, ft, st) ← flow_tracker_check_tcp_retransmit now ft st key seq len TCP_FLAG_ACK;
      rest ← in_order now ft st key (u32 (seq + len)) lens';
      Done (x_is_retransmit x :: rest)
  end.

(** Pure ACKs of any flows, as (key, sequence number): the [is_dup_ack]
    outputs. *)
Fixpoint ack_run (now : Z) (ft : flow_tracker) (st : ack_state)
    (acks : list (flow_key_t * Z)) : exec (list Z) :=
  match acks with
  | [] => Done []
  | (key, seq) :: acks' =>
      '(x, ft, st) ← flow_tracker_check_tcp_retransmit now ft st key seq 0 TCP_FLAG_ACK;
      rest ← ack_run now ft st acks';
      Done (x_is_dup_ack x :: rest)
  end.

(** A ring that has seen [n] ACKs is still zero from slot [n] on. *)
Definition ring_fresh (st : ack_state) : Prop :=
  forall j, flow_idx st <= Z.of_nat j < 4096 -> last_ack_per_flow st !! j = Some 0.

Lemma pure_ack_fresh now ft st key seq :
  ack_ok st -> ring_fresh st -> flow_idx st < 4096 ->
  exists x ft' st',
    flow_tracker_check_tcp_retransmit now ft st key seq 0 TCP_FLAG_ACK = Done (x, ft', st') /\
    x_is_dup_ack x = 0 /\ ack_ok st' /\ ring_fresh st' /\
    flow_idx st <= flow_idx st' <= flow_idx st + 1.
Proof.
  intros Hok Hf Hlt. unfold flow_tracker_check_tcp_retransmit.
  destruct (find_record now ft key) as [[i ft1]|];
    [|exists (mk_retx (-1) 0 0), ft, st; split_and!; (done || lia)].
  change (consumes_seq TCP_FLAG_ACK) with false.
  rewrite data_packet_eq. change (0 <? 0) with false. change (0 =? 0) with true.
  change (has_flag TCP_FLAG_ACK TCP_FLAG_ACK) with true. cbv zeta. simpl.
  destruct (check_pure_ack_Done st seq Hok) as (l & Hl & ->); [lia|].
  destruct Hok as [Hlen Hidx]. rewrite Z.mod_small in * by lia.
  rewrite (Hf (Z.to_nat (flow_idx st))) in Hl by lia. injection Hl as <-.
  assert ((0 =? seq) && negb (seq =? 0) = false) as ->.
  { rewrite Z.eqb_sym. by destruct (seq =? 0). }
  eexists _, _, _. split; [reflexivity|]. split; [done|]. split; [|split; [|simpl; lia]].
  - split; simpl; [by rewrite length_insert|lia].
  - intros j Hj. simpl in *. rewrite list_lookup_insert_ne by lia. apply Hf. lia.
Qed.

Lemma ring_fresh_init : ring_fresh ack_init.
Proof.
  intros j Hj. change (flow_idx ack_init) with 0 in Hj. apply lookup_replicate. lia.
Qed.

(** The events waiting to be reported. *)
Definition queue (ft : flow_tracker) : list flow_event_t :=
  fst (flow_tracker_get_events ft (ft_max_events ft)).

Lemma queue_eq ft : ft_ok ft -> queue ft = take (Z.to_nat (ft_event_count ft)) (ft_events ft).
Proof.
  intros []. unfold queue, flow_tracker_get_events. zcase; simpl; [done|]. f_equal. lia.
Qed.

Lemma queue_add_event ft ev :
  ft_ok ft ->
  queue (add_event ft ev) =
  if ft_event_count ft <? ft_max_events ft then queue ft ++ [ev] else queue ft.
Proof.
  intros Hok. pose proof Hok as [_ H2 _ H4 _ _ _]. rewrite (queue_eq ft) by done.
  unfold queue, flow_tracker_get_events, add_event.
  destruct (Z.ltb_spec (ft_event_count ft) (ft_max_events ft)); simpl.
  - assert (Z.to_nat (ft_event_count ft + 1) = S (Z.to_nat (ft_event_count ft))) as E by lia.
    assert (forall k, k = S (Z.to_nat (ft_event_count ft)) ->
      take k (<[Z.to_nat (ft_event_count ft) := ev]> (ft_events ft)) =
      take (Z.to_nat (ft_event_count ft)) (ft_events ft) ++ [ev]) as Htake.
    { intros k ->. rewrite (take_S_r _ _ ev) by (apply list_lookup_insert_eq; lia).
      by rewrite take_insert_ge. }
    zcase; apply Htake; lia.
  - rewrite (proj2 (Z.ltb_ge _ _)) by lia. f_equal. lia.
Qed.

Lemma queue_flush ft : 0 <= ft_max_events ft -> queue (flow_tracker_flush ft) = [].
Proof. intros H. unfold queue, flow_tracker_get_events. simpl. zcase; [done|].
  by replace (ft_max_events ft) with 0 by lia.
Qed.

(** A table of one free slot. *)
Lemma single_slot_claim ts now ft key n pid r :
  ft_records ft = [r] -> r_active r = false ->
  ft_records (flow_tracker_update_single ts now ft key n pid) =
  [set_value (bump_value ts n) (claim_slot now key r)].
Proof.
  intros E Ha. unfold flow_tracker_update_single, find_record. rewrite E. simpl. rewrite Ha.
  simpl. unfold add_event. by case_match.
Qed.

(** ** Properties *)

(** C1: in every state the tracker reaches from [flow_tracker_create] through
    any sequence of its operations, [active_count] is the number of active
    slots (at most [max_flows]), no two active slots hold the same key, the
    event count stays within the event array, every queued event is well
    formed (terminated strings, integers in range) and the ACK ring index stays
    in range. *)
Theorem ft_reachable_ok a b c n ft0 ft st :
  0 <= n -> flow_tracker_create a b c n = Some ft0 ->
  rtc ft_step (ft0, ack_init) (ft, st) ->
  ft_ok ft /\ ack_ok st /\ 0 <= ft_active_count ft <= ft_max_flows ft.
Proof.
  intros Hn Hc Hr.
  destruct (ft_steps_ok _ _ Hr) as [Hok Hack].
  { split; [by eapply create_ok|apply ack_init_ok]. }
  split_and!; [done..| |]; simpl in Hok; destruct Hok as [H1 _ _ _ H5 _ _]; [lia|].
  pose proof (countb_le r_active (ft_records ft)). lia.
Qed.

(** C2: while no slot has been freed, the tracker refines a finite map of flow
    counters with [n] entries at most: running any commands on a created
    tracker and reading the table back as a map gives what the same commands
    give on the map, where a new flow starts from zero and a packet of a new
    flow is dropped exactly when the map is full. *)
Theorem tracker_refines_map a b c n ft0 cs :
  0 <= n -> flow_tracker_create a b c n = Some ft0 -> Forall cmd_ok cs ->
  abs (run_cmds cs ft0) = spec_cmds n cs ∅.
Proof.
  intros Hn Hc Hcs.
  destruct (create_pristine _ _ _ _ _ Hc) as (Hp & Hm & <-).
  apply create_ok in Hc as Hok; [|done]. clear Hc. unfold run_cmds, spec_cmds.
  revert ft0 Hp Hm Hok. induction Hcs as [|cmd cs Hcmd _ IH]; intros ft Hp Hm Hok; [done|].
  simpl. destruct (run_cmd_refines n cmd ft) as (Hok' & <- & Hp' & Hm'); auto.
Qed.
(** [flow_tracker_update_single] appends exactly one event to the queue
    that [flow_tracker_get_events] reports, unless the flow table is full and
    the flow unknown (then the tracker is unchanged) or the queue is full (then
    the counters are updated and the event is dropped); flushing empties it. *)
Lemma single_queue ts now ft key n pid :
  ft_ok ft ->
  let ft' := flow_tracker_update_single ts now ft key n pid in
  queue ft' =
    (if bool_decide (find_record now ft key = None) then queue ft
     else if ft_event_count ft <? ft_max_events ft
     then queue ft ++ [tag_event (k_protocol key) (k_dst_ip key) (single_event ts key n pid)]
     else queue ft) /\
  (find_record now ft key = None -> ft' = ft) /\
  queue (flow_tracker_flush ft') = [].
Proof.
  intros Hok ft'. subst ft'. unfold flow_tracker_update_single. split_and!.
  - destruct (find_record now ft key) as [[i ft1]|] eqn:E; [|by rewrite bool_decide_true].
    rewrite bool_decide_false by done.
    pose proof (find_record_ok _ _ _ _ _ Hok E) as Hok1.
    pose proof (find_recordP now ft key) as Hs. rewrite E in Hs.
    rewrite queue_add_event by auto using upd_rec_ok with stb.
    by inversion Hs; subst.
  - by intros ->.
  - apply queue_flush. destruct (find_record now ft key) as [[i ft1]|] eqn:E;
      [|destruct Hok; lia].
    apply find_record_ok in E as []; [|done]. unfold add_event. case_match; simpl in *; lia.
Qed.

(** C22: [flow_tracker_cleanup] called at time [ts] keeps a flow, unchanged,
    unless it was accounted (its [last_seen_ns] is above 0) and more than [age]
    nanoseconds have passed since, by the unsigned 64-bit difference of the two
    times; every other flow is removed.  [active_count] is again the number of
    flows, and the event queue is untouched. *)
Theorem cleanup_exact ts ft age :
  ft_ok ft ->
  let ft' := flow_tracker_cleanup ts ft age in
  (forall k r,
    abs ft' !! k = Some r <->
    abs ft !! k = Some r /\
    ~ (0 < v_last_seen_ns (r_value r) /\ age < (ts - v_last_seen_ns (r_value r)) mod 2 ^ 64)) /\
  ft_active_count ft' = Z.of_nat (size (abs ft')) /\
  queue ft' = queue ft.
Proof.
  intros Hok ft'. pose proof (cleanup_ok ts ft age Hok) as Hok'. subst ft'.
  split_and!; [|by rewrite (abs_size _ Hok')|by rewrite cleanup_eq].
  intros k r. unfold abs. rewrite !flow_map_lookup by (apply Hok || apply Hok').
  rewrite cleanup_eq. simpl. setoid_rewrite list_lookup_fmap. setoid_rewrite fmap_Some. split.
  - intros (i & (x & Hx & ->) & Ha & Hk). destruct (stale ts age x) eqn:S; [done|].
    split; [eauto|]. rewrite <- stale_iff by done. by rewrite S.
  - intros ((i & Hi & Ha & Hk) & S). exists i. split; [|done]. exists r.
    rewrite <- stale_iff in S by done. by destruct (stale ts age r).
Qed.

(** A slot freed by [flow_tracker_cleanup] keeps its counters: in a table of
    one slot, the flow that takes over the slot of an expired flow of [n1] bytes
    is reported, after its first packet of [n2] bytes, with [n1 + n2] bytes and
    two packets. *)
Lemma reused_slot_inherits a b c ft0 k1 k2 n1 n2 ts1 ts2 ts3 age now1 now2 pid :
  flow_tracker_create a b c 1 = Some ft0 ->
  0 < ts1 -> is_u64 ts1 -> is_u64 ts2 -> 0 <= age -> age < ts2 - ts1 -> is_u64 n1 -> is_u64 n2 ->
  let ft1 := flow_tracker_update_single ts1 now1 ft0 k1 n1 pid in
  let ft2 := flow_tracker_cleanup ts2 ft1 age in
  let ft3 := flow_tracker_update_single ts3 now2 ft2 k2 n2 pid in
  abs ft2 = ∅ /\
  exists r, abs ft3 = {[k2 := r]} /\
    v_bytes (r_value r) = u64 (n1 + n2) /\ v_packets (r_value r) = 2.
Proof.
  intros Hc Hts1 Hu1 Hu2 Hage Hlt Hn1 Hn2 ft1 ft2 ft3.
  unfold flow_tracker_create in Hc. destruct a, b, c; try done. injection Hc as <-.
  set (r1 := set_value (bump_value ts1 n1) (claim_slot now1 k1 zero_record)).
  assert (ft_records ft1 = [r1]) as E1 by (by apply single_slot_claim).
  assert (stale ts2 age r1 = true) as Hst.
  { unfold stale. simpl. rewrite (proj2 (Z.ltb_lt 0 ts1)) by lia.
    rewrite u64_sub_exact by (done || lia). simpl. apply Z.ltb_lt. lia. }
  assert (ft_records ft2 = [deactivate r1]) as E2.
  { unfold ft2. rewrite cleanup_eq. cbn [ft_records]. rewrite E1. cbn [map]. by rewrite Hst. }
  assert (ft_records ft3 = [set_value (bump_value ts3 n2) (claim_slot now2 k2 (deactivate r1))])
    as E3 by (by apply single_slot_claim).
  unfold abs. rewrite E2, E3. split; [done|]. eexists. split; [reflexivity|]. simpl.
  rewrite (u64_small (0 + n1)), (u64_small (0 + 1)), Z.add_0_l by mlia. split; [done|].
  apply u64_small. mlia.
Qed.

(** The three counters of a flow the check may change, and the rest of its
    record. *)
Definition retx_counters (v : flow_value_t) : Z * Z * Z :=
  (v_retransmits v, v_dup_acks v, v_seq_expected v).

Definition retx_rest (v : flow_value_t) :=
  (v_bytes v, v_packets v, v_first_seen_ns v, v_last_seen_ns v, v_pid v, v_comm v,
   v_max_pkt_size v, v_min_pkt_size v, v_tcp_flags_seen v, v_out_of_order v).

(** The outcome the algorithm above the function asks for.  [flags] has FIN in
    bit 0, SYN in bit 1 and ACK in bit 4; [last] is what the ring of pure ACKs
    holds at the position this ACK overwrites; [acks] says whether the ring
    moves. *)
Inductive classified (seq len flags last : Z)
  : Z * Z * Z -> retx_result -> Z * Z * Z -> bool -> Prop :=
| RC_syn_fin rt da e :
    Z.testbit flags 0 = true \/ Z.testbit flags 1 = true ->
    classified seq len flags last (rt, da, e) (mk_retx 0 0 0) (rt, da, (seq + 1) mod 2 ^ 32) false
| RC_retransmission rt da e :
    Z.testbit flags 0 = false -> Z.testbit flags 1 = false -> 0 < len -> e <> 0 -> seq < e ->
    classified seq len flags last (rt, da, e) (mk_retx 0 1 0) ((rt + 1) mod 2 ^ 32, da, e) false
| RC_data rt da e :
    Z.testbit flags 0 = false -> Z.testbit flags 1 = false -> 0 < len -> e = 0 \/ e <= seq ->
    classified seq len flags last (rt, da, e) (mk_retx 0 0 0) (rt, da, (seq + len) mod 2 ^ 32) false
| RC_dup_ack rt da e :
    Z.testbit flags 0 = false -> Z.testbit flags 1 = false -> Z.testbit flags 4 = true ->
    len = 0 -> seq = last -> seq <> 0 ->
    classified seq len flags last (rt, da, e) (mk_retx 0 0 1) (rt, (da + 1) mod 2 ^ 32, e) true
| RC_ack rt da e :
    Z.testbit flags 0 = false -> Z.testbit flags 1 = false -> Z.testbit flags 4 = true ->
    len = 0 -> seq <> last \/ seq = 0 ->
    classified seq len flags last (rt, da, e) (mk_retx 0 0 0) (rt, da, e) true
| RC_empty rt da e :
    Z.testbit flags 0 = false -> Z.testbit flags 1 = false -> Z.testbit flags 4 = false ->
    len = 0 ->
    classified seq len flags last (rt, da, e) (mk_retx 0 0 0) (rt, da, e) false.

Lemma ack_testbit flags : has_flag flags TCP_FLAG_ACK = Z.testbit flags 4.
Proof. by apply (has_flag_testbit flags 4). Qed.

Lemma consumes_seq_testbit flags :
  consumes_seq flags = Z.testbit flags 0 || Z.testbit flags 1.
Proof.
  unfold consumes_seq. rewrite (has_flag_testbit flags 1 ltac:(lia) : has_flag _ TCP_FLAG_SYN = _).
  rewrite (has_flag_testbit flags 0 ltac:(lia) : has_flag _ TCP_FLAG_FIN = _). apply orb_comm.
Qed.

(** A packet that is not a pure ACK. *)
Lemma retx_spec_classified seq len flags last v :
  0 <= len -> pure_ack len flags = false ->
  classified seq len flags last (retx_counters v) (fst (retx_spec seq len flags v))
    (retx_counters (snd (retx_spec seq len flags v))) false /\
  retx_rest (snd (retx_spec seq len flags v)) = retx_rest v.
Proof.
  unfold pure_ack, retx_spec, behind. rewrite consumes_seq_testbit.
  rewrite ack_testbit. intros Hlen Hp.
  destruct (Z.testbit flags 0) eqn:E0; [by split; [apply RC_syn_fin; left|]|].
  destruct (Z.testbit flags 1) eqn:E1; [by split; [apply RC_syn_fin; right|]|].
  cbn [orb negb andb] in *. destruct (Z.ltb_spec 0 len).
  - destruct (Z.eqb_spec (v_seq_expected v) 0); simpl; [by split; [apply RC_data; auto|]|].
    destruct (Z.ltb_spec seq (v_seq_expected v)); simpl;
      (split; [|done]); [by apply RC_retransmission|apply RC_data; auto].
  - split; [|done]. apply RC_empty; [done..| |lia].
    destruct (Z.testbit flags 4); [|done]. apply Z.eqb_neq in Hp. lia.
Qed.

(** The ring position of the next pure ACK, and the ring once it is recorded. *)
Definition ring_last (st : ack_state) : Z :=
  default 0 (last_ack_per_flow st !! Z.to_nat (flow_idx st mod 4096)).

Definition ring_record (st : ack_state) (seq : Z) : ack_state :=
  mk_ack (<[Z.to_nat (flow_idx st mod 4096) := seq]> (last_ack_per_flow st)) (flow_idx st + 1).

Lemma pure_ack_spec now ft st key r seq flags :
  ft_ok ft -> abs ft !! key = Some r -> ack_ok st -> flow_idx st < 2 ^ 31 - 1 ->
  pure_ack 0 flags = true ->
  exists x ft' f,
    flow_tracker_check_tcp_retransmit now ft st key seq 0 flags = Done (x, ft', ring_record st seq) /\
    abs ft' = <[key := set_value f r]> (abs ft) /\
    classified seq 0 flags (ring_last st) (retx_counters (r_value r)) x
      (retx_counters (f (r_value r))) true /\
    retx_rest (f (r_value r)) = retx_rest (r_value r).
Proof.
  intros Hok Hm Hack Hlt Hp.
  destruct (find_record_present now ft key r Hok Hm) as (i & E & Hi & Hk & Ha).
  destruct (check_pure_ack_Done st seq Hack Hlt) as (last & Hlast & Ec).
  assert (ring_last st = last) as -> by (unfold ring_last; by rewrite Hlast).
  unfold pure_ack in Hp. apply andb_true_iff in Hp as [[Hc Hf]%andb_true_iff _].
  apply negb_true_iff in Hc. pose proof Hc as Hc'. pose proof Hf as Hf'.
  rewrite consumes_seq_testbit in Hc'. apply orb_false_iff in Hc' as [H0 H1].
  rewrite ack_testbit in Hf'.
  unfold flow_tracker_check_tcp_retransmit. rewrite E, Hi. cbv zeta.
  rewrite data_packet_eq, Hc, Hf. simpl. rewrite Ec, bind_Done.
  destruct ((last =? seq) && negb (seq =? 0)) eqn:Ed; eexists _, _.
  - exists count_dup_ack. split; [reflexivity|].
    rewrite (upd_rec_abs _ _ r), Hk by auto with stb. split; [done|]. split; [|done].
    apply andb_true_iff in Ed as [->%Z.eqb_eq Hz%negb_true_iff%Z.eqb_neq]. by apply RC_dup_ack.
  - exists (fun v => v). split; [reflexivity|].
    split; [symmetry; apply insert_id; rewrite Hm; by destruct r|]. split; [|done].
    apply RC_ack; [done..|]. apply andb_false_iff in Ed as [Ed%Z.eqb_neq|Ed%negb_false_iff%Z.eqb_eq];
      [left; congruence|by right].
Qed.

(** C23: the classification of [flow_tracker_check_tcp_retransmit] for every
    packet of a known flow.  SYN and FIN set the expected sequence number one
    after them.  A packet with data below a non-zero expected number (an
    unsigned comparison) is reported as a retransmission and counted, without
    moving the expected number; any other data packet moves it to its end,
    modulo 2^32.  A pure ACK is a duplicate, and counted, exactly when its
    non-zero number equals what the shared ring of 4096 entries holds at the
    position it overwrites; only pure ACKs move the ring (below 2^31 - 1 ACKs,
    where its index would overflow).  An empty packet changes nothing; no other
    counter and no other flow is touched. *)
Theorem retransmit_classification now ft st key r seq len flags :
  ft_ok ft -> abs ft !! key = Some r -> ack_ok st -> flow_idx st < 2 ^ 31 - 1 ->
  is_u32 seq -> is_u16 len -> is_u8 flags ->
  exists x ft' st' v' acks,
    flow_tracker_check_tcp_retransmit now ft st key seq len flags = Done (x, ft', st') /\
    classified seq len flags (ring_last st) (retx_counters (r_value r)) x (retx_counters v') acks /\
    retx_rest v' = retx_rest (r_value r) /\
    st' = (if acks then ring_record st seq else st) /\
    abs ft' = <[key := mk_rec key v' (r_prev_rx_queue r) (r_prev_tx_queue r) true]> (abs ft).
Proof.
  intros Hok Hm Hack Hlt Hs Hl Hfl.
  destruct (find_record_present now ft key r Hok Hm) as (i & _ & _ & Hk & Ha).
  destruct (pure_ack len flags) eqn:Hp.
  - assert (len = 0) as ->.
    { unfold pure_ack in Hp. apply andb_true_iff in Hp as [_ Hz%Z.eqb_eq]. done. }
    destruct (pure_ack_spec now ft st key r seq flags) as (x & ft' & f & E & Hft & Hcl & Hr);
      [done..|].
    exists x, ft', (ring_record st seq), (f (r_value r)), true. split_and!; [done..|].
    by rewrite Hft, <- Hk, <- Ha.
  - destruct (retransmit_spec now ft st key r seq len flags) as (ft' & E & _ & Hft); [done..|mlia|done|].
    destruct (retx_spec_classified seq len flags (ring_last st) (r_value r)) as [Hcl Hr]; [mlia|done|].
    eexists _, _, _, _, false. split_and!; [apply E|apply Hcl|apply Hr|done|].
    by rewrite Hft, <- Hk, <- Ha.
Qed.

(** Segments sent in order, each starting where the previous one ended (the
    sequence numbers may wrap around), are never reported as retransmissions. *)
Lemma in_order_not_retransmit now ft st key r lens :
  ft_ok ft -> abs ft !! key = Some r -> Forall (fun len => 0 < len) lens ->
  in_order now ft st key (v_seq_expected (r_value r)) lens = Done (replicate (length lens) 0).
Proof.
  intros Hok Hm Hlens. revert ft r Hok Hm.
  induction Hlens as [|len lens Hlen _ IH]; intros ft r Hok Hm; [done|].
  destruct (retransmit_spec now ft st key r (v_seq_expected (r_value r)) len TCP_FLAG_ACK)
    as (ft' & E & Hok' & Ha); [done|done|lia| |].
  { unfold pure_ack. rewrite (proj2 (Z.eqb_neq len 0)) by lia. apply andb_false_r. }
  assert (retx_spec (v_seq_expected (r_value r)) len TCP_FLAG_ACK (r_value r) =
    (mk_retx 0 0 0, set_v_seq_expected (u32 (v_seq_expected (r_value r) + len)) (r_value r))) as Es.
  { unfold retx_spec, behind. change (consumes_seq TCP_FLAG_ACK) with false.
    by rewrite (proj2 (Z.ltb_lt 0 len)), Z.ltb_irrefl, andb_false_r. }
  simpl. rewrite E, Es, bind_Done. simpl. rewrite Es in Ha.
  specialize (IH ft' _ Hok' ltac:(rewrite Ha; apply lookup_insert_eq)). simpl in IH.
  by rewrite IH.
Qed.

(** Duplicate ACKs are looked up in a ring of 4096 entries shared by all
    flows and advanced by every pure ACK, so that none of the first 4096 pure
    ACKs after start-up is ever reported as a duplicate, even when they repeat
    the same number on the same flow. *)
Lemma first_acks_never_duplicate now ft acks :
  (length acks <= 4096)%nat ->
  ack_run now ft ack_init acks = Done (replicate (length acks) 0).
Proof.
  intros Hlen.
  assert (forall st, ack_ok st -> ring_fresh st -> flow_idx st + zlen acks <= 4096 ->
    ack_run now ft st acks = Done (replicate (length acks) 0)) as H.
  { clear Hlen. revert ft. induction acks as [|[key seq] acks IH]; intros ft st Hok Hf Hlt; [done|].
    simpl in Hlt. destruct (pure_ack_fresh now ft st key seq) as (x & ft' & st' & E & Hx & Hok' & Hf' & ?);
      [done..|lia|].
    simpl. rewrite E, bind_Done. rewrite IH by (done || lia). by rewrite bind_Done, Hx. }
  apply H; [apply ack_init_ok|apply ring_fresh_init|]. change (flow_idx ack_init) with 0. lia.
Qed.

(** ** Witnesses *)

Definition ex_key (p : Z) : flow_key_t := mk_key 1 2 p 443 6 4 0.
Definition ex_ft : flow_tracker :=
  default (mk_ft [] 0 [] 0 0 0) (flow_tracker_create true true true 2).
Definition ex_ft1 : flow_tracker := flow_tracker_update_single 100 90 ex_ft (ex_key 1) 60 [].

Lemma ex_key_ok p : is_u16 p -> key_ok (ex_key p).
Proof. intros. constructor; simpl; mlia || done. Defined.

Lemma ex_ft_ok : ft_ok ex_ft.
Proof. by apply (create_ok true true true 2). Qed.

Lemma ex_ft1_ok : ft_ok ex_ft1.
Proof.
  apply update_single_ok; [mlia|apply ex_key_ok; mlia|mlia|apply ex_ft_ok].
Qed.

Lemma ft_reachable_ok_witness : ft_ok ex_ft1 /\ ack_ok ack_init /\ 0 <= ft_active_count ex_ft1 <= ft_max_flows ex_ft1.
Proof.
  apply (ft_reachable_ok true true true 2 ex_ft); [lia|reflexivity|].
  apply rtc_once. apply (FS_update_single 100 90 ex_ft ack_init (ex_key 1) 60 []);
    [mlia|apply ex_key_ok; mlia|mlia].
Defined.

Lemma tracker_refines_map_witness :
  abs (run_cmds [CSingle 100 90 (ex_key 1) 60 []; CFlush] ex_ft) =
  spec_cmds 2 [CSingle 100 90 (ex_key 1) 60 []; CFlush] ∅.
Proof.
  apply (tracker_refines_map true true true 2); [lia|reflexivity|].
  repeat constructor; simpl; try apply ex_key_ok; mlia.
Defined.

Lemma cleanup_exact_witness :
  queue (flow_tracker_cleanup 1000 ex_ft1 10) = queue ex_ft1.
Proof. apply (cleanup_exact 1000 ex_ft1 10 ex_ft1_ok). Defined.

Lemma reused_slot_inherits_witness :
  exists ft0, flow_tracker_create true true true 1 = Some ft0 /\
  abs (flow_tracker_cleanup 70000000000
    (flow_tracker_update_single 5 5 ft0 (ex_key 1) 1500 []) 60000000000) = ∅.
Proof.
  eexists. split; [reflexivity|].
  refine (proj1 (reused_slot_inherits true true true _ (ex_key 1) (ex_key 2) 1500 60
    5 70000000000 70000000001 60000000000 5 70000000001 [] eq_refl _ _ _ _ _ _ _)); mlia.
Defined.

Lemma ex_ft1_lookup : abs ex_ft1 !! ex_key 1 =
  Some (set_value (bump_value 100 60) (claim_slot 90 (ex_key 1) zero_record)).
Proof. vm_compute. reflexivity. Qed.

Lemma retransmit_classification_witness :
  exists x ft', flow_tracker_check_tcp_retransmit 7 ex_ft1 ack_init (ex_key 1) 1000 20 TCP_FLAG_ACK =
    Done (x, ft', ack_init) /\ x_is_retransmit x = 0.
Proof.
  destruct (retransmit_classification 7 ex_ft1 ack_init (ex_key 1) _ 1000 20 TCP_FLAG_ACK
    ex_ft1_ok ex_ft1_lookup ack_init_ok) as (x & ft' & st' & v' & acks & E & Hc & _ & Hst & _);
    [done|mlia|mlia|done|].
  exists x, ft'. inversion Hc; subst; try done.
Defined.

Lemma in_order_not_retransmit_witness :
  in_order 7 ex_ft1 ack_init (ex_key 1) 0 [20; 30; 5] = Done [0; 0; 0].
Proof.
  apply (in_order_not_retransmit 7 ex_ft1 ack_init (ex_key 1) _ [20; 30; 5] ex_ft1_ok ex_ft1_lookup).
  repeat constructor; lia.
Defined.

Lemma first_acks_never_duplicate_witness :
  ack_run 7 ex_ft1 ack_init [(ex_key 1, 55); (ex_key 1, 55); (ex_key 1, 55)] = Done [0; 0; 0].
Proof.
  apply (first_acks_never_duplicate 7 ex_ft1 [(ex_key 1, 55); (ex_key 1, 55); (ex_key 1, 55)]).
  simpl. lia.
Defined.
