(* ===== verification/PacketParser.v ===== *)
(** PacketParser: src/packet_parser.c.

    [packet_parse_raw] reads a captured Ethernet frame.  The frame is the byte
    array [p] of which the first [len] bytes were received; every access goes
    through [rd] or [memcpy_from], which are [Undefined] outside the array, so
    that memory safety is a theorem and not an assumption.
    [packet_to_flow_event] classifies the packet. *)

From stdpp Require Import base list strings numbers option pretty.
From S2P Require Import Prelude CLib Common.

(** ** Data *)

(** [struct pkt_event_t]; the [_pad] bytes are never read. *)
Record pkt_event_t : Type := mk_pkt {
  q_timestamp_ns : Z;
  q_src_ip : Z;
  q_dst_ip : Z;
  q_src_port : Z;
  q_dst_port : Z;
  q_protocol : Z;
  q_tcp_flags : Z;
  q_pkt_len : Z;
  q_ifindex : Z;
  q_pid : Z;
  q_ip_version : Z;
  q_payload_type : Z;
  q_latency_us : Z
}.

Definition zero_pkt : pkt_event_t := mk_pkt 0 0 0 0 0 0 0 0 0 0 0 0 0.

Definition set_q_timestamp_ns (v : Z) (r : pkt_event_t) : pkt_event_t :=
  mk_pkt v (q_src_ip r) (q_dst_ip r) (q_src_port r) (q_dst_port r) (q_protocol r)
    (q_tcp_flags r) (q_pkt_len r) (q_ifindex r) (q_pid r) (q_ip_version r) (q_payload_type
    r) (q_latency_us r).
Definition set_q_pkt_len (v : Z) (r : pkt_event_t) : pkt_event_t :=
  mk_pkt (q_timestamp_ns r) (q_src_ip r) (q_dst_ip r) (q_src_port r) (q_dst_port r)
    (q_protocol r) (q_tcp_flags r) v (q_ifindex r) (q_pid r) (q_ip_version r)
    (q_payload_type r) (q_latency_us r).
Definition set_q_tcp_flags (v : Z) (r : pkt_event_t) : pkt_event_t :=
  mk_pkt (q_timestamp_ns r) (q_src_ip r) (q_dst_ip r) (q_src_port r) (q_dst_port r)
    (q_protocol r) v (q_pkt_len r) (q_ifindex r) (q_pid r) (q_ip_version r) (q_payload_type
    r) (q_latency_us r).
Definition set_q_ports (v_src_port : Z) (v_dst_port : Z) (r : pkt_event_t) : pkt_event_t :=
  mk_pkt (q_timestamp_ns r) (q_src_ip r) (q_dst_ip r) v_src_port v_dst_port (q_protocol r)
    (q_tcp_flags r) (q_pkt_len r) (q_ifindex r) (q_pid r) (q_ip_version r) (q_payload_type
    r) (q_latency_us r).
Definition set_q_ip (v_src_ip : Z) (v_dst_ip : Z) (v_protocol : Z) (v_ip_version : Z) (r : pkt_event_t) : pkt_event_t :=
  mk_pkt (q_timestamp_ns r) v_src_ip v_dst_ip (q_src_port r) (q_dst_port r) v_protocol
    (q_tcp_flags r) (q_pkt_len r) (q_ifindex r) (q_pid r) v_ip_version (q_payload_type r)
    (q_latency_us r).

(** ** Reading the frame *)

(** [memcpy(&hdr, p + off, n)]: the [n] bytes of the header. *)
Definition memcpy_from (p : bytes) (off : Z) (n : nat) : exec bytes :=
  if (0 <=? off) && (off + Z.of_nat n <=? zlen p)
  then Done (take n (drop (Z.to_nat off) p)) else Undefined.

Definition byte_at (h : bytes) (i : nat) : Z := default 0 (h !! i).

(** [ntohs] of a 16-bit field and the 32-bit word at [i] of a header. *)
Definition net16 (h : bytes) (i : nat) : Z := be16 (byte_at h i) (byte_at h (S i)).
Definition word32 (h : bytes) (i : nat) : Z :=
  le32 (byte_at h i) (byte_at h (i + 1)) (byte_at h (i + 2)) (byte_at h (i + 3)).

(** The [syn], [ack], ... bits of byte 13 of the TCP header, re-encoded. *)
Definition flag_if (b bit acc : Z) : Z := if has_flag b bit then Z.lor acc bit else acc.

Definition tcp_flags_v4 (b : Z) : Z :=
  flag_if b TCP_FLAG_URG (flag_if b TCP_FLAG_PSH (flag_if b TCP_FLAG_RST
    (flag_if b TCP_FLAG_FIN (flag_if b TCP_FLAG_ACK (flag_if b TCP_FLAG_SYN 0))))).

Definition tcp_flags_v6 (b : Z) : Z :=
  flag_if b TCP_FLAG_RST (flag_if b TCP_FLAG_FIN (flag_if b TCP_FLAG_ACK
    (flag_if b TCP_FLAG_SYN 0))).

Definition ETH_P_IP : Z := 0x0800.
Definition ETH_P_IPV6 : Z := 0x86DD.

(** The transport layer of an IPv4 packet, [evt] already holding the
    addresses. *)
Definition parse_transport_v4 (p : bytes) (len transport_offset protocol : Z)
    (evt : pkt_event_t) : exec (bool * pkt_event_t) :=
  if protocol =? IPPROTO_TCP then
    if len <? transport_offset + 20 then Done (false, evt) else
    tcp ← memcpy_from p transport_offset 20;
    Done (true, set_q_tcp_flags (tcp_flags_v4 (byte_at tcp 13))
                  (set_q_ports (net16 tcp 0) (net16 tcp 2) evt))
  else if protocol =? IPPROTO_UDP then
    if len <? transport_offset + 8 then Done (false, evt) else
    udp ← memcpy_from p transport_offset 8;
    Done (true, set_q_ports (net16 udp 0) (net16 udp 2) evt)
  else if protocol =? IPPROTO_ICMP then
    if len <? transport_offset + 8 then Done (false, evt) else
    icmp ← memcpy_from p transport_offset 8;
    Done (true, set_q_ports 0 (byte_at icmp 0) evt)
  else Done (true, set_q_ports 0 0 evt).

Definition parse_ipv4 (p : bytes) (len eth_offset : Z) (evt : pkt_event_t)
  : exec (bool * pkt_event_t) :=
  if len <? eth_offset + 20 then Done (false, evt) else
  ip ← memcpy_from p eth_offset 20;
  if negb (Z.land (net16 ip 6) 0x1FFF =? 0) then Done (false, evt) else
  let protocol := byte_at ip 9 in
  let evt := set_q_ip (word32 ip 12) (word32 ip 16) protocol 4 evt in
  let ip_hdr_len := Z.land (byte_at ip 0) 0x0F * 4 in
  parse_transport_v4 p len (eth_offset + ip_hdr_len) protocol evt.

(** The XOR fold of a 128-bit address at offset [i] of the header. *)
Definition fold_v6 (h : bytes) (i : nat) : Z :=
  Z.lxor (Z.lxor (Z.lxor (word32 h i) (word32 h (i + 4))) (word32 h (i + 8))) (word32 h (i + 12)).

Definition parse_ipv6 (p : bytes) (len eth_offset : Z) (evt : pkt_event_t)
  : exec (bool * pkt_event_t) :=
  if len <? eth_offset + 40 then Done (false, evt) else
  ip6 ← memcpy_from p eth_offset 40;
  let nexthdr := byte_at ip6 6 in
  let evt := set_q_ip (fold_v6 ip6 8) (fold_v6 ip6 24) nexthdr 6 evt in
  let transport_offset := eth_offset + 40 in
  if nexthdr =? IPPROTO_TCP then
    if len <? transport_offset + 20 then Done (false, evt) else
    tcp ← memcpy_from p transport_offset 20;
    Done (true, set_q_tcp_flags (tcp_flags_v6 (byte_at tcp 13))
                  (set_q_ports (net16 tcp 0) (net16 tcp 2) evt))
  else if nexthdr =? IPPROTO_UDP then
    if len <? transport_offset + 8 then Done (false, evt) else
    udp ← memcpy_from p transport_offset 8;
    Done (true, set_q_ports (net16 udp 0) (net16 udp 2) evt)
  else if nexthdr =? IPPROTO_ICMPV6 then Done (true, set_q_ports 0 0 evt)
  else Done (true, set_q_ports 0 0 evt).

(** The EtherType and the offset of the network header, [None] when a tagged
    frame is too short. *)
Definition parse_ethernet (p : bytes) (len : Z) : exec (option (Z * Z)) :=
  b12 ← rd p 12;
  b13 ← rd p 13;
  let eth_proto := u16 (be16 b12 b13) in
  if eth_proto =? 0x8100 then
    if len <? 18 then Done None else
    b16 ← rd p 16;
    b17 ← rd p 17;
    Done (Some (u16 (be16 b16 b17), 18))
  else Done (Some (eth_proto, 14)).

Definition packet_parse_raw (p : bytes) (len : Z) (evt : pkt_event_t)
  : exec (bool * pkt_event_t) :=
  if len <? 14 then Done (false, evt) else
  eth ← parse_ethernet p len;
  match eth with
  | None => Done (false, evt)
  | Some (eth_proto, eth_offset) =>
      if eth_proto =? ETH_P_IP then parse_ipv4 p len eth_offset evt
      else if eth_proto =? ETH_P_IPV6 then parse_ipv6 p len eth_offset evt
      else Done (false, evt)
  end.

(** ** Classification *)

(** The fields copied from the packet. *)
Definition copy_packet (pkt : pkt_event_t) (probe_id : bytes) : flow_event_t :=
  let flow := set_e_timestamp_ns (q_timestamp_ns pkt) zero_event in
  let flow := put_probe_id probe_id flow in
  let flow := set_e_src_ip (q_src_ip pkt) flow in
  let flow := set_e_dst_ip (q_dst_ip pkt) flow in
  let flow := set_e_src_port (q_src_port pkt) flow in
  let flow := set_e_dst_port (q_dst_port pkt) flow in
  let flow := set_e_tcp_flags (q_tcp_flags pkt) flow in
  let flow := set_e_pkt_len (q_pkt_len pkt) flow in
  let flow := set_e_bytes (q_pkt_len pkt) flow in
  let flow := set_e_packets 1 flow in
  let flow := set_e_pid (q_pid pkt) flow in
  let flow := set_e_ip_version (q_ip_version pkt) flow in
  let flow := set_e_payload_type (q_payload_type pkt) flow in
  set_e_latency_us (q_latency_us pkt) flow.

Definition packet_protocol (pkt : pkt_event_t) (flow : flow_event_t) : flow_event_t :=
  if q_protocol pkt =? IPPROTO_TCP then put_protocol PROTO_TCP flow
  else if q_protocol pkt =? IPPROTO_UDP then put_protocol PROTO_UDP flow
  else if q_protocol pkt =? IPPROTO_ICMP then put_protocol PROTO_ICMP flow
  else print_protocol (decd (q_protocol pkt)) flow.

(** HTTP by payload type or by port. *)
Definition detect_http (pkt : pkt_event_t) (flow : flow_event_t) : flow_event_t :=
  if q_payload_type pkt =? PAYLOAD_HTTP_REQ
  then put_tags (lit "http,request") (put_service (lit "HTTP") flow)
  else if q_payload_type pkt =? PAYLOAD_HTTP_RESP
  then put_tags (lit "http,response") (put_service (lit "HTTP") flow)
  else if (q_protocol pkt =? IPPROTO_TCP) &&
          ((q_src_port pkt =? PORT_HTTP) || (q_dst_port pkt =? PORT_HTTP) ||
           (q_src_port pkt =? PORT_HTTPS) || (q_dst_port pkt =? PORT_HTTPS))
  then put_service (lit "HTTP") flow
  else flow.

Definition is_dns (pkt : pkt_event_t) : bool :=
  (q_protocol pkt =? IPPROTO_UDP) && ((q_src_port pkt =? PORT_DNS) || (q_dst_port pkt =? PORT_DNS)).

Definition packet_to_flow_event (pkt : pkt_event_t) (probe_id : bytes) : flow_event_t :=
  let flow := packet_protocol pkt (copy_packet pkt probe_id) in
  if is_dns pkt then
    let flow := put_category CAT_DNS flow in
    let flow := if q_dst_port pkt =? PORT_DNS then put_event_type EVT_DNS_QUERY flow
                else put_event_type EVT_DNS_REPLY flow in
    put_service (lit "DNS") (put_tags (lit "dns") flow)
  else if q_protocol pkt =? IPPROTO_ICMP then
    let flow := put_category CAT_ICMP flow in
    let flow := if q_dst_port pkt =? 8
                then put_service (lit "ping") (put_event_type EVT_ICMP_ECHO flow) else flow in
    put_tags (lit "icmp") flow
  else if IS_MULTICAST (q_dst_ip pkt) then
    put_category CAT_IPTV (put_service (lit "IPTV") (put_tags (lit "iptv,multicast") flow))
  else
    let flow := detect_http pkt flow in
    if has_flag (q_tcp_flags pkt) TCP_FLAG_SYN then put_event_type EVT_CONNECT flow
    else if has_flag (q_tcp_flags pkt) TCP_FLAG_FIN || has_flag (q_tcp_flags pkt) TCP_FLAG_RST
    then put_event_type EVT_DISCONNECT flow
    else put_event_type EVT_FLOW (put_category CAT_NETWORK flow).

(** ** Bounds *)

Lemma memcpy_from_Done p off n :
  0 <= off -> off + Z.of_nat n <= zlen p ->
  memcpy_from p off n = Done (take n (drop (Z.to_nat off) p)).
Proof. intros H1 H2. unfold memcpy_from. by ztest. Qed.

(** A read below [len] does not see what lies beyond. *)
Lemma memcpy_from_take p off n len :
  0 <= off -> off + Z.of_nat n <= len -> len <= zlen p ->
  memcpy_from (take (Z.to_nat len) p) off n = memcpy_from p off n.
Proof.
  intros H1 H2 H3. rewrite !memcpy_from_Done; [|lia|lia|lia|rewrite length_take; lia].
  f_equal. rewrite skipn_firstn_comm, take_take. f_equal. lia.
Qed.

Lemma rd_take p i len : 0 <= i < len -> rd (take (Z.to_nat len) p) i = rd p i.
Proof.
  intros H. unfold rd. rewrite (proj2 (Z.leb_le 0 i)) by lia.
  by rewrite lookup_take_lt by lia.
Qed.

(** [reads_within f len]: [f] is defined on every array of at least [len]
    bytes and its result depends on the first [len] of them only. *)
Definition reads_within {A} (f : bytes -> exec A) (len : Z) : Prop :=
  forall p, len <= zlen p -> defined (f p) /\ f (take (Z.to_nat len) p) = f p.

Lemma reads_within_ret {A} (a : A) len : reads_within (fun _ => Done a) len.
Proof. intros p _. split; [eauto with stb|done]. Qed.

Lemma reads_within_bind {A B} (f : bytes -> exec A) (g : A -> bytes -> exec B) len :
  reads_within f len -> (forall a, reads_within (g a) len) ->
  reads_within (fun p => a ← f p; g a p) len.
Proof.
  intros Hf Hg p Hp. destruct (Hf p Hp) as [[a Ha] Hft]. rewrite Hft, Ha.
  apply (Hg a p Hp).
Qed.

Lemma reads_within_rd i len : 0 <= i < len -> reads_within (fun p => rd p i) len.
Proof.
  intros Hi p Hp. split; [|by rewrite rd_take].
  destruct (rd_defined p i) as (x & -> & _); [lia|]. eauto with stb.
Qed.

Lemma reads_within_memcpy off n len :
  0 <= off -> off + Z.of_nat n <= len -> reads_within (fun p => memcpy_from p off n) len.
Proof.
  intros H1 H2 p Hp. rewrite memcpy_from_take by lia. split; [|done].
  rewrite memcpy_from_Done by lia. eauto with stb.
Qed.

(** Splits a goal [reads_within (fun p => body) len] along the body. *)
Ltac reads :=
  lazymatch goal with
  | |- reads_within (fun _ => Done _) _ => apply reads_within_ret
  | |- reads_within (fun p => mbind _ (memcpy_from p _ _)) _ =>
      apply (reads_within_bind (fun p => memcpy_from p _ _)); [|intros ?; reads]
  | |- reads_within (fun p => mbind _ (rd p _)) _ =>
      apply (reads_within_bind (fun p => rd p _)); [|intros ?; reads]
  | |- reads_within (fun _ => if ?c then _ else _) _ => destruct c eqn:?; reads
  | |- reads_within (fun _ => match ?c with (_, _) => _ end) _ => destruct c; reads
  | |- reads_within (fun _ => match ?c with Some _ => _ | None => _ end) _ => destruct c; reads
  | _ => idtac
  end.

Ltac reads_lia :=
  first [apply reads_within_memcpy | apply reads_within_rd]; lia.

Lemma parse_ethernet_within len : 14 <= len -> reads_within (fun p => parse_ethernet p len) len.
Proof. intros H. unfold parse_ethernet. reads; reads_lia. Qed.

Lemma parse_transport_v4_within len off proto evt :
  0 <= off -> reads_within (fun p => parse_transport_v4 p len off proto evt) len.
Proof. intros H. unfold parse_transport_v4. reads; reads_lia. Qed.

Lemma parse_ipv4_within len off evt :
  0 <= off -> reads_within (fun p => parse_ipv4 p len off evt) len.
Proof.
  intros H. unfold parse_ipv4. reads; [reads_lia|].
  apply parse_transport_v4_within. assert (0 <= Z.land (byte_at a 0) 15); [|lia].
  apply Z.land_nonneg. lia.
Qed.

Lemma parse_ipv6_within len off evt :
  0 <= off -> reads_within (fun p => parse_ipv6 p len off evt) len.
Proof. intros H. unfold parse_ipv6. reads; reads_lia. Qed.

Lemma parse_ethernet_offset p len x : parse_ethernet p len = Done (Some x) -> 14 <= x.2.
Proof.
  unfold parse_ethernet. intros (b12 & _ & (b13 & _ & H)%bind_Done_inv)%bind_Done_inv.
  revert H. case_match.
  - case_match; [done|]. intros (b16 & _ & (b17 & _ & [= <-])%bind_Done_inv)%bind_Done_inv.
    simpl. lia.
  - intros [= <-]. simpl. lia.
Qed.

Lemma parse_raw_within (len : Z) (evt : pkt_event_t) :
  reads_within (fun p => packet_parse_raw p len evt) len.
Proof.
  unfold packet_parse_raw. destruct (len <? 14) eqn:E; [apply reads_within_ret|].
  intros p Hp. destruct (parse_ethernet_within len ltac:(lia) p Hp) as [[o Ho] Ht].
  cbv beta in *. rewrite Ht, Ho. autorewrite with stb.
  destruct o as [[proto off]|]; [|split; [eauto with stb|done]].
  apply parse_ethernet_offset in Ho. simpl in Ho.
  case_match; [apply parse_ipv4_within; [lia|done]|].
  case_match; [apply parse_ipv6_within; [lia|done]|]. split; [eauto with stb|done].
Qed.

(** C8: memory safety of [packet_parse_raw]: given a buffer of at least [len]
    bytes (any contents, any [len], also zero or negative), the parser never
    reads outside the first [len] bytes: it is defined, and truncating the
    buffer to these bytes changes nothing. *)
Theorem packet_parse_raw_within (len : Z) (evt : pkt_event_t) :
  reads_within (fun p => packet_parse_raw p len evt) len.
Proof. apply parse_raw_within. Qed.

(** ** Reference encoder

    Frames as RFC 894, 791, 793, 768, 792 and 8200 lay them out, with a VLAN
    tag or without, IPv4 options or without. *)

Inductive transport : Type :=
| Tcp (sport dport : Z) (seq_ack_off : bytes) (flags : Z) (rest : bytes)
| Udp (sport dport : Z) (rest : bytes)
| Icmp (type : Z) (rest : bytes)
| Other (protocol : Z) (rest : bytes).

Definition transport_ok (t : transport) : Prop :=
  match t with
  | Tcp s d x f r => is_u16 s /\ is_u16 d /\ length x = 9%nat /\ is_byte f /\ (6 <= length r)%nat
  | Udp s d r => is_u16 s /\ is_u16 d /\ (4 <= length r)%nat
  | Icmp t r => is_byte t /\ (7 <= length r)%nat
  | Other p r => is_byte p /\ p <> IPPROTO_TCP /\ p <> IPPROTO_UDP /\ p <> IPPROTO_ICMP
  end.

Definition enc_transport (t : transport) : bytes :=
  match t with
  | Tcp s d x f r => enc16 s ++ enc16 d ++ x ++ [f] ++ r
  | Udp s d r => enc16 s ++ enc16 d ++ r
  | Icmp t r => t :: r
  | Other _ r => r
  end.

Definition transport_proto (t : transport) : Z :=
  match t with
  | Tcp _ _ _ _ _ => IPPROTO_TCP
  | Udp _ _ _ => IPPROTO_UDP
  | Icmp _ _ => IPPROTO_ICMP
  | Other p _ => p
  end.

Definition enc32 (w : Z) : bytes := [byte_of w 0; byte_of w 1; byte_of w 2; byte_of w 3].

Record ip4_packet : Type := mk_ip4 {
  i4_tos_len_id : bytes;      (* 5 bytes *)
  i4_df_mf : Z;               (* the three flag bits *)
  i4_ttl : Z;
  i4_sum : bytes;             (* 2 bytes *)
  i4_src : Z;
  i4_dst : Z;
  i4_options : bytes;         (* 0 to 40 bytes, a multiple of 4 *)
  i4_payload : transport
}.

Record ip4_ok (i : ip4_packet) : Prop := mk_ip4_ok {
  i4ok_head : length (i4_tos_len_id i) = 5%nat;
  i4ok_df_mf : 0 <= i4_df_mf i < 8;
  i4ok_sum : length (i4_sum i) = 2%nat;
  i4ok_src : is_u32 (i4_src i);
  i4ok_dst : is_u32 (i4_dst i);
  i4ok_options : exists k, (k <= 10)%nat /\ length (i4_options i) = (4 * k)%nat;
  i4ok_payload : transport_ok (i4_payload i)
}.

(** The 20 bytes of the fixed part of the header; [frag] is the fragment
    offset. *)
Definition enc_ip4_header (frag : Z) (i : ip4_packet) : bytes :=
  (0x40 + (5 + zlen (i4_options i) / 4)) :: i4_tos_len_id i ++
  [i4_df_mf i * 32 + frag / 256; frag mod 256; i4_ttl i; transport_proto (i4_payload i)] ++
  i4_sum i ++ enc32 (i4_src i) ++ enc32 (i4_dst i).

Definition enc_ip4 (frag : Z) (i : ip4_packet) : bytes :=
  enc_ip4_header frag i ++ i4_options i ++ enc_transport (i4_payload i).

(** Link header: the two MAC addresses (12 bytes), an optional VLAN tag (two
    bytes after 0x8100), the EtherType. *)
Definition enc_eth (macs : bytes) (vlan : option (Z * Z)) (ethertype : Z) : bytes :=
  macs ++ (match vlan with Some (a, b) => [0x81; 0x00; a; b] | None => [] end) ++ enc16 ethertype.

(** What the parser reports of an IPv4 packet. *)
Definition transport_event (t : transport) (evt : pkt_event_t) : pkt_event_t :=
  match t with
  | Tcp s d _ f _ => set_q_tcp_flags (Z.land f 0x3F) (set_q_ports s d evt)
  | Udp s d _ => set_q_ports s d evt
  | Icmp t _ => set_q_ports 0 t evt
  | Other _ _ => set_q_ports 0 0 evt
  end.

Definition ip4_event (i : ip4_packet) (evt : pkt_event_t) : pkt_event_t :=
  transport_event (i4_payload i)
    (set_q_ip (i4_src i) (i4_dst i) (transport_proto (i4_payload i)) 4 evt).

Lemma memcpy_from_app pre h post off n :
  off = zlen pre -> n = length h -> memcpy_from (pre ++ h ++ post) off n = Done h.
Proof.
  intros -> ->. rewrite memcpy_from_Done; [|lia|rewrite !length_app; lia].
  by rewrite Nat2Z.id, drop_app_length, take_app_length.
Qed.

(** The six flag bits survive the re-encoding. *)
Lemma flag_if_land b bit acc :
  flag_if b bit acc = Z.lor acc (if Z.land b bit =? 0 then 0 else bit).
Proof. unfold flag_if, has_flag. destruct (_ =? 0); simpl; [by rewrite Z.lor_0_r|done]. Qed.

Lemma forall_byte (P : Z -> bool) :
  forallb P (seqZ 0 256) = true -> forall b, is_byte b -> P b = true.
Proof.
  intros H b Hb. rewrite forallb_forall in H. apply H.
  apply list_elem_of_In, elem_of_seqZ. unfold is_byte in Hb. lia.
Qed.

Lemma tcp_flags_v4_land b : is_byte b -> tcp_flags_v4 b = Z.land b 0x3F.
Proof.
  intros Hb. apply Z.eqb_eq.
  apply (forall_byte (fun b => tcp_flags_v4 b =? Z.land b 0x3F)); [vm_compute; done|done].
Qed.

Lemma tcp_flags_v6_land b : is_byte b -> tcp_flags_v6 b = Z.land b 0x17.
Proof.
  intros Hb. apply Z.eqb_eq.
  apply (forall_byte (fun b => tcp_flags_v6 b =? Z.land b 0x17)); [vm_compute; done|done].
Qed.

(** Names the elements of a list whose length is a numeral. *)
Ltac list_elems l H :=
  lazymatch type of H with
  | length _ = O => apply nil_length_inv in H; subst l
  | _ =>
      let x := fresh "b" in
      destruct l as [|x l]; [discriminate H|];
      cbn [length] in H; apply eq_add_S in H; list_elems l H
  end.

Lemma byte_at_app_l h t i : (i < length h)%nat -> byte_at (h ++ t) i = byte_at h i.
Proof. intros H. unfold byte_at. by rewrite lookup_app_l. Qed.

(** The transport header at the end of a frame, as the parsers copy it. *)
Lemma tcp_header_enc pre s d x f r :
  transport_ok (Tcp s d x f r) ->
  exists h, memcpy_from (pre ++ enc_transport (Tcp s d x f r)) (zlen pre) 20 = Done h /\
            net16 h 0 = s /\ net16 h 2 = d /\ byte_at h 13 = f /\
            20 <= zlen (enc_transport (Tcp s d x f r)).
Proof.
  intros (Hs & Hd & Hx & Hf & Hr).
  exists (enc16 s ++ enc16 d ++ x ++ f :: take 6 r).
  assert (Hl : length (enc16 s ++ enc16 d ++ x ++ f :: take 6 r) = 20%nat)
    by (rewrite !length_app, length_cons, length_take, Hx; simpl (length (enc16 _)); lia).
  replace (enc_transport (Tcp s d x f r))
    with ((enc16 s ++ enc16 d ++ x ++ f :: take 6 r) ++ drop 6 r)
    by (rewrite <- !app_assoc, <- app_comm_cons, take_drop; done).
  rewrite memcpy_from_app by done. split; [done|]. unfold net16. rewrite length_app, Hl.
  list_elems x Hx. cbn -[be16 Z.div Z.modulo Z.of_nat]. rewrite !be16_enc16 by done.
  repeat split; lia.
Qed.

Lemma udp_header_enc pre s d r :
  transport_ok (Udp s d r) ->
  exists h, memcpy_from (pre ++ enc_transport (Udp s d r)) (zlen pre) 8 = Done h /\
            net16 h 0 = s /\ net16 h 2 = d /\ 8 <= zlen (enc_transport (Udp s d r)).
Proof.
  intros (Hs & Hd & Hr). exists (enc16 s ++ enc16 d ++ take 4 r).
  assert (Hl : length (enc16 s ++ enc16 d ++ take 4 r) = 8%nat)
    by (rewrite !length_app, length_take; simpl (length (enc16 _)); lia).
  replace (enc_transport (Udp s d r)) with ((enc16 s ++ enc16 d ++ take 4 r) ++ drop 4 r)
    by (rewrite <- !app_assoc, take_drop; done).
  rewrite memcpy_from_app by done. split; [done|]. unfold net16. rewrite length_app, Hl.
  cbn -[be16 Z.div Z.modulo Z.of_nat]. rewrite !be16_enc16 by done. repeat split; lia.
Qed.

Lemma parse_transport_enc pre t evt :
  transport_ok t ->
  let p := pre ++ enc_transport t in
  parse_transport_v4 p (zlen p) (zlen pre) (transport_proto t) evt
  = Done (true, transport_event t evt).
Proof.
  intros Ht p. subst p. unfold parse_transport_v4. rewrite length_app, Nat2Z.inj_add.
  destruct t as [s d x f r|s d r|ty r|pr r]; cbn [transport_proto transport_event].
  - destruct (tcp_header_enc pre s d x f r Ht) as (h & Hh & H0 & H2 & H13 & H20).
    simpl (_ =? _). cbv iota. ztest. rewrite Hh. autorewrite with stb.
    by rewrite H0, H2, H13, tcp_flags_v4_land by apply Ht.
  - destruct (udp_header_enc pre s d r Ht) as (h & Hh & H0 & H2 & H20).
    simpl (_ =? _). cbv iota. ztest. rewrite Hh. autorewrite with stb. by rewrite H0, H2.
  - destruct Ht as (Hty & Hr). simpl (_ =? _). cbv iota. cbn [enc_transport length]. ztest.
    rewrite <- (take_drop 7 r), app_comm_cons.
    rewrite (memcpy_from_app pre (ty :: take 7 r)); [done|done|].
    rewrite length_cons, length_take. lia.
  - destruct Ht as (_ & H1 & H2 & H3). by ztest.
Qed.

Lemma net16_frag_zero df : 0 <= df < 8 -> Z.land (be16 (df * 32) 0) 0x1FFF = 0.
Proof.
  intros H. assert (df = 0 \/ df = 1 \/ df = 2 \/ df = 3 \/ df = 4 \/ df = 5 \/ df = 6 \/ df = 7)
    as Hd by lia.
  by repeat destruct Hd as [->|Hd]; [..|subst].
Qed.

Lemma land_ihl k : 0 <= k < 16 -> Z.land (0x40 + k) 0x0F = k.
Proof.
  intros H. change 0x0F with (Z.ones 4). rewrite Z.land_ones by lia.
  change 0x40 with (4 * 2 ^ 4). rewrite Z.add_comm, Z.mod_add by lia. apply Z.mod_small. lia.
Qed.

Lemma length_enc_ip4_header frag i : ip4_ok i -> length (enc_ip4_header frag i) = 20%nat.
Proof.
  intros []. unfold enc_ip4_header. rewrite length_cons, !length_app, i4ok_head0, i4ok_sum0. done.
Qed.

(** The fields of an encoded header, as the parser picks them. *)
Lemma enc_ip4_header_fields frag i :
  ip4_ok i ->
  let h := enc_ip4_header frag i in
  byte_at h 0 = 0x40 + (5 + zlen (i4_options i) / 4) /\
  net16 h 6 = be16 (i4_df_mf i * 32 + frag / 256) (frag mod 256) /\
  byte_at h 9 = transport_proto (i4_payload i) /\
  word32 h 12 = i4_src i /\ word32 h 16 = i4_dst i.
Proof.
  intros [Hh _ Hs Hsrc Hdst _ _]. destruct i as [h df ttl sum src dst opts t]. simpl in *.
  list_elems h Hh. list_elems sum Hs. unfold enc_ip4_header, word32, net16.
  repeat split; try (apply le32_byte_of; done).
Qed.

Lemma parse_ipv4_enc pre i evt :
  ip4_ok i ->
  let p := pre ++ enc_ip4 0 i in
  parse_ipv4 p (zlen p) (zlen pre) evt = Done (true, ip4_event i evt).
Proof.
  intros Hi p. pose proof (length_enc_ip4_header 0 i Hi) as Hlen.
  destruct (enc_ip4_header_fields 0 i Hi) as (H0 & H6 & H9 & H12 & H16). unfold parse_ipv4.
  replace (_ <? _) with false
    by (symmetry; apply Z.ltb_ge; subst p; unfold enc_ip4; rewrite !length_app; lia).
  subst p. unfold enc_ip4. rewrite memcpy_from_app by done. autorewrite with stb.
  destruct Hi as [_ Hdf _ _ _ (k & Hk & Ho) Ht].
  rewrite H0, H6, H9, H12, H16. change (0 / 256) with 0. change (0 mod 256) with 0.
  rewrite Z.add_0_r, net16_frag_zero by done. simpl (negb _). cbv iota.
  assert (Hq : zlen (i4_options i) / 4 = Z.of_nat k)
    by (rewrite Ho, Nat2Z.inj_mul, Z.mul_comm; apply Z.div_mul; lia).
  rewrite Hq, land_ihl by lia.
  replace (zlen pre + _) with (zlen (pre ++ enc_ip4_header 0 i ++ i4_options i))
    by (rewrite !length_app, Hlen, Ho; lia).
  rewrite !app_assoc, <- (app_assoc pre). by apply parse_transport_enc.
Qed.

(** A fragment other than the first is refused, the event untouched. *)
Lemma parse_ipv4_fragment pre frag i evt :
  ip4_ok i -> 0 < frag < 2 ^ 13 ->
  let p := pre ++ enc_ip4 frag i in
  parse_ipv4 p (zlen p) (zlen pre) evt = Done (false, evt).
Proof.
  intros Hi Hf p. pose proof (length_enc_ip4_header frag i Hi) as Hlen.
  destruct (enc_ip4_header_fields frag i Hi) as (_ & H6 & _). unfold parse_ipv4.
  replace (_ <? _) with false
    by (symmetry; apply Z.ltb_ge; subst p; unfold enc_ip4; rewrite !length_app; lia).
  subst p. unfold enc_ip4. rewrite memcpy_from_app by done. autorewrite with stb.
  rewrite H6, be16_val by (apply Z.mod_pos_bound; lia).
  change 0x1FFF with (Z.ones 13). rewrite Z.land_ones by lia.
  replace (_ mod 2 ^ 13) with frag; [by ztest|].
  replace (_ + _) with (frag + i4_df_mf i * 2 ^ 13) by (pose proof (Z.div_mod frag 256); lia).
  rewrite Z.mod_add, Z.mod_small by lia. done.
Qed.

Lemma parse_ethernet_enc macs vlan ty rest :
  length macs = 12%nat -> is_u16 ty -> (vlan = None -> ty <> 0x8100) ->
  let h := enc_eth macs vlan ty in
  parse_ethernet (h ++ rest) (zlen (h ++ rest)) = Done (Some (ty, zlen h)).
Proof.
  intros Hm Hty Hv. list_elems macs Hm. unfold parse_ethernet.
  destruct vlan as [[x y]|]; cbv zeta.
  - rewrite (rd_lookup _ 12 129), (rd_lookup _ 13 0) by done. autorewrite with stb.
    change (u16 (be16 129 0) =? 33024) with true. cbv iota.
    replace (_ <? 18) with false by (symmetry; apply Z.ltb_ge; simpl; lia).
    rewrite (rd_lookup _ 16 (ty / 256)), (rd_lookup _ 17 (ty mod 256)) by done.
    autorewrite with stb. by rewrite be16_enc16, u16_small.
  - rewrite (rd_lookup _ 12 (ty / 256)), (rd_lookup _ 13 (ty mod 256)) by done.
    autorewrite with stb. rewrite be16_enc16, u16_small by done.
    specialize (Hv eq_refl). by ztest.
Qed.

Lemma packet_parse_raw_enc (macs : bytes) (vlan : option (Z * Z)) (i : ip4_packet)
    (frag : Z) (evt : pkt_event_t) :
  length macs = 12%nat -> ip4_ok i -> 0 <= frag < 2 ^ 13 ->
  let p := enc_eth macs vlan ETH_P_IP ++ enc_ip4 frag i in
  packet_parse_raw p (zlen p) evt =
  Done (if frag =? 0 then (true, ip4_event i evt) else (false, evt)).
Proof.
  intros Hm Hi Hf p. subst p. unfold packet_parse_raw.
  assert (14 <= zlen (enc_eth macs vlan ETH_P_IP)).
  { unfold enc_eth. rewrite !length_app, Hm. simpl. lia. }
  replace (_ <? 14) with false by (symmetry; apply Z.ltb_ge; rewrite length_app; lia).
  rewrite parse_ethernet_enc by (done || mlia). autorewrite with stb. simpl (_ =? _).
  cbv iota. zcase.
  - subst. by rewrite parse_ipv4_enc.
  - rewrite parse_ipv4_fragment by (done || lia). done.
Qed.

(** C9: [packet_parse_raw] decodes every well-formed IPv4 frame, whatever its
    link header (VLAN tag or not), IP options, flag bits and payload: it
    returns 1 and the addresses, protocol, ports (or ICMP type) and TCP flags
    that were encoded, and leaves the other fields of the event alone; every
    fragment other than the first is refused with the event untouched. *)
Theorem packet_parse_raw_ipv4 (macs : bytes) (vlan : option (Z * Z)) (i : ip4_packet)
    (frag : Z) (evt : pkt_event_t) :
  length macs = 12%nat -> ip4_ok i -> 0 <= frag < 2 ^ 13 ->
  let p := enc_eth macs vlan ETH_P_IP ++ enc_ip4 frag i in
  packet_parse_raw p (zlen p) evt =
  Done (if frag =? 0 then (true, ip4_event i evt) else (false, evt)).
Proof. apply packet_parse_raw_enc. Qed.

Definition packet_parse_raw_ipv4_example : ip4_packet :=
  mk_ip4 [0; 0; 60; 1; 2] 2 64 [7; 7] 0x0100007F 0x0501A8C0 [1; 1; 1; 0]
    (Tcp 443 51000 (replicate 9 0) 0x12 (replicate 6 0)).

Lemma packet_parse_raw_ipv4_witness :
  let p := enc_eth (replicate 12 9) (Some (0, 5)) ETH_P_IP ++
           enc_ip4 0 packet_parse_raw_ipv4_example in
  packet_parse_raw p (zlen p) zero_pkt =
  Done (true, mk_pkt 0 0x0100007F 0x0501A8C0 443 51000 6 0x12 0 0 0 4 0 0).
Proof.
  apply (packet_parse_raw_ipv4 (replicate 12 9) (Some (0, 5)) packet_parse_raw_ipv4_example 0).
  - reflexivity.
  - constructor; simpl; unfold is_byte; try mlia.
    exists 1%nat. lia.
  - lia.
Defined.

(** ** IPv6 frames *)

Record ip6_packet : Type := mk_ip6 {
  i6_head : bytes;            (* version, class, flow label, length: 6 bytes *)
  i6_hop : Z;
  i6_src : Z * Z * Z * Z;     (* the four words of the address in memory *)
  i6_dst : Z * Z * Z * Z;
  i6_payload : transport
}.

Definition quad_ok (a : Z * Z * Z * Z) : Prop :=
  let '(a0, a1, a2, a3) := a in is_u32 a0 /\ is_u32 a1 /\ is_u32 a2 /\ is_u32 a3.
Definition enc_quad (a : Z * Z * Z * Z) : bytes :=
  let '(a0, a1, a2, a3) := a in enc32 a0 ++ enc32 a1 ++ enc32 a2 ++ enc32 a3.
Definition fold_quad (a : Z * Z * Z * Z) : Z :=
  let '(a0, a1, a2, a3) := a in Z.lxor (Z.lxor (Z.lxor a0 a1) a2) a3.

Record ip6_ok (i : ip6_packet) : Prop := mk_ip6_ok {
  i6ok_head : length (i6_head i) = 6%nat;
  i6ok_src : quad_ok (i6_src i);
  i6ok_dst : quad_ok (i6_dst i);
  i6ok_payload : transport_ok (i6_payload i)
}.

Definition enc_ip6_header (i : ip6_packet) : bytes :=
  i6_head i ++ [transport_proto (i6_payload i); i6_hop i] ++ enc_quad (i6_src i) ++
  enc_quad (i6_dst i).

Definition enc_ip6 (i : ip6_packet) : bytes := enc_ip6_header i ++ enc_transport (i6_payload i).

(** Of an IPv6 packet only four flag bits are kept (PSH and URG are not), and
    only TCP and UDP have ports. *)
Definition transport_event6 (t : transport) (evt : pkt_event_t) : pkt_event_t :=
  match t with
  | Tcp s d _ f _ => set_q_tcp_flags (Z.land f 0x17) (set_q_ports s d evt)
  | Udp s d _ => set_q_ports s d evt
  | Icmp _ _ | Other _ _ => set_q_ports 0 0 evt
  end.

Definition ip6_event (i : ip6_packet) (evt : pkt_event_t) : pkt_event_t :=
  transport_event6 (i6_payload i)
    (set_q_ip (fold_quad (i6_src i)) (fold_quad (i6_dst i))
       (transport_proto (i6_payload i)) 6 evt).

Lemma enc_ip6_header_fields i :
  ip6_ok i ->
  let h := enc_ip6_header i in
  length h = 40%nat /\ byte_at h 6 = transport_proto (i6_payload i) /\
  fold_v6 h 8 = fold_quad (i6_src i) /\ fold_v6 h 24 = fold_quad (i6_dst i).
Proof.
  intros [Hh Hs Hd _]. destruct i as [h hop [[[s0 s1] s2] s3] [[[d0 d1] d2] d3] t]. simpl in *.
  list_elems h Hh. destruct_and!. unfold enc_ip6_header, fold_v6, word32.
  repeat split; cbn -[le32 byte_of Z.lxor]; by rewrite !le32_byte_of.
Qed.

Lemma parse_ipv6_enc pre i evt :
  ip6_ok i ->
  let p := pre ++ enc_ip6 i in
  parse_ipv6 p (zlen p) (zlen pre) evt = Done (true, ip6_event i evt).
Proof.
  intros Hi p. destruct (enc_ip6_header_fields i Hi) as (Hl & H6 & H8 & H24).
  destruct Hi as [_ _ _ Ht]. unfold parse_ipv6, ip6_event.
  assert (Hp : zlen p = zlen pre + 40 + zlen (enc_transport (i6_payload i)))
    by (subst p; unfold enc_ip6; rewrite !length_app; lia).
  replace (_ <? _) with false by (symmetry; apply Z.ltb_ge; lia).
  rewrite Hp. clear Hp. subst p. unfold enc_ip6. rewrite (memcpy_from_app pre _ _ (zlen pre)) by done.
  autorewrite with stb. rewrite H6, H8, H24, app_assoc.
  replace (zlen pre + 40) with (zlen (pre ++ enc_ip6_header i)) by (rewrite length_app; lia).
  destruct (i6_payload i) as [s d x f r|s d r|ty r|pr r]; cbn [transport_proto transport_event6].
  - destruct (tcp_header_enc (pre ++ enc_ip6_header i) s d x f r Ht) as (h & Hh & H0 & H2 & H13 & H20).
    simpl (_ =? _). cbv iota. ztest. rewrite Hh. autorewrite with stb.
    by rewrite H0, H2, H13, tcp_flags_v6_land by apply Ht.
  - destruct (udp_header_enc (pre ++ enc_ip6_header i) s d r Ht) as (h & Hh & H0 & H2 & H20).
    simpl (_ =? _). cbv iota. ztest. rewrite Hh. autorewrite with stb. by rewrite H0, H2.
  - done.
  - destruct Ht as (_ & H1 & H2 & H3). ztest. by destruct (pr =? IPPROTO_ICMPV6).
Qed.

(** C24: [packet_parse_raw] decodes every well-formed IPv6 frame without
    extension headers: 128-bit addresses are folded to 32 bits by XOR, TCP and
    UDP ports are read, and of the TCP flags PSH and URG are dropped (the IPv4
    path keeps them). *)
Theorem packet_parse_raw_ipv6 (macs : bytes) (vlan : option (Z * Z)) (i : ip6_packet)
    (evt : pkt_event_t) :
  length macs = 12%nat -> ip6_ok i ->
  let p := enc_eth macs vlan ETH_P_IPV6 ++ enc_ip6 i in
  packet_parse_raw p (zlen p) evt = Done (true, ip6_event i evt).
Proof.
  intros Hm Hi p. subst p. unfold packet_parse_raw.
  assert (14 <= zlen (enc_eth macs vlan ETH_P_IPV6)).
  { unfold enc_eth. rewrite !length_app, Hm. simpl. lia. }
  replace (_ <? 14) with false by (symmetry; apply Z.ltb_ge; rewrite length_app; lia).
  rewrite parse_ethernet_enc by (done || mlia). autorewrite with stb. simpl (_ =? _).
  cbv iota. by apply parse_ipv6_enc.
Qed.

Lemma packet_parse_raw_ipv6_witness :
  let i := mk_ip6 [0x60; 0; 0; 0; 0; 20] 64 (1, 2, 4, 8) (16, 0, 0, 32)
             (Tcp 80 40000 (replicate 9 0) 0x19 (replicate 6 0)) in
  let p := enc_eth (replicate 12 9) None ETH_P_IPV6 ++ enc_ip6 i in
  packet_parse_raw p (zlen p) zero_pkt =
  Done (true, mk_pkt 0 15 48 80 40000 6 0x11 0 0 0 6 0 0).
Proof.
  apply (packet_parse_raw_ipv6 (replicate 12 9) None
    (mk_ip6 [0x60; 0; 0; 0; 0; 20] 64 (1, 2, 4, 8) (16, 0, 0, 32)
       (Tcp 80 40000 (replicate 9 0) 0x19 (replicate 6 0)))).
  - reflexivity.
  - constructor; simpl; unfold is_byte; mlia.
Defined.

(** ** Classification of packets *)

Record pkt_ok (q : pkt_event_t) : Prop := mk_pkt_ok {
  qok_timestamp : is_u64 (q_timestamp_ns q);
  qok_src_ip : is_u32 (q_src_ip q);
  qok_dst_ip : is_u32 (q_dst_ip q);
  qok_src_port : is_u16 (q_src_port q);
  qok_dst_port : is_u16 (q_dst_port q);
  qok_protocol : is_u8 (q_protocol q);
  qok_flags : is_u8 (q_tcp_flags q);
  qok_len : is_u16 (q_pkt_len q);
  qok_pid : is_u32 (q_pid q);
  qok_version : is_u8 (q_ip_version q);
  qok_payload : is_u8 (q_payload_type q);
  qok_latency : is_u16 (q_latency_us q)
}.

(** *** Ranges of the parsed fields *)

Lemma memcpy_from_bytes p off n h : Forall is_byte p -> memcpy_from p off n = Done h -> Forall is_byte h.
Proof.
  intros Hp. unfold memcpy_from. case_match; [|done]. intros [= <-]. by apply Forall_take, Forall_drop.
Qed.

Lemma byte_at_byte h i : Forall is_byte h -> is_byte (byte_at h i).
Proof.
  intros Hh. unfold byte_at. destruct (h !! i) eqn:E; simpl; [|unfold is_byte; lia].
  by eapply Forall_lookup_1.
Qed.

Lemma net16_range h i : Forall is_byte h -> is_u16 (net16 h i).
Proof. intros Hh. apply be16_range; by apply byte_at_byte. Qed.

Lemma word32_range h i : Forall is_byte h -> is_u32 (word32 h i).
Proof. intros Hh. apply le32_range; by apply byte_at_byte. Qed.

Lemma lxor_range n a b : 0 <= n -> 0 <= a < 2 ^ n -> 0 <= b < 2 ^ n -> 0 <= Z.lxor a b < 2 ^ n.
Proof.
  intros Hn Ha Hb. assert (0 <= Z.lxor a b) by (apply Z.lxor_nonneg; lia). split; [done|].
  assert (Hm : forall x, 0 <= x < 2 ^ n -> x = x mod 2 ^ n) by (intros; by rewrite Z.mod_small).
  rewrite (Hm a Ha), (Hm b Hb), <- !Z.land_ones by done.
  replace (Z.lxor _ _) with (Z.land (Z.lxor a b) (Z.ones n)).
  - rewrite Z.land_ones by done. apply Z.mod_pos_bound. lia.
  - apply Z.bits_inj'. intros k Hk. rewrite Z.land_spec, !Z.lxor_spec, !Z.land_spec.
    by destruct (Z.testbit a k), (Z.testbit b k), (Z.testbit (Z.ones n) k).
Qed.

Lemma fold_v6_range h i : Forall is_byte h -> is_u32 (fold_v6 h i).
Proof. intros Hh. repeat apply (lxor_range 32); try lia; by apply word32_range. Qed.

Lemma tcp_flags_range h i :
  Forall is_byte h -> is_u8 (tcp_flags_v4 (byte_at h i)) /\ is_u8 (tcp_flags_v6 (byte_at h i)).
Proof.
  intros Hh. pose proof (byte_at_byte h i Hh) as Hb.
  rewrite tcp_flags_v4_land, tcp_flags_v6_land by done. split; apply (land_range 8); lia || done.
Qed.

Lemma set_q_ports_ok a b q : is_u16 a -> is_u16 b -> pkt_ok q -> pkt_ok (set_q_ports a b q).
Proof. intros Ha Hb []. by constructor. Qed.
Lemma set_q_tcp_flags_ok f q : is_u8 f -> pkt_ok q -> pkt_ok (set_q_tcp_flags f q).
Proof. intros Hf []. by constructor. Qed.
Lemma set_q_ip_ok a b p v q :
  is_u32 a -> is_u32 b -> is_u8 p -> is_u8 v -> pkt_ok q -> pkt_ok (set_q_ip a b p v q).
Proof. intros Ha Hb Hp Hv []. by constructor. Qed.

Lemma byte_u16 h i : Forall is_byte h -> is_u16 (byte_at h i).
Proof. intros Hh. pose proof (byte_at_byte h i Hh). unfold is_byte, is_u16 in *. lia. Qed.

#[local] Hint Resolve net16_range word32_range fold_v6_range byte_at_byte byte_u16 set_q_ports_ok
  set_q_tcp_flags_ok set_q_ip_ok memcpy_from_bytes : stb.
#[local] Hint Extern 1 (is_u8 (tcp_flags_v4 _)) => apply tcp_flags_range : stb.
#[local] Hint Extern 1 (is_u8 (tcp_flags_v6 _)) => apply tcp_flags_range : stb.
#[local] Hint Extern 1 (is_u8 (byte_at _ _)) => apply byte_at_byte : stb.

(** Splits [parser = Done r] along the binds and the tests. *)
Ltac parsed :=
  repeat match goal with
  | |- mbind _ (memcpy_from _ _ _) = Done _ -> _ =>
      let h := fresh "h" in let Hh := fresh "Hh" in
      intros (h & Hh%memcpy_from_bytes & H)%bind_Done_inv; [revert H|done]; cbv zeta
  | |- (if ?b then _ else _) = Done _ -> _ => destruct b
  | |- Done _ = Done _ -> _ => intros [= <- <-]
  end.

Lemma parse_ipv4_ok p len off evt b evt' :
  Forall is_byte p -> pkt_ok evt -> parse_ipv4 p len off evt = Done (b, evt') -> pkt_ok evt'.
Proof.
  intros Hp Hq. unfold parse_ipv4, parse_transport_v4. parsed; auto 8 with stb.
Qed.

Lemma parse_ipv6_ok p len off evt b evt' :
  Forall is_byte p -> pkt_ok evt -> parse_ipv6 p len off evt = Done (b, evt') -> pkt_ok evt'.
Proof. intros Hp Hq. unfold parse_ipv6. parsed; auto 8 with stb. Qed.

(** What the parser writes fits the fields of the packet. *)
Lemma packet_parse_raw_ok p len evt b evt' :
  Forall is_byte p -> pkt_ok evt -> packet_parse_raw p len evt = Done (b, evt') -> pkt_ok evt'.
Proof.
  intros Hp Hq. unfold packet_parse_raw. case_match; [by intros [= <- <-]|].
  intros ([[proto off]|] & _ & H')%bind_Done_inv; [|by injection H' as <- <-]. revert H'.
  case_match; [by apply parse_ipv4_ok|]. case_match; [by apply parse_ipv6_ok|]. by intros [= <- <-].
Qed.

(** What a packet is, in the order in which the code asks. *)
Inductive traffic : Type :=
| DnsQuery | DnsReply | Ping | IcmpOther | Iptv | TcpOpen | TcpClose | PlainFlow.

#[export] Instance traffic_eq_dec : EqDecision traffic.
Proof. solve_decision. Defined.

Definition classify (q : pkt_event_t) : traffic :=
  if is_dns q then if q_dst_port q =? PORT_DNS then DnsQuery else DnsReply
  else if q_protocol q =? IPPROTO_ICMP then if q_dst_port q =? 8 then Ping else IcmpOther
  else if IS_MULTICAST (q_dst_ip q) then Iptv
  else if has_flag (q_tcp_flags q) TCP_FLAG_SYN then TcpOpen
  else if has_flag (q_tcp_flags q) TCP_FLAG_FIN || has_flag (q_tcp_flags q) TCP_FLAG_RST
  then TcpClose else PlainFlow.

(** HTTP is recognised on what is neither DNS nor ICMP nor IPTV. *)
Inductive http_kind : Type := HttpRequest | HttpResponse | HttpPort | NotHttp.

Definition http_of (q : pkt_event_t) : http_kind :=
  if q_payload_type q =? PAYLOAD_HTTP_REQ then HttpRequest
  else if q_payload_type q =? PAYLOAD_HTTP_RESP then HttpResponse
  else if (q_protocol q =? IPPROTO_TCP) &&
          ((q_src_port q =? PORT_HTTP) || (q_dst_port q =? PORT_HTTP) ||
           (q_src_port q =? PORT_HTTPS) || (q_dst_port q =? PORT_HTTPS)) then HttpPort
  else NotHttp.

Definition http_service (h : http_kind) : string :=
  match h with NotHttp => EmptyString | _ => "HTTP" end.
Definition http_tags (h : http_kind) : string :=
  match h with
  | HttpRequest => "http,request"
  | HttpResponse => "http,response"
  | _ => EmptyString
  end.

(** Category, event type, service and tags of the report. *)
Definition class_text (t : traffic) (h : http_kind) : list string :=
  match t with
  | DnsQuery => ["dns"; "dns_query"; "DNS"; "dns"]
  | DnsReply => ["dns"; "dns_reply"; "DNS"; "dns"]
  | Ping => ["icmp"; "icmp_echo"; "ping"; "icmp"]
  | IcmpOther => ["icmp"; EmptyString; EmptyString; "icmp"]
  | Iptv => ["iptv"; EmptyString; "IPTV"; "iptv,multicast"]
  | TcpOpen => [EmptyString; "connect"; http_service h; http_tags h]
  | TcpClose => [EmptyString; "disconnect"; http_service h; http_tags h]
  | PlainFlow => ["network"; "flow"; http_service h; http_tags h]
  end%string.

Definition event_text (e : flow_event_t) : list bytes :=
  [cstr (e_category e); cstr (e_event_type e); cstr (e_service e); cstr (e_tags e)].

Lemma copy_packet_ok q id : pkt_ok q -> event_ok (copy_packet q id).
Proof. intros []. unfold copy_packet. eauto 20 with stb. Qed.

Lemma packet_protocol_ok q e : event_ok e -> event_ok (packet_protocol q e).
Proof. intros He. unfold packet_protocol. repeat case_match; auto with stb. Qed.

Lemma detect_http_ok q e : event_ok e -> event_ok (detect_http q e).
Proof. intros He. unfold detect_http. repeat case_match; auto with stb. Qed.

#[local] Hint Resolve packet_protocol_ok detect_http_ok copy_packet_ok : stb.

Lemma packet_to_flow_event_ok q id : pkt_ok q -> event_ok (packet_to_flow_event q id).
Proof.
  intros Hq. unfold packet_to_flow_event. repeat case_match; auto 10 with stb.
Qed.

(** The text fields as they are before a class is chosen. *)
Definition blank (e : flow_event_t) : Prop :=
  e_category e = replicate 16 0 /\ e_event_type e = replicate 16 0 /\
  e_service e = replicate 32 0 /\ e_tags e = replicate 64 0.

Lemma packet_protocol_blank q e : blank e -> blank (packet_protocol q e).
Proof. intros He. unfold packet_protocol. repeat case_match; exact He. Qed.

Lemma detect_http_fields q e :
  blank e ->
  e_category (detect_http q e) = replicate 16 0 /\
  e_event_type (detect_http q e) = replicate 16 0 /\
  cstr (e_service (detect_http q e)) = lit (http_service (http_of q)) /\
  cstr (e_tags (detect_http q e)) = lit (http_tags (http_of q)).
Proof.
  intros (H1 & H2 & H3 & H4). unfold detect_http, http_of.
  repeat case_match; simpl; rewrite ?H1, ?H2, ?H3, ?H4; repeat split; vm_compute; reflexivity.
Qed.

Lemma packet_to_flow_event_text q id :
  event_text (packet_to_flow_event q id) = map lit (class_text (classify q) (http_of q)).
Proof.
  unfold packet_to_flow_event, classify, event_text.
  pose proof (packet_protocol_blank q (copy_packet q id) ltac:(repeat split)) as He.
  set (e := packet_protocol q (copy_packet q id)) in *. clearbody e.
  destruct (detect_http_fields q e He) as (D1 & D2 & D3 & D4).
  set (d := detect_http q e) in *. clearbody d. destruct He as (H1 & H2 & H3 & H4).
  destruct (is_dns q); [|destruct (_ =? IPPROTO_ICMP); [|destruct (IS_MULTICAST _)]].
  - destruct (_ =? PORT_DNS); simpl; rewrite H1, H2, H3, H4; vm_compute; reflexivity.
  - destruct (_ =? 8); simpl; rewrite H1, ?H2, ?H3, H4; vm_compute; reflexivity.
  - simpl. rewrite H1, H2, H3, H4. vm_compute. reflexivity.
  - destruct (has_flag _ TCP_FLAG_SYN); [|destruct (_ || _)]; simpl;
      rewrite D1, D2, D3, D4; destruct (http_of q); vm_compute; reflexivity.
Qed.

(** The numbers of the event, in the order of the structure. *)
Definition event_numbers (e : flow_event_t) : list Z :=
  [e_timestamp_ns e; e_src_ip e; e_dst_ip e; e_src_port e; e_dst_port e; e_ip_version e;
   e_tcp_flags e; e_payload_type e; e_anomaly e; e_pkt_len e; e_bytes e; e_packets e;
   e_latency_us e; e_bandwidth_bps e; e_retransmits e; e_dup_acks e; e_pid e].

Definition packet_numbers (q : pkt_event_t) : list Z :=
  [q_timestamp_ns q; q_src_ip q; q_dst_ip q; q_src_port q; q_dst_port q; q_ip_version q;
   q_tcp_flags q; q_payload_type q; 0; q_pkt_len q; q_pkt_len q; 1;
   q_latency_us q; 0; 0; 0; q_pid q].

Lemma packet_to_flow_event_keeps q id :
  let e := packet_to_flow_event q id in
  e_probe_id e = e_probe_id (copy_packet q id) /\ event_numbers e = packet_numbers q /\
  e_protocol e = e_protocol (packet_protocol q zero_event).
Proof.
  cbv zeta. set (keeps := fun e => e_probe_id e = e_probe_id (copy_packet q id) /\
    event_numbers e = packet_numbers q /\ e_protocol e = e_protocol (packet_protocol q zero_event)).
  assert (Hp : forall e, e_probe_id e = e_probe_id (copy_packet q id) ->
    event_numbers e = packet_numbers q -> e_protocol e = e_protocol zero_event ->
    keeps (packet_protocol q e)).
  { intros e H1 H2 H3. unfold keeps, packet_protocol, put_protocol, print_protocol.
    rewrite H3. destruct (_ =? IPPROTO_TCP); [exact (conj H1 (conj H2 eq_refl))|].
    destruct (_ =? IPPROTO_UDP); [exact (conj H1 (conj H2 eq_refl))|].
    destruct (_ =? IPPROTO_ICMP); exact (conj H1 (conj H2 eq_refl)). }
  assert (Hh : forall e, keeps e -> keeps (detect_http q e))
    by (intros e He; unfold detect_http; repeat case_match; exact He).
  assert (H0 : keeps (packet_protocol q (copy_packet q id))) by (apply Hp; reflexivity).
  specialize (Hh _ H0). change (keeps (packet_to_flow_event q id)).
  unfold packet_to_flow_event.
  repeat case_match; first [exact H0 | exact Hh].
Qed.

(** *** What the classes mean

    The rules by the protocol numbers, the ports, the flag bits (FIN 0, SYN 1,
    RST 2) and the octet [d] of the destination the multicast test reads. *)
Definition dns_traffic (q : pkt_event_t) : Prop :=
  q_protocol q = 17 /\ (q_src_port q = 53 \/ q_dst_port q = 53).

Inductive traffic_rule (q : pkt_event_t) (d : Z) : traffic -> Prop :=
| TR_dns_query :
    q_protocol q = 17 -> q_dst_port q = 53 -> traffic_rule q d DnsQuery
| TR_dns_reply :
    q_protocol q = 17 -> q_src_port q = 53 -> q_dst_port q <> 53 -> traffic_rule q d DnsReply
| TR_ping : q_protocol q = 1 -> q_dst_port q = 8 -> traffic_rule q d Ping
| TR_icmp : q_protocol q = 1 -> q_dst_port q <> 8 -> traffic_rule q d IcmpOther
| TR_iptv :
    ~ dns_traffic q -> q_protocol q <> 1 -> 224 <= d <= 239 -> traffic_rule q d Iptv
| TR_open :
    ~ dns_traffic q -> q_protocol q <> 1 -> ~ 224 <= d <= 239 ->
    Z.testbit (q_tcp_flags q) 1 = true -> traffic_rule q d TcpOpen
| TR_close :
    ~ dns_traffic q -> q_protocol q <> 1 -> ~ 224 <= d <= 239 ->
    Z.testbit (q_tcp_flags q) 1 = false ->
    Z.testbit (q_tcp_flags q) 0 = true \/ Z.testbit (q_tcp_flags q) 2 = true ->
    traffic_rule q d TcpClose
| TR_flow :
    ~ dns_traffic q -> q_protocol q <> 1 -> ~ 224 <= d <= 239 ->
    Z.testbit (q_tcp_flags q) 1 = false -> Z.testbit (q_tcp_flags q) 0 = false ->
    Z.testbit (q_tcp_flags q) 2 = false -> traffic_rule q d PlainFlow.

Definition web_traffic (q : pkt_event_t) : Prop :=
  q_protocol q = 6 /\
  (q_src_port q = 80 \/ q_dst_port q = 80 \/ q_src_port q = 443 \/ q_dst_port q = 443).

Inductive http_rule (q : pkt_event_t) : http_kind -> Prop :=
| HR_request : q_payload_type q = 1 -> http_rule q HttpRequest
| HR_response : q_payload_type q = 2 -> http_rule q HttpResponse
| HR_port :
    q_payload_type q <> 1 -> q_payload_type q <> 2 -> web_traffic q -> http_rule q HttpPort
| HR_none :
    q_payload_type q <> 1 -> q_payload_type q <> 2 -> ~ web_traffic q -> http_rule q NotHttp.

(** The name of a protocol number. *)
Definition protocol_text (p : Z) : string :=
  match p with 1 => "ICMP" | 6 => "TCP" | 17 => "UDP" | _ => pretty p end%string.

Lemma is_dns_iff q : is_dns q = true <-> dns_traffic q.
Proof.
  unfold is_dns, dns_traffic. by rewrite andb_true_iff, orb_true_iff, !Z.eqb_eq.
Qed.

Lemma classify_rule q a b c d :
  is_byte a -> is_byte b -> is_byte c -> is_byte d -> q_dst_ip q = le32 a b c d ->
  traffic_rule q d (classify q).
Proof.
  intros Ha Hb Hc Hd Hip. unfold classify. rewrite Hip, IS_MULTICAST_octet by done.
  rewrite (has_flag_testbit _ 1 ltac:(lia) : has_flag _ TCP_FLAG_SYN = _).
  rewrite (has_flag_testbit _ 0 ltac:(lia) : has_flag _ TCP_FLAG_FIN = _).
  rewrite (has_flag_testbit _ 2 ltac:(lia) : has_flag _ TCP_FLAG_RST = _).
  destruct (is_dns q) eqn:E.
  { apply is_dns_iff in E as [Hp Hport].
    destruct (Z.eqb_spec (q_dst_port q) PORT_DNS); [by apply TR_dns_query|].
    destruct Hport; [by apply TR_dns_reply|done]. }
  assert (~ dns_traffic q) as Hn by (rewrite <- is_dns_iff; by rewrite E).
  destruct (Z.eqb_spec (q_protocol q) IPPROTO_ICMP).
  { by destruct (Z.eqb_spec (q_dst_port q) 8); [apply TR_ping|apply TR_icmp]. }
  destruct ((224 <=? d) && (d <=? 239)) eqn:Em.
  { apply TR_iptv; [done..|]. apply andb_true_iff in Em as [?%Z.leb_le ?%Z.leb_le]. lia. }
  assert (~ 224 <= d <= 239) as Hm.
  { intros [?%Z.leb_le ?%Z.leb_le]. rewrite andb_false_iff in Em. destruct Em; congruence. }
  destruct (Z.testbit (q_tcp_flags q) 1) eqn:E1; [by apply TR_open|].
  destruct (Z.testbit (q_tcp_flags q) 0) eqn:E0; [by apply TR_close; auto|].
  destruct (Z.testbit (q_tcp_flags q) 2) eqn:E2; [by apply TR_close; auto|by apply TR_flow].
Qed.

Lemma http_of_rule q : http_rule q (http_of q).
Proof.
  unfold http_of. destruct (Z.eqb_spec (q_payload_type q) PAYLOAD_HTTP_REQ); [by apply HR_request|].
  destruct (Z.eqb_spec (q_payload_type q) PAYLOAD_HTTP_RESP); [by apply HR_response|].
  destruct (_ && _) eqn:E.
  - apply HR_port; [done..|]. apply andb_true_iff in E as [Hp%Z.eqb_eq Hport].
    split; [done|]. rewrite !orb_true_iff, !Z.eqb_eq in Hport. tauto.
  - apply HR_none; [done..|]. intros [Hp Hport]. apply not_true_iff_false in E. apply E.
    rewrite andb_true_iff, !orb_true_iff, !Z.eqb_eq. split; [done|]. tauto.
Qed.

Lemma packet_protocol_text q :
  is_u8 (q_protocol q) ->
  cstr (e_protocol (packet_protocol q zero_event)) = lit (protocol_text (q_protocol q)).
Proof.
  unfold packet_protocol. generalize (q_protocol q) as p. intros p Hp.
  assert (forallb (fun n : nat =>
    let p := Z.of_nat n in
    bool_decide (cstr (e_protocol
      (if p =? IPPROTO_TCP then put_protocol PROTO_TCP zero_event
       else if p =? IPPROTO_UDP then put_protocol PROTO_UDP zero_event
       else if p =? IPPROTO_ICMP then put_protocol PROTO_ICMP zero_event
       else print_protocol (decd p) zero_event)) = lit (protocol_text p))) (seq 0 256) = true) as H
    by (vm_compute; reflexivity).
  rewrite forallb_forall in H. specialize (H (Z.to_nat p)). cbv zeta in H.
  rewrite Z2Nat.id in H by mlia. apply bool_decide_eq_true in H; [done|]. apply in_seq. mlia.
Qed.

(** C25: the event reported for a packet to [a.b.c.d] is well formed (every
    text field NUL-terminated inside its array, every integer within its
    width); its numbers are the packet's, with one packet of [pkt_len] bytes;
    its protocol is named; and its category, type, service and tags follow the
    first rule that applies: UDP port 53 is DNS, protocol 1 is ICMP, then IPTV
    by the test the code makes, which on the little-endian target asks whether
    the last octet [d], and not the first, is between 224 and 239; then SYN
    opens, FIN or RST closes, and the rest is a plain flow.  Connection events
    carry no category.  HTTP is named by the payload type or by TCP port 80 or
    443. *)
Theorem packet_to_flow_event_spec (q : pkt_event_t) (id : bytes) (a b c d : Z) :
  pkt_ok q ->
  is_byte a -> is_byte b -> is_byte c -> is_byte d -> q_dst_ip q = le32 a b c d ->
  let e := packet_to_flow_event q id in
  event_ok e /\
  (exists t h, traffic_rule q d t /\ http_rule q h /\ event_text e = map lit (class_text t h)) /\
  event_numbers e = packet_numbers q /\
  cstr (e_protocol e) = lit (protocol_text (q_protocol q)) /\
  cstr (e_probe_id e) = take 63 (cstr id).
Proof.
  intros Hq Ha Hb Hc Hd Hip e. split; [by apply packet_to_flow_event_ok|].
  split; [exists (classify q), (http_of q); split_and!;
    [by apply (classify_rule q a b c d)|apply http_of_rule|apply packet_to_flow_event_text]|].
  subst e. destruct (packet_to_flow_event_keeps q id) as (-> & -> & ->).
  split; [done|]. split; [apply packet_protocol_text, Hq|].
  apply (cstr_strncpy_field 64). by apply cfield_zeros; lia.
Qed.

Lemma packet_to_flow_event_spec_witness :
  let q := mk_pkt 5 0x0100007F (le32 192 168 1 5) 443 51000 6 0x12 60 0 0 4 0 0 in
  event_ok (packet_to_flow_event q (lit "stb-1")) /\
  event_text (packet_to_flow_event q (lit "stb-1"))
  = map lit [EmptyString; "connect"; "HTTP"; EmptyString]%string /\
  cstr (e_protocol (packet_to_flow_event q (lit "stb-1"))) = lit "TCP".
Proof.
  set (q := mk_pkt 5 0x0100007F (le32 192 168 1 5) 443 51000 6 0x12 60 0 0 4 0 0).
  assert (Hq : pkt_ok q) by (constructor; simpl; first [mlia | by vm_compute]).
  destruct (packet_to_flow_event_spec q (lit "stb-1") 192 168 1 5 Hq)
    as (H1 & (t & h & Ht & Hh & H2) & _ & H3 & _); [unfold is_byte; lia..|reflexivity|].
  split; [exact H1|]. split; [|exact H3]. rewrite H2.
  assert (~ dns_traffic q) as Hn by (intros [Hp _]; discriminate Hp).
  inversion Ht; subst; try (discriminate || lia);
    inversion Hh; subst; try (discriminate || lia); try reflexivity.
Defined.

(** On the little-endian target the multicast test of a packet to
    [a.b.c.d] looks at the last octet: traffic that is neither DNS nor ICMP is
    reported as IPTV exactly when [d] is between 224 and 239, so 239.1.1.1 is
    missed and 10.0.0.224 is reported. *)
Lemma iptv_by_last_octet (q : pkt_event_t) (a b c d : Z) (id : bytes) :
  is_byte a -> is_byte b -> is_byte c -> is_byte d ->
  q_dst_ip q = le32 a b c d -> is_dns q = false -> q_protocol q <> IPPROTO_ICMP ->
  cstr (e_category (packet_to_flow_event q id)) = CAT_IPTV <-> 224 <= d <= 239.
Proof.
  intros Ha Hb Hc Hd Hip Hdns Hicmp.
  pose proof (packet_to_flow_event_text q id) as Ht. unfold event_text in Ht.
  assert (Hm : IS_MULTICAST (q_dst_ip q) = (224 <=? d) && (d <=? 239))
    by (rewrite Hip; by apply IS_MULTICAST_octet).
  unfold classify in Ht. rewrite Hdns, (proj2 (Z.eqb_neq _ _) Hicmp), Hm in Ht.
  destruct (Z.leb_spec 224 d), (Z.leb_spec d 239); simpl in Ht; cycle 3;
    [lia | injection Ht as -> _ _ _; split; [lia|done] | |];
    (split; [|lia]; intros He; rewrite He in Ht; repeat case_match; discriminate Ht).
Qed.

Lemma iptv_by_last_octet_witness :
  cstr (e_category (packet_to_flow_event
    (mk_pkt 0 0 (le32 239 1 1 1) 5000 5000 17 0 100 0 0 4 0 0) (lit "p"))) <> CAT_IPTV /\
  cstr (e_category (packet_to_flow_event
    (mk_pkt 0 0 (le32 10 0 0 224) 5000 5000 17 0 100 0 0 4 0 0) (lit "p"))) = CAT_IPTV.
Proof.
  split.
  - intros H. apply (iptv_by_last_octet _ 239 1 1 1) in H; [lia| unfold is_byte; lia ..| | |];
      reflexivity || discriminate.
  - apply (iptv_by_last_octet _ 10 0 0 224);
      unfold is_byte; first [lia | reflexivity | discriminate].
Defined.
