(* ===== verification/Payload.v ===== *)
(** Payload: the payload parsers of src/main.c (lines 43 to 253).

    [parse_dns_payload], [parse_http_payload] and [extract_tcp_seq_num] read a
    part of the received frame; their pointer argument is the byte array that
    starts at it.  Reads are [rd] and [memcpy_from], writes to the local
    arrays check their size, so that [defined] means memory safety; a loop that
    runs out of fuel is [Undefined] too, so that it also means termination. *)

From stdpp Require Import base list strings numbers option.
From S2P Require Import Prelude CLib Common PacketParser.

(** ** DNS *)

(** [name[name_len++] = c] on [char name[256]]. *)
Definition put_char (name : bytes) (c : Z) : exec bytes :=
  if zlen name <? 256 then Done (name ++ [c]) else Undefined.

(** The inner loop: [label_len] characters from [offset], up to 255 in all. *)
Fixpoint copy_label (label_len : nat) (payload : bytes) (offset : Z) (name : bytes) : exec bytes :=
  match label_len with
  | O => Done name
  | S n =>
      if zlen name <? 255 then
        c ← rd payload offset;
        name ← put_char name c;
        copy_label n payload (offset + 1) name
      else Done name
  end.

(** The loop over the labels, with [offset], [name] and [jumped] at its exit. *)
Fixpoint dns_labels (fuel : nat) (payload : bytes) (len offset : Z) (name : bytes)
  : exec (Z * bytes * bool) :=
  match fuel with
  | O => Undefined
  | S fuel =>
      if negb (offset <? len) then Done (offset, name, false) else
      label_len ← rd payload offset;
      if label_len =? 0 then Done (offset, name, false)
      else if 0xC0 <=? label_len then Done (offset, name, true)
      else
        let offset := offset + 1 in
        if len <? offset + label_len then Done (offset, name, false) else
        name ← (if (0 <? zlen name) && (zlen name <? 255) then put_char name 46 else Done name);
        name ← copy_label (Z.to_nat label_len) payload offset name;
        dns_labels fuel payload len (offset + label_len) name
  end.

Definition qtype_str (qtype : Z) : bytes :=
  lit (if qtype =? 1 then "A" else if qtype =? 28 then "AAAA" else if qtype =? 5 then "CNAME"
       else if qtype =? 12 then "PTR" else if qtype =? 15 then "MX"
       else if qtype =? 16 then "TXT" else if qtype =? 33 then "SRV" else "UNKNOWN").

Definition parse_dns_query (payload : bytes) (len : Z) (flow : flow_event_t)
  : exec flow_event_t :=
  '(offset, name, jumped) ← dns_labels (Z.to_nat len) payload len 12 [];
  name ← put_char name 0;
  let type_offset := offset + 1 in
  if negb jumped && (type_offset + 1 <? len) then
    t0 ← rd payload type_offset;
    t1 ← rd payload (type_offset + 1);
    Done (print_details (lit "dns_query:name=" ++ cstr name ++ lit ",type=" ++
                         qtype_str (u16 (be16 t0 t1))) flow)
  else Done (print_details (lit "dns_query:name=" ++ cstr name) flow).

Definition parse_dns_payload (payload : bytes) (len : Z) (flow : flow_event_t) (is_reply : bool)
  : exec flow_event_t :=
  if len <? 12 then Done flow else
  f0 ← rd payload 2;
  f1 ← rd payload 3;
  q0 ← rd payload 4;
  q1 ← rd payload 5;
  a0 ← rd payload 6;
  a1 ← rd payload 7;
  let flags := u16 (be16 f0 f1) in
  let qdcount := u16 (be16 q0 q1) in
  let ancount := u16 (be16 a0 a1) in
  if is_reply then
    Done (print_details (lit "dns_reply:rcode=" ++ decd (Z.land flags 0x0F) ++
                         lit ",ancount=" ++ decd ancount) flow)
  else if 0 <? qdcount then parse_dns_query payload len flow
  else Done flow.

(** ** HTTP *)

(** [while ( *s == ' ') s++]: the rest of the buffer; past its last byte there
    is nothing to read. *)
Fixpoint skip_blanks (s : bytes) : exec bytes :=
  match s with
  | c :: s' => if c =? 32 then skip_blanks s' else Done s
  | [] => Undefined
  end.

(** The loop that copies a header value into [value]:
    [while ( *s && *s != '\r' && *s != '\n' && i < max) value[i++] = *s++]. *)
Fixpoint copy_value (s : bytes) (max : Z) (value : bytes) (i : Z) : exec (bytes * Z) :=
  match s with
  | [] => Undefined
  | c :: s' =>
      if negb (c =? 0) && negb (c =? 13) && negb (c =? 10) && (i <? max) then
        value ← wr value i c;
        copy_value s' max value (i + 1)
      else Done (value, i)
  end.

(** [p = strcasestr(buf, k1); if (!p) p = strcasestr(buf, k2)]. *)
Definition find_header (buf : bytes) (k1 k2 : string) : option nat :=
  match strcasestr buf (lit k1) with
  | Some o => Some o
  | None => strcasestr buf (lit k2)
  end.

(** The value of the header whose name, in two spellings, is [k1] or [k2],
    written to the array [value]; [skip] is the length of the name. *)
Definition header_value (buf : bytes) (k1 k2 : string) (skip : nat) (max : Z) (value : bytes)
  : exec bytes :=
  match find_header buf k1 k2 with
  | Some o =>
      s ← skip_blanks (drop (o + skip) buf);
      '(value, i) ← copy_value s max value 0;
      wr value i 0
  | None => Done value
  end.

(** [s[0] ? s : d]. *)
Definition or_else (s : bytes) (d : string) : exec bytes :=
  c ← rd s 0;
  Done (if c =? 0 then lit d else cstr s).

(** [memcpy(dst, src + off, n); dst[n] = '\0']. *)
Definition copy_string (dst src : bytes) (off n : Z) : exec bytes :=
  part ← memcpy_from src off (Z.to_nat n);
  dst ← wr_bytes dst 0 part;
  wr dst n 0.

(** [buf]: the payload cut to 2047 bytes and terminated, in [char buf[2048]];
    the bytes after the terminator are not set and not represented, so that a
    read of one is [Undefined]. *)
Definition http_buf (payload : bytes) (len : Z) : exec bytes :=
  let copy_len := if len <? 2048 - 1 then len else 2048 - 1 in
  b ← memcpy_from payload 0 (Z.to_nat copy_len);
  if zlen b <? 2048 then Done (b ++ [0]) else Undefined.

(** [buf[0] == 'H' && buf[1] == 'T' && buf[2] == 'T' && buf[3] == 'P']. *)
Definition is_status_line (buf : bytes) : exec bool :=
  b0 ← rd buf 0;
  if negb (b0 =? 72) then Done false else
  b1 ← rd buf 1;
  if negb (b1 =? 84) then Done false else
  b2 ← rd buf 2;
  if negb (b2 =? 84) then Done false else
  b3 ← rd buf 3;
  Done (b3 =? 80).

Definition parse_http_response (buf : bytes) (flow : flow_event_t) : exec flow_event_t :=
  http ← is_status_line buf;
  if negb http then Done flow else
  let status_code :=
    match strchr buf 32 with Some sp => atoi (drop (sp + 1) buf) | None => 0 end in
  ct_value ← header_value buf "Content-Type:" "content-type:" 13 127 (replicate 128 0);
  content_type ← or_else ct_value "unknown";
  Done (put_service (lit "HTTP")
    (print_details (lit "http_resp:status=" ++ decd status_code ++ lit ",content_type=" ++
                    content_type) flow)).

(** The method and the path, in [char method[16]] and [char path[256]]. *)
Definition request_line (buf : bytes) (method path : bytes) : exec (bytes * bytes) :=
  match strchr buf 32 with
  | Some sp =>
      let method_len := Z.of_nat sp in
      let method_len := if 15 <? method_len then 15 else method_len in
      method ← copy_string method buf 0 method_len;
      let path_start := (sp + 1)%nat in
      match strchr (drop path_start buf) 32 with
      | Some path_end =>
          let path_len := Z.of_nat path_end in
          let path_len := if 255 <? path_len then 255 else path_len in
          path ← copy_string path buf (Z.of_nat path_start) path_len;
          Done (method, path)
      | None => Done (method, path)
      end
  | None => Done (method, path)
  end.

Definition parse_http_request (buf : bytes) (flow : flow_event_t) : exec flow_event_t :=
  '(method, path) ← request_line buf (replicate 16 0) (replicate 256 0);
  host ← header_value buf "Host:" "host:" 5 255 (replicate 256 0);
  method ← or_else method "UNKNOWN";
  path ← or_else path "/";
  host ← or_else host "unknown";
  Done (put_service (lit "HTTP")
    (print_details (lit "http_req:method=" ++ method ++ lit ",path=" ++ path ++
                    lit ",host=" ++ host) flow)).

Definition parse_http_payload (payload : bytes) (len : Z) (flow : flow_event_t)
    (is_response : bool) : exec flow_event_t :=
  if len <? 10 then Done flow else
  buf ← http_buf payload len;
  if is_response then parse_http_response buf flow else parse_http_request buf flow.

(** ** TCP sequence numbers *)

(** The length of the link header, VLAN tag included. *)
Definition link_len (p : bytes) (len : Z) : exec Z :=
  if 16 <=? len then
    b12 ← rd p 12;
    if b12 =? 0x81 then b13 ← rd p 13; Done (if b13 =? 0 then 18 else 14)
    else Done 14
  else Done 14.

(** [tcp_offset], [None] where the function returns 0. *)
Definition tcp_offset_of (pkt_buf : bytes) (len : Z) (pkt : pkt_event_t) (eth_offset : Z)
  : exec (option Z) :=
  if q_ip_version pkt =? 4 then
    if len <? eth_offset + 20 then Done None else
    b ← rd pkt_buf eth_offset;
    Done (Some (eth_offset + Z.land b 0x0F * 4))
  else if q_ip_version pkt =? 6 then Done (Some (eth_offset + 40))
  else Done None.

(** [(seq_num, payload_len, tcp_flags)], [None] for a return of 0. *)
Definition extract_tcp_seq_num (pkt_buf : bytes) (len : Z) (pkt : pkt_event_t)
  : exec (option (Z * Z * Z)) :=
  if negb (q_protocol pkt =? IPPROTO_TCP) then Done None else
  eth_offset ← link_len pkt_buf len;
  tcp_offset ← tcp_offset_of pkt_buf len pkt eth_offset;
  match tcp_offset with
  | None => Done None
  | Some tcp_offset =>
      if len <? tcp_offset + 20 then Done None else
      tcp ← memcpy_from pkt_buf tcp_offset 20;
      let seq_num := be32 (byte_at tcp 4) (byte_at tcp 5) (byte_at tcp 6) (byte_at tcp 7) in
      let tcp_hdr_len := Z.land (Z.shiftr (byte_at tcp 12) 4) 0x0F * 4 in
      let total_hdr := tcp_offset + tcp_hdr_len in
      let payload_len := if total_hdr <? len then u16 (len - total_hdr) else 0 in
      Done (Some (seq_num, payload_len, tcp_flags_v6 (byte_at tcp 13)))
  end.

(** ** Memory safety and termination *)

(** As [reads_within], for arrays of bytes and with a postcondition. *)
Definition reads_bytes {A} (f : bytes -> exec A) (len : Z) (Q : A -> Prop) : Prop :=
  forall p, Forall is_byte p -> len <= zlen p ->
  exists a, f p = Done a /\ f (take (Z.to_nat len) p) = Done a /\ Q a.

Lemma reads_bytes_ret {A} (a : A) len (Q : A -> Prop) : Q a -> reads_bytes (fun _ => Done a) len Q.
Proof. intros HQ p _ _. eauto. Qed.

Lemma reads_bytes_bind {A B} (f : bytes -> exec A) (g : A -> bytes -> exec B) len Q R :
  reads_bytes f len Q -> (forall a, Q a -> reads_bytes (g a) len R) ->
  reads_bytes (fun p => a ← f p; g a p) len R.
Proof.
  intros Hf Hg p Hb Hp. destruct (Hf p Hb Hp) as (a & Ha & Ht & HQ). rewrite Ha, Ht.
  apply (Hg a HQ p Hb Hp).
Qed.

Lemma reads_bytes_rd i len : 0 <= i < len -> reads_bytes (fun p => rd p i) len is_byte.
Proof.
  intros Hi p Hb Hp. destruct (rd_defined p i) as (x & Hx & _); [lia|].
  exists x. rewrite rd_take, Hx by done. repeat split; try done; eapply rd_byte in Hx; eauto; apply Hx.
Qed.

Lemma reads_bytes_memcpy off n len :
  0 <= off -> off + Z.of_nat n <= len ->
  reads_bytes (fun p => memcpy_from p off n) len (fun h => length h = n /\ Forall is_byte h).
Proof.
  intros H1 H2 p Hb Hp. rewrite memcpy_from_take, memcpy_from_Done by lia.
  eexists. split; [done|]. split; [done|]. split.
  - rewrite length_take, length_drop. lia.
  - auto using Forall_take, Forall_drop.
Qed.

Lemma reads_bytes_pure {A} (m : exec A) len (Q : A -> Prop) a :
  m = Done a -> Q a -> reads_bytes (fun _ => m) len Q.
Proof. intros -> HQ p _ _. eauto. Qed.

Lemma reads_bytes_weaken {A} (f : bytes -> exec A) len (Q R : A -> Prop) :
  reads_bytes f len Q -> (forall a, Q a -> R a) -> reads_bytes f len R.
Proof. intros Hf HQ p Hb Hp. destruct (Hf p Hb Hp) as (a & ? & ? & ?). eauto. Qed.

Ltac rb_rd := eapply (reads_bytes_bind (fun p => rd p _));
  [apply reads_bytes_rd; lia|intros ? ?].

Lemma put_char_Done name c : zlen name <= 255 -> put_char name c = Done (name ++ [c]).
Proof. intros H. unfold put_char. by ztest. Qed.

Lemma copy_label_reads n len off name :
  0 <= off -> off + Z.of_nat n <= len -> zlen name <= 255 ->
  reads_bytes (fun p => copy_label n p off name) len
    (fun r => zlen name <= zlen r <= 255).
Proof.
  revert off name. induction n as [|n IH]; intros off name Ho Hl Hn; simpl.
  - apply reads_bytes_ret. lia.
  - destruct (Z.ltb_spec (zlen name) 255); [|apply reads_bytes_ret; lia].
    rb_rd. rewrite put_char_Done by lia. simpl.
    eapply reads_bytes_weaken; [apply IH|]; rewrite ?length_app; simpl; lia.
Qed.

Lemma dns_labels_reads fuel len off name :
  0 <= off -> (0 < fuel)%nat -> len - off < Z.of_nat fuel -> zlen name <= 255 ->
  reads_bytes (fun p => dns_labels fuel p len off name) len
    (fun r => off <= r.1.1 /\ zlen r.1.2 <= 255).
Proof.
  revert off name. induction fuel as [|fuel IH]; intros off name Ho Hpos Hf Hn; simpl; [lia|].
  destruct (Z.ltb_spec off len); simpl; [|by apply reads_bytes_ret].
  rb_rd. unfold is_byte in *. destruct (Z.eqb_spec a 0); [by apply reads_bytes_ret|].
  destruct (Z.leb_spec 0xC0 a); [by apply reads_bytes_ret|].
  destruct (Z.ltb_spec len (off + 1 + a)); [apply reads_bytes_ret; simpl; lia|].
  eapply (reads_bytes_bind _ _ _ (fun r => zlen r <= 255)).
  { destruct (Z.ltb_spec 0 (zlen name)), (Z.ltb_spec (zlen name) 255); simpl;
      try (apply reads_bytes_ret; lia).
    apply (reads_bytes_pure _ _ _ (name ++ [46])); [apply put_char_Done; lia|].
    rewrite length_app. simpl. lia. }
  intros name' Hn'. cbv beta in Hn'.
  eapply (reads_bytes_bind (fun p => copy_label (Z.to_nat a) p (off + 1) name')).
  { apply copy_label_reads; lia. }
  intros name'' Hn''. cbv beta in *. eapply reads_bytes_weaken; [apply IH; lia|]. simpl. lia.
Qed.

Lemma parse_dns_query_reads len flow :
  12 <= len -> event_ok flow -> reads_bytes (fun p => parse_dns_query p len flow) len event_ok.
Proof.
  intros Hl Hok. unfold parse_dns_query.
  eapply (reads_bytes_bind (fun p => dns_labels _ p len 12 [])).
  { apply dns_labels_reads; simpl; lia. }
  intros [[off name] jumped] [Ho Hn]. simpl in *. rewrite put_char_Done by lia. simpl.
  destruct (negb jumped && _) eqn:E; [|apply reads_bytes_ret; auto with stb].
  apply andb_true_iff in E as [_ E]. apply Z.ltb_lt in E.
  rb_rd. rb_rd. apply reads_bytes_ret. auto with stb.
Qed.

Lemma parse_dns_payload_reads len flow is_reply :
  event_ok flow -> reads_bytes (fun p => parse_dns_payload p len flow is_reply) len event_ok.
Proof.
  intros Hok. unfold parse_dns_payload.
  destruct (Z.ltb_spec len 12); [by apply reads_bytes_ret|]. do 6 rb_rd.
  destruct is_reply; [apply reads_bytes_ret; auto with stb|].
  case_match; [by apply parse_dns_query_reads|by apply reads_bytes_ret].
Qed.

(** *** The HTTP parser stays inside its arrays *)

Lemma skip_blanks_Done s : In 0 s -> exists s', skip_blanks s = Done s' /\ In 0 s'.
Proof.
  induction s as [|c s IH]; simpl; [done|]. intros H. zcase; [|eauto].
  destruct H as [->|H]; [lia|auto].
Qed.

Lemma copy_value_Done s max value i :
  In 0 s -> 0 <= i -> max < zlen value -> i <= max ->
  exists value' j, copy_value s max value i = Done (value', j) /\
    length value' = length value /\ i <= j <= max.
Proof.
  revert value i. induction s as [|c s IH]; intros value i Hin Hi Hmax Hle; simpl; [done|].
  destruct (Z.eqb_spec c 0) as [->|Hc]; simpl; [eexists _, _; split_and!; done || lia|].
  destruct (negb (c =? 13) && negb (c =? 10)); simpl; [|eexists _, _; split_and!; done || lia].
  zcase; [|eexists _, _; split_and!; done || lia].
  rewrite wr_Done, bind_Done by lia.
  destruct (IH (<[Z.to_nat i:=c]> value) (i + 1)) as (v & j & E & Hl & Hj);
    [by destruct Hin|lia|rewrite length_insert; lia|lia|].
  exists v, j. rewrite Hl, length_insert. split_and!; done || lia.
Qed.

Lemma header_value_Done b k1 k2 skip max value :
  length (lit k1) = skip -> length (lit k2) = skip -> 0 <= max -> max < zlen value ->
  exists value', header_value (b ++ [0]) k1 k2 skip max value = Done value' /\
    length value' = length value.
Proof.
  intros H1 H2 Hmax Hlen. unfold header_value.
  destruct (find_header (b ++ [0]) k1 k2) as [o|] eqn:E; [|eauto].
  assert (o + skip <= length (cstr (b ++ [0%Z])))%nat as Ho.
  { unfold find_header in E. destruct (strcasestr (b ++ [0]) (lit k1)) eqn:E1; simplify_eq.
    - apply strcasestr_lt in E1. lia.
    - apply strcasestr_lt in E. lia. }
  pose proof (cstr_length_lt (b ++ [0]) (length b) ltac:(by rewrite lookup_app_r, Nat.sub_diag)) as Hb.
  destruct (skip_blanks_Done (drop (o + skip) (b ++ [0]))) as (s & -> & Hs).
  { rewrite drop_app_le by lia. apply in_or_app. right. by left. }
  rewrite bind_Done. destruct (copy_value_Done s max value 0) as (v & j & -> & Hl & Hj); [done|lia..|].
  rewrite bind_Done, wr_Done by lia. eexists. split; [done|]. by rewrite length_insert.
Qed.

Lemma or_else_Done s d : 0 < zlen s -> exists t, or_else s d = Done t.
Proof.
  intros H. unfold or_else. destruct (rd_defined s 0) as (x & -> & _); [lia|].
  rewrite bind_Done. eauto.
Qed.

Lemma copy_string_Done dst src off n :
  0 <= off -> 0 <= n -> off + n <= zlen src -> n < zlen dst ->
  exists dst', copy_string dst src off n = Done dst' /\ length dst' = length dst.
Proof.
  intros Ho Hn Hs Hd. unfold copy_string. rewrite memcpy_from_Done, bind_Done by lia.
  rewrite wr_bytes_Done, bind_Done by (rewrite ?length_take, ?length_drop; lia).
  assert (length (blit dst (Z.to_nat 0) (take (Z.to_nat n) (drop (Z.to_nat off) src))) = length dst)
    as Hl by (apply length_blit; rewrite length_take, length_drop; lia).
  rewrite wr_Done by lia. eexists. split; [done|]. by rewrite length_insert.
Qed.

Lemma request_line_Done b method path :
  15 < zlen method -> 255 < zlen path ->
  exists method' path', request_line (b ++ [0]) method path = Done (method', path') /\
    length method' = length method /\ length path' = length path.
Proof.
  intros Hm Hp. unfold request_line.
  pose proof (cstr_length_lt (b ++ [0]) (length b) ltac:(by rewrite lookup_app_r, Nat.sub_diag)) as Hb.
  destruct (strchr (b ++ [0]) 32) as [sp|] eqn:E; [|eauto 6].
  apply strchr_lt in E.
  destruct (copy_string_Done method (b ++ [0]) 0 (if 15 <? Z.of_nat sp then 15 else Z.of_nat sp))
    as (m' & -> & Hl); [lia| | | |]; try (rewrite ?length_app; simpl; zcase; lia).
  rewrite bind_Done.
  destruct (strchr (drop (sp + 1) (b ++ [0])) 32) as [pe|] eqn:E2; [|eauto 6].
  apply strchr_lt in E2. pose proof (length_cstr (drop (sp + 1) (b ++ [0]))) as H2.
  rewrite length_drop, length_app in H2. simpl in H2.
  destruct (copy_string_Done path (b ++ [0]) (Z.of_nat (sp + 1))
    (if 255 <? Z.of_nat pe then 255 else Z.of_nat pe))
    as (p' & -> & Hl'); [lia| | | |]; try (rewrite ?length_app; simpl; zcase; lia).
  rewrite bind_Done. eauto 6.
Qed.

Lemma is_status_line_Done buf : 4 <= zlen buf -> exists h, is_status_line buf = Done h.
Proof.
  intros H. unfold is_status_line.
  destruct (rd_defined buf 0) as (? & -> & _); [lia|].
  destruct (rd_defined buf 1) as (? & -> & _); [lia|].
  destruct (rd_defined buf 2) as (? & -> & _); [lia|].
  destruct (rd_defined buf 3) as (? & -> & _); [lia|].
  rewrite !bind_Done. repeat case_match; eauto.
Qed.

Lemma parse_http_response_Done b flow :
  3 <= zlen b -> event_ok flow ->
  exists e, parse_http_response (b ++ [0]) flow = Done e /\ event_ok e.
Proof.
  intros Hb Hok. unfold parse_http_response.
  destruct (is_status_line_Done (b ++ [0])) as (h & ->); [rewrite length_app; simpl; lia|].
  rewrite bind_Done. destruct h; simpl (negb _); cbv iota; [|eauto]. cbv zeta.
  destruct (header_value_Done b "Content-Type:" "content-type:" 13 127 (replicate 128 0))
    as (v & -> & Hl); [done..|].
  rewrite length_replicate in Hl. rewrite bind_Done.
  destruct (or_else_Done v "unknown") as (t & ->); [lia|]. rewrite bind_Done.
  eexists. split; [done|]. auto with stb.
Qed.

Lemma parse_http_request_Done b flow :
  event_ok flow -> exists e, parse_http_request (b ++ [0]) flow = Done e /\ event_ok e.
Proof.
  intros Hok. unfold parse_http_request.
  destruct (request_line_Done b (replicate 16 0) (replicate 256 0)) as (m & p & -> & Hm & Hp); [done..|].
  rewrite bind_Done.
  destruct (header_value_Done b "Host:" "host:" 5 255 (replicate 256 0)) as (v & -> & Hv); [done..|].
  rewrite length_replicate in *. rewrite bind_Done.
  destruct (or_else_Done m "UNKNOWN") as (? & ->); [lia|].
  destruct (or_else_Done p "/") as (? & ->); [lia|].
  destruct (or_else_Done v "unknown") as (? & ->); [lia|]. rewrite !bind_Done.
  eexists. split; [done|]. auto with stb.
Qed.

Lemma parse_http_payload_reads len flow is_resp :
  event_ok flow -> reads_bytes (fun p => parse_http_payload p len flow is_resp) len event_ok.
Proof.
  intros Hok. unfold parse_http_payload.
  destruct (Z.ltb_spec len 10); [by apply reads_bytes_ret|].
  eapply (reads_bytes_bind (fun p => http_buf p len) _ _
    (fun buf => exists b, buf = b ++ [0] /\ 3 <= zlen b)).
  { unfold http_buf. eapply (reads_bytes_bind (fun p => memcpy_from p _ _)).
    - apply reads_bytes_memcpy; [lia|]. case_match; lia.
    - intros b [Hb _]. rewrite (proj2 (Z.ltb_lt _ _)) by (revert Hb; zcase; lia).
      apply reads_bytes_ret. exists b. split; [done|]. revert Hb. zcase; lia. }
  intros buf (b & -> & Hb). destruct is_resp.
  - destruct (parse_http_response_Done b flow) as (e & He & Hoke); [done..|].
    by eapply reads_bytes_pure.
  - destruct (parse_http_request_Done b flow) as (e & He & Hoke); [done..|].
    by eapply reads_bytes_pure.
Qed.

Lemma extract_tcp_seq_num_reads len pkt :
  reads_bytes (fun p => extract_tcp_seq_num p len pkt) len
    (fun r => forall seq plen fl, r = Some (seq, plen, fl) -> is_u32 seq /\ is_u16 plen /\ is_u8 fl).
Proof.
  unfold extract_tcp_seq_num. case_match; [by apply reads_bytes_ret|].
  eapply (reads_bytes_bind _ _ _ (fun o => o = 14 \/ o = 18)).
  { unfold link_len. destruct (Z.leb_spec 16 len); [|apply reads_bytes_ret; by left]. rb_rd.
    case_match; [rb_rd|]; apply reads_bytes_ret; [case_match|]; auto. }
  intros eo Heo.
  eapply (reads_bytes_bind _ _ _ (fun o => forall x, o = Some x -> 0 <= x)).
  { unfold tcp_offset_of. case_match; [|case_match; apply reads_bytes_ret; [intros x [= <-]; lia|done]].
    destruct (Z.ltb_spec len (eo + 20)); [by apply reads_bytes_ret|]. rb_rd.
    apply reads_bytes_ret. intros x [= <-].
    assert (0 <= Z.land a 15) by (apply Z.land_nonneg; lia). lia. }
  intros [o|] Ho; [|by apply reads_bytes_ret]. specialize (Ho o eq_refl).
  destruct (Z.ltb_spec len (o + 20)); [by apply reads_bytes_ret|].
  eapply (reads_bytes_bind (fun p => memcpy_from p _ _)); [apply reads_bytes_memcpy; lia|].
  intros h [Hh Hb]. apply reads_bytes_ret. intros seq plen fl [= <- <- <-].
  assert (Hbyte : forall i, is_byte (byte_at h i)).
  { intros i. unfold byte_at. destruct (h !! i) eqn:E; simpl; [|unfold is_byte; lia].
    by eapply Forall_lookup_1. }
  split; [by apply be32_range|]. split; [case_match; auto with stb|].
  rewrite tcp_flags_v6_land by done. apply (land_range 8); [lia|]. apply Hbyte.
Qed.

(** C16: the payload parsers are memory safe and terminate on every input: for
    any [len] and any byte array of at least [len] bytes (a hostile packet),
    they read nothing beyond the first [len] bytes, never write outside their
    local arrays, stop, and leave a well-formed event; the sequence number,
    payload length and flags they return fit their types. *)
Theorem payload_parsers_safe (len : Z) (flow : flow_event_t) (pkt : pkt_event_t) (b : bool) :
  event_ok flow ->
  reads_bytes (fun p => parse_dns_payload p len flow b) len event_ok /\
  reads_bytes (fun p => parse_http_payload p len flow b) len event_ok /\
  reads_bytes (fun p => extract_tcp_seq_num p len pkt) len
    (fun r => forall seq plen fl, r = Some (seq, plen, fl) -> is_u32 seq /\ is_u16 plen /\ is_u8 fl).
Proof.
  intros Hok. auto using parse_dns_payload_reads, parse_http_payload_reads,
    extract_tcp_seq_num_reads.
Qed.

Lemma payload_parsers_safe_witness :
  exists e, parse_dns_payload (replicate 12 0xFF ++ replicate 300 0xBF) 312 zero_event false
            = Done e /\ event_ok e.
Proof.
  destruct (payload_parsers_safe 312 zero_event zero_pkt false zero_event_ok) as (H & _ & _).
  destruct (H (replicate 12 0xFF ++ replicate 300 0xBF)) as (e & He & _ & Hok).
  - apply Forall_app. split; apply Forall_replicate; unfold is_byte; lia.
  - vm_compute. discriminate.
  - exists e. split; [exact He|exact Hok].
Defined.

(** ** DNS queries decode *)

(** A query name as RFC 1035 encodes it: the labels, each after its length. *)
Fixpoint enc_labels (ls : list bytes) : bytes :=
  match ls with [] => [] | l :: ls' => zlen l :: l ++ enc_labels ls' end.
Definition label_ok (l : bytes) : Prop := 1 <= zlen l < 0xC0 /\ Forall is_byte l.

(** The dotted form. *)
Fixpoint dotted (ls : list bytes) : bytes :=
  match ls with
  | [] => []
  | [l] => l
  | l :: ls' => l ++ 46 :: dotted ls'
  end.

(** [name] extended by the labels, a dot before each once it is not empty. *)
Definition add_label (name l : bytes) : bytes :=
  match name with [] => l | _ => name ++ 46 :: l end.

Lemma dotted_foldl ls name :
  name <> [] -> foldl add_label name ls = name ++ mjoin (cons 46 <$> ls).
Proof.
  revert name. induction ls as [|l ls IH]; intros name Hn; simpl; [by rewrite app_nil_r|].
  rewrite IH; destruct name; try done. simpl. by rewrite <- !app_assoc.
Qed.

Lemma dotted_mjoin l ls : dotted (l :: ls) = l ++ mjoin (cons 46 <$> ls).
Proof.
  revert l. induction ls as [|l' ls IH]; intros l; [by rewrite app_nil_r|].
  change (dotted (l :: l' :: ls)) with (l ++ 46 :: dotted (l' :: ls)). by rewrite IH.
Qed.

Lemma dotted_eq ls : Forall label_ok ls -> dotted ls = foldl add_label [] ls.
Proof.
  intros H. destruct H as [|l ls [Hl _] _]; [done|].
  rewrite dotted_mjoin. simpl. rewrite dotted_foldl; [done|]. destruct l; simpl in *; [lia|done].
Qed.

Lemma take_app_take {A} n (l k : list A) : take n (take n l ++ k) = take n (l ++ k).
Proof.
  rewrite !take_app, take_take, Nat.min_id, length_take. f_equal. f_equal. lia.
Qed.

Lemma copy_label_spec l pre post name :
  (length name <= 255)%nat ->
  copy_label (length l) (pre ++ l ++ post) (zlen pre) name = Done (take 255 (name ++ l)).
Proof.
  revert pre name. induction l as [|c l IH]; intros pre name Hn; simpl.
  { by rewrite app_nil_r, take_ge by lia. }
  zcase.
  - rewrite (rd_lookup _ _ c); [|lia|by rewrite Nat2Z.id, list_lookup_middle].
    autorewrite with stb. rewrite put_char_Done by lia. autorewrite with stb.
    replace (zlen pre + 1) with (zlen (pre ++ [c])) by (rewrite length_app; simpl; lia).
    replace (pre ++ c :: l ++ post) with ((pre ++ [c]) ++ l ++ post) by by rewrite <- app_assoc.
    rewrite IH by (rewrite length_app; simpl; lia). by rewrite <- app_assoc.
  - rewrite take_app_ge by lia. replace (255 - length name)%nat with 0%nat by lia.
    by rewrite take_0, app_nil_r.
Qed.

Lemma add_label_step name l pre post :
  label_ok l ->
  (name ← (if (0 <? zlen (take 255 name)) && (zlen (take 255 name) <? 255)
           then put_char (take 255 name) 46 else Done (take 255 name));
   copy_label (length l) (pre ++ l ++ post) (zlen pre) name)
  = Done (take 255 (add_label name l)).
Proof.
  intros [Hl _]. destruct name as [|c name]; [by rewrite take_nil; apply copy_label_spec; simpl; lia|].
  set (n := c :: name). change (add_label n l) with (n ++ 46 :: l).
  assert (Hn : (1 <= length n)%nat) by (simpl; lia). clearbody n. clear c name.
  rewrite (proj2 (Z.ltb_lt 0 _)) by (rewrite length_take; lia). simpl (true && _).
  zcase; rewrite length_take in *.
  - rewrite put_char_Done by (rewrite length_take; lia). rewrite bind_Done.
    rewrite take_ge by lia. rewrite copy_label_spec by (rewrite length_app; simpl; lia).
    by rewrite <- app_assoc.
  - rewrite bind_Done, copy_label_spec by (rewrite length_take; lia).
    rewrite take_app_take. by rewrite !take_app_le by lia.
Qed.

Lemma dns_labels_spec fuel ls pre post len name :
  Forall label_ok ls -> (length ls < fuel)%nat ->
  zlen (pre ++ enc_labels ls ++ 0 :: post) <= len ->
  dns_labels fuel (pre ++ enc_labels ls ++ 0 :: post) len (zlen pre) (take 255 name)
  = Done (zlen pre + zlen (enc_labels ls), take 255 (foldl add_label name ls), false).
Proof.
  intros Hls. revert fuel pre name.
  induction Hls as [|l ls Hl Hls IH]; intros [|fuel] pre name Hf Hlen;
    cbn [dns_labels enc_labels app length foldl] in *; try lia.
  - rewrite length_app in Hlen. cbn [length] in Hlen. ztest. simpl (negb _). cbv iota.
    rewrite (rd_lookup _ _ 0); [|lia|by rewrite Nat2Z.id, list_lookup_middle].
    autorewrite with stb. simpl. by rewrite Z.add_0_r.
  - rewrite <- app_assoc in *. cbn [app] in *.
    pose proof Hl as [Hl1 _]. rewrite length_app in Hlen. cbn [length] in Hlen.
    rewrite length_app in Hlen. ztest. simpl (negb _). cbv iota.
    rewrite (rd_lookup _ _ (zlen l)); [|lia|by rewrite Nat2Z.id, list_lookup_middle].
    autorewrite with stb. ztest. rewrite Nat2Z.id.
    replace (pre ++ zlen l :: l ++ _)
      with ((pre ++ [zlen l]) ++ l ++ enc_labels ls ++ 0 :: post)
      by by rewrite <- app_assoc.
    replace (zlen pre + 1) with (zlen (pre ++ [zlen l])) by (rewrite length_app; simpl; lia).
    rewrite bind_assoc, add_label_step, bind_Done by done.
    rewrite (app_assoc _ l).
    replace (_ + zlen l) with (zlen ((pre ++ [zlen l]) ++ l)) by (rewrite !length_app; simpl; lia).
    rewrite IH; [|lia|]; cycle 1.
    { rewrite length_app in Hlen. cbn [length] in Hlen. rewrite !length_app. cbn [length]. lia. }
    do 3 f_equal. cbn [length]. rewrite !length_app. simpl. lia.
Qed.

Lemma enc_labels_length ls : Forall label_ok ls -> (length ls <= length (enc_labels ls))%nat.
Proof. induction 1; simpl; [lia|]. rewrite length_app. lia. Qed.

Lemma dotted_no_nul ls : Forall no_nul ls -> no_nul (dotted ls).
Proof.
  intros H. destruct H as [|l ls Hl Hls]; [constructor|]. rewrite dotted_mjoin.
  apply no_nul_app. split; [done|]. clear Hl l.
  induction Hls as [|l ls Hl _ IH]; simpl; [constructor|]. constructor; [lia|].
  apply no_nul_app. done.
Qed.

(** The details of a query, in full. *)
Definition dns_query_text (ls : list bytes) (qtype : Z) : bytes :=
  lit "dns_query:name=" ++ take 255 (dotted ls) ++ lit ",type=" ++ qtype_str qtype.

Lemma qtype_str_no_nul t : no_nul (qtype_str t).
Proof. apply no_nul_dec. unfold qtype_str. repeat case_match; reflexivity. Qed.

Lemma dns_query_text_no_nul ls t : Forall no_nul ls -> no_nul (dns_query_text ls t).
Proof.
  intros H. unfold dns_query_text. rewrite !no_nul_app.
  split; [by apply no_nul_dec|]. split; [by apply no_nul_take, dotted_no_nul|].
  split; [by apply no_nul_dec|apply qtype_str_no_nul].
Qed.

(** C26: DNS round trip.  A query encoded as RFC 1035 says (header with a
    positive question count, labels of 1 to 191 bytes, type, any class and
    trailing data) is decoded to its dotted name, cut to 255 characters, and
    its type; the text is cut to the 127 characters of the field. *)
Theorem dns_query_roundtrip (hdr : bytes) (ls : list bytes) (qtype : Z) (rest : bytes)
    (flow : flow_event_t) :
  length hdr = 12%nat -> Forall is_byte hdr -> 0 < be16 (byte_at hdr 4) (byte_at hdr 5) ->
  Forall label_ok ls -> Forall no_nul ls -> is_u16 qtype -> event_ok flow ->
  let p := hdr ++ enc_labels ls ++ 0 :: enc16 qtype ++ rest in
  parse_dns_payload p (zlen p) flow false = Done (print_details (dns_query_text ls qtype) flow) /\
  cstr (e_details (print_details (dns_query_text ls qtype) flow)) =
    take 127 (dns_query_text ls qtype).
Proof.
  intros Hh Hb Hq Hls Hnn Ht [Hok _] p. split.
  2:{ apply (cstr_snprintf_field 128); [apply Hok|by apply dns_query_text_no_nul]. }
  assert (Hlen : zlen p = 15 + zlen (enc_labels ls) + zlen rest)
    by (subst p; rewrite !length_app; cbn [length]; rewrite length_app; simpl; lia).
  assert (Hrd : forall i, (i < 12)%nat -> rd p (Z.of_nat i) = Done (byte_at hdr i)).
  { intros i Hi. apply rd_lookup; [lia|]. subst p. rewrite Nat2Z.id, lookup_app_l by lia.
    unfold byte_at. destruct (lookup_lt_is_Some_2 hdr i) as [x ->]; [lia|done]. }
  unfold parse_dns_payload. ztest.
  rewrite (Hrd 2%nat ltac:(lia) : rd p 2 = _), (Hrd 3%nat ltac:(lia) : rd p 3 = _),
    (Hrd 4%nat ltac:(lia) : rd p 4 = _), (Hrd 5%nat ltac:(lia) : rd p 5 = _),
    (Hrd 6%nat ltac:(lia) : rd p 6 = _), (Hrd 7%nat ltac:(lia) : rd p 7 = _).
  rewrite !bind_Done.
  assert (Hby : forall i, is_byte (byte_at hdr i)).
  { intros i. unfold byte_at. destruct (hdr !! i) eqn:E; simpl; [|unfold is_byte; lia].
    by eapply Forall_lookup_1. }
  rewrite (u16_small (be16 (byte_at hdr 4) _)) by auto with stb. ztest.
  unfold parse_dns_query.
  pose proof (dns_labels_spec (Z.to_nat (zlen p)) ls hdr (enc16 qtype ++ rest) (zlen p) [] Hls) as Hd.
  rewrite take_nil, Hh in Hd. fold p in Hd. change (Z.of_nat 12) with 12 in Hd.
  pose proof (enc_labels_length ls Hls).
  rewrite Hd; [|lia|lia]. clear Hd. rewrite bind_Done. cbv beta iota.
  rewrite <- dotted_eq by done. rewrite put_char_Done by (rewrite length_take; lia).
  rewrite bind_Done. simpl (negb _ && _). ztest.
  set (o := 12 + zlen (enc_labels ls) + 1).
  rewrite (rd_lookup p o (qtype / 256)), (rd_lookup p (o + 1) (qtype mod 256)); try lia; cycle 1.
  { subst p. rewrite lookup_app_r, lookup_app_r by lia.
    replace (Z.to_nat _ - _ - _)%nat with 2%nat by lia. reflexivity. }
  { subst p. rewrite lookup_app_r, lookup_app_r by lia.
    replace (Z.to_nat _ - _ - _)%nat with 1%nat by lia. reflexivity. }
  rewrite !bind_Done, be16_enc16, u16_small by done.
  by rewrite cstr_app_nul by (apply no_nul_take, dotted_no_nul; done).
Qed.

Lemma dns_query_roundtrip_witness :
  cstr (e_details (print_details (dns_query_text [lit "iptv"; lit "example"; lit "com"] 28) zero_event))
  = lit "dns_query:name=iptv.example.com,type=AAAA".
Proof.
  refine (eq_trans (proj2 (dns_query_roundtrip [1; 2; 1; 0; 0; 1; 0; 0; 0; 0; 0; 0]
    [lit "iptv"; lit "example"; lit "com"] 28 [0; 1] zero_event _ _ _ _ _ _ zero_event_ok)) _);
    [reflexivity| | reflexivity| | | mlia | reflexivity].
  - repeat constructor; unfold is_byte; lia.
  - repeat constructor; unfold is_byte; vm_compute; try discriminate; try done.
  - repeat constructor; vm_compute; discriminate.
Defined.

(** ** HTTP requests decode *)

Lemma prefix_ci_iff needle hay :
  prefix_ci needle hay = true <-> map tolower (take (length needle) hay) = map tolower needle.
Proof.
  revert hay. induction needle as [|n needle IH]; intros [|h hay]; simpl; try done.
  rewrite andb_true_iff, Z.eqb_eq, IH. split; [by intros [-> ->]|by intros [= -> ->]].
Qed.

(** [hn] spells [Host:] in any case, and no earlier part of [pre ++ hn] does. *)
Definition host_first (pre hn : bytes) : Prop :=
  map tolower hn = lit "host:" /\
  forall i, (i < length pre)%nat -> map tolower (take 5 (drop i (pre ++ hn))) <> lit "host:".

Lemma strcasestr_host pre hn t :
  host_first pre hn -> strcasestr_go (pre ++ hn ++ t) (lit "Host:") = Some (length pre).
Proof.
  intros [Hn Hfree]. assert (length hn = 5%nat) as Hl by (by rewrite <- (length_map tolower), Hn).
  induction pre as [|c pre IH].
  - simpl. assert (prefix_ci (lit "Host:") (hn ++ t) = true) as E.
    { apply prefix_ci_iff. change (length (lit "Host:")) with 5%nat.
      by rewrite <- Hl, take_app_length, Hn. }
    destruct (hn ++ t); [discriminate E|]. cbn [strcasestr_go]. by rewrite E.
  - change (strcasestr_go ((c :: pre) ++ hn ++ t) (lit "Host:")) with
      (if prefix_ci (lit "Host:") ((c :: pre) ++ hn ++ t) then Some 0%nat
       else S <$> strcasestr_go (pre ++ hn ++ t) (lit "Host:")).
    rewrite IH by (intros i Hi; apply (Hfree (S i)); simpl; lia).
    destruct (prefix_ci _ _) eqn:E; [|done]. exfalso. apply prefix_ci_iff in E.
    apply (Hfree 0%nat); [simpl; lia|]. rewrite drop_0.
    change (length (lit "Host:")) with 5%nat in E. rewrite app_assoc, take_app_le in E; [done|].
    rewrite length_app. lia.
Qed.

(** A C string at the start of an array of zeros. *)
Definition field_of (n : nat) (s : bytes) : bytes := s ++ replicate (n - length s) 0.

Lemma copy_value_spec h e t pre k :
  Forall (fun c => c <> 0 /\ c <> 13 /\ c <> 10) h -> e = 13 \/ e = 10 ->
  copy_value (h ++ e :: t) (zlen pre + Z.of_nat k) (pre ++ replicate (S k) 0) (zlen pre)
  = Done (pre ++ field_of (S k) (take k h), zlen pre + zlen (take k h)).
Proof.
  intros Hh He. revert pre k. induction Hh as [|c h (H0 & H1 & H2) _ IH]; intros pre k; simpl.
  - rewrite take_nil. unfold field_of. simpl. rewrite Z.add_0_r.
    by destruct He as [-> | ->]; rewrite ?andb_false_r.
  - ztest. simpl. destruct k as [|k].
    { ztest. unfold field_of. simpl. by rewrite Z.add_0_r. }
    ztest. rewrite wr_Done, bind_Done by (rewrite length_app; simpl; lia).
    rewrite Nat2Z.id. replace (<[length pre:=c]> (pre ++ replicate (S (S k)) 0))
      with ((pre ++ [c]) ++ replicate (S k) 0)
      by (rewrite insert_app_r_alt, Nat.sub_diag, <- app_assoc by lia; done).
    replace (zlen pre + Z.of_nat (S k)) with (zlen (pre ++ [c]) + Z.of_nat k)
      by (rewrite length_app; simpl; lia).
    replace (zlen pre + 1) with (zlen (pre ++ [c])) by (rewrite length_app; simpl; lia).
    rewrite IH. rewrite <- app_assoc, length_app. unfold field_of. simpl.
    do 2 f_equal. lia.
Qed.

Lemma skip_blanks_spec k h c t :
  c <> 32 -> (forall x, head h = Some x -> x <> 32) ->
  skip_blanks (replicate k 32 ++ h ++ c :: t) = Done (h ++ c :: t).
Proof.
  intros Hc H. induction k as [|k IH]; simpl; [|done].
  destruct h as [|x h]; simpl; [by ztest|]. specialize (H x eq_refl). by ztest.
Qed.

Lemma field_of_nul n s : (length s < n)%nat -> field_of n s !! length s = Some 0.
Proof.
  intros H. unfold field_of. rewrite lookup_app_r, Nat.sub_diag by lia.
  by apply lookup_replicate_2; lia.
Qed.

(** What an array filled with [s] prints as. *)
Definition or_text (s : bytes) (d : string) : bytes := match s with [] => lit d | _ => s end.

Lemma or_else_spec n s d :
  no_nul s -> (length s < n)%nat -> or_else (field_of n s) d = Done (or_text s d).
Proof.
  intros Hs Hn. unfold or_else, field_of.
  destruct (n - length s)%nat as [|k] eqn:E; [lia|]. simpl (replicate _ _).
  destruct Hs as [|c s Hc Hs]; [done|].
  rewrite (rd_lookup _ 0 c), bind_Done by done. ztest.
  rewrite cstr_app_nul; [done|]. by constructor.
Qed.

Lemma copy_string_spec k src off n s :
  0 <= off -> 0 <= n -> off + n <= zlen src -> n <= Z.of_nat k ->
  take (Z.to_nat n) (drop (Z.to_nat off) src) = s ->
  copy_string (replicate (S k) 0) src off n = Done (field_of (S k) s).
Proof.
  intros Ho Hn Hs Hk Et. unfold copy_string. rewrite memcpy_from_Done, bind_Done, Et by lia.
  assert (zlen s = n) as Hl by (rewrite <- Et, length_take, length_drop; lia).
  rewrite wr_bytes_Done, bind_Done by (rewrite ?length_replicate; lia).
  assert (blit (replicate (S k) 0) (Z.to_nat 0) s = field_of (S k) s) as ->.
  { unfold blit, field_of. change (Z.to_nat 0) with 0%nat.
    rewrite take_0, drop_replicate. done. }
  assert (length (field_of (S k) s) = S k) as Hf
    by (unfold field_of; rewrite length_app, length_replicate; lia).
  rewrite wr_Done by lia. f_equal. apply list_insert_id.
  replace (Z.to_nat n) with (length s) by lia. apply field_of_nul. lia.
Qed.

(** [drop] past a prefix and a separator. *)
Lemma drop_past (s : bytes) c t : drop (length s + 1) (s ++ c :: t) = t.
Proof. rewrite drop_app_ge by lia. by replace (_ - _)%nat with 1%nat by lia. Qed.

Definition http_request_text (m p h : bytes) : bytes :=
  lit "http_req:method=" ++ or_text (take 15 m) "UNKNOWN" ++ lit ",path=" ++
  or_text (take 255 p) "/" ++ lit ",host=" ++ or_text (take 255 h) "unknown".

Lemma take_min_app n (s t : bytes) : take (Nat.min (length s) n) (s ++ t) = take n s.
Proof.
  destruct (Nat.min_spec (length s) n) as [[H ->]|[H ->]].
  - by rewrite take_app_length, take_ge by lia.
  - by rewrite take_app_le.
Qed.

(** The clamp of a length to [k] characters. *)
Lemma clamp_take k (s t : bytes) n :
  n = (if Z.of_nat k <? zlen s then Z.of_nat k else zlen s) ->
  0 <= n <= Z.of_nat k /\ n <= zlen s /\ take (Z.to_nat n) (s ++ t) = take k s.
Proof.
  intros ->. split_and!; [zcase; lia..|]. rewrite <- (take_min_app k s t). f_equal. zcase; lia.
Qed.

Lemma request_line_spec m p t :
  no_nul m -> Forall (fun x => x <> 32) m -> no_nul p -> Forall (fun x => x <> 32) p ->
  request_line (m ++ 32 :: p ++ 32 :: t) (replicate 16 0) (replicate 256 0) =
  Done (field_of 16 (take 15 m), field_of 256 (take 255 p)).
Proof.
  intros Hm Hm1 Hp Hp1. unfold request_line.
  rewrite strchr_app, drop_past, strchr_app by (done || lia). cbv zeta.
  destruct (clamp_take 15 m (32 :: p ++ 32 :: t) _ eq_refl) as (H1 & H2 & H3).
  destruct (clamp_take 255 p (32 :: t) _ eq_refl) as (H4 & H5 & H6).
  change (Z.of_nat 15) with 15 in *. change (Z.of_nat 255) with 255 in *.
  rewrite (copy_string_spec 15 _ _ _ (take 15 m)); [|lia|lia|rewrite length_app; simpl; lia|lia|done].
  rewrite bind_Done, (copy_string_spec 255 _ _ _ (take 255 p)); [done|lia|lia| |lia|].
  - rewrite length_app. simpl. rewrite length_app. lia.
  - by rewrite Nat2Z.id, drop_past.
Qed.

Lemma header_value_host pre hn k h e t :
  no_nul pre -> host_first pre hn ->
  Forall (fun c => c <> 0 /\ c <> 13 /\ c <> 10) h -> (forall c, head h = Some c -> c <> 32) ->
  e = 13 \/ e = 10 ->
  header_value (pre ++ hn ++ replicate k 32 ++ h ++ e :: t) "Host:" "host:" 5 255 (replicate 256 0)
  = Done (field_of 256 (take 255 h)).
Proof.
  intros Hpre Hhn Hh Hh1 He.
  assert (length hn = 5%nat) as Hl by (by rewrite <- (length_map tolower), (proj1 Hhn)).
  assert (no_nul hn) as Hhn0.
  { destruct Hhn as [E _]. apply Forall_forall. intros x Hx ->.
    apply (in_map tolower) in Hx. rewrite E in Hx.
    vm_compute in Hx. intuition discriminate. }
  unfold header_value, find_header, strcasestr. rewrite cstr_app, cstr_app, strcasestr_host by done.
  replace (length pre + 5)%nat with (length (pre ++ hn)) by (rewrite length_app; lia).
  rewrite app_assoc, drop_app_length, skip_blanks_spec by (done || lia). rewrite bind_Done.
  rewrite (copy_value_spec h e t [] 255 Hh He : copy_value _ 255 (replicate 256 0) 0 = _), bind_Done.
  simpl (_ ++ _). assert (length (take 255 h) < 256)%nat by (rewrite length_take; lia).
  rewrite wr_Done by (unfold field_of; rewrite length_app, length_replicate; simpl; lia).
  f_equal. apply list_insert_id. change (zlen []) with 0. rewrite Z.add_0_l, Nat2Z.id.
  by apply field_of_nul.
Qed.

(** A request, cut into its parts: the method, the path, what lies between
    the path and the name of the [Host] header (the protocol version and any
    other headers), the name in any case, and the host.  [ho_first] asks that
    nothing before that name reads [host:]. *)
Record http_request_ok (m p mid hn h : bytes) : Prop := mk_http_ok {
  ho_m : no_nul m /\ Forall (fun x => x <> 32) m;
  ho_p : no_nul p /\ Forall (fun x => x <> 32) p;
  ho_mid : no_nul mid;
  ho_h : Forall (fun c => c <> 0 /\ c <> 13 /\ c <> 10) h;
  ho_h1 : forall c, head h = Some c -> c <> 32;
  ho_first : host_first (m ++ 32 :: p ++ 32 :: mid) hn
}.

Lemma parse_http_request_spec m p mid hn k h e rest flow :
  http_request_ok m p mid hn h -> e = 13 \/ e = 10 ->
  parse_http_request
    (m ++ 32 :: p ++ 32 :: mid ++ hn ++ replicate k 32 ++ h ++ e :: rest) flow
  = Done (put_service (lit "HTTP") (print_details (http_request_text m p h) flow)).
Proof.
  intros [[Hm Hm1] [Hp Hp1] Hmid Hh Hh1 Hf] He. unfold parse_http_request.
  rewrite request_line_spec, bind_Done by done.
  replace (m ++ 32 :: p ++ 32 :: mid ++ hn ++ replicate k 32 ++ h ++ e :: rest)
    with ((m ++ 32 :: p ++ 32 :: mid) ++ hn ++ replicate k 32 ++ h ++ e :: rest)
    by (rewrite <- !app_assoc; simpl; by rewrite <- app_assoc).
  rewrite header_value_host, bind_Done; try done.
  2:{ repeat first [done | apply Forall_app; split | constructor; [lia|]]. }
  assert (no_nul h) by (eapply Forall_impl; [|exact Hh]; simpl; tauto).
  rewrite !or_else_spec; try (rewrite length_take; lia); try (by apply no_nul_take).
  by rewrite !bind_Done.
Qed.



(** The search does not ask for the start of a line: a header whose name ends
    in [Host:] before the real one, or a path with [host:] in it, is reported
    as the host. *)
Example forwarded_host_reported :
  let req := lit "GET / HTTP/1.1" ++ [13; 10] ++ lit "X-Forwarded-Host: evil.example" ++ [13; 10] ++
             lit "Host: stb.local" ++ [13; 10] in
  parse_http_payload req (zlen req) zero_event false =
  Done (put_service (lit "HTTP") (print_details
    (lit "http_req:method=GET,path=/,host=evil.example") zero_event)).
Proof. vm_compute. reflexivity. Qed.

Example path_host_reported :
  let req := lit "GET /?redirect_host:evil HTTP/1.1" ++ [13; 10] ++ lit "Host: stb.local" ++ [13; 10] in
  parse_http_payload req (zlen req) zero_event false =
  Done (put_service (lit "HTTP") (print_details
    (lit "http_req:method=GET,path=/?redirect_host:evil,host=evil HTTP/1.1") zero_event)).
Proof. vm_compute. reflexivity. Qed.

(** ** Sequence numbers of accepted packets *)

(** The link-header length of [extract_tcp_seq_num] is the parser's. *)
Lemma link_len_agrees p len ty off :
  Forall is_byte p -> parse_ethernet p len = Done (Some (ty, off)) -> 16 <= len ->
  link_len p len = Done off.
Proof.
  intros Hb H Hl. unfold parse_ethernet in H.
  apply bind_Done_inv in H as (b12 & H12 & (b13 & H13 & H)%bind_Done_inv).
  pose proof (rd_byte _ _ _ Hb H12). pose proof (rd_byte _ _ _ Hb H13).
  unfold link_len. ztest. rewrite H12, bind_Done.
  rewrite u16_small, be16_val in H by auto with stb. unfold is_byte in *.
  destruct (Z.eqb_spec b12 0x81).
  - rewrite H13, bind_Done. destruct (Z.eqb_spec b13 0); revert H; zcase; try lia.
    + zcase; [done|]. intros (b16 & _ & (b17 & _ & [= _ <-])%bind_Done_inv)%bind_Done_inv. done.
    + intros [= _ <-]. done.
  - revert H. zcase; [lia|]. intros [= _ <-]. done.
Qed.

Lemma memcpy_from_inv p off n h :
  memcpy_from p off n = Done h ->
  0 <= off /\ off + Z.of_nat n <= zlen p /\ h = take n (drop (Z.to_nat off) p).
Proof.
  unfold memcpy_from. destruct (Z.leb_spec 0 off), (Z.leb_spec (off + Z.of_nat n) (zlen p));
    simpl; try done. by intros [= <-].
Qed.

Lemma memcpy_from_byte p off n h i :
  memcpy_from p off n = Done h -> (i < n)%nat -> rd p (off + Z.of_nat i) = Done (byte_at h i).
Proof.
  intros (H1 & H2 & ->)%memcpy_from_inv Hi.
  destruct (rd_defined p (off + Z.of_nat i)) as (x & Hx & Hl); [lia|]. rewrite Hx. f_equal.
  unfold byte_at. rewrite lookup_take_lt, lookup_drop by done.
  replace (Z.to_nat off + i)%nat with (Z.to_nat (off + Z.of_nat i)) by lia. by rewrite Hl.
Qed.

(** What the two parsers leave for a TCP packet they accept: the offset of its
    TCP header and the flags of that header. *)
Definition tcp_at (p : bytes) (len off : Z) (flags : Z) : Prop :=
  off + 20 <= len /\
  exists tcp, memcpy_from p off 20 = Done tcp /\ Forall is_byte tcp /\
              Z.land flags 0x17 = Z.land (byte_at tcp 13) 0x17.

Lemma parse_ipv4_tcp p len off evt pkt :
  Forall is_byte p -> parse_ipv4 p len off evt = Done (true, pkt) -> q_protocol pkt = IPPROTO_TCP ->
  q_ip_version pkt = 4 /\ off + 20 <= len /\
  exists b, rd p off = Done b /\ tcp_at p len (off + Z.land b 0x0F * 4) (q_tcp_flags pkt).
Proof.
  intros Hb H Htcp. unfold parse_ipv4 in H. destruct (Z.ltb_spec len (off + 20)); [done|].
  apply bind_Done_inv in H as (ip & Hip & H). destruct (negb _) in H; [done|].
  pose proof (memcpy_from_byte _ _ _ _ 0 Hip ltac:(lia)) as Hb0. rewrite Z.add_0_r in Hb0.
  unfold parse_transport_v4 in H. destruct (Z.eqb_spec (byte_at ip 9) IPPROTO_TCP) as [E|E].
  - destruct (Z.ltb_spec len (off + Z.land (byte_at ip 0) 15 * 4 + 20)); [done|].
    apply bind_Done_inv in H as (tcp & Ht & [= <-]). simpl. split; [done|]. split; [done|].
    exists (byte_at ip 0). split; [done|]. split; [done|]. exists tcp. split; [done|].
    pose proof (memcpy_from_bytes _ _ _ _ Hb Ht). split; [done|].
    rewrite tcp_flags_v4_land by by apply byte_at_byte. by rewrite <- Z.land_assoc.
  - exfalso. apply E. rewrite <- Htcp. clear Htcp E.
    repeat (case_match; try done); try (apply bind_Done_inv in H as (h & _ & [= <-])); try done;
      by injection H as <-.
Qed.

Lemma parse_ipv6_tcp p len off evt pkt :
  Forall is_byte p -> parse_ipv6 p len off evt = Done (true, pkt) -> q_protocol pkt = IPPROTO_TCP ->
  q_ip_version pkt = 6 /\ tcp_at p len (off + 40) (q_tcp_flags pkt).
Proof.
  intros Hb H Htcp. unfold parse_ipv6 in H. destruct (Z.ltb_spec len (off + 40)); [done|].
  apply bind_Done_inv in H as (ip & Hip & H).
  destruct (Z.eqb_spec (byte_at ip 6) IPPROTO_TCP) as [E|E].
  - destruct (Z.ltb_spec len (off + 40 + 20)); [done|].
    apply bind_Done_inv in H as (tcp & Ht & [= <-]). simpl. split; [done|]. split; [done|].
    exists tcp. split; [done|]. pose proof (memcpy_from_bytes _ _ _ _ Hb Ht). split; [done|].
    rewrite tcp_flags_v6_land by by apply byte_at_byte. by rewrite <- Z.land_assoc.
  - exfalso. apply E. rewrite <- Htcp. clear Htcp E.
    repeat (case_match; try done); try (apply bind_Done_inv in H as (h & _ & [= <-])); try done;
      by injection H as <-.
Qed.

(** The function's result once the header is located. *)
Definition seq_result (len off : Z) (tcp : bytes) (flags : Z) : Z * Z * Z :=
  let hdr := off + Z.shiftr (byte_at tcp 12) 4 * 4 in
  (be32 (byte_at tcp 4) (byte_at tcp 5) (byte_at tcp 6) (byte_at tcp 7),
   if hdr <? len then u16 (len - hdr) else 0,
   Z.land flags 0x17).

Lemma high_nibble b : is_byte b -> Z.land (Z.shiftr b 4) 15 = Z.shiftr b 4.
Proof.
  intros Hb. apply Z.eqb_eq. revert b Hb.
  apply (forall_byte (fun b => Z.land (Z.shiftr b 4) 15 =? Z.shiftr b 4)). done.
Qed.

Lemma extract_at p len pkt link o :
  q_protocol pkt = IPPROTO_TCP -> link_len p len = Done link ->
  tcp_offset_of p len pkt link = Done (Some o) -> tcp_at p len o (q_tcp_flags pkt) ->
  exists tcp, memcpy_from p o 20 = Done tcp /\
    extract_tcp_seq_num p len pkt = Done (Some (seq_result len o tcp (q_tcp_flags pkt))).
Proof.
  intros Htcp Hl Ho (Hlen & tcp & Ht & Htb & Hfl). exists tcp. split; [done|].
  unfold extract_tcp_seq_num, seq_result. rewrite Htcp, Z.eqb_refl. simpl (negb _). cbv iota.
  rewrite Hl, bind_Done, Ho, bind_Done. ztest.
  rewrite Ht, bind_Done, high_nibble by by apply byte_at_byte.
  by rewrite tcp_flags_v6_land, Hfl by by apply byte_at_byte.
Qed.

(** Every TCP packet [packet_parse_raw] accepts, IPv4 (with options) or
    IPv6, tagged or not, has its sequence number extracted from the same TCP
    header: the number is the big-endian word at offset 4, the flags are those
    of the parser without PSH and URG, and the payload length is what the
    frame holds after the TCP header (link-layer padding included, since the
    total length of the IP header is not consulted). *)
Lemma extract_after_parse (p : bytes) (len : Z) (evt pkt : pkt_event_t) :
  Forall is_byte p -> packet_parse_raw p len evt = Done (true, pkt) ->
  q_protocol pkt = IPPROTO_TCP ->
  exists off tcp,
    memcpy_from p off 20 = Done tcp /\
    extract_tcp_seq_num p len pkt = Done (Some (seq_result len off tcp (q_tcp_flags pkt))).
Proof.
  intros Hb H Htcp. unfold packet_parse_raw in H. destruct (Z.ltb_spec len 14); [done|].
  apply bind_Done_inv in H as ([[ty off]|] & He & H); [|done].
  assert (Hoff : 14 <= off) by (by apply parse_ethernet_offset in He).
  destruct (ty =? ETH_P_IP); [|destruct (ty =? ETH_P_IPV6); [|done]].
  - destruct (parse_ipv4_tcp _ _ _ _ _ Hb H Htcp) as (Hv & Hl & b & Hr & Ht).
    eexists. eapply extract_at; [done|by eapply link_len_agrees; eauto; lia| |done].
    unfold tcp_offset_of. rewrite Hv. simpl (_ =? _). cbv iota. ztest. by rewrite Hr.
  - destruct (parse_ipv6_tcp _ _ _ _ _ Hb H Htcp) as (Hv & Ht). pose proof Ht as [? _].
    eexists. eapply extract_at; [done|by eapply link_len_agrees; eauto; lia| |done].
    unfold tcp_offset_of. by rewrite Hv.
Qed.

(** A pure ACK padded to the 60 bytes of a minimal frame counts 6 bytes. *)
Lemma extract_after_parse_witness :
  let p := replicate 12 0 ++ [8; 0; 0x45; 0; 0; 40; 0; 0; 0; 0; 64; 6; 0; 0] ++
           [10; 0; 0; 1; 10; 0; 0; 2] ++
           [0x1F; 0x90; 0; 80; 1; 2; 3; 4; 0; 0; 0; 0; 0x50; 0x10; 0; 0; 0; 0; 0; 0] ++
           replicate 6 0 in
  exists pkt, packet_parse_raw p 60 zero_pkt = Done (true, pkt) /\
              extract_tcp_seq_num p 60 pkt = Done (Some (0x01020304, 6, 0x10)).
Proof.
  intros p. set (pkt := mk_pkt 0 (le32 10 0 0 1) (le32 10 0 0 2) 8080 80 6 0x10 0 0 0 4 0 0).
  assert (H : packet_parse_raw p 60 zero_pkt = Done (true, pkt)) by (vm_compute; reflexivity).
  exists pkt. split; [exact H|].
  destruct (extract_after_parse p 60 zero_pkt pkt) as (off & tcp & _ & He).
  - apply (bool_decide_unpack _). vm_compute. exact I.
  - exact H.
  - reflexivity.
  - vm_compute. reflexivity.
Defined.
