(* ===== verification/Anomaly.v ===== *)
(** Anomaly: src/anomaly.c.

    The detector's memory is its two fixed arrays with their counters; a
    pointer into one is the index of the slot.  [ts], the value of [now_ns ()],
    is an argument of [anomaly_check_flow]. *)

From stdpp Require Import base list gmap strings numbers option relations.
From S2P Require Import Prelude CLib Common.

(** ** Data *)

Record src_stats : Type := mk_src {
  s_src_ip : Z;
  s_unique_ports : list Z;
  s_port_count : Z;
  s_last_seen_ns : Z;
  s_total_bytes : Z;
  s_active : bool
}.

Record bw_record : Type := mk_bw {
  w_key : flow_key_t;
  w_last_bytes : Z;
  w_last_time_ns : Z;
  w_prev_bytes : Z;
  w_prev_time_ns : Z;
  w_active : bool
}.

Record anomaly_detector : Type := mk_ad {
  ad_sources : list src_stats;
  ad_bw_records : list bw_record;
  ad_src_count : Z;
  ad_bw_count : Z;
  ad_spike_threshold_bps : Z;
  ad_scan_port_threshold : Z;
  ad_spike_count : Z;
  ad_scan_count : Z;
  ad_drop_count : Z
}.

Definition zero_src : src_stats := mk_src 0 (replicate 256 0) 0 0 0 false.
Definition zero_bw : bw_record := mk_bw (mk_key 0 0 0 0 0 0 0) 0 0 0 0 false.

Definition set_sources (l : list src_stats) (ad : anomaly_detector) : anomaly_detector :=
  mk_ad l (ad_bw_records ad) (ad_src_count ad) (ad_bw_count ad) (ad_spike_threshold_bps ad)
    (ad_scan_port_threshold ad) (ad_spike_count ad) (ad_scan_count ad) (ad_drop_count ad).
Definition set_src_count (n : Z) (ad : anomaly_detector) : anomaly_detector :=
  mk_ad (ad_sources ad) (ad_bw_records ad) n (ad_bw_count ad) (ad_spike_threshold_bps ad)
    (ad_scan_port_threshold ad) (ad_spike_count ad) (ad_scan_count ad) (ad_drop_count ad).
Definition set_bw_records (l : list bw_record) (ad : anomaly_detector) : anomaly_detector :=
  mk_ad (ad_sources ad) l (ad_src_count ad) (ad_bw_count ad) (ad_spike_threshold_bps ad)
    (ad_scan_port_threshold ad) (ad_spike_count ad) (ad_scan_count ad) (ad_drop_count ad).
Definition set_bw_count (n : Z) (ad : anomaly_detector) : anomaly_detector :=
  mk_ad (ad_sources ad) (ad_bw_records ad) (ad_src_count ad) n (ad_spike_threshold_bps ad)
    (ad_scan_port_threshold ad) (ad_spike_count ad) (ad_scan_count ad) (ad_drop_count ad).
(** The counters are of type [int]: [alarms_fit] shows that they do not
    overflow before 2^31 checks. *)
Definition add_counts (spike scan drop : Z) (ad : anomaly_detector) : anomaly_detector :=
  mk_ad (ad_sources ad) (ad_bw_records ad) (ad_src_count ad) (ad_bw_count ad)
    (ad_spike_threshold_bps ad) (ad_scan_port_threshold ad) (ad_spike_count ad + spike)
    (ad_scan_count ad + scan) (ad_drop_count ad + drop).

(** ** Operations *)

(** [ok] says whether [calloc] succeeds. *)
Definition anomaly_detector_create (ok : bool) : option anomaly_detector :=
  if ok then Some (mk_ad (replicate 1024 zero_src) (replicate 2048 zero_bw) 0 0 100000000 20 0 0 0)
  else None.

Definition claim_src (src_ip : Z) (s : src_stats) : src_stats :=
  mk_src src_ip (s_unique_ports s) (s_port_count s) (s_last_seen_ns s) (s_total_bytes s) true.

Definition find_src (ad : anomaly_detector) (src_ip : Z) : option (nat * anomaly_detector) :=
  match find_index (fun s => s_active s && (s_src_ip s =? src_ip))
          (take (Z.to_nat (ad_src_count ad)) (ad_sources ad)) with
  | Some i => Some (i, ad)
  | None =>
      if ad_src_count ad <? 1024 then
        let i := Z.to_nat (ad_src_count ad) in
        Some (i, set_src_count (ad_src_count ad + 1)
                   (set_sources (alter (claim_src src_ip) i (ad_sources ad)) ad))
      else None
  end.

Definition port_seen (s : src_stats) (port : Z) : bool :=
  existsb (fun p => p =? port)
    (take (Z.to_nat (Z.min (s_port_count s) 256)) (s_unique_ports s)).

Definition claim_bw (key : flow_key_t) (w : bw_record) : bw_record :=
  mk_bw key (w_last_bytes w) (w_last_time_ns w) (w_prev_bytes w) (w_prev_time_ns w) true.

Definition find_bw (ad : anomaly_detector) (key : flow_key_t) : option (nat * anomaly_detector) :=
  match find_index (fun w => w_active w && key_eqb (w_key w) key)
          (take (Z.to_nat (ad_bw_count ad)) (ad_bw_records ad)) with
  | Some i => Some (i, ad)
  | None =>
      if ad_bw_count ad <? 2048 then
        let i := Z.to_nat (ad_bw_count ad) in
        Some (i, set_bw_count (ad_bw_count ad + 1)
                   (set_bw_records (alter (claim_bw key) i (ad_bw_records ad)) ad))
      else None
  end.

(** The body of the first test: the port is stored, the time noted. *)
Definition note_port (ts port : Z) (s : src_stats) : src_stats :=
  if s_port_count s <? 256
  then mk_src (s_src_ip s) (<[Z.to_nat (s_port_count s) := port]> (s_unique_ports s))
         (s_port_count s + 1) ts (s_total_bytes s) (s_active s)
  else mk_src (s_src_ip s) (s_unique_ports s) (s_port_count s) ts (s_total_bytes s) (s_active s).

(** 1. Port scan detection: the detector after it, and whether it fires. *)
Definition scan_check (ts : Z) (ad : anomaly_detector) (src_ip dst_port : Z)
  : anomaly_detector * bool :=
  match find_src ad src_ip with
  | None => (ad, false)
  | Some (i, ad) =>
      match ad_sources ad !! i with
      | None => (ad, false)
      | Some s =>
          if negb (port_seen s dst_port) && (0 <? dst_port) then
            let s' := note_port ts dst_port s in
            let ad := set_sources (<[i := s']> (ad_sources ad)) ad in
            if ad_scan_port_threshold ad <=? s_port_count s' then (add_counts 0 1 0 ad, true)
            else (ad, false)
          else (ad, false)
      end
  end.

Definition bw_key (flow : flow_event_t) : flow_key_t :=
  mk_key (e_src_ip flow) (e_dst_ip flow) (e_src_port flow) (e_dst_port flow) 0 0 0.

(** The bandwidth computed from a record, [None] when it is not computed. *)
Definition measure_bps (ts : Z) (w : bw_record) : option Z :=
  let dt_ns := u64 (ts - w_last_time_ns w) in
  if (0 <? dt_ns) && (0 <? w_last_time_ns w) && (0 <? w_last_bytes w)
  then Some (u64 (w_last_bytes w * 8 * 1000000000) / dt_ns) else None.

Definition note_bytes (ts nbytes : Z) (w : bw_record) : bw_record :=
  mk_bw (w_key w) (u64 (w_last_bytes w + nbytes)) ts (w_prev_bytes w) (w_prev_time_ns w) (w_active w).

(** 2. Traffic spike detection: detector, event, whether it fires. *)
Definition spike_check (ts : Z) (ad : anomaly_detector) (flow : flow_event_t)
  : anomaly_detector * flow_event_t * bool :=
  match find_bw ad (bw_key flow) with
  | None => (ad, flow, false)
  | Some (i, ad) =>
      match ad_bw_records ad !! i with
      | None => (ad, flow, false)
      | Some w =>
          let updated := set_bw_records (<[i := note_bytes ts (e_bytes flow) w]> (ad_bw_records ad)) ad in
          match measure_bps ts w with
          | None => (updated, flow, false)
          | Some bps =>
              let flow := set_e_bandwidth_bps bps flow in
              if ad_spike_threshold_bps ad <? bps then
                let flow := set_e_anomaly ANOMALY_SPIKE flow in
                let flow := print_details (lit "bandwidth spike: " ++ dec bps ++ lit " bps") flow in
                let flow := put_tags (lit "anomaly,spike") flow in
                (add_counts 1 0 0 ad, flow, true)
              else (updated, flow, false)
          end
      end
  end.

Definition anomaly_check_flow (ts : Z) (ad : anomaly_detector) (flow : flow_event_t)
  : anomaly_detector * flow_event_t * Z :=
  let '(ad, scan) := scan_check ts ad (e_src_ip flow) (e_dst_port flow) in
  if scan then
    (ad, put_tags (lit "anomaly,port_scan") (set_e_anomaly ANOMALY_SCAN flow), ANOMALY_SCAN)
  else
    let '(ad, flow, spike) := spike_check ts ad flow in
    if spike then (ad, flow, ANOMALY_SPIKE)
    else if has_flag (e_tcp_flags flow) TCP_FLAG_RST then
      (add_counts 0 0 1 ad,
       put_tags (lit "anomaly,rst") (set_e_anomaly ANOMALY_DROP flow), ANOMALY_DROP)
    else (ad, flow, ANOMALY_NONE).

(** The line [anomaly_detector_print_stats] prints. *)
Definition anomaly_detector_print_stats (ad : anomaly_detector) : bytes :=
  lit "[ANOMALY] spikes=" ++ decd (ad_spike_count ad) ++ lit " scans=" ++ decd (ad_scan_count ad) ++
  lit " drops=" ++ decd (ad_drop_count ad) ++ lit " tracked_sources=" ++ decd (ad_src_count ad) ++
  lit " tracked_flows=" ++ decd (ad_bw_count ad) ++ [10].

(** ** Invariant *)

(** The ports a source has been seen on. *)
Definition ports_of (s : src_stats) : list Z := take (Z.to_nat (s_port_count s)) (s_unique_ports s).

Record src_ok (s : src_stats) : Prop := mk_src_ok {
  so_length : length (s_unique_ports s) = 256%nat;
  so_count : 0 <= s_port_count s <= 256;
  so_nodup : NoDup (ports_of s);
  so_ports : Forall (fun p => 0 < p < 2 ^ 16) (ports_of s)
}.

Record srcs_ok (l : list src_stats) (n : Z) : Prop := mk_srcs_ok {
  sk_length : length l = 1024%nat;
  sk_count : 0 <= n <= 1024;
  sk_each : Forall src_ok l;
  sk_active : forall i s, l !! i = Some s -> s_active s = true <-> (Z.of_nat i < n);
  sk_fresh : forall i s, l !! i = Some s -> n <= Z.of_nat i -> s_port_count s = 0;
  sk_unique : forall i j s t, l !! i = Some s -> l !! j = Some t ->
    Z.of_nat i < n -> Z.of_nat j < n -> s_src_ip s = s_src_ip t -> i = j
}.

Record bws_ok (l : list bw_record) (n : Z) : Prop := mk_bws_ok {
  bk_length : length l = 2048%nat;
  bk_count : 0 <= n <= 2048;
  bk_each : Forall (fun w => is_u64 (w_last_bytes w) /\ is_u64 (w_last_time_ns w)) l;
  bk_active : forall i w, l !! i = Some w -> w_active w = true <-> (Z.of_nat i < n);
  bk_fresh : forall i w, l !! i = Some w -> n <= Z.of_nat i ->
    w_last_bytes w = 0 /\ w_last_time_ns w = 0;
  bk_unique : forall i j w v, l !! i = Some w -> l !! j = Some v ->
    Z.of_nat i < n -> Z.of_nat j < n -> w_key w = w_key v -> i = j
}.

Record ad_ok (ad : anomaly_detector) : Prop := mk_ad_ok {
  ao_srcs : srcs_ok (ad_sources ad) (ad_src_count ad);
  ao_bws : bws_ok (ad_bw_records ad) (ad_bw_count ad);
  ao_spike : ad_spike_threshold_bps ad = 100000000;
  ao_scan : ad_scan_port_threshold ad = 20
}.

Lemma srcs_ok_init : srcs_ok (replicate 1024 zero_src) 0.
Proof.
  constructor; [apply length_replicate|lia|..].
  - apply Forall_replicate. constructor; [apply length_replicate|simpl; lia|constructor|constructor].
  - intros i s [-> _]%lookup_replicate. cbn. split; [done|lia].
  - intros i s [-> _]%lookup_replicate _. done.
  - lia.
Qed.

Lemma bws_ok_init : bws_ok (replicate 2048 zero_bw) 0.
Proof.
  constructor; [apply length_replicate|lia|..].
  - apply Forall_replicate. cbn. mlia.
  - intros i s [-> _]%lookup_replicate. cbn. split; [done|lia].
  - intros i s [-> _]%lookup_replicate _. done.
  - lia.
Qed.

Lemma ad_create_ok ad : anomaly_detector_create true = Some ad -> ad_ok ad.
Proof. intros [= <-]. constructor; [apply srcs_ok_init|apply bws_ok_init|done|done]. Qed.

(** An update of a slot that keeps its owner. *)
Lemma srcs_ok_insert l n i s s' :
  srcs_ok l n -> l !! i = Some s -> Z.of_nat i < n -> src_ok s' ->
  s_src_ip s' = s_src_ip s -> s_active s' = true -> srcs_ok (<[i := s']> l) n.
Proof.
  intros [H1 H2 H3 H4 H5 H6] Hi Hin Hs' Hip Hact. constructor; try done.
  - by rewrite length_insert.
  - by apply Forall_insert.
  - intros j t [(<- & <- & _)|(Hne & Ht)]%list_lookup_insert_Some; [done|]. eauto.
  - intros j t [(<- & <- & _)|(Hne & Ht)]%list_lookup_insert_Some; [lia|]. eauto.
  - intros j k t u [(<- & <- & _)|(Hne & Ht)]%list_lookup_insert_Some
      [(<- & <- & _)|(Hne' & Hu)]%list_lookup_insert_Some Hj Hk He; try done.
    + exfalso. apply Hne'. eapply (H6 i k s u); congruence || done.
    + exfalso. apply Hne. symmetry. eapply (H6 j i t s); congruence || done.
    + eauto.
Qed.

Lemma bws_ok_insert l n i w w' :
  bws_ok l n -> l !! i = Some w -> Z.of_nat i < n ->
  is_u64 (w_last_bytes w') /\ is_u64 (w_last_time_ns w') ->
  w_key w' = w_key w -> w_active w' = true -> bws_ok (<[i := w']> l) n.
Proof.
  intros [H1 H2 H3 H4 H5 H6] Hi Hin Hs' Hip Hact. constructor; try done.
  - by rewrite length_insert.
  - by apply Forall_insert.
  - intros j t [(<- & <- & _)|(Hne & Ht)]%list_lookup_insert_Some; [done|]. eauto.
  - intros j t [(<- & <- & _)|(Hne & Ht)]%list_lookup_insert_Some; [lia|]. eauto.
  - intros j k t u [(<- & <- & _)|(Hne & Ht)]%list_lookup_insert_Some
      [(<- & <- & _)|(Hne' & Hu)]%list_lookup_insert_Some Hj Hk He; try done.
    + exfalso. apply Hne'. eapply (H6 i k w u); congruence || done.
    + exfalso. apply Hne. symmetry. eapply (H6 j i t w); congruence || done.
    + eauto.
Qed.

(** What the bounded search of [find_src] and [find_bw] finds. *)
Lemma find_take_Some {A} (P : A -> bool) (l : list A) n i :
  find_index P (take n l) = Some i -> (i < n)%nat /\ exists x, l !! i = Some x /\ P x = true.
Proof.
  intros [[x [Hx HP]] _]%find_index_Some. apply lookup_take_Some in Hx as [Hx Hlt]. eauto.
Qed.

Lemma find_take_None {A} (P : A -> bool) (l : list A) n i x :
  find_index P (take n l) = None -> (i < n)%nat -> l !! i = Some x -> P x = false.
Proof.
  intros H Hi Hx. eapply find_index_None; [exact H|]. by rewrite lookup_take_lt.
Qed.

(** The abstract detector: for each source the ports it has been seen on. *)
Definition holds_src (l : list src_stats) (n : Z) (ip : Z) (ps : list Z) : Prop :=
  exists i s, l !! i = Some s /\ Z.of_nat i < n /\ s_src_ip s = ip /\ ports_of s = ps.

Record sim (ad : anomaly_detector) (m : gmap Z (list Z)) : Prop := mk_sim {
  sim_size : Z.of_nat (size m) = ad_src_count ad;
  sim_lookup : forall ip ps, m !! ip = Some ps <-> holds_src (ad_sources ad) (ad_src_count ad) ip ps
}.

(** [find_src] returns the slot of the address, the first free one for a new
    address, and nothing only when the address is new and 1024 are known. *)
Lemma find_src_known l n ip i s :
  srcs_ok l n -> l !! i = Some s -> Z.of_nat i < n -> s_src_ip s = ip ->
  find_index (fun s => s_active s && (s_src_ip s =? ip)) (take (Z.to_nat n) l) = Some i.
Proof.
  intros Hok Hi Hin Hip.
  destruct (find_index _ _) as [j|] eqn:E.
  - apply find_take_Some in E as (Hj & t & Ht & Hp). apply andb_true_iff in Hp as [_ Hp%Z.eqb_eq].
    f_equal. eapply (sk_unique _ _ Hok); eauto; [lia|congruence].
  - pose proof (find_take_None _ _ _ i s E ltac:(lia) Hi) as E'. cbv beta in E'. clear E.
    rename E' into E. apply andb_false_iff in E as [E|E%Z.eqb_neq]; [|done].
    assert (s_active s = true) by (by eapply (sk_active _ _ Hok)). congruence.
Qed.

Lemma srcs_ok_claim l n ip s :
  srcs_ok l n -> n < 1024 -> l !! Z.to_nat n = Some s ->
  (forall j t, l !! j = Some t -> Z.of_nat j < n -> s_src_ip t <> ip) ->
  srcs_ok (<[Z.to_nat n := claim_src ip s]> l) (n + 1).
Proof.
  intros [H1 H2 H3 H4 H5 H6] Hn Hs Hnew. constructor.
  - by rewrite length_insert.
  - lia.
  - apply Forall_insert; [done|]. destruct (Forall_lookup_1 _ _ _ _ H3 Hs). by constructor.
  - intros j t [(<- & <- & _)|(Hne & Ht)]%list_lookup_insert_Some; [simpl; split; [lia|done]|].
    rewrite (H4 j t Ht). lia.
  - intros j t [(<- & <- & _)|(Hne & Ht)]%list_lookup_insert_Some ?; [lia|]. eapply H5; eauto. lia.
  - intros j k t u [(<- & <- & _)|(Hne & Ht)]%list_lookup_insert_Some
      [(<- & <- & _)|(Hne' & Hu)]%list_lookup_insert_Some Hj Hk He; try done; simpl in He.
    + by destruct (Hnew k u Hu ltac:(lia)).
    + by destruct (Hnew j t Ht ltac:(lia)).
    + eapply H6; eauto; lia.
Qed.

Lemma find_src_None_new ad ip :
  srcs_ok (ad_sources ad) (ad_src_count ad) ->
  find_index (fun s => s_active s && (s_src_ip s =? ip))
    (take (Z.to_nat (ad_src_count ad)) (ad_sources ad)) = None ->
  forall j t, ad_sources ad !! j = Some t -> Z.of_nat j < ad_src_count ad -> s_src_ip t <> ip.
Proof.
  intros Hok E j t Ht Hj Heq. by rewrite (find_src_known _ _ ip j t) in E.
Qed.

(** Writing slot [i] for address [ip] is an insertion in the abstract map. *)
Lemma holds_src_insert l n n' i s ip ps (m : gmap Z (list Z)) :
  (forall ip ps, m !! ip = Some ps <-> holds_src l n ip ps) ->
  (i < length l)%nat -> s_src_ip s = ip -> ports_of s = ps ->
  (forall j, j <> i -> Z.of_nat j < n' <-> Z.of_nat j < n) -> Z.of_nat i < n' ->
  (forall j t, j <> i -> l !! j = Some t -> Z.of_nat j < n -> s_src_ip t <> ip) ->
  (forall t, l !! i = Some t -> Z.of_nat i < n -> s_src_ip t = ip) ->
  forall ip' ps', <[ip := ps]> m !! ip' = Some ps' <-> holds_src (<[i := s]> l) n' ip' ps'.
Proof.
  intros Hm Hi Hip Hps Hn Hin Hother Hown ip' ps'. rewrite lookup_insert_Some, Hm. split.
  - intros [[<- <-]|(Hne & j & t & Ht & Hj & Hti & Htp)].
    + exists i, s. by rewrite list_lookup_insert_eq.
    + exists j, t. assert (j <> i).
      { intros ->. apply Hne. rewrite <- Hti. symmetry. by apply Hown. }
      rewrite list_lookup_insert_ne by done. rewrite Hn by done. done.
  - intros (j & t & [(<- & <- & _)|(Hne & Ht)]%list_lookup_insert_Some & Hj & Hti & Htp).
    + left. split; congruence.
    + right. rewrite Hn in Hj by done. split.
      * intros <-. by eapply Hother.
      * exists j, t. done.
Qed.

Lemma find_src_sim ad m ip i ad' :
  ad_ok ad -> sim ad m -> find_src ad ip = Some (i, ad') ->
  exists s, ad_sources ad' !! i = Some s /\ Z.of_nat i < ad_src_count ad' /\ s_src_ip s = ip /\
    s_active s = true /\ ports_of s = default [] (m !! ip) /\
    ad_ok ad' /\ sim ad' (<[ip := default [] (m !! ip)]> m).
Proof.
  intros Hok Hsim H. pose proof (ao_srcs _ Hok) as Hs. pose proof (sk_length _ _ Hs).
  pose proof (sk_count _ _ Hs). unfold find_src in H. destruct (find_index _ _) as [j|] eqn:E.
  - injection H as <- <-. apply find_take_Some in E as (Hj & s & Ht & Hp).
    apply andb_true_iff in Hp as [Hact Hp%Z.eqb_eq].
    assert (Hm : m !! ip = Some (ports_of s)).
    { apply (sim_lookup _ _ Hsim). exists j, s. repeat split; [done|lia|done]. }
    exists s. rewrite Hm. simpl. rewrite insert_id by done. do 6 (split; [done || lia|]). done.
  - destruct (Z.ltb_spec (ad_src_count ad) 1024); [|done]. injection H as <- <-.
    pose proof (find_src_None_new _ _ Hs E) as Hnew.
    destruct (lookup_lt_is_Some_2 (ad_sources ad) (Z.to_nat (ad_src_count ad))) as [s Hsl]; [lia|].
    assert (Hm : m !! ip = None).
    { destruct (m !! ip) as [ps|] eqn:Em; [|done].
      apply (sim_lookup _ _ Hsim) in Em as (j & t & Ht & Hj & Hip & _). by destruct (Hnew j t). }
    assert (Hp0 : ports_of (claim_src ip s) = []).
    { unfold ports_of. simpl. rewrite (sk_fresh _ _ Hs _ _ Hsl) by lia. done. }
    simpl. rewrite (alter_insert _ _ _ _ Hsl), Hm. simpl.
    exists (claim_src ip s). split; [apply list_lookup_insert_eq; lia|].
    split; [lia|]. do 3 (split; [done|]). split.
    + destruct Hok. constructor; simpl; try done. by apply srcs_ok_claim.
    + constructor; simpl.
      * rewrite map_size_insert_None, Nat2Z.inj_succ, (sim_size _ _ Hsim) by done. lia.
      * apply (holds_src_insert _ (ad_src_count ad)); [apply Hsim|lia|done|done|lia|lia|eauto|].
        intros t _ ?. lia.
Qed.

(** The abstract port-scan detector: at most 1024 sources, 256 distinct ports
    each, and an alarm for a new port from the 20th on. *)
Definition spec_scan (m : gmap Z (list Z)) (ip port : Z) : gmap Z (list Z) * bool :=
  if bool_decide (m !! ip = None) && (1024 <=? Z.of_nat (size m)) then (m, false) else
  let ps := default [] (m !! ip) in
  if bool_decide (port ∈ ps) || (port <=? 0) then (<[ip := ps]> m, false) else
  let ps' := if zlen ps <? 256 then ps ++ [port] else ps in
  (<[ip := ps']> m, 20 <=? zlen ps').

Lemma note_port_ok ts port s :
  src_ok s -> 0 < port < 2 ^ 16 -> port ∉ ports_of s ->
  src_ok (note_port ts port s) /\
  ports_of (note_port ts port s) =
    (if zlen (ports_of s) <? 256 then ports_of s ++ [port] else ports_of s) /\
  s_port_count (note_port ts port s) = zlen (ports_of (note_port ts port s)).
Proof.
  intros [H1 H2 H3 H4] Hp Hnew.
  assert (Hlen : zlen (ports_of s) = s_port_count s)
    by (unfold ports_of; rewrite length_take; lia).
  rewrite Hlen. unfold note_port. zcase.
  - assert (Hports : ports_of (mk_src (s_src_ip s)
       (<[Z.to_nat (s_port_count s) := port]> (s_unique_ports s)) (s_port_count s + 1) ts
       (s_total_bytes s) (s_active s)) = ports_of s ++ [port]).
    { unfold ports_of. simpl. rewrite Z2Nat.inj_add, Nat.add_1_r by lia.
      by rewrite take_insert_S by lia. }
    split; [|split; [done|]].
    + constructor; simpl; rewrite ?Hports.
      * by rewrite length_insert.
      * lia.
      * apply NoDup_app. split; [done|]. split; [|apply NoDup_singleton].
        intros x Hx ->%list_elem_of_singleton. done.
      * apply Forall_app. split; [done|]. by constructor.
    + rewrite Hports, length_app. simpl. lia.
  - split; [by constructor|]. split; [done|]. unfold ports_of. simpl. rewrite length_take. lia.
Qed.

Lemma port_seen_spec s port : src_ok s -> port_seen s port = bool_decide (port ∈ ports_of s).
Proof.
  intros [H1 H2 _ _]. unfold port_seen. rewrite Z.min_l by lia. fold (ports_of s).
  apply eq_true_iff_eq. rewrite bool_decide_eq_true, existsb_exists. split.
  - intros (x & Hx & ->%Z.eqb_eq). by apply list_elem_of_In.
  - intros Hx. exists port. split; [by apply list_elem_of_In|apply Z.eqb_refl].
Qed.

Lemma find_src_None ad m ip :
  ad_ok ad -> sim ad m -> find_src ad ip = None <->
  (m !! ip = None /\ 1024 <= Z.of_nat (size m)).
Proof.
  intros Hok Hsim. pose proof (ao_srcs _ Hok) as Hs. unfold find_src.
  rewrite (sim_size _ _ Hsim). destruct (find_index _ _) as [j|] eqn:E.
  - split; [done|]. intros [Hm _]. exfalso.
    apply find_take_Some in E as (Hj & s & Ht & Hp).
    apply andb_true_iff in Hp as [_ Hp%Z.eqb_eq].
    assert (m !! ip = Some (ports_of s)); [|congruence].
    apply (sim_lookup _ _ Hsim). exists j, s. repeat split; [done|lia|done].
  - pose proof (find_src_None_new _ _ Hs E) as Hnew.
    assert (Hm : m !! ip = None).
    { destruct (m !! ip) as [ps|] eqn:Em; [|done].
      apply (sim_lookup _ _ Hsim) in Em as (j & t & Ht & Hj & Hip & _). by destruct (Hnew j t). }
    zcase; split; try done; try lia.
Qed.

(** One scan check refines one step of the abstract detector. *)
Lemma scan_check_refines ts ad m ip port :
  ad_ok ad -> sim ad m -> is_u16 port ->
  let '(ad', fired) := scan_check ts ad ip port in
  ad_ok ad' /\ sim ad' (spec_scan m ip port).1 /\ fired = (spec_scan m ip port).2 /\
  ad_bw_records ad' = ad_bw_records ad /\ ad_bw_count ad' = ad_bw_count ad.
Proof.
  intros Hok Hsim Hport. unfold scan_check, spec_scan.
  destruct (find_src ad ip) as [[i ad1]|] eqn:E.
  2:{ apply (find_src_None _ m) in E as [E1 E2]; [|done|done].
      rewrite bool_decide_true by done. ztest. simpl. done. }
  assert (Hc : bool_decide (m !! ip = None) && (1024 <=? Z.of_nat (size m)) = false).
  { apply not_true_is_false. rewrite andb_true_iff, bool_decide_eq_true, Z.leb_le.
    intros Hn. apply (find_src_None _ m _ Hok Hsim) in Hn. congruence. }
  rewrite Hc. clear Hc. assert (Hbw : ad_bw_records ad1 = ad_bw_records ad /\ ad_bw_count ad1 = ad_bw_count ad).
  { unfold find_src in E. repeat case_match; simplify_eq; done. }
  destruct (find_src_sim _ _ _ _ _ Hok Hsim E) as (s & Hs & Hi & Hip & Hact & Hps & Hok1 & Hsim1).
  rewrite Hs. set (ps := default [] (m !! ip)) in *.
  pose proof (Forall_lookup_1 _ _ _ _ (sk_each _ _ (ao_srcs _ Hok1)) Hs) as Hso.
  rewrite (port_seen_spec s port Hso), Hps.
  assert (Hquiet : ad_ok ad1 /\ sim ad1 (<[ip := ps]> m) /\ false = false /\
    ad_bw_records ad1 = ad_bw_records ad /\ ad_bw_count ad1 = ad_bw_count ad) by auto.
  case_bool_decide as Hin; [exact Hquiet|].
  destruct (Z.leb_spec port 0); simpl; ztest; simpl; [exact Hquiet|].
  rewrite <- Hps in Hin.
  destruct (note_port_ok ts port s Hso) as (Hn1 & Hn2 & Hn3); [mlia|done|].
  rewrite Hps in Hn2. rewrite Hn2 in Hn3. rewrite Hn3, (ao_scan _ Hok1).
  set (ps' := if zlen ps <? 256 then ps ++ [port] else ps) in *.
  set (ad2 := set_sources _ ad1).
  assert (Hok2 : ad_ok ad2).
  { destruct Hok1. constructor; simpl; try done.
    apply (srcs_ok_insert _ _ _ s); try done; unfold note_port; case_match; done. }
  assert (Hsim2 : sim ad2 (<[ip := ps']> m)).
  { replace (<[ip := ps']> m) with (<[ip := ps']> (<[ip := ps]> m)) by apply insert_insert_eq.
    constructor; simpl.
    - rewrite map_size_insert_Some; [apply Hsim1|]. exists ps. apply lookup_insert_eq.
    - apply (holds_src_insert _ (ad_src_count ad1)); try done.
      + apply Hsim1.
      + by apply lookup_lt_Some in Hs.
      + unfold note_port. case_match; done.
      + intros j t Hne Ht Hj Heq. apply Hne.
        eapply (sk_unique _ _ (ao_srcs _ Hok1)); eauto. congruence.
      + intros t Ht _. congruence. }
  destruct (20 <=? zlen ps'); simpl; auto.
  split; [by destruct Hok2|]. split; [by destruct Hsim2|]. auto.
Qed.

(** ** Bandwidth records *)

Lemma find_bw_known l n key i w :
  bws_ok l n -> l !! i = Some w -> Z.of_nat i < n -> w_key w = key ->
  find_index (fun w => w_active w && key_eqb (w_key w) key) (take (Z.to_nat n) l) = Some i.
Proof.
  intros Hok Hi Hin Hk. destruct (find_index _ _) as [j|] eqn:E.
  - apply find_take_Some in E as (Hj & t & Ht & Hp).
    apply andb_true_iff in Hp as [_ Hp%key_eqb_eq].
    f_equal. eapply (bk_unique _ _ Hok); eauto; [lia|congruence].
  - pose proof (find_take_None _ _ _ i w E ltac:(lia) Hi) as E'. cbv beta in E'.
    apply andb_false_iff in E' as [E'|E'%key_eqb_neq]; [|done].
    assert (w_active w = true) by (by eapply (bk_active _ _ Hok)). congruence.
Qed.

Lemma bws_ok_claim l n key w :
  bws_ok l n -> n < 2048 -> l !! Z.to_nat n = Some w ->
  (forall j t, l !! j = Some t -> Z.of_nat j < n -> w_key t <> key) ->
  bws_ok (<[Z.to_nat n := claim_bw key w]> l) (n + 1).
Proof.
  intros [H1 H2 H3 H4 H5 H6] Hn Hs Hnew. constructor.
  - by rewrite length_insert.
  - lia.
  - apply Forall_insert; [done|]. by destruct (Forall_lookup_1 _ _ _ _ H3 Hs).
  - intros j t [(<- & <- & _)|(Hne & Ht)]%list_lookup_insert_Some; [simpl; split; [lia|done]|].
    rewrite (H4 j t Ht). lia.
  - intros j t [(<- & <- & _)|(Hne & Ht)]%list_lookup_insert_Some ?; [lia|]. eapply H5; eauto. lia.
  - intros j k t u [(<- & <- & _)|(Hne & Ht)]%list_lookup_insert_Some
      [(<- & <- & _)|(Hne' & Hu)]%list_lookup_insert_Some Hj Hk He; try done; simpl in He.
    + by destruct (Hnew k u Hu ltac:(lia)).
    + by destruct (Hnew j t Ht ltac:(lia)).
    + eapply H6; eauto; lia.
Qed.

(** The record [find_bw] returns: the one of the key, or a claimed zero one. *)
Lemma find_bw_spec ad key i ad' :
  ad_ok ad -> find_bw ad key = Some (i, ad') ->
  ad_ok ad' /\ ad_sources ad' = ad_sources ad /\ ad_src_count ad' = ad_src_count ad /\
  exists w, ad_bw_records ad' !! i = Some w /\ Z.of_nat i < ad_bw_count ad' /\ w_key w = key /\
    w_active w = true.
Proof.
  intros Hok H. pose proof (ao_bws _ Hok) as Hb. pose proof (bk_length _ _ Hb).
  pose proof (bk_count _ _ Hb). unfold find_bw in H. destruct (find_index _ _) as [j|] eqn:E.
  - injection H as <- <-. apply find_take_Some in E as (Hj & w & Hw & Hp).
    apply andb_true_iff in Hp as [Hact Hp%key_eqb_eq]. do 3 (split; [done|]).
    exists w. repeat split; try done. lia.
  - destruct (Z.ltb_spec (ad_bw_count ad) 2048); [|done]. injection H as <- <-.
    destruct (lookup_lt_is_Some_2 (ad_bw_records ad) (Z.to_nat (ad_bw_count ad))) as [w Hw]; [lia|].
    simpl. rewrite (alter_insert _ _ _ _ Hw). split; [|split; [done|split; [done|]]].
    + destruct Hok. constructor; simpl; try done. apply bws_ok_claim; try done.
      intros j t Ht Hj Heq. by rewrite (find_bw_known _ _ key j t) in E.
    + exists (claim_bw key w). rewrite list_lookup_insert_eq by lia. repeat split. lia.
Qed.

Lemma measure_bps_range ts w bps : measure_bps ts w = Some bps -> is_u64 bps.
Proof.
  unfold measure_bps. case_match eqn:E; [|done]. intros [= <-].
  apply andb_true_iff in E as [E _]. apply andb_true_iff in E as [E%Z.ltb_lt _].
  pose proof (u64_range (w_last_bytes w * 8 * 1000000000)) as Hu. unfold is_u64 in *. split.
  - apply Z.div_pos; lia.
  - apply Z.div_lt_upper_bound; [lia|]. nia.
Qed.

Lemma spike_check_ok ts ad flow :
  ad_ok ad -> event_ok flow -> is_u64 ts ->
  let '(ad', flow', _) := spike_check ts ad flow in
  ad_ok ad' /\ event_ok flow' /\ ad_sources ad' = ad_sources ad /\
  ad_src_count ad' = ad_src_count ad.
Proof.
  intros Hok He Hts. unfold spike_check.
  destruct (find_bw ad (bw_key flow)) as [[i ad1]|] eqn:E; [|done].
  destruct (find_bw_spec _ _ _ _ Hok E) as (Hok1 & Hs & Hsc & w & Hw & Hi & Hk & Hact).
  rewrite Hw. assert (Hupd : ad_ok (set_bw_records
    (<[i := note_bytes ts (e_bytes flow) w]> (ad_bw_records ad1)) ad1)).
  { destruct Hok1. constructor; simpl; try done.
    apply (bws_ok_insert _ _ _ w); try done. simpl. auto with stb. }
  destruct (measure_bps ts w) as [bps|] eqn:Hm; [|done].
  pose proof (measure_bps_range _ _ _ Hm). cbv zeta.
  destruct (ad_spike_threshold_bps ad1 <? bps); cbv iota.
  - split; [by destruct Hok1|]. split; [|done]. unfold ANOMALY_SPIKE. auto 10 with stb.
  - auto with stb.
Qed.

(** ** Runs of the detector *)

Fixpoint run_checks (ad : anomaly_detector) (l : list (Z * flow_event_t))
  : anomaly_detector * list Z :=
  match l with
  | [] => (ad, [])
  | (ts, flow) :: l' =>
      let '(ad, _, r) := anomaly_check_flow ts ad flow in
      let '(ad, rs) := run_checks ad l' in (ad, r :: rs)
  end.

Fixpoint spec_run (m : gmap Z (list Z)) (l : list (Z * flow_event_t)) : list bool :=
  match l with
  | [] => []
  | (_, flow) :: l' =>
      let '(m, b) := spec_scan m (e_src_ip flow) (e_dst_port flow) in b :: spec_run m l'
  end.

Definition input_ok (x : Z * flow_event_t) : Prop := is_u64 x.1 /\ event_ok x.2.

Lemma check_flow_refines ts ad m flow :
  ad_ok ad -> sim ad m -> input_ok (ts, flow) ->
  let '(ad', flow', r) := anomaly_check_flow ts ad flow in
  ad_ok ad' /\ event_ok flow' /\ sim ad' (spec_scan m (e_src_ip flow) (e_dst_port flow)).1 /\
  (r =? ANOMALY_SCAN) = (spec_scan m (e_src_ip flow) (e_dst_port flow)).2.
Proof.
  intros Hok Hsim [Hts He]. simpl in *. unfold anomaly_check_flow.
  pose proof (scan_check_refines ts ad m (e_src_ip flow) (e_dst_port flow) Hok Hsim) as H.
  destruct (scan_check _ _ _ _) as [ad1 fired].
  destruct H as (Hok1 & Hsim1 & Hf & _); [apply He|]. destruct fired.
  { split; [done|]. split; [unfold ANOMALY_SCAN; auto with stb|]. split; [done|by rewrite <- Hf]. }
  pose proof (spike_check_ok ts ad1 flow Hok1 He Hts) as H.
  destruct (spike_check ts ad1 flow) as [[ad2 flow2] spike].
  destruct H as (Hok2 & He2 & Hs2 & Hc2). rewrite <- Hf.
  assert (Hsim2 : forall ad', ad_sources ad' = ad_sources ad2 -> ad_src_count ad' = ad_src_count ad2 ->
    sim ad' (spec_scan m (e_src_ip flow) (e_dst_port flow)).1).
  { intros ad' H1 H2. destruct Hsim1 as [Hz Hl]. constructor; rewrite ?H1, ?H2, ?Hs2, ?Hc2; done. }
  destruct spike; [|destruct (has_flag _ _)]; cbv iota.
  - split; [done|]. split; [done|]. split; [by apply Hsim2|done].
  - split; [by destruct Hok2|]. split; [unfold ANOMALY_DROP; auto with stb|].
    split; [by apply Hsim2|done].
  - split; [done|]. split; [done|]. split; [by apply Hsim2|done].
Qed.

Lemma run_checks_refines l ad m :
  ad_ok ad -> sim ad m -> Forall input_ok l ->
  ad_ok (run_checks ad l).1 /\ map (fun r => r =? ANOMALY_SCAN) (run_checks ad l).2 = spec_run m l.
Proof.
  intros Hok Hsim Hl. revert ad m Hok Hsim.
  induction Hl as [|[ts flow] l Hin _ IH]; intros ad m Hok Hsim; simpl; [done|].
  pose proof (check_flow_refines ts ad m flow Hok Hsim Hin) as H.
  destruct (anomaly_check_flow ts ad flow) as [[ad1 fl1] r].
  destruct H as (Hok1 & _ & Hsim1 & Hr).
  destruct (spec_scan _ _ _) as [m1 b]. simpl in *.
  specialize (IH ad1 m1 Hok1 Hsim1). destruct (run_checks ad1 l) as [ad2 rs]. simpl in *.
  destruct IH as [? ?]. split; [done|]. congruence.
Qed.

Lemma sim_init ad : anomaly_detector_create true = Some ad -> sim ad ∅.
Proof.
  intros [= <-]. constructor; [done|]. intros ip ps. split; [done|].
  intros (i & s & _ & Hi & _). simpl in Hi. lia.
Qed.

(** C13: refinement of the port-scan detector.  Whatever flows it is given, the
    detector keeps its invariant (table counters exact and within the arrays,
    source addresses and the ports of each source unique), and it reports a
    scan exactly when the abstract detector does: a finite map from source
    address to the distinct non-zero destination ports seen, at most 1024
    sources and 256 ports each, firing on each new port from the 20th on. *)
Theorem anomaly_scan_refines (ad : anomaly_detector) (l : list (Z * flow_event_t)) :
  anomaly_detector_create true = Some ad -> Forall input_ok l ->
  ad_ok (run_checks ad l).1 /\
  map (fun r => r =? ANOMALY_SCAN) (run_checks ad l).2 = spec_run ∅ l.
Proof. intros Hc Hl. apply run_checks_refines; auto using ad_create_ok, sim_init. Qed.

(** Twenty probes of ports 1 to 20 by one host: the last is reported. *)
Definition probe (n : Z) : Z * flow_event_t :=
  (n * 1000000000, set_e_dst_port n (set_e_src_ip 0x0A000001 zero_event)).

Lemma anomaly_scan_refines_witness :
  exists ad, anomaly_detector_create true = Some ad /\
    (run_checks ad (map probe (seqZ 1 21))).2 = replicate 19 ANOMALY_NONE ++ [ANOMALY_SCAN; ANOMALY_SCAN] /\
    ad_ok (run_checks ad (map probe (seqZ 1 21))).1.
Proof.
  eexists. split; [reflexivity|]. split; [vm_compute; reflexivity|].
  eapply anomaly_scan_refines; [reflexivity|].
  apply Forall_fmap, Forall_seqZ. intros n Hn. split; simpl; [mlia|]. auto with stb.
Defined.

(** ** What the spike test measures *)

(** The detector knows the flow: its source has been seen on its port (so the
    scan test is silent) and its record holds [B] bytes and time [T]. *)
Record tracks (ad : anomaly_detector) (flow : flow_event_t) (B T : Z) : Prop := mk_tracks {
  tk_ok : ad_ok ad;
  tk_src : exists i s, ad_sources ad !! i = Some s /\ Z.of_nat i < ad_src_count ad /\
             s_src_ip s = e_src_ip flow /\ e_dst_port flow ∈ ports_of s;
  tk_bw : exists i w, ad_bw_records ad !! i = Some w /\ Z.of_nat i < ad_bw_count ad /\
             w_key w = bw_key flow /\ w_last_bytes w = B /\ w_last_time_ns w = T
}.

Lemma scan_check_silent ts ad flow B T :
  tracks ad flow B T -> scan_check ts ad (e_src_ip flow) (e_dst_port flow) = (ad, false).
Proof.
  intros [Hok (i & s & Hs & Hi & Hip & Hp) _]. unfold scan_check, find_src.
  rewrite (find_src_known _ _ _ i s (ao_srcs _ Hok)) by done. rewrite Hs.
  pose proof (Forall_lookup_1 _ _ _ _ (sk_each _ _ (ao_srcs _ Hok)) Hs).
  rewrite port_seen_spec, bool_decide_true by done. done.
Qed.

Lemma tracks_check ts ad flow B T :
  tracks ad flow B T -> event_ok flow -> is_u64 ts -> 0 < T < ts -> 0 < B ->
  B * 8000000000 < 2 ^ 64 -> has_flag (e_tcp_flags flow) TCP_FLAG_RST = false ->
  let '(ad', _, r) := anomaly_check_flow ts ad flow in
  if 100000000 <? B * 8000000000 / (ts - T)
  then r = ANOMALY_SPIKE /\ tracks ad' flow B T
  else r = ANOMALY_NONE /\ tracks ad' flow (u64 (B + e_bytes flow)) ts.
Proof.
  intros Htr He Hts HT HB Hov Hrst. unfold anomaly_check_flow.
  rewrite (scan_check_silent ts _ _ _ _ Htr).
  pose proof Htr as [Hok Hsrc (i & w & Hw & Hi & Hk & HwB & HwT)].
  assert (Hm : measure_bps ts w = Some (B * 8000000000 / (ts - T))).
  { unfold measure_bps. rewrite HwB, HwT. rewrite (u64_small (ts - T)) by mlia.
    rewrite (u64_small (B * 8 * 1000000000)) by mlia. ztest. simpl. f_equal. f_equal. lia. }
  unfold spike_check, find_bw. rewrite (find_bw_known _ _ _ i w (ao_bws _ Hok)) by done.
  rewrite Hw, Hm. rewrite (ao_spike _ Hok). cbv zeta. zcase.
  - split; [done|]. destruct Hok. constructor; [by constructor|done|]. exists i, w. done.
  - simpl. rewrite Hrst. split; [done|]. constructor; [|done|].
    + destruct Hok. constructor; simpl; try done. apply (bws_ok_insert _ _ _ w); try done.
      * simpl. auto with stb.
      * simpl. by eapply (bk_active _ _ ao_bws0).
    + exists i, (note_bytes ts (e_bytes flow) w). simpl.
      rewrite list_lookup_insert_eq by (by apply lookup_lt_Some in Hw).
      repeat split; try done. by rewrite HwB.
Qed.

(** The packets of a steady flow: one every [dt] ns after [t0]. *)
Definition steady (flow : flow_event_t) (t0 dt : Z) (n : nat) : list (Z * flow_event_t) :=
  map (fun j => (t0 + j * dt, flow)) (seqZ 1 (Z.of_nat n)).

Lemma steady_S flow t0 dt n :
  steady flow t0 dt (S n) = (t0 + dt, flow) :: steady flow (t0 + dt) dt n.
Proof.
  unfold steady. rewrite (seqZ_cons 1) by lia. simpl. f_equal; [by rewrite Z.mul_1_l|].
  replace (Z.pred (Z.of_nat (S n))) with (Z.of_nat n) by lia.
  change (Z.succ 1) with (1 + 1). rewrite <- (fmap_add_seqZ 1 1), map_map.
  apply map_ext. intros j. f_equal. lia.
Qed.

Lemma steady_run n ad flow B T dt :
  tracks ad flow B T -> event_ok flow -> 0 < e_bytes flow -> 0 < dt -> 0 < T -> 0 < B ->
  T + (Z.of_nat n + 1) * dt < 2 ^ 64 -> (B + Z.of_nat n * e_bytes flow) * 8000000000 < 2 ^ 64 ->
  has_flag (e_tcp_flags flow) TCP_FLAG_RST = false ->
  (forall j, 0 <= j < Z.of_nat n -> (B + j * e_bytes flow) * 8000000000 / dt <= 100000000) ->
  100000000 < (B + Z.of_nat n * e_bytes flow) * 8000000000 / dt ->
  (run_checks ad (steady flow T dt (S n))).2 = replicate n ANOMALY_NONE ++ [ANOMALY_SPIKE].
Proof.
  intros Htr He Hb Hdt. revert ad B T Htr.
  induction n as [|n IH]; intros ad B T Htr HT HB Ht Hov Hrst Hquiet Hloud;
    rewrite steady_S; cbn [run_checks];
    pose proof (tracks_check (T + dt) ad flow B T Htr He) as H;
    destruct (anomaly_check_flow (T + dt) ad flow) as [[ad1 fl] r];
    replace (T + dt - T) with dt in H by lia.
  - specialize (H ltac:(mlia) ltac:(lia) HB ltac:(lia) Hrst).
    change (Z.of_nat 0) with 0 in *. rewrite Z.mul_0_l, Z.add_0_r in Hloud.
    rewrite (proj2 (Z.ltb_lt _ _)) in H by done. destruct H as [-> _]. done.
  - specialize (H ltac:(mlia) ltac:(lia) HB ltac:(nia) Hrst).
    pose proof (Hquiet 0 ltac:(lia)) as Hq0. rewrite Z.mul_0_l, Z.add_0_r in Hq0.
    rewrite (proj2 (Z.ltb_ge _ _)) in H by done. destruct H as [-> Htr1].
    rewrite u64_small in Htr1 by (unfold is_u64; nia).
    assert (Hshift : forall j, B + e_bytes flow + j * e_bytes flow = B + (j + 1) * e_bytes flow)
      by (intros j; lia).
    rewrite Nat2Z.inj_succ in *. unfold Z.succ in *.
    specialize (IH ad1 (B + e_bytes flow) (T + dt) Htr1).
    destruct (run_checks ad1 (steady flow (T + dt) dt (S n))) as [ad2 rs] eqn:E.
    cbn [snd] in *. simpl. f_equal. apply IH; rewrite ?Hshift; try done; try lia.
    intros j Hj. rewrite Hshift. apply Hquiet. lia.
Qed.

(** The spike test divides all bytes counted so far by the time since the
    last packet only ([last_bytes] is never reset): a flow that sends [b] bytes
    every [dt] ns, however slow, is reported as a spike at the first packet for
    which the total of the packets before it exceeds what 100 Mbit/s carries
    in [dt]; the packets before it are not reported. *)
Lemma steady_flow_flagged (ad : anomaly_detector) (flow : flow_event_t) (n : nat) (t0 dt : Z) :
  let b := e_bytes flow in
  tracks ad flow b t0 -> event_ok flow -> has_flag (e_tcp_flags flow) TCP_FLAG_RST = false ->
  0 < b -> 0 < dt -> 0 < t0 ->
  t0 + (Z.of_nat n + 1) * dt < 2 ^ 64 -> (Z.of_nat n + 1) * b * 8000000000 < 2 ^ 64 ->
  Z.of_nat n * b * 8000000000 / dt <= 100000000 < (Z.of_nat n + 1) * b * 8000000000 / dt ->
  (run_checks ad (steady flow t0 dt (S n))).2 = replicate n ANOMALY_NONE ++ [ANOMALY_SPIKE].
Proof.
  intros b Htr He Hrst Hb Hdt Ht0 Ht Hov [Hq Hl].
  assert (Hshift : forall j, b + j * b = (j + 1) * b) by (intros j; lia).
  apply (steady_run n ad flow b t0 dt); fold b; rewrite ?Hshift; try done; try lia.
  intros j Hj. rewrite Hshift. etransitivity; [|exact Hq]. apply Z.div_le_mono; [lia|]. nia.
Qed.

(** One packet of 1000 bytes every 10 ms, 0.8 Mbit/s: the 127th packet is
    reported as a spike. *)
Definition slow_flow : flow_event_t :=
  set_e_bytes 1000 (set_e_dst_port 443 (set_e_src_ip 0x0A000001 zero_event)).

Lemma steady_flow_flagged_witness :
  exists ad, (run_checks ad (steady slow_flow 1000000000 10000000 126)).2 =
             replicate 125 ANOMALY_NONE ++ [ANOMALY_SPIKE].
Proof.
  destruct (anomaly_detector_create true) as [ad0|] eqn:E; [|discriminate E].
  pose proof (ad_create_ok ad0 E) as Hok0. pose proof (sim_init ad0 E) as Hsim0.
  assert (He : event_ok slow_flow) by (unfold slow_flow; auto with stb).
  pose proof (check_flow_refines 1000000000 ad0 ∅ slow_flow Hok0 Hsim0) as H.
  exists (anomaly_check_flow 1000000000 ad0 slow_flow).1.1.
  apply (steady_flow_flagged _ slow_flow 125 1000000000 10000000).
  - injection E as <-. constructor.
    + destruct (anomaly_check_flow _ _ slow_flow) as [[ad1 fl] r].
      destruct H as (Hok1 & _); [split; simpl; [mlia|exact He]|]. exact Hok1.
    + exists 0%nat. eexists. split; [vm_compute; reflexivity|]. split; [vm_compute; reflexivity|].
      split; [reflexivity|]. vm_compute. left.
    + exists 0%nat. eexists. split; [vm_compute; reflexivity|]. repeat split; vm_compute; reflexivity.
  - exact He.
  - reflexivity.
  - reflexivity.
  - lia.
  - lia.
  - lia.
  - reflexivity.
  - split; vm_compute; congruence.
Defined.

(** ** The counters *)

(** Counters between those of [ad] and [n] more. *)
Definition counted (n : Z) (ad ad' : anomaly_detector) : Prop :=
  ad_spike_count ad <= ad_spike_count ad' <= ad_spike_count ad + n /\
  ad_scan_count ad <= ad_scan_count ad' <= ad_scan_count ad + n /\
  ad_drop_count ad <= ad_drop_count ad' <= ad_drop_count ad + n.

Lemma scan_check_counts ts ad ip port :
  let '(ad', fired) := scan_check ts ad ip port in counted (if fired then 1 else 0) ad ad'.
Proof. unfold scan_check, find_src, counted. repeat case_match; simplify_eq/=; lia. Qed.

Lemma spike_check_counts ts ad flow :
  let '(ad', _, fired) := spike_check ts ad flow in counted (if fired then 1 else 0) ad ad'.
Proof. unfold spike_check, find_bw, counted. repeat case_match; simplify_eq/=; lia. Qed.

(** A check adds at most one to each counter. *)
Lemma check_flow_counts ts ad flow : counted 1 ad (anomaly_check_flow ts ad flow).1.1.
Proof.
  unfold anomaly_check_flow. pose proof (scan_check_counts ts ad (e_src_ip flow) (e_dst_port flow)) as H1.
  destruct (scan_check _ _ _ _) as [ad1 []]; [done|].
  pose proof (spike_check_counts ts ad1 flow) as H2. destruct (spike_check _ _ _) as [[ad2 fl] []];
    [|case_match]; unfold counted in *; simpl; lia.
Qed.

Lemma run_checks_counts l ad : counted (zlen l) ad (run_checks ad l).1.
Proof.
  revert ad. induction l as [|[ts flow] l IH]; intros ad; [unfold counted; simpl; lia|].
  pose proof (check_flow_counts ts ad flow) as H. cbn [run_checks].
  destruct (anomaly_check_flow ts ad flow) as [[ad1 fl] r]. specialize (IH ad1).
  destruct (run_checks ad1 l) as [ad2 rs]. unfold counted in *. simpl in *. lia.
Qed.

(** From a new detector the three counters stay in the range of [int] over any
    sequence of fewer than 2^31 checks. *)
Lemma alarms_fit ad l :
  anomaly_detector_create true = Some ad -> zlen l < 2 ^ 31 ->
  Forall (fun c => 0 <= c < 2 ^ 31)
    [ad_spike_count (run_checks ad l).1; ad_scan_count (run_checks ad l).1; ad_drop_count (run_checks ad l).1].
Proof.
  intros E Hl. pose proof (run_checks_counts l ad) as (H1 & H2 & H3).
  assert (ad_spike_count ad = 0 /\ ad_scan_count ad = 0 /\ ad_drop_count ad = 0) as (E1 & E2 & E3) by by injection E as <-.
  rewrite E1, E2, E3 in *. repeat constructor; lia.
Qed.
