(* ===== verification/Double.v ===== *)
(** Double: IEEE binary64 values, as the host metrics use them.

    A [double] is a [spec_float]; conversions from integers, multiplication
    and division round to nearest even.  [fmt1] is the [%.1f] conversion,
    [strtod] the decimal form of [%lf]. *)

From stdpp Require Import base list strings numbers option.
From Stdlib Require Import SpecFloat.
From S2P Require Import Prelude CLib.

Definition double : Type := spec_float.

Definition d_zero : double := S754_zero false.
Definition d_of_Z (z : Z) : double := binary_normalize 53 1024 z 0 false.
Definition d_mul (x y : double) : double := SFmul 53 1024 x y.
Definition d_div (x y : double) : double := SFdiv 53 1024 x y.

(** [round_div n d]: the integer nearest to [n / d], ties to even. *)
Definition round_div (n d : Z) : Z :=
  let q := n / d in
  let r := n mod d in
  if 2 * r <? d then q
  else if d <? 2 * r then q + 1
  else if Z.even q then q else q + 1.

(** The tenths of a finite value. *)
Definition tenths (m : positive) (e : Z) : Z :=
  if 0 <=? e then Zpos m * 10 * 2 ^ e else round_div (Zpos m * 10) (2 ^ (- e)).

(** 309 digits hold every finite double. *)
Definition fmt1 (x : double) : bytes :=
  match x with
  | S754_zero s => (if s then [45] else []) ++ lit "0.0"
  | S754_infinity s => (if s then [45] else []) ++ lit "inf"
  | S754_nan => lit "nan"
  | S754_finite s m e =>
      let t := tenths m e in
      (if s then [45] else []) ++ dec_f 309 (t / 10) ++ [46; 48 + t mod 10]
  end.

(** Decimal text to double, rounded once: the quotient is taken to 1100 binary
    places with a sticky bit.  Exponents, [inf], [nan] and hexadecimal forms
    are not read. *)
Definition d_of_decimal (neg : bool) (n k : Z) : double :=
  let q := n * 2 ^ 1100 / 10 ^ k in
  let sticky := if (n * 2 ^ 1100) mod 10 ^ k =? 0 then 0 else 1 in
  let m := 2 * q + sticky in
  binary_normalize 53 1024 (if neg then - m else m) (-1101) neg.

Definition strtod (s : bytes) : option double :=
  let s := skip_space (cstr s) in
  let '(neg, s) := match s with
                   | c :: s' => if c =? 45 then (true, s') else if c =? 43 then (false, s') else (false, s)
                   | [] => (false, s)
                   end in
  let ip := span_digits s in
  let fp := match drop (length ip) s with
            | c :: s' => if c =? 46 then span_digits s' else []
            | [] => []
            end in
  match ip ++ fp with
  | [] => None
  | ds => Some (d_of_decimal neg (dval ds) (zlen fp))
  end.

Example fmt1_example :
  map fmt1 [d_of_Z 0; d_of_Z 42; d_div (d_of_Z 1) (d_of_Z 8); d_div (d_of_Z 2) (d_of_Z 3)] =
  [lit "0.0"; lit "42.0"; lit "0.1"; lit "0.7"].
Proof. vm_compute. reflexivity. Qed.

Example strtod_example :
  strtod (lit " 37% ") = Some (d_of_Z 37) /\
  strtod (lit "0.1") = Some (d_div (d_of_Z 1) (d_of_Z 10)) /\ strtod (lit "x") = None.
Proof. vm_compute. done. Qed.

(** [%.1f] never prints a NUL. *)
Lemma fmt1_no_nul x : no_nul (fmt1 x).
Proof.
  destruct x as [s|s| |s m e]; try (apply no_nul_dec; by destruct s || done).
  unfold fmt1. apply no_nul_app. split; [apply no_nul_dec; by destruct s|].
  assert (Ht : 0 <= tenths m e).
  { unfold tenths, round_div. destruct (Z.leb_spec 0 e); [apply Z.mul_nonneg_nonneg; [lia|apply Z.pow_nonneg; lia]|].
    assert (0 <= Z.pos m * 10 / 2 ^ (- e)) 
      by (apply Z.div_pos; [lia|apply Z.pow_pos_nonneg; lia]).
    repeat case_match; lia. }
  apply no_nul_app. split; [apply digits_no_nul, dec_f_digits, Z.div_pos; lia|].
  constructor; [lia|]. constructor; [|constructor].
  pose proof (Z.mod_pos_bound (tenths m e) 10). lia.
Qed.
