(* ===== verification/Serializer.v ===== *)
(** Serializer: src/serializer.c.

    [flow_json] and [metric_json] are the texts of the two [snprintf] formats
    (apostrophes stand for double quotes in [qlit]); [serialize_batch] fills
    the output array, whose size is [output_size], byte by byte as the source
    does: a write outside it is [Undefined]. *)

From stdpp Require Import base list strings numbers option.
From S2P Require Import Prelude CLib Common Double.

(** [struct host_metric_t]. *)
Record host_metric_t : Type := mk_metric {
  m_timestamp_ns : Z;
  m_probe_id : bytes;
  m_cpu_percent : double;
  m_memory_percent : double;
  m_disk_percent : double;
  m_net_rx_bytes : Z;
  m_net_tx_bytes : Z;
  m_disk_read_bytes : Z;
  m_disk_write_bytes : Z
}.

(** ** Operations *)

Definition flow_json (event : flow_event_t) (probe_id : bytes) : bytes :=
  qlit "{'timestamp':" ++ dec (e_timestamp_ns event) ++ qlit ",'probe_id':'" ++ cstr probe_id ++
  qlit "','category':'" ++ cstr (e_category event) ++
  qlit "','event_type':'" ++ cstr (e_event_type event) ++
  qlit "','src_ip':'" ++ ip_to_str (e_src_ip event) ++
  qlit "','dst_ip':'" ++ ip_to_str (e_dst_ip event) ++
  qlit "','src_port':" ++ dec (e_src_port event) ++ qlit ",'dst_port':" ++ dec (e_dst_port event) ++
  qlit ",'protocol':'" ++ cstr (e_protocol event) ++
  qlit "','ip_version':" ++ dec (e_ip_version event) ++
  qlit ",'tcp_flags':" ++ dec (e_tcp_flags event) ++ qlit ",'pkt_len':" ++ dec (e_pkt_len event) ++
  qlit ",'bytes':" ++ dec (e_bytes event) ++ qlit ",'packets':" ++ dec (e_packets event) ++
  qlit ",'latency_us':" ++ dec (e_latency_us event) ++
  qlit ",'bandwidth_bps':" ++ dec (e_bandwidth_bps event) ++
  qlit ",'retransmits':" ++ dec (e_retransmits event) ++
  qlit ",'dup_acks':" ++ dec (e_dup_acks event) ++
  qlit ",'anomaly':" ++ dec (e_anomaly event) ++
  qlit ",'payload_type':" ++ dec (e_payload_type event) ++ qlit ",'pid':" ++ dec (e_pid event) ++
  qlit ",'service':'" ++ cstr (e_service event) ++ qlit "','details':'" ++ cstr (e_details event) ++
  qlit "','tags':'" ++ cstr (e_tags event) ++ qlit "'}".

Definition metric_json (metric : host_metric_t) (probe_id : bytes) : bytes :=
  qlit "{'timestamp':" ++ dec (m_timestamp_ns metric) ++ qlit ",'probe_id':'" ++ cstr probe_id ++
  qlit "','category':'metrics','event_type':'host_metrics','cpu':" ++ fmt1 (m_cpu_percent metric) ++
  qlit ",'mem':" ++ fmt1 (m_memory_percent metric) ++
  qlit ",'disk':" ++ fmt1 (m_disk_percent metric) ++
  qlit ",'net_rx':" ++ dec (m_net_rx_bytes metric) ++
  qlit ",'net_tx':" ++ dec (m_net_tx_bytes metric) ++ qlit "}".

(** [serialize_...(x, probe_id, output + off, output_size)]: the buffer and the
    value [snprintf] returns, the length of the whole text. *)
Definition serialize_flow_event (event : flow_event_t) (probe_id output : bytes)
    (off output_size : Z) : exec (bytes * Z) :=
  let s := flow_json event probe_id in
  out ← snprintf_at output off output_size s;
  Done (out, zlen s).

Definition serialize_host_metric (metric : host_metric_t) (probe_id output : bytes)
    (off output_size : Z) : exec (bytes * Z) :=
  let s := metric_json metric probe_id in
  out ← snprintf_at output off output_size s;
  Done (out, zlen s).

(** [if (!first) output[written++] = ',';] *)
Definition put_comma (first : bool) (output : bytes) (written : Z) : exec (bytes * Z) :=
  if first then Done (output, written)
  else out ← wr output written 44; Done (out, written + 1).

(** The loop over the events: [(output, written, first)]. *)
Fixpoint batch_events (events : list flow_event_t) (probe_id : bytes) (output_size : Z)
    (output : bytes) (written : Z) (first : bool) : exec (bytes * Z * bool) :=
  match events with
  | [] => Done (output, written, first)
  | ev :: events' =>
      if written <? output_size - 2 then
        '(output, written) ← put_comma first output written;
        '(output, ret) ← serialize_flow_event ev probe_id output written (output_size - written);
        if output_size - written <=? ret then Done (output, output_size - 2, first)
        else batch_events events' probe_id output_size output (written + ret) false
      else Done (output, written, first)
  end.

Definition batch_metric (metric : option host_metric_t) (probe_id : bytes) (output_size : Z)
    (output : bytes) (written : Z) (first : bool) : exec (bytes * Z) :=
  match metric with
  | Some m =>
      if written <? output_size - 2 then
        '(output, written) ← put_comma first output written;
        '(output, ret) ← serialize_host_metric m probe_id output written (output_size - written);
        Done (output, if 0 <? ret then written + ret else written)
      else Done (output, written)
  | None => Done (output, written)
  end.

(** The buffer and the returned [written]. *)
Definition serialize_batch (flow_events : list flow_event_t) (metric : option host_metric_t)
    (probe_id output : bytes) (output_size : Z) : exec (bytes * Z) :=
  output ← wr output 0 91;
  '(output, written, first) ← batch_events flow_events probe_id output_size output 1 true;
  '(output, written) ← batch_metric metric probe_id output_size output written first;
  output ← wr output written 93;
  let written := written + 1 in
  output ← wr output written 0;
  Done (output, written).

(** ** Contents of a batch that fits *)

(** The texts of a batch in order. *)
Definition batch_items (events : list flow_event_t) (metric : option host_metric_t)
    (probe_id : bytes) : list bytes :=
  map (fun ev => flow_json ev probe_id) events ++
  match metric with Some m => [metric_json m probe_id] | None => [] end.

(** [x1,x2,...] without and with the brackets. *)
Fixpoint commas (l : list bytes) : bytes :=
  match l with
  | [] => []
  | [x] => x
  | x :: l' => x ++ 44 :: commas l'
  end.

Definition json_array (l : list bytes) : bytes := 91 :: commas l ++ [93].

(** What follows an item list that already holds something. *)
Definition more_items (l : list bytes) : bytes := mjoin (map (cons 44) l).

Lemma commas_cons x l : commas (x :: l) = x ++ more_items l.
Proof.
  revert x. induction l as [|y l IH]; intros x; [by rewrite app_nil_r|].
  change (commas (x :: y :: l)) with (x ++ 44 :: commas (y :: l)). by rewrite IH.
Qed.

Lemma flow_json_length ev id : (3 <= length (flow_json ev id))%nat.
Proof. unfold flow_json. rewrite length_app. vm_compute (length (qlit _)). lia. Qed.

Lemma metric_json_length m id : (3 <= length (metric_json m id))%nat.
Proof. unfold metric_json. rewrite length_app. vm_compute (length (qlit _)). lia. Qed.

(** [snprintf] into the rest of a buffer: what was there before stays, and the
    text is there in full when it fits with its NUL. *)
Lemma snprintf_at_spec b off s :
  0 <= off < zlen b ->
  exists b', snprintf_at b off (zlen b - off) s = Done b' /\ length b' = length b /\
    take (Z.to_nat off) b' = take (Z.to_nat off) b /\
    (off + zlen s < zlen b ->
     take (Z.to_nat (off + zlen s)) b' = take (Z.to_nat off) b ++ s).
Proof.
  intros Hoff. unfold snprintf_at. ztest.
  set (t := take (Z.to_nat (zlen b - off - 1)) s ++ [0]).
  assert (Ht : (length t <= length b - Z.to_nat off)%nat)
    by (subst t; rewrite length_app, length_take; simpl; lia).
  rewrite wr_bytes_Done by lia. eexists. split; [done|].
  split; [apply length_blit; lia|]. split; [apply take_blit_le; lia|].
  intros Hfit. assert (Hts : t = s ++ [0]) by (subst t; by rewrite take_ge by lia).
  rewrite Hts in *. rewrite Z2Nat.inj_add, Nat2Z.id by lia. rewrite length_app in Ht. simpl in Ht.
  pose proof (take_blit b (Z.to_nat off) (s ++ [0]) (Z.to_nat off + length s + 1)) as Hb.
  rewrite length_app in Hb. simpl in Hb. specialize (Hb ltac:(lia) ltac:(lia)).
  rewrite app_assoc in Hb.
  apply (f_equal (take (Z.to_nat off + length s))) in Hb.
  rewrite take_take, Nat.min_l in Hb by lia. rewrite Hb, take_app_le, take_ge; [done| |];
    rewrite length_app, length_take; lia.
Qed.

Lemma put_comma_spec (first : bool) out w :
  1 <= w < zlen out ->
  exists out' w', put_comma first out w = Done (out', w') /\ length out' = length out /\
    w' = w + zlen (if first then [] else [44]) /\
    take (Z.to_nat w') out' = take (Z.to_nat w) out ++ (if first then [] else [44]).
Proof.
  intros Hw. unfold put_comma. destruct first.
  - exists out, w. rewrite app_nil_r. simpl. rewrite Z.add_0_r. done.
  - rewrite wr_Done by lia. eexists _, _. split; [done|]. rewrite length_insert.
    split; [done|]. split; [simpl; lia|]. rewrite Z2Nat.inj_add by lia. change (Z.to_nat 1) with 1%nat.
    rewrite Nat.add_1_r. apply take_insert_S. lia.
Qed.

(** Where the loop leaves [written], as a function of the item lengths. *)
Fixpoint cut (size w : Z) (first : bool) (items : list bytes) : Z :=
  match items with
  | [] => w
  | x :: items' =>
      if w <? size - 2 then
        let w := w + zlen (if first then [] else [44]) in
        if size - w <=? zlen x then size - 2 else cut size (w + zlen x) false items'
      else w
  end.

Definition join_from (first : bool) (items : list bytes) : bytes :=
  if first then commas items else more_items items.

Lemma join_from_cons first x items :
  join_from first (x :: items) = (if first then [] else [44]) ++ x ++ more_items items.
Proof. destruct first; simpl; [apply commas_cons|done]. Qed.

(** The loop never writes outside the buffer, leaves [written] at [cut], and
    when everything fits the buffer holds the joined items. *)
Lemma batch_events_spec evs id out w first :
  let size := zlen out in
  let items := map (fun ev => flow_json ev id) evs in
  1 <= w < size ->
  exists out' f', batch_events evs id size out w first = Done (out', cut size w first items, f') /\
    length out' = length out /\ 1 <= cut size w first items < size /\
    (w + zlen (join_from first items) < size ->
     cut size w first items = w + zlen (join_from first items) /\
     take (Z.to_nat (w + zlen (join_from first items))) out' =
       take (Z.to_nat w) out ++ join_from first items /\
     f' = first && bool_decide (evs = [])).
Proof.
  cbv zeta. revert out w first. induction evs as [|ev evs IH]; intros out w first Hw.
  { exists out, first. simpl. rewrite andb_true_r. destruct first; simpl;
      rewrite Z.add_0_r, app_nil_r; repeat split; (done || lia). }
  cbn [batch_events cut map]. pose proof (flow_json_length ev id) as Hx.
  set (x := flow_json ev id) in *. rewrite join_from_cons. set (c := if first then [] else [44]).
  assert (Hc : (length c <= 1)%nat) by (subst c; destruct first; simpl; lia).
  zcase.
  2:{ exists out, first. repeat split; try done; try lia; rewrite !length_app in *; lia. }
  destruct (put_comma_spec first out w ltac:(lia)) as (o1 & w1 & Ho1 & Hl1 & Hw1 & Ht1).
  rewrite Ho1. rewrite bind_Done. cbv beta iota. fold c in Hw1, Ht1. rewrite <- Hw1.
  unfold serialize_flow_event. fold x.
  destruct (snprintf_at_spec o1 w1 x ltac:(lia)) as (o2 & Ho2 & Hl2 & Ht2 & Hfit).
  rewrite Hl1 in Ho2. rewrite Ho2, !bind_Done. cbv beta iota.
  rewrite !length_app. zcase.
  - exists o2, first. repeat split; try done; lia.
  - replace (zlen out) with (zlen o2) by lia.
    destruct (IH o2 (w1 + zlen x) false ltac:(lia)) as (o3 & f3 & Ho3 & Hl3 & Hc3 & Hd3).
    exists o3, f3. split; [done|]. split; [lia|]. split; [done|]. intros Hlt.
    cbn [join_from] in Hd3. set (M := more_items _) in *.
    destruct Hd3 as (Hd3 & Hd4 & Hd5); [lia|]. split; [lia|]. split.
    + replace (w + Z.of_nat _) with (w1 + zlen x + zlen M) by lia.
      rewrite Hd4, Hfit, Ht1 by lia. by rewrite <- !app_assoc.
    + rewrite Hd5. by rewrite andb_false_r.
Qed.

Lemma more_items_app l k : more_items (l ++ k) = more_items l ++ more_items k.
Proof. unfold more_items. by rewrite map_app, join_app. Qed.

Lemma join_from_app first l k :
  join_from first (l ++ k) = join_from first l ++ join_from (first && bool_decide (l = [])) k.
Proof.
  destruct l as [|x l]; [by simpl; rewrite andb_true_r; destruct first|].
  cbn [app]. rewrite !join_from_cons, andb_false_r, more_items_app.
  cbn [join_from]. by rewrite <- !app_assoc.
Qed.

(** The two bytes written last. *)
Lemma close_batch (out : bytes) w :
  1 <= w -> w + 1 < zlen out ->
  exists out' : bytes, (o ← wr out w 93; o' ← wr o (w + 1) 0; Done (o', w + 1)) = Done (out', w + 1) /\
    length out' = length out /\
    take (Z.to_nat (w + 1)) out' = take (Z.to_nat w) out ++ [93] /\
    out' !! Z.to_nat (w + 1) = Some 0.
Proof.
  intros H1 H2. rewrite wr_Done by lia. rewrite bind_Done, wr_Done by (rewrite length_insert; lia).
  eexists. split; [done|]. rewrite !length_insert. split; [done|]. split.
  - rewrite take_insert_ge by lia. rewrite Z2Nat.inj_add, Nat.add_1_r by lia.
    apply take_insert_S. lia.
  - apply list_lookup_insert_eq. rewrite length_insert. lia.
Qed.

Lemma close_batch_oob (out : bytes) w :
  1 <= w -> zlen out <= w + 1 ->
  (o ← wr out w 93; o' ← wr o (w + 1) 0; Done (o', w + 1)) = Undefined.
Proof.
  intros H1 H2. destruct (Z.lt_ge_cases w (zlen out)).
  - rewrite wr_Done by lia. by rewrite bind_Done, wr_oob by (rewrite length_insert; lia).
  - by rewrite wr_oob by lia.
Qed.

Lemma batch_metric_fit m id out w (first : bool) :
  let x := (if first then [] else [44]) ++ metric_json m id in
  1 <= w < zlen out - 2 -> w + zlen x < zlen out ->
  exists out', batch_metric (Some m) id (zlen out) out w first = Done (out', w + zlen x) /\
    length out' = length out /\
    take (Z.to_nat (w + zlen x)) out' = take (Z.to_nat w) out ++ x.
Proof.
  cbv zeta. intros Hw Hfit. unfold batch_metric. ztest.
  destruct (put_comma_spec first out w ltac:(lia)) as (o1 & w1 & Ho1 & Hl1 & Hw1 & Ht1).
  rewrite length_app in Hfit. pose proof (metric_json_length m id).
  set (c := if first then [] else [44]) in *.
  rewrite Ho1. rewrite bind_Done. cbv beta iota. unfold serialize_host_metric.
  destruct (snprintf_at_spec o1 w1 (metric_json m id) ltac:(lia)) as (o2 & Ho2 & Hl2 & Ht2 & Hf).
  rewrite Hl1 in Ho2. rewrite Ho2, !bind_Done. cbv beta iota. ztest.
  exists o2. rewrite length_app.
  replace (w + Z.of_nat _) with (w1 + zlen (metric_json m id)) by lia.
  split; [done|]. split; [lia|]. rewrite Hf, Ht1 by lia. by rewrite <- app_assoc.
Qed.

(** Once begun, a metric is counted in full whether it fits or not. *)
Lemma batch_metric_written m id out w (first : bool) :
  1 <= w < zlen out - 2 ->
  exists out', batch_metric (Some m) id (zlen out) out w first =
    Done (out', w + zlen ((if first then [] else [44]) ++ metric_json m id)) /\
    length out' = length out.
Proof.
  intros Hw. unfold batch_metric. ztest.
  destruct (put_comma_spec first out w ltac:(lia)) as (o1 & w1 & Ho1 & Hl1 & Hw1 & _).
  pose proof (metric_json_length m id). set (c := if first then [] else [44]) in *.
  assert (Hc : (length c <= 1)%nat) by (subst c; destruct first; simpl; lia).
  rewrite Ho1, bind_Done. cbv beta iota. unfold serialize_host_metric.
  destruct (snprintf_at_spec o1 w1 (metric_json m id) ltac:(lia)) as (o2 & Ho2 & Hl2 & _).
  rewrite Hl1 in Ho2. rewrite Ho2, !bind_Done. cbv beta iota. ztest. exists o2.
  split; [|lia]. do 2 f_equal. rewrite length_app. lia.
Qed.

Lemma close_batch_iff (out : bytes) w :
  1 <= w ->
  (o ← wr out w 93; o' ← wr o (w + 1) 0; Done (o', w + 1)) = Undefined <-> zlen out <= w + 1.
Proof.
  intros Hw. split; [|by apply close_batch_oob]. intros Hu.
  destruct (Z.lt_ge_cases (w + 1) (zlen out)); [|lia].
  destruct (close_batch out w) as (? & Hd & _); [lia|lia|]. congruence.
Qed.

(** The metric after events that left the buffer at [pre]. *)
Lemma batch_metric_text metric id out w (first : bool) pre :
  let items := match metric with Some m => [metric_json m id] | None => [] end in
  1 <= w -> take (Z.to_nat w) out = pre -> w + zlen (join_from first items) < zlen out - 1 ->
  exists out', batch_metric metric id (zlen out) out w first =
    Done (out', w + zlen (join_from first items)) /\ length out' = length out /\
    take (Z.to_nat (w + zlen (join_from first items))) out' = pre ++ join_from first items.
Proof.
  cbv zeta. intros Hw Ht Hfit. destruct metric as [m|].
  - rewrite join_from_cons, app_nil_r in *. pose proof (metric_json_length m id).
    rewrite length_app in Hfit.
    destruct (batch_metric_fit m id out w first) as (o & Ho & Hl & Hto);
      [lia|rewrite length_app; lia|]. exists o. by rewrite Ho, Hto, Ht.
  - exists out. assert (Hn : join_from first [] = []) by by destruct first.
    rewrite Hn, Z.add_0_r, app_nil_r. done.
Qed.

(** A batch that fits is serialized exactly: when the JSON array of all
    events and the metric, with its NUL, fits the output, [serialize_batch]
    writes it, terminates it and returns its length. *)
Lemma serialize_batch_text (evs : list flow_event_t) (metric : option host_metric_t)
    (id output : bytes) :
  let text := json_array (batch_items evs metric id) in
  zlen text < zlen output ->
  exists out, serialize_batch evs metric id output (zlen output) = Done (out, zlen text) /\
    length out = length output /\ take (length text) out = text /\ out !! length text = Some 0.
Proof.
  intros text Hfit. unfold serialize_batch.
  assert (Htext : text = 91 :: join_from true (batch_items evs metric id) ++ [93]) by done.
  clearbody text. unfold batch_items in Htext. rewrite join_from_app in Htext.
  set (items := map (fun ev => flow_json ev id) evs) in *.
  set (mitems := match metric with Some m => [metric_json m id] | None => [] end) in *.
  assert (Htl := f_equal length Htext). cbn [length] in Htl. rewrite !length_app in Htl.
  cbn [length] in Htl.
  rewrite wr_Done by lia. rewrite bind_Done. set (o0 := <[_ := 91]> output).
  assert (Ho0 : length o0 = length output) by (subst o0; by rewrite length_insert).
  assert (Ht0 : take (Z.to_nat 1) o0 = [91]).
  { subst o0. destruct output; [simpl in *; lia|]. simpl. by rewrite take_0. }
  destruct (batch_events_spec evs id o0 1 true) as (o1 & f1 & Ho1 & Hl1 & _ & Hd1); [lia|].
  rewrite <- Ho0, Ho1, bind_Done. cbv beta iota. fold items in Hd1.
  destruct Hd1 as (Hd1 & Hd2 & Hd3); [lia|]. fold items. rewrite Hd1.
  assert (Hf1 : (true && bool_decide (items = [])) = f1) by (rewrite Hd3; by destruct evs).
  rewrite Hf1 in Htl, Htext.
  destruct (batch_metric_text metric id o1 (1 + zlen (join_from true items)) f1 _
    ltac:(lia) Hd2) as (o2 & Ho2 & Hl2 & Ht2); fold mitems; [lia|]. fold mitems in Ho2, Ht2.
  rewrite <- Hl1, Ho2, bind_Done. cbv beta iota.
  set (w2 := 1 + zlen (join_from true items) + zlen (join_from f1 mitems)) in *.
  destruct (close_batch o2 w2) as (o3 & Ho3 & Hl3 & Ht3 & Hn3); [lia|lia|].
  exists o3. rewrite Ho3. replace (length text) with (Z.to_nat (w2 + 1)) by lia.
  rewrite Z2Nat.id by lia. split; [done|]. split; [lia|]. split; [|done].
  rewrite Ht3, Ht2, Ht0, Htext. by rewrite <- !app_assoc.
Qed.

(** ** When the buffer is overrun *)

Lemma cut_full size w first items :
  Forall (fun x => (3 <= length x)%nat) items -> w < size ->
  cut size w first items = size - 1 <->
  exists k, w + zlen (join_from first (take k items)) = size - 1.
Proof.
  intros Hit. revert w first. induction Hit as [|x items Hx Hit IH]; intros w first Hw.
  { simpl. assert (Hn : forall k, join_from first (take k []) = []) by (intros k; by rewrite take_nil; destruct first).
    split; [intros ->; exists 0%nat; rewrite Hn; simpl; lia|].
    intros [k Hk]. rewrite Hn in Hk. simpl in Hk. lia. }
  cbn [cut]. set (c := if first then [] else [44]).
  assert (Hc : (length c <= 1)%nat) by (subst c; destruct first; simpl; lia).
  assert (Hk0 : zlen (join_from first (take 0 (x :: items))) = 0) by by destruct first.
  assert (HkS : forall k, zlen (join_from first (take (S k) (x :: items))) =
    zlen c + zlen x + zlen (join_from false (take k items))).
  { intros k. rewrite firstn_cons, join_from_cons, !length_app. fold c. simpl. lia. }
  zcase.
  - zcase.
    + split; [lia|]. intros [[|k] Hk]; rewrite ?Hk0, ?HkS in Hk; lia.
    + rewrite IH by lia. split.
      * intros [k Hk]. exists (S k). rewrite HkS. lia.
      * intros [[|k] Hk]; rewrite ?Hk0, ?HkS in Hk; [lia|]. exists k. lia.
  - split.
    + intros ->. exists 0%nat. rewrite Hk0. lia.
    + intros [[|k] Hk]; rewrite ?Hk0, ?HkS in Hk; lia.
Qed.

Lemma cut_all size w first items :
  w < size -> cut size w first items < size - 2 ->
  cut size w first items = w + zlen (join_from first items).
Proof.
  revert w first. induction items as [|x items IH]; intros w first Hw; cbn [cut].
  { intros _. destruct first; simpl; lia. }
  zcase; [|lia]. zcase; [lia|]. intros H2. rewrite IH by lia.
  rewrite join_from_cons, !length_app. cbn [join_from]. lia.
Qed.

Lemma flow_items_long evs id :
  Forall (fun x => (3 <= length x)%nat) (map (fun ev => flow_json ev id) evs).
Proof. apply Forall_fmap, Forall_true. intros ev. apply flow_json_length. Qed.

(** The inputs for which the output of [size] bytes is overrun: the text up to
    some event ends at the last byte but one, or the metric does not fit in
    what the events leave. *)
Definition overruns (evs : list flow_event_t) (metric : option host_metric_t) (id : bytes) (size : Z) : Prop :=
  let items := map (fun ev => flow_json ev id) evs in
  (exists k, 1 + zlen (commas (take k items)) = size - 1) \/
  (exists m, metric = Some m /\ 1 + zlen (commas items) < size - 2 /\
             size - 2 < 1 + zlen (commas (items ++ [metric_json m id]))).

Lemma serialize_batch_undefined (evs : list flow_event_t) (metric : option host_metric_t) (id output : bytes) :
  3 <= zlen output ->
  serialize_batch evs metric id output (zlen output) = Undefined <-> overruns evs metric id (zlen output).
Proof.
  intros Hsize. unfold overruns. set (items := map _ evs). cbv zeta. unfold serialize_batch.
  rewrite wr_Done by lia. rewrite bind_Done. set (o0 := <[_ := 91]> output).
  assert (Ho0 : length o0 = length output) by (subst o0; by rewrite length_insert).
  destruct (batch_events_spec evs id o0 1 true) as (o1 & f1 & Ho1 & Hl1 & Hc1 & Hd1); [lia|].
  rewrite <- Ho0, Ho1, bind_Done. cbv beta iota. fold items in Hc1, Hd1 |- *.
  pose proof (cut_full (zlen o0) 1 true items (flow_items_long evs id) ltac:(lia)) as Hfull.
  pose proof (cut_all (zlen o0) 1 true items ltac:(lia)) as Hall.
  change (join_from true) with commas in *.
  set (w := cut (zlen o0) 1 true items) in *. clearbody w. clear Ho1. rewrite <- Hfull. clear Hfull.
  destruct (Z.lt_ge_cases w (zlen o0 - 2)) as [Hlt|Hge].
  - specialize (Hall Hlt). destruct Hd1 as (_ & _ & Hf1); [lia|]. destruct metric as [m|].
    + destruct (batch_metric_written m id o1 w f1 ltac:(lia)) as (o2 & Ho2 & Hl2).
      rewrite <- Hl1, Ho2, bind_Done. cbv beta iota. rewrite close_batch_iff by lia.
      assert (Hcm : zlen (commas (items ++ [metric_json m id])) =
        zlen (commas items) + zlen ((if f1 then [] else [44]) ++ metric_json m id)).
      { pose proof (join_from_app true items [metric_json m id]) as Hj. cbn [join_from] in Hj.
        rewrite Hj, length_app, join_from_cons, app_nil_r, Hf1. destruct evs; simpl; lia. }
      split; [intros H; right; exists m; split; [done|lia]|].
      intros [H|(m' & [= <-] & _ & H)]; lia.
    + rewrite <- Hl1. simpl. rewrite close_batch_iff by lia.
      split; [lia|]. intros [H|(m & [=] & _)]. lia.
  - assert (Hm : batch_metric metric id (zlen o0) o1 w f1 = Done (o1, w)).
    { destruct metric; simpl; [by ztest|done]. }
    rewrite Hm, bind_Done. cbv beta iota. rewrite close_batch_iff by lia. split; [lia|].
    intros [H|(m & _ & H1 & H2)]; [lia|]. exfalso. destruct Hd1 as (Hw & _ & _); lia.
Qed.

(** C28: exactly when [serialize_batch] writes outside its output (of at least 3
    bytes): when the text up to some event ends at the last byte but one, so
    that the bracket takes the last byte and the NUL the one after (the
    truncation test is off by one), or when the events leave more than two
    bytes and the metric does not fit in them (its length is added to
    [written] unchecked). *)
Theorem serialize_batch_overrun (evs : list flow_event_t) (metric : option host_metric_t)
    (id output : bytes) :
  let size := zlen output in
  let items := map (fun ev => flow_json ev id) evs in
  3 <= size ->
  serialize_batch evs metric id output size = Undefined <->
  (exists k, 1 + zlen (commas (take k items)) = size - 1) \/
  (exists m, metric = Some m /\ 1 + zlen (commas items) < size - 2 /\
             size - 2 < 1 + zlen (commas (items ++ [metric_json m id]))).
Proof. apply serialize_batch_undefined. Qed.

(** An event of 340 characters in a buffer of 342: the NUL lands outside. *)
Lemma serialize_batch_overrun_witness :
  serialize_batch [zero_event] None (lit "stb-1") (replicate 342 0) (zlen (replicate 342 (0 : Z)))
  = Undefined.
Proof.
  apply serialize_batch_overrun; [vm_compute; discriminate|]. left. exists 1%nat.
  vm_compute. reflexivity.
Defined.

(** ** Reading the report back

    A reader for the JSON the probe writes: an array of objects whose values
    are strings or numbers (RFC 8259 without escapes, white space or nesting).
    Numbers are kept as text. *)

Inductive jval : Type := JStr (s : bytes) | JNum (s : bytes).

(** Characters a JSON string may hold unescaped. *)
Definition plain_char (c : Z) : bool := (32 <=? c) && negb (c =? 34) && negb (c =? 92).
Definition plain (s : bytes) : Prop := Forall (fun c => plain_char c = true) s.

(** The rest of a string after its opening quote. *)
Fixpoint read_string (s : bytes) : option (bytes * bytes) :=
  match s with
  | [] => None
  | c :: s' =>
      if c =? 34 then Some ([], s')
      else if plain_char c then '(t, r) ← read_string s'; Some (c :: t, r) else None
  end.

Definition number_char (c : Z) : bool := digitb c || (c =? 46) || (c =? 45).

Fixpoint read_number (s : bytes) : bytes * bytes :=
  match s with
  | c :: s' => if number_char c then let '(t, r) := read_number s' in (c :: t, r) else ([], s)
  | [] => ([], [])
  end.

Definition read_value (s : bytes) : option (jval * bytes) :=
  match s with
  | c :: s' =>
      if c =? 34 then '(t, r) ← read_string s'; Some (JStr t, r)
      else let '(t, r) := read_number s in
           match t with [] => None | _ => Some (JNum t, r) end
  | [] => None
  end.

(** [':' value], after the name of a member. *)
Definition read_colon_value (s : bytes) : option (jval * bytes) :=
  match s with
  | c :: s' => if c =? 58 then read_value s' else None
  | [] => None
  end.

(** The members of an object, after the brace. *)
Fixpoint read_members (fuel : nat) (s : bytes) : option (list (bytes * jval) * bytes) :=
  match fuel, s with
  | S fuel, c :: s' =>
      if c =? 34 then
        '(k, s) ← read_string s';
        '(v, s) ← read_colon_value s;
        match s with
        | d :: s' =>
            if d =? 44 then '(ms, r) ← read_members fuel s'; Some ((k, v) :: ms, r)
            else if d =? 125 then Some ([(k, v)], s') else None
        | [] => None
        end
      else None
  | _, _ => None
  end.

Definition read_object (s : bytes) : option (list (bytes * jval) * bytes) :=
  match s with
  | c :: s' => if c =? 123 then read_members (length s) s' else None
  | [] => None
  end.

Fixpoint read_objects (fuel : nat) (s : bytes) : option (list (list (bytes * jval)) * bytes) :=
  match fuel with
  | O => None
  | S fuel =>
      '(o, s) ← read_object s;
      match s with
      | c :: s' =>
          if c =? 44 then '(os, r) ← read_objects fuel s'; Some (o :: os, r)
          else if c =? 93 then Some ([o], s') else None
      | [] => None
      end
  end.

Definition read_array (s : bytes) : option (list (list (bytes * jval))) :=
  match s with
  | c :: s' =>
      if c =? 91 then
        match s' with
        | [d] => if d =? 93 then Some [] else None
        | _ => '(os, r) ← read_objects (length s) s'; match r with [] => Some os | _ => None end
        end
      else None
  | [] => None
  end.

(** What a report says of an event. *)
Definition event_fields (ev : flow_event_t) (probe_id : bytes) : list (bytes * jval) :=
  [ (lit "timestamp", JNum (dec (e_timestamp_ns ev)));
    (lit "probe_id", JStr (cstr probe_id));
    (lit "category", JStr (cstr (e_category ev)));
    (lit "event_type", JStr (cstr (e_event_type ev)));
    (lit "src_ip", JStr (ip_to_str (e_src_ip ev)));
    (lit "dst_ip", JStr (ip_to_str (e_dst_ip ev)));
    (lit "src_port", JNum (dec (e_src_port ev)));
    (lit "dst_port", JNum (dec (e_dst_port ev)));
    (lit "protocol", JStr (cstr (e_protocol ev)));
    (lit "ip_version", JNum (dec (e_ip_version ev)));
    (lit "tcp_flags", JNum (dec (e_tcp_flags ev)));
    (lit "pkt_len", JNum (dec (e_pkt_len ev)));
    (lit "bytes", JNum (dec (e_bytes ev)));
    (lit "packets", JNum (dec (e_packets ev)));
    (lit "latency_us", JNum (dec (e_latency_us ev)));
    (lit "bandwidth_bps", JNum (dec (e_bandwidth_bps ev)));
    (lit "retransmits", JNum (dec (e_retransmits ev)));
    (lit "dup_acks", JNum (dec (e_dup_acks ev)));
    (lit "anomaly", JNum (dec (e_anomaly ev)));
    (lit "payload_type", JNum (dec (e_payload_type ev)));
    (lit "pid", JNum (dec (e_pid ev)));
    (lit "service", JStr (cstr (e_service ev)));
    (lit "details", JStr (cstr (e_details ev)));
    (lit "tags", JStr (cstr (e_tags ev))) ].

(** The text of a member and of an object. *)
Definition value_text (v : jval) : bytes :=
  match v with JStr s => 34 :: s ++ [34] | JNum s => s end.
Definition member_text (m : bytes * jval) : bytes := 34 :: m.1 ++ 34 :: 58 :: value_text m.2.
Definition object_text (ms : list (bytes * jval)) : bytes := 123 :: commas (map member_text ms) ++ [125].

Lemma flow_json_object ev id : flow_json ev id = object_text (event_fields ev id).
Proof.
  unfold flow_json, object_text, event_fields, member_text, value_text, ip_to_str. cbn [map commas fst snd].
  repeat (first [rewrite <- !app_assoc | progress cbn [app]]).
  reflexivity.
Qed.

Lemma read_string_plain s r : plain s -> read_string (s ++ 34 :: r) = Some (s, r).
Proof.
  induction 1 as [|c s Hc _ IH]; [done|]. cbn [app read_string]. rewrite IH.
  assert ((c =? 34) = false) as ->.
  { unfold plain_char in Hc. destruct (Z.eqb_spec c 34); [subst; done|done]. }
  by rewrite Hc.
Qed.

Definition stops (r : bytes) : Prop := forall c, head r = Some c -> number_char c = false.

Lemma read_number_stops s r :
  Forall (fun c => number_char c = true) s -> stops r -> read_number (s ++ r) = (s, r).
Proof.
  intros Hs Hr. induction Hs as [|c s Hc _ IH]; cbn [app read_number].
  - destruct r as [|c r]; [done|]. simpl. by rewrite (Hr c eq_refl).
  - by rewrite Hc, IH.
Qed.

Definition value_ok (v : jval) : Prop :=
  match v with
  | JStr s => plain s
  | JNum s => s <> [] /\ Forall (fun c => number_char c = true) s
  end.

Lemma read_value_text v r : value_ok v -> stops r -> read_value (value_text v ++ r) = Some (v, r).
Proof.
  intros Hv Hr. destruct v as [s|s]; cbn [value_text].
  - cbn [app]. rewrite <- app_assoc. cbn [app read_value]. rewrite Z.eqb_refl.
    by rewrite read_string_plain.
  - destruct Hv as [Hne Hs]. pose proof (read_number_stops s r Hs Hr) as Hn.
    destruct s as [|c s]; [done|]. cbn [app] in *. unfold read_value.
    inversion Hs as [|? ? Hc _]; subst. destruct (Z.eqb_spec c 34); [by subst|]. by rewrite Hn.
Qed.

Definition member_ok (m : bytes * jval) : Prop := plain m.1 /\ value_ok m.2.

Lemma read_members_text ms r fuel :
  Forall member_ok ms -> ms <> [] -> (length ms <= fuel)%nat ->
  read_members fuel (commas (map member_text ms) ++ 125 :: r) = Some (ms, r).
Proof.
  intros Hms. revert fuel. induction Hms as [|[k v] ms [Hk Hv] Hms IH]; intros fuel Hne Hf; [done|].
  destruct fuel as [|fuel]; [simpl in Hf; lia|]. simpl in Hk, Hv, Hf.
  assert (Hstep : forall t, stops t ->
    read_members (S fuel) (member_text (k, v) ++ t) =
    match t with
    | d :: s' => if d =? 44 then '(ms, r) ← read_members fuel s'; Some ((k, v) :: ms, r)
                 else if d =? 125 then Some ([(k, v)], s') else None
    | [] => None
    end).
  { intros t Ht. unfold member_text. cbn [fst snd app read_members]. rewrite Z.eqb_refl.
    rewrite <- app_assoc. cbn [app]. rewrite read_string_plain by done.
    cbn [mbind option_bind read_colon_value]. rewrite Z.eqb_refl.
    by rewrite read_value_text by done. }
  cbn [map]. rewrite commas_cons. destruct ms as [|m ms].
  - cbn [map]. change (more_items []) with (@nil Z). rewrite app_nil_r.
    rewrite Hstep; [done|by intros c [= <-]].
  - assert (Hmore : more_items (map member_text (m :: ms)) = 44 :: commas (map member_text (m :: ms))).
    { change (more_items (map member_text (m :: ms))) with
        ((44 :: member_text m) ++ more_items (map member_text ms)).
      cbn [map]. by rewrite commas_cons. }
    rewrite Hmore, <- app_assoc. rewrite Hstep by (by intros c [= <-]).
    cbn [app]. rewrite Z.eqb_refl. rewrite IH; [done|done|simpl in *; lia].
Qed.

(** The separators alone account for the number of items. *)
Lemma commas_count (l : list bytes) : (length l <= length (commas l) + 1)%nat.
Proof.
  induction l as [|m l IH]; [simpl; lia|]. destruct l as [|m' l]; [simpl; lia|].
  change (commas (m :: m' :: l)) with (m ++ 44 :: commas (m' :: l)).
  rewrite length_app. cbn [length] in *. lia.
Qed.

Lemma read_object_text ms r :
  Forall member_ok ms -> ms <> [] -> read_object (object_text ms ++ r) = Some (ms, r).
Proof.
  intros Hms Hne. unfold object_text. cbn [app read_object]. rewrite Z.eqb_refl.
  rewrite <- app_assoc. cbn [app length]. apply read_members_text; try done.
  pose proof (commas_count (map member_text ms)) as Hc. rewrite length_map in Hc.
  rewrite length_app. simpl. lia.
Qed.

Lemma read_objects_text os fuel :
  Forall (fun ms => Forall member_ok ms /\ ms <> []) os -> os <> [] -> (length os <= fuel)%nat ->
  read_objects fuel (commas (map object_text os) ++ [93]) = Some (os, []).
Proof.
  intros Hos. revert fuel. induction Hos as [|o os [Ho Hn] Hos IH]; intros fuel Hne Hf; [done|].
  destruct fuel as [|fuel]; [simpl in Hf; lia|]. cbn [map]. destruct os as [|o' os].
  - cbn [map commas read_objects]. by rewrite read_object_text.
  - change (commas (object_text o :: map object_text (o' :: os))) with
      (object_text o ++ 44 :: commas (map object_text (o' :: os))).
    rewrite <- app_assoc. cbn [read_objects]. rewrite read_object_text by done.
    cbn [app mbind option_bind]. rewrite Z.eqb_refl. rewrite IH; [done|done|simpl in *; lia].
Qed.

Lemma read_array_text os :
  Forall (fun ms => Forall member_ok ms /\ ms <> []) os ->
  read_array (json_array (map object_text os)) = Some os.
Proof.
  intros Hos. unfold json_array. destruct os as [|o os]; [done|].
  cbn [read_array]. rewrite Z.eqb_refl.
  pose proof (read_objects_text (o :: os) (length (91 :: commas (map object_text (o :: os)) ++ [93]))
    Hos ltac:(done)) as Hr.
  destruct (commas (map object_text (o :: os)) ++ [93]) as [|c [|d s]] eqn:E.
  - by apply app_nil in E as [_ ?].
  - exfalso. cbn [map] in E. rewrite commas_cons in E. apply (f_equal length) in E.
    rewrite !length_app in E. unfold object_text in E. simpl in E. lia.
  - rewrite Hr; [done|]. rewrite <- E. pose proof (commas_count (map object_text (o :: os))) as Hc.
    rewrite length_map in Hc. cbn [length]. rewrite length_app. cbn [length] in *. lia.
Qed.

(** The text fields of an event and the probe name hold no quote, backslash or
    control character. *)
Record event_plain (ev : flow_event_t) : Prop := mk_event_plain {
  ep_category : plain (cstr (e_category ev));
  ep_event_type : plain (cstr (e_event_type ev));
  ep_protocol : plain (cstr (e_protocol ev));
  ep_service : plain (cstr (e_service ev));
  ep_details : plain (cstr (e_details ev));
  ep_tags : plain (cstr (e_tags ev))
}.

Lemma digit_plain c : is_digit c -> plain_char c = true.
Proof. intros []. unfold plain_char. by ztest. Qed.

Lemma dec_value_ok n : 0 <= n -> value_ok (JNum (dec n)).
Proof.
  intros Hn. split; [apply dec_not_nil|]. eapply Forall_impl; [|by apply dec_digits].
  intros c Hc. unfold number_char. by rewrite digitb_true.
Qed.

Lemma ip_plain ip : plain (ip_to_str ip).
Proof.
  assert (Hd : forall i, plain (dec (byte_of ip i))).
  { intros i. eapply Forall_impl; [apply digit_plain|apply dec_digits].
    pose proof (byte_of_range ip i) as []. done. }
  assert (Hdot : plain (lit ".")) by (repeat constructor).
  unfold ip_to_str, plain in *. rewrite !Forall_app. auto 10.
Qed.

Lemma event_fields_ok ev id :
  event_ok ev -> event_plain ev -> plain (cstr id) -> Forall member_ok (event_fields ev id).
Proof.
  intros [_ []] [] Hid. unfold event_fields.
  repeat (constructor; [split; [by repeat constructor|cbn [snd]];
    first [apply dec_value_ok; mlia | done | apply ip_plain]|]). constructor.
Qed.

(** C14: JSON round trip.  For well-formed events none of whose texts, nor the
    probe id, holds a quote, a backslash or a control character (they are copied
    without escaping, see [details_injection]), and when the text fits in the
    buffer, the text [serialize_batch] produces for a batch without a host
    metric is a JSON array; a JSON reader recovers every event, field by field,
    in order, under the names of the source. *)
Theorem serialize_batch_roundtrip (evs : list flow_event_t) (id output : bytes) :
  Forall event_ok evs -> Forall event_plain evs -> plain (cstr id) ->
  zlen (json_array (batch_items evs None id)) < zlen output ->
  exists out n, serialize_batch evs None id output (zlen output) = Done (out, n) /\
    read_array (take (Z.to_nat n) out) = Some (map (fun ev => event_fields ev id) evs).
Proof.
  intros Hok Hpl Hid Hfit.
  destruct (serialize_batch_text evs None id output Hfit) as (out & Ho & _ & Ht & _).
  exists out. eexists. split; [exact Ho|]. rewrite Nat2Z.id, Ht.
  unfold batch_items. rewrite app_nil_r.
  replace (map (fun ev => flow_json ev id) evs)
    with (map object_text (map (fun ev => event_fields ev id) evs))
    by (rewrite map_map; apply map_ext; intros ev; symmetry; apply flow_json_object).
  apply read_array_text. apply Forall_fmap.
  eapply Forall_impl; [|apply Forall_and; [exact Hok|exact Hpl]].
  intros ev [H1 H2]. split; [by apply event_fields_ok|done].
Qed.

Lemma serialize_batch_roundtrip_witness :
  exists out n,
    serialize_batch [zero_event; put_details (lit "host=stb.local") zero_event] None (lit "stb-1")
      (replicate 1000 0) (zlen (replicate 1000 (0 : Z))) = Done (out, n) /\
    read_array (take (Z.to_nat n) out) =
    Some (map (fun ev => event_fields ev (lit "stb-1"))
            [zero_event; put_details (lit "host=stb.local") zero_event]).
Proof.
  apply serialize_batch_roundtrip.
  - repeat constructor; apply zero_event_ok || apply put_details_ok, zero_event_ok.
  - repeat constructor.
  - repeat constructor.
  - vm_compute. reflexivity.
Defined.

(** The texts are copied without escaping: a quote in a field ends it, so that
    a value can add members of its own to the report. *)
Example details_injection :
  let ev := put_details (qlit "x','pid':'7") zero_event in
  read_array (json_array (batch_items [ev] None (lit "stb-1"))) =
  Some [take 22 (event_fields zero_event (lit "stb-1")) ++
        [(lit "details", JStr (lit "x")); (lit "pid", JStr (lit "7"));
         (lit "tags", JStr [])]].
Proof. vm_compute. reflexivity. Qed.
