(* ===== verification/Scanf.v ===== *)
(** Scanf: [fgets] and the part of [scanf] the probe uses.

    A format is the list of its directives.  [scan] walks the input and
    returns the values of the assigning conversions in order, stopping at the
    first directive that does not match, and the unread input; the length of
    that list is what [sscanf] returns when input was left (the code only
    compares it with thresholds that 0 and EOF fail alike). *)

From stdpp Require Import base list strings numbers option.
From S2P Require Import Prelude CLib.

Inductive directive : Type :=
| White                          (* white space in the format *)
| Lit (c : Z)                    (* any other character *)
| Num (base : Z) (assign : bool) (* %d %u %llu (10), %x (16); %*d ... *)
| NotSet (width : nat) (stop : Z). (* %<width>[^<stop>] *)

Inductive sval : Type := VNum (z : Z) | VStr (s : bytes).

Definition hex_digit (c : Z) : option Z :=
  if (48 <=? c) && (c <=? 57) then Some (c - 48)
  else if (97 <=? c) && (c <=? 102) then Some (c - 87)
  else if (65 <=? c) && (c <=? 70) then Some (c - 55)
  else None.

Definition digit_of (base c : Z) : option Z :=
  match hex_digit c with
  | Some d => if d <? base then Some d else None
  | None => None
  end.

(** Digits from the front of the input: the value so far, the rest, and how
    many there were. *)
Fixpoint read_digits (base : Z) (s : bytes) (acc : Z) (n : nat) : Z * bytes * nat :=
  match s with
  | c :: s' =>
      match digit_of base c with
      | Some d => read_digits base s' (acc * base + d) (S n)
      | None => (acc, s, n)
      end
  | [] => (acc, [], n)
  end.

(** [0x] before hexadecimal digits. *)
Definition skip_0x (base : Z) (s : bytes) : bytes :=
  match s with
  | c0 :: c1 :: c2 :: s' =>
      if (base =? 16) && (c0 =? 48) && ((c1 =? 120) || (c1 =? 88)) &&
         (match hex_digit c2 with Some _ => true | None => false end)
      then c2 :: s' else s
  | _ => s
  end.

(** One number: white space, an optional sign, digits.  The magnitude
    saturates at 64 bits as [strtoumax] does. *)
Definition read_num (base : Z) (s : bytes) : option (Z * bytes) :=
  let s := skip_space s in
  let '(neg, s) := match s with
                   | c :: s' => if c =? 45 then (true, s') else if c =? 43 then (false, s') else (false, s)
                   | [] => (false, s)
                   end in
  let '(v, r, n) := read_digits base (skip_0x base s) 0 0 in
  match n with
  | O => None
  | _ => let v := Z.min v (2 ^ 64 - 1) in Some (if neg then - v else v, r)
  end.

(** [%w[^c]]: at least one and at most [w] characters other than [c]. *)
Fixpoint read_notset (w : nat) (stop : Z) (s : bytes) : bytes * bytes :=
  match w, s with
  | S w', c :: s' =>
      if c =? stop then ([], s)
      else let '(t, r) := read_notset w' stop s' in (c :: t, r)
  | _, _ => ([], s)
  end.

Fixpoint scan (fmt : list directive) (s : bytes) : list sval * bytes :=
  match fmt with
  | [] => ([], s)
  | White :: fmt' => scan fmt' (skip_space s)
  | Lit c :: fmt' =>
      match s with
      | d :: s' => if d =? c then scan fmt' s' else ([], s)
      | [] => ([], [])
      end
  | Num base assign :: fmt' =>
      match read_num base s with
      | Some (v, r) =>
          let '(vs, r) := scan fmt' r in (if assign then VNum v :: vs else vs, r)
      | None => ([], s)
      end
  | NotSet w stop :: fmt' =>
      match read_notset w stop s with
      | ([], _) => ([], s)
      | (t, r) => let '(vs, r) := scan fmt' r in (VStr t :: vs, r)
      end
  end.

(** The conversions of [sscanf(line, fmt, ...)]. *)
Definition sscanf (line : bytes) (fmt : list directive) : list sval := (scan fmt (cstr line)).1.

(** A literal of a format. *)
Definition lits (s : string) : list directive := map Lit (lit s).

(** [fgets(line, n, f)] on the unread bytes of [f]: the line read, without its
    NUL, and the rest; [None] at the end of the file. *)
Fixpoint take_line (n : nat) (s : bytes) : bytes * bytes :=
  match n, s with
  | S n', c :: s' =>
      if c =? 10 then ([c], s')
      else let '(l, r) := take_line n' s' in (c :: l, r)
  | _, _ => ([], s)
  end.

Definition fgets (n : nat) (s : bytes) : option (bytes * bytes) :=
  match s with
  | [] => None
  | _ => Some (take_line (n - 1) s)
  end.

(** ** Lemmas *)

Lemma take_line_app n l r :
  Forall (fun c => c <> 10) l -> (length l < n)%nat -> take_line n (l ++ 10 :: r) = (l ++ [10], r).
Proof.
  intros Hl. revert n. induction Hl as [|c l Hc _ IH]; intros [|n] Hn; simpl in *; try lia; [done|].
  ztest. rewrite IH by lia. done.
Qed.

Lemma fgets_line n l r :
  Forall (fun c => c <> 10) l -> (length l + 2 <= n)%nat ->
  fgets n (l ++ 10 :: r) = Some (l ++ [10], r).
Proof.
  intros Hl Hn. unfold fgets. rewrite take_line_app by (done || lia). by destruct l.
Qed.

Lemma take_line_length n s l r :
  take_line n s = (l, r) -> (length l <= n)%nat /\ s = l ++ r /\ (n <> 0%nat -> s <> [] -> l <> []).
Proof.
  revert s l r. induction n as [|n IH]; intros [|c s] l r; cbn [take_line]; try (intros [= <- <-]; simpl; repeat split; (lia || done)).
  destruct (c =? 10); [intros [= <- <-]; simpl; repeat split; (lia || done)|].
  destruct (take_line n s) as [l' r'] eqn:E. intros [= <- <-].
  destruct (IH _ _ _ E) as (H1 & -> & _). simpl. repeat split; try lia; done.
Qed.

(** [fgets] never returns more than fits, and consumes input. *)
Lemma fgets_spec n s l r :
  (2 <= n)%nat -> fgets n s = Some (l, r) ->
  (length l <= n - 1)%nat /\ s = l ++ r /\ (length r < length s)%nat.
Proof.
  intros Hn. destruct s as [|c s]; [done|]. unfold fgets. intros [= H].
  destruct (take_line_length _ _ _ _ H) as (H1 & H2 & H3). split; [lia|]. split; [done|].
  rewrite H2, length_app. destruct l; [exfalso; by apply H3; [lia| |]|]. simpl. lia.
Qed.

Lemma hex_digit_dec c : is_digit c -> hex_digit c = Some (c - 48).
Proof. intros []. unfold hex_digit. by ztest. Qed.

Lemma digit_of_10 c : is_digit c -> digit_of 10 c = Some (c - 48).
Proof. intros H. unfold digit_of. rewrite hex_digit_dec by done. destruct H. by ztest. Qed.

(** Input on which no digit of [base] can be read. *)
Definition ends_num (base : Z) (r : bytes) : Prop := forall c, head r = Some c -> digit_of base c = None.

Lemma read_digits_10 ds r acc n :
  Forall is_digit ds -> ends_num 10 r ->
  read_digits 10 (ds ++ r) acc n =
  (fold_left (fun a c => a * 10 + (c - 48)) ds acc, r, (n + length ds)%nat).
Proof.
  intros Hd Hr. revert acc n. induction Hd as [|c ds Hc _ IH]; intros acc n.
  - simpl. rewrite Nat.add_0_r. destruct r as [|c r]; [done|]. simpl. by rewrite (Hr c eq_refl).
  - cbn [app read_digits]. rewrite digit_of_10 by done. rewrite IH. simpl. f_equal. lia.
Qed.

Lemma skip_space_digit c s : is_digit c -> skip_space (c :: s) = c :: s.
Proof. intros []. cbn [skip_space]. unfold isspace. by ztest. Qed.

Lemma skip_space_dec ws n r :
  Forall (fun c => isspace c = true) ws -> 0 <= n -> skip_space (ws ++ dec n ++ r) = dec n ++ r.
Proof.
  intros Hws Hn. pose proof (dec_digits n Hn) as Hd. pose proof (dec_not_nil n) as Hne.
  induction Hws as [|c ws Hc _ IH]; simpl; [|by rewrite Hc].
  destruct (dec n) as [|c ds]; [done|]. cbn [app]. inversion Hd. by apply skip_space_digit.
Qed.

(** [%u]/[%llu] reads back what was printed, after any white space. *)
Lemma read_num_dec ws n r :
  Forall (fun c => isspace c = true) ws -> is_u64 n -> ends_num 10 r ->
  read_num 10 (ws ++ dec n ++ r) = Some (n, r).
Proof.
  intros Hws Hn Hr. unfold read_num.
  rewrite skip_space_dec by (done || mlia). pose proof (dec_digits n ltac:(mlia)) as Hd. pose proof (dec_not_nil n) as Hne.
  pose proof (dec_dval n Hn) as Hv. unfold dval in Hv.
  destruct (dec n) as [|c ds] eqn:E; [done|]. cbn [app].
  assert (Hc : is_digit c) by (by inversion Hd). destruct Hc as [Hc1 Hc2].
  ztest. change (c :: ds ++ r) with ((c :: ds) ++ r).
  assert (H0x : skip_0x 10 ((c :: ds) ++ r) = (c :: ds) ++ r).
  { simpl. repeat case_match; done. }
  rewrite H0x, read_digits_10, Hv by done. simpl. do 2 f_equal. mlia.
Qed.
