(* ===== verification/ProcNet.v ===== *)
(** ProcNet: src/proc_net.c.

    The readers of /proc/net.  A file is the list of its bytes, [None] when it
    cannot be opened; the entries are the caller's array and the offset the
    caller adds to it.  The use of a local that [sscanf] did not set is
    [Undefined]. *)

From stdpp Require Import base list strings numbers option.
From S2P Require Import Prelude CLib Common Scanf.

(** ** Operations *)

(** [" %*d %x:%x %x:%x %x %x:%x %*x:%x %*x %*d %*d %u %u"]. *)
Definition tcp_fmt : list directive :=
  [White; Num 10 false; White; Num 16 true; Lit 58; Num 16 true; White; Num 16 true; Lit 58;
   Num 16 true; White; Num 16 true; White; Num 16 true; Lit 58; Num 16 true; White;
   Num 16 false; Lit 58; Num 16 true; White; Num 16 false; White; Num 10 false; White;
   Num 10 false; White; Num 10 true; White; Num 10 true].

(** A number read by [%x] or [%u] into an [unsigned int]. *)
Definition uint_of (v : sval) : Z := match v with VNum z => u32 z | VStr _ => 0 end.

(** The nine locals after [sscanf], in the order of its arguments; [None] when
    the row is skipped.  The tenth assigning conversion of the format has no
    argument; from a row of five to eight values [txq], [uid] or [inode] would
    be used without having been set. *)
Definition scan_row (line : bytes) : exec (option (list Z)) :=
  let vs := sscanf line tcp_fmt in
  let n := length vs in
  if (9 <? n)%nat then Undefined
  else if (n <? 5)%nat then Done None
  else if (n <? 9)%nat then Undefined
  else Done (Some (map uint_of vs)).

Definition fill_entry (is_tcp : bool) (v : list Z) (e : proc_net_entry) : proc_net_entry :=
  let x i := nth i v 0 in
  mk_entry (x 0%nat) (u16 (x 1%nat)) (x 2%nat) (u16 (x 3%nat)) (u8 (x 4%nat))
    (if is_tcp then 6 else 17) (p_ip_version e) (x 5%nat) (x 6%nat) (x 7%nat) (x 8%nat).

(** The loop; each turn reads a line, so the file length is enough fuel. *)
Fixpoint proc_rows (fuel : nat) (s : bytes) (is_tcp : bool)
    (entries : list proc_net_entry) (base count max_entries : Z)
  : exec (list proc_net_entry * Z) :=
  match fuel with
  | O => Done (entries, count)
  | S fuel =>
      if count <? max_entries then
        match fgets 1024 s with
        | None => Done (entries, count)
        | Some (line, s) =>
            row ← scan_row line;
            match row with
            | None => proc_rows fuel s is_tcp entries base count max_entries
            | Some v =>
                match entries !! Z.to_nat (base + count) with
                | None => Undefined
                | Some e =>
                    proc_rows fuel s is_tcp
                      (<[Z.to_nat (base + count) := fill_entry is_tcp v e]> entries)
                      base (count + 1) max_entries
                end
            end
        end
      else Done (entries, count)
  end.

Definition parse_proc_net_file (file : option bytes) (is_tcp : bool)
    (entries : list proc_net_entry) (base max_entries : Z) : exec (list proc_net_entry * Z) :=
  match file with
  | None => Done (entries, 0)
  | Some s =>
      match fgets 1024 s with
      | None => Done (entries, 0)
      | Some (_, s) => proc_rows (length s) s is_tcp entries base 0 max_entries
      end
  end.

(** The four readers; the file is the one named in the source. *)
Definition proc_net_read_tcp (net_tcp : option bytes) := parse_proc_net_file net_tcp true.
Definition proc_net_read_udp (net_udp : option bytes) := parse_proc_net_file net_udp false.
Definition proc_net_read_tcp6 (net_tcp6 : option bytes) := parse_proc_net_file net_tcp6 true.
Definition proc_net_read_udp6 (net_udp6 : option bytes) := parse_proc_net_file net_udp6 false.

(** [" %63[^:]: %llu %*u %*u %*u %*u %*u %*u %*u %llu"]. *)
Definition dev_fmt : list directive :=
  [White; NotSet 63 58; Lit 58; White; Num 10 true; White; Num 10 false; White; Num 10 false;
   White; Num 10 false; White; Num 10 false; White; Num 10 false; White; Num 10 false; White;
   Num 10 false; White; Num 10 true].

Fixpoint dev_rows (fuel : nat) (s : bytes) (total_rx total_tx : Z) : Z * Z :=
  match fuel with
  | O => (total_rx, total_tx)
  | S fuel =>
      match fgets 512 s with
      | None => (total_rx, total_tx)
      | Some (line, s) =>
          match sscanf line dev_fmt with
          | [VStr _; VNum rx; VNum tx] =>
              dev_rows fuel s (u64 (total_rx + rx)) (u64 (total_tx + tx))
          | _ => dev_rows fuel s total_rx total_tx
          end
      end
  end.

(** The result and the two outputs, whose old values are arguments. *)
Definition proc_net_read_dev (file : option bytes) (rx_bytes tx_bytes : Z) : Z * Z * Z :=
  match file with
  | None => (-1, rx_bytes, tx_bytes)
  | Some s =>
      let s := match fgets 512 s with Some (_, s) => s | None => s end in
      let s := match fgets 512 s with Some (_, s) => s | None => s end in
      let '(rx, tx) := dev_rows (length s) s 0 0 in (0, rx, tx)
  end.

(** ** Bounds *)

(** A run that is defined stays inside the caller's window of the array. *)
Lemma proc_rows_bounds fuel s is_tcp entries base count max entries' c :
  0 <= base -> 0 <= count <= max ->
  proc_rows fuel s is_tcp entries base count max = Done (entries', c) ->
  count <= c <= max /\ length entries' = length entries /\
  (forall i, Z.of_nat i < base + count \/ base + c <= Z.of_nat i -> entries' !! i = entries !! i).
Proof.
  intros Hb. revert s entries count.
  induction fuel as [|fuel IH]; intros s entries count Hc; cbn [proc_rows].
  { intros [= <- <-]. repeat split; (lia || done). }
  zcase; [|intros [= <- <-]; repeat split; (lia || done)].
  destruct (fgets 1024 s) as [[line s']|]; [|intros [= <- <-]; repeat split; (lia || done)].
  intros ([v|] & _ & H1)%bind_Done_inv; revert H1; [|by apply IH].
  destruct (entries !! _) as [e|] eqn:E; [|done].
  intros (H1 & H2 & H3)%IH; [|lia]. rewrite length_insert in H2. split; [lia|]. split; [done|].
  intros i Hi. rewrite H3 by lia. apply list_lookup_insert_ne. lia.
Qed.

(** The lines the loop reads, and the condition on each: fewer than five values
    or exactly nine. *)
Fixpoint rows_of (fuel : nat) (s : bytes) : list bytes :=
  match fuel with
  | O => []
  | S fuel =>
      match fgets 1024 s with
      | None => []
      | Some (line, s) => line :: rows_of fuel s
      end
  end.

Definition row_fits (line : bytes) : Prop :=
  (length (sscanf line tcp_fmt) < 5)%nat \/ length (sscanf line tcp_fmt) = 9%nat.

Definition rows_fit (file : option bytes) : Prop :=
  match file with
  | None => True
  | Some s =>
      match fgets 1024 s with
      | None => True
      | Some (_, s) => Forall row_fits (rows_of (length s) s)
      end
  end.

Lemma scan_row_fits line : row_fits line -> exists r, scan_row line = Done r.
Proof.
  intros H. unfold scan_row. destruct H as [H|H].
  - rewrite (proj2 (Nat.ltb_ge _ _)), (proj2 (Nat.ltb_lt _ _)) by lia. eauto.
  - rewrite H. simpl. eauto.
Qed.

(** With room for [max_entries] entries the run is defined. *)
Lemma proc_rows_defined fuel s is_tcp entries base count max :
  Forall row_fits (rows_of fuel s) -> 0 <= base -> 0 <= count <= max -> base + max <= zlen entries ->
  defined (proc_rows fuel s is_tcp entries base count max).
Proof.
  revert s entries count. induction fuel as [|fuel IH]; intros s entries count Hl Hb Hc Hm;
    cbn [proc_rows rows_of] in *; [eauto with stb|].
  zcase; [|eauto with stb].
  destruct (fgets 1024 s) as [[line s']|] eqn:E; [|eauto with stb].
  inversion Hl as [|? ? Hrow Hl']; subst. destruct (scan_row_fits line Hrow) as (r & ->).
  rewrite bind_Done. destruct r as [v|]; [|by apply IH].
  destruct (lookup_lt_is_Some_2 entries (Z.to_nat (base + count))) as [e He]; [lia|].
  rewrite He. apply IH; try done; [lia|]. by rewrite length_insert.
Qed.

Lemma proc_file_bounds (file : option bytes) (is_tcp : bool)
    (entries : list proc_net_entry) (base max : Z) :
  rows_fit file ->
  0 <= base -> 0 <= max -> base + max <= zlen entries ->
  exists entries' c,
    parse_proc_net_file file is_tcp entries base max = Done (entries', c) /\
    0 <= c <= max /\ length entries' = length entries /\
    forall i, Z.of_nat i < base \/ base + c <= Z.of_nat i -> entries' !! i = entries !! i.
Proof.
  intros Hf Hb Hm Hroom. unfold parse_proc_net_file.
  assert (Hnone : exists entries' c, Done (entries, 0) = Done (entries', c) /\
    0 <= c <= max /\ length entries' = length entries /\
    forall i, Z.of_nat i < base \/ base + c <= Z.of_nat i -> entries' !! i = entries !! i).
  { exists entries, 0. repeat split; (lia || done). }
  destruct file as [s|]; [|done]. destruct (fgets 1024 s) as [[h s']|] eqn:E; [|done].
  simpl in Hf. rewrite E in Hf.
  destruct (proc_rows_defined (length s') s' is_tcp entries base 0 max Hf) as [[e' c] He];
    [lia..|]. exists e', c. split; [done|].
  apply proc_rows_bounds in He as (H1 & H2 & H3); [|lia|lia].
  split; [done|]. split; [done|]. intros i Hi. apply H3. lia.
Qed.

(** Bounds of the /proc/net readers.  Given a file each line of which has
    fewer than five values or nine, and an array with room for
    [max_entries] entries behind [base], the reader returns between 0 and
    [max_entries], and writes no entry outside the ones it counts. *)
Lemma proc_net_bounds (file : option bytes) (is_tcp : bool)
    (entries : list proc_net_entry) (base max : Z) :
  rows_fit file ->
  0 <= base -> 0 <= max -> base + max <= zlen entries ->
  exists entries' c,
    parse_proc_net_file file is_tcp entries base max = Done (entries', c) /\
    0 <= c <= max /\ length entries' = length entries /\
    forall i, Z.of_nat i < base \/ base + c <= Z.of_nat i -> entries' !! i = entries !! i.
Proof. apply proc_file_bounds. Qed.

Lemma proc_net_bounds_witness :
  exists entries' c,
    parse_proc_net_file (Some []) true (replicate 4 (mk_entry 0 0 0 0 0 0 0 0 0 0 0)) 1 2
    = Done (entries', c) /\ 0 <= c <= 2.
Proof.
  destruct (proc_net_bounds (Some []) true (replicate 4 (mk_entry 0 0 0 0 0 0 0 0 0 0 0)) 1 2)
    as (e & c & H & Hc & _).
  - exact I.
  - lia.
  - lia.
  - vm_compute. discriminate.
  - exists e, c. split; [exact H|exact Hc].
Defined.

(** ** The rows the kernel writes *)

(** The beginning of a row of /proc/net/tcp: [" %4d: "], then the rest. *)
Definition kernel_row (ws : bytes) (sl : Z) (rest : bytes) : bytes := ws ++ dec sl ++ 58 :: rest.

Lemma read_num_colon s : read_num 16 (skip_space (58 :: s)) = None.
Proof. by destruct s as [|a [|b s]]. Qed.

Lemma scan_kernel_row ws sl rest :
  Forall (fun c => isspace c = true) ws -> is_u64 sl ->
  sscanf (kernel_row ws sl rest) tcp_fmt = [].
Proof.
  intros Hws Hsl. unfold sscanf, kernel_row.
  assert (Hnn : no_nul (ws ++ dec sl)).
  { apply no_nul_app. split; [|apply dec_no_nul; mlia]. eapply Forall_impl; [|exact Hws].
    intros c Hc ->. done. }
  rewrite app_assoc, cstr_app by done. cbn [cstr]. ztest. rewrite <- app_assoc.
  unfold tcp_fmt. cbn [scan].
  rewrite skip_space_dec by (done || mlia).
  pose proof (read_num_dec [] sl (58 :: cstr rest)) as Hn. cbn [app] in Hn.
  rewrite Hn by (done || (by intros c [= <-])). clear Hn.
  by rewrite read_num_colon.
Qed.

Lemma scan_kernel_line ws sl rest :
  Forall (fun c => isspace c = true) ws -> is_u64 sl ->
  sscanf (kernel_row ws sl rest ++ [10]) tcp_fmt = [].
Proof.
  intros. unfold kernel_row. rewrite <- !app_assoc. cbn [app]. by apply scan_kernel_row.
Qed.

(** A file as the kernel writes it: a heading and rows, all of them shorter
    than the line buffer. *)
Definition line_ok (n : nat) (l : bytes) : Prop := Forall (fun c => c <> 10) l /\ (length l + 2 <= n)%nat.

Fixpoint file_of (lines : list bytes) : bytes :=
  match lines with [] => [] | l :: lines' => l ++ 10 :: file_of lines' end.

Definition is_kernel_row (l : bytes) : Prop :=
  exists ws sl rest, l = kernel_row ws sl rest /\
    Forall (fun c => isspace c = true) ws /\ is_u64 sl.

Lemma rows_of_kernel fuel rows :
  Forall (fun l => line_ok 1024 l /\ is_kernel_row l) rows ->
  Forall row_fits (rows_of fuel (file_of rows)).
Proof.
  intros Hr. revert fuel. induction Hr as [|l rows [[Hl1 Hl2] (ws & sl & rest & -> & Hws & Hsl)] _ IH];
    intros [|fuel]; cbn [rows_of file_of]; try constructor.
  rewrite fgets_line by done. constructor; [|apply IH]. left.
  rewrite scan_kernel_line by done. simpl. lia.
Qed.

Lemma proc_rows_kernel fuel rows is_tcp entries base count max :
  Forall (fun l => line_ok 1024 l /\ is_kernel_row l) rows ->
  proc_rows fuel (file_of rows) is_tcp entries base count max = Done (entries, count).
Proof.
  intros Hr. revert fuel. induction Hr as [|l rows [[Hl1 Hl2] (ws & sl & rest & -> & Hws & Hsl)] _ IH];
    intros [|fuel]; cbn [proc_rows file_of]; try done; [by case_match|].
  case_match; [|done]. rewrite fgets_line by done.
  unfold scan_row. rewrite scan_kernel_line by done. simpl. apply IH.
Qed.

(** A table as the kernel writes it, or a file that cannot be opened. *)
Definition kernel_table (file : option bytes) : Prop :=
  file = None \/
  exists heading rows, file = Some (file_of (heading :: rows)) /\ line_ok 1024 heading /\
    Forall (fun l => line_ok 1024 l /\ is_kernel_row l) rows.

Lemma kernel_table_empty file is_tcp entries base max :
  kernel_table file -> parse_proc_net_file file is_tcp entries base max = Done (entries, 0).
Proof.
  intros [->|(heading & rows & -> & [Hh1 Hh2] & Hr)]; [done|]. unfold parse_proc_net_file. cbn [file_of].
  rewrite fgets_line by done. by apply proc_rows_kernel.
Qed.

(** Every table the kernel writes meets the condition of the readers. *)
Lemma kernel_table_fits file : kernel_table file -> rows_fit file.
Proof.
  intros [->|(heading & rows & -> & [Hh1 Hh2] & Hr)]; [done|]. unfold rows_fit. cbn [file_of].
  rewrite fgets_line by done. by apply rows_of_kernel.
Qed.

(** C31: the format of [sscanf] has no colon after the row number, but the
    kernel writes one ([" %4d: %08X:%04X ..."]): no row of a /proc/net file is
    ever parsed, the readers return 0 and write nothing, so that the /proc/net
    fallback of the probe sees no connection. *)
Theorem proc_net_reads_nothing (heading : bytes) (rows : list bytes) (is_tcp : bool)
    (entries : list proc_net_entry) (base max : Z) :
  line_ok 1024 heading -> Forall (fun l => line_ok 1024 l /\ is_kernel_row l) rows ->
  parse_proc_net_file (Some (file_of (heading :: rows))) is_tcp entries base max
  = Done (entries, 0).
Proof. intros Hh Hr. apply kernel_table_empty. right. by exists heading, rows. Qed.

Definition row0 : bytes :=
  lit "   0: 0100007F:1F90 00000000:0000 0A 00000000:00000000 00:00000000 00000000  1000 0 12345 1".

Lemma proc_net_reads_nothing_witness :
  parse_proc_net_file (Some (file_of [lit "  sl  local_address rem_address   st"; row0])) true
    (replicate 8 (mk_entry 0 0 0 0 0 0 0 0 0 0 0)) 0 8
  = Done (replicate 8 (mk_entry 0 0 0 0 0 0 0 0 0 0 0), 0).
Proof.
  apply (proc_net_reads_nothing (lit "  sl  local_address rem_address   st") [row0]).
  - split; [apply (bool_decide_unpack _); vm_compute; exact I|vm_compute; lia].
  - constructor; [|constructor]. split; [split|].
    + apply (bool_decide_unpack _). vm_compute. exact I.
    + vm_compute. lia.
    + exists (lit "   "), 0, (drop 5 row0). split; [vm_compute; reflexivity|].
      split; [repeat constructor|mlia].
Defined.

(** Without the colon a row is read, with the queues exchanged (the kernel
    writes the transmit queue first) and the timer in place of the user. *)
Example colonless_row :
  parse_proc_net_file
    (Some (file_of [lit "heading"; lit "0 0100007F:1F90 0200007F:0050 01 0000000A:00000014 00:00000007 0 1000 0 12345"]))
    true [mk_entry 0 0 0 0 0 0 0 0 0 0 0] 0 1
  = Done ([mk_entry 0x0100007F 8080 0x0200007F 80 1 6 0 0x0A 0x14 7 12345], 1).
Proof. vm_compute. reflexivity. Qed.

(** With the reference count that follows the inode in the kernel's rows, a
    tenth value is assigned through an argument that was not passed. *)
Example tenth_conversion :
  parse_proc_net_file
    (Some (file_of [lit "heading"; lit "0 0100007F:1F90 0200007F:0050 01 0000000A:00000014 00:00000007 0 1000 0 12345 1"]))
    true [mk_entry 0 0 0 0 0 0 0 0 0 0 0] 0 1 = Undefined.
Proof. vm_compute. reflexivity. Qed.

(** ** Interface counters *)

(** A row of /proc/net/dev: name, received bytes and seven counters, sent
    bytes, the rest.  The kernel right-aligns the columns
    (["%6s: %7llu %7llu %4llu %4llu %4llu %5llu %10llu %9llu %8llu ..."]), so
    that each counter comes with the blanks before it. *)
Record dev_row : Type := mk_row {
  d_pad : bytes;
  d_name : bytes;
  d_gap : bytes;
  d_rx : Z;
  d_skip : list (bytes * Z);
  d_tx_gap : bytes;
  d_tx : Z;
  d_rest : bytes
}.

Definition blanks (ws : bytes) : Prop := Forall (fun c => isspace c = true) ws.

(** A column: at least one blank and a counter. *)
Definition column_ok (c : bytes * Z) : Prop := c.1 <> [] /\ blanks c.1 /\ is_u64 c.2.

Record dev_row_ok (r : dev_row) : Prop := mk_row_ok {
  do_pad : blanks (d_pad r);
  do_name : (1 <= length (d_name r) <= 63)%nat /\ no_nul (d_name r) /\
            Forall (fun c => c <> 58) (d_name r) /\
            (forall c, head (d_name r) = Some c -> isspace c = false);
  do_gap : blanks (d_gap r);
  do_rx : is_u64 (d_rx r);
  do_skip : length (d_skip r) = 7%nat /\ Forall column_ok (d_skip r);
  do_tx : column_ok (d_tx_gap r, d_tx r)
}.

Fixpoint spaced (ns : list Z) : bytes :=
  match ns with [] => [] | n :: ns' => 32 :: dec n ++ spaced ns' end.

Fixpoint columns (cs : list (bytes * Z)) : bytes :=
  match cs with [] => [] | (ws, n) :: cs' => ws ++ dec n ++ columns cs' end.

Definition enc_row (r : dev_row) : bytes :=
  d_pad r ++ d_name r ++ 58 :: d_gap r ++ dec (d_rx r) ++
  columns (d_skip r) ++ d_tx_gap r ++ dec (d_tx r) ++ 32 :: d_rest r.

Lemma read_notset_app w stop s r :
  Forall (fun c => c <> stop) s -> (length s <= w)%nat -> read_notset w stop (s ++ stop :: r) = (s, stop :: r).
Proof.
  intros Hs. revert w. induction Hs as [|c s Hc _ IH]; intros [|w] Hw; simpl in *; try lia; try done.
  - by rewrite Z.eqb_refl.
  - ztest. by rewrite IH by lia.
Qed.

Lemma scan_num assign fmt ws n r :
  Forall (fun c => isspace c = true) ws -> is_u64 n -> ends_num 10 r ->
  scan (White :: Num 10 assign :: fmt) (ws ++ dec n ++ r) =
  let '(vs, r') := scan fmt r in (if assign then VNum n :: vs else vs, r').
Proof.
  intros Hws Hn Hr. cbn [scan]. rewrite skip_space_dec by (done || mlia).
  pose proof (read_num_dec [] n r) as H. cbn [app] in H. by rewrite H by (done || constructor).
Qed.

(** The same after one blank. *)
Lemma scan_spaced assign fmt n r :
  is_u64 n -> ends_num 10 r ->
  scan (White :: Num 10 assign :: fmt) (32 :: dec n ++ r) =
  let '(vs, r') := scan fmt r in (if assign then VNum n :: vs else vs, r').
Proof. intros. apply (scan_num assign fmt [32]); [by repeat constructor|done|done]. Qed.

Lemma skip_space_app ws s :
  Forall (fun c => isspace c = true) ws -> (forall c, head s = Some c -> isspace c = false) ->
  skip_space (ws ++ s) = s.
Proof.
  intros Hws Hs. induction Hws as [|c ws Hc _ IH]; simpl; [|by rewrite Hc].
  destruct s as [|c s]; [done|]. simpl. by rewrite (Hs c eq_refl).
Qed.

(** White space ends a number. *)
Lemma digit_of_space base c : isspace c = true -> digit_of base c = None.
Proof.
  unfold isspace, digit_of, hex_digit. rewrite !orb_true_iff, andb_true_iff, !Z.leb_le, !Z.eqb_eq.
  intros H. by rewrite (proj2 (Z.leb_gt 48 c)), (proj2 (Z.leb_gt 97 c)), (proj2 (Z.leb_gt 65 c)) by lia.
Qed.

Lemma ends_num_blanks base ws r : ws <> [] -> blanks ws -> ends_num base (ws ++ r).
Proof.
  intros Hne Hws c. destruct Hws as [|x ws Hx _]; [done|]. intros [= <-]. by apply digit_of_space.
Qed.

Lemma ends_num_32 base r : ends_num base (32 :: r).
Proof. intros c [= <-]. done. Qed.

Lemma scan_name pad name fmt r :
  Forall (fun c => isspace c = true) pad -> (1 <= length name <= 63)%nat ->
  Forall (fun c => c <> 58) name -> (forall c, head name = Some c -> isspace c = false) ->
  scan (White :: NotSet 63 58 :: Lit 58 :: fmt) (pad ++ name ++ 58 :: r) =
  let '(vs, r') := scan fmt r in (VStr name :: vs, r').
Proof.
  intros Hp Hl Hn Hh.
  change (scan (White :: NotSet 63 58 :: Lit 58 :: fmt) (pad ++ name ++ 58 :: r))
    with (scan (NotSet 63 58 :: Lit 58 :: fmt) (skip_space (pad ++ name ++ 58 :: r))).
  destruct name as [|c name]; [simpl in *; lia|].
  rewrite skip_space_app by (done || (intros ? [= <-]; by apply Hh)).
  set (l := c :: name) in *. cbn [scan]. rewrite read_notset_app by (done || lia).
  subst l. by rewrite Z.eqb_refl.
Qed.

(** The seven skipped columns. *)
Lemma scan_columns cs fmt r :
  Forall column_ok cs -> ends_num 10 r ->
  (scan (concat (replicate (length cs) [White; Num 10 false]) ++ fmt) (columns cs ++ r)).1 =
  (scan fmt r).1.
Proof.
  intros Hcs Hr. induction Hcs as [|[ws n] cs (Hne & Hws & Hn) Hcs' IH]; [done|].
  cbn [length replicate concat columns app fst snd] in *. rewrite <- !app_assoc.
  rewrite scan_num; [|done|done|].
  - cbn [app]. rewrite <- IH. by destruct (scan _ _).
  - destruct Hcs' as [|[ws' n'] cs' (Hne' & Hws' & _) _]; [done|]. cbn [columns].
    rewrite <- !app_assoc. by apply ends_num_blanks.
Qed.

Lemma scan_dev_row r t :
  dev_row_ok r ->
  (scan dev_fmt (d_pad r ++ d_name r ++ 58 :: d_gap r ++ dec (d_rx r) ++
    columns (d_skip r) ++ d_tx_gap r ++ dec (d_tx r) ++ 32 :: t)).1
  = [VStr (d_name r); VNum (d_rx r); VNum (d_tx r)].
Proof.
  intros [Hp (Hn1 & Hn2 & Hn3 & Hn4) Hg Hrx [Hs1 Hs2] (Ht1 & Ht2 & Ht3)].
  destruct r as [pad name gap rx skip txg tx rest].
  cbn [d_pad d_name d_gap d_rx d_skip d_tx_gap d_tx d_rest fst snd] in *.
  unfold dev_fmt. rewrite scan_name by (done || lia).
  assert (ends_num 10 (txg ++ dec tx ++ 32 :: t)) as He by by apply ends_num_blanks.
  rewrite scan_num; [|done|done|].
  2:{ destruct Hs2 as [|[ws n] cs (Hne & Hws & _) _]; [done|]. cbn [columns].
      rewrite <- !app_assoc. by apply ends_num_blanks. }
  pose proof (scan_columns skip [White; Num 10 true] _ Hs2 He) as Hsc. rewrite Hs1 in Hsc.
  cbn [replicate concat app] in Hsc. destruct (scan _ (columns skip ++ _)) as [vs r'].
  cbn [fst] in *. subst vs. by rewrite scan_num by (done || apply ends_num_32).
Qed.

Lemma spaces_no_nul ws : Forall (fun c => isspace c = true) ws -> no_nul ws.
Proof. apply Forall_impl. by intros c Hc ->. Qed.

Lemma columns_no_nul cs : Forall column_ok cs -> no_nul (columns cs).
Proof.
  induction 1 as [|[ws n] cs (_ & Hws & Hn) _ IH]; [constructor|]. cbn [columns fst snd] in *.
  rewrite !no_nul_app. split; [by apply spaces_no_nul|]. split; [apply dec_no_nul; mlia|done].
Qed.

Lemma sscanf_dev_row r : dev_row_ok r -> sscanf (enc_row r ++ [10]) dev_fmt =
  [VStr (d_name r); VNum (d_rx r); VNum (d_tx r)].
Proof.
  intros Hr. rewrite <- (scan_dev_row r (cstr (d_rest r ++ [10])) Hr). unfold sscanf. do 2 f_equal.
  destruct Hr as [Hp (_ & Hn & _) Hg Hrx [_ Hs] (_ & Ht & Htx)]. unfold enc_row.
  cbn [fst snd] in *. repeat (rewrite <- !app_assoc; cbn [app]).
  rewrite cstr_app by by apply spaces_no_nul. f_equal. rewrite cstr_app by done. f_equal.
  cbn [cstr]. ztest. f_equal. rewrite cstr_app by by apply spaces_no_nul. f_equal.
  rewrite cstr_app by (apply dec_no_nul; mlia). f_equal.
  rewrite cstr_app by by apply columns_no_nul. f_equal.
  rewrite cstr_app by by apply spaces_no_nul. f_equal.
  rewrite cstr_app by (apply dec_no_nul; mlia). f_equal.
Qed.

Definition sum_by (f : dev_row -> Z) (rows : list dev_row) : Z := foldr (fun r a => f r + a) 0 rows.

Lemma dev_rows_spec rows fuel rx tx :
  Forall (fun r => dev_row_ok r /\ line_ok 512 (enc_row r)) rows -> (length rows <= fuel)%nat ->
  is_u64 rx -> is_u64 tx ->
  dev_rows fuel (file_of (map enc_row rows)) rx tx =
  (u64 (rx + sum_by d_rx rows), u64 (tx + sum_by d_tx rows)).
Proof.
  intros Hr. revert fuel rx tx. induction Hr as [|r rows [Hr [Hl1 Hl2]] _ IH]; intros fuel rx tx Hf Hrx Htx.
  - cbn [map file_of sum_by foldr]. rewrite !Z.add_0_r, !u64_small by done. by destruct fuel.
  - destruct fuel as [|fuel]; [simpl in Hf; lia|]. cbn [map file_of dev_rows length] in *.
    rewrite fgets_line, sscanf_dev_row by done.
    rewrite IH by (auto with stb; lia). unfold sum_by. cbn [foldr].
    by rewrite !u64_add_l, !Z.add_assoc.
Qed.

Lemma file_of_length lines : (length lines <= length (file_of lines))%nat.
Proof. induction lines; simpl; [lia|]. rewrite length_app. simpl. lia. Qed.

(** C32: on a /proc/net/dev file as the kernel writes it (two heading lines,
    then one row per interface: its name of at most 63 characters, a colon, and
    counters below 2^64 behind any number of blanks, as in the kernel's
    right-aligned columns; lines shorter than the 512 bytes of the buffer) the
    reader returns the sums of the received and of the sent bytes over all
    interfaces, modulo 2^64. *)
Theorem proc_net_dev_sums (h1 h2 : bytes) (rows : list dev_row) (rx0 tx0 : Z) :
  line_ok 512 h1 -> line_ok 512 h2 ->
  Forall (fun r => dev_row_ok r /\ line_ok 512 (enc_row r)) rows ->
  proc_net_read_dev (Some (file_of (h1 :: h2 :: map enc_row rows))) rx0 tx0 =
  (0, u64 (sum_by d_rx rows), u64 (sum_by d_tx rows)).
Proof.
  intros [Ha1 Ha2] [Hb1 Hb2] Hr. unfold proc_net_read_dev. cbn [file_of].
  rewrite !fgets_line by done. pose proof (file_of_length (map enc_row rows)) as Hl.
  rewrite length_map in Hl. by rewrite dev_rows_spec by (done || mlia).
Qed.

(** Two interfaces in the kernel's columns. *)
Definition demo_row (pad name : string) (rx : Z) (rxw txw : nat) (tx : Z) : dev_row :=
  mk_row (lit pad) (lit name) (replicate rxw 32) rx
    [(replicate 7 32, 1); (replicate 4 32, 0); (replicate 4 32, 0); (replicate 4 32, 0);
     (replicate 5 32, 0); (replicate 10 32, 0); (replicate 9 32, 0)]
    (replicate txw 32) tx (lit "      1    0    0    0     0       0          0").

Lemma proc_net_dev_sums_witness :
  proc_net_read_dev (Some (file_of (lit "Inter-|   Receive" :: lit " face |bytes    packets" ::
    map enc_row [demo_row "    " "lo" 100 5 6 100; demo_row "  " "eth0" 5000 4 6 700]))) 9 9
  = (0, 5100, 800).
Proof.
  apply (proc_net_dev_sums (lit "Inter-|   Receive") (lit " face |bytes    packets")
    [demo_row "    " "lo" 100 5 6 100; demo_row "  " "eth0" 5000 4 6 700] 9 9).
  - split; [apply (bool_decide_unpack _); vm_compute; exact I|vm_compute; lia].
  - split; [apply (bool_decide_unpack _); vm_compute; exact I|vm_compute; lia].
  - repeat constructor; simpl; try mlia; try done;
      try (apply (bool_decide_unpack _); vm_compute; exact I); try (vm_compute; lia);
      try (intros c [= <-]; reflexivity).
Defined.
