(* ===== verification/HostMetrics.v ===== *)
(** HostMetrics: src/host_metrics.c.

    The readers of /proc/stat, /proc/meminfo, the output of [df] and
    /proc/net/dev.  Files are lists of bytes, [None] when they cannot be
    opened; the use of a local that [fscanf] did not set is [Undefined]. *)

From stdpp Require Import base list strings numbers option.
From S2P Require Import Prelude CLib Common Double Serializer Scanf ProcNet.

(** ** Operations *)

(** ["cpu %llu %llu %llu %llu %llu %llu %llu"]. *)
Definition cpu_fmt : list directive :=
  lits "cpu" ++ [White; Num 10 true; White; Num 10 true; White; Num 10 true; White; Num 10 true;
                 White; Num 10 true; White; Num 10 true; White; Num 10 true].

(** [(double)n * 100.0 / (double)d]. *)
Definition percent (n d : Z) : double := d_div (d_mul (d_of_Z n) (d_of_Z 100)) (d_of_Z d).

Definition cpu_busy (user nice system idle iowait irq softirq : Z) : double :=
  let total := u64 (user + nice + system + idle + iowait + irq + softirq) in
  let busy := u64 (total - idle - iowait) in
  if 0 <? total then percent busy total else d_zero.

(** What follows the [fscanf]: fewer than four values give 0; with four to six
    [iowait], [irq] or [softirq] would be used without having been set. *)
Definition cpu_of (vs : list sval) : exec double :=
  if (length vs <? 4)%nat then Done d_zero else
  match vs with
  | [VNum user; VNum nice; VNum system; VNum idle; VNum iowait; VNum irq; VNum softirq] =>
      Done (cpu_busy (u64 user) (u64 nice) (u64 system) (u64 idle) (u64 iowait) (u64 irq)
                     (u64 softirq))
  | _ => Undefined
  end.

Definition read_cpu_percent (stat : option bytes) : exec double :=
  match stat with
  | None => Done d_zero
  | Some s =>
      let s := match fgets 256 s with Some (_, s) => s | None => s end in
      cpu_of (scan cpu_fmt s).1
  end.

Definition total_fmt : list directive := lits "MemTotal:" ++ [White; Num 10 true; White] ++ lits "kB".
Definition available_fmt : list directive :=
  lits "MemAvailable:" ++ [White; Num 10 true; White] ++ lits "kB".

(** The loop over /proc/meminfo: [(total, available)]. *)
Fixpoint mem_rows (fuel : nat) (s : bytes) (total available : Z) : Z * Z :=
  match fuel with
  | O => (total, available)
  | S fuel =>
      match fgets 256 s with
      | None => (total, available)
      | Some (line, s) =>
          match sscanf line total_fmt with
          | [VNum t] => mem_rows fuel s (u64 t) available
          | _ =>
              match sscanf line available_fmt with
              | [VNum a] => (total, u64 a)
              | _ => mem_rows fuel s total available
              end
          end
      end
  end.

Definition read_memory_percent (meminfo : option bytes) : double :=
  match meminfo with
  | None => d_zero
  | Some s =>
      let '(total, available) := mem_rows (length s) s 0 0 in
      if total =? 0 then d_zero else percent (u64 (total - available)) total
  end.

(** [df] is what [popen] returns of "df / | tail -1 | awk ...". *)
Definition read_disk_percent (df : option bytes) : double :=
  match df with
  | None => d_zero
  | Some s =>
      match fgets 32 s with
      | Some (buf, _) => default d_zero (strtod buf)
      | None => d_zero
      end
  end.

(** The system as [host_metrics_collect] sees it. *)
Record host : Type := mk_host {
  h_tv_sec : Z;
  h_tv_nsec : Z;
  h_stat : option bytes;
  h_meminfo : option bytes;
  h_df : option bytes;
  h_net_dev : option bytes
}.

Definition host_metrics_collect (h : host) (metric : host_metric_t)
    (probe_id : bytes) : exec host_metric_t :=
  cpu ← read_cpu_percent (h_stat h);
  let '(_, rx, tx) := proc_net_read_dev (h_net_dev h) (m_net_rx_bytes metric) (m_net_tx_bytes metric) in
  Done (mk_metric (u64 (u64 (h_tv_sec h * 1000000000) + h_tv_nsec h))
    (strncpy_field (m_probe_id metric) probe_id)
    cpu (read_memory_percent (h_meminfo h)) (read_disk_percent (h_df h)) rx tx 0 0).

(** A /proc/stat on which every local that is used was set: after the first
    line, [fscanf] reads fewer than four values or all seven. *)
Definition stat_fits (stat : option bytes) : Prop :=
  match stat with
  | None => True
  | Some s =>
      let s := match fgets 256 s with Some (_, s) => s | None => s end in
      (length (scan cpu_fmt s).1 < 4)%nat \/ length (scan cpu_fmt s).1 = 7%nat
  end.

(** The conversions of a format of numbers are numbers. *)
Definition is_num (v : sval) : Prop := match v with VNum _ => True | VStr _ => False end.

Lemma scan_nums fmt s :
  Forall (fun d => match d with NotSet _ _ => False | _ => True end) fmt ->
  Forall is_num (scan fmt s).1.
Proof.
  intros Hf. revert s. induction Hf as [|d fmt Hd _ IH]; intros s; [constructor|].
  destruct d as [|c|base assign|]; [apply IH| | |done]; cbn [scan].
  - destruct s as [|x s]; [constructor|]. destruct (x =? c); [apply IH|constructor].
  - destruct (read_num base s) as [[v r]|]; [|constructor]. specialize (IH r).
    destruct (scan fmt r) as [vs r']. destruct assign; [by constructor|done].
Qed.

Lemma cpu_of_Done vs :
  Forall is_num vs -> (length vs < 4)%nat \/ length vs = 7%nat -> defined (cpu_of vs).
Proof.
  intros Hn Hl. unfold cpu_of. destruct Hl as [Hl|Hl].
  - rewrite (proj2 (Nat.ltb_lt _ _)) by lia. eauto with stb.
  - rewrite (proj2 (Nat.ltb_ge _ _)) by lia.
    do 7 (destruct Hn as [|[?|?] vs ? Hn]; [discriminate Hl| |done]).
    destruct Hn; [eauto with stb|discriminate Hl].
Qed.

Lemma read_cpu_defined stat : stat_fits stat -> defined (read_cpu_percent stat).
Proof.
  unfold stat_fits, read_cpu_percent. destruct stat as [s|]; [|eauto with stb].
  intros H. apply cpu_of_Done; [|done].
  apply scan_nums. unfold cpu_fmt, lits. apply Forall_app. split; [|by repeat constructor].
  apply Forall_map, Forall_true. done.
Qed.

Lemma host_metrics_defined h metric probe_id :
  stat_fits (h_stat h) -> exists m, host_metrics_collect h metric probe_id = Done m.
Proof.
  intros H. unfold host_metrics_collect. destruct (read_cpu_defined _ H) as [c ->].
  rewrite bind_Done. destruct (proc_net_read_dev _ _ _) as [[? ?] ?]. eauto.
Qed.

(** ** Processor time *)

(** The text [cpu0 u n s i w q t ...] that follows the first line. *)
Definition cpu_row (k u n s i w q t : Z) (rest : bytes) : bytes :=
  lit "cpu" ++ dec k ++ spaced [u; n; s; i; w; q] ++ 32 :: dec t ++ 32 :: rest.

Lemma scan_cpu_row k u n s i w q t rest :
  Forall is_u64 [k; u; n; s; i; w; q; t] ->
  (scan cpu_fmt (cpu_row k u n s i w q t rest)).1 =
  [VNum k; VNum u; VNum n; VNum s; VNum i; VNum w; VNum q].
Proof.
  intros H. repeat match goal with H : Forall _ (_ :: _) |- _ => inversion H; clear H; subst end.
  unfold cpu_fmt, cpu_row.
  change (scan (lits "cpu" ++ ?f) (lit "cpu" ++ ?x)) with (scan f x).
  cbn [spaced app]. repeat (rewrite <- !app_assoc; cbn [app]).
  pose proof (scan_num true [White; Num 10 true; White; Num 10 true; White; Num 10 true;
    White; Num 10 true; White; Num 10 true; White; Num 10 true] [] k) as Hk. cbn [app] in Hk.
  rewrite Hk by (done || apply ends_num_32 || constructor). clear Hk.
  do 6 rewrite scan_spaced by (done || apply ends_num_32). done.
Qed.

(** The processor load is computed from shifted columns.  The first line of
    /proc/stat (the totals) is consumed by [fgets]; the scan then meets the row
    of the first processor, whose number it takes for the user time: with that
    row [cpu0 user nice system idle iowait irq ...] the system time is counted
    as idle, the idle time as waiting, and waiting and interrupts as work. *)
Lemma cpu_percent_shifted (l1 rest : bytes) (u n s i w q t : Z) :
  line_ok 256 l1 -> Forall is_u64 [u; n; s; i; w; q; t] ->
  read_cpu_percent (Some (l1 ++ 10 :: cpu_row 0 u n s i w q t rest)) =
  Done (cpu_busy 0 u n s i w q).
Proof.
  intros [H1 H2] Hn. unfold read_cpu_percent. rewrite fgets_line by done.
  rewrite scan_cpu_row by (constructor; [mlia|done]). unfold cpu_of. cbn [length Nat.ltb Nat.leb].
  repeat match goal with H : Forall _ (_ :: _) |- _ => inversion H; clear H; subst end.
  cbn. by rewrite !u64_small by (done || mlia).
Qed.

(** The rows the kernel writes set all seven. *)
Lemma kernel_stat_fits (l1 rest : bytes) (k u n s i w q t : Z) :
  line_ok 256 l1 -> Forall is_u64 [k; u; n; s; i; w; q; t] ->
  stat_fits (Some (l1 ++ 10 :: cpu_row k u n s i w q t rest)).
Proof.
  intros [H1 H2] Hn. unfold stat_fits. rewrite fgets_line, scan_cpu_row by done. by right.
Qed.

(** A processor that spent 10 of 110 units in user mode and 100 in the kernel is
    reported as 9.1 % busy. *)
Lemma cpu_percent_shifted_witness :
  exists d, read_cpu_percent (Some (lit "cpu  20 0 200 0 0 0 0" ++ 10 ::
          cpu_row 0 10 0 100 0 0 0 0 (lit "0 0"))) = Done d /\ fmt1 d = lit "9.1".
Proof.
  rewrite (cpu_percent_shifted (lit "cpu  20 0 200 0 0 0 0") (lit "0 0") 10 0 100 0 0 0 0).
  - eexists. split; [reflexivity|]. vm_compute. reflexivity.
  - split; [apply (bool_decide_unpack _); vm_compute; exact I|vm_compute; lia].
  - repeat constructor; mlia.
Defined.

(** With four to six values the load is computed from locals that were never
    set. *)
Example cpu_uninitialised :
  read_cpu_percent (Some (lit "cpu  1 2 3 4" ++ 10 :: lit "cpu0 1 2 3 4")) = Undefined.
Proof. vm_compute. reflexivity. Qed.

(** ** Memory *)

(** A row of /proc/meminfo that is neither of the two. *)
Definition other_row (l : bytes) : Prop :=
  line_ok 256 l /\ sscanf (l ++ [10]) total_fmt = [] /\ sscanf (l ++ [10]) available_fmt = [].

Definition mem_row (label : string) (pad : bytes) (n : Z) (rest : bytes) : bytes :=
  lit label ++ pad ++ dec n ++ 32 :: rest.

Lemma sscanf_mem_row label pad n rest :
  Forall (fun c => isspace c = true) pad -> is_u64 n -> no_nul (lit label) ->
  sscanf (mem_row label pad n rest) (lits label ++ [White; Num 10 true; White] ++ lits "kB") = [VNum n].
Proof.
  intros Hp Hn Hl. unfold sscanf, mem_row, lits.
  rewrite cstr_app by done. rewrite cstr_app by by apply spaces_no_nul.
  rewrite cstr_app by (apply dec_no_nul; mlia). cbn [cstr]. ztest.
  assert (Hlit : forall l f x, scan (map Lit l ++ f) (l ++ x) = scan f x).
  { intros l f x. induction l as [|c l IH]; [done|]. cbn [map app scan]. by rewrite Z.eqb_refl. }
  rewrite Hlit. cbn [app]. rewrite scan_num by (done || apply ends_num_32).
  destruct (scan _ _) as [vs r] eqn:E. simpl. f_equal.
  assert (Hnil : forall l s, (scan (map Lit l) s).1 = []).
  { induction l as [|c l IH]; intros x; [done|]. cbn [map scan]. destruct x as [|d x]; [done|].
    case_match; [apply IH|done]. }
  cbn [scan] in E. by rewrite <- (Hnil (lit "kB") (skip_space (32 :: cstr rest))), E.
Qed.

Lemma mem_rows_other rows fuel tail total available :
  Forall other_row rows -> (length rows < fuel)%nat ->
  mem_rows fuel (file_of rows ++ tail) total available =
  mem_rows (fuel - length rows) tail total available.
Proof.
  intros Hr. revert fuel. induction Hr as [|l rows ([Hl1 Hl2] & Ht & Ha) _ IH]; intros fuel Hf.
  - simpl. f_equal. lia.
  - destruct fuel as [|fuel]; [simpl in Hf; lia|]. cbn [file_of mem_rows length] in *.
    rewrite <- app_assoc. cbn [app]. rewrite fgets_line, Ht, Ha by done. apply IH. lia.
Qed.

Lemma sscanf_mem_line label pad n rest :
  Forall (fun c => isspace c = true) pad -> is_u64 n -> no_nul (lit label) ->
  sscanf (mem_row label pad n rest ++ [10]) (lits label ++ [White; Num 10 true; White] ++ lits "kB")
  = [VNum n].
Proof.
  intros. unfold mem_row. repeat (rewrite <- !app_assoc; cbn [app]).
  by apply (sscanf_mem_row label pad n (rest ++ [10])).
Qed.

(** On a /proc/meminfo that lists MemTotal before MemAvailable, among any
    other rows, the memory load is the share of the difference, whatever
    follows. *)
Lemma memory_percent_spec (pre mid : list bytes) (pad1 pad2 rest1 rest2 tail : bytes) (T A : Z) :
  Forall other_row pre -> Forall other_row mid ->
  Forall (fun c => isspace c = true) pad1 -> Forall (fun c => isspace c = true) pad2 ->
  0 < T < 2 ^ 64 -> 0 <= A <= T ->
  line_ok 256 (mem_row "MemTotal:" pad1 T rest1) ->
  line_ok 256 (mem_row "MemAvailable:" pad2 A rest2) ->
  read_memory_percent (Some (file_of (pre ++ [mem_row "MemTotal:" pad1 T rest1] ++ mid ++
                                      [mem_row "MemAvailable:" pad2 A rest2]) ++ tail))
  = percent (T - A) T.
Proof.
  intros Hpre Hmid Hp1 Hp2 HT HA [Ht1 Ht2] [Ha1 Ha2]. unfold read_memory_percent.
  assert (Happ : forall l k, file_of (l ++ k) = file_of l ++ file_of k).
  { induction l as [|x l IH]; intros k; [done|]. cbn [app file_of]. by rewrite IH, <- app_assoc. }
  rewrite !Happ. cbn [file_of]. repeat (rewrite <- !app_assoc; cbn [app]).
  set (fuel := length _). assert (Hfuel : (length pre + length mid + 4 <= fuel)%nat).
  { subst fuel. pose proof (file_of_length pre). pose proof (file_of_length mid).
    rewrite !length_app. cbn [length]. rewrite !length_app. cbn [length].
    assert (9 <= length (mem_row "MemTotal:" pad1 T rest1))%nat; [|lia].
    unfold mem_row. rewrite length_app. change (length (lit "MemTotal:")) with 9%nat. lia. }
  clearbody fuel. rewrite mem_rows_other by (done || lia).
  destruct (fuel - length pre)%nat as [|f] eqn:E; [lia|]. cbn [mem_rows].
  rewrite fgets_line by done. unfold total_fmt.
  rewrite sscanf_mem_line by (done || mlia || by apply no_nul_dec).
  rewrite mem_rows_other by (done || lia).
  destruct (f - length mid)%nat as [|g] eqn:E'; [lia|]. cbn [mem_rows].
  rewrite fgets_line by done. unfold available_fmt.
  assert (Hno : sscanf (mem_row "MemAvailable:" pad2 A rest2 ++ [10]) total_fmt = []) by reflexivity.
  rewrite Hno, sscanf_mem_line by (done || mlia || by apply no_nul_dec).
  cbv beta iota. rewrite (u64_small T), (u64_small A), u64_small by mlia. by ztest.
Qed.

Lemma memory_percent_spec_witness :
  fmt1 (read_memory_percent (Some (file_of ([] ++ [mem_row "MemTotal:" (lit "  ") 1000 (lit "kB")] ++
    [lit "MemFree: 100 kB"] ++ [mem_row "MemAvailable:" (lit " ") 250 (lit "kB")]) ++ lit "Buffers:")))
  = lit "75.0".
Proof.
  rewrite (memory_percent_spec [] [lit "MemFree: 100 kB"] (lit "  ") (lit " ") (lit "kB") (lit "kB")
    (lit "Buffers:") 1000 250).
  - vm_compute. reflexivity.
  - constructor.
  - constructor; [|constructor]. split; [|split; vm_compute; reflexivity].
    split; [apply (bool_decide_unpack _); vm_compute; exact I|vm_compute; lia].
  - repeat constructor.
  - repeat constructor.
  - lia.
  - lia.
  - split; [apply (bool_decide_unpack _); vm_compute; exact I|vm_compute; lia].
  - split; [apply (bool_decide_unpack _); vm_compute; exact I|vm_compute; lia].
Defined.
