(* ===== verification/RuntimeConfig.v ===== *)
(** RuntimeConfig: src/runtime_config.c with the defaults of src/config.h.

    The configuration is a local of [main] that is not initialised: [cfg] is
    the record of whatever its memory holds.  An environment variable is the
    bytes of its value. *)

From stdpp Require Import base list strings numbers option.
From S2P Require Import Prelude CLib.

Definition RELAY_SERVER_IP : bytes := lit "10.115.69.95".
Definition RELAY_SERVER_PORT : Z := 9104.
Definition PROBE_ID : bytes := lit "stb-tyson-01".
Definition LOG_LEVEL : Z := 2.

Record stb_config : Type := mk_config {
  c_relay_server_ip : bytes;
  c_relay_server_port : Z;
  c_probe_id : bytes;
  c_log_level : Z
}.

Record environment : Type := mk_env {
  STB_RELAY_IP : option bytes;
  STB_RELAY_PORT : option bytes;
  STB_PROBE_ID : option bytes;
  STB_LOG_LEVEL : option bytes
}.

(** [v && v[0]]. *)
Definition set_var (v : option bytes) : option bytes :=
  match v with Some s => match cstr s with [] => None | _ => Some s end | None => None end.

Definition config_load_from_env (env : environment) (cfg : stb_config) : stb_config :=
  let ip := strncpy_field (c_relay_server_ip cfg) RELAY_SERVER_IP in
  let id := strncpy_field (c_probe_id cfg) PROBE_ID in
  let ip := match set_var (STB_RELAY_IP env) with Some v => strncpy_field ip v | None => ip end in
  let port := match set_var (STB_RELAY_PORT env) with Some v => atoi v | None => RELAY_SERVER_PORT end in
  let id := match set_var (STB_PROBE_ID env) with Some v => strncpy_field id v | None => id end in
  let log := match set_var (STB_LOG_LEVEL env) with Some v => atoi v | None => LOG_LEVEL end in
  mk_config ip port id log.

(** Reading a [char] array as a string: undefined when no byte of it is NUL. *)
Definition read_str (b : bytes) : exec bytes :=
  if existsb (fun c => c =? 0) b then Done (cstr b) else Undefined.

(** ** The strings of the configuration *)

Definition config_sized (cfg : stb_config) : Prop :=
  length (c_relay_server_ip cfg) = 64%nat /\ length (c_probe_id cfg) = 64%nat.

(** The value that wins, by the rule "environment over default". *)
Definition effective (v : option bytes) (default : bytes) : bytes :=
  match set_var v with Some s => cstr s | None => cstr default end.

Lemma existsb_nul b : existsb (fun c => c =? 0) b = true <-> (length (cstr b) < length b)%nat.
Proof.
  induction b as [|c b IH]; simpl; [split; [done|lia]|]. zcase; simpl; [split; [lia|done]|].
  rewrite IH. lia.
Qed.

(** A field of 64 bytes after [strncpy(f, s, 63)]: byte 63 is not touched. *)
Lemma strncpy_63_str f s :
  length f = 64%nat ->
  read_str (strncpy_field f s) =
  if (length (cstr s) <? 63)%nat then Done (cstr s)
  else if nth 63 f 1 =? 0 then Done (take 63 (cstr s)) else Undefined.
Proof.
  intros Hf. unfold read_str, strncpy_field. rewrite strncpy_buf_eq by lia. rewrite Hf.
  change (64 - 1)%nat with 63%nat. destruct (Nat.ltb_spec (length (cstr s)) 63).
  - assert (Hc : cstr (take 63 (cstr s) ++ replicate (63 - length (cstr s)) 0 ++ drop 63 f) = cstr s).
    { rewrite take_ge by lia. destruct (63 - length (cstr s))%nat eqn:E; [lia|].
      apply cstr_app_nul. auto with stb. }
    rewrite Hc. rewrite (proj2 (existsb_nul _)); [done|]. rewrite Hc, !length_app.
    rewrite length_take, length_replicate, length_drop. lia.
  - replace (63 - length (cstr s))%nat with 0%nat by lia. cbn [replicate app].
    destruct (lookup_lt_is_Some_2 f 63) as [x Hx]; [lia|].
    rewrite (drop_S _ _ _ Hx), drop_ge by lia.
    rewrite (nth_lookup_Some _ _ _ _ Hx). rewrite cstr_app by auto with stb.
    rewrite existsb_app. destruct (Z.eqb_spec x 0) as [->|Hne].
    + simpl. by rewrite orb_true_r, app_nil_r.
    + simpl. ztest. rewrite !orb_false_r.
      assert (Hn : existsb (fun c => c =? 0) (take 63 (cstr s)) = false); [|by rewrite Hn].
      apply not_true_is_false. rewrite existsb_nul, cstr_no_nul by auto with stb. lia.
Qed.

(** The configuration follows the environment: each variable that is set
    and not empty replaces the default, and the string fields hold it whatever
    the uninitialised memory held, as long as it has at most 62 characters; a
    value of 63 or more is read as its first 63 only when the last, never
    written byte of the field happened to be 0, and is otherwise read past the
    end of the field. *)
Lemma config_load_spec (env : environment) (cfg : stb_config) :
  config_sized cfg ->
  let cfg' := config_load_from_env env cfg in
  let str v d b := if (length (effective v d) <? 63)%nat then Done (effective v d)
                   else if nth 63 b 1 =? 0 then Done (take 63 (effective v d)) else Undefined in
  read_str (c_relay_server_ip cfg') = str (STB_RELAY_IP env) RELAY_SERVER_IP (c_relay_server_ip cfg) /\
  read_str (c_probe_id cfg') = str (STB_PROBE_ID env) PROBE_ID (c_probe_id cfg) /\
  - 2 ^ 31 <= c_relay_server_port cfg' < 2 ^ 31 /\ - 2 ^ 31 <= c_log_level cfg' < 2 ^ 31.
Proof.
  intros [H1 H2].
  assert (Hfield : forall v d b, length b = 64%nat ->
    read_str (match set_var v with
              | Some s => strncpy_field (strncpy_field b d) s
              | None => strncpy_field b d end) =
    if (length (effective v d) <? 63)%nat then Done (effective v d)
    else if nth 63 b 1 =? 0 then Done (take 63 (effective v d)) else Undefined).
  { intros v d b Hb. unfold effective. destruct (set_var v) as [s|]; [|by apply strncpy_63_str].
    assert (Hl : length (strncpy_field b d) = 64%nat)
      by (unfold strncpy_field; rewrite length_strncpy; lia).
    rewrite strncpy_63_str by done.
    assert (Hn : nth 63 (strncpy_field b d) 1 = nth 63 b 1); [|by rewrite Hn].
    unfold strncpy_field. rewrite strncpy_buf_eq by lia. rewrite Hb. change (64 - 1)%nat with 63%nat.
    rewrite app_assoc, app_nth2; rewrite length_app, length_take, length_replicate; [|lia].
    rewrite <- (take_drop 63 b) at 2. rewrite app_nth2; rewrite length_take; [|lia].
    f_equal. lia. }
  cbv zeta. split; [by apply Hfield|]. split; [by apply Hfield|]. simpl.
  pose proof atoi_range as Ha. unfold RELAY_SERVER_PORT, LOG_LEVEL.
  split; case_match; try apply Ha; lia.
Qed.

Lemma config_load_spec_witness :
  let env := mk_env (Some (lit "192.168.1.7")) (Some (lit "8080")) None (Some []) in
  let junk := mk_config (replicate 64 255) 0 (replicate 64 255) 0 in
  read_str (c_relay_server_ip (config_load_from_env env junk)) = Done (lit "192.168.1.7") /\
  read_str (c_probe_id (config_load_from_env env junk)) = Done (lit "stb-tyson-01").
Proof.
  intros env junk. destruct (config_load_spec env junk) as (H1 & H2 & _).
  - split; reflexivity.
  - split; [exact H1|exact H2].
Defined.

Example config_long_value_unterminated :
  read_str (c_probe_id (config_load_from_env (mk_env None None (Some (replicate 70 65)) None)
    (mk_config (replicate 64 255) 0 (replicate 64 255) 0))) = Undefined.
Proof. vm_compute. reflexivity. Qed.
