(* ===== verification/Kernel.v ===== *)
(** Kernel: the system calls the probe makes.

    A [world] holds what the process shares with the kernel: the open
    descriptors, the mapped regions, the bytes that [send] has accepted (with
    their descriptor), [errno], and the script of the answers the kernel will
    give: each system call takes the next one.  A component whose own state has
    type [S] is written in the monad [KM S], a state monad on [S] and the world
    whose failure, [None], means that the script is exhausted: the program waits
    in a system call.  [triple] is the program logic the components are verified
    in. *)

From stdpp Require Import base list gmap strings numbers option.
From S2P Require Import Prelude.

(** Values of <errno.h> on Linux; EWOULDBLOCK is EAGAIN. *)
Definition EINTR : Z := 4.
Definition EAGAIN : Z := 11.
Definition EINVAL : Z := 22.
Definition EPIPE : Z := 32.
Definition ENOSYS : Z := 38.
Definition EMSGSIZE : Z := 90.
Definition ECONNRESET : Z := 104.
Definition ENOTCONN : Z := 107.
Definition ETIMEDOUT : Z := 110.
Definition EINPROGRESS : Z := 115.

(** An answer of the kernel: the value returned and the value stored ([errno],
    the socket error of [getsockopt], the nanoseconds of [clock_gettime]). *)
Record answer : Type := Ans { a_ret : Z; a_val : Z }.

Record world : Type := mk_world {
  w_fds : gset Z;
  w_maps : gset Z;
  w_wire : list (Z * bytes);
  w_errno : Z;
  w_script : list answer
}.

Definition with_fds (fds : gset Z) (w : world) : world :=
  mk_world fds (w_maps w) (w_wire w) (w_errno w) (w_script w).
Definition with_maps (maps : gset Z) (w : world) : world :=
  mk_world (w_fds w) maps (w_wire w) (w_errno w) (w_script w).
Definition with_wire (wire : list (Z * bytes)) (w : world) : world :=
  mk_world (w_fds w) (w_maps w) wire (w_errno w) (w_script w).
Definition with_script (e : Z) (s : list answer) (w : world) : world :=
  mk_world (w_fds w) (w_maps w) (w_wire w) e s.

Definition KM (S A : Type) : Type := S * world -> option (A * (S * world)).

#[global] Instance KM_ret {S} : MRet (KM S) := fun A a st => Some (a, st).
#[global] Instance KM_bind {S} : MBind (KM S) := fun A B f m st =>
  match m st with Some (a, st') => f a st' | None => None end.

Lemma KM_run {S A B} (m : KM S A) (f : A -> KM S B) st :
  (m ≫= f) st = match m st with Some (x, st') => f x st' | None => None end.
Proof. done. Qed.

(** The lowest descriptor that is not open. *)
Fixpoint lowest_free (fuel : nat) (n : Z) (fds : gset Z) : Z :=
  match fuel with
  | O => n
  | S fuel => if bool_decide (n ∈ fds) then lowest_free fuel (n + 1) fds else n
  end.

Definition free_fd (fds : gset Z) : Z := lowest_free (size fds) 0 fds.

(** ** System calls *)

Section syscalls.
Context {S : Type}.

Definition waits {A} : KM S A := fun _ => None.
Definition get : KM S S := fun st => Some (st.1, st).
Definition update (f : S -> S) : KM S unit := fun st => Some (tt, (f st.1, st.2)).
Definition errno : KM S Z := fun st => Some (w_errno st.2, st).
Definition set_errno (e : Z) : KM S unit := fun '(c, w) =>
  Some (tt, (c, with_script e (w_script w) w)).

(** The next answer; a failure sets [errno]. *)
Definition syscall : KM S answer := fun '(c, w) =>
  match w_script w with
  | [] => None
  | a :: s => Some (a, (c, with_script (if a_ret a <? 0 then a_val a else w_errno w) s w))
  end.

(** A call that returns a new descriptor. *)
Definition sys_newfd : KM S Z :=
  a ← syscall;
  if a_ret a <? 0 then mret (-1)
  else fun '(c, w) =>
    let fd := free_fd (w_fds w) in
    Some (fd, (c, with_fds ({[fd]} ∪ w_fds w) w)).

Definition sys_close (fd : Z) : KM S unit := fun '(c, w) =>
  Some (tt, (c, with_fds (w_fds w ∖ {[fd]}) w)).

(** [mmap] returns an address that is not NULL and not mapped yet, or fails. *)
Definition sys_mmap : KM S (option Z) :=
  a ← syscall;
  if a_ret a <? 0 then mret None
  else fun '(c, w) =>
    let addr := free_fd ({[0]} ∪ w_maps w) in
    Some (Some addr, (c, with_maps ({[addr]} ∪ w_maps w) w)).

Definition sys_munmap (addr : Z) : KM S unit := fun '(c, w) =>
  Some (tt, (c, with_maps (w_maps w ∖ {[addr]}) w)).

(** [send] accepts a prefix of what it is given. *)
Definition sys_send (fd : Z) (data : bytes) : KM S Z :=
  a ← syscall;
  if a_ret a <? 0 then mret (-1)
  else fun '(c, w) =>
    let n := Nat.min (Z.to_nat (a_ret a)) (length data) in
    Some (Z.of_nat n, (c, with_wire (w_wire w ++ [(fd, take n data)]) w)).

(** [fcntl], [connect], [select], [recv], [ioctl], [bind], [setsockopt],
    [sysconf]: only the result matters. *)
Definition sys_ret : KM S Z := a ← syscall; mret (a_ret a).
(** [getsockopt(..., SO_ERROR, ...)]: the result and the error of the socket. *)
Definition sys_sockerr : KM S (Z * Z) := a ← syscall; mret (a_ret a, a_val a).
(** [clock_gettime]: seconds and nanoseconds. *)
Definition sys_clock : KM S (Z * Z) := a ← syscall; mret (a_ret a, a_val a).
End syscalls.

(** ** Program logic

    [triple P m Q]: from a state that satisfies [P], whatever the kernel
    answers, [m] returns in a state that satisfies [Q] unless it waits. *)

Definition triple {S A} (P : S * world -> Prop) (m : KM S A) (Q : A -> S * world -> Prop) : Prop :=
  forall st, P st -> match m st with Some (a, st') => Q a st' | None => True end.

Section triple.
Context {S A B : Type}.
Implicit Types (P : S * world -> Prop) (st : S * world).

Lemma triple_ret P (a : A) Q : (forall st, P st -> Q a st) -> triple P (mret a) Q.
Proof. intros H st HP. by apply H. Qed.

Lemma triple_bind P (m : KM S A) (f : A -> KM S B) R Q :
  triple P m R -> (forall a, triple (R a) (f a) Q) -> triple P (m ≫= f) Q.
Proof.
  intros Hm Hf st HP. specialize (Hm st HP). unfold mbind, KM_bind.
  destruct (m st) as [[a st']|]; [|done]. by apply Hf.
Qed.

Lemma triple_conseq P P' (m : KM S A) Q Q' :
  triple P' m Q' -> (forall st, P st -> P' st) -> (forall a st, Q' a st -> Q a st) -> triple P m Q.
Proof.
  intros Hm HP HQ st H. specialize (Hm st (HP _ H)). destruct (m st) as [[a st']|]; [|done]. by apply HQ.
Qed.

Lemma triple_pre P P' (m : KM S A) Q :
  triple P' m Q -> (forall st, P st -> P' st) -> triple P m Q.
Proof. intros Hm HP st H. exact (Hm st (HP _ H)). Qed.

Lemma triple_client P (f : S -> KM S A) Q :
  (forall c, triple (fun st => P st /\ st.1 = c) (f c) Q) -> triple P (get ≫= f) Q.
Proof. intros H st HP. unfold mbind, KM_bind, get. by apply (H st.1). Qed.

Lemma triple_client_is P c (f : S -> KM S A) Q :
  (forall st, P st -> st.1 = c) -> triple P (f c) Q -> triple P (get ≫= f) Q.
Proof. intros Hc H st HP. unfold mbind, KM_bind, get. rewrite (Hc st HP). by apply H. Qed.

Lemma triple_update P g (f : unit -> KM S A) Q :
  triple (fun st => exists c, P (c, st.2) /\ st.1 = g c) (f tt) Q -> triple P (update g ≫= f) Q.
Proof. intros H [c w] HP. unfold mbind, KM_bind, update. apply H. by exists c. Qed.

Lemma triple_waits P (Q : A -> S * world -> Prop) : triple P waits Q.
Proof. by intros st _. Qed.

Lemma triple_if P (b : bool) (m1 m2 : KM S A) Q :
  (b = true -> triple P m1 Q) -> (b = false -> triple P m2 Q) -> triple P (if b then m1 else m2) Q.
Proof. destruct b; auto. Qed.

(** A run that returns ends in a state of the postcondition. *)
Lemma triple_run P (m : KM S A) Q st a st' :
  triple P m Q -> P st -> m st = Some (a, st') -> Q a st'.
Proof. intros Hm HP E. specialize (Hm st HP). by rewrite E in Hm. Qed.

(** A property of the component and the resources only: system calls whose
    answer is all that matters keep it. *)
Definition stable P : Prop := forall c w e s, P (c, w) -> P (c, with_script e s w).

(** ... and a property of what is not the wire. *)
Definition any_wire P : Prop := forall c w wire, P (c, w) -> P (c, with_wire wire w).

Lemma and_client_stable P c0 : stable P -> stable (fun st => P st /\ st.1 = c0).
Proof. intros HP c w e s [H1 H2]. split; [by apply HP|done]. Qed.

Lemma triple_syscall P : stable P -> triple P syscall (fun _ => P).
Proof. intros HP [c w] H. unfold syscall. destruct (w_script w); [done|]. by apply HP. Qed.

Lemma triple_sys_ret P : stable P -> triple P sys_ret (fun _ => P).
Proof.
  intros HP st H. pose proof (triple_syscall P HP st H) as Hs. unfold sys_ret, mbind, KM_bind.
  by destruct (syscall st) as [[a st']|].
Qed.

Lemma triple_sys_pair P : stable P -> triple P sys_sockerr (fun _ => P).
Proof.
  intros HP st H. pose proof (triple_syscall P HP st H) as Hs. unfold sys_sockerr, mbind, KM_bind.
  by destruct (syscall st) as [[a st']|].
Qed.

Lemma triple_errno P : triple P errno (fun _ => P).
Proof. by intros st H. Qed.

Lemma triple_set_errno P e : stable P -> triple P (set_errno e) (fun _ => P).
Proof. intros HP [c w] H. by apply HP. Qed.

Lemma triple_sys_send P fd data : stable P -> any_wire P -> triple P (sys_send fd data) (fun _ => P).
Proof.
  intros HP HW st H. pose proof (triple_syscall P HP st H) as Hs. unfold sys_send, mbind, KM_bind.
  destruct (syscall st) as [[a [c w]]|]; [|done]. destruct (a_ret a <? 0); [done|]. by apply HW.
Qed.
End triple.

(** ** Descriptors *)

Lemma lowest_free_taken fuel n (fds : gset Z) :
  lowest_free fuel n fds ∈ fds -> forall i, (i <= fuel)%nat -> n + Z.of_nat i ∈ fds.
Proof.
  revert n. induction fuel as [|fuel IH]; intros n H i Hi; cbn [lowest_free] in H.
  - replace i with 0%nat by lia. by rewrite Z.add_0_r.
  - case_bool_decide as Hn; [|done]. destruct i as [|i]; [by rewrite Z.add_0_r|].
    replace (n + Z.of_nat (S i)) with (n + 1 + Z.of_nat i) by lia. apply IH; [done|lia].
Qed.

Lemma lowest_free_ge fuel n fds : n <= lowest_free fuel n fds.
Proof. revert n. induction fuel as [|fuel IH]; intros n; simpl; [lia|]. case_bool_decide; [|lia]. specialize (IH (n + 1)). lia. Qed.

Lemma free_fd_fresh fds : free_fd fds ∉ fds.
Proof.
  intros H. unfold free_fd in H. pose proof (lowest_free_taken _ _ _ H) as Hall.
  assert (Hsub : (list_to_set (seqZ 0 (Z.of_nat (S (size fds)))) : gset Z) ⊆ fds).
  { intros x Hx. apply elem_of_list_to_set, elem_of_seqZ in Hx.
    replace x with (0 + Z.of_nat (Z.to_nat x)) by lia. apply Hall. lia. }
  apply subseteq_size in Hsub. rewrite size_list_to_set in Hsub by apply NoDup_seqZ.
  rewrite length_seqZ in Hsub. lia.
Qed.

Lemma free_fd_nonneg fds : 0 <= free_fd fds.
Proof. apply lowest_free_ge. Qed.

(** Closing what was opened last gives the descriptors back. *)
Lemma own_closed (F : gset Z) fd : fd ∉ F -> ({[fd]} ∪ F) ∖ {[fd]} = F.
Proof.
  intros Hn. apply set_eq. intros x. rewrite elem_of_difference, elem_of_union, elem_of_singleton.
  destruct (decide (x = fd)) as [->|]; tauto.
Qed.

(** [holds p D]: the component satisfies [p] and the open descriptors are
    exactly [D]. *)
Section holds.
Context {S : Type}.
Implicit Types (p : S -> Prop) (D : gset Z).

Definition holds p D (st : S * world) : Prop := p st.1 /\ w_fds st.2 = D.

Lemma holds_stable p D : stable (holds p D).
Proof. by intros c w e s [H1 H2]. Qed.

Lemma holds_newfd p D :
  triple (holds p D) sys_newfd (fun fd st =>
    (fd = -1 /\ holds p D st) \/ (0 <= fd /\ (fd ∉ D) /\ holds p ({[fd]} ∪ D) st)).
Proof.
  intros st H. pose proof (triple_syscall _ (holds_stable p D) st H) as Hs.
  unfold sys_newfd, mbind, KM_bind. destruct (syscall st) as [[a [c w]]|]; [|done].
  destruct (a_ret a <? 0); [by left|]. destruct Hs as [Hp Hw]. simpl in *. right.
  subst D. split; [apply free_fd_nonneg|]. split; [apply free_fd_fresh|done].
Qed.

Lemma holds_close p D fd :
  fd ∉ D -> triple (holds p ({[fd]} ∪ D)) (sys_close fd) (fun _ => holds p D).
Proof. intros Hn [c w] [Hp Hw]. split; [done|]. simpl in *. rewrite Hw. by apply own_closed. Qed.

Lemma holds_update p q D f :
  (forall c, p c -> q (f c)) -> triple (holds p D) (update f) (fun _ => holds q D).
Proof. intros Hf [c w] [Hp Hw]. split; [by apply Hf|done]. Qed.
End holds.

#[export] Hint Resolve holds_stable : stb.
