(* ===== verification/TcpClient.v ===== *)
(** TcpClient: src/tcp_client.c.

    The client runs against the kernel of Kernel.v: its functions are in the
    state monad on the client and the world.  Loops consume an answer of the
    kernel per turn. *)

From stdpp Require Import base list gmap strings numbers option.
From S2P Require Import Prelude CLib Kernel RuntimeConfig.

(** ** Data *)

Record tcp_client : Type := mk_client {
  t_sock_fd : Z;
  t_server_ip : bytes;
  t_server_port : Z;
  t_is_connected : bool;
  t_is_nonblocking : bool;
  t_reconnect_retries : Z;
  t_reconnect_delay_ms : Z;
  t_last_reconnect_time : Z;
  t_auto_reconnect : bool;
  t_send_buffer : bytes;
  t_send_buffer_len : Z;
  t_bytes_sent : Z;
  t_bytes_lost : Z;
  t_connect_count : Z;
  t_reconnect_count : Z
}.

(** Field updates. *)
Definition set_sock (fd : Z) (c : tcp_client) : tcp_client :=
  mk_client fd (t_server_ip c) (t_server_port c) (t_is_connected c) (t_is_nonblocking c)
    (t_reconnect_retries c) (t_reconnect_delay_ms c) (t_last_reconnect_time c) (t_auto_reconnect c)
    (t_send_buffer c) (t_send_buffer_len c) (t_bytes_sent c) (t_bytes_lost c) (t_connect_count c)
    (t_reconnect_count c).
Definition set_connected (b : bool) (c : tcp_client) : tcp_client :=
  mk_client (t_sock_fd c) (t_server_ip c) (t_server_port c) b (t_is_nonblocking c)
    (t_reconnect_retries c) (t_reconnect_delay_ms c) (t_last_reconnect_time c) (t_auto_reconnect c)
    (t_send_buffer c) (t_send_buffer_len c) (t_bytes_sent c) (t_bytes_lost c) (t_connect_count c)
    (t_reconnect_count c).
Definition set_backoff (retries delay : Z) (c : tcp_client) : tcp_client :=
  mk_client (t_sock_fd c) (t_server_ip c) (t_server_port c) (t_is_connected c) (t_is_nonblocking c)
    retries delay (t_last_reconnect_time c) (t_auto_reconnect c)
    (t_send_buffer c) (t_send_buffer_len c) (t_bytes_sent c) (t_bytes_lost c) (t_connect_count c)
    (t_reconnect_count c).
Definition set_last_reconnect (ms : Z) (c : tcp_client) : tcp_client :=
  mk_client (t_sock_fd c) (t_server_ip c) (t_server_port c) (t_is_connected c) (t_is_nonblocking c)
    (t_reconnect_retries c) (t_reconnect_delay_ms c) ms (t_auto_reconnect c)
    (t_send_buffer c) (t_send_buffer_len c) (t_bytes_sent c) (t_bytes_lost c) (t_connect_count c)
    (t_reconnect_count c).
Definition set_buffer (b : bytes) (n : Z) (c : tcp_client) : tcp_client :=
  mk_client (t_sock_fd c) (t_server_ip c) (t_server_port c) (t_is_connected c) (t_is_nonblocking c)
    (t_reconnect_retries c) (t_reconnect_delay_ms c) (t_last_reconnect_time c) (t_auto_reconnect c)
    b n (t_bytes_sent c) (t_bytes_lost c) (t_connect_count c) (t_reconnect_count c).
Definition add_stats (sent lost connects reconnects : Z) (c : tcp_client) : tcp_client :=
  mk_client (t_sock_fd c) (t_server_ip c) (t_server_port c) (t_is_connected c) (t_is_nonblocking c)
    (t_reconnect_retries c) (t_reconnect_delay_ms c) (t_last_reconnect_time c) (t_auto_reconnect c)
    (t_send_buffer c) (t_send_buffer_len c) (u64 (t_bytes_sent c + sent))
    (u64 (t_bytes_lost c + lost)) (u64 (t_connect_count c + connects))
    (u64 (t_reconnect_count c + reconnects)).

(** The operations run on the client and the world. *)
Abbreviation M := (KM tcp_client).
Abbreviation client := (@get tcp_client).
Abbreviation state := (tcp_client * world)%type.

(** ** Helpers *)

Definition RECONNECT_INITIAL_DELAY_MS : Z := 1000.
Definition RECONNECT_MAX_DELAY_MS : Z := 30000.
Definition RECONNECT_MAX_RETRIES : Z := 10.

Definition calculate_backoff_delay (retry_count base_delay_ms max_delay_ms : Z) : Z :=
  if retry_count <=? 0 then base_delay_ms
  else
    let delay := s32 (Z.shiftl base_delay_ms retry_count) in
    if (max_delay_ms <? delay) || (delay <=? 0) then max_delay_ms else delay.

Definition set_nonblocking : M Z :=
  flags ← sys_ret;
  if flags <? 0 then mret (-1)
  else r ← sys_ret; mret (if negb (r =? 0) then -1 else 0).

(** It differs from [set_nonblocking] in the flags it stores only. *)
Definition set_blocking : M Z :=
  flags ← sys_ret;
  if flags <? 0 then mret (-1)
  else r ← sys_ret; mret (if negb (r =? 0) then -1 else 0).

(** [close(client->sock_fd); client->sock_fd = -1; return -1;] *)
Definition close_and_fail : M Z :=
  c ← client;
  _ ← sys_close (t_sock_fd c);
  _ ← update (set_sock (-1));
  mret (-1).

(** [pton] says whether [inet_pton] accepts the address. *)
Definition tcp_client_try_connect (pton : bytes -> bool) : M Z :=
  fd ← sys_newfd;
  _ ← update (set_sock fd);
  if fd <? 0 then mret (-1) else
  nb ← set_nonblocking;
  if negb (nb =? 0) then close_and_fail else
  c ← client;
  if negb (pton (cstr (t_server_ip c))) then
    (r ← close_and_fail; _ ← set_errno EINVAL; mret r)
  else
    ret ← sys_ret;
    if ret =? 0 then (_ ← update (set_connected true); mret 0) else
    e ← errno;
    if e =? EINPROGRESS then
      ret ← sys_ret;
      if ret <? 0 then close_and_fail
      else if ret =? 0 then (r ← close_and_fail; _ ← set_errno ETIMEDOUT; mret r)
      else
        '(r, so_error) ← sys_sockerr;
        if negb (r =? 0) then close_and_fail
        else if negb (so_error =? 0) then (r ← close_and_fail; _ ← set_errno so_error; mret r)
        else (_ ← update (set_connected true); mret 0)
    else close_and_fail.

(** ** Operations *)

Section operations.
Context (pton : bytes -> bool).

(** [char send_buffer[TCP_SEND_BUFFER_SIZE]], cleared. *)
Definition TCP_SEND_BUFFER_SIZE : Z := 65536.
Definition cleared_buffer : bytes := replicate (Z.to_nat TCP_SEND_BUFFER_SIZE) 0.

(** [ok] says whether [malloc] succeeds; the address is not NULL. *)
Definition tcp_client_init (ok : bool) (server_ip : bytes) (server_port : Z) (auto_reconnect : bool)
  : option tcp_client :=
  if (server_port <=? 0) || (65535 <? server_port) then None
  else if negb ok then None
  else
    let ip := strncpy_field (replicate 16 0) server_ip in
    Some (mk_client (-1) (<[15%nat := 0]> ip) server_port false true 0 RECONNECT_INITIAL_DELAY_MS 0
            auto_reconnect cleared_buffer 0 0 0 0 0).

Definition tcp_client_connect : M Z :=
  c ← client;
  if t_is_connected c then mret 0 else
  ret ← tcp_client_try_connect pton;
  if ret =? 0 then
    _ ← update (add_stats 0 0 1 0);
    _ ← update (set_backoff 0 RECONNECT_INITIAL_DELAY_MS);
    mret 0
  else mret (-1).

(** Four functions call each other in a circle: disconnect, flush, send,
    reconnect.  Each takes the next one as an argument here; the circle is
    closed below. *)
Definition disconnect_with (flush : M Z) : M unit :=
  c ← client;
  _ ← (if 0 <=? t_sock_fd c then
         _ ← (if 0 <? t_send_buffer_len c then (_ ← flush; mret tt) else mret tt);
         c ← client;
         _ ← sys_close (t_sock_fd c);
         update (set_sock (-1))
       else mret tt);
  update (set_connected false).

Definition now_ms (t : Z * Z) : Z := u64 (u64 (t.1 * 1000) + t.2 / 1000000).

(** The attempt itself: disconnect, connect, update the backoff. *)
Definition reconnect_attempt (flush : M Z) : M Z :=
  _ ← disconnect_with flush;
  ret ← tcp_client_connect;
  if ret =? 0 then
    _ ← update (add_stats 0 0 0 1);
    _ ← update (set_backoff 0 RECONNECT_INITIAL_DELAY_MS);
    mret 0
  else
    c ← client;
    let retries := t_reconnect_retries c + 1 in
    _ ← update (set_backoff retries
          (calculate_backoff_delay retries RECONNECT_INITIAL_DELAY_MS RECONNECT_MAX_DELAY_MS));
    mret (-1).

Definition reconnect_with (flush : M Z) : M Z :=
  c ← client;
  if negb (t_auto_reconnect c) then mret (-1) else
  t ← sys_clock;
  let now := now_ms t in
  if (0 <? t_last_reconnect_time c) &&
     (u64 (now - t_last_reconnect_time c) <? t_reconnect_delay_ms c)
  then mret (-1) else
  _ ← update (set_last_reconnect now);
  if RECONNECT_MAX_RETRIES <=? t_reconnect_retries c then mret (-1) else
  reconnect_attempt flush.

Definition crlf : bytes := [13; 10].

Definition http_request (server_ip data : bytes) (len : Z) : bytes :=
  lit "POST /api/v1/ingest HTTP/1.1" ++ crlf ++
  lit "Host: " ++ cstr server_ip ++ crlf ++
  lit "Content-Type: application/json" ++ crlf ++
  lit "Content-Length: " ++ decd len ++ crlf ++
  lit "Connection: keep-alive" ++ crlf ++
  crlf ++ take (Z.to_nat len) (cstr data).

(** The loop of [tcp_client_send]: [None] when the whole request went out, or
    the value the function returns at once. *)
Fixpoint send_loop (fuel : nat) (reconnect : M Z) (req : bytes) (total_sent : Z) : M (option Z) :=
  match fuel with
  | O => waits
  | S fuel =>
      if negb (total_sent <? zlen req) then mret None else
      c ← client;
      ret ← sys_send (t_sock_fd c) (drop (Z.to_nat total_sent) req);
      if ret <? 0 then
        e ← errno;
        if e =? EINTR then send_loop fuel reconnect req total_sent
        else if (e =? EPIPE) || (e =? ECONNRESET) || (e =? ENOTCONN) then
          _ ← update (set_connected false);
          _ ← update (add_stats 0 (zlen req - total_sent) 0 0);
          c ← client;
          _ ← (if t_auto_reconnect c then reconnect else mret 0);
          mret (Some (-1))
        else if e =? EAGAIN then
          sel ← sys_ret;
          if 0 <? sel then send_loop fuel reconnect req total_sent
          else mret (Some (if 0 <? total_sent then total_sent else -1))
        else mret (Some (if 0 <? total_sent then total_sent else -1))
      else send_loop fuel reconnect req (total_sent + ret)
  end.

(** Every turn takes an answer from the script. *)
Definition send_all (reconnect : M Z) (req : bytes) : M (option Z) := fun st =>
  send_loop (S (length (w_script st.2))) reconnect req 0 st.

Definition send_with (reconnect : M Z) (data : bytes) (len : Z) : M Z :=
  if len <=? 0 then (_ ← set_errno EINVAL; mret (-1)) else
  c ← client;
  _ ← (if t_is_connected c then mret 0
       else if t_auto_reconnect c then reconnect else mret 0);
  c ← client;
  if negb (t_is_connected c) then (_ ← set_errno ENOTCONN; mret (-1)) else
  let req := http_request (t_server_ip c) data len in
  if 65536 <=? zlen req then (_ ← set_errno EMSGSIZE; mret (-1)) else
  r ← send_all reconnect req;
  match r with
  | Some v => mret v
  | None =>
      _ ← update (add_stats (zlen req) 0 0 0);
      sel ← sys_ret;
      _ ← (if 0 <? sel then sys_ret else mret 0);
      mret (zlen req)
  end.

Definition flush_with (send : bytes -> Z -> M Z) : M Z :=
  c ← client;
  if t_send_buffer_len c <=? 0 then mret 0 else
  ret ← send (t_send_buffer c) (t_send_buffer_len c);
  c ← client;
  _ ← (if 0 <? ret then
         if ret <? t_send_buffer_len c then
           let rest := take (Z.to_nat (t_send_buffer_len c - ret))
                         (drop (Z.to_nat ret) (t_send_buffer c)) in
           update (set_buffer (blit (t_send_buffer c) 0 rest) (t_send_buffer_len c - ret))
         else update (set_buffer (t_send_buffer c) 0)
       else mret tt);
  mret ret.

(** The circle, [n] rounds deep. *)
Fixpoint flush_n (n : nat) : M Z :=
  match n with
  | O => waits
  | S n => flush_with (send_with (reconnect_with (flush_n n)))
  end.

(** The buffer is never filled (see [buffer_empty] below), so that the circle
    is entered at most once. *)
Definition depth : nat := 1.

Definition tcp_client_flush : M Z := flush_n depth.
Definition tcp_client_disconnect : M unit := disconnect_with tcp_client_flush.
Definition tcp_client_reconnect : M Z := reconnect_with tcp_client_flush.
Definition tcp_client_send (data : bytes) (len : Z) : M Z :=
  send_with tcp_client_reconnect data len.
Definition tcp_client_send_line (line : bytes) : M Z :=
  tcp_client_send line (zlen (cstr line)).

Definition tcp_client_is_connected : M bool :=
  c ← client;
  if t_is_connected c && (0 <=? t_sock_fd c) then
    ret ← sys_ret;
    e ← errno;
    if (ret =? 0) || ((ret <? 0) && negb (e =? EAGAIN))
    then (_ ← update (set_connected false); mret false)
    else mret true
  else mret false.

(** The structure is freed after it. *)
Definition tcp_client_cleanup : M unit := tcp_client_disconnect.

Definition tcp_client_get_stats (c : option tcp_client) : Z * Z * Z * Z :=
  match c with
  | None => (0, 0, 0, 0)
  | Some c => (t_bytes_sent c, t_bytes_lost c, t_connect_count c, t_reconnect_count c)
  end.

(** What [tcp_client_print_stats] prints. *)
Definition line_of (s : bytes) : bytes := s ++ [10].
Definition tcp_client_print_stats (c : option tcp_client) : bytes :=
  match c with
  | None => line_of (lit "TCP Client Statistics: N/A (client is NULL)")
  | Some c =>
      line_of (lit "=== TCP Client Statistics ===") ++
      line_of (lit "Server: " ++ cstr (t_server_ip c) ++ lit ":" ++ decd (t_server_port c)) ++
      line_of (lit "Connected: " ++ (if t_is_connected c then lit "Yes" else lit "No")) ++
      line_of (lit "Bytes sent: " ++ dec (t_bytes_sent c)) ++
      line_of (lit "Bytes lost: " ++ dec (t_bytes_lost c)) ++
      line_of (lit "Connect count: " ++ dec (t_connect_count c)) ++
      line_of (lit "Reconnect count: " ++ dec (t_reconnect_count c)) ++
      line_of (lit "Reconnect retries: " ++ decd (t_reconnect_retries c)) ++
      line_of (lit "Reconnect delay: " ++ decd (t_reconnect_delay_ms c) ++ lit " ms") ++
      line_of (lit "===========================")
  end.

End operations.

#[local] Opaque cleared_buffer.

(** ** Descriptors *)

(** The client owns its descriptor and nothing else: with [F] the descriptors
    of the rest of the process, the open ones are [F] and the socket. *)
Definition owns (F : gset Z) (fd : Z) (fds : gset Z) : Prop :=
  if 0 <=? fd then fds = {[fd]} ∪ F /\ fd ∉ F else fd = -1 /\ fds = F.

Record inv (F : gset Z) (st : state) : Prop := mk_inv {
  iv_owns : owns F (t_sock_fd st.1) (w_fds st.2);
  iv_connected : t_is_connected st.1 = true -> 0 <= t_sock_fd st.1;
  iv_buffer : t_send_buffer_len st.1 = 0;
  iv_retries : 0 <= t_reconnect_retries st.1 <= 10;
  iv_delay : t_reconnect_delay_ms st.1 =
    calculate_backoff_delay (t_reconnect_retries st.1) RECONNECT_INITIAL_DELAY_MS RECONNECT_MAX_DELAY_MS
}.

(** Not connected and without a socket. *)
Definition closed (F : gset Z) (st : state) : Prop :=
  inv F st /\ t_sock_fd st.1 = -1 /\ t_is_connected st.1 = false.

Lemma inv_stable F : stable (inv F).
Proof. intros c w e s []. by constructor. Qed.

Lemma inv_any_wire F : any_wire (inv F).
Proof. intros c w wire []. by constructor. Qed.

Lemma closed_stable F : stable (closed F).
Proof. intros c w e s [Hi H]. split; [by apply inv_stable|done]. Qed.

#[local] Hint Resolve inv_stable inv_any_wire closed_stable and_client_stable : stb.

(** ** The invariant *)

(** What connecting does not touch: retries, time of the last attempt, mode. *)
Definition fixed (k : Z * Z * bool) (st : state) : Prop :=
  (t_reconnect_retries st.1, t_last_reconnect_time st.1, t_auto_reconnect st.1) = k.

(** Socket open, not connected yet. *)
Definition opened (F : gset Z) (k : Z * Z * bool) (st : state) : Prop :=
  inv F st /\ t_is_connected st.1 = false /\ 0 <= t_sock_fd st.1 /\ fixed k st.

Definition shut (F : gset Z) (k : Z * Z * bool) (st : state) : Prop := closed F st /\ fixed k st.

(** Outcome of an attempt to connect: connected, or closed again. *)
Definition outcome (F : gset Z) (k : Z * Z * bool) (r : Z) (st : state) : Prop :=
  (r = 0 /\ inv F st /\ t_is_connected st.1 = true /\ fixed k st) \/ (r = -1 /\ shut F k st).

Lemma opened_stable F k : stable (opened F k).
Proof. intros c w e s (Hi & H). split; [by apply inv_stable|done]. Qed.
Lemma shut_stable F k : stable (shut F k).
Proof. intros c w e s (Hi & H). split; [by apply closed_stable|done]. Qed.
#[local] Hint Resolve opened_stable shut_stable : stb.

Lemma triple_socket F k (f : Z -> M Z) Q :
  (forall fd, 0 <= fd -> triple (fun st => opened F k (set_sock fd st.1, st.2)) (f fd) Q) ->
  triple (shut F k) (f (-1)) Q -> triple (shut F k) (sys_newfd ≫= f) Q.
Proof.
  intros Hok Hfail. eapply triple_bind with (R := fun fd st =>
    (fd = -1 /\ shut F k st) \/ (0 <= fd /\ opened F k (set_sock fd st.1, st.2))).
  - eapply triple_bind; [apply triple_syscall; auto with stb|]. intros a.
    apply triple_if; intros _; [apply triple_ret; auto|].
    intros [c w] [[[Ho Hc Hb Hr Hd] [Hs Hnc]] Hk]. simpl in *. right.
    pose proof (free_fd_nonneg (w_fds w)). split; [done|].
    rewrite Hs in Ho. destruct Ho as [_ Ho]. split; [|done]. constructor; simpl; try done.
    + unfold owns. ztest. rewrite <- Ho. split; [done|]. apply free_fd_fresh.
  - intros fd st [[-> H]|[Hfd H]]; [by apply Hfail|]. by apply (Hok fd).
Qed.

Lemma close_and_fail_spec F k : triple (opened F k) close_and_fail (fun r st => shut F k st /\ r = -1).
Proof.
  intros [c w] ([Ho Hc Hb Hr Hd] & Hnc & Hs & Hk). simpl in *. split; [|done]. split; [|done].
  unfold owns in Ho. rewrite (proj2 (Z.leb_le 0 _)) in Ho by done. destruct Ho as [Ho Hn].
  split; [|done]. constructor; simpl; try done.
  - unfold owns. simpl. split; [done|]. rewrite Ho. by apply own_closed.
  - by rewrite Hnc.
Qed.

Lemma close_and_fail_out F k : triple (opened F k) close_and_fail (outcome F k).
Proof.
  eapply triple_conseq; [apply close_and_fail_spec|done|]. intros r st [H ->]. by right.
Qed.

Lemma close_errno_out F k e :
  triple (opened F k) (r ← close_and_fail; _ ← set_errno e; mret r) (outcome F k).
Proof.
  eapply triple_bind; [apply close_and_fail_spec|]. intros r.
  eapply triple_bind with (R := fun _ st => shut F k st /\ r = -1).
  - intros st [H ->]. destruct st. split; [by apply shut_stable|done].
  - intros _. apply triple_ret. intros st [H ->]. by right.
Qed.

Lemma connected_out F k :
  triple (opened F k) (_ ← update (set_connected true); mret 0) (outcome F k).
Proof.
  intros [c w] ([Ho Hc Hb Hr Hd] & Hnc & Hs & Hk). left. split; [done|]. split; [by constructor|done].
Qed.

#[local] Hint Resolve close_and_fail_out close_errno_out connected_out : stb.

Lemma set_nonblocking_spec P : stable P -> triple P set_nonblocking (fun _ => P).
Proof.
  intros HP. eapply triple_bind; [by apply triple_sys_ret|]. intros r.
  apply triple_if; intros _; [by apply triple_ret|].
  eapply triple_bind; [by apply triple_sys_ret|]. intros r'. by apply triple_ret.
Qed.

Section with_pton.
Context (pton : bytes -> bool).

Lemma try_connect_spec F k : triple (shut F k) (tcp_client_try_connect pton) (outcome F k).
Proof.
  apply triple_socket.
  2:{ intros st H. simpl. right. split; [done|]. destruct st as [c w], H as [[Hi [Hs Hc]] Hk].
      simpl in *. assert (Hset : set_sock (-1) c = c) by (destruct c; simpl in *; by subst).
      rewrite Hset. done. }
  intros fd Hfd. eapply triple_conseq with (P' := fun st => exists c, opened F k (set_sock fd c, st.2) /\ st.1 = c)
    (Q' := outcome F k); [|by intros [c w]; exists c|done].
  apply triple_update. eapply triple_conseq with (P' := opened F k) (Q' := outcome F k); [|
    intros [c w] (c' & (c'' & H & Heq) & Heq'); simpl in *; subst; done|done].
  apply triple_if; [lia|intros _].
  eapply triple_bind; [apply set_nonblocking_spec; auto with stb|]. intros nb.
  apply triple_if; intros _; [auto with stb|]. apply triple_client. intros c.
  eapply (triple_pre _ (opened F k)); [|by intros st []].
  apply triple_if; intros _; [auto with stb|].
  eapply triple_bind; [apply triple_sys_ret; auto with stb|]. intros ret.
  apply triple_if; intros _; [auto with stb|].
  eapply triple_bind; [apply triple_errno|]. intros e.
  apply triple_if; intros _; [|auto with stb].
  eapply triple_bind; [apply triple_sys_ret; auto with stb|]. intros sel.
  apply triple_if; intros _; [auto with stb|]. apply triple_if; intros _; [auto with stb|].
  eapply triple_bind; [apply triple_sys_pair; auto with stb|]. intros [r so].
  apply triple_if; intros _; [auto with stb|]. apply triple_if; intros _; auto with stb.
Qed.

(** [inv] and the client's [auto_reconnect] mode. *)
Lemma connect_spec F n l a :
  triple (shut F (n, l, a)) (tcp_client_connect pton) (fun r st =>
    (r = 0 /\ inv F st /\ t_is_connected st.1 = true /\ fixed (0, l, a) st) \/
    (r = -1 /\ shut F (n, l, a) st)).
Proof.
  apply triple_client. intros c. destruct (t_is_connected c) eqn:E.
  { intros st [[[_ [_ H]] _] <-]. congruence. }
  eapply (triple_pre _ (shut F (n, l, a))); [|by intros st []].
  eapply triple_bind; [apply try_connect_spec|]. intros r [c' w] [(-> & Hi & Hc & Hk)|[-> Hs]].
  - left. split; [done|]. split; [|split; [done|]].
    + destruct Hi. constructor; simpl in *; try done.
    + unfold fixed in *. simpl in *. by injection Hk as _ -> ->.
  - by right.
Qed.

Lemma disconnect_spec F k flush :
  triple (fun st => inv F st /\ fixed k st) (disconnect_with flush) (fun _ => shut F k).
Proof.
  intros [c w] [[Ho Hc Hb Hr Hd] Hk]. unfold disconnect_with, mbind, KM_bind, client. simpl in *.
  destruct (Z.leb_spec 0 (t_sock_fd c)).
  - rewrite Hb. simpl. unfold owns in Ho. rewrite (proj2 (Z.leb_le 0 _)) in Ho by done.
    destruct Ho as [Ho Hn]. split; [|done]. split; [|done]. constructor; simpl; try done.
    unfold owns. simpl. split; [done|]. rewrite Ho. by apply own_closed.
  - simpl. unfold owns in Ho. rewrite (proj2 (Z.leb_gt 0 _)) in Ho by done. destruct Ho as [Ho1 Ho2].
    split; [|done]. split; [|done]. constructor; simpl; try done. unfold owns. by rewrite Ho1.
Qed.

Lemma inv_backoff F c w n :
  inv F (c, w) -> 0 <= n <= 10 ->
  inv F (set_backoff n (calculate_backoff_delay n RECONNECT_INITIAL_DELAY_MS RECONNECT_MAX_DELAY_MS) c, w).
Proof. intros [] Hn. by constructor. Qed.

Lemma attempt_spec F n l a flush :
  n < 10 ->
  triple (fun st => inv F st /\ fixed (n, l, a) st) (reconnect_attempt pton flush) (fun r st =>
    inv F st /\ ((r = 0 /\ t_is_connected st.1 = true /\ fixed (0, l, a) st) \/
                 (r = -1 /\ t_is_connected st.1 = false /\ fixed (n + 1, l, a) st))).
Proof.
  intros Hn. eapply triple_bind; [apply disconnect_spec|]. intros [].
  eapply triple_bind; [apply connect_spec|].
  intros r [c1 w] [(-> & Hi & Hc & Hk)|[-> [[Hi [Hs Hnc]] Hk]]]; unfold fixed in Hk; simpl in Hk;
    injection Hk as Hk1 Hk2 Hk3; simpl; unfold mbind, KM_bind, client; simpl.
  - split; [destruct Hi; by constructor|]. left. unfold fixed. simpl. by rewrite Hk2, Hk3.
  - pose proof (iv_retries _ _ Hi) as Hir. simpl in Hir.
    split; [apply inv_backoff; [done|lia]|]. right. unfold fixed. simpl in *. by rewrite Hk1, Hk2, Hk3.
Qed.

Lemma reconnect_spec F flush : triple (inv F) (reconnect_with pton flush) (fun _ => inv F).
Proof.
  apply triple_client. intros c. apply triple_if; intros _.
  { apply triple_ret. by intros st []. }
  eapply triple_bind; [apply triple_sys_pair; auto with stb|]. intros t. cbv zeta.
  apply triple_if; intros _; [apply triple_ret; by intros st []|].
  apply triple_update. set (l := now_ms t).
  eapply triple_conseq with (Q' := fun _ => inv F)
    (P' := fun st => inv F st /\ fixed (t_reconnect_retries c, l, t_auto_reconnect c) st); [| |done].
  2:{ intros [c1 w] (c2 & [Hi Hc] & Heq). simpl in *. subst. split; [|done]. destruct Hi. by constructor. }
  destruct (Z.leb_spec RECONNECT_MAX_RETRIES (t_reconnect_retries c)) as [Hmax|Hlt].
  { apply triple_ret. by intros st []. }
  eapply triple_conseq; [apply attempt_spec; exact Hlt|intros st H; exact H|by intros r st []].
Qed.

Lemma update_inv F g (m : M Z) :
  (forall c w, inv F (c, w) -> inv F (g c, w)) -> triple (inv F) m (fun _ => inv F) ->
  triple (inv F) (_ ← update g; m) (fun _ => inv F).
Proof.
  intros Hg Hm. apply triple_update. eapply triple_conseq; [exact Hm| |done].
  intros [c w] (c' & Hi & Heq). simpl in *. subst. by apply Hg.
Qed.

Lemma send_loop_spec F flush fuel req total :
  triple (inv F) (send_loop fuel (reconnect_with pton flush) req total) (fun _ => inv F).
Proof.
  revert total. induction fuel as [|fuel IH]; intros total; cbn [send_loop]; [apply triple_waits|].
  apply triple_if; intros _; [by apply triple_ret|]. apply triple_client. intros c.
  eapply (triple_pre _ (inv F)); [|by intros st []].
  eapply triple_bind; [apply triple_sys_send; auto with stb|]. intros ret.
  apply triple_if; intros _; [|apply IH].
  eapply triple_bind; [apply triple_errno|]. intros e.
  apply triple_if; intros _; [apply IH|]. apply triple_if; intros _.
  - apply triple_update. apply triple_update.
    eapply triple_conseq with (P' := inv F) (Q' := fun _ => inv F); [| |done].
    2:{ intros [c1 w] (c2 & (c3 & Hi & He1) & He2). simpl in *. subst. destruct Hi. by constructor. }
    apply triple_client. intros c'.
    eapply (triple_pre _ (inv F)); [|by intros st []].
    eapply triple_bind with (R := fun _ => inv F).
    + apply triple_if; intros _; [apply reconnect_spec|by apply triple_ret].
    + intros ?. by apply triple_ret.
  - apply triple_if; intros _; [|by apply triple_ret].
    eapply triple_bind; [apply triple_sys_ret; auto with stb|]. intros sel.
    apply triple_if; intros _; [apply IH|by apply triple_ret].
Qed.

Lemma send_spec F flush data len :
  triple (inv F) (send_with (reconnect_with pton flush) data len) (fun _ => inv F).
Proof.
  unfold send_with. apply triple_if; intros _.
  { eapply triple_bind; [apply triple_set_errno; auto with stb|]. intros ?. by apply triple_ret. }
  apply triple_client. intros c.
  eapply (triple_pre _ (inv F)); [|by intros st []].
  eapply triple_bind with (R := fun _ => inv F).
  { repeat (apply triple_if; intros _); try (by apply triple_ret). apply reconnect_spec. }
  intros _. apply triple_client. intros c'.
  eapply (triple_pre _ (inv F)); [|by intros st []].
  apply triple_if; intros _.
  { eapply triple_bind; [apply triple_set_errno; auto with stb|]. intros ?. by apply triple_ret. }
  cbv zeta. apply triple_if; intros _.
  { eapply triple_bind; [apply triple_set_errno; auto with stb|]. intros ?. by apply triple_ret. }
  eapply triple_bind with (R := fun _ => inv F).
  { intros st H. unfold send_all. by apply send_loop_spec. }
  intros [v|]; [by apply triple_ret|].
  apply update_inv; [by intros c1 w Hi; destruct Hi; constructor|].
  eapply triple_bind; [apply triple_sys_ret; auto with stb|]. intros sel.
  eapply triple_bind with (R := fun _ => inv F).
  { apply triple_if; intros _; [apply triple_sys_ret; auto with stb|by apply triple_ret]. }
  intros ?. by apply triple_ret.
Qed.

Lemma flush_spec F n : triple (inv F) (flush_n pton (S n)) (fun r st => inv F st /\ r = 0).
Proof.
  cbn [flush_n]. unfold flush_with. apply triple_client. intros c.
  destruct (Z.leb_spec (t_send_buffer_len c) 0).
  - apply triple_ret. by intros st [Hi _].
  - intros st [Hi Hc]. pose proof (iv_buffer _ _ Hi) as Hb. rewrite Hc in Hb. lia.
Qed.

Lemma is_connected_spec F : triple (inv F) tcp_client_is_connected (fun _ => inv F).
Proof.
  apply triple_client. intros c.
  eapply (triple_pre _ (inv F)); [|by intros st []].
  apply triple_if; intros _; [|by apply triple_ret].
  eapply triple_bind; [apply triple_sys_ret; auto with stb|]. intros ret.
  eapply triple_bind; [apply triple_errno|]. intros e.
  apply triple_if; intros _; [|by apply triple_ret].
  apply triple_update. apply triple_ret.
  intros [c1 w] (c2 & Hi & Heq). simpl in *. subst. destruct Hi. by constructor.
Qed.

(** ** What goes on the wire *)

(** Connecting and reconnecting send nothing (the buffer being empty), and do
    not change the address or the mode. *)
Definition kept (c0 : tcp_client) (W : list (Z * bytes)) (st : state) : Prop :=
  w_wire st.2 = W /\ t_send_buffer_len st.1 = 0 /\
  t_server_ip st.1 = t_server_ip c0 /\ t_auto_reconnect st.1 = t_auto_reconnect c0.

Definition keeps {A} (P : state -> Prop) (m : M A) : Prop := triple P m (fun _ => P).

Lemma keeps_bind {A B} P (m : M A) (f : A -> M B) :
  keeps P m -> (forall a, keeps P (f a)) -> keeps P (m ≫= f).
Proof. apply triple_bind. Qed.

Lemma keeps_ret {A} P (a : A) : keeps P (mret a).
Proof. by apply triple_ret. Qed.

Lemma keeps_if {A} P (b : bool) (m1 m2 : M A) : keeps P m1 -> keeps P m2 -> keeps P (if b then m1 else m2).
Proof. by destruct b. Qed.

Lemma keeps_client P : keeps P client.
Proof. by intros st H. Qed.

Lemma kept_stable c0 W : stable (kept c0 W).
Proof. by intros c w e s H. Qed.

Lemma kept_update c0 W g :
  (forall c, t_send_buffer_len (g c) = t_send_buffer_len c /\ t_server_ip (g c) = t_server_ip c /\
             t_auto_reconnect (g c) = t_auto_reconnect c) -> keeps (kept c0 W) (update g).
Proof.
  intros Hg [c w] (H1 & H2 & H3 & H4). destruct (Hg c) as (G1 & G2 & G3).
  unfold kept. simpl in *. by rewrite G1, G2, G3.
Qed.

Lemma kept_socket c0 W : keeps (kept c0 W) sys_newfd.
Proof.
  apply keeps_bind; [apply triple_syscall, kept_stable|]. intros a. unfold keeps.
  apply triple_if; intros _; [by apply triple_ret|]. by intros [c w] H.
Qed.

Lemma kept_close c0 W fd : keeps (kept c0 W) (sys_close fd).
Proof. by intros [c w] H. Qed.

(** Follows the structure of a function that keeps [kept]. *)
Ltac keep :=
  repeat match goal with
  | |- keeps _ (mret _) => apply keeps_ret
  | |- keeps _ client => apply keeps_client
  | |- keeps _ (update _) => apply kept_update; by intros []
  | |- keeps _ sys_newfd => apply kept_socket
  | |- keeps _ (sys_close _) => apply kept_close
  | |- keeps _ sys_ret => apply triple_sys_ret, kept_stable
  | |- keeps _ sys_sockerr => apply triple_sys_pair, kept_stable
  | |- keeps _ sys_clock => apply triple_sys_pair, kept_stable
  | |- keeps _ set_nonblocking => apply set_nonblocking_spec, kept_stable
  | |- keeps _ errno => apply triple_errno
  | |- keeps _ (set_errno _) => apply triple_set_errno, kept_stable
  | |- keeps _ (mbind _ _) => apply keeps_bind; [|intros ?]
  | |- keeps _ (if _ then _ else _) => apply keeps_if
  | |- keeps _ (let '(_, _) := ?x in _) => destruct x
  | _ => progress (unfold close_and_fail; cbv zeta)
  end.

Lemma try_connect_kept c0 W : keeps (kept c0 W) (tcp_client_try_connect pton).
Proof. unfold tcp_client_try_connect. keep. Qed.

#[local] Hint Resolve try_connect_kept : stb.

Lemma connect_kept c0 W : keeps (kept c0 W) (tcp_client_connect pton).
Proof. unfold tcp_client_connect. keep; auto with stb. Qed.

Lemma disconnect_kept c0 W flush : keeps (kept c0 W) (disconnect_with flush).
Proof.
  intros [c w] H. pose proof H as (_ & Hb & _). simpl in Hb.
  unfold disconnect_with, mbind, KM_bind, client. simpl. rewrite Hb. simpl.
  by destruct (0 <=? t_sock_fd c).
Qed.

#[local] Hint Resolve connect_kept disconnect_kept : stb.

Lemma attempt_kept c0 W flush : keeps (kept c0 W) (reconnect_attempt pton flush).
Proof. unfold reconnect_attempt. keep; auto with stb. Qed.

#[local] Hint Resolve attempt_kept : stb.

Lemma reconnect_kept c0 W flush : keeps (kept c0 W) (reconnect_with pton flush).
Proof. unfold reconnect_with. keep; auto with stb. Qed.

(** The pieces on the wire of descriptor [fd] after [W], together [s]. *)
Definition wrote (W : list (Z * bytes)) (fd : Z) (s : bytes) (W' : list (Z * bytes)) : Prop :=
  exists chunks, W' = W ++ map (pair fd) chunks /\ mjoin chunks = s.

Lemma wrote_nil W fd : wrote W fd [] W.
Proof. exists []. by rewrite app_nil_r. Qed.

Lemma wrote_snoc W fd s W' t : wrote W fd s W' -> wrote W fd (s ++ t) (W' ++ [(fd, t)]).
Proof.
  intros (ch & -> & <-). exists (ch ++ [t]). rewrite map_app, join_app. simpl.
  by rewrite app_nil_r, app_assoc.
Qed.

(** [total] bytes of the request are out, the client unchanged. *)
Definition sofar (c0 : tcp_client) (W : list (Z * bytes)) (req : bytes) (total : Z) (st : state) : Prop :=
  st.1 = c0 /\ wrote W (t_sock_fd c0) (take (Z.to_nat total) req) (w_wire st.2).

Lemma sofar_stable c0 W req total : stable (sofar c0 W req total).
Proof. by intros c w e s H. Qed.

(** [send] puts a prefix of what it is given on the wire, or nothing. *)
Lemma sys_send_sofar c0 W req total :
  0 <= total <= zlen req ->
  triple (sofar c0 W req total) (sys_send (t_sock_fd c0) (drop (Z.to_nat total) req))
    (fun r st => (r = -1 /\ sofar c0 W req total st) \/
                 (0 <= r /\ total + r <= zlen req /\ sofar c0 W req (total + r) st)).
Proof.
  intros Ht. eapply triple_bind; [apply triple_syscall, sofar_stable|]. intros a.
  apply triple_if; intros _; [apply triple_ret; auto|].
  intros [c w] [H1 H2]. simpl in *. right. rewrite length_drop.
  set (n := Nat.min _ _). split; [lia|]. split; [lia|]. split; [done|]. simpl.
  apply (wrote_snoc _ _ _ _ (take n (drop (Z.to_nat total) req))) in H2.
  rewrite Z2Nat.inj_add, Nat2Z.id, take_take_drop in * by lia. done.
Qed.

(** What the loop of [tcp_client_send] leaves: the whole request on the wire,
    or a proper prefix of it with the value that is returned. *)
Definition loop_done (c0 : tcp_client) (W : list (Z * bytes)) (req : bytes) (r : option Z) (st : state)
  : Prop :=
  match r with
  | None => sofar c0 W req (zlen req) st
  | Some v => exists n, 0 <= n < zlen req /\
      wrote W (t_sock_fd c0) (take (Z.to_nat n) req) (w_wire st.2) /\
      (v = -1 \/ (0 < v /\ v = n /\ st.1 = c0))
  end.

(** The exit of the loop on an error that is not the loss of the connection. *)
Lemma loop_exit c0 W req total :
  0 <= total < zlen req ->
  triple (sofar c0 W req total) (mret (Some (if 0 <? total then total else -1))) (loop_done c0 W req).
Proof.
  intros Ht. apply triple_ret. intros st [H1 H2]. exists total. split; [lia|]. split; [done|].
  zcase; [right|left]; done.
Qed.

(** ... and on its loss. *)
Lemma loop_lost flush c0 W req total :
  t_send_buffer_len c0 = 0 -> 0 <= total < zlen req ->
  triple (sofar c0 W req total)
    (_ ← update (set_connected false);
     _ ← update (add_stats 0 (zlen req - total) 0 0);
     c ← client;
     _ ← (if t_auto_reconnect c then reconnect_with pton flush else mret 0);
     mret (Some (-1))) (loop_done c0 W req).
Proof.
  intros Hb Ht st [Hc Hw].
  assert (Hk : keeps (kept c0 (w_wire st.2))
    (_ ← update (set_connected false); _ ← update (add_stats 0 (zlen req - total) 0 0);
     c ← client; _ ← (if t_auto_reconnect c then reconnect_with pton flush else mret 0);
     mret (Some (-1)))) by (keep; apply reconnect_kept).
  specialize (Hk st). destruct st as [c w]. simpl in *. subst c.
  match goal with |- match ?m with _ => _ end => destruct m as [[r st']|] eqn:E; [|done] end.
  assert (Hr : r = Some (-1)).
  { revert E. unfold mbind, KM_bind, update, client, mret, KM_ret. simpl.
    repeat case_match; congruence. }
  subst r. destruct Hk as (Hw' & _); [done|]. exists total. rewrite Hw'. auto.
Qed.

Lemma send_loop_wire fuel flush c0 W req total :
  t_send_buffer_len c0 = 0 -> 0 <= total <= zlen req ->
  triple (sofar c0 W req total) (send_loop fuel (reconnect_with pton flush) req total)
    (loop_done c0 W req).
Proof.
  intros Hb. revert total. induction fuel as [|fuel IH]; intros total Ht; cbn [send_loop]; [apply triple_waits|].
  destruct (Z.ltb_spec total (zlen req)) as [Hlt|Hge]; simpl (negb _).
  2:{ apply triple_ret. intros st. by replace total with (zlen req) by lia. }
  apply (triple_client_is _ c0); [by intros st []|].
  eapply triple_bind; [by apply sys_send_sofar|]. intros ret. apply triple_if; intros Hret.
  - eapply (triple_pre _ (sofar c0 W req total)); [|intros st [[_ H]|[H _]]; [done|lia]].
    eapply triple_bind; [apply triple_errno|]. intros e.
    apply triple_if; intros _; [by apply IH|].
    apply triple_if; intros _; [apply loop_lost; [done|lia]|].
    apply triple_if; intros _; [|apply loop_exit; lia].
    eapply triple_bind; [apply triple_sys_ret, sofar_stable|]. intros sel.
    apply triple_if; intros _; [by apply IH|apply loop_exit; lia].
  - intros st [[-> _]|(H1 & H2 & H3)]; [done|]. by apply IH; [lia|].
Qed.

(** The rest of [tcp_client_send] once the client is known to be connected. *)
Lemma send_connected c w data len :
  t_is_connected c = true -> 0 < len ->
  tcp_client_send pton data len (c, w) =
  (let req := http_request (t_server_ip c) data len in
   if 65536 <=? zlen req then (_ ← set_errno EMSGSIZE; mret (-1)) else
   r ← send_all (tcp_client_reconnect pton) req;
   match r with
   | Some v => mret v
   | None =>
       _ ← update (add_stats (zlen req) 0 0 0);
       sel ← sys_ret;
       _ ← (if 0 <? sel then sys_ret else mret 0);
       mret (zlen req)
   end : M Z) (c, w).
Proof.
  intros Hc Hl. unfold tcp_client_send, send_with. ztest.
  unfold mbind, KM_bind, client, mret, KM_ret. cbn [fst]. rewrite Hc. cbn [negb fst]. rewrite Hc.
  reflexivity.
Qed.

(** The tail after the loop only takes answers. *)
Lemma send_tail_wire c0 W req :
  triple (sofar c0 W req (zlen req))
    (_ ← update (add_stats (zlen req) 0 0 0);
     sel ← sys_ret;
     _ ← (if 0 <? sel then sys_ret else mret 0);
     mret (zlen req))
    (fun r st => r = zlen req /\ wrote W (t_sock_fd c0) req (w_wire st.2) /\
                 st.1 = add_stats (zlen req) 0 0 0 c0).
Proof.
  apply triple_update.
  set (P := fun st : state => wrote W (t_sock_fd c0) req (w_wire st.2) /\ st.1 = add_stats (zlen req) 0 0 0 c0).
  assert (HP : stable P) by (by intros c w e s H).
  eapply (triple_pre _ P).
  2:{ intros [c w] (c' & [Hc Hw] & Heq). simpl in *. subst. rewrite take_ge in Hw by lia. done. }
  eapply triple_bind; [by apply triple_sys_ret|]. intros sel.
  eapply triple_bind with (R := fun _ => P).
  - apply triple_if; intros _; [by apply triple_sys_ret|by apply triple_ret].
  - intros ?. apply triple_ret. by intros st [].
Qed.

(** C11: what [tcp_client_send] puts on the wire of a connected client, for any
    behaviour of the kernel.  A batch whose request would need 65536 bytes or
    more is refused and nothing is sent.  Otherwise the bytes sent are a prefix
    of the request (the POST with the length of the data and the data), sent in
    order and once each; the function returns the length of the request
    exactly when all of it was sent; when it returns a smaller positive number
    only that many bytes went out and the client still counts as connected, so
    that the next request follows in the middle of this one. *)
Theorem tcp_send_wire (F : gset Z) (c : tcp_client) (w : world) (data : bytes) (len r : Z) (st' : state) :
  inv F (c, w) -> t_is_connected c = true -> 0 < len ->
  tcp_client_send pton data len (c, w) = Some (r, st') ->
  let req := http_request (t_server_ip c) data len in
  if 65536 <=? zlen req then r = -1 /\ st'.1 = c /\ w_wire st'.2 = w_wire w
  else exists n, 0 <= n <= zlen req /\
    wrote (w_wire w) (t_sock_fd c) (take (Z.to_nat n) req) (w_wire st'.2) /\
    ((r = zlen req /\ n = zlen req /\ t_is_connected st'.1 = true) \/
     (0 < r < zlen req /\ n = r /\ st'.1 = c) \/
     (r = -1 /\ n < zlen req)).
Proof.
  intros Hi Hc Hl Hrun req. rewrite send_connected in Hrun by done. fold req in Hrun. cbv zeta in Hrun.
  destruct (Z.leb_spec 65536 (zlen req)).
  { unfold mbind, KM_bind, set_errno, mret, KM_ret in Hrun. simpl in Hrun. by injection Hrun as <- <-. }
  pose proof (send_loop_wire (S (length (w_script w))) (tcp_client_flush pton) c (w_wire w) req 0
    (iv_buffer _ _ Hi) ltac:(lia) (c, w)) as Hloop.
  specialize (Hloop ltac:(split; [done|apply wrote_nil])).
  unfold mbind at 1, KM_bind at 1 in Hrun. unfold send_all in Hrun.
  change (tcp_client_reconnect pton) with (reconnect_with pton (tcp_client_flush pton)) in Hrun.
  cbn [snd] in Hrun. destruct (send_loop _ _ _ _ _) as [[[v|] st1]|]; [| |done].
  - injection Hrun as <- <-. destruct Hloop as (n & Hn & Hw & Hv). exists n.
    split; [lia|]. split; [done|]. destruct Hv as [-> | (Hv & -> & Hs)]; [auto with lia|].
    right. left. split; [lia|]. done.
  - pose proof (send_tail_wire c (w_wire w) req st1 Hloop) as Ht. rewrite Hrun in Ht.
    destruct Ht as (-> & Hw & Hs). exists (zlen req). split; [lia|].
    rewrite take_ge by lia. split; [done|]. left. by rewrite Hs.
Qed.

(** ** Sending completes *)

(** A kernel that accepts: every answer is positive. *)
Definition accepting (script : list answer) : Prop := Forall (fun a => 1 <= a_ret a) script.

Lemma send_loop_completes fuel reconnect req total c w :
  0 <= total <= zlen req -> accepting (w_script w) ->
  zlen req - total < Z.of_nat fuel -> zlen req - total <= zlen (w_script w) ->
  exists w', send_loop fuel reconnect req total (c, w) = Some (None, (c, w')) /\
    accepting (w_script w') /\ zlen (w_script w) - (zlen req - total) <= zlen (w_script w').
Proof.
  revert total w. induction fuel as [|fuel IH]; intros total w Ht Ha Hf Hs; [lia|]. cbn [send_loop].
  destruct (Z.ltb_spec total (zlen req)) as [Hlt|Hge]; simpl (negb _).
  2:{ exists w. split; [done|]. split; [done|lia]. }
  destruct w as [fds maps wire e script]. simpl in *. destruct script as [|a script]; [simpl in Hs; lia|].
  inversion Ha as [|? ? Ha1 Ha2]; subst.
  unfold mbind, KM_bind, get, sys_send, syscall. simpl. unfold mbind, KM_bind. simpl. ztest.
  rewrite length_drop. set (n := Nat.min _ _). simpl. ztest.
  edestruct (IH (total + Z.of_nat n)) as (w' & Hw & Haw & Hlen);
    [| |lia| |exists w'; split; [exact Hw|]; split; [done|]]; simpl in *; [lia|done|lia|lia].
Qed.

(** A send to a kernel that accepts delivers the request. *)
Lemma send_delivers (c : tcp_client) (w : world) (data : bytes) (len : Z) :
  let req := http_request (t_server_ip c) data len in
  t_is_connected c = true -> t_send_buffer_len c = 0 -> 0 < len -> zlen req < 65536 ->
  accepting (w_script w) -> zlen req + 2 <= zlen (w_script w) ->
  exists w', tcp_client_send pton data len (c, w) = Some (zlen req, (add_stats (zlen req) 0 0 0 c, w')) /\
    wrote (w_wire w) (t_sock_fd c) req (w_wire w') /\
    accepting (w_script w') /\ zlen (w_script w) - (zlen req + 2) <= zlen (w_script w').
Proof.
  intros req Hc Hb Hl Hsz Ha Hs. rewrite send_connected by done. fold req. cbv zeta. ztest.
  destruct (send_loop_completes (S (length (w_script w))) (tcp_client_reconnect pton) req 0 c w)
    as (w1 & Hloop & Haw & Hlen); [lia|done|lia|lia|].
  pose proof (send_loop_wire (S (length (w_script w))) (tcp_client_flush pton) c (w_wire w) req 0 Hb
    ltac:(lia) (c, w)) as Hwire.
  change (reconnect_with pton (tcp_client_flush pton)) with (tcp_client_reconnect pton) in Hwire.
  rewrite Hloop in Hwire. specialize (Hwire ltac:(split; [done|apply wrote_nil])). simpl in Hwire.
  unfold mbind at 1, KM_bind at 1, send_all. cbn [snd]. rewrite Hloop.
  pose proof (send_tail_wire c (w_wire w) req (c, w1) Hwire) as Ht. destruct w1 as [fds maps wire e script].
  revert Ht. unfold update, sys_ret, syscall, mret, KM_ret, mbind, KM_bind. simpl in *.
  destruct script as [|a1 [|a2 script]]; simpl in *; [lia|lia|].
  inversion Haw as [|? ? H1 H2]; subst. inversion H2; subst. ztest. intros (_ & Hw & _).
  eexists. split_and!; [reflexivity|exact Hw|done|simpl; lia].
Qed.

(** C29: sending terminates and delivers when the kernel accepts data: with a
    connected client whose send buffer is empty, a request of less than 65536
    bytes (a larger one is refused) and system calls that
    each succeed with a positive result (so at least one byte per [send]),
    [tcp_client_send] returns the length of the request after at most as many
    [send] calls as the request has bytes, and the request, whole and once, is
    what it has put on the wire of its socket. *)
Theorem tcp_send_completes (c : tcp_client) (w : world) (data : bytes) (len : Z) :
  let req := http_request (t_server_ip c) data len in
  t_is_connected c = true -> t_send_buffer_len c = 0 -> 0 < len -> zlen req < 65536 ->
  accepting (w_script w) -> zlen req + 2 <= zlen (w_script w) ->
  exists st', tcp_client_send pton data len (c, w) = Some (zlen req, st') /\
    wrote (w_wire w) (t_sock_fd c) req (w_wire st'.2).
Proof.
  intros req Hc Hb Hl Hsz Ha Hs. destruct (send_delivers c w data len Hc Hb Hl Hsz Ha Hs) as (w' & E & Hw & _).
  by eexists.
Qed.

(** The peek of a connection that has something to read. *)
Lemma is_connected_accepting c w :
  t_is_connected c = true -> 0 <= t_sock_fd c -> accepting (w_script w) -> 0 < zlen (w_script w) ->
  exists e, tcp_client_is_connected (c, w) = Some (true, (c, with_script e (tail (w_script w)) w)).
Proof.
  intros Hc Hs Ha Hl. destruct w as [fds maps wire e script]. simpl in *.
  destruct script as [|a script]; [simpl in Hl; lia|]. inversion Ha as [|? ? H1 H2]; subst.
  unfold tcp_client_is_connected, sys_ret, syscall, errno, client, mbind, KM_bind, mret, KM_ret. simpl.
  rewrite Hc. ztest. simpl. ztest. simpl. ztest. by eexists.
Qed.

(** ** Calls in any order *)

Inductive call : Type :=
| Disconnect | Reconnect | Send (data : bytes) (len : Z) | Flush | IsConnected | Connect.

Definition run_call (k : call) : M unit :=
  match k with
  | Disconnect => tcp_client_disconnect pton
  | Reconnect => _ ← tcp_client_reconnect pton; mret tt
  | Send d n => _ ← tcp_client_send pton d n; mret tt
  | Flush => _ ← tcp_client_flush pton; mret tt
  | IsConnected => _ ← tcp_client_is_connected; mret tt
  | Connect => _ ← tcp_client_connect pton; mret tt
  end.

(** The socket a call gives up without closing it: [tcp_client_connect] on a
    client that is not connected but still has a socket (a connection found
    lost) replaces it. *)
Definition abandoned (k : call) (c : tcp_client) : gset Z :=
  match k with
  | Connect => if negb (t_is_connected c) && (0 <=? t_sock_fd c) then {[t_sock_fd c]} else ∅
  | _ => ∅
  end.

(** Any call, with the set of the sockets given up so far. *)
Inductive client_step : gset Z * state -> gset Z * state -> Prop :=
| step_call k L st st' :
    run_call k st = Some (tt, st') -> client_step (L, st) (abandoned k st.1 ∪ L, st').

Lemma call_keeps_inv F k : k <> Connect -> triple (inv F) (run_call k) (fun _ => inv F).
Proof.
  intros Hk. destruct k; simpl; try done;
    try (apply (triple_bind _ _ _ (fun _ => inv F)); [|intros ?; by apply triple_ret]).
  - eapply triple_conseq with (P' := fun st => exists k, inv F st /\ fixed k st)
      (Q' := fun _ st => exists k, shut F k st); [|intros st H; by eexists|by intros ? st (k & [[Hi _] _])].
    intros st (k & Hst). pose proof (disconnect_spec F k (tcp_client_flush pton) st Hst) as H.
    unfold tcp_client_disconnect. destruct (disconnect_with _ st) as [[? ?]|]; [by exists k|done].
  - apply reconnect_spec.
  - apply send_spec.
  - eapply triple_conseq; [apply (flush_spec F 0)|done|by intros ?? []].
  - apply is_connected_spec.
Qed.

Lemma connect_keeps_inv F st st' :
  inv F st -> (t_is_connected st.1 = true \/ t_sock_fd st.1 = -1) ->
  run_call Connect st = Some (tt, st') -> inv F st'.
Proof.
  intros Hi Hc Hrun. simpl in Hrun. unfold mbind, KM_bind in Hrun.
  destruct (t_is_connected st.1) eqn:E.
  - unfold tcp_client_connect, mbind, KM_bind, client in Hrun. rewrite E in Hrun.
    unfold mret, KM_ret in Hrun. by injection Hrun as <-.
  - destruct Hc as [?|Hs]; [done|].
    pose proof (connect_spec F (t_reconnect_retries st.1) (t_last_reconnect_time st.1)
      (t_auto_reconnect st.1) st) as H.
    destruct (tcp_client_connect pton st) as [[r st1]|]; [|done]. injection Hrun as <-.
    destruct H as [(_ & H & _)|[_ [[H _] _]]]; [|done|done]. split; [|done]. done.
Qed.

Lemma init_inv F c w ok ip port auto :
  tcp_client_init ok ip port auto = Some c -> w_fds w = F -> inv F (c, w).
Proof.
  unfold tcp_client_init. destruct (_ || _); [done|]. destruct (negb ok); [done|].
  intros [= <-] Hw. by constructor.
Qed.

(** [tcp_client_connect] on a client whose connection was found lost (not
    connected, socket still open) leaks the old descriptor: whatever the kernel
    answers, the old socket stays open and no longer belongs to the client. *)
Lemma connect_after_loss_leaks (F : gset Z) (c : tcp_client) (w : world) (r : Z) (st' : state) :
  inv F (c, w) -> t_is_connected c = false -> 0 <= t_sock_fd c ->
  tcp_client_connect pton (c, w) = Some (r, st') ->
  inv ({[t_sock_fd c]} ∪ F) st' /\ t_sock_fd c ∈ w_fds st'.2 /\ t_sock_fd st'.1 <> t_sock_fd c.
Proof.
  intros Hi Hc Hs Hrun. set (old := t_sock_fd c) in *.
  assert (Hsame : tcp_client_connect pton (c, w) = tcp_client_connect pton (set_sock (-1) c, w)).
  { unfold tcp_client_connect, mbind, KM_bind, client. cbn [fst]. rewrite Hc. cbn [t_is_connected set_sock].
    rewrite Hc. unfold tcp_client_try_connect, sys_newfd, mbind, KM_bind, syscall, update.
    destruct (w_script w) as [|a s]; [done|]. destruct (a_ret a <? 0); done. }
  rewrite Hsame in Hrun.
  pose proof (connect_spec ({[old]} ∪ F) (t_reconnect_retries c) (t_last_reconnect_time c)
    (t_auto_reconnect c) (set_sock (-1) c, w)) as H.
  rewrite Hrun in H. destruct Hi as [Ho H2 H3 H4 H5]. simpl in *. unfold owns in Ho.
  rewrite (proj2 (Z.leb_le 0 _)) in Ho by done. destruct Ho as [Ho Hn].
  assert (Hinv : inv ({[old]} ∪ F) st').
  { destruct H as [(_ & H & _)|[_ [[H _] _]]]; [|done|done].
    split; [|done]. split; [|done]. constructor; simpl; try done. by rewrite Hc. }
  split; [done|]. destruct Hinv as [Ho' _ _ _ _]. unfold owns in Ho'.
  destruct (Z.leb_spec 0 (t_sock_fd st'.1)) as [Hp|Hp]; destruct Ho' as [Ho1 Ho2].
  - rewrite Ho1. split; [apply elem_of_union_r, elem_of_union_l, elem_of_singleton; done|].
    intros Heq. apply Ho2. rewrite Heq. apply elem_of_union_l, elem_of_singleton. done.
  - rewrite Ho2. split; [apply elem_of_union_l, elem_of_singleton; done|lia].
Qed.

Lemma call_inv F k st st' :
  inv F st -> run_call k st = Some (tt, st') ->
  inv (abandoned k st.1 ∪ F) st' /\ (forall fd, fd ∈ abandoned k st.1 -> fd ∉ F).
Proof.
  intros Hi Hrun. assert (Hk : k = Connect \/ k <> Connect) by (destruct k; auto).
  destruct Hk as [->|Hk].
  - destruct st as [c w]. cbn [abandoned fst]. destruct (t_is_connected c) eqn:Ec; simpl (negb _ && _).
    { rewrite union_empty_l_L. split; [|set_solver]. eapply connect_keeps_inv; [done|by left|done]. }
    destruct (Z.leb_spec 0 (t_sock_fd c)) as [Hs|Hs].
    + simpl in Hrun. unfold mbind, KM_bind in Hrun.
      destruct (tcp_client_connect pton (c, w)) as [[r st1]|] eqn:E; [|done]. injection Hrun as <-.
      destruct (connect_after_loss_leaks F c w r st1 Hi Ec Hs E) as [H _]. split; [done|].
      destruct Hi as [Ho _ _ _ _]. unfold owns in Ho. cbn [fst] in Ho.
      rewrite (proj2 (Z.leb_le 0 _)) in Ho by done. destruct Ho as [_ Hn]. set_solver.
    + rewrite union_empty_l_L. split; [|set_solver]. eapply connect_keeps_inv; [done| |done]. right.
      destruct Hi as [Ho _ _ _ _]. unfold owns in Ho. cbn [fst] in *.
      rewrite (proj2 (Z.leb_gt 0 _)) in Ho by done. apply Ho.
  - assert (abandoned k st.1 = ∅) as -> by (by destruct k). rewrite union_empty_l_L. split; [|set_solver].
    pose proof (call_keeps_inv F k Hk st Hi) as H. by rewrite Hrun in H.
Qed.

(** C10: the client's invariant.  From [tcp_client_init], whatever public calls
    follow in whatever order and whatever the kernel answers: the open
    descriptors are those of the rest of the process, the client's socket and
    the sockets given up by [tcp_client_connect] on a client whose connection
    was found lost (its one leak; none is given up by any other call); so no
    descriptor of another owner is closed or taken over.  A connected client
    has a socket; the retry count stays within 0 and 10 with the delay that
    belongs to it; the send buffer stays empty. *)
Theorem client_reachable_inv (ok : bool) (ip : bytes) (port : Z) (auto : bool)
    (c : tcp_client) (w : world) (L : gset Z) (st : state) :
  tcp_client_init ok ip port auto = Some c ->
  rtc client_step (∅, (c, w)) (L, st) ->
  inv (L ∪ w_fds w) st /\ L ## w_fds w.
Proof.
  intros Hinit Hrun. assert (H0 : inv (∅ ∪ w_fds w) (c, w)).
  { rewrite union_empty_l_L. by eapply init_inv. }
  assert (Hd : ∅ ## w_fds w) by set_solver. revert H0 Hd. generalize (w_fds w). intros F.
  revert Hrun. generalize (∅ : gset Z) (c, w). intros L0 s0 Hrun.
  remember (L0, s0) as x eqn:Ex. remember (L, st) as y eqn:Ey. revert L0 s0 Ex.
  induction Hrun as [s|s s1 s2 Hstep _ IH]; intros L0 s0 Ex H0 Hd; [subst; by simplify_eq|].
  destruct Hstep as [k L1 st0 st1 Hrun]. simplify_eq.
  destruct (call_inv (L0 ∪ F) k s0 st1 H0 Hrun) as [Hi Hn].
  eapply (IH eq_refl); [reflexivity|by rewrite <- union_assoc_L|set_solver].
Qed.

(** ** Backoff *)

Lemma backoff_delay n :
  0 <= n <= 10 ->
  calculate_backoff_delay n RECONNECT_INITIAL_DELAY_MS RECONNECT_MAX_DELAY_MS = Z.min (1000 * 2 ^ n) 30000.
Proof.
  intros Hn. destruct (Z.le_gt_cases n 4).
  - assert (H4 : n = 4 \/ n = 2 \/ n = 0 \/ n = 3 \/ n = 1) by lia.
    by repeat destruct H4 as [->|H4]; [..|subst].
  - assert (H9 : n = 10 \/ n = 8 \/ n = 6 \/ n = 9 \/ n = 7 \/ n = 5) by lia.
    by repeat destruct H9 as [->|H9]; [..|subst].
Qed.

(** The three outcomes of a call of [tcp_client_reconnect]. *)
Inductive reconnect_outcome (c : tcp_client) (now : Z) : Z -> tcp_client -> Prop :=
| too_early :
    0 < t_last_reconnect_time c -> u64 (now - t_last_reconnect_time c) < t_reconnect_delay_ms c ->
    reconnect_outcome c now (-1) c
| gave_up :
    t_reconnect_retries c = 10 -> reconnect_outcome c now (-1) (set_last_reconnect now c)
| succeeded c' :
    t_reconnect_retries c < 10 -> t_is_connected c' = true -> t_reconnect_retries c' = 0 ->
    t_reconnect_delay_ms c' = 1000 -> t_last_reconnect_time c' = now ->
    reconnect_outcome c now 0 c'
| failed c' :
    t_reconnect_retries c < 10 -> t_is_connected c' = false ->
    t_reconnect_retries c' = t_reconnect_retries c + 1 ->
    t_reconnect_delay_ms c' = Z.min (1000 * 2 ^ (t_reconnect_retries c + 1)) 30000 ->
    t_last_reconnect_time c' = now -> reconnect_outcome c now (-1) c'.

Lemma reconnect_outcomes F c w r st' :
  inv F (c, w) -> t_auto_reconnect c = true ->
  tcp_client_reconnect pton (c, w) = Some (r, st') ->
  exists a script, w_script w = a :: script /\
    reconnect_outcome c (now_ms (a_ret a, a_val a)) r st'.1.
Proof.
  intros Hi Hauto Hrun. unfold tcp_client_reconnect, reconnect_with in Hrun.
  unfold mbind at 1, KM_bind at 1, client at 1 in Hrun. cbn [fst] in Hrun. rewrite Hauto in Hrun.
  cbn [negb] in Hrun. unfold mbind at 1, KM_bind at 1, sys_clock, mbind at 1, KM_bind at 1, syscall in Hrun.
  destruct (w_script w) as [|a script] eqn:Hs; [done|]. exists a, script. split; [done|].
  set (now := now_ms (a_ret a, a_val a)) in *. unfold mret at 1, KM_ret at 1 in Hrun. cbv zeta in Hrun.
  fold now in Hrun.
  destruct (Z.ltb_spec 0 (t_last_reconnect_time c)) as [Hl|Hl];
  destruct (Z.ltb_spec (u64 (now - t_last_reconnect_time c)) (t_reconnect_delay_ms c)) as [Hd|Hd];
    cbn [andb] in Hrun;
    try (injection Hrun as <- <-; by apply too_early).
  all: unfold mbind at 1, KM_bind at 1, update in Hrun; cbn [fst snd] in Hrun;
    pose proof (iv_retries _ _ Hi) as Hr; cbn [fst] in Hr;
    destruct (Z.leb_spec RECONNECT_MAX_RETRIES (t_reconnect_retries c)) as [Hm|Hm];
    unfold RECONNECT_MAX_RETRIES in Hm;
    [injection Hrun as <- <-; apply gave_up; lia|].
  all: match type of Hrun with reconnect_attempt _ ?fl ?st = _ =>
      pose proof (attempt_spec F (t_reconnect_retries c) now (t_auto_reconnect c) fl Hm st) as H end;
    rewrite Hrun in H;
    (destruct H as (Hi' & H); [split; [by destruct Hi; constructor|done]|]);
    pose proof (iv_delay _ _ Hi') as Hdel;
    destruct H as [(-> & Hc & Hk)|(-> & Hc & Hk)]; unfold fixed in Hk; injection Hk as Hk1 Hk2 Hk3;
    rewrite Hk1, backoff_delay in Hdel by lia.
  all: first [by apply succeeded | by apply failed].
Qed.

(** Reconnection and its backoff.  An attempt is made only when the delay
    has passed since the last one; a success resets the retry count and sets
    the delay to 1 s; after a failure the delay is [min (1000 * 2^n, 30000)] ms
    with [n] the number of failures since, so it starts at 2 s; with ten
    failures no attempt is made. *)
Lemma reconnect_backoff (F : gset Z) (c : tcp_client) (w : world) (r : Z) (st' : state) :
  inv F (c, w) -> t_auto_reconnect c = true ->
  tcp_client_reconnect pton (c, w) = Some (r, st') ->
  exists a script, w_script w = a :: script /\
    reconnect_outcome c (now_ms (a_ret a, a_val a)) r st'.1.
Proof. apply reconnect_outcomes. Qed.

(** ** Giving up *)

(** Ten failures, not connected; what is open and what was sent. *)
Definition given_up (F D : gset Z) (W : list (Z * bytes)) (st : state) : Prop :=
  inv F st /\ t_reconnect_retries st.1 = 10 /\ t_is_connected st.1 = false /\
  w_fds st.2 = D /\ w_wire st.2 = W.

Lemma given_up_stable F D W : stable (given_up F D W).
Proof. intros c w e s (Hi & H). split; [by apply inv_stable|done]. Qed.

Lemma reconnect_given_up F D W flush : keeps (given_up F D W) (reconnect_with pton flush).
Proof.
  apply triple_client. intros c. apply triple_if; intros _; [by apply triple_ret; intros st []|].
  eapply triple_bind; [apply triple_sys_pair, and_client_stable, given_up_stable|].
  intros t. cbv zeta. apply triple_if; intros _; [by apply triple_ret; intros st []|].
  intros [c' w] [H Hc]. simpl in Hc. subst c'. pose proof H as (_ & Hr & _). simpl in Hr.
  unfold mbind, KM_bind, update. simpl. rewrite Hr. simpl.
  destruct H as (Hi & H). split; [destruct Hi; by constructor|done].
Qed.

Lemma send_given_up F D W flush data len :
  keeps (given_up F D W) (send_with (reconnect_with pton flush) data len).
Proof.
  unfold send_with. apply keeps_if.
  { apply keeps_bind; [apply triple_set_errno, given_up_stable|]. intros ?. apply keeps_ret. }
  apply keeps_bind; [apply keeps_client|]. intros c. apply keeps_bind.
  { repeat apply keeps_if; try apply keeps_ret. apply reconnect_given_up. }
  intros r. apply triple_client. intros c'. destruct (t_is_connected c') eqn:E.
  - intros st [(_ & _ & H & _) Hc]. congruence.
  - simpl. eapply (triple_pre _ (given_up F D W)); [|by intros st []].
    eapply triple_bind; [apply triple_set_errno, given_up_stable|]. intros ?. by apply triple_ret.
Qed.

Lemma is_connected_given_up F D W : keeps (given_up F D W) tcp_client_is_connected.
Proof.
  apply triple_client. intros c. destruct (t_is_connected c) eqn:E.
  - intros st [(_ & _ & H & _) Hc]. congruence.
  - simpl. apply triple_ret. by intros st [].
Qed.

(** The calls of the main loop. *)
Inductive main_step : state -> state -> Prop :=
| main_call k st st' :
    k = IsConnected \/ k = Reconnect \/ (exists d n, k = Send d n) ->
    run_call k st = Some (tt, st') -> main_step st st'.

(** C30: after ten failed attempts the client gives up for good: whatever the
    main loop calls from then on and whatever the kernel answers, it opens no
    socket, sends nothing and stays disconnected. *)
Theorem gives_up_for_good (F : gset Z) (st st' : state) :
  inv F st -> t_reconnect_retries st.1 = 10 -> t_is_connected st.1 = false ->
  rtc main_step st st' ->
  t_is_connected st'.1 = false /\ t_reconnect_retries st'.1 = 10 /\
  w_fds st'.2 = w_fds st.2 /\ w_wire st'.2 = w_wire st.2.
Proof.
  intros Hi Hr Hc Hrun. cut (given_up F (w_fds st.2) (w_wire st.2) st'); [by intros (_ & ? & ? & ? & ?)|].
  assert (H0 : given_up F (w_fds st.2) (w_wire st.2) st) by done. revert H0.
  generalize (w_fds st.2), (w_wire st.2). intros D W. clear Hi Hr Hc.
  induction Hrun as [s|s s1 s2 [k s0 s1' Hk Hrun] _ IH]; intros H0; [done|]. apply IH.
  cut (keeps (given_up F D W) (run_call k)); [intros Hkeep; specialize (Hkeep s0 H0); by rewrite Hrun in Hkeep|].
  destruct Hk as [-> | [-> | (d & n & ->)]]; simpl; (apply keeps_bind; [|intros ?; apply keeps_ret]).
  - apply is_connected_given_up.
  - apply reconnect_given_up.
  - apply send_given_up.
Qed.
End with_pton.

(** ** Witnesses *)

Definition others : gset Z := {[0; 1; 2]}.

Definition demo_client (fd : Z) (connected : bool) (retries : Z) : tcp_client :=
  mk_client fd (lit "10.115.69.95" ++ [0; 0; 0; 0]) 9104 connected true retries
    (calculate_backoff_delay retries 1000 30000) 5000 true [] 0 0 0 0 0.

Definition demo_world (fds : gset Z) (script : list answer) : world := mk_world fds ∅ [] 0 script.

Lemma demo_inv fd connected retries script :
  3 <= fd -> 0 <= retries <= 10 ->
  inv others (demo_client fd connected retries, demo_world ({[fd]} ∪ others) script).
Proof.
  intros Hfd Hr. constructor; simpl; try done; [|lia].
  unfold owns. ztest. split; [done|]. unfold others. rewrite !elem_of_union, !elem_of_singleton. lia.
Qed.

Lemma demo_inv_closed retries script :
  0 <= retries <= 10 -> inv others (demo_client (-1) false retries, demo_world others script).
Proof. intros Hr. by constructor. Qed.

Lemma tcp_send_wire_witness :
  let c := demo_client 3 true 0 in
  let w := demo_world ({[3]} ∪ others) [Ans 100 0; Ans (-1) EAGAIN; Ans 0 0] in
  exists st', tcp_client_send (fun _ => true) (lit "[]") 2 (c, w) = Some (100, st') /\
    exists n, wrote [] 3 (take (Z.to_nat n) (http_request (t_server_ip c) (lit "[]") 2)) (w_wire st'.2).
Proof.
  intros c w. destruct (tcp_client_send (fun _ => true) (lit "[]") 2 (c, w)) as [[r st']|] eqn:E;
    [|vm_compute in E; discriminate E].
  assert (Hr : r = 100) by (vm_compute in E; injection E as <- _; reflexivity). subst r.
  exists st'. split; [reflexivity|].
  pose proof (tcp_send_wire (fun _ => true) others c w (lit "[]") 2 100 st'
    (demo_inv 3 true 0 _ ltac:(lia) ltac:(lia)) eq_refl ltac:(lia) E) as H.
  destruct H as (n & _ & H & _). exists n. exact H.
Defined.

Lemma tcp_send_completes_witness :
  exists st', tcp_client_send (fun _ => true) (lit "[]") 2
    (demo_client 3 true 0, demo_world ({[3]} ∪ others) (replicate 200 (Ans 1 0))) =
    Some (zlen (http_request (t_server_ip (demo_client 3 true 0)) (lit "[]") 2), st') /\
    wrote (w_wire (demo_world ({[3]} ∪ others) (replicate 200 (Ans 1 0)))) 3
      (http_request (t_server_ip (demo_client 3 true 0)) (lit "[]") 2) (w_wire st'.2).
Proof.
  apply (tcp_send_completes (fun _ => true) (demo_client 3 true 0)
    (demo_world ({[3]} ∪ others) (replicate 200 (Ans 1 0))) (lit "[]") 2).
  - reflexivity.
  - reflexivity.
  - lia.
  - vm_compute. reflexivity.
  - apply Forall_replicate. simpl. lia.
  - vm_compute. discriminate.
Defined.

Lemma client_reachable_inv_witness :
  exists c st, tcp_client_init true (lit "10.0.0.1") 9104 true = Some c /\
    rtc (client_step (fun _ => true)) (∅, (c, demo_world others [Ans 0 0; Ans 0 0; Ans 0 0; Ans 0 0])) (∅, st) /\
    inv (∅ ∪ others) st /\ t_is_connected st.1 = true.
Proof.
  destruct (tcp_client_init true (lit "10.0.0.1") 9104 true) as [c|] eqn:E; [|discriminate E].
  destruct (run_call (fun _ => true) Connect (c, demo_world others [Ans 0 0; Ans 0 0; Ans 0 0; Ans 0 0]))
    as [[[] st]|] eqn:R; [|injection E as <-; discriminate R].
  exists c, st. split; [reflexivity|].
  assert (Hrtc : rtc (client_step (fun _ => true))
    (∅, (c, demo_world others [Ans 0 0; Ans 0 0; Ans 0 0; Ans 0 0])) (∅, st)).
  { assert (Ha : abandoned Connect c ∪ ∅ = (∅ : gset Z)) by (injection E as <-; reflexivity).
    apply rtc_once. rewrite <- Ha at 2. exact (step_call (fun _ => true) Connect ∅ _ st R). }
  split; [exact Hrtc|]. split.
  - exact (proj1 (client_reachable_inv (fun _ => true) true (lit "10.0.0.1") 9104 true c
      (demo_world others [Ans 0 0; Ans 0 0; Ans 0 0; Ans 0 0]) ∅ st E Hrtc)).
  - injection E as <-. injection R as <-. reflexivity.
Defined.

Lemma connect_after_loss_leaks_witness :
  exists r st', tcp_client_connect (fun _ => true)
      (demo_client 3 false 0, demo_world ({[3]} ∪ others) [Ans 0 0; Ans 0 0; Ans 0 0; Ans 0 0])
    = Some (r, st') /\ 3 ∈ w_fds st'.2 /\ t_sock_fd st'.1 <> 3.
Proof.
  destruct (tcp_client_connect (fun _ => true)
    (demo_client 3 false 0, demo_world ({[3]} ∪ others) [Ans 0 0; Ans 0 0; Ans 0 0; Ans 0 0]))
    as [[r st']|] eqn:E; [|vm_compute in E; discriminate E].
  exists r, st'. split; [reflexivity|].
  apply (connect_after_loss_leaks (fun _ => true) others (demo_client 3 false 0)
    (demo_world ({[3]} ∪ others) [Ans 0 0; Ans 0 0; Ans 0 0; Ans 0 0]) r st'
    (demo_inv 3 false 0 _ ltac:(lia) ltac:(lia)) eq_refl ltac:(simpl; lia) E).
Defined.

(** The first failure: the next attempt is due after 2 s. *)
Lemma reconnect_backoff_witness :
  exists st', tcp_client_reconnect (fun _ => true)
      (demo_client (-1) false 0, demo_world others [Ans 60 0; Ans (-1) 24]) = Some (-1, st') /\
    t_reconnect_delay_ms st'.1 = 2000.
Proof.
  destruct (tcp_client_reconnect (fun _ => true)
    (demo_client (-1) false 0, demo_world others [Ans 60 0; Ans (-1) 24])) as [[r st']|] eqn:E;
    [|vm_compute in E; discriminate E].
  pose proof (reconnect_backoff (fun _ => true) others (demo_client (-1) false 0)
    (demo_world others [Ans 60 0; Ans (-1) 24]) r st' (demo_inv_closed 0 _ ltac:(lia)) eq_refl E) as H.
  exists st'. split; vm_compute in E; injection E as <- <-; reflexivity.
Defined.

Lemma gives_up_for_good_witness :
  exists st', rtc (main_step (fun _ => true))
      (demo_client (-1) false 10, demo_world others [Ans 100 0]) st' /\
    t_is_connected st'.1 = false /\ w_fds st'.2 = others.
Proof.
  destruct (run_call (fun _ => true) Reconnect (demo_client (-1) false 10, demo_world others [Ans 100 0]))
    as [[[] st']|] eqn:E; [|vm_compute in E; discriminate E].
  assert (Hrtc : rtc (main_step (fun _ => true))
    (demo_client (-1) false 10, demo_world others [Ans 100 0]) st').
  { apply rtc_once. apply (main_call _ Reconnect); [right; left; reflexivity|exact E]. }
  exists st'. split; [exact Hrtc|].
  destruct (gives_up_for_good (fun _ => true) others _ _ (demo_inv_closed 10 _ ltac:(lia)) eq_refl eq_refl Hrtc)
    as (H1 & _ & H2 & _). split; [exact H1|exact H2].
Defined.
