(* ===== verification/Elf.v ===== *)
(** Elf: [parse_bpf_elf] of src/bpf_loader.c.

    The object file is its bytes; a [FILE *] is the bytes and the position.
    [fread] into a variable either fills it or leaves it indeterminate: the use
    of an indeterminate variable is [Undefined], as are a signed overflow and
    the printing of bytes outside the section.  The width of [long] and
    [size_t] is a parameter: 32 on the ARM target, 64 on a server. *)

From stdpp Require Import base list strings numbers option.
From S2P Require Import Prelude CLib PacketParser.

(** ** Streams *)

Record stream : Type := mk_stream { f_data : bytes; f_pos : Z }.

(** Unsigned little-endian value of a byte string. *)
Definition le_val (bs : bytes) : Z := foldr (fun b a => b + 256 * a) 0 bs.

(** [fread(dst, 1, n, f)]: the bytes that could be read. *)
Definition fread (n : nat) (f : stream) : bytes * stream :=
  let got := take n (drop (Z.to_nat (f_pos f)) (f_data f)) in
  (got, mk_stream (f_data f) (f_pos f + zlen got)).

(** [fread(&x, n, 1, f)]: [None] when [x] is left indeterminate. *)
Definition fread_var (n : nat) (f : stream) : option Z * stream :=
  let '(got, f) := fread n f in
  (if Nat.eqb (length got) n then Some (le_val got) else None, f).

Definition use (x : option Z) : exec Z :=
  match x with Some v => Done v | None => Undefined end.

(** [fseek(f, off, SEEK_CUR)] with a constant. *)
Definition seek_cur (off : Z) (f : stream) : stream := mk_stream (f_data f) (f_pos f + off).

(** Product of two [int]. *)
Definition int_mul (a b : Z) : exec Z :=
  if (- 2 ^ 31 <=? a * b) && (a * b <? 2 ^ 31) then Done (a * b) else Undefined.

Definition starts_with (needle hay : bytes) : bool := bool_decide (take (length needle) hay = needle).

(** [strstr(hay, needle) != NULL]. *)
Fixpoint strstr_go (hay needle : bytes) : bool :=
  starts_with needle hay ||
  match hay with [] => false | _ :: hay' => strstr_go hay' needle end.
Definition strstr (hay needle : bytes) : bool := strstr_go (cstr hay) needle.

(** The section is not the one, the function returns -1, or the program. *)
Inductive outcome : Type :=
| Next
| Fail
| Program (insns : bytes) (insn_cnt : Z).

Section elf.
(** Bits of [long] and of [size_t]; whether [malloc] of a size succeeds. *)
Context (LONG : Z) (malloc_ok : Z -> bool).

(** Conversion of an unsigned 64-bit offset to [long]. *)
Definition to_long (z : Z) : Z := (z + 2 ^ (LONG - 1)) mod 2 ^ LONG - 2 ^ (LONG - 1).
Definition to_size (z : Z) : Z := z mod 2 ^ LONG.

(** [fseek(f, off, SEEK_SET)]: a negative offset is refused. *)
Definition seek_set (off : Z) (f : stream) : stream :=
  let o := to_long off in if o <? 0 then f else mk_stream (f_data f) o.

Definition load_section (sh_offset sh_size : Z) (f : stream) : exec (outcome * stream) :=
  let size := to_size sh_size in
  if negb (malloc_ok size) then Done (Fail, f) else
  let f := seek_set sh_offset f in
  let '(insns, f) := fread (Z.to_nat size) f in
  if negb (zlen insns =? sh_size) then Done (Fail, f) else
  _ ← mapM (rd insns) [0; 1; 2; 3; 4; 5; 6; 7];
  Done (Program insns (s32 (sh_size / 8)), f).

(** The header of section [i]: the offset and the size of the section when it
    holds the program. *)
Definition section_found (e_shoff e_shentsize : Z) (e_shstrndx : option Z) (i : Z) (f : stream)
  : exec (option (Z * Z) * stream) :=
  off ← int_mul i e_shentsize;
  let f := seek_set (u64 (e_shoff + off)) f in
  let '(sh_name, f) := fread_var 4 f in
  let '(sh_type, f) := fread_var 4 f in
  let f := seek_cur (8 + 8) f in
  let '(sh_offset, f) := fread_var 8 f in
  let '(sh_size, f) := fread_var 8 f in
  type ← use sh_type;
  if negb (type =? 1) then Done (None, f) else
  size ← use sh_size;
  if negb (0 <? size) then Done (None, f) else
  strndx ← use e_shstrndx;
  stroff ← int_mul strndx e_shentsize;
  let f := seek_set (u64 (e_shoff + (stroff + 24))) f in
  let '(str_off, f) := fread_var 8 f in
  str_off ← use str_off;
  name_off ← use sh_name;
  let f := seek_set (u64 (str_off + name_off)) f in
  let '(chars, f) := fread 31 f in
  let name := blit (replicate 32 0) 0 chars in
  if strstr name (lit "text") || strstr name (lit "socket") then
    sh_offset ← use sh_offset;
    Done (Some (sh_offset, size), f)
  else Done (None, f).

Definition parse_section (e_shoff e_shentsize : Z) (e_shstrndx : option Z) (i : Z) (f : stream)
  : exec (outcome * stream) :=
  '(found, f) ← section_found e_shoff e_shentsize e_shstrndx i f;
  match found with
  | None => Done (Next, f)
  | Some (sh_offset, sh_size) => load_section sh_offset sh_size f
  end.

(** [for (int i = 0; i < e_shnum; i++)], from [i], [n] sections to go. *)
Fixpoint parse_sections (n : nat) (e_shoff e_shentsize : Z) (e_shstrndx : option Z) (i : Z)
    (f : stream)
  : exec outcome :=
  match n with
  | O => Done Fail
  | S n =>
      '(r, f) ← parse_section e_shoff e_shentsize e_shstrndx i f;
      match r with
      | Next => parse_sections n e_shoff e_shentsize e_shstrndx (i + 1) f
      | _ => Done r
      end
  end.

(** The fields of the ELF64 header, read in order. *)
Definition parse_header (f : stream) : option Z * option Z * option Z * option Z * stream :=
  let f := mk_stream (f_data f) 16 in
  let '(_, f) := fread_var 2 f in
  let '(_, f) := fread_var 2 f in
  let f := seek_cur (4 + 8 + 8) f in
  let '(e_shoff, f) := fread_var 8 f in
  let f := seek_cur (4 + 2 + 2 + 2) f in
  let '(e_shentsize, f) := fread_var 2 f in
  let '(e_shnum, f) := fread_var 2 f in
  let '(e_shstrndx, f) := fread_var 2 f in
  (e_shoff, e_shentsize, e_shnum, e_shstrndx, f).

Definition elf_magic (e_ident : bytes) : bool :=
  bool_decide (take 4 e_ident = [0x7f; 69; 76; 70]) &&
  (byte_at e_ident 4 =? 2) && (byte_at e_ident 5 =? 1).

(** [Some] of the instructions and their number when it returns 0. *)
Definition parse_bpf_elf (file : option bytes) : exec (option (bytes * Z)) :=
  match file with
  | None => Done None
  | Some data =>
      let '(e_ident, f) := fread 16 (mk_stream data 0) in
      if negb (Nat.eqb (length e_ident) 16) then Done None
      else if negb (elf_magic e_ident) then Done None
      else
        let '(e_shoff, e_shentsize, e_shnum, e_shstrndx, f) := parse_header f in
        n ← use e_shnum;
        r ← (if n =? 0 then Done Fail else
             shoff ← use e_shoff;
             entsize ← use e_shentsize;
             parse_sections (Z.to_nat n) shoff entsize e_shstrndx 0 f);
        Done (match r with Program insns cnt => Some (insns, cnt) | _ => None end)
  end.

(** ** What the parser is meant to find

    The object file read by offsets. *)

Definition le_at (d : bytes) (off : Z) (n : nat) : Z := le_val (take n (drop (Z.to_nat off) d)).

Section reference.
Context (d : bytes).

Definition e_shoff : Z := le_at d 40 8.
Definition e_shentsize : Z := le_at d 58 2.
Definition e_shnum : Z := le_at d 60 2.
Definition e_shstrndx : Z := le_at d 62 2.

(** Offset of section header [i], and its fields. *)
Definition shdr (i : Z) : Z := e_shoff + i * e_shentsize.
Definition sh_name (i : Z) : Z := le_at d (shdr i) 4.
Definition sh_type (i : Z) : Z := le_at d (shdr i + 4) 4.
Definition sh_offset (i : Z) : Z := le_at d (shdr i + 24) 8.
Definition sh_size (i : Z) : Z := le_at d (shdr i + 32) 8.
Definition section_name (i : Z) : bytes :=
  cstr (take 31 (drop (Z.to_nat (sh_offset e_shstrndx + sh_name i)) d)).

Definition nonempty_progbits (i : Z) : bool := (sh_type i =? 1) && (0 <? sh_size i).
Definition is_code (i : Z) : bool :=
  nonempty_progbits i &&
  (strstr_go (section_name i) (lit "text") || strstr_go (section_name i) (lit "socket")).

Definition section_bytes (i : Z) : bytes :=
  take (Z.to_nat (sh_size i)) (drop (Z.to_nat (sh_offset i)) d).

(** The first section of code. *)
Definition code_section : option Z := find (fun i => is_code i) (seqZ 0 e_shnum).

(** Headers and sections lie inside the file, and the file is under 2 GB. *)
Record elf_ok : Prop := mk_elf_ok {
  eo_bytes : Forall is_byte d;
  eo_small : zlen d < 2 ^ 31;
  eo_header : 64 <= zlen d;
  eo_magic : elf_magic (take 16 d) = true;
  eo_headers : forall i, 0 <= i < e_shnum -> shdr i + 40 <= zlen d;
  eo_strtab : shdr e_shstrndx + 40 <= zlen d;
  eo_names : forall i, 0 <= i < e_shnum -> nonempty_progbits i = true ->
    sh_offset e_shstrndx + sh_name i <= zlen d;
  eo_code : forall i, 0 <= i < e_shnum -> is_code i = true ->
    8 <= sh_size i /\ sh_offset i + sh_size i <= zlen d
}.
End reference.
End elf.

(** ** Reading by position and reading by offset *)

Lemma le_val_range bs : Forall is_byte bs -> 0 <= le_val bs < 256 ^ zlen bs.
Proof.
  induction 1 as [|b bs Hb _ IH]; [done|]. simpl length. rewrite Nat2Z.inj_succ, Z.pow_succ_r by lia.
  unfold is_byte in Hb. change (le_val (b :: bs)) with (b + 256 * le_val bs). lia.
Qed.

Lemma le_at_nonneg d off n : Forall is_byte d -> 0 <= le_at d off n.
Proof. intros Hd. apply le_val_range. by apply Forall_take, Forall_drop. Qed.

Lemma fread_var_ok n d pos :
  0 <= pos -> pos + Z.of_nat n <= zlen d ->
  fread_var n (mk_stream d pos) = (Some (le_at d pos n), mk_stream d (pos + Z.of_nat n)).
Proof.
  intros H1 H2. unfold fread_var, fread. simpl.
  assert (Hl : length (take n (drop (Z.to_nat pos) d)) = n) by (rewrite length_take, length_drop; lia).
  by rewrite Hl, Nat.eqb_refl.
Qed.

Lemma int_mul_ok a b : 0 <= a * b < 2 ^ 31 -> int_mul a b = Done (a * b).
Proof. intros H. unfold int_mul. by ztest. Qed.

Lemma cstr_app_zeros s k : cstr (s ++ replicate k 0) = cstr s.
Proof.
  induction s as [|c s IH]; simpl; [by destruct k|]. zcase; [done|]. by rewrite IH.
Qed.

(** [char name[32] = {0}] after an [fread] of at most 31 characters. *)
Lemma name_buffer chars : (length chars <= 31)%nat -> cstr (blit (replicate 32 0) 0 chars) = cstr chars.
Proof.
  intros H. unfold blit. rewrite take_0, drop_replicate. apply cstr_app_zeros.
Qed.

Section proofs.
Context (LONG : Z) (malloc_ok : Z -> bool).
Hypothesis LONG_wide : 32 <= LONG.
Hypothesis malloc_succeeds : forall n, malloc_ok n = true.

Lemma to_long_small z : 0 <= z < 2 ^ 31 -> to_long LONG z = z.
Proof.
  intros H. unfold to_long. assert (2 ^ 31 <= 2 ^ (LONG - 1)) by (apply Z.pow_le_mono_r; lia).
  assert (2 ^ LONG = 2 * 2 ^ (LONG - 1)) as -> by (rewrite <- Z.pow_succ_r by lia; f_equal; lia).
  rewrite Z.mod_small; lia.
Qed.

Lemma to_size_small z : 0 <= z < 2 ^ 31 -> to_size LONG z = z.
Proof.
  intros H. unfold to_size. assert (2 ^ 31 <= 2 ^ LONG) by (apply Z.pow_le_mono_r; lia).
  rewrite Z.mod_small; lia.
Qed.

Lemma seek_set_ok z d pos : 0 <= z < 2 ^ 31 -> seek_set LONG z (mk_stream d pos) = mk_stream d z.
Proof. intros H. unfold seek_set. rewrite to_long_small by done. by ztest. Qed.

(** The seven fields of the header, when it is complete. *)
Lemma parse_header_ok d pos :
  64 <= zlen d ->
  parse_header (mk_stream d pos) =
  (Some (e_shoff d), Some (e_shentsize d), Some (e_shnum d), Some (e_shstrndx d), mk_stream d 64).
Proof.
  intros H. unfold parse_header, seek_cur. simpl f_data.
  do 2 (rewrite fread_var_ok by lia). simpl f_data. simpl f_pos.
  rewrite fread_var_ok by lia. simpl f_data. simpl f_pos.
  do 3 (rewrite fread_var_ok by lia). done.
Qed.

Lemma mapM_rd_ok (l : bytes) :
  8 <= zlen l -> exists v, mapM (rd l) [0; 1; 2; 3; 4; 5; 6; 7] = Done v.
Proof.
  intros H.
  assert (Hk : forall k, 0 <= k < 8 -> exists x, rd l k = Done x)
    by (intros k Hk; destruct (rd_defined l k) as (x & Hx & _); [lia|eauto]).
  simpl.
  repeat match goal with
  | |- context [rd l ?k] => destruct (Hk k ltac:(lia)) as [? ->]; rewrite ?bind_Done
  end.
  eauto.
Qed.

Lemma load_section_ok d off size pos :
  zlen d < 2 ^ 31 -> 0 <= off -> 8 <= size -> off + size <= zlen d ->
  exists p, load_section LONG malloc_ok off size (mk_stream d pos) =
    Done (Program (take (Z.to_nat size) (drop (Z.to_nat off) d)) (s32 (size / 8)), mk_stream d p).
Proof.
  intros Hd Ho Hs Hb. unfold load_section. rewrite malloc_succeeds, to_size_small, seek_set_ok by lia.
  unfold fread. simpl f_data. simpl f_pos. cbn [negb].
  assert (Hl : zlen (take (Z.to_nat size) (drop (Z.to_nat off) d)) = size)
    by (rewrite length_take, length_drop; lia).
  rewrite Hl, Z.eqb_refl. cbn [negb].
  destruct (mapM_rd_ok (take (Z.to_nat size) (drop (Z.to_nat off) d))) as [v ->]; [lia|].
  rewrite bind_Done. eauto.
Qed.

(** The string table and the name of a section, found by position. *)
Lemma section_name_ok d i pos :
  elf_ok d -> 0 <= i < e_shnum d -> nonempty_progbits d i = true ->
  exists p, fread 31 (seek_set LONG (u64 (sh_offset d (e_shstrndx d) + sh_name d i)) (mk_stream d pos)) =
    (take 31 (drop (Z.to_nat (sh_offset d (e_shstrndx d) + sh_name d i)) d), mk_stream d p).
Proof.
  intros [Hb Hsm Hh Hm Hhd Hst Hnm Hcd] Hi Hp. specialize (Hnm i Hi Hp).
  assert (0 <= sh_offset d (e_shstrndx d) /\ 0 <= sh_name d i) by (split; by apply le_at_nonneg).
  rewrite u64_small, seek_set_ok by mlia. unfold fread. eauto.
Qed.

Lemma section_name_strstr d i needle :
  strstr (blit (replicate 32 0) 0 (take 31 (drop (Z.to_nat (sh_offset d (e_shstrndx d) + sh_name d i)) d)))
    needle = strstr_go (section_name d i) needle.
Proof. unfold strstr, section_name. by rewrite name_buffer by (rewrite length_take; lia). Qed.

(** One turn of the loop on a well-formed file. *)
Lemma section_found_ok d i pos :
  elf_ok d -> 0 <= i < e_shnum d ->
  exists p, section_found LONG (e_shoff d) (e_shentsize d) (Some (e_shstrndx d)) i (mk_stream d pos) =
    Done (if is_code d i then Some (sh_offset d i, sh_size d i) else None, mk_stream d p).
Proof.
  intros Hok Hi. pose proof Hok as [Hb Hsm Hh Hm Hhd Hst Hnm Hcd]. pose proof (Hhd i Hi) as Hi40.
  assert (Hle : forall off n, 0 <= le_at d off n) by (intros; by apply le_at_nonneg).
  assert (0 <= i * e_shentsize d) by (apply Z.mul_nonneg_nonneg; [lia|apply Hle]).
  assert (0 <= e_shstrndx d * e_shentsize d) by (apply Z.mul_nonneg_nonneg; apply Hle).
  pose proof (Hle 40 8%nat : 0 <= e_shoff d). unfold shdr in Hi40, Hst.
  unfold section_found. rewrite int_mul_ok, bind_Done, u64_small, seek_set_ok by mlia.
  unfold seek_cur. do 2 (rewrite fread_var_ok by lia). cbn [f_data f_pos].
  rewrite <- !Z.add_assoc. do 2 (rewrite fread_var_ok by lia). cbn [use]. rewrite !bind_Done.
  change (le_at d (e_shoff d + i * e_shentsize d) 4) with (sh_name d i).
  replace (le_at d _ 4) with (sh_type d i) by (unfold sh_type, shdr; f_equal; lia).
  replace (le_at d _ 8) with (sh_size d i) by (unfold sh_size, shdr; f_equal; lia).
  replace (le_at d _ 8) with (sh_offset d i) by (unfold sh_offset, shdr; f_equal; lia).
  match goal with |- context [mk_stream d ?q] => generalize q end. intros pos1.
  unfold is_code. destruct (nonempty_progbits d i) eqn:Hp; unfold nonempty_progbits in Hp.
  2:{ destruct (sh_type d i =? 1), (0 <? sh_size d i); try discriminate; simpl; eauto. }
  destruct (sh_type d i =? 1) eqn:Ht, (0 <? sh_size d i) eqn:Hz; try discriminate. cbn [negb andb].
  rewrite int_mul_ok, bind_Done, u64_small, seek_set_ok, fread_var_ok by mlia. cbn [use]. rewrite !bind_Done.
  replace (le_at d _ 8) with (sh_offset d (e_shstrndx d)) by (unfold sh_offset, shdr; f_equal; lia).
  destruct (section_name_ok d i (e_shoff d + (e_shstrndx d * e_shentsize d + 24) + Z.of_nat 8)) as [p ->];
    [done|done|by unfold nonempty_progbits; rewrite Ht, Hz|].
  rewrite !section_name_strstr. destruct (_ || _) eqn:Hn; [|eauto].
  rewrite bind_Done. eauto.
Qed.

Lemma parse_section_ok d i pos :
  elf_ok d -> 0 <= i < e_shnum d ->
  exists p, parse_section LONG malloc_ok (e_shoff d) (e_shentsize d) (Some (e_shstrndx d)) i
      (mk_stream d pos) =
    Done (if is_code d i then Program (section_bytes d i) (s32 (sh_size d i / 8)) else Next, mk_stream d p).
Proof.
  intros Hok Hi. unfold parse_section. destruct (section_found_ok d i pos Hok Hi) as [p ->]. rewrite bind_Done.
  destruct Hok as [Hb Hsm _ _ _ _ _ Hcd]. destruct (is_code d i) eqn:Hc; [|eauto].
  destruct (Hcd i Hi Hc) as [H8 Hfit]. apply load_section_ok; auto. by apply le_at_nonneg.
Qed.
Lemma parse_sections_ok d n i pos :
  elf_ok d -> 0 <= i -> i + Z.of_nat n = e_shnum d ->
  parse_sections LONG malloc_ok n (e_shoff d) (e_shentsize d) (Some (e_shstrndx d)) i (mk_stream d pos) =
  Done (match find (fun i => is_code d i) (seqZ i (Z.of_nat n)) with
        | Some i => Program (section_bytes d i) (s32 (sh_size d i / 8))
        | None => Fail
        end).
Proof.
  intros Hok. revert i pos. induction n as [|n IH]; intros i pos Hi Hn; [done|].
  rewrite seqZ_cons by lia. cbn [parse_sections].
  destruct (parse_section_ok d i pos) as [p ->]; [done|lia|]. rewrite bind_Done. simpl.
  destruct (is_code d i); [done|]. rewrite IH by lia.
  by replace (Z.pred (Z.of_nat (S n))) with (Z.of_nat n) by lia.
Qed.

(** C33: on an ELF object below 2 GiB, with a header of 64 bytes, the section
    headers, the header of the string table and the names of the non-empty
    PROGBITS sections inside the file, and every section that qualifies as code
    inside the file and of at least 8 bytes (a shorter one is over-read, see
    [short_section_overread]), and with [malloc] succeeding, the parser returns
    the bytes of the first non-empty PROGBITS section whose name contains
    [text] or [socket], with its size divided by 8, and -1 when there is none;
    it performs no undefined operation. *)
Theorem parse_bpf_elf_spec (d : bytes) :
  elf_ok d ->
  parse_bpf_elf LONG malloc_ok (Some d) =
  Done (match code_section d with
        | Some i => Some (section_bytes d i, s32 (sh_size d i / 8))
        | None => None
        end).
Proof.
  intros Hok. pose proof Hok as [Hb Hsm Hh Hm _ _ _ _]. unfold parse_bpf_elf, fread. simpl f_data.
  simpl f_pos. change (drop (Z.to_nat 0) d) with d.
  assert (Hl : length (take 16 d) = 16%nat) by (rewrite length_take; lia).
  rewrite Hl, Hm. cbn [negb Nat.eqb]. rewrite parse_header_ok by done. cbn [use]. rewrite !bind_Done.
  assert (0 <= e_shnum d) by (by apply le_at_nonneg).
  unfold code_section. destruct (Z.eqb_spec (e_shnum d) 0) as [->|Hn]; [done|].
  rewrite (parse_sections_ok d) by (auto; lia). rewrite Z2Nat.id by done. rewrite bind_Done.
  by destruct (find _ _).
Qed.
End proofs.

(** The section of a small object file: headers at 64, the string table at
    184, the code at 200. *)
Definition le_bytes (n : nat) (z : Z) : bytes := map (fun i => (z / 256 ^ Z.of_nat i) mod 256) (seq 0 n).
Definition demo_shdr (name type offset size : Z) : bytes :=
  le_bytes 4 name ++ le_bytes 4 type ++ replicate 16 0 ++ le_bytes 8 offset ++ le_bytes 8 size.
Definition demo_elf : bytes :=
  [0x7f; 69; 76; 70; 2; 1] ++ replicate 34 0 ++ le_bytes 8 64 ++ replicate 10 0 ++
  le_bytes 2 40 ++ le_bytes 2 3 ++ le_bytes 2 1 ++
  demo_shdr 0 0 0 0 ++ demo_shdr 9 3 184 16 ++ demo_shdr 1 1 200 16 ++
  ([0] ++ lit "socket" ++ [0; 0] ++ lit "strtab" ++ [0]) ++
  [0x61; 0x10; 0; 0; 0; 0; 0; 0] ++ [0x95; 0; 0; 0; 0; 0; 0; 0].

Lemma demo_sections i : 0 <= i < e_shnum demo_elf -> i = 0 \/ i = 1 \/ i = 2.
Proof. change (e_shnum demo_elf) with 3. lia. Qed.

Lemma demo_elf_ok : elf_ok demo_elf.
Proof.
  constructor.
  - apply (bool_decide_unpack _). vm_compute. exact I.
  - vm_compute. reflexivity.
  - vm_compute. discriminate.
  - vm_compute. reflexivity.
  - intros i [-> | [-> | ->]]%demo_sections; vm_compute; discriminate.
  - vm_compute. discriminate.
  - intros i [-> | [-> | ->]]%demo_sections; vm_compute; discriminate.
  - intros i [-> | [-> | ->]]%demo_sections; vm_compute; try discriminate. intros _. split; discriminate.
Qed.

Lemma parse_bpf_elf_spec_witness :
  parse_bpf_elf 32 (fun _ => true) (Some demo_elf) =
  Done (Some ([0x61; 0x10; 0; 0; 0; 0; 0; 0; 0x95; 0; 0; 0; 0; 0; 0; 0], 2)).
Proof.
  rewrite (parse_bpf_elf_spec 32 (fun _ => true) ltac:(lia) (fun _ => eq_refl) demo_elf demo_elf_ok).
  vm_compute. reflexivity.
Defined.

(** A code section of fewer than 8 bytes is printed beyond its end. *)
Example short_section_overread :
  parse_bpf_elf 32 (fun _ => true) (Some (take 96 demo_elf ++ drop 96 (take 176 demo_elf) ++
    le_bytes 8 4 ++ drop 184 demo_elf)) = Undefined.
Proof. vm_compute. reflexivity. Qed.
