(* ===== verification/BpfLoader.v ===== *)
(** BpfLoader: src/bpf_loader.c and src/bpf_loader.h.

    The functions run on a [bpf_loader_status] and the world of Kernel.v: a
    program, a socket and a perf event are descriptors, a ring buffer is a
    mapped region.  The verifier of the kernel, [strerror] and the text of the
    verifier's log are parameters.  The ring buffers that
    [bpf_loader_read_perf_events] drains are their bytes, so that a read beyond
    the mapping is [Undefined]. *)

From stdpp Require Import base list gmap strings numbers option.
From S2P Require Import Prelude CLib Structs PacketParser Kernel Elf.

(** ** Data *)

Definition PERF_MAX_CPUS : nat := 16.
Definition PERF_PAGE_CNT : Z := 64.

Record bpf_loader_status : Type := mk_status {
  s_socket_fd : Z;
  s_perf_map_fd : Z;
  s_bpf_prog_fd : Z;
  s_use_bpf : bool;
  s_nr_cpus : Z;
  s_perf_fds : list Z;
  s_perf_mmap : list Z;
  s_perf_page_cnt : Z;
  s_error : bytes
}.

Definition set_socket_fd (fd : Z) (s : bpf_loader_status) : bpf_loader_status :=
  mk_status fd (s_perf_map_fd s) (s_bpf_prog_fd s) (s_use_bpf s) (s_nr_cpus s) (s_perf_fds s)
    (s_perf_mmap s) (s_perf_page_cnt s) (s_error s).
Definition set_prog_fd (fd : Z) (s : bpf_loader_status) : bpf_loader_status :=
  mk_status (s_socket_fd s) (s_perf_map_fd s) fd (s_use_bpf s) (s_nr_cpus s) (s_perf_fds s)
    (s_perf_mmap s) (s_perf_page_cnt s) (s_error s).
Definition set_use_bpf (b : bool) (s : bpf_loader_status) : bpf_loader_status :=
  mk_status (s_socket_fd s) (s_perf_map_fd s) (s_bpf_prog_fd s) b (s_nr_cpus s) (s_perf_fds s)
    (s_perf_mmap s) (s_perf_page_cnt s) (s_error s).
Definition set_error (e : bytes) (s : bpf_loader_status) : bpf_loader_status :=
  mk_status (s_socket_fd s) (s_perf_map_fd s) (s_bpf_prog_fd s) (s_use_bpf s) (s_nr_cpus s)
    (s_perf_fds s) (s_perf_mmap s) (s_perf_page_cnt s) (snprintf_field (s_error s) e).
Definition set_cpus (n pages : Z) (s : bpf_loader_status) : bpf_loader_status :=
  mk_status (s_socket_fd s) (s_perf_map_fd s) (s_bpf_prog_fd s) (s_use_bpf s) n (s_perf_fds s)
    (s_perf_mmap s) pages (s_error s).
Definition set_perf_fd (cpu : nat) (fd : Z) (s : bpf_loader_status) : bpf_loader_status :=
  mk_status (s_socket_fd s) (s_perf_map_fd s) (s_bpf_prog_fd s) (s_use_bpf s) (s_nr_cpus s)
    (<[cpu := fd]> (s_perf_fds s)) (s_perf_mmap s) (s_perf_page_cnt s) (s_error s).
Definition set_perf_mmap (cpu : nat) (addr : Z) (s : bpf_loader_status) : bpf_loader_status :=
  mk_status (s_socket_fd s) (s_perf_map_fd s) (s_bpf_prog_fd s) (s_use_bpf s) (s_nr_cpus s)
    (s_perf_fds s) (<[cpu := addr]> (s_perf_mmap s)) (s_perf_page_cnt s) (s_error s).

(** The structure cleared, the three descriptors set to -1. *)
Definition fresh_status : bpf_loader_status :=
  mk_status (-1) (-1) (-1) false 0 (replicate PERF_MAX_CPUS 0) (replicate PERF_MAX_CPUS 0) 0
    (replicate 256 0).

Abbreviation L := (KM bpf_loader_status).
Abbreviation status := (@get bpf_loader_status).

(** ** The embedded program *)

(** [struct sock_filter], the instruction format of the classic filters. *)
Record sock_filter : Type := mk_filter { sf_code : Z; sf_jt : Z; sf_jf : Z; sf_k : Z }.

Definition embedded_bpf_prog : list sock_filter := [mk_filter 0x61 0 0 0; mk_filter 0x95 0 0 0].

(** Its bytes in memory, which the kernel reads as eBPF instructions. *)
Definition filter_bytes (p : list sock_filter) : bytes :=
  mjoin (map (fun f => le_bytes 2 (sf_code f) ++ [sf_jt f; sf_jf f] ++ le_bytes 4 (sf_k f)) p).

(** ** Loading *)

Section loader.
Context (LONG : Z) (malloc_ok : Z -> bool).
(** The verifier; [strerror]; the text the verifier leaves in [log_buf]. *)
Context (verifier : bytes -> bool) (strerror : Z -> bytes) (log : bytes).

(** [bpf(BPF_PROG_LOAD)]: a program the verifier refuses is not loaded. *)
Definition prog_load (insns : bytes) : L Z :=
  if verifier insns then sys_newfd
  else (a ← syscall; _ ← set_errno (a_val a); mret (-1)).

(** [close(sock_fd); close(prog_fd); return -1;] after the message. *)
Definition fail_with (msg : bytes) (after : bytes) (fds : list Z) : L Z :=
  e ← errno;
  _ ← update (set_error (msg ++ strerror e ++ after));
  _ ← (fix close_all fds := match fds with
       | [] => mret tt
       | fd :: fds => (_ ← sys_close fd; close_all fds)
       end) fds;
  mret (-1).

(** Three wrappers of bpf() that nothing calls.  [union bpf_attr] comes back
    from the kernel with the field a command answers in: [next_id], or
    [info.info_len].  The first one does not hand it on to its caller. *)
Definition bpf_map_get_next_id (id next_id : Z) : L (Z * Z) :=
  a ← syscall;
  mret (a_ret a, next_id).

Definition bpf_map_get_fd_by_id (id : Z) : L Z := sys_newfd.

Definition bpf_obj_get_info_by_fd (fd info_len : Z) : L (Z * Z) :=
  a ← syscall;
  let attr_info_len := if a_ret a <? 0 then info_len else u32 (a_val a) in
  mret (a_ret a, attr_info_len).

(** [bpf_map_update_elem]: only the result matters. *)
Definition bpf_map_update_elem : L Z := sys_ret.

(** One turn of the loop of [bpf_loader_create_perf_buffer]. *)
Definition perf_cpu (cpu : nat) : L unit :=
  fd ← sys_newfd;
  if fd <? 0 then update (set_perf_fd cpu (-1)) else
  r ← bpf_map_update_elem;
  if r <? 0 then (_ ← sys_close fd; update (set_perf_fd cpu (-1))) else
  buf ← sys_mmap;
  match buf with
  | None => (_ ← sys_close fd; update (set_perf_fd cpu (-1)))
  | Some buf =>
      _ ← update (set_perf_fd cpu fd);
      _ ← update (set_perf_mmap cpu buf);
      s ← status;
      update (set_cpus (s_nr_cpus s + 1) (s_perf_page_cnt s))
  end.

Fixpoint perf_cpus (n cpu : nat) : L unit :=
  match n with
  | O => mret tt
  | S n => _ ← perf_cpu cpu; perf_cpus n (S cpu)
  end.

Definition bpf_loader_create_perf_buffer : L Z :=
  _ ← sys_ret;
  _ ← update (set_cpus 0 PERF_PAGE_CNT);
  nr_cpus ← sys_ret;
  let nr_cpus := if nr_cpus <=? 0 then 1 else nr_cpus in
  let nr_cpus := Z.min nr_cpus (Z.of_nat PERF_MAX_CPUS) in
  s ← status;
  if s_perf_map_fd s <? 0 then mret (-1) else
  _ ← perf_cpus (Z.to_nat nr_cpus) 0;
  s ← status;
  mret (if s_nr_cpus s =? 0 then -1 else 0).

(** After [bpf(BPF_PROG_LOAD)]: a raw socket is bound to the interface and the
    program is attached to it. *)
Definition attach_program (prog_fd : Z) : L Z :=
  if prog_fd <? 0 then
    fail_with (lit "BPF_PROG_LOAD failed: ")
      (10 :: lit "Verifier: " ++
       match cstr log with [] => lit "(no log)" | l => l end) []
  else
  _ ← update (set_prog_fd prog_fd);
  sock_fd ← sys_newfd;
  if sock_fd <? 0 then fail_with (lit "socket(AF_PACKET) failed: ") (lit " (need root)") [prog_fd] else
  r ← sys_ret;
  if r <? 0 then fail_with (lit "ioctl(SIOCGIFINDEX) failed: ") [] [sock_fd; prog_fd] else
  r ← sys_ret;
  if r <? 0 then fail_with (lit "bind(AF_PACKET) failed: ") [] [sock_fd; prog_fd] else
  r ← sys_ret;
  if r <? 0 then fail_with (lit "SO_ATTACH_BPF failed: ") [] [sock_fd; prog_fd] else
  _ ← update (set_socket_fd sock_fd);
  _ ← update (set_use_bpf true);
  s ← status;
  _ ← (if 0 <=? s_perf_map_fd s then bpf_loader_create_perf_buffer else mret 0);
  mret 0.

(** From the instructions on. *)
Definition load_and_attach (insns : bytes) : L Z :=
  prog_fd ← prog_load insns;
  attach_program prog_fd.

(** The instructions: those of the object file, or the embedded ones. *)
Definition chosen_insns (obj : option bytes) : exec bytes :=
  r ← parse_bpf_elf LONG malloc_ok obj;
  Done (match r with
        | Some (insns, insn_cnt) => take (Z.to_nat (insn_cnt * 8)) insns
        | None => filter_bytes embedded_bpf_prog
        end).

Definition bpf_loader_init (obj : option bytes) : exec (L Z) :=
  insns ← chosen_insns obj;
  Done (_ ← update (fun _ => fresh_status); load_and_attach insns).
End loader.

Definition bpf_loader_read_packet (fd : Z) : L Z :=
  if fd <? 0 then mret (-1) else sys_ret.

(** One turn of the first loop of [bpf_loader_cleanup]; [nr_cpus] is at most
    the size of the arrays. *)
Definition cleanup_cpu (i : nat) : L unit :=
  s ← status;
  let addr := default 0 (s_perf_mmap s !! i) in
  _ ← (if negb (addr =? 0) then (_ ← sys_munmap addr; update (set_perf_mmap i 0)) else mret tt);
  let fd := default (-1) (s_perf_fds s !! i) in
  if 0 <=? fd then (_ ← sys_close fd; update (set_perf_fd i (-1))) else mret tt.

Fixpoint cleanup_cpus (n i : nat) : L unit :=
  match n with
  | O => mret tt
  | S n => _ ← cleanup_cpu i; cleanup_cpus n (S i)
  end.

Definition bpf_loader_cleanup : L unit :=
  s ← status;
  _ ← cleanup_cpus (Z.to_nat (s_nr_cpus s)) 0;
  s ← status;
  _ ← (if 0 <=? s_socket_fd s
       then (_ ← sys_close (s_socket_fd s); update (set_socket_fd (-1))) else mret tt);
  s ← status;
  _ ← (if 0 <=? s_bpf_prog_fd s
       then (_ ← sys_close (s_bpf_prog_fd s); update (set_prog_fd (-1))) else mret tt);
  update (set_use_bpf false).

(** An empty program is loaded: the answer tells whether bpf() exists. *)
Definition bpf_loader_is_available : L bool :=
  ret ← sys_newfd;
  e ← errno;
  mret ((ret <? 0) && negb (e =? ENOSYS)).

(** ** Descriptors of the loader *)

(** What [bpf_loader_init] leaves: nothing open but what was before, or the
    program and the socket. *)
Definition attached (F : gset Z) (st : bpf_loader_status * world) : Prop :=
  exists sock prog, (sock ∉ {[prog]} ∪ F) /\ (prog ∉ F) /\ 0 <= sock /\ 0 <= prog /\
    holds (fun s => s_socket_fd s = sock /\ s_bpf_prog_fd s = prog /\ s_use_bpf s = true /\
                    s_perf_map_fd s = -1 /\ s_nr_cpus s = 0) ({[sock]} ∪ ({[prog]} ∪ F)) st.

Definition init_outcome (F : gset Z) (r : Z) (st : bpf_loader_status * world) : Prop :=
  (r = 0 /\ attached F st) \/
  (r = -1 /\ holds (fun s => s_use_bpf s = false /\ s_socket_fd s = -1 /\ cfield 256 (s_error s)) F st).

(** Before the program is attached. *)
Definition loading (prog : Z) (s : bpf_loader_status) : Prop :=
  s_socket_fd s = -1 /\ s_bpf_prog_fd s = prog /\ s_use_bpf s = false /\ s_perf_map_fd s = -1 /\
  s_nr_cpus s = 0 /\ cfield 256 (s_error s).

Section lifecycle.
Context (LONG : Z) (malloc_ok : Z -> bool).
Context (verifier : bytes -> bool) (strerror : Z -> bytes) (log : bytes).

Lemma prog_load_spec p D insns :
  triple (holds p D) (prog_load verifier insns) (fun fd st =>
    (fd = -1 /\ holds p D st) \/
    (verifier insns = true /\ 0 <= fd /\ (fd ∉ D) /\ holds p ({[fd]} ∪ D) st)).
Proof.
  unfold prog_load. apply triple_if; intros Hv.
  - eapply triple_conseq; [apply holds_newfd|done|]. intros fd st [H|(H1 & H2 & H3)]; auto.
  - eapply triple_bind; [apply triple_syscall; auto with stb|]. intros a.
    eapply triple_bind; [apply triple_set_errno; auto with stb|]. intros ?. apply triple_ret. auto.
Qed.

(** The outcome of a run with this program. *)
Definition result (F : gset Z) (insns : bytes) (r : Z) (st : bpf_loader_status * world) : Prop :=
  init_outcome F r st /\ (verifier insns = false -> r = -1).

(** The message is written, the descriptors are closed in order. *)
Lemma fail_with_spec F insns prog msg after fds :
  let opened := match fds with [] => F | [a] => {[a]} ∪ F | a :: b :: _ => {[a]} ∪ ({[b]} ∪ F) end in
  (length fds <= 2)%nat -> (forall a, fds = [a] -> a ∉ F) ->
  (forall a b, fds = [a; b] -> (a ∉ {[b]} ∪ F) /\ (b ∉ F)) ->
  triple (holds (loading prog) opened) (fail_with strerror msg after fds) (result F insns).
Proof.
  intros opened Hl H1 H2. unfold fail_with.
  eapply triple_bind; [apply triple_errno|]. intros e.
  eapply triple_bind; [eapply holds_update with (q := loading prog)|].
  { intros s (?&?&?&?&?&?). split_and!; try done; simpl; by apply snprintf_field_cfield. }
  intros u0. eapply triple_bind with (R := fun _ => holds (loading prog) F).
  - destruct fds as [|a [|b [|? ?]]]; simpl in Hl; [| | |lia]; subst opened; simpl.
    + by apply triple_ret.
    + eapply triple_bind; [apply holds_close; by apply H1|]. intros ?. by apply triple_ret.
    + destruct (H2 a b eq_refl) as [Ha Hb].
      eapply triple_bind; [by apply holds_close|]. intros ?.
      eapply triple_bind; [by apply holds_close|]. intros ?. by apply triple_ret.
  - intros ?. apply triple_ret. intros st [(?&?&?&?&?&?) Hw]. split; [|done]. right.
    split; [done|]. by split_and!.
Qed.

(** A step that may fail with the socket and the program open. *)
Lemma step_spec F insns sock prog msg (k : L Z) :
  sock ∉ {[prog]} ∪ F -> prog ∉ F ->
  triple (holds (loading prog) ({[sock]} ∪ ({[prog]} ∪ F))) k (result F insns) ->
  triple (holds (loading prog) ({[sock]} ∪ ({[prog]} ∪ F)))
    (r ← sys_ret; if r <? 0 then fail_with strerror msg [] [sock; prog] else k) (result F insns).
Proof.
  intros Hs Hp Hk. eapply triple_bind; [apply triple_sys_ret; auto with stb|]. intros r.
  apply triple_if; intros Hr; [|done].
  apply (fail_with_spec F insns prog msg [] [sock; prog]); [simpl; lia|done|]. intros a b [= <- <-]. done.
Qed.

Lemma attach_spec F insns sock prog :
  verifier insns = true -> sock ∉ {[prog]} ∪ F -> prog ∉ F -> 0 <= sock -> 0 <= prog ->
  triple (holds (loading prog) ({[sock]} ∪ ({[prog]} ∪ F)))
    (_ ← update (set_socket_fd sock);
     _ ← update (set_use_bpf true);
     s ← status;
     _ ← (if 0 <=? s_perf_map_fd s then bpf_loader_create_perf_buffer else mret 0);
     mret 0) (result F insns).
Proof.
  intros Hv Hs Hp Hs0 Hp0 [s w] [(H1 & H2 & H3 & H4 & H5 & H6) Hw]. simpl in *.
  unfold mbind, KM_bind, update, get. simpl. rewrite H4. simpl. split; [|congruence]. left.
  split; [done|]. exists sock, prog. by split_and!.
Qed.

Lemma load_and_attach_spec F insns :
  triple (holds (loading (-1)) F) (load_and_attach verifier strerror log insns) (result F insns).
Proof.
  unfold load_and_attach, attach_program. eapply triple_bind; [apply prog_load_spec|]. intros prog.
  destruct (Z.ltb_spec prog 0) as [Hneg|Hp0].
  { eapply triple_pre with (P' := holds (loading (-1)) F); [|intros st [[_ H]|(_ & H & _)]; [done|lia]].
    apply (fail_with_spec F insns (-1) _ _ []); simpl; [lia|done|done]. }
  intros st [[-> _]|(Hv & _ & HpF & H)]; [lia|]. revert st H.
  eapply triple_bind; [eapply holds_update with (q := loading prog); by intros s (?&?&?&?&?&?)|].
  intros ?. eapply triple_bind; [apply holds_newfd|]. intros sock.
  destruct (Z.ltb_spec sock 0) as [Hneg|Hs0].
  { eapply triple_pre with (P' := holds (loading prog) ({[prog]} ∪ F));
      [|intros st [[_ H]|(H & _)]; [done|lia]].
    apply (fail_with_spec F insns prog _ _ [prog]); simpl; [lia|by intros ? [= <-]|done]. }
  intros st [[-> _]|(_ & HsF & H)]; [lia|]. revert st H.
  do 3 (apply step_spec; [done|done|]). by apply attach_spec.
Qed.

Lemma init_spec F obj m :
  bpf_loader_init LONG malloc_ok verifier strerror log obj = Done m ->
  exists insns, chosen_insns LONG malloc_ok obj = Done insns /\
    triple (fun st => w_fds st.2 = F) m (result F insns).
Proof.
  unfold bpf_loader_init. intros (insns & Hi & Hm)%bind_Done_inv. exists insns. split; [done|].
  injection Hm as <-. intros [s w] Hw. unfold mbind, KM_bind, update.
  apply (load_and_attach_spec F insns). split; [|done]. by split_and!.
Qed.

Lemma cleanup_spec F st :
  attached F st ->
  exists st', bpf_loader_cleanup st = Some (tt, st') /\ w_fds st'.2 = F /\
    s_socket_fd st'.1 = -1 /\ s_bpf_prog_fd st'.1 = -1 /\ s_use_bpf st'.1 = false.
Proof.
  destruct st as [s w].
  intros (sock & prog & Hs & Hp & Hs0 & Hp0 & (H1 & H2 & H3 & H4 & H5) & Hw). simpl in *.
  unfold bpf_loader_cleanup, mbind, KM_bind, get, update. simpl. rewrite H5. simpl. rewrite H1. ztest.
  simpl. rewrite H2. ztest. simpl. eexists. split; [done|]. simpl. rewrite Hw. split; [|done].
  rewrite own_closed by done. by apply own_closed.
Qed.

(** C12: whatever the kernel answers and wherever it fails, [bpf_loader_init]
    leaves open exactly what was open before when it returns -1, and these
    descriptors plus one socket and one program, both recorded in the status,
    when it returns 0; then [bpf_loader_cleanup] closes exactly these two. *)
Theorem loader_lifecycle (F : gset Z) (obj : option bytes) (m : L Z) (s : bpf_loader_status)
    (w : world) (r : Z) (st' : bpf_loader_status * world) :
  bpf_loader_init LONG malloc_ok verifier strerror log obj = Done m ->
  w_fds w = F -> m (s, w) = Some (r, st') ->
  init_outcome F r st' /\
  (r = 0 -> exists st'', bpf_loader_cleanup st' = Some (tt, st'') /\ w_fds st''.2 = F /\
     s_socket_fd st''.1 = -1 /\ s_bpf_prog_fd st''.1 = -1 /\ s_use_bpf st''.1 = false).
Proof.
  intros Hm Hw Hrun. destruct (init_spec F obj m Hm) as (insns & _ & Ht).
  destruct (triple_run _ _ _ (s, w) _ _ Ht Hw Hrun) as [Ho _]. split; [done|]. intros ->.
  destruct Ho as [[_ Ha]|[H _]]; [by apply cleanup_spec|discriminate H].
Qed.

(** ** The embedded program is refused *)

(** Fields of an eBPF instruction. *)
Definition insn_op (i : bytes) : Z := byte_at i 0.
Definition insn_dst (i : bytes) : Z := Z.land (byte_at i 1) 15.
Definition insn_src (i : bytes) : Z := Z.shiftr (byte_at i 1) 4.

(** The verifier's rule on registers, on straight-line code: a load reads its
    source register and writes its destination, the exit reads R0; on entry R1
    (the context) and R10 (the frame) are set.  At any other instruction the
    rule says nothing. *)
Fixpoint regs_ok (fuel : nat) (set : list Z) (p : bytes) : bool :=
  match fuel with
  | O => true
  | S fuel =>
      let op := insn_op p in
      if op =? 0x95 then bool_decide (0 ∈ set)
      else if bool_decide (op ∈ [0x61; 0x69; 0x71; 0x79]) then
        bool_decide (insn_src p ∈ set) && regs_ok fuel (insn_dst p :: set) (drop 8 p)
      else true
  end.
Definition reads_initialised (p : bytes) : bool := regs_ok (length p / 8) [1; 10] p.

(** The fallback never works: with any kernel whose verifier refuses reads
    of uninitialised registers, [bpf_loader_init] returns -1 whenever the
    object file does not parse, because the first embedded instruction,
    written as a classic filter, decodes to a load through R0 and not through
    the context in R1. *)
Lemma embedded_program_refused (obj : option bytes) (m : L Z)
    (s : bpf_loader_status) (w : world) (r : Z) (st' : bpf_loader_status * world) :
  (forall p, verifier p = true -> reads_initialised p = true) ->
  parse_bpf_elf LONG malloc_ok obj = Done None ->
  bpf_loader_init LONG malloc_ok verifier strerror log obj = Done m ->
  m (s, w) = Some (r, st') ->
  r = -1 /\ s_use_bpf st'.1 = false.
Proof.
  intros Hv Hobj Hm Hrun. destruct (init_spec (w_fds w) obj m Hm) as (insns & Hi & Ht).
  unfold chosen_insns in Hi. rewrite Hobj, bind_Done in Hi. injection Hi as <-.
  destruct (triple_run _ _ _ (s, w) _ _ Ht eq_refl Hrun) as [Ho Hr].
  assert (r = -1) as -> by (apply Hr, not_true_is_false; intros H%Hv; discriminate H).
  split; [done|]. by destruct Ho as [[H _]|[_ [(H & _) _]]].
Qed.
End lifecycle.

(** ** Reading the ring buffers *)

Definition PERF_RECORD_SAMPLE : Z := 9.
(** [sizeof(struct pkt_event_t)]. *)
Definition EVENT_SIZE : Z := Eval cbv in Z.of_nat (struct_size pkt_event_struct).

(** The mapping of a CPU: the positions of its first page and the data pages. *)
Record ring : Type := mk_ring { r_head : Z; r_tail : Z; r_data : bytes }.

(** An unsigned field of [n] bytes at [off]. *)
Definition read_field (b : bytes) (off : Z) (n : nat) : exec Z :=
  bs ← memcpy_from b off n; Done (le_val bs).

(** What is written to the caller's buffer: the buffer, [total], [nr_events]. *)
Definition copied : Type := bytes * Z * Z.

(** [memcpy(out + total, data, event_size)] when the event fits. *)
Definition copy_event (data : bytes) (off : Z) (c : copied) : exec copied :=
  let '(out, total, nr_events) := c in
  if total + EVENT_SIZE <=? zlen out then
    ev ← memcpy_from data (off + (8 + 4)) (Z.to_nat EVENT_SIZE);
    out ← wr_bytes out total ev;
    Done (out, total + EVENT_SIZE, nr_events + 1)
  else Done c.

(** The loop while the tail is below the head; [None] when the fuel runs out. *)
Fixpoint drain (fuel : nat) (ring_size : Z) (r : ring) (c : copied) : exec (option (ring * copied)) :=
  match fuel with
  | O => Done None
  | S fuel =>
      if negb (r_tail r <? r_head r) then Done (Some (r, c)) else
      let off := r_tail r mod ring_size in
      type ← read_field (r_data r) off 4;
      c ← (if type =? PERF_RECORD_SAMPLE then copy_event (r_data r) off c else Done c);
      size ← read_field (r_data r) (off + 6) 2;
      drain fuel ring_size (mk_ring (r_head r) (u64 (r_tail r + size)) (r_data r)) c
  end.

(** The loop over the CPUs; [mem] are the mapped rings by address. *)
Fixpoint read_cpus (fuel : nat) (ring_size : Z) (cpus : list (Z * Z)) (mem : gmap Z ring) (c : copied)
  : exec (option (gmap Z ring * copied)) :=
  match cpus with
  | [] => Done (Some (mem, c))
  | (fd, addr) :: cpus =>
      if (fd <? 0) || (addr =? 0) then read_cpus fuel ring_size cpus mem c else
      match mem !! addr with
      | None => Undefined
      | Some r =>
          res ← drain fuel ring_size r c;
          match res with
          | None => Done None
          | Some (r', c) => read_cpus fuel ring_size cpus (<[addr := r']> mem) c
          end
      end
  end.

Definition bpf_loader_read_perf_events (fuel : nat) (page_size : Z) (s : bpf_loader_status)
    (mem : gmap Z ring) (buf : bytes) : exec (option (gmap Z ring * copied)) :=
  read_cpus fuel (s_perf_page_cnt s * page_size)
    (take (Z.to_nat (s_nr_cpus s)) (zip (s_perf_fds s) (s_perf_mmap s))) mem (buf, 0, 0).

(** *** Records as the kernel writes them *)

Record perf_record : Type := mk_record { p_type : Z; p_misc : Z; p_body : bytes }.

Definition record_size (r : perf_record) : Z := 8 + zlen (p_body r).
Definition enc_record (r : perf_record) : bytes :=
  le_bytes 4 (p_type r) ++ le_bytes 2 (p_misc r) ++ le_bytes 2 (record_size r) ++ p_body r.

(** A sample holds the size of its data and an event. *)
Record record_ok (r : perf_record) : Prop := mk_record_ok {
  ro_type : 0 <= p_type r < 2 ^ 32;
  ro_size : record_size r < 2 ^ 16;
  ro_sample : p_type r = PERF_RECORD_SAMPLE -> 44 <= zlen (p_body r)
}.

Definition is_sample (r : perf_record) : bool := p_type r =? PERF_RECORD_SAMPLE.
Definition event_of (r : perf_record) : bytes := take 40 (drop 4 (p_body r)).
Definition events_of (rs : list perf_record) : list bytes := map event_of (List.filter is_sample rs).

Lemma le_bytes_S n z : le_bytes (S n) z = z mod 256 :: le_bytes n (z / 256).
Proof.
  unfold le_bytes. rewrite <- cons_seq. simpl map. rewrite Z.div_1_r. f_equal.
  rewrite <- seq_shift, map_map. apply map_ext. intros i. f_equal.
  rewrite Nat2Z.inj_succ, Z.pow_succ_r, Z.div_div by lia. done.
Qed.

Lemma length_le_bytes n z : length (le_bytes n z) = n.
Proof. unfold le_bytes. by rewrite length_map, length_seq. Qed.

Lemma le_val_bytes n z : 0 <= z < 256 ^ Z.of_nat n -> le_val (le_bytes n z) = z.
Proof.
  revert z. induction n as [|n IH]; intros z Hz; [simpl in *; lia|].
  rewrite le_bytes_S. cbn [le_val foldr]. fold (le_val (le_bytes n (z / 256))).
  rewrite Nat2Z.inj_succ, Z.pow_succ_r in Hz by lia. rewrite IH; [|split].
  - pose proof (Z.div_mod z 256). lia.
  - apply Z.div_pos; lia.
  - apply Z.div_lt_upper_bound; lia.
Qed.

Lemma length_enc_record r : zlen (enc_record r) = record_size r.
Proof. unfold enc_record, record_size. rewrite !length_app, !length_le_bytes. lia. Qed.

(** Reading what lies at the end of a prefix. *)
Lemma read_field_app pre n z post off :
  off = zlen pre -> 0 <= z < 256 ^ Z.of_nat n -> read_field (pre ++ le_bytes n z ++ post) off n = Done z.
Proof.
  intros Ho Hz. unfold read_field. rewrite memcpy_from_app by (by rewrite ?length_le_bytes).
  rewrite bind_Done. by rewrite le_val_bytes.
Qed.

Lemma read_type pre r post : record_ok r -> read_field (pre ++ enc_record r ++ post) (zlen pre) 4 = Done (p_type r).
Proof.
  intros Hr. unfold enc_record. rewrite <- !app_assoc. apply read_field_app; [done|].
  change (256 ^ Z.of_nat 4) with (2 ^ 32). apply Hr.
Qed.

Lemma read_size pre r post :
  record_ok r -> read_field (pre ++ enc_record r ++ post) (zlen pre + 6) 2 = Done (record_size r).
Proof.
  intros Hr. unfold enc_record. rewrite <- !app_assoc, app_assoc, (app_assoc (pre ++ _)).
  apply read_field_app.
  - rewrite !length_app, !length_le_bytes. lia.
  - change (256 ^ Z.of_nat 2) with (2 ^ 16). split; [unfold record_size; lia|apply Hr].
Qed.

Lemma memcpy_event pre r post :
  44 <= zlen (p_body r) ->
  memcpy_from (pre ++ enc_record r ++ post) (zlen pre + (8 + 4)) 40 = Done (event_of r).
Proof.
  intros Hb. unfold enc_record, event_of. rewrite <- (take_drop 4 (p_body r)) at 1.
  rewrite <- (take_drop 40 (drop 4 (p_body r))) at 1.
  set (hdr := le_bytes 4 _ ++ _).
  replace (pre ++ _ ++ post) with
    ((pre ++ le_bytes 4 (p_type r) ++ le_bytes 2 (p_misc r) ++ le_bytes 2 (record_size r) ++ take 4 (p_body r)) ++
     take 40 (drop 4 (p_body r)) ++ (drop 40 (drop 4 (p_body r)) ++ post))
    by (subst hdr; by rewrite <- !app_assoc).
  apply memcpy_from_app.
  - rewrite !length_app, !length_le_bytes, length_take. lia.
  - rewrite length_take, length_drop. lia.
Qed.

(** How many more events fit. *)
Definition room (c : copied) : Z := let '(out, total, _) := c in (zlen out - total) / EVENT_SIZE.

(** The buffer after [evs] were appended to it. *)
Definition holds_events (c c' : copied) (evs : list bytes) : Prop :=
  let '(out, total, nr) := c in
  let '(out', total', nr') := c' in
  zlen out' = zlen out /\ total' = total + EVENT_SIZE * zlen evs /\ nr' = nr + zlen evs /\
  take (Z.to_nat total') out' = take (Z.to_nat total) out ++ mjoin evs.

Definition copied_ok (c : copied) : Prop := let '(out, total, _) := c in 0 <= total <= zlen out.

Lemma copy_event_spec pre r post c :
  copied_ok c -> record_ok r -> is_sample r = true ->
  exists c', copy_event (pre ++ enc_record r ++ post) (zlen pre) c = Done c' /\ copied_ok c' /\
    if 0 <? room c then room c' = room c - 1 /\ holds_events c c' [event_of r] else c' = c.
Proof.
  destruct c as [[out total] nr]. cbv beta iota delta [copy_event room copied_ok EVENT_SIZE].
  change (Z.to_nat 40) with 40%nat. intros Hc Hr Hs%Z.eqb_eq.
  apply Hr in Hs. assert (Hlen : length (event_of r) = 40%nat)
    by (unfold event_of; rewrite length_take, length_drop; lia).
  destruct (Z.leb_spec (total + 40) (zlen out)) as [Hle|Hgt].
  - assert (0 < (zlen out - total) / 40) by (apply Z.div_str_pos; lia). ztest.
    rewrite memcpy_event, bind_Done, wr_bytes_Done by (done || rewrite ?Hlen; lia). rewrite bind_Done.
    assert (Hl : length (blit out (Z.to_nat total) (event_of r)) = length out)
      by (apply length_blit; lia).
    eexists. split; [done|]. simpl. rewrite Hl. split; [lia|]. split; [|split_and!; [done|done|done|]].
    + replace (zlen out - (total + 40)) with (zlen out - total + (-1) * 40) by lia.
      rewrite Z.div_add by lia. lia.
    + rewrite app_nil_r. apply take_blit; lia.
  - rewrite Z.div_small by lia. ztest. eauto.
Qed.

(** One turn of the loop at a record that lies inside the data pages. *)
Lemma drain_step fuel ring_size head tail pre r post c :
  tail < head -> tail mod ring_size = zlen pre -> record_ok r -> copied_ok c ->
  exists c', drain (S fuel) ring_size (mk_ring head tail (pre ++ enc_record r ++ post)) c =
      drain fuel ring_size (mk_ring head (u64 (tail + record_size r)) (pre ++ enc_record r ++ post)) c' /\
    copied_ok c' /\
    if is_sample r && (0 <? room c)
    then room c' = room c - 1 /\ holds_events c c' [event_of r] else c' = c.
Proof.
  intros Hlt Hoff Hr Hc. cbn [drain r_tail r_head r_data]. ztest. cbn [negb].
  rewrite Hoff, read_type, bind_Done by done.
  change (p_type r =? PERF_RECORD_SAMPLE) with (is_sample r).
  destruct (is_sample r) eqn:Hs; cbn [andb].
  - destruct (copy_event_spec pre r post c Hc Hr Hs) as (c' & -> & Hc' & Hif). exists c'.
    rewrite bind_Done, read_size, bind_Done by done. done.
  - exists c. rewrite bind_Done, read_size, bind_Done by done. done.
Qed.

Definition total_size (rs : list perf_record) : Z := zlen (mjoin (map enc_record rs)).

Lemma total_size_cons r rs : total_size (r :: rs) = record_size r + total_size rs.
Proof.
  unfold total_size. change (mjoin (map enc_record (r :: rs))) with (enc_record r ++ mjoin (map enc_record rs)).
  rewrite length_app. pose proof (length_enc_record r). lia.
Qed.

Lemma total_size_nonneg rs : 0 <= total_size rs.
Proof. unfold total_size. lia. Qed.

Lemma mod_next a b n k : 0 <= a -> 0 < b -> a mod n = k -> 0 <= k -> k + b < n -> (a + b) mod n = k + b.
Proof.
  intros Ha Hb Hk Hk0 Hn. rewrite Z.add_mod, Hk by lia. rewrite (Z.mod_small b) by lia.
  apply Z.mod_small. lia.
Qed.

Lemma holds_events_trans c1 c2 c3 e es :
  copied_ok c1 -> holds_events c1 c2 [e] -> holds_events c2 c3 es -> holds_events c1 c3 (e :: es).
Proof.
  destruct c1 as [[o1 t1] n1], c2 as [[o2 t2] n2], c3 as [[o3 t3] n3]. simpl.
  intros Hc (Hl1 & Ht1 & Hn1 & He1) (Hl2 & Ht2 & Hn2 & He2).
  split_and!; [lia|lia|lia|]. rewrite He2, He1, app_nil_r. by rewrite <- app_assoc.
Qed.

Lemma holds_events_nil c : holds_events c c [].
Proof. destruct c as [[o t] n]. simpl. rewrite app_nil_r. split_and!; try done; lia. Qed.

Lemma drain_records_from fuel ring_size tail pre post rs c :
  Forall record_ok rs -> (length rs < fuel)%nat ->
  zlen (pre ++ mjoin (map enc_record rs) ++ post) = ring_size ->
  0 <= tail -> (rs <> [] -> tail mod ring_size = zlen pre) -> tail + total_size rs < 2 ^ 64 ->
  copied_ok c ->
  exists c', drain fuel ring_size
      (mk_ring (tail + total_size rs) tail (pre ++ mjoin (map enc_record rs) ++ post)) c =
    Done (Some (mk_ring (tail + total_size rs) (tail + total_size rs)
                  (pre ++ mjoin (map enc_record rs) ++ post), c')) /\
    holds_events c c' (take (Z.to_nat (room c)) (events_of rs)).
Proof.
  revert fuel tail pre c. induction rs as [|r rs IH]; intros fuel tail pre c Hrs Hf Hsz Ht Hoff Hov Hc.
  { destruct fuel as [|fuel]; [simpl in Hf; lia|]. exists c. cbn [drain r_tail r_head].
    change (total_size []) with 0. rewrite Z.add_0_r. ztest. split; [done|].
    change (events_of []) with (@nil bytes). rewrite take_nil. apply holds_events_nil. }
  inversion Hrs as [|? ? Hr Hrs']; subst x l. destruct fuel as [|fuel]; [simpl in Hf; lia|].
  change (mjoin (map enc_record (r :: rs))) with (enc_record r ++ mjoin (map enc_record rs)) in *.
  rewrite total_size_cons in *. rewrite <- (app_assoc (enc_record r)) in *.
  pose proof (total_size_nonneg rs). assert (8 <= record_size r) by (unfold record_size; lia).
  destruct (drain_step fuel ring_size (tail + (record_size r + total_size rs)) tail pre r
    (mjoin (map enc_record rs) ++ post) c) as (c1 & -> & Hc1 & Hif); [lia|by apply Hoff|done|done|].
  rewrite u64_small by mlia.
  destruct (IH fuel (tail + record_size r) (pre ++ enc_record r) c1) as (c' & Hrun & Hev).
  - done.
  - simpl in Hf. lia.
  - by rewrite <- app_assoc.
  - lia.
  - intros Hne. rewrite length_app, Nat2Z.inj_add, length_enc_record.
    assert (8 <= total_size rs).
    { destruct rs as [|r' rs']; [done|]. rewrite total_size_cons. unfold record_size.
      pose proof (total_size_nonneg rs'). lia. }
    rewrite !length_app in Hsz. pose proof (length_enc_record r). fold (total_size rs) in Hsz.
    apply mod_next; [lia|lia|by apply Hoff|lia|]. unfold total_size in *. lia.
  - lia.
  - done.
  - rewrite <- !app_assoc, <- !Z.add_assoc in Hrun. exists c'. split; [done|].
    unfold events_of. cbn [List.filter]. destruct (is_sample r); cbn [andb] in Hif; [|by subst].
    destruct (Z.ltb_spec 0 (room c)) as [Hroom|Hno]; cbn [map].
    + destruct Hif as [Hr1 He]. rewrite Hr1 in Hev.
      replace (Z.to_nat (room c)) with (S (Z.to_nat (room c - 1))) by lia. cbn [take].
      by eapply holds_events_trans.
    + subst c1. replace (Z.to_nat (room c)) with 0%nat in * by lia. done.
Qed.

(** C34: on records none of which wraps around the end of the data pages, each
    of 8 bytes at least (its header) and below 2^16, the samples with at least
    44 bytes of data (their size and an event), and positions below 2^64, the
    reader of a ring terminates (with more fuel than records) with the tail at
    the head and has copied, in order, the events of the samples: all of them,
    or as many as fit in the buffer. *)
Theorem drain_records (fuel : nat) (ring_size tail : Z) (pre post : bytes) (rs : list perf_record)
    (c : copied) :
  Forall record_ok rs -> (length rs < fuel)%nat ->
  zlen (pre ++ mjoin (map enc_record rs) ++ post) = ring_size ->
  0 <= tail -> tail mod ring_size = zlen pre -> tail + total_size rs < 2 ^ 64 -> copied_ok c ->
  exists c', drain fuel ring_size
      (mk_ring (tail + total_size rs) tail (pre ++ mjoin (map enc_record rs) ++ post)) c =
    Done (Some (mk_ring (tail + total_size rs) (tail + total_size rs)
                  (pre ++ mjoin (map enc_record rs) ++ post), c')) /\
    holds_events c c' (take (Z.to_nat (room c)) (events_of rs)).
Proof. intros. by apply drain_records_from. Qed.

(** A record of size 0 is never left. *)
Lemma drain_zero_size fuel ring_size r c :
  0 <= r_tail r < 2 ^ 64 -> r_tail r < r_head r ->
  read_field (r_data r) (r_tail r mod ring_size) 4 = Done 0 ->
  read_field (r_data r) (r_tail r mod ring_size + 6) 2 = Done 0 ->
  drain fuel ring_size r c = Done None.
Proof.
  intros Ht Hlt H4 H6. induction fuel as [|fuel IH]; [done|]. destruct r as [head tail data].
  cbn [drain r_tail r_head r_data] in *. ztest. cbn [negb].
  rewrite H4, bind_Done. simpl. rewrite H6, bind_Done, Z.add_0_r, u64_small by mlia. apply IH.
Qed.

(** ** Witnesses *)

Definition loader_world (script : list answer) : world := mk_world {[0; 1; 2]} ∅ [] 0 script.
Definition no_error (e : Z) : bytes := [].

Abbreviation demo_load := (load_and_attach reads_initialised no_error []).

Lemma init_eq obj insns :
  chosen_insns 32 (fun _ => true) obj = Done insns ->
  bpf_loader_init 32 (fun _ => true) reads_initialised no_error [] obj =
  Done (_ ← update (fun _ => fresh_status); demo_load insns).
Proof. intros H. unfold bpf_loader_init. by rewrite H. Qed.

Lemma loader_lifecycle_witness :
  exists m st', bpf_loader_init 32 (fun _ => true) reads_initialised no_error [] (Some demo_elf) = Done m /\
    m (fresh_status, loader_world (replicate 5 (Ans 0 0))) = Some (0, st') /\ attached {[0; 1; 2]} st'.
Proof.
  pose proof (init_eq (Some demo_elf) (drop 200 demo_elf) ltac:(vm_compute; reflexivity)) as E.
  eexists _. destruct (demo_load (drop 200 demo_elf) (fresh_status, loader_world (replicate 5 (Ans 0 0))))
    as [[r st']|] eqn:R; [|vm_compute in R; discriminate R].
  exists st'. split; [exact E|].
  assert (r = 0) as -> by (vm_compute in R; by injection R as <- _). split; [exact R|].
  destruct (loader_lifecycle 32 (fun _ => true) reads_initialised no_error [] {[0; 1; 2]} (Some demo_elf) _
    fresh_status (loader_world (replicate 5 (Ans 0 0))) 0 st' E eq_refl R) as [[[_ H]|[H _]] _];
    [exact H|discriminate H].
Defined.

Lemma embedded_program_refused_witness :
  exists m st', bpf_loader_init 32 (fun _ => true) reads_initialised no_error [] None = Done m /\
    m (fresh_status, loader_world [Ans 0 13]) = Some (-1, st') /\ s_use_bpf st'.1 = false.
Proof.
  pose proof (init_eq None (filter_bytes embedded_bpf_prog) eq_refl) as E.
  eexists _. destruct (demo_load (filter_bytes embedded_bpf_prog) (fresh_status, loader_world [Ans 0 13]))
    as [[r st']|] eqn:R; [|vm_compute in R; discriminate R].
  destruct (embedded_program_refused 32 (fun _ => true) reads_initialised no_error [] None _
    fresh_status (loader_world [Ans 0 13]) r st' (fun _ H => H) eq_refl E R) as [-> H].
  exists st'. split; [exact E|]. split; [exact R|exact H].
Defined.

Definition demo_record (n : Z) : perf_record :=
  mk_record PERF_RECORD_SAMPLE 0 (le_bytes 4 40 ++ replicate 40 n ++ replicate 4 0).

Lemma demo_record_ok n : record_ok (demo_record n).
Proof. constructor; vm_compute; done. Qed.

(** Two samples, a buffer for one. *)
Lemma drain_records_witness :
  exists c', drain 3 130 (mk_ring (130 + total_size [demo_record 7; demo_record 8]) 130
      (mjoin (map enc_record [demo_record 7; demo_record 8]) ++ replicate 18 0)) (replicate 79 0, 0, 0) =
    Done (Some (mk_ring 242 242
      (mjoin (map enc_record [demo_record 7; demo_record 8]) ++ replicate 18 0), c')) /\
    holds_events (replicate 79 0, 0, 0) c' [replicate 40 7].
Proof.
  apply (drain_records 3 130 130 [] (replicate 18 0) [demo_record 7; demo_record 8] (replicate 79 0, 0, 0)).
  - repeat constructor; apply demo_record_ok.
  - simpl. lia.
  - vm_compute. reflexivity.
  - lia.
  - vm_compute. reflexivity.
  - vm_compute. reflexivity.
  - vm_compute. split; discriminate.
Defined.

(** A sample whose event lies across the end of the data pages is read beyond
    the mapping. *)
Example event_across_the_end :
  drain 3 56 (mk_ring 88 32 (drop 24 (enc_record (demo_record 7)) ++ take 24 (enc_record (demo_record 7))))
    (replicate 79 0, 0, 0) = Undefined.
Proof. vm_compute. reflexivity. Qed.

(** CPU 0 cannot be set up, CPU 1 can: the cleanup visits CPU 0 only, and the
    perf event and the mapping of CPU 1 stay. *)
Example perf_buffer_leak :
  let s := mk_status (-1) 7 (-1) false 0 (replicate 16 0) (replicate 16 0) 0 (replicate 256 0) in
  exists st' st'', bpf_loader_create_perf_buffer
      (s, loader_world [Ans 4096 0; Ans 2 0; Ans (-1) 24; Ans 0 0; Ans 0 0; Ans 0 0]) = Some (0, st') /\
    bpf_loader_cleanup st' = Some (tt, st'') /\ w_fds st''.2 = w_fds st'.2 /\
    bool_decide (3 ∈ w_fds st''.2) = true /\ w_maps st''.2 = {[1]}.
Proof. eexists _, _. split; [vm_compute; reflexivity|]. split; [vm_compute; reflexivity|]. by vm_compute. Qed.
