(* ===== verification/Main.v ===== *)
(** Main: the loop of src/main.c (lines 289 to 649).

    The state of the loop are the tracker, the ACK ring of its retransmission
    check, the detector, the buffers and the counters; the relay client runs in
    the monad of Kernel.v.  The inputs of a round (received frames, the texts of
    /proc, clock readings) are records.  The components are used through what
    they promise ([tracker_promises], [detector_promises], [client_promises]):
    the safety of the loop is proved against these classes, whose instances are
    the theorems of the component files. *)

From stdpp Require Import base list gmap strings numbers option relations.
From S2P Require Import Prelude CLib Common Structs FlowTracker PacketParser Payload Anomaly Serializer.
From S2P Require Import Scanf ProcNet HostMetrics RuntimeConfig Kernel TcpClient Elf BpfLoader.

(** ** Packets *)

(** The clock readings of one packet: its timestamp, the two readings of
    [flow_tracker_update_single], those of the retransmission check and of the
    detector. *)
Record packet_clock : Type := mk_clock {
  c_packet : Z;
  c_update : Z;
  c_update_find : Z;
  c_retransmit : Z;
  c_anomaly : Z
}.

(** What [recvfrom] delivers: the buffer and the length it returns. *)
Record arrival : Type := mk_arrival { a_buf : bytes; a_len : Z; a_clock : packet_clock }.

Definition packet_key (pkt : pkt_event_t) (ip_version : Z) : flow_key_t :=
  mk_key (q_src_ip pkt) (q_dst_ip pkt) (q_src_port pkt) (q_dst_port pkt) (q_protocol pkt) ip_version 0.

(** DNS payload parsing. *)
Definition dns_stage (buf : bytes) (len : Z) (pkt : pkt_event_t) (flow : flow_event_t)
  : exec flow_event_t :=
  if (q_protocol pkt =? IPPROTO_UDP) &&
     ((q_src_port pkt =? PORT_DNS) || (q_dst_port pkt =? PORT_DNS)) && (42 <? len)
  then
    eth_hdr_len ← link_len buf len;
    let dns_offset := eth_hdr_len + 20 + 8 in
    if dns_offset <? len
    then parse_dns_payload (drop (Z.to_nat dns_offset) buf) (len - dns_offset) flow
           (q_src_port pkt =? PORT_DNS)
    else Done flow
  else Done flow.

(** HTTP payload parsing. *)
Definition http_stage (buf : bytes) (len : Z) (pkt : pkt_event_t) (flow : flow_event_t)
  : exec flow_event_t :=
  if (q_protocol pkt =? IPPROTO_TCP) &&
     ((q_src_port pkt =? PORT_HTTP) || (q_dst_port pkt =? PORT_HTTP)) && (54 <? len)
  then
    eth_hdr_len ← link_len buf len;
    let '(eth_hdr_len, ip_hdr_len) :=
      if q_ip_version pkt =? 6 then (eth_hdr_len + 40, 0) else (eth_hdr_len, 20) in
    let tcp_offset := eth_hdr_len + ip_hdr_len in
    if tcp_offset + 20 <=? len then
      b ← rd buf (tcp_offset + 12);
      let http_offset := tcp_offset + Z.land (Z.shiftr b 4) 0x0F * 4 in
      if http_offset <? len
      then parse_http_payload (drop (Z.to_nat http_offset) buf) (len - http_offset) flow
             (q_src_port pkt =? PORT_HTTP)
      else Done flow
    else Done flow
  else Done flow.

Definition mark_retransmit (seq_num : Z) (flow : flow_event_t) : flow_event_t :=
  let flow := set_e_retransmits 1 flow in
  let flow := put_event_type (lit "retransmit") flow in
  let flow := put_tags (lit "tcp,retransmit") flow in
  print_details (lit "tcp_retransmit:seq=" ++ dec seq_num) flow.

(** TCP retransmission detection. *)
Definition retransmit_stage (now : Z) (buf : bytes) (len : Z) (pkt : pkt_event_t) (key : flow_key_t)
    (ft : flow_tracker) (acks : ack_state) (flow : flow_event_t)
  : exec (flow_tracker * ack_state * flow_event_t) :=
  if q_protocol pkt =? IPPROTO_TCP then
    ext ← extract_tcp_seq_num buf len pkt;
    match ext with
    | None => Done (ft, acks, flow)
    | Some (seq_num, payload_len, tcp_flags) =>
        '(x, ft, acks) ← flow_tracker_check_tcp_retransmit now ft acks key seq_num payload_len tcp_flags;
        let flow := if x_is_retransmit x =? 0 then flow else mark_retransmit seq_num flow in
        let flow := if x_is_dup_ack x =? 0 then flow else set_e_dup_acks 1 flow in
        Done (ft, acks, flow)
    end
  else Done (ft, acks, flow).

(** State of the capture: tracker, ACK ring, detector. *)
Record capture : Type := mk_capture {
  cp_tracker : flow_tracker;
  cp_acks : ack_state;
  cp_detector : anomaly_detector
}.

(** One received frame: whether it counts, the new state, and the event
    [flow] the enrichment has built. *)
Definition handle_packet (probe_id : bytes) (a : arrival) (st : capture)
  : exec (bool * capture * flow_event_t) :=
  let pkt := set_q_pkt_len (u16 (a_len a)) (set_q_timestamp_ns (c_packet (a_clock a)) zero_pkt) in
  '(ok, pkt) ← packet_parse_raw (a_buf a) (a_len a) pkt;
  if ok : bool then
    let flow := packet_to_flow_event pkt probe_id in
    flow ← dns_stage (a_buf a) (a_len a) pkt flow;
    flow ← http_stage (a_buf a) (a_len a) pkt flow;
    let key := packet_key pkt (q_ip_version pkt) in
    let ft := flow_tracker_update_single (c_update (a_clock a)) (c_update_find (a_clock a))
                (cp_tracker st) key (q_pkt_len pkt) probe_id in
    '(ft, acks, flow) ← retransmit_stage (c_retransmit (a_clock a)) (a_buf a) (a_len a) pkt key ft
                          (cp_acks st) flow;
    let '(ad, _, _) := anomaly_check_flow (c_anomaly (a_clock a)) (cp_detector st)
                         (packet_to_flow_event pkt probe_id) in
    Done (true, mk_capture ft acks ad, flow)
  else Done (false, st, zero_event).

(** The receive loop: at most 1000 counted packets a round.  The result is the
    number of them, the state and the arrivals left in the socket. *)
Fixpoint receive_loop (probe_id : bytes) (arrivals : list arrival) (pkt_this_round : Z) (st : capture)
  : exec (Z * capture * list arrival) :=
  if pkt_this_round <? 1000 then
    match arrivals with
    | [] => Done (pkt_this_round, st, [])
    | a :: arrivals =>
        if a_len a <=? 0 then Done (pkt_this_round, st, arrivals) else
        '(ok, st, _) ← handle_packet probe_id a st;
        receive_loop probe_id arrivals (if ok : bool then pkt_this_round + 1 else pkt_this_round) st
    end
  else Done (pkt_this_round, st, arrivals).

(** *** Events of the perf buffer *)

(** [pkt->name]. *)
Definition field_at (ev : bytes) (name : string) : exec Z :=
  match member pkt_event_struct name with
  | Some (off, t) => read_field ev (Z.of_nat off) (sizeof t)
  | None => Undefined
  end.

(** [*pkt]: the members of [struct pkt_event_t]. *)
Definition load_pkt (ev : bytes) : exec pkt_event_t :=
  timestamp_ns ← field_at ev "timestamp_ns";
  src_ip ← field_at ev "src_ip";
  dst_ip ← field_at ev "dst_ip";
  src_port ← field_at ev "src_port";
  dst_port ← field_at ev "dst_port";
  protocol ← field_at ev "protocol";
  tcp_flags ← field_at ev "tcp_flags";
  pkt_len ← field_at ev "pkt_len";
  ifindex ← field_at ev "ifindex";
  pid ← field_at ev "pid";
  ip_version ← field_at ev "ip_version";
  payload_type ← field_at ev "payload_type";
  latency_us ← field_at ev "latency_us";
  Done (mk_pkt timestamp_ns src_ip dst_ip src_port dst_port protocol tcp_flags pkt_len ifindex pid
          ip_version payload_type latency_us).

(** The loop of [read_bpf_events] over the events at [i]; [clock i] are the
    two readings of [flow_tracker_update_single]. *)
Fixpoint bpf_events (n : nat) (i : Z) (perf_buf : bytes) (probe_id : bytes) (clock : Z -> Z * Z)
    (ft : flow_tracker) (count : Z) : exec (flow_tracker * Z) :=
  match n with
  | O => Done (ft, count)
  | S n =>
      ev ← memcpy_from perf_buf (i * EVENT_SIZE) (Z.to_nat EVENT_SIZE);
      pkt ← load_pkt ev;
      if q_timestamp_ns pkt =? 0 then bpf_events n (i + 1) perf_buf probe_id clock ft count else
      let ft := flow_tracker_update_single (clock i).1 (clock i).2 ft
                  (packet_key pkt (q_ip_version pkt)) (q_pkt_len pkt) probe_id in
      bpf_events n (i + 1) perf_buf probe_id clock ft (count + 1)
  end.

(** [read_bpf_events]: [None] when the ring reader does not end. *)
Definition read_bpf_events (fuel : nat) (page_size : Z) (s : bpf_loader_status) (mem : gmap Z ring)
    (junk : bytes) (probe_id : bytes) (clock : Z -> Z * Z) (ft : flow_tracker)
  : exec (option (gmap Z ring * flow_tracker * Z)) :=
  if s_perf_map_fd s <? 0 then Done (Some (mem, ft, 0)) else
  res ← bpf_loader_read_perf_events fuel page_size s mem junk;
  match res with
  | None => Done None
  | Some (mem, (perf_buf, total, nr_events)) =>
      if (total <=? 0) || (nr_events =? 0) then Done (Some (mem, ft, 0)) else
      '(ft, count) ← bpf_events (Z.to_nat nr_events) 0 perf_buf probe_id clock ft 0;
      Done (Some (mem, ft, count))
  end.

(** [read_raw_packets], which [main] does not call: the packet length and the
    IP version stay 0. *)
Fixpoint read_raw_packets (probe_id : bytes) (arrivals : list arrival) (ft : flow_tracker) (pkt_count : Z)
  : exec (flow_tracker * Z) :=
  match arrivals with
  | [] => Done (ft, pkt_count)
  | a :: arrivals =>
      if a_len a <=? 0 then Done (ft, pkt_count) else
      '(ok, pkt) ← packet_parse_raw (a_buf a) (a_len a) (set_q_timestamp_ns (c_packet (a_clock a)) zero_pkt);
      if ok : bool then
        let ft := flow_tracker_update_single (c_update (a_clock a)) (c_update_find (a_clock a)) ft
                    (packet_key pkt 0) (q_pkt_len pkt) probe_id in
        read_raw_packets probe_id arrivals ft (pkt_count + 1)
      else read_raw_packets probe_id arrivals ft pkt_count
  end.

(** ** The loop *)

(** The texts of /proc/net/tcp, udp, tcp6 and udp6. *)
Record proc_files : Type := mk_files {
  pf_tcp : option bytes;
  pf_udp : option bytes;
  pf_tcp6 : option bytes;
  pf_udp6 : option bytes
}.

(** The four readers share the array of [MAX_FLOWS] entries. *)
Definition poll_proc (files : proc_files) (entries : list proc_net_entry)
  : exec (list proc_net_entry * Z) :=
  let quarter := MAX_FLOWS / 4 in
  let rest n := quarter - (if n <? quarter then n else quarter) in
  '(entries, tcp4) ← proc_net_read_tcp (pf_tcp files) entries 0 quarter;
  '(entries, udp4) ← proc_net_read_udp (pf_udp files) entries tcp4 (rest tcp4);
  '(entries, tcp6) ← proc_net_read_tcp6 (pf_tcp6 files) entries (tcp4 + udp4) quarter;
  '(entries, udp6) ← proc_net_read_udp6 (pf_udp6 files) entries (tcp4 + udp4 + tcp6) (rest tcp6);
  let total_entries := tcp4 + udp4 + tcp6 + udp6 in
  Done (entries, if MAX_FLOWS <? total_entries then MAX_FLOWS else total_entries).

(** The memory of [metric] before it is set. *)
Definition unset_metric : host_metric_t :=
  mk_metric 0 (replicate 64 0) Double.d_zero Double.d_zero Double.d_zero 0 0 0 0.

(** What a round reads from outside. *)
Record round_input : Type := mk_round {
  ri_arrivals : list arrival;
  ri_perf_buf : bytes;
  ri_perf_clock : Z -> Z * Z;
  ri_files : proc_files;
  ri_poll : Z;
  ri_poll_find : nat -> Z;
  ri_now : Z * Z;
  ri_host : host;
  ri_cleanup : Z
}.

Record loop_state : Type := mk_loop {
  ls_capture : capture;
  ls_rings : gmap Z ring;
  ls_entries : list proc_net_entry;
  ls_metric : option host_metric_t;
  ls_json : bytes;
  ls_last_metric_ns : Z;
  ls_total_events : Z;
  ls_total_packets : Z
}.

Definition set_capture (c : capture) (packets : Z) (ls : loop_state) : loop_state :=
  mk_loop c (ls_rings ls) (ls_entries ls) (ls_metric ls) (ls_json ls) (ls_last_metric_ns ls)
    (ls_total_events ls) (u64 (ls_total_packets ls + packets)).
Definition set_tracker (ft : flow_tracker) (ls : loop_state) : loop_state :=
  mk_loop (mk_capture ft (cp_acks (ls_capture ls)) (cp_detector (ls_capture ls))) (ls_rings ls)
    (ls_entries ls) (ls_metric ls) (ls_json ls) (ls_last_metric_ns ls) (ls_total_events ls)
    (ls_total_packets ls).
Definition set_rings (m : gmap Z ring) (ls : loop_state) : loop_state :=
  mk_loop (ls_capture ls) m (ls_entries ls) (ls_metric ls) (ls_json ls) (ls_last_metric_ns ls)
    (ls_total_events ls) (ls_total_packets ls).
Definition set_entries (es : list proc_net_entry) (ls : loop_state) : loop_state :=
  mk_loop (ls_capture ls) (ls_rings ls) es (ls_metric ls) (ls_json ls) (ls_last_metric_ns ls)
    (ls_total_events ls) (ls_total_packets ls).
Definition set_metric (m : host_metric_t) (ns : Z) (ls : loop_state) : loop_state :=
  mk_loop (ls_capture ls) (ls_rings ls) (ls_entries ls) (Some m) (ls_json ls) ns (ls_total_events ls)
    (ls_total_packets ls).
Definition set_json (b : bytes) (ls : loop_state) : loop_state :=
  mk_loop (ls_capture ls) (ls_rings ls) (ls_entries ls) (ls_metric ls) b (ls_last_metric_ns ls)
    (ls_total_events ls) (ls_total_packets ls).
Definition add_events (n : Z) (ls : loop_state) : loop_state :=
  mk_loop (ls_capture ls) (ls_rings ls) (ls_entries ls) (ls_metric ls) (ls_json ls)
    (ls_last_metric_ns ls) (u64 (ls_total_events ls + n)) (ls_total_packets ls).

Section rounds.
(** [inet_pton]; the fuel of the ring reader and the page size; the loader's
    status after initialisation, with [use_bpf] of [main]; the probe id. *)
Context (pton : bytes -> bool) (fuel : nat) (page_size : Z) (bpf_status : bpf_loader_status)
  (use_bpf : bool) (probe_id : bytes).

(** The perf buffer, when the loader found one. *)
Definition perf_stage (inp : round_input) (ls : loop_state) : exec (option (loop_state * Z)) :=
  if 0 <=? s_perf_map_fd bpf_status then
    res ← read_bpf_events fuel page_size bpf_status (ls_rings ls) (ri_perf_buf inp) probe_id
            (ri_perf_clock inp) (cp_tracker (ls_capture ls));
    Done (match res with
          | None => None
          | Some (mem, ft, n) =>
              let ls := set_tracker ft (set_rings mem ls) in
              Some (set_capture (ls_capture ls) n ls, n)
          end)
  else Done (Some (ls, 0)).

(** Packets of the eBPF mode; [None] when the ring reader does not end. *)
Definition capture_stage (inp : round_input) (ls : loop_state) : exec (option loop_state) :=
  if use_bpf then
    res ← perf_stage inp ls;
    match res with
    | None => Done None
    | Some (ls, n) =>
        '(m, c, _) ← receive_loop probe_id (ri_arrivals inp) n (ls_capture ls);
        Done (Some (set_capture c (m - n) ls))
    end
  else Done (Some ls).

(** Connections, in both modes. *)
Definition poll_stage (inp : round_input) (ls : loop_state) : exec loop_state :=
  '(entries, total) ← poll_proc (ri_files inp) (ls_entries ls);
  Done (set_tracker (flow_tracker_update (ri_poll inp) (ri_poll_find inp)
                       (cp_tracker (ls_capture ls)) entries total)
          (set_entries entries ls)).

(** [struct host_metric_t metric] of [main] is not initialised.  A collection
    writes every field that is printed, except the two counters when
    /proc/net/dev cannot be opened: before the first successful collection
    they would be printed without having been set. *)
Definition old_metric (inp : round_input) (ls : loop_state) : exec host_metric_t :=
  match ls_metric ls, h_net_dev (ri_host inp) with
  | Some metric, _ => Done metric
  | None, Some _ => Done unset_metric
  | None, None => Undefined
  end.

(** Host metrics every 30 s, with the cleanup of stale flows. *)
Definition metric_stage (inp : round_input) (ls : loop_state)
  : exec (loop_state * option host_metric_t) :=
  let now := FlowTracker.now_ns (ri_now inp).1 (ri_now inp).2 in
  if 30000000000 <=? u64 (now - ls_last_metric_ns ls) then
    metric ← old_metric inp ls;
    metric ← host_metrics_collect (ri_host inp) metric probe_id;
    let ls := set_metric metric now ls in
    Done (set_tracker (flow_tracker_cleanup (ri_cleanup inp) (cp_tracker (ls_capture ls))
                         (FLOW_CLEANUP_INTERVAL_S * 1000000000)) ls, Some metric)
  else Done (ls, None).

(** The batch: the state after the flush, the length of the JSON text and the
    number of events. *)
Definition batch_stage (mp : option host_metric_t) (ls : loop_state) : exec (loop_state * option (Z * Z)) :=
  let '(events, event_count) := flow_tracker_get_events (cp_tracker (ls_capture ls)) (MAX_FLOWS * 2) in
  if (0 <? event_count) || (match mp with Some _ => true | None => false end) then
    '(json, json_len) ← serialize_batch events mp probe_id (ls_json ls) (MAX_JSON_LEN * 16);
    Done (set_json json (set_tracker (flow_tracker_flush (cp_tracker (ls_capture ls))) ls),
          Some (json_len, event_count))
  else Done (ls, None).

(** Reconnect if needed and send; whether the events are counted. *)
Definition report (json : bytes) (json_len : Z) : KM tcp_client bool :=
  if negb (0 <? json_len) then mret false else
  up ← tcp_client_is_connected;
  _ ← (if up : bool then mret 0 else tcp_client_reconnect pton);
  up ← tcp_client_is_connected;
  if up : bool then (_ ← tcp_client_send pton json json_len; mret true) else mret false.

Definition send_stage (batch : option (Z * Z)) (ls : loop_state) : KM tcp_client loop_state :=
  match batch with
  | None => mret ls
  | Some (json_len, event_count) =>
      sent ← report (ls_json ls) json_len;
      mret (if sent : bool then add_events event_count ls else ls)
  end.

(** The round after the packets. *)
Definition after_capture (inp : round_input) (ls : loop_state) (cw : tcp_client * world)
  : exec (option (loop_state * (tcp_client * world))) :=
  ls ← poll_stage inp ls;
  '(ls, mp) ← metric_stage inp ls;
  '(ls, batch) ← batch_stage mp ls;
  Done (send_stage batch ls cw).

(** One round of [while (!g_stop)].  [None]: it waits in a system call or in
    the ring reader. *)
Definition round (inp : round_input) (s : loop_state * (tcp_client * world))
  : exec (option (loop_state * (tcp_client * world))) :=
  res ← capture_stage inp s.1;
  match res with
  | None => Done None
  | Some ls => after_capture inp ls s.2
  end.

(** The round comes to [batch_stage] with [ls] and the metric [mp]. *)
Definition reaches_batch (inp : round_input) (s : loop_state * (tcp_client * world)) (ls : loop_state)
    (mp : option host_metric_t) : Prop :=
  exists ls1 ls2, capture_stage inp s.1 = Done (Some ls1) /\ poll_stage inp ls1 = Done ls2 /\
    metric_stage inp ls2 = Done (ls, mp).

(** The loop, for the rounds before [g_stop] is set. *)
Fixpoint rounds (inps : list round_input) (s : loop_state * (tcp_client * world))
  : exec (option (loop_state * (tcp_client * world))) :=
  match inps with
  | [] => Done (Some s)
  | inp :: inps =>
      res ← round inp s;
      match res with
      | None => Done None
      | Some s => rounds inps s
      end
  end.

(** Some round comes to a batch that does not fit in [json_buf]. *)
Definition loop_overruns (inps : list round_input) (s : loop_state * (tcp_client * world)) : Prop :=
  exists inps1 inp inps2 s1 ls mp,
    inps = inps1 ++ inp :: inps2 /\ rounds inps1 s = Done (Some s1) /\ reaches_batch inp s1 ls mp /\
    overruns (flow_tracker_get_events (cp_tracker (ls_capture ls)) (MAX_FLOWS * 2)).1 mp probe_id
      (MAX_JSON_LEN * 16).
End rounds.

(** What a round prints at its end: the statistics, when the number of events
    sent is a multiple of 500. *)
Definition stats_stage (use_bpf : bool) (ls : loop_state) : bytes :=
  if (0 <? ls_total_events ls) && (ls_total_events ls mod 500 =? 0) then
    let '(active, _) := flow_tracker_get_stats (cp_tracker (ls_capture ls)) in
    lit "[STATS] mode=" ++ (if use_bpf then lit "eBPF" else lit "proc.net") ++ lit " active_flows=" ++ decd active ++
    lit " events=" ++ dec (ls_total_events ls) ++ lit " pkts=" ++ dec (ls_total_packets ls) ++ [10] ++
    anomaly_detector_print_stats (cp_detector (ls_capture ls))
  else [].

(** *** Command line *)

Inductive command : Type :=
| Usage
| Version
| Run (ifname bpf_path : bytes).

(** The loop over [argv], the name of the program dropped.  The value of [-i]
    is tested against [-b] too, since [i] has moved. *)
Fixpoint parse_args (argv : list bytes) (ifname bpf_path : bytes) : command :=
  match argv with
  | [] => Run ifname bpf_path
  | a :: rest =>
      if bool_decide (a = lit "-h") || bool_decide (a = lit "--help") then Usage
      else if bool_decide (a = lit "-v") then Version
      else if bool_decide (a = lit "-i") then
        match rest with
        | [] => Run ifname bpf_path
        | v :: rest' =>
            if bool_decide (v = lit "-b") then
              match rest' with
              | [] => Run v bpf_path
              | p :: rest'' => parse_args rest'' v p
              end
            else parse_args rest' v bpf_path
        end
      else if bool_decide (a = lit "-b") then
        match rest with
        | [] => Run ifname bpf_path
        | p :: rest' => parse_args rest' ifname p
        end
      else parse_args rest ifname bpf_path
  end.

Definition main_args (argv : list bytes) (env_iface : option bytes) : command :=
  match parse_args argv (lit "eth0") (lit "./bpf/stb_socket_filter.bpf.o") with
  | Run ifname bpf_path =>
      Run (match env_iface with Some (c :: s) => c :: s | _ => ifname end) bpf_path
  | c => c
  end.

(** The memory of [main] before the first round; [entries] and [json] are not
    initialised, nor is [metric], which is [None] until it is set. *)
Definition start (ft : flow_tracker) (ad : anomaly_detector) (entries : list proc_net_entry)
    (json : bytes) : loop_state :=
  mk_loop (mk_capture ft ack_init ad) ∅ entries None json 0 0 0.

(** The end of [main]: the loader is cleaned up if it was in use, then the
    client; the tracker and the detector only hold memory. *)
Definition shutdown (pton : bytes -> bool) (use_bpf : bool) (bpf_status : bpf_loader_status)
    (st : tcp_client * world) : option world :=
  w ← (if use_bpf
       then '(_, (_, w)) ← bpf_loader_cleanup (bpf_status, st.2); Some w
       else Some st.2);
  '(_, (_, w)) ← tcp_client_cleanup pton (st.1, w);
  Some w.

(** ** What the components promise to the loop *)

(** The tracker, through an invariant of its own. *)
Class tracker_promises (ok : flow_tracker -> Prop) : Prop := {
  tp_single ts now ft key n pid :
    is_u64 ts -> key_ok key -> is_u64 n -> ok ft -> ok (flow_tracker_update_single ts now ft key n pid);
  tp_update ts now ft es n :
    is_u64 ts -> Forall entry_ok es -> ok ft -> ok (flow_tracker_update ts now ft es n);
  tp_cleanup ts ft age : ok ft -> ok (flow_tracker_cleanup ts ft age);
  tp_flush ft : ok ft -> ok (flow_tracker_flush ft);
  tp_retransmit now ft st key seq len flags :
    ok ft -> ack_ok st -> flow_idx st < 2 ^ 31 - 1 ->
    exists x ft' st', flow_tracker_check_tcp_retransmit now ft st key seq len flags = Done (x, ft', st') /\
      ok ft' /\ ack_ok st' /\ flow_idx st' <= flow_idx st + 1
}.

(** The detector. *)
Class detector_promises (ok : anomaly_detector -> Prop) : Prop := {
  dp_check ts ad flow : ok ad -> event_ok flow -> is_u64 ts -> ok (anomaly_check_flow ts ad flow).1.1
}.

(** The relay client, whatever the kernel answers. *)
Class client_promises (pton : bytes -> bool) (ok : tcp_client * world -> Prop) : Prop := {
  rp_connected : triple ok tcp_client_is_connected (fun _ => ok);
  rp_reconnect : triple ok (tcp_client_reconnect pton) (fun _ => ok);
  rp_send data n : triple ok (tcp_client_send pton data n) (fun _ => ok)
}.

#[export] Instance flow_tracker_promises : tracker_promises ft_ok.
Proof.
  constructor; auto using update_single_ok, update_ok, cleanup_ok, flush_ok.
  intros now ft st key seq len flags Hok Ha Hi.
  cut (exists x ft' st', flow_tracker_check_tcp_retransmit now ft st key seq len flags = Done (x, ft', st') /\
       flow_idx st' <= flow_idx st + 1).
  { intros (x & ft' & st' & E & Hle). exists x, ft', st'.
    split_and!; [done|by eapply retransmit_ok|by eapply retransmit_ack_ok|done]. }
  unfold flow_tracker_check_tcp_retransmit.
  destruct (find_record now ft key) as [[i ft1]|]; [|eexists _, _, _; split; [done|lia]].
  destruct (consumes_seq flags); [eexists _, _, _; split; [done|lia]|].
  destruct (data_packet _ _ && behind _ _); [eexists _, _, _; split; [done|lia]|]. cbv zeta.
  destruct (_ && (len =? 0)); [|eexists _, _, _; split; [done|lia]].
  destruct (check_pure_ack_Done st seq Ha Hi) as (l & _ & ->). rewrite bind_Done.
  destruct (_ && _); eexists _, _, _; (split; [done|simpl; lia]).
Qed.

Definition detector_ok (ad : anomaly_detector) : Prop := ad_ok ad /\ exists m, sim ad m.

#[export] Instance anomaly_detector_promises : detector_promises detector_ok.
Proof.
  constructor. intros ts ad flow [Hok [m Hsim]] He Hts.
  pose proof (check_flow_refines ts ad m flow Hok Hsim (conj Hts He)) as H.
  destruct (anomaly_check_flow ts ad flow) as [[ad' flow'] r]. simpl.
  destruct H as (Hok' & _ & Hsim' & _). split; [done|]. by eexists.
Qed.

#[export] Instance tcp_client_promises pton F : client_promises pton (inv F).
Proof.
  constructor; [apply is_connected_spec|apply reconnect_spec|intros; apply send_spec].
Qed.

(** ** Packets are handled safely *)

Lemma link_len_Done buf len : len <= zlen buf -> exists o, link_len buf len = Done o /\ (o = 14 \/ o = 18).
Proof.
  intros H. unfold link_len. destruct (Z.leb_spec 16 len); [|eauto].
  destruct (rd_defined buf 12) as (b12 & -> & _); [lia|]. rewrite bind_Done. case_match; [|eauto].
  destruct (rd_defined buf 13) as (b13 & -> & _); [lia|]. rewrite bind_Done. case_match; eauto.
Qed.

Lemma tail_ok buf off len :
  Forall is_byte buf -> 0 <= off -> len <= zlen buf ->
  Forall is_byte (drop (Z.to_nat off) buf) /\ len - off <= zlen (drop (Z.to_nat off) buf).
Proof. intros. split; [by apply Forall_drop|]. rewrite length_drop. lia. Qed.

Section stages.
Context (buf : bytes) (len : Z).
Hypothesis buf_bytes : Forall is_byte buf.
Hypothesis buf_len : len <= zlen buf.

Lemma dns_stage_ok pkt flow :
  event_ok flow -> exists flow', dns_stage buf len pkt flow = Done flow' /\ event_ok flow'.
Proof.
  intros He. unfold dns_stage. case_match; [|eauto].
  destruct (link_len_Done buf len buf_len) as (o & -> & Ho). rewrite bind_Done. cbv zeta. case_match; [|eauto].
  destruct (tail_ok buf (o + 20 + 8) len) as [Hb Hl]; [done|lia|done|].
  destruct (parse_dns_payload_reads (len - (o + 20 + 8)) flow (q_src_port pkt =? PORT_DNS) He _ Hb Hl)
    as (f & Hf & _ & Hok). eauto.
Qed.

Lemma http_stage_ok pkt flow :
  event_ok flow -> exists flow', http_stage buf len pkt flow = Done flow' /\ event_ok flow'.
Proof.
  intros He. unfold http_stage. case_match; [|eauto].
  destruct (link_len_Done buf len buf_len) as (o & -> & Ho). rewrite bind_Done.
  set (p := if q_ip_version pkt =? 6 then _ else _).
  assert (Hp : 0 <= p.1 + p.2) by (subst p; case_match; simpl; lia). destruct p as [eth ip]. simpl in Hp.
  cbv zeta. destruct (Z.leb_spec (eth + ip + 20) len); [|eauto].
  destruct (rd_defined buf (eth + ip + 12)) as (b & -> & _); [lia|]. rewrite bind_Done.
  assert (0 <= Z.land (Z.shiftr b 4) 15) by (apply Z.land_nonneg; lia).
  case_match; [|eauto].
  destruct (tail_ok buf (eth + ip + Z.land (Z.shiftr b 4) 15 * 4) len) as [Hb Hl]; [done|lia|done|].
  destruct (parse_http_payload_reads (len - (eth + ip + Z.land (Z.shiftr b 4) 15 * 4)) flow
    (q_src_port pkt =? PORT_HTTP) He _ Hb Hl) as (f & Hf & _ & Hok). eauto.
Qed.

Context (ok_tracker : flow_tracker -> Prop) `{!tracker_promises ok_tracker}.

(** The stage changes neither the queue's owner nor more than one ACK slot. *)
Lemma retransmit_stage_ok now pkt key ft acks flow :
  ok_tracker ft -> ack_ok acks -> flow_idx acks < 2 ^ 31 - 1 ->
  exists ft' acks' flow', retransmit_stage now buf len pkt key ft acks flow = Done (ft', acks', flow') /\
    ok_tracker ft' /\ ack_ok acks' /\ flow_idx acks' <= flow_idx acks + 1.
Proof.
  intros Hft Ha Hi. unfold retransmit_stage. case_match; [|eexists _, _, _; split_and!; try done; lia].
  destruct (extract_tcp_seq_num_reads len pkt buf buf_bytes buf_len) as (r & -> & _ & _). rewrite bind_Done.
  destruct r as [[[seq plen] fl]|]; [|eexists _, _, _; split_and!; try done; lia].
  destruct (tp_retransmit now ft acks key seq plen fl Hft Ha Hi) as (x & ft' & st' & -> & H1 & H2 & H3).
  rewrite bind_Done. by eexists _, _, _.
Qed.
End stages.

(** A frame and its clock readings, as the kernel delivers them. *)
Record arrival_ok (a : arrival) : Prop := mk_arrival_ok {
  ar_bytes : Forall is_byte (a_buf a);
  ar_len : a_len a <= zlen (a_buf a);
  ar_packet : is_u64 (c_packet (a_clock a));
  ar_update : is_u64 (c_update (a_clock a));
  ar_anomaly : is_u64 (c_anomaly (a_clock a))
}.

Lemma packet_key_ok q : pkt_ok q -> key_ok (packet_key q (q_ip_version q)).
Proof. intros []. by constructor. Qed.

(** The packet of [handle_packet] before it is parsed. *)
Definition blank_pkt (a : arrival) : pkt_event_t :=
  set_q_pkt_len (u16 (a_len a)) (set_q_timestamp_ns (c_packet (a_clock a)) zero_pkt).

Lemma blank_pkt_ok a : arrival_ok a -> pkt_ok (blank_pkt a).
Proof. intros []. constructor; simpl; auto with stb; mlia. Qed.

Section capture.
Context (ok_tracker : flow_tracker -> Prop) `{!tracker_promises ok_tracker}.
Context (ok_detector : anomaly_detector -> Prop) `{!detector_promises ok_detector}.

(** Invariant of the capture, with [n] ACKs left before the ring's index
    overflows. *)
Definition capture_ok (n : Z) (st : capture) : Prop :=
  ok_tracker (cp_tracker st) /\ ok_detector (cp_detector st) /\ ack_ok (cp_acks st) /\
  flow_idx (cp_acks st) + n <= 2 ^ 31 - 1.

Lemma handle_packet_ok probe_id a st n :
  arrival_ok a -> 0 <= n -> capture_ok (n + 1) st ->
  exists b st' flow, handle_packet probe_id a st = Done (b, st', flow) /\ capture_ok n st'.
Proof.
  intros Ha Hn (Hft & Had & Hack & Hidx). pose proof Ha as [Hb Hl Hc Hu Hd]. unfold handle_packet.
  fold (blank_pkt a). destruct (parse_raw_within (a_len a) (blank_pkt a) (a_buf a) Hl) as [[[ok pkt] Hp] _].
  cbv beta in Hp. rewrite Hp, bind_Done. destruct ok.
  2:{ eexists _, _, _. split; [done|]. split_and!; try done. lia. }
  pose proof (packet_parse_raw_ok _ _ _ _ _ Hb (blank_pkt_ok a Ha) Hp) as Hq.
  pose proof (packet_to_flow_event_ok pkt probe_id Hq) as He. cbv zeta.
  destruct (dns_stage_ok _ _ Hb Hl pkt _ He) as (f1 & -> & He1). rewrite bind_Done.
  destruct (http_stage_ok _ _ Hb Hl pkt _ He1) as (f2 & -> & He2). rewrite bind_Done.
  assert (is_u64 (q_pkt_len pkt)) by (destruct Hq; mlia).
  edestruct (retransmit_stage_ok _ _ Hb Hl ok_tracker (c_retransmit (a_clock a)) pkt) as
    (ft' & acks' & f3 & -> & Hft' & Hack' & Hidx');
    [apply tp_single; [exact Hu|by apply packet_key_ok|done|exact Hft]|exact Hack|lia|].
  rewrite bind_Done.
  pose proof (dp_check (c_anomaly (a_clock a)) _ _ Had He Hd) as Hd'.
  destruct (anomaly_check_flow _ _ _) as [[ad' ?] ?]. eexists _, _, _. split; [done|].
  split_and!; try done. simpl. lia.
Qed.

(** The receive loop returns, takes the frames in order and handles at most
    1000 of them. *)
Lemma receive_loop_ok probe_id arrivals n st k :
  Forall arrival_ok arrivals -> n <= 1000 -> 0 <= k -> capture_ok (k + Z.of_nat (length arrivals)) st ->
  exists m st' rest, receive_loop probe_id arrivals n st = Done (m, st', rest) /\
    capture_ok k st' /\ n <= m <= 1000 /\ exists taken, arrivals = taken ++ rest.
Proof.
  intros Ha. revert n st. induction Ha as [|a arrivals Ha Hall IH]; intros n st Hn Hk Hst.
  - cbn [receive_loop]. exists n, st, []. rewrite Z.add_0_r in Hst.
    split; [by case_match|]. split_and!; [done|lia|lia|by exists []].
  - cbn [receive_loop]. destruct (Z.ltb_spec n 1000).
    2:{ exists n, st, (a :: arrivals). destruct Hst as (H1 & H2 & H3 & H4). split_and!; try done; try lia;
        [by split_and!; try done; lia|by exists []]. }
    assert (Hst' : capture_ok (k + Z.of_nat (length arrivals) + 1) st)
      by (destruct Hst as (H1 & H2 & H3 & H4); split_and!; try done; simpl in H4; lia).
    destruct (a_len a <=? 0).
    { exists n, st, arrivals. destruct Hst' as (H1 & H2 & H3 & H4). split_and!; try done; try lia;
        [by split_and!; try done; lia|by exists [a]]. }
    destruct (handle_packet_ok probe_id a st (k + Z.of_nat (length arrivals)) Ha ltac:(lia) Hst')
      as (b & st1 & f & -> & Hst1).
    rewrite bind_Done. cbv beta iota.
    destruct (IH (if b then n + 1 else n) st1) as (m & st' & rest & -> & H1 & H2 & taken & ->);
      [case_match; lia|done|done|].
    exists m, st', rest. split_and!; try done; [destruct b; lia|lia|by exists (a :: taken)].
Qed.
End capture.

(** ** What a packet adds to the report *)

(** The fields of the tracker that hold the queue. *)
Definition same_queue (ft ft' : flow_tracker) : Prop :=
  ft_events ft' = ft_events ft /\ ft_event_count ft' = ft_event_count ft /\
  ft_max_events ft' = ft_max_events ft.

Lemma same_queue_queue ft ft' : same_queue ft ft' -> queue ft' = queue ft.
Proof. intros (H1 & H2 & H3). unfold queue, flow_tracker_get_events. by rewrite H1, H2, H3. Qed.

Lemma find_record_queue now ft key i ft' : find_record now ft key = Some (i, ft') -> same_queue ft ft'.
Proof. destruct (find_recordP now ft key); intros [= <- <-]; done. Qed.

Lemma retransmit_queue now ft st key seq len flags x ft' st' :
  flow_tracker_check_tcp_retransmit now ft st key seq len flags = Done (x, ft', st') -> same_queue ft ft'.
Proof.
  unfold flow_tracker_check_tcp_retransmit.
  destruct (find_record now ft key) as [[i ft1]|] eqn:E; [|by intros [= <- <- <-]].
  apply find_record_queue in E. destruct (consumes_seq flags); [by intros [= <- <- <-]|].
  destruct (data_packet _ _ && behind _ _); [by intros [= <- <- <-]|]. cbv zeta.
  set (ft2 := if _ : bool then upd_rec _ _ _ else _).
  assert (same_queue ft ft2) by (subst ft2; by case_match). clearbody ft2.
  destruct (_ && (len =? 0)); [|by intros [= <- <- <-]].
  intros ([d st1] & _ & H2)%bind_Done_inv. by destruct d; injection H2 as <- <- <-.
Qed.

Lemma retransmit_stage_queue now buf len pkt key ft acks flow ft' acks' flow' :
  retransmit_stage now buf len pkt key ft acks flow = Done (ft', acks', flow') -> same_queue ft ft'.
Proof.
  unfold retransmit_stage. case_match; [|by intros [= <- _ _]].
  intros ([[[seq plen] fl]|] & _ & Hr)%bind_Done_inv; [|by injection Hr as <- _ _].
  apply bind_Done_inv in Hr as ([[x ft1] st1] & Hx%retransmit_queue & [= <- _ _]). done.
Qed.

(** The report of a packet is made of its key, its length, the time and
    the probe id only: whatever the payload, the DNS, HTTP and retransmission
    stages and the detector found, the queue grows by the plain event of the
    flow (or not at all when the table or the queue is full). *)
Lemma report_ignores_payload (probe_id : bytes) (a : arrival) (st st' : capture) (flow : flow_event_t) :
  ft_ok (cp_tracker st) ->
  handle_packet probe_id a st = Done (true, st', flow) ->
  exists pkt, packet_parse_raw (a_buf a) (a_len a) (blank_pkt a) = Done (true, pkt) /\
    let key := packet_key pkt (q_ip_version pkt) in
    queue (cp_tracker st') =
      if bool_decide (find_record (c_update_find (a_clock a)) (cp_tracker st) key = None)
      then queue (cp_tracker st)
      else if ft_event_count (cp_tracker st) <? ft_max_events (cp_tracker st)
      then queue (cp_tracker st) ++
             [tag_event (q_protocol pkt) (q_dst_ip pkt)
                (single_event (c_update (a_clock a)) key (q_pkt_len pkt) probe_id)]
      else queue (cp_tracker st).
Proof.
  intros Hok. unfold handle_packet. fold (blank_pkt a). intros ([ok pkt] & Hp & H)%bind_Done_inv.
  destruct ok; [|done]. exists pkt. split; [done|]. cbv zeta in *.
  apply bind_Done_inv in H as (f1 & _ & (f2 & _ & ([[ft acks] f3] & Hr & H)%bind_Done_inv)%bind_Done_inv).
  destruct (anomaly_check_flow _ _ _) as [[ad ?] ?]. injection H as <- _. simpl.
  apply retransmit_stage_queue, same_queue_queue in Hr. rewrite Hr.
  destruct (single_queue (c_update (a_clock a)) (c_update_find (a_clock a)) (cp_tracker st)
    (packet_key pkt (q_ip_version pkt)) (q_pkt_len pkt) probe_id Hok) as [Hq _]. exact Hq.
Qed.

(** ** The poll stays inside the array *)

Lemma scan_row_ok line v : scan_row line = Done (Some v) -> Forall is_u32 v.
Proof.
  unfold scan_row. repeat (case_match; try done). intros [= <-].
  apply Forall_map, Forall_true. intros [z|t]; simpl; [apply u32_range|unfold is_u32; lia].
Qed.

Lemma fill_entry_ok is_tcp v e : Forall is_u32 v -> entry_ok e -> entry_ok (fill_entry is_tcp v e).
Proof.
  intros Hv He.
  assert (Hn : forall i, is_u32 (nth i v 0)).
  { intros i. destruct (nth_in_or_default i v 0) as [Hi| ->]; [|unfold is_u32; lia].
    rewrite Forall_forall in Hv. by apply Hv, list_elem_of_In. }
  constructor; simpl; auto with stb; try (case_match; unfold is_u8; lia);
    [pose proof (Hn 5%nat)|pose proof (Hn 6%nat)]; mlia.
Qed.

Lemma proc_rows_entries fuel s is_tcp entries base count max entries' c :
  Forall entry_ok entries ->
  proc_rows fuel s is_tcp entries base count max = Done (entries', c) -> Forall entry_ok entries'.
Proof.
  revert s entries count. induction fuel as [|fuel IH]; intros s entries count He; cbn [proc_rows];
    [by intros [= <- <-]|].
  case_match; [|by intros [= <- <-]]. destruct (fgets 1024 s) as [[line s']|]; [|by intros [= <- <-]].
  intros ([v|] & Hv & Hrun)%bind_Done_inv; revert Hrun; [|by apply IH]. apply scan_row_ok in Hv.
  destruct (entries !! Z.to_nat (base + count)) as [e|] eqn:E; [|done]. apply IH.
  apply Forall_insert; [done|]. apply fill_entry_ok; [done|]. by eapply Forall_lookup_1.
Qed.

Lemma parse_file_entries file is_tcp entries base max entries' c :
  Forall entry_ok entries ->
  parse_proc_net_file file is_tcp entries base max = Done (entries', c) -> Forall entry_ok entries'.
Proof.
  intros He. unfold parse_proc_net_file. destruct file as [s|]; [|by intros [= <- <-]].
  destruct (fgets 1024 s) as [[l s']|]; [|by intros [= <- <-]]. by apply proc_rows_entries.
Qed.

Record files_fit (f : proc_files) : Prop := mk_files_fit {
  ff_tcp : rows_fit (pf_tcp f);
  ff_udp : rows_fit (pf_udp f);
  ff_tcp6 : rows_fit (pf_tcp6 f);
  ff_udp6 : rows_fit (pf_udp6 f)
}.

(** One reader, with room for [max] entries behind [base]. *)
Lemma reader_ok file is_tcp entries base max :
  rows_fit file -> Forall entry_ok entries ->
  0 <= base -> 0 <= max -> base + max <= zlen entries ->
  exists entries' c, parse_proc_net_file file is_tcp entries base max = Done (entries', c) /\
    0 <= c <= max /\ length entries' = length entries /\ Forall entry_ok entries'.
Proof.
  intros Hf He Hb Hm Hr. destruct (proc_file_bounds file is_tcp entries base max Hf Hb Hm Hr)
    as (es & c & E & Hc & Hl & _). exists es, c. split_and!; try done; try lia. by eapply parse_file_entries.
Qed.

Lemma poll_proc_ok files entries :
  files_fit files -> Forall entry_ok entries -> zlen entries = MAX_FLOWS ->
  exists entries' n, poll_proc files entries = Done (entries', n) /\
    0 <= n <= MAX_FLOWS /\ zlen entries' = MAX_FLOWS /\ Forall entry_ok entries'.
Proof.
  intros Hf He Hl. unfold poll_proc, proc_net_read_tcp, proc_net_read_udp, proc_net_read_tcp6, proc_net_read_udp6.
  change MAX_FLOWS with 4096 in *. change (4096 / 4) with 1024. cbv zeta.
  destruct (reader_ok (pf_tcp files) true entries 0 1024) as (e1 & n1 & -> & Hn1 & Hl1 & He1);
    [apply Hf|done|lia|lia|lia|].
  rewrite bind_Done. cbv beta iota.
  destruct (reader_ok (pf_udp files) false e1 n1 (1024 - (if n1 <? 1024 then n1 else 1024)))
    as (e2 & n2 & -> & Hn2 & Hl2 & He2); [apply Hf|done|lia|zcase; lia|zcase; lia|].
  rewrite bind_Done. cbv beta iota.
  destruct (reader_ok (pf_tcp6 files) true e2 (n1 + n2) 1024) as (e3 & n3 & -> & Hn3 & Hl3 & He3);
    [apply Hf|done|lia|lia|revert Hn2; zcase; lia|].
  rewrite bind_Done. cbv beta iota.
  destruct (reader_ok (pf_udp6 files) false e3 (n1 + n2 + n3) (1024 - (if n3 <? 1024 then n3 else 1024)))
    as (e4 & n4 & -> & Hn4 & Hl4 & He4);
    [apply Hf|done|lia|zcase; lia|revert Hn2; repeat zcase; lia|].
  rewrite bind_Done. cbv beta iota. eexists _, _. split; [done|].
  split_and!; [zcase; lia|zcase; lia|lia|done].
Qed.

(** ** The batch keeps the size of its buffer *)

Lemma wr_length b i v b' : wr b i v = Done b' -> length b' = length b.
Proof. unfold wr. case_match; [|done]. intros [= <-]. apply length_insert. Qed.

Lemma snprintf_at_length b off n s b' : snprintf_at b off n s = Done b' -> length b' = length b.
Proof.
  unfold snprintf_at, wr_bytes. case_match; [by intros [= <-]|]. case_match; [|done]. intros [= <-].
  apply length_blit. lia.
Qed.

Lemma put_comma_length first o w o' w' : put_comma first o w = Done (o', w') -> length o' = length o.
Proof.
  unfold put_comma. destruct first; [by intros [= <- <-]|].
  intros (o1 & H%wr_length & [= <- <-])%bind_Done_inv. done.
Qed.

Lemma batch_events_length evs id size o w first o' w' f' :
  batch_events evs id size o w first = Done (o', w', f') -> length o' = length o.
Proof.
  revert o w first. induction evs as [|ev evs IH]; intros o w first; cbn [batch_events]; [by intros [= <- _ _]|].
  case_match; [|by intros [= <- _ _]].
  intros ([o1 w1] & H1%put_comma_length & ([o2 r] & H2 & H3)%bind_Done_inv)%bind_Done_inv.
  unfold serialize_flow_event in H2. apply bind_Done_inv in H2 as (o3 & H2%snprintf_at_length & [= <- <-]).
  revert H3. case_match; [intros [= <- _ _]; lia|]. intros H3%IH. lia.
Qed.

Lemma batch_metric_length mp id size o w first o' w' :
  batch_metric mp id size o w first = Done (o', w') -> length o' = length o.
Proof.
  unfold batch_metric. destruct mp; [|by intros [= <- _]]. case_match; [|by intros [= <- _]].
  intros ([o1 w1] & H1%put_comma_length & ([o2 r] & H2 & [= <- _])%bind_Done_inv)%bind_Done_inv.
  unfold serialize_host_metric in H2. apply bind_Done_inv in H2 as (o3 & H2%snprintf_at_length & [= <- <-]).
  lia.
Qed.

Lemma serialize_batch_length evs mp id o size o' n :
  serialize_batch evs mp id o size = Done (o', n) -> length o' = length o.
Proof.
  unfold serialize_batch.
  intros (o1 & H1%wr_length & ([[o2 w2] f2] & H2%batch_events_length &
    ([o3 w3] & H3%batch_metric_length & (o4 & H4%wr_length & (o5 & H5%wr_length & [= <- _])%bind_Done_inv)
      %bind_Done_inv)%bind_Done_inv)%bind_Done_inv)%bind_Done_inv. lia.
Qed.

(** ** The loop is safe *)

Section loop.
Context (ok_tracker : flow_tracker -> Prop) `{!tracker_promises ok_tracker}.
Context (ok_detector : anomaly_detector -> Prop) `{!detector_promises ok_detector}.
Context (pton : bytes -> bool) (ok_client : tcp_client * world -> Prop) `{!client_promises pton ok_client}.
Context (fuel : nat) (page_size : Z) (bpf_status : bpf_loader_status) (use_bpf : bool) (probe_id : bytes).
(** What [bpf_loader_init] leaves in the status. *)
Hypothesis no_perf_map : use_bpf = true -> s_perf_map_fd bpf_status = -1.

(** Invariant of the loop, with [n] ACKs left before the index overflows. *)
Definition loop_ok (n : Z) (s : loop_state * (tcp_client * world)) : Prop :=
  capture_ok ok_tracker ok_detector n (ls_capture s.1) /\
  zlen (ls_entries s.1) = MAX_FLOWS /\ Forall entry_ok (ls_entries s.1) /\
  zlen (ls_json s.1) = MAX_JSON_LEN * 16 /\ ok_client s.2.

(** The inputs of a round. *)
Record input_fits (inp : round_input) : Prop := mk_input_fits {
  if_arrivals : Forall arrival_ok (ri_arrivals inp);
  if_files : files_fit (ri_files inp);
  if_stat : stat_fits (h_stat (ri_host inp));
  if_net_dev : h_net_dev (ri_host inp) <> None;
  if_poll : is_u64 (ri_poll inp)
}.

Lemma report_ok json n : triple ok_client (report pton json n) (fun _ => ok_client).
Proof.
  unfold report. apply triple_if; intros _; [by apply triple_ret|].
  eapply triple_bind; [apply rp_connected|]. intros up.
  eapply triple_bind with (R := fun _ => ok_client).
  { destruct up; [by apply triple_ret|apply rp_reconnect]. }
  intros r. eapply triple_bind; [apply rp_connected|]. intros up'.
  destruct up'; [|by apply triple_ret].
  eapply triple_bind; [apply rp_send|]. intros r'. by apply triple_ret.
Qed.

(** The number of frames a round may handle. *)
Definition arrivals_of (inp : round_input) : Z := Z.of_nat (length (ri_arrivals inp)).

(** The part of the invariant that is not the client's. *)
Definition data_ok (k : Z) (ls : loop_state) : Prop :=
  capture_ok ok_tracker ok_detector k (ls_capture ls) /\ zlen (ls_entries ls) = MAX_FLOWS /\
  Forall entry_ok (ls_entries ls) /\ zlen (ls_json ls) = MAX_JSON_LEN * 16.

Lemma capture_ok_weaken k k' c :
  k' <= k -> capture_ok ok_tracker ok_detector k c -> capture_ok ok_tracker ok_detector k' c.
Proof. intros Hk (H1 & H2 & H3 & H4). split_and!; try done. lia. Qed.

Lemma capture_stage_ok inp ls k :
  input_fits inp -> 0 <= k -> data_ok (k + arrivals_of inp) ls ->
  exists ls', capture_stage fuel page_size bpf_status use_bpf probe_id inp ls = Done (Some ls') /\ data_ok k ls'.
Proof.
  intros Hin Hk (Hc & H1 & H2 & H3). unfold capture_stage. destruct use_bpf.
  - unfold perf_stage. rewrite no_perf_map by done. simpl.
    destruct (receive_loop_ok ok_tracker ok_detector probe_id (ri_arrivals inp) 0 (ls_capture ls) k)
      as (m & c & rest & -> & Hc' & _ & _); [apply Hin|lia|done|done|].
    rewrite bind_Done. by eexists.
  - eexists. split; [done|]. split_and!; try done. eapply capture_ok_weaken; [|done].
    unfold arrivals_of. lia.
Qed.

Lemma set_tracker_ok k ft ls : ok_tracker ft -> data_ok k ls -> data_ok k (set_tracker ft ls).
Proof. intros Hft ((H1 & H2 & H3 & H4) & H5). split; [by split_and!|done]. Qed.

Lemma poll_stage_ok inp ls k :
  input_fits inp -> data_ok k ls -> exists ls', poll_stage inp ls = Done ls' /\ data_ok k ls'.
Proof.
  intros Hin (Hc & H1 & H2 & H3). unfold poll_stage.
  destruct (poll_proc_ok (ri_files inp) (ls_entries ls)) as (es & n & -> & Hn & Hl & He);
    [apply Hin|done|done|].
  rewrite bind_Done. cbv beta iota. eexists. split; [done|]. apply set_tracker_ok; [|by split_and!].
  apply tp_update; [apply Hin|done|apply Hc].
Qed.

Lemma metric_stage_ok inp ls k :
  input_fits inp -> data_ok k ls ->
  exists ls' mp, metric_stage probe_id inp ls = Done (ls', mp) /\ data_ok k ls'.
Proof.
  intros Hin Hd. unfold metric_stage. case_match; [|eauto].
  assert (exists m, old_metric inp ls = Done m) as [m ->].
  { unfold old_metric. pose proof (if_net_dev _ Hin). destruct (ls_metric ls); [eauto|].
    destruct (h_net_dev (ri_host inp)); [eauto|done]. }
  rewrite bind_Done. destruct (host_metrics_defined (ri_host inp) m probe_id (if_stat _ Hin)) as (m' & ->).
  rewrite bind_Done. eexists _, _. split; [done|]. apply set_tracker_ok; [|done].
  apply tp_cleanup, Hd.
Qed.

Lemma batch_stage_ok mp ls k res :
  data_ok k ls -> batch_stage probe_id mp ls = Done res -> data_ok k res.1.
Proof.
  intros Hd. pose proof Hd as (Hc & H1 & H2 & H3). unfold batch_stage.
  destruct (flow_tracker_get_events _ _) as [evs n]. case_match; [|by intros [= <-]].
  intros ([json jl] & Hs%serialize_batch_length & [= <-])%bind_Done_inv.
  assert (Hd' : data_ok k (set_tracker (flow_tracker_flush (cp_tracker (ls_capture ls))) ls))
    by (apply set_tracker_ok; [apply tp_flush, Hc|done]).
  destruct Hd' as (? & ? & ? & _). split_and!; try done. simpl. lia.
Qed.

Lemma send_stage_ok batch ls k :
  data_ok k ls ->
  triple ok_client (send_stage pton batch ls) (fun ls' st => data_ok k ls' /\ ok_client st).
Proof.
  intros Hd. unfold send_stage. destruct batch as [[jl n]|]; [|apply triple_ret; by split].
  eapply triple_bind; [apply report_ok|]. intros sent. apply triple_ret. intros st Hst.
  split; [|done]. by destruct sent.
Qed.

(** What a round gives: a state of the invariant or a wait, or the overrun of
    [serialize_batch] on the events of the tracker. *)
Lemma round_ok inp s k :
  input_fits inp -> 0 <= k -> loop_ok (k + arrivals_of inp) s ->
  (exists res, round pton fuel page_size bpf_status use_bpf probe_id inp s = Done res /\
     forall s', res = Some s' -> loop_ok k s') \/
  (round pton fuel page_size bpf_status use_bpf probe_id inp s = Undefined /\
   exists ls mp, reaches_batch fuel page_size bpf_status use_bpf probe_id inp s ls mp /\
     overruns (flow_tracker_get_events (cp_tracker (ls_capture ls)) (MAX_FLOWS * 2)).1 mp probe_id
       (MAX_JSON_LEN * 16)).
Proof.
  intros Hin Hk (Hc & H1 & H2 & H3 & Hcl). unfold round, after_capture.
  destruct (capture_stage_ok inp s.1 k) as (ls1 & E1 & Hd1); [done|done|by split_and!|].
  rewrite E1, bind_Done. destruct (poll_stage_ok inp ls1 k Hin Hd1) as (ls2 & E2 & Hd2).
  rewrite E2, bind_Done. destruct (metric_stage_ok inp ls2 k Hin Hd2) as (ls3 & mp & E3 & Hd3).
  rewrite E3, bind_Done. cbv beta iota.
  destruct (batch_stage probe_id mp ls3) as [[ls4 batch]|] eqn:E.
  - left. rewrite bind_Done. cbv beta iota. eexists. split; [done|]. intros s' Hs'.
    apply batch_stage_ok with (k := k) in E; [|done]. simpl in E.
    destruct s' as [ls5 st']. pose proof (triple_run _ _ _ _ _ _ (send_stage_ok batch ls4 k E) Hcl Hs') as [Hd5 Hst].
    destruct Hd5 as (? & ? & ? & ?). by split_and!.
  - right. split; [done|]. exists ls3, mp. split; [by exists ls1, ls2|]. revert E. unfold batch_stage.
    destruct (flow_tracker_get_events _ _) as [evs n]. case_match; [|done].
    destruct (serialize_batch _ _ _ _ _) as [[? ?]|] eqn:E; [done|]. intros _.
    destruct Hd3 as (_ & _ & _ & Hj). rewrite <- Hj in *. by apply serialize_batch_undefined; [rewrite Hj|].
Qed.

(** The frames of a sequence of rounds. *)
Definition frames_of (inps : list round_input) : Z := foldr (fun i n => arrivals_of i + n) 0 inps.

Lemma frames_of_nonneg inps : 0 <= frames_of inps.
Proof. induction inps as [|i inps IH]; simpl; [done|]. unfold arrivals_of. lia. Qed.

Lemma rounds_ok inps s k :
  Forall input_fits inps -> 0 <= k -> loop_ok (k + frames_of inps) s ->
  (exists res, rounds pton fuel page_size bpf_status use_bpf probe_id inps s = Done res /\
     forall s', res = Some s' -> loop_ok k s') \/
  (rounds pton fuel page_size bpf_status use_bpf probe_id inps s = Undefined /\
   loop_overruns pton fuel page_size bpf_status use_bpf probe_id inps s).
Proof.
  intros Hall Hk. revert s. induction Hall as [|inp inps Hin Hall IH]; intros s Hs.
  { left. eexists. split; [done|]. intros s' [= <-]. simpl in Hs. by rewrite Z.add_0_r in Hs. }
  cbn [rounds frames_of foldr] in *. fold (frames_of inps) in *. pose proof (frames_of_nonneg inps).
  destruct (round_ok inp s (k + frames_of inps)) as [(res & E & Hres)|[E (ls & mp & Hb & Hov)]];
    [done|lia|by rewrite <- Z.add_assoc, (Z.add_comm (frames_of inps))| |].
  - rewrite E, bind_Done. destruct res as [s'|]; [|left; by eexists].
    destruct (IH s' (Hres s' eq_refl)) as [?|[-> (i1 & i & i2 & s1 & ls & mp & -> & Hr & Hb & Hov)]]; [by left|].
    right. split; [done|]. exists (inp :: i1), i, i2, s1, ls, mp. split_and!; try done.
    cbn [rounds]. by rewrite E, bind_Done.
  - right. rewrite E. split; [done|]. by exists [], inp, inps, s, ls, mp.
Qed.
End loop.

(** ** Descriptors of the whole program *)

Lemma client_beside_loader F (sock prog : Z) c w w' :
  inv F (c, w) -> sock ∉ {[prog]} ∪ w_fds w -> prog ∉ w_fds w ->
  w_fds w' = {[sock]} ∪ ({[prog]} ∪ w_fds w) -> inv ({[sock]} ∪ ({[prog]} ∪ F)) (c, w').
Proof.
  intros [Ho Hc Hb Hr Hd] Hs Hp Hw. simpl in *. constructor; try done. simpl. rewrite Hw. revert Ho.
  unfold owns. case_match; intros [H1 H2].
  - rewrite H1 in *. clear -H2 Hs Hp. split; set_solver.
  - split; [done|]. by rewrite H2.
Qed.

Lemma loader_beside_client F (sock prog : Z) c w :
  inv ({[sock]} ∪ ({[prog]} ∪ F)) (c, w) -> sock ∉ {[prog]} ∪ F -> prog ∉ F ->
  exists G, w_fds w = {[sock]} ∪ ({[prog]} ∪ G) /\ (sock ∉ {[prog]} ∪ G) /\ (prog ∉ G) /\
    forall w', w_fds w' = G -> inv F (c, w').
Proof.
  intros [Ho Hc Hb Hr Hd] Hs Hp. simpl in *. unfold owns in Ho. destruct (0 <=? t_sock_fd c) eqn:E.
  - destruct Ho as [H1 H2]. rewrite H1. exists ({[t_sock_fd c]} ∪ F).
    split_and!; [clear -H2; set_solver|clear -H2 Hs; set_solver|clear -H2 Hp; set_solver|].
    intros w' Hw'. constructor; simpl; try done. unfold owns. rewrite E. split; [done|].
    clear -H2. set_solver.
  - destruct Ho as [H1 H2]. exists F. split_and!; try done.
    intros w' Hw'. constructor; simpl; try done. unfold owns. by rewrite E.
Qed.

Lemma frame_open F c w : inv F (c, w) -> F ⊆ w_fds w.
Proof.
  intros [Ho _ _ _ _]. simpl in Ho. unfold owns in Ho. destruct (0 <=? _); destruct Ho as [H1 H2].
  - rewrite H1. clear. set_solver.
  - by rewrite H2.
Qed.

Lemma not_in_frame (F D : gset Z) (sock prog : Z) :
  F ⊆ D -> sock ∉ {[prog]} ∪ D -> prog ∉ D -> (sock ∉ {[prog]} ∪ F) /\ (prog ∉ F).
Proof. set_solver. Qed.

(** The client's part of the shutdown closes its socket. *)
Lemma cleanup_closes pton F c w c' w' :
  inv F (c, w) -> tcp_client_cleanup pton (c, w) = Some (tt, (c', w')) -> w_fds w' = F.
Proof.
  intros Hi Hrun. unfold tcp_client_cleanup, tcp_client_disconnect in Hrun.
  pose proof (triple_run _ _ _ (c, w) _ _ (disconnect_spec F
    (t_reconnect_retries c, t_last_reconnect_time c, t_auto_reconnect c) (tcp_client_flush pton))
    (conj Hi eq_refl) Hrun) as [[[Ho _ _ _ _] [Hs _]] _].
  simpl in *. unfold owns in Ho. rewrite Hs in Ho. by destruct Ho.
Qed.

Section startup.
Context (LONG : Z) (malloc_ok : Z -> bool) (verifier : bytes -> bool) (strerror : Z -> bytes) (log : bytes).
Context (pton : bytes -> bool).

(** [main] up to the loop, when the allocations succeed: the descriptors [F]
    are open before, [st] is the client and the world when the loop starts. *)
Inductive started (F : gset Z) (use_bpf : bool) (bs : bpf_loader_status) (ft : flow_tracker)
    (ad : anomaly_detector) : tcp_client * world -> Prop :=
| main_started ip port obj c0 w0 rc c w1 m r w :
    flow_tracker_create true true true MAX_FLOWS = Some ft ->
    tcp_client_init true ip port true = Some c0 ->
    w_fds w0 = F ->
    tcp_client_connect pton (c0, w0) = Some (rc, (c, w1)) ->
    anomaly_detector_create true = Some ad ->
    bpf_loader_init LONG malloc_ok verifier strerror log obj = Done m ->
    m (fresh_status, w1) = Some (r, (bs, w)) ->
    use_bpf = (r =? 0) ->
    started F use_bpf bs ft ad (c, w).

(** The loader's descriptors, beside those of the rest. *)
Definition loader_fds (use_bpf : bool) (bs : bpf_loader_status) (F : gset Z) : gset Z :=
  if use_bpf then {[s_socket_fd bs]} ∪ ({[s_bpf_prog_fd bs]} ∪ F) else F.

(** What the loader promises about its status. *)
Definition loader_ok (use_bpf : bool) (bs : bpf_loader_status) (F : gset Z) : Prop :=
  use_bpf = true -> (s_socket_fd bs ∉ {[s_bpf_prog_fd bs]} ∪ F) /\ (s_bpf_prog_fd bs ∉ F) /\
    0 <= s_socket_fd bs /\ 0 <= s_bpf_prog_fd bs /\ s_use_bpf bs = true /\
    s_perf_map_fd bs = -1 /\ s_nr_cpus bs = 0.

Lemma started_inv F use_bpf bs ft ad st :
  started F use_bpf bs ft ad st ->
  inv (loader_fds use_bpf bs F) st /\ loader_ok use_bpf bs F /\ ft_ok ft /\ detector_ok ad.
Proof.
  intros [ip port obj c0 w0 rc c w1 m r w Hft Hc0 Hw0 Hcon Had Hm Hrun ->].
  assert (Hi0 : inv F (c0, w0)) by (by eapply init_inv).
  assert (Hi1 : inv F (c, w1)).
  { eapply (connect_keeps_inv pton F (c0, w0)); [done| |simpl; unfold mbind, KM_bind; by rewrite Hcon].
    right. revert Hc0. unfold tcp_client_init. repeat case_match; try done. by intros [= <-]. }
  assert (Hd : ft_ok ft /\ detector_ok ad).
  { split; [by eapply create_ok; [|exact Hft]|]. split; [by apply ad_create_ok|].
    exists ∅. by apply sim_init. }
  destruct (init_spec LONG malloc_ok verifier strerror log (w_fds w1) obj m Hm) as (insns & _ & Ht).
  destruct (triple_run _ _ _ (fresh_status, w1) _ _ Ht eq_refl Hrun) as [Ho _].
  destruct Ho as [[-> (sock & prog & H1 & H2 & H3 & H4 & (E1 & E2 & E3 & E4 & E5) & Hw)]|[-> [_ Hw]]];
    simpl in *; unfold loader_fds, loader_ok; simpl.
  - rewrite E1, E2. split; [by eapply client_beside_loader|]. split; [|done]. intros _.
    destruct (not_in_frame F (w_fds w1) sock prog (frame_open _ _ _ Hi1) H1 H2) as [? ?]. by split_and!.
  - split; [|done]. destruct Hi1. constructor; try done. simpl in *. by rewrite Hw.
Qed.

(** The hypotheses on the memory of [main]. *)
Lemma started_loop_ok F use_bpf bs ft ad st entries json n :
  started F use_bpf bs ft ad st -> zlen entries = MAX_FLOWS -> Forall entry_ok entries ->
  zlen json = MAX_JSON_LEN * 16 -> n < 2 ^ 31 ->
  loop_ok ft_ok detector_ok (inv (loader_fds use_bpf bs F)) n (start ft ad entries json, st).
Proof.
  intros Hst He1 He2 Hj Hn. destruct (started_inv _ _ _ _ _ _ Hst) as (Hi & _ & Hft & Had).
  split_and!; try done. split_and!; [done|done|apply ack_init_ok|simpl; lia].
Qed.

Lemma started_no_perf_map F use_bpf bs ft ad st :
  started F use_bpf bs ft ad st -> use_bpf = true -> s_perf_map_fd bs = -1.
Proof.
  intros Hst Hu. destruct (started_inv _ _ _ _ _ _ Hst) as (_ & Hl & _).
  by destruct (Hl Hu) as (_ & _ & _ & _ & _ & H & _).
Qed.

(** The end of [main], from any state of the client. *)
Lemma shutdown_closes F use_bpf bs c w w' :
  loader_ok use_bpf bs F -> inv (loader_fds use_bpf bs F) (c, w) ->
  shutdown pton use_bpf bs (c, w) = Some w' -> w_fds w' = F.
Proof.
  unfold loader_ok, loader_fds, shutdown. intros Hl Hi. simpl. destruct use_bpf.
  - destruct (Hl eq_refl) as (H1 & H2 & H3 & H4 & H5 & H6 & H7).
    destruct (loader_beside_client F _ _ c w Hi H1 H2) as (G & HG & HG1 & HG2 & Hc).
    destruct (cleanup_spec G (bs, w)) as ((bs' & w1) & -> & Hw1 & _).
    { exists (s_socket_fd bs), (s_bpf_prog_fd bs). by split_and!. }
    simpl in *. destruct (tcp_client_cleanup pton (c, w1)) as [[[] [c' w2]]|] eqn:E; [|done]. intros [= <-].
    by eapply cleanup_closes; [apply Hc|].
  - simpl. destruct (tcp_client_cleanup pton (c, w)) as [[[] [c' w2]]|] eqn:E; [|done]. intros [= <-].
    by eapply cleanup_closes.
Qed.

(** The loop is memory safe.  From its start, with any environment, any
    object file and any answers of the kernel, through any number of rounds on
    arbitrary frames, clocks and tables (under 2^31 frames in all, no row with
    more values than [sscanf] has arguments), the loop performs no undefined
    operation, unless some round comes to a batch that does not fit in
    [json_buf] in one of the two ways of [overruns]; and every component keeps
    its invariant. *)
Lemma loop_safe (F : gset Z) (use_bpf : bool) (bs : bpf_loader_status) (ft : flow_tracker)
    (ad : anomaly_detector) (st : tcp_client * world) (fuel : nat) (page_size : Z) (probe_id : bytes)
    (inps : list round_input) (entries : list proc_net_entry) (json : bytes) :
  started F use_bpf bs ft ad st ->
  zlen entries = MAX_FLOWS -> Forall entry_ok entries -> zlen json = MAX_JSON_LEN * 16 ->
  Forall input_fits inps -> frames_of inps < 2 ^ 31 ->
  (exists res, rounds pton fuel page_size bs use_bpf probe_id inps (start ft ad entries json, st) = Done res /\
     forall s', res = Some s' -> loop_ok ft_ok detector_ok (inv (loader_fds use_bpf bs F)) 0 s') \/
  (rounds pton fuel page_size bs use_bpf probe_id inps (start ft ad entries json, st) = Undefined /\
   loop_overruns pton fuel page_size bs use_bpf probe_id inps (start ft ad entries json, st)).
Proof.
  intros Hst He1 He2 Hj Hin Hfr. apply rounds_ok; try done; try apply _.
  - by eapply started_no_perf_map.
  - by apply started_loop_ok.
Qed.

(** The probe returns every descriptor.  Whatever happens in the loop
    (lost connections, reconnections, errors of the kernel), when [main] is
    left the open descriptors are those that were open when it was entered. *)
Lemma loop_releases_descriptors (F : gset Z) (use_bpf : bool) (bs : bpf_loader_status)
    (ft : flow_tracker) (ad : anomaly_detector) (st : tcp_client * world) (fuel : nat) (page_size : Z)
    (probe_id : bytes) (inps : list round_input) (entries : list proc_net_entry)
    (json : bytes) (ls : loop_state) (st' : tcp_client * world) (w : world) :
  started F use_bpf bs ft ad st ->
  zlen entries = MAX_FLOWS -> Forall entry_ok entries -> zlen json = MAX_JSON_LEN * 16 ->
  Forall input_fits inps -> frames_of inps < 2 ^ 31 ->
  rounds pton fuel page_size bs use_bpf probe_id inps (start ft ad entries json, st) =
    Done (Some (ls, st')) ->
  shutdown pton use_bpf bs st' = Some w ->
  w_fds w = F.
Proof.
  intros Hst He1 He2 Hj Hin Hfr Hrun Hdown. destruct (started_inv _ _ _ _ _ _ Hst) as (_ & Hl & _).
  destruct (rounds_ok ft_ok detector_ok pton (inv (loader_fds use_bpf bs F)) fuel page_size bs use_bpf
    probe_id (started_no_perf_map _ _ _ _ _ _ Hst) inps (start ft ad entries json, st) 0)
    as [(res & E & Hres)|[E _]]; [done|lia|by apply started_loop_ok| |by rewrite Hrun in E].
  rewrite Hrun in E. injection E as <-. destruct (Hres _ eq_refl) as (_ & _ & _ & _ & Hi).
  destruct st'. by eapply shutdown_closes.
Qed.
End startup.

(** ** Witnesses *)

(** A DNS query for [a.b] from 10.0.0.2 to 10.0.0.53. *)
Definition dns_frame : bytes :=
  replicate 12 0 ++ [8; 0] ++
  [0x45; 0; 0; 49; 0; 0; 0; 0; 64; 17; 0; 0; 10; 0; 0; 2; 10; 0; 0; 53] ++
  [0x30; 0x39; 0; 53; 0; 29; 0; 0] ++
  [0; 1; 1; 0; 0; 1; 0; 0; 0; 0; 0; 0] ++ [1; 97; 1; 98; 0; 0; 1; 0; 1].

Definition demo_clock : packet_clock := mk_clock 100 101 102 103 104.
Definition demo_arrival : arrival := mk_arrival dns_frame (zlen dns_frame) demo_clock.
Definition demo_capture : capture :=
  mk_capture ex_ft (mk_ack [] 0) (mk_ad [] [] 0 0 100000000 20 0 0 0).

(** The query was decoded, the report does not say so. *)
Lemma dns_query_not_reported :
  exists st' flow, handle_packet (lit "p") demo_arrival demo_capture = Done (true, st', flow) /\
    cstr (e_details flow) = lit "dns_query:name=a.b,type=A" /\
    map (fun e => cstr (e_details e)) (queue (cp_tracker st')) = [[]].
Proof.
  destruct (handle_packet (lit "p") demo_arrival demo_capture) as [[[ok st'] flow]|] eqn:E;
    [|vm_compute in E; discriminate E].
  assert (Hok : ok = true) by (vm_compute in E; injection E as <- _ _; reflexivity). subst ok.
  exists st', flow. split; [reflexivity|].
  destruct (report_ignores_payload (lit "p") demo_arrival demo_capture st' flow ex_ft_ok E) as (pkt & Hp & Hq).
  split.
  - clear -E. vm_compute in E. injection E as _ <-. vm_compute. reflexivity.
  - rewrite Hq. vm_compute in Hp. injection Hp as <-. vm_compute. reflexivity.
Defined.

Lemma demo_arrival_ok : arrival_ok demo_arrival.
Proof.
  constructor; try (unfold is_u64; simpl; lia). apply (bool_decide_unpack _). vm_compute. exact I.
Qed.

(** A round that receives [arrivals]; the tables of /proc cannot be read; 1 s
    after boot. *)
Definition demo_round (arrivals : list arrival) : round_input :=
  mk_round arrivals [] (fun _ => (0, 0)) (mk_files None None None None) 200 (fun _ => 201) (1, 0)
    (mk_host 1 0 None None None (Some [])) 202.

Lemma demo_round_fits arrivals : Forall arrival_ok arrivals -> input_fits (demo_round arrivals).
Proof.
  intros Ha. by constructor.
Qed.

Definition demo_entry : proc_net_entry := mk_entry 0 0 0 0 0 0 0 0 0 0 0.
Definition demo_entries : list proc_net_entry := replicate (Z.to_nat MAX_FLOWS) demo_entry.
Definition demo_json : bytes := replicate (Z.to_nat (MAX_JSON_LEN * 16)) 0.

Lemma demo_memory :
  zlen demo_entries = MAX_FLOWS /\ Forall entry_ok demo_entries /\ zlen demo_json = MAX_JSON_LEN * 16.
Proof.
  unfold demo_entries, demo_json. rewrite !length_replicate, !Z2Nat.id by (vm_compute; discriminate).
  split; [reflexivity|]. split; [|reflexivity]. apply Forall_replicate. constructor; unfold_widths; simpl; lia.
Qed.

Abbreviation demo_started := (started 32 (fun _ => true) reads_initialised no_error [] (fun _ => true)).

Definition demo_tracker : flow_tracker :=
  mk_ft (replicate (Z.to_nat MAX_FLOWS) zero_record) MAX_FLOWS
    (replicate (Z.to_nat (MAX_FLOWS * 2)) zero_event) 0 (MAX_FLOWS * 2) 0.
Definition demo_detector : anomaly_detector :=
  mk_ad (replicate 1024 zero_src) (replicate 2048 zero_bw) 0 0 100000000 20 0 0 0.

(** The relay does not answer, the program is loaded and attached. *)
Lemma demo_start :
  exists bs st w, demo_started {[0; 1; 2]} true bs demo_tracker demo_detector st /\
    s_perf_map_fd bs = -1 /\ shutdown (fun _ => true) true bs st = Some w.
Proof.
  destruct (tcp_client_init true (lit "10.0.0.1") 9104 true) as [c0|] eqn:Ec; [|discriminate Ec].
  set (w0 := loader_world (Ans (-1) 24 :: replicate 5 (Ans 0 0))).
  set (w1 := mk_world {[0; 1; 2]} ∅ [] 24 (replicate 5 (Ans 0 0))).
  assert (Hcon : exists c, tcp_client_connect (fun _ => true) (c0, w0) = Some (-1, (c, w1)) /\ t_sock_fd c = -1).
  { injection Ec as <-. eexists. split; reflexivity. }
  destruct Hcon as (c & Hcon & Hfd).
  pose proof (init_eq (Some demo_elf) (drop 200 demo_elf) ltac:(vm_compute; reflexivity)) as Em.
  destruct (demo_load (drop 200 demo_elf) (fresh_status, w1)) as [[r [bs w]]|] eqn:R;
    [|vm_compute in R; discriminate R].
  exists bs, (c, w).
  assert (Hbs : r = 0 /\ bs = mk_status 4 (-1) 3 true 0 (replicate 16 0) (replicate 16 0) 0 (replicate 256 0))
    by (vm_compute in R; injection R as <- <- _; split; reflexivity).
  destruct Hbs as [-> ->]. eexists. split_and!.
  - eapply main_started; [reflexivity|exact Ec| |exact Hcon|reflexivity|exact Em|exact R|]; reflexivity.
  - reflexivity.
  - unfold shutdown, tcp_client_cleanup, tcp_client_disconnect, disconnect_with, mbind, KM_bind, get.
    simpl. rewrite Hfd. reflexivity.
Qed.
