(* ===== verification/Recovery.v ===== *)
(** Recovery: a lost connection is made again.

    When the relay answers, [tcp_client_reconnect] of src/tcp_client.c makes a
    new connection, at once or after the wait in [select], and a report that
    finds the client disconnected is sent over the new one. *)

From stdpp Require Import base list gmap strings numbers option.
From S2P Require Import Prelude CLib Kernel TcpClient Main.

(** The answers of the kernel to a connection attempt that succeeds: socket,
    the two [fcntl], [connect]; and after EINPROGRESS, [select] and
    [getsockopt]. *)
Inductive handshake : list answer -> Prop :=
| connects_at_once a b c d :
    0 <= a_ret a -> 0 <= a_ret b -> a_ret c = 0 -> a_ret d = 0 -> handshake [a; b; c; d]
| connects_later a b c d e f :
    0 <= a_ret a -> 0 <= a_ret b -> a_ret c = 0 -> a_ret d < 0 -> a_val d = EINPROGRESS ->
    0 < a_ret e -> a_ret f = 0 -> a_val f = 0 -> handshake [a; b; c; d; e; f].

(** An attempt to reconnect is due at [now]. *)
Definition due (c : tcp_client) (now : Z) : bool :=
  negb ((0 <? t_last_reconnect_time c) && (u64 (now - t_last_reconnect_time c) <? t_reconnect_delay_ms c)).

Section recovery.
Context (pton : bytes -> bool).

Lemma try_connect_succeeds c fds maps wire e hs rest :
  handshake hs -> pton (cstr (t_server_ip c)) = true ->
  exists e', tcp_client_try_connect pton (c, mk_world fds maps wire e (hs ++ rest)) =
    Some (0, (set_connected true (set_sock (free_fd fds) c),
              mk_world ({[free_fd fds]} ∪ fds) maps wire e' rest)).
Proof.
  intros Hh Hp. unfold tcp_client_try_connect, sys_newfd, set_nonblocking, sys_ret, sys_sockerr, syscall, update, client,
    errno, mbind, KM_bind, mret, KM_ret. pose proof (free_fd_nonneg fds).
  destruct Hh as [a b c' d H1 H2 H3 H4|a b c' d e1 f H1 H2 H3 H4 H5 H6 H7 H8];
    repeat (simpl; rewrite ?Hp, ?H3, ?H5, ?H7, ?H8 || ztest); by eexists.
Qed.

(** The client is down, but may try again. *)
Record recoverable (c : tcp_client) : Prop := mk_recoverable {
  rc_down : t_is_connected c = false;
  rc_auto : t_auto_reconnect c = true;
  rc_tries : t_reconnect_retries c < RECONNECT_MAX_RETRIES;
  rc_empty : t_send_buffer_len c = 0;
  rc_ip : pton (cstr (t_server_ip c)) = true
}.

Lemma disconnect_closes flush c w :
  t_send_buffer_len c = 0 ->
  disconnect_with flush (c, w) =
  Some (tt, if 0 <=? t_sock_fd c
            then (set_connected false (set_sock (-1) c), with_fds (w_fds w ∖ {[t_sock_fd c]}) w)
            else (set_connected false c, w)).
Proof.
  intros Hb. unfold disconnect_with, client, get, mbind, KM_bind. simpl. rewrite Hb. destruct (0 <=? t_sock_fd c); done.
Qed.

Lemma connect_succeeds c fds maps wire e hs rest :
  handshake hs -> t_is_connected c = false -> pton (cstr (t_server_ip c)) = true ->
  exists e', tcp_client_connect pton (c, mk_world fds maps wire e (hs ++ rest)) =
    Some (0, (set_backoff 0 RECONNECT_INITIAL_DELAY_MS
                (add_stats 0 0 1 0 (set_connected true (set_sock (free_fd fds) c))),
              mk_world ({[free_fd fds]} ∪ fds) maps wire e' rest)).
Proof.
  intros Hh Hc Hp. destruct (try_connect_succeeds c fds maps wire e hs rest Hh Hp) as [e' E]. exists e'.
  unfold tcp_client_connect, client, get, mbind, KM_bind. simpl. rewrite Hc, E. done.
Qed.

Lemma reconnect_succeeds c fds maps wire e a hs rest :
  recoverable c -> handshake hs -> due c (now_ms (a_ret a, a_val a)) = true -> 0 <= a_ret a ->
  exists c' w', tcp_client_reconnect pton (c, mk_world fds maps wire e (a :: hs ++ rest)) = Some (0, (c', w')) /\
    t_is_connected c' = true /\ 0 <= t_sock_fd c' /\ t_send_buffer_len c' = 0 /\ t_server_ip c' = t_server_ip c /\
    t_reconnect_retries c' = 0 /\ w_wire w' = wire /\ w_script w' = rest.
Proof.
  intros [H1 H2 H3 H4 H5] Hh Hdue Ha. unfold due in Hdue. apply negb_true_iff in Hdue.
  unfold tcp_client_reconnect, reconnect_with. rewrite KM_run. simpl. rewrite H2. simpl.
  rewrite KM_run. unfold sys_clock at 1. rewrite KM_run. simpl. rewrite Hdue. rewrite KM_run. simpl.
  unfold RECONNECT_MAX_RETRIES in *. ztest. unfold reconnect_attempt. rewrite KM_run, disconnect_closes by done.
  set (cw := if 0 <=? _ then _ else _).
  assert (Hcw : exists c1 fds1 e1, cw = (c1, mk_world fds1 maps wire e1 (hs ++ rest)) /\ t_is_connected c1 = false /\
    t_server_ip c1 = t_server_ip c /\ t_send_buffer_len c1 = 0).
  { subst cw. case_match; simpl; eexists _, _, _; split_and!; try reflexivity; done. }
  clearbody cw. destruct Hcw as (c1 & fds1 & e1 & -> & Hc1 & Hip & Hb).
  destruct (connect_succeeds c1 fds1 maps wire e1 hs rest Hh Hc1 ltac:(by rewrite Hip)) as [e2 E].
  rewrite KM_run, E. eexists _, _. split; [reflexivity|]. simpl. pose proof (free_fd_nonneg fds1). by split_and!.
Qed.

(** The relay can be reached: over the connection that is up, or by one that
    an attempt, which is due, will make.  The kernel then accepts data, for
    [need] bytes one by one and the calls around them. *)
Definition link_ready (c : tcp_client) (w : world) (need : Z) : Prop :=
  (t_is_connected c = true /\ 0 <= t_sock_fd c /\ t_send_buffer_len c = 0 /\
   accepting (w_script w) /\ need + 4 <= zlen (w_script w)) \/
  (recoverable c /\ exists a hs rest, w_script w = a :: hs ++ rest /\ 0 <= a_ret a /\
     due c (now_ms (a_ret a, a_val a)) = true /\ handshake hs /\ accepting rest /\ need + 3 <= zlen rest).

(** The second half of [report]: the connection is up. *)
Lemma report_up json n c w :
  let req := http_request (t_server_ip c) json n in
  t_is_connected c = true -> 0 <= t_sock_fd c -> t_send_buffer_len c = 0 -> 0 < n -> zlen req < 65536 ->
  accepting (w_script w) -> zlen req + 3 <= zlen (w_script w) ->
  exists w', (up ← tcp_client_is_connected;
              if up : bool then (_ ← tcp_client_send pton json n; mret true) else mret false) (c, w) =
      Some (true, (add_stats (zlen req) 0 0 0 c, w')) /\
    wrote (w_wire w) (t_sock_fd c) req (w_wire w') /\
    accepting (w_script w') /\ zlen (w_script w) - (zlen req + 3) <= zlen (w_script w').
Proof.
  intros req Hc Hs Hb Hn Hr Ha Hl.
  destruct (is_connected_accepting c w Hc Hs Ha ltac:(lia)) as [e1 E1].
  set (w1 := with_script e1 (tail (w_script w)) w) in *.
  assert (Ha1 : accepting (w_script w1)) by (simpl; destruct Ha; simpl; [by constructor|done]).
  assert (Hl1 : zlen req + 2 <= zlen (w_script w1)) by (simpl; destruct (w_script w); simpl in *; lia).
  assert (Hl2 : zlen (w_script w) <= zlen (w_script w1) + 1) by (simpl; destruct (w_script w); simpl in *; lia).
  destruct (send_delivers pton c w1 json n Hc Hb Hn Hr Ha1 Hl1) as (w' & E & Hw & Haw & Hlw). fold req in E, Hw, Hlw.
  exists w'. split_and!; [by rewrite KM_run, E1, KM_run, E|done|done|lia].
Qed.

(** A report over the connection that is up. *)
Lemma report_connected json n c w :
  let req := http_request (t_server_ip c) json n in
  t_is_connected c = true -> 0 <= t_sock_fd c -> t_send_buffer_len c = 0 -> 0 < n -> zlen req < 65536 ->
  accepting (w_script w) -> zlen req + 4 <= zlen (w_script w) ->
  exists w', report pton json n (c, w) = Some (true, (add_stats (zlen req) 0 0 0 c, w')) /\
    wrote (w_wire w) (t_sock_fd c) req (w_wire w') /\
    accepting (w_script w') /\ zlen (w_script w) - (zlen req + 4) <= zlen (w_script w').
Proof.
  intros req Hc Hs Hb Hn Hr Ha Hl. unfold report. ztest. cbn [negb]. rewrite KM_run.
  destruct (is_connected_accepting c w Hc Hs Ha ltac:(lia)) as [e1 ->].
  set (w1 := with_script e1 (tail (w_script w)) w) in *.
  assert (Ha1 : accepting (w_script w1)) by (simpl; destruct Ha; simpl; [by constructor|done]).
  assert (Hl1 : zlen (w_script w) = zlen (w_script w1) + 1) by (simpl; destruct (w_script w); simpl in *; lia).
  destruct (report_up json n c w1 Hc Hs Hb Hn Hr Ha1 ltac:(fold req; lia)) as (w' & E & Hw & Haw & Hlw).
  fold req in E, Hw, Hlw. exists w'. rewrite KM_run. cbn [mret KM_ret]. rewrite E. split_and!; [done..|lia].
Qed.

(** A report is delivered in full. *)
Lemma report_delivers json n c w :
  let req := http_request (t_server_ip c) json n in
  0 < n -> zlen req < 65536 -> link_ready c w (zlen req) ->
  exists c' w', report pton json n (c, w) = Some (true, (c', w')) /\
    wrote (w_wire w) (t_sock_fd c') req (w_wire w') /\ t_is_connected c' = true.
Proof.
  intros req Hn Hr Hlink.
  destruct Hlink as [(Hc & Hs & Hb & Ha & Hl)|(Hrec & a & hs & rest & Hsc & H0 & Hdue & Hh & Ha & Hl)].
  - destruct (report_connected json n c w Hc Hs Hb Hn Hr Ha Hl) as (w' & E & Hw & _). by eexists _, w'.
  - unfold report. ztest. cbn [negb]. rewrite KM_run.
    assert (Hup : tcp_client_is_connected (c, w) = Some (false, (c, w)))
      by (unfold tcp_client_is_connected; rewrite KM_run; simpl; by rewrite (rc_down _ Hrec)).
    rewrite Hup, KM_run. destruct w as [fds maps wire e script]. simpl in Hsc. subst script.
    destruct (reconnect_succeeds c fds maps wire e a hs rest Hrec Hh Hdue H0)
      as (c1 & w1 & E1 & Hc1 & Hs1 & Hb1 & Hip & _ & Hw1 & Hr1).
    rewrite E1. destruct (report_up json n c1 w1) as (w' & E & Hw & _); rewrite ?Hip, ?Hr1; try done.
    rewrite E. rewrite Hip, Hw1 in Hw. eexists _, w'. split_and!; [reflexivity|exact Hw|done].
Qed.
End recovery.
