(* ===== verification/Capture.v ===== *)
(** Capture: the frames of a round and the events they leave in the queue.

    The receive loop of [main] on a table and a queue with room: every accepted
    frame is reported once, in the order of arrival, and what is reported is
    made of its addresses, its length and the time only. *)

From stdpp Require Import base list gmap strings numbers option.
From S2P Require Import Prelude CLib Common FlowTracker PacketParser Payload Anomaly Main.

(** ** The flow of a packet stays in the table *)

(** The table has an active slot for [key]. *)
Definition has_key (ft : flow_tracker) (key : flow_key_t) : Prop :=
  exists i r, ft_records ft !! i = Some r /\ r_active r = true /\ r_key r = key.

Lemma has_key_upd ft key i f :
  keeps_identity f -> has_key ft key -> has_key (upd_rec i f ft) key.
Proof.
  intros Hf (j & r & Hj & Ha & Hk). unfold upd_rec, has_key. simpl.
  destruct (decide (i = j)) as [->|Hne].
  - exists j, (f r). destruct (Hf r) as [-> ->]. by rewrite list_lookup_alter_eq, Hj.
  - exists j, r. by rewrite list_lookup_alter_ne.
Qed.

Lemma find_record_has_key now ft key :
  has_key ft key -> exists i, find_record now ft key = Some (i, ft).
Proof.
  intros (j & r & Hj & Ha & Hk). destruct (find_recordP now ft key) as [i|i x Habs|Habs]; [by exists i|..];
    by destruct (Habs j r Hj Ha Hk).
Qed.

(** What a packet does to a table with room. *)
Lemma single_effect ts now ft key n id :
  ft_ok ft -> ft_active_count ft < ft_max_flows ft ->
  let ft' := flow_tracker_update_single ts now ft key n id in
  find_record now ft key <> None /\ has_key ft' key /\
  ft_active_count ft' <= ft_active_count ft + 1 /\ ft_max_flows ft' = ft_max_flows ft /\
  ft_max_events ft' = ft_max_events ft /\
  (ft_event_count ft < ft_max_events ft -> ft_event_count ft' = ft_event_count ft + 1).
Proof.
  intros Hok Hroom. unfold flow_tracker_update_single.
  destruct (find_recordP now ft key) as [i r Hi Ha Hk|i r Habs Hi Ha|Habs Hfull].
  - assert (Hh : has_key (upd_rec i (set_value (bump_value ts n)) ft) key)
      by (apply has_key_upd; [apply set_value_keeps|by exists i, r]).
    unfold add_event. simpl. zcase; simpl; split_and!; try done; lia.
  - assert (Hh : has_key (upd_rec i (set_value (bump_value ts n)) (claimed now key i ft)) key).
    { apply has_key_upd; [apply set_value_keeps|]. exists i, (claim_slot now key r). simpl.
      by rewrite list_lookup_alter_eq, Hi. }
    unfold add_event. simpl. zcase; simpl; split_and!; try done; lia.
  - destruct Hok as [H1 _ _ _ H5 _ _]. lia.
Qed.

(** The retransmission check of a flow that is in the table takes no slot. *)
Lemma retransmit_active now ft st key seq len flags x ft' st' :
  has_key ft key -> flow_tracker_check_tcp_retransmit now ft st key seq len flags = Done (x, ft', st') ->
  ft_active_count ft' = ft_active_count ft /\ ft_max_flows ft' = ft_max_flows ft.
Proof.
  intros Hh. unfold flow_tracker_check_tcp_retransmit.
  destruct (find_record_has_key now ft key Hh) as [i ->]. destruct (consumes_seq flags); [by intros [= <- <- <-]|].
  destruct (data_packet _ _ && behind _ _); [by intros [= <- <- <-]|]. cbv zeta.
  set (ft2 := if _ : bool then upd_rec _ _ _ else _).
  assert (H2 : ft_active_count ft2 = ft_active_count ft /\ ft_max_flows ft2 = ft_max_flows ft)
    by (subst ft2; by case_match). clearbody ft2.
  destruct (_ && (len =? 0)); [|by intros [= <- <- <-]].
  intros ([d st1] & _ & Hd)%bind_Done_inv. by destruct d; injection Hd as <- <- <-.
Qed.

Lemma retransmit_stage_active now buf len pkt key ft acks flow ft' acks' flow' :
  has_key ft key -> retransmit_stage now buf len pkt key ft acks flow = Done (ft', acks', flow') ->
  ft_active_count ft' = ft_active_count ft /\ ft_max_flows ft' = ft_max_flows ft.
Proof.
  intros Hh. unfold retransmit_stage. case_match; [|by intros [= <- _ _]].
  intros ([[[seq plen] fl]|] & _ & Hr)%bind_Done_inv; [|by injection Hr as <- _ _].
  apply bind_Done_inv in Hr as ([[x ft1] st1] & Hx & [= <- _ _]). by eapply retransmit_active.
Qed.

(** ** Reports *)

(** The event a packet is reported by. *)
Definition packet_report (probe_id : bytes) (a : arrival) (pkt : pkt_event_t) : flow_event_t :=
  tag_event (q_protocol pkt) (q_dst_ip pkt)
    (single_event (c_update (a_clock a)) (packet_key pkt (q_ip_version pkt)) (q_pkt_len pkt) probe_id).

Lemma packet_reported probe_id a st st' flow :
  ft_ok (cp_tracker st) -> ft_active_count (cp_tracker st) < ft_max_flows (cp_tracker st) ->
  ft_event_count (cp_tracker st) < ft_max_events (cp_tracker st) ->
  handle_packet probe_id a st = Done (true, st', flow) ->
  exists pkt, packet_parse_raw (a_buf a) (a_len a) (blank_pkt a) = Done (true, pkt) /\
    queue (cp_tracker st') = queue (cp_tracker st) ++ [packet_report probe_id a pkt] /\
    ft_active_count (cp_tracker st') <= ft_active_count (cp_tracker st) + 1 /\
    ft_max_flows (cp_tracker st') = ft_max_flows (cp_tracker st) /\
    ft_max_events (cp_tracker st') = ft_max_events (cp_tracker st) /\
    ft_event_count (cp_tracker st') = ft_event_count (cp_tracker st) + 1.
Proof.
  intros Hok Hroom Hq. unfold handle_packet. fold (blank_pkt a). intros ([ok pkt] & Hp & H)%bind_Done_inv.
  destruct ok; [|done]. exists pkt. split; [done|]. cbv zeta in *.
  apply bind_Done_inv in H as (f1 & _ & (f2 & _ & ([[ft acks] f3] & Hr & H)%bind_Done_inv)%bind_Done_inv).
  destruct (anomaly_check_flow _ _ _) as [[ad ?] ?]. injection H as <- _. simpl.
  set (key := packet_key pkt (q_ip_version pkt)) in *.
  destruct (single_effect (c_update (a_clock a)) (c_update_find (a_clock a)) (cp_tracker st) key (q_pkt_len pkt)
    probe_id Hok Hroom) as (Hf & Hh & H1 & H2 & H3 & H4).
  destruct (retransmit_stage_active _ _ _ _ _ _ _ _ _ _ _ Hh Hr) as [H5 H6].
  destruct (single_queue (c_update (a_clock a)) (c_update_find (a_clock a)) (cp_tracker st) key (q_pkt_len pkt)
    probe_id Hok) as [Hq1 _].
  apply retransmit_stage_queue in Hr. rewrite (same_queue_queue _ _ Hr), Hq1. destruct Hr as (_ & H7 & H8).
  rewrite bool_decide_false by done. ztest. split_and!; [done|lia|lia|lia|]. rewrite H7. by apply H4.
Qed.

(** The events of the accepted frames, in order. *)
Definition reports (probe_id : bytes) (arrivals : list arrival) : list flow_event_t :=
  arrivals ≫= fun a =>
    match packet_parse_raw (a_buf a) (a_len a) (blank_pkt a) with
    | Done (true, pkt) => [packet_report probe_id a pkt]
    | _ => []
    end.

Lemma reports_cons probe_id a arrivals :
  reports probe_id (a :: arrivals) =
  match packet_parse_raw (a_buf a) (a_len a) (blank_pkt a) with
  | Done (true, pkt) => [packet_report probe_id a pkt]
  | _ => []
  end ++ reports probe_id arrivals.
Proof. done. Qed.

Section frames.
Context (probe_id : bytes).

(** A refused frame changes nothing. *)
Lemma packet_refused a st st' flow :
  handle_packet probe_id a st = Done (false, st', flow) ->
  st' = st /\ match packet_parse_raw (a_buf a) (a_len a) (blank_pkt a) with Done (true, _) => False | _ => True end.
Proof.
  unfold handle_packet. fold (blank_pkt a). intros ([ok pkt] & -> & H)%bind_Done_inv.
  destruct ok; [|by injection H as <- _]. cbv zeta in H.
  apply bind_Done_inv in H as (f1 & _ & (f2 & _ & ([[ft acks] f3] & _ & H)%bind_Done_inv)%bind_Done_inv).
  by destruct (anomaly_check_flow _ _ _) as [[ad ?] ?].
Qed.

Lemma receive_reports arrivals n st k :
  Forall arrival_ok arrivals -> Forall (fun a => 0 < a_len a) arrivals ->
  n + Z.of_nat (length arrivals) <= 1000 -> 0 <= k ->
  capture_ok ft_ok detector_ok (k + Z.of_nat (length arrivals)) st ->
  ft_active_count (cp_tracker st) + Z.of_nat (length arrivals) <= ft_max_flows (cp_tracker st) ->
  ft_event_count (cp_tracker st) + Z.of_nat (length arrivals) <= ft_max_events (cp_tracker st) ->
  exists st', receive_loop probe_id arrivals n st =
      Done (n + Z.of_nat (length (reports probe_id arrivals)), st', []) /\
    queue (cp_tracker st') = queue (cp_tracker st) ++ reports probe_id arrivals /\
    ft_max_events (cp_tracker st') = ft_max_events (cp_tracker st) /\
    ft_event_count (cp_tracker st') =
      ft_event_count (cp_tracker st) + Z.of_nat (length (reports probe_id arrivals)) /\
    capture_ok ft_ok detector_ok k st' /\
    ft_active_count (cp_tracker st') <= ft_active_count (cp_tracker st) + Z.of_nat (length arrivals).
Proof.
  intros Ha. revert n st. induction Ha as [|a arrivals Ha Hall IH]; intros n st Hpos Hn Hk Hst Hact Hev.
  { exists st. cbn [receive_loop]. simpl length in *. rewrite Z.add_0_r in Hst. rewrite app_nil_r, !Z.add_0_r.
    split_and!; [by case_match|done..]. }
  inversion Hpos as [|? ? Hlen Hpos']; subst. cbn [receive_loop length] in *. ztest.
  destruct (handle_packet_ok ft_ok detector_ok probe_id a st (k + Z.of_nat (length arrivals)) Ha ltac:(lia))
    as (b & st1 & f & E & Hst1).
  { replace (k + Z.of_nat (length arrivals) + 1) with (k + Z.of_nat (S (length arrivals))) by lia. done. }
  rewrite E, bind_Done. cbv beta iota. destruct b.
  - destruct (packet_reported probe_id a st st1 f (proj1 Hst) ltac:(lia) ltac:(lia) E)
      as (pkt & Hp & Hq & H1 & H2 & H3 & H4).
    destruct (IH (n + 1) st1) as (st' & -> & Hq' & Hm & Hc & Hk' & Hact'); try done; try lia.
    exists st'. rewrite reports_cons, Hp, Hq', Hq, <- app_assoc, length_app.
    split; [|split_and!; [done|lia|simpl in *; lia|done|lia]].
    replace (n + 1 + Z.of_nat (length (reports probe_id arrivals)))
      with (n + Z.of_nat (length [packet_report probe_id a pkt] + length (reports probe_id arrivals)))
      by (simpl; lia). done.
  - apply packet_refused in E as [-> Hp].
    destruct (IH n st) as (st' & -> & Hq' & Hm & Hc & Hk' & Hact'); try done; try lia.
    exists st'. rewrite reports_cons. destruct (packet_parse_raw _ _ _) as [[[] ?]|]; [done|split_and!; try done; lia..].
Qed.
End frames.

(** Every accepted frame is reported.  When the table and the queue have
    room for the frames of a round (at most 1000), the receive loop takes all
    of them and appends to the queue exactly one event per frame the parser
    accepts, in the order of arrival, and counts them.  The event is made of
    the key, the length and the time of the packet and the probe id: what the
    DNS, HTTP and retransmission stages and the detector found is not in it. *)
Lemma frames_reported (probe_id : bytes) (arrivals : list arrival) (n : Z) (st : capture) :
  let count := Z.of_nat (length arrivals) in
  Forall arrival_ok arrivals -> Forall (fun a => 0 < a_len a) arrivals -> n + count <= 1000 ->
  capture_ok ft_ok detector_ok count st ->
  ft_active_count (cp_tracker st) + count <= ft_max_flows (cp_tracker st) ->
  ft_event_count (cp_tracker st) + count <= ft_max_events (cp_tracker st) ->
  exists st', receive_loop probe_id arrivals n st =
      Done (n + Z.of_nat (length (reports probe_id arrivals)), st', []) /\
    queue (cp_tracker st') = queue (cp_tracker st) ++ reports probe_id arrivals.
Proof.
  intros count Ha Hpos Hn Hst Hact Hev.
  destruct (receive_reports probe_id arrivals n st 0) as (st' & E & Hq & _); try done. by exists st'.
Qed.

(** The state the loop starts from. *)
Lemma demo_capture_ok n : n <= 1000 -> capture_ok ft_ok detector_ok n (mk_capture demo_tracker ack_init demo_detector).
Proof.
  intros Hn. split_and!.
  - eapply (create_ok true true true MAX_FLOWS); [|reflexivity]. unfold MAX_FLOWS. lia.
  - split; [by apply ad_create_ok|]. exists ∅. by apply sim_init.
  - exact ack_init_ok.
  - simpl. lia.
Qed.

Lemma frames_reported_witness :
  exists st', receive_loop (lit "p") [demo_arrival; demo_arrival] 0
      (mk_capture demo_tracker ack_init demo_detector) = Done (2, st', []) /\
    queue (cp_tracker st') = reports (lit "p") [demo_arrival; demo_arrival].
Proof.
  destruct (frames_reported (lit "p") [demo_arrival; demo_arrival] 0 (mk_capture demo_tracker ack_init demo_detector))
    as (st' & E & Hq).
  - constructor; [exact demo_arrival_ok|constructor; [exact demo_arrival_ok|constructor]].
  - constructor; [|constructor; [|constructor]]; vm_compute; reflexivity.
  - simpl. lia.
  - apply demo_capture_ok. simpl. lia.
  - vm_compute. discriminate.
  - vm_compute. discriminate.
  - exists st'. split; [|exact Hq]. rewrite E. vm_compute. reflexivity.
Defined.
