(* ===== verification/Delivery.v ===== *)
(** Delivery: what a round of the main loop puts on the wire.

    The components together: the events the tracker has queued, as the
    serializer writes them, in the request the relay client sends.  A kernel
    that accepts at least one byte per call is all the round needs to end. *)

From stdpp Require Import base list gmap strings numbers option.
From S2P Require Import Prelude CLib Common FlowTracker PacketParser Anomaly Serializer ProcNet.
From S2P Require Import HostMetrics Kernel TcpClient BpfLoader Main Recovery Capture.

(** ** The body of the request *)

(** A string is read up to its NUL, whatever follows. *)
Lemma cstr_text out text :
  take (length text) out = text -> out !! length text = Some 0 -> cstr out = cstr text.
Proof.
  intros Ht H0. rewrite <- (take_drop_middle _ _ _ H0), Ht.
  generalize (drop (S (length text)) out). clear. intros rest.
  induction text as [|c text IH]; simpl; [done|]. zcase; [done|]. by rewrite IH.
Qed.

Lemma http_request_text ip out text n :
  take (length text) out = text -> out !! length text = Some 0 ->
  http_request ip out n = http_request ip text n.
Proof. intros Ht H0. unfold http_request. by rewrite (cstr_text out text). Qed.

Section delivery.
Context (pton : bytes -> bool) (fuel : nat) (page_size : Z) (bpf_status : bpf_loader_status)
  (use_bpf : bool) (probe_id : bytes).

(** [batch_stage] when the text of the batch fits. *)
Lemma batch_stage_text mp ls evs n :
  flow_tracker_get_events (cp_tracker (ls_capture ls)) (MAX_FLOWS * 2) = (evs, n) ->
  let text := json_array (batch_items evs mp probe_id) in
  (0 < n \/ mp <> None) -> zlen (ls_json ls) = MAX_JSON_LEN * 16 -> zlen text < MAX_JSON_LEN * 16 ->
  exists json, batch_stage probe_id mp ls =
      Done (set_json json (set_tracker (flow_tracker_flush (cp_tracker (ls_capture ls))) ls), Some (zlen text, n)) /\
    take (length text) json = text /\ json !! length text = Some 0 /\ length json = length (ls_json ls).
Proof.
  intros Hev text Hn Hj Hfit. unfold batch_stage. rewrite Hev.
  assert (Hgo : (0 <? n) || match mp with Some _ => true | None => false end = true).
  { destruct Hn as [Hn|Hn]; [by ztest|]. destruct mp; [apply orb_true_r|done]. }
  rewrite Hgo. destruct (serialize_batch_text evs mp probe_id (ls_json ls)) as (out & E & Hlen & Ht & H0).
  { fold text. lia. }
  fold text in E, Ht, H0. rewrite Hj in E. rewrite E, bind_Done. cbv beta iota. by exists out.
Qed.

(** A round whose report is sent, and one that has nothing to report. *)
Lemma round_reported inp ls0 ls mp cw ls1 json_len n st :
  reaches_batch fuel page_size bpf_status use_bpf probe_id inp (ls0, cw) ls mp ->
  batch_stage probe_id mp ls = Done (ls1, Some (json_len, n)) -> report pton (ls_json ls1) json_len cw = Some (true, st) ->
  round pton fuel page_size bpf_status use_bpf probe_id inp (ls0, cw) = Done (Some (add_events n ls1, st)).
Proof.
  intros (l1 & l2 & E1 & E2 & E3) E4 E5. unfold round, after_capture. cbn [fst snd] in *.
  rewrite E1, bind_Done, E2, bind_Done, E3, bind_Done, E4, bind_Done. cbv beta iota. unfold send_stage. by rewrite KM_run, E5.
Qed.

Lemma round_silent inp ls0 ls cw :
  reaches_batch fuel page_size bpf_status use_bpf probe_id inp (ls0, cw) ls None ->
  batch_stage probe_id None ls = Done (ls, None) ->
  round pton fuel page_size bpf_status use_bpf probe_id inp (ls0, cw) = Done (Some (ls, cw)).
Proof.
  intros (l1 & l2 & E1 & E2 & E3) E4. unfold round, after_capture. cbn [fst snd] in *.
  by rewrite E1, bind_Done, E2, bind_Done, E3, bind_Done, E4, bind_Done.
Qed.

(** A round from its batch on. *)
Lemma batch_delivered (inp : round_input) (ls0 ls : loop_state) (c : tcp_client) (w : world)
    (mp : option host_metric_t) (evs : list flow_event_t) (n : Z) :
  reaches_batch fuel page_size bpf_status use_bpf probe_id inp (ls0, (c, w)) ls mp ->
  flow_tracker_get_events (cp_tracker (ls_capture ls)) (MAX_FLOWS * 2) = (evs, n) ->
  (0 < n \/ mp <> None) -> zlen (ls_json ls) = MAX_JSON_LEN * 16 ->
  let text := json_array (batch_items evs mp probe_id) in
  let req := http_request (t_server_ip c) text (zlen text) in
  zlen text < MAX_JSON_LEN * 16 -> zlen req < 65536 -> link_ready pton c w (zlen req) ->
  exists ls' c' w', round pton fuel page_size bpf_status use_bpf probe_id inp (ls0, (c, w)) =
      Done (Some (ls', (c', w'))) /\
    wrote (w_wire w) (t_sock_fd c') req (w_wire w') /\ t_is_connected c' = true /\
    (flow_tracker_get_events (cp_tracker (ls_capture ls')) (MAX_FLOWS * 2)).1 = [] /\
    ls_total_events ls' = u64 (ls_total_events ls + n).
Proof.
  intros Hreach Hev Hn Hj text req Hfit Hr Hlink.
  destruct (batch_stage_text mp ls evs n Hev Hn Hj Hfit) as (json & E4 & Ht & H0 & _). fold text in E4, Ht, H0.
  assert (Hreq : http_request (t_server_ip c) json (zlen text) = req) by (by apply http_request_text).
  assert (Hpos : 0 < zlen text) by (subst text; unfold json_array; simpl; lia).
  destruct (report_delivers pton json (zlen text) c w) as (c' & w' & E5 & Hw & Hup); rewrite ?Hreq; try done.
  rewrite Hreq in Hw. eexists _, c', w'. split; [by eapply round_reported|]. by split_and!.
Qed.


(** The stages of a round before the batch, when /proc has no entries and no
    metric is due: the capture has changed, and with it the queue. *)
Lemma capture_reaches inp ls0 es c w k :
  let count := Z.of_nat (length (ri_arrivals inp)) in
  use_bpf = true -> s_perf_map_fd bpf_status = -1 ->
  Forall arrival_ok (ri_arrivals inp) -> Forall (fun a => 0 < a_len a) (ri_arrivals inp) -> count <= 1000 -> 0 <= k ->
  capture_ok ft_ok detector_ok (k + count) (ls_capture ls0) -> ft_event_count (cp_tracker (ls_capture ls0)) = 0 ->
  ft_max_events (cp_tracker (ls_capture ls0)) = MAX_FLOWS * 2 ->
  ft_active_count (cp_tracker (ls_capture ls0)) + count <= MAX_FLOWS ->
  poll_proc (ri_files inp) (ls_entries ls0) = Done (es, 0) ->
  u64 (FlowTracker.now_ns (ri_now inp).1 (ri_now inp).2 - ls_last_metric_ns ls0) < 30000000000 ->
  exists ls, reaches_batch fuel page_size bpf_status use_bpf probe_id inp (ls0, (c, w)) ls None /\
    flow_tracker_get_events (cp_tracker (ls_capture ls)) (MAX_FLOWS * 2) =
      (reports probe_id (ri_arrivals inp), Z.of_nat (length (reports probe_id (ri_arrivals inp)))) /\
    ls_json ls = ls_json ls0 /\ ls_total_events ls = ls_total_events ls0 /\
    ls_last_metric_ns ls = ls_last_metric_ns ls0 /\ capture_ok ft_ok detector_ok k (ls_capture ls) /\
    ft_max_events (cp_tracker (ls_capture ls)) = MAX_FLOWS * 2 /\
    ft_event_count (cp_tracker (ls_capture ls)) = Z.of_nat (length (reports probe_id (ri_arrivals inp))) /\
    ft_active_count (cp_tracker (ls_capture ls)) <= ft_active_count (cp_tracker (ls_capture ls0)) + count.
Proof.
  intros count Hu Hperf Ha Hpos Hcount Hk Hcap Hev Hmax Hact Hpoll Hmetric. subst count.
  pose proof (proj1 Hcap) as [_ _ Htwice _ Hactive _ _].
  destruct (receive_reports probe_id (ri_arrivals inp) 0 (ls_capture ls0) k)
    as (st' & E & Hq & Hm & Hc & Hcap' & Hact'); rewrite ?Z.add_0_l; try done; try lia.
  pose proof Hcap' as (Hok & Hcap''). set (m := Z.of_nat (length (reports probe_id (ri_arrivals inp)))) in *.
  exists (set_tracker (cp_tracker st') (set_entries es (set_capture st' (0 + m - 0) ls0))).
  split_and!; try done; [|..|by simpl; lia|by simpl; lia].
  - exists (set_capture st' (0 + m - 0) ls0). eexists. split_and!.
    + unfold capture_stage, perf_stage. rewrite Hu, Hperf. simpl. by rewrite E, bind_Done.
    + unfold poll_stage. simpl ls_entries. rewrite Hpoll, bind_Done. cbv beta iota. reflexivity.
    + unfold metric_stage. cbn [ls_last_metric_ns set_tracker set_entries set_capture]. by ztest.
  - simpl. rewrite queue_eq in Hq by done. rewrite queue_eq in Hq by apply Hcap. rewrite Hev in Hq. simpl in Hq.
    pose proof Hok as [_ _ _ H4 _ _ _]. unfold flow_tracker_get_events. rewrite Hev in Hc.
    destruct (Z.ltb_spec (ft_event_count (cp_tracker st')) (MAX_FLOWS * 2)).
    + rewrite Hq. f_equal. lia.
    + replace (MAX_FLOWS * 2) with (ft_event_count (cp_tracker st')) by lia. rewrite Hq. f_equal. lia.
Qed.

(** From the wire to the wire.  In a round whose perf map is not in use,
    which finds /proc empty and no metric due, with room in the table, an
    empty queue and a relay that can be reached (by a new connection if the old
    one was lost), the frames received (at most 1000) leave the probe as one
    POST request: its body is the JSON array with one object for each frame the
    parser accepts, in the order of arrival; they are all counted and the queue
    is empty again. *)
Lemma frames_on_the_wire (inp : round_input) (ls0 : loop_state) (es : list proc_net_entry) (c : tcp_client)
    (w : world) :
  let count := Z.of_nat (length (ri_arrivals inp)) in
  use_bpf = true -> s_perf_map_fd bpf_status = -1 ->
  Forall arrival_ok (ri_arrivals inp) -> Forall (fun a => 0 < a_len a) (ri_arrivals inp) -> count <= 1000 ->
  capture_ok ft_ok detector_ok count (ls_capture ls0) -> ft_event_count (cp_tracker (ls_capture ls0)) = 0 ->
  ft_max_events (cp_tracker (ls_capture ls0)) = MAX_FLOWS * 2 ->
  ft_active_count (cp_tracker (ls_capture ls0)) + count <= MAX_FLOWS ->
  poll_proc (ri_files inp) (ls_entries ls0) = Done (es, 0) ->
  u64 (FlowTracker.now_ns (ri_now inp).1 (ri_now inp).2 - ls_last_metric_ns ls0) < 30000000000 ->
  zlen (ls_json ls0) = MAX_JSON_LEN * 16 ->
  let evs := reports probe_id (ri_arrivals inp) in
  let text := json_array (batch_items evs None probe_id) in
  let req := http_request (t_server_ip c) text (zlen text) in
  evs <> [] -> zlen text < MAX_JSON_LEN * 16 -> zlen req < 65536 -> link_ready pton c w (zlen req) ->
  exists ls' c' w', round pton fuel page_size bpf_status use_bpf probe_id inp (ls0, (c, w)) =
      Done (Some (ls', (c', w'))) /\
    wrote (w_wire w) (t_sock_fd c') req (w_wire w') /\ t_is_connected c' = true /\
    (flow_tracker_get_events (cp_tracker (ls_capture ls')) (MAX_FLOWS * 2)).1 = [] /\
    ls_total_events ls' = u64 (ls_total_events ls0 + zlen evs).
Proof.
  intros count Hu Hp Ha Hpos Hn Hcap Hev Hmax Hact Hpoll Hm Hj evs text req Hne Hfit Hr Hlink.
  destruct (capture_reaches inp ls0 es c w 0) as (ls & Hreach & Hq & Hjson & Htot & _); try done.
  rewrite <- Htot. eapply batch_delivered; try done; [|by rewrite Hjson].
  left. destruct evs as [|ev evs']; [done|]. simpl. lia.
Qed.
End delivery.

(** ** A round on the wire *)

(** The first round after boot of a probe that has received one DNS query. *)
Definition demo_ls0 : loop_state := start demo_tracker demo_detector demo_entries demo_json.
Definition demo_status : bpf_loader_status :=
  mk_status 4 (-1) 3 true 0 (replicate 16 0) (replicate 16 0) 0 (replicate 256 0).
Definition demo_ls1 : loop_state :=
  match capture_stage 0 4096 demo_status true (lit "p") (demo_round [demo_arrival]) demo_ls0 with
  | Done (Some ls) => ls
  | _ => demo_ls0
  end.
Definition demo_ls2 : loop_state :=
  match poll_stage (demo_round [demo_arrival]) demo_ls1 with Done ls => ls | Undefined => demo_ls1 end.
Definition demo_events : list flow_event_t :=
  (flow_tracker_get_events (cp_tracker (ls_capture demo_ls2)) (MAX_FLOWS * 2)).1.
Definition demo_text : bytes := json_array (batch_items demo_events None (lit "p")).

Lemma demo_reaches (c : tcp_client) (w : world) :
  reaches_batch 0 4096 demo_status true (lit "p") (demo_round [demo_arrival]) (demo_ls0, (c, w)) demo_ls2 None.
Proof.
  exists demo_ls1, demo_ls2. split_and!.
  - assert (H : match capture_stage 0 4096 demo_status true (lit "p") (demo_round [demo_arrival]) demo_ls0 with
      Done (Some _) => true | _ => false end = true) by (vm_compute; reflexivity).
    unfold demo_ls1. cbn [fst]. destruct (capture_stage _ _ _ _ _ _ _) as [[ls|]|]; [reflexivity|discriminate H..].
  - assert (H : match poll_stage (demo_round [demo_arrival]) demo_ls1 with
      Done _ => true | _ => false end = true) by (vm_compute; reflexivity).
    unfold demo_ls2. destruct (poll_stage _ _) as [ls|]; [reflexivity|discriminate H].
  - unfold metric_stage.
    assert (H : (30000000000 <=? u64 (FlowTracker.now_ns (ri_now (demo_round [demo_arrival])).1
      (ri_now (demo_round [demo_arrival])).2 - ls_last_metric_ns demo_ls2)) = false) by (vm_compute; reflexivity).
    rewrite H. reflexivity.
Qed.

(** The connection is up. *)
Lemma demo_link (need : Z) :
  need <= 996 -> link_ready (fun _ => true) (demo_client 3 true 0)
    (demo_world ({[3]} ∪ others) (replicate 1000 (Ans 1 0))) need.
Proof.
  intros Hn. left. split_and!; [done|done|done|by apply Forall_replicate|]. cbn [w_script demo_world].
  rewrite length_replicate. lia.
Qed.

(** It is down; the relay answers after EINPROGRESS. *)
Definition demo_answers : list answer :=
  [Ans 60 0] ++ [Ans 0 0; Ans 0 0; Ans 0 0; Ans (-1) EINPROGRESS; Ans 1 0; Ans 0 0] ++ replicate 1000 (Ans 1 0).

Lemma demo_recovery (need : Z) :
  need <= 997 -> link_ready (fun _ => true) (demo_client (-1) false 0) (demo_world others demo_answers) need.
Proof.
  intros Hn. right. split; [by constructor|]. eexists _, _, (replicate 1000 (Ans 1 0)).
  split_and!; [reflexivity|done|vm_compute; reflexivity|by constructor|by apply Forall_replicate|].
  rewrite length_replicate. lia.
Qed.


(** The same round from its frames. *)
Definition demo_poll : list proc_net_entry :=
  match poll_proc (ri_files (demo_round [demo_arrival])) (ls_entries demo_ls0) with
  | Done (es, _) => es
  | Undefined => []
  end.

Lemma demo_poll_empty :
  poll_proc (ri_files (demo_round [demo_arrival])) (ls_entries demo_ls0) =
  Done (demo_poll, 0).
Proof.
  assert (H : match poll_proc (ri_files (demo_round [demo_arrival]))
    (ls_entries demo_ls0) with Done (_, n) => n =? 0 | _ => false end = true) by (vm_compute; reflexivity).
  unfold demo_poll. destruct (poll_proc _ _) as [[es n]|]; [|discriminate H]. apply Z.eqb_eq in H. by subst n.
Qed.

Lemma frames_on_the_wire_witness :
  exists ls' c' w', round (fun _ => true) 0 4096 demo_status true (lit "p") (demo_round [demo_arrival])
      (demo_ls0, (demo_client (-1) false 0, demo_world others demo_answers)) = Done (Some (ls', (c', w'))) /\
    let text := json_array (batch_items (reports (lit "p") [demo_arrival]) None (lit "p")) in
    wrote [] (t_sock_fd c') (http_request (t_server_ip (demo_client (-1) false 0)) text (zlen text)) (w_wire w') /\
    t_is_connected c' = true /\ ls_total_events ls' = 1.
Proof.
  destruct (frames_on_the_wire (fun _ => true) 0 4096 demo_status true (lit "p") (demo_round [demo_arrival]) demo_ls0
    demo_poll (demo_client (-1) false 0) (demo_world others demo_answers)) as (ls' & c' & w' & H1 & H2 & H3 & _ & H5).
  - reflexivity.
  - reflexivity.
  - constructor; [exact demo_arrival_ok|constructor].
  - constructor; [|constructor]. vm_compute. reflexivity.
  - simpl. lia.
  - apply demo_capture_ok. simpl. lia.
  - vm_compute. reflexivity.
  - vm_compute. reflexivity.
  - vm_compute. discriminate.
  - exact demo_poll_empty.
  - vm_compute. reflexivity.
  - vm_compute. reflexivity.
  - vm_compute. discriminate.
  - vm_compute. reflexivity.
  - vm_compute. reflexivity.
  - apply demo_recovery. vm_compute. discriminate.
  - exists ls', c', w'. split; [exact H1|]. split; [exact H2|]. split; [exact H3|]. rewrite H5. vm_compute. reflexivity.
Defined.
