(* ===== verification/Program.v ===== *)
(** Program: [main] of src/main.c as one function.

    The configuration from the environment, the command line, the start of
    the components with their error returns, the loop, the shutdown: composed
    as [main] composes them, from what the machine provides to the exit code
    and the world that is left. *)

From stdpp Require Import base list gmap strings numbers option.
From S2P Require Import Prelude CLib Common FlowTracker PacketParser Anomaly Serializer ProcNet.
From S2P Require Import Scanf HostMetrics RuntimeConfig Kernel TcpClient Elf BpfLoader Main.

(** ** The program *)

(** What [main] gets: the environment and the arguments, the files by path,
    whether each allocation succeeds, the inputs of the rounds until a signal
    sets [g_stop], and what its arrays and its two structures that are not
    initialised hold. *)
Record machine : Type := mk_machine {
  mc_env : environment;
  mc_iface : option bytes;
  mc_argv : list bytes;
  mc_file : bytes -> option bytes;
  mc_ok_tracker : bool * bool * bool;
  mc_ok_client : bool;
  mc_ok_detector : bool;
  mc_inputs : list round_input;
  mc_config : stb_config;
  mc_status : bpf_loader_status;
  mc_entries : list proc_net_entry;
  mc_json : bytes
}.

Section main.
Context (LONG : Z) (malloc_ok : Z -> bool) (verifier : bytes -> bool) (strerror : Z -> bytes) (log : bytes).
Context (pton : bytes -> bool) (fuel : nat) (page_size : Z).

(** The loader, the loop and the shutdown, once the components are created. *)
Definition main_serve (mc : machine) (tracker : flow_tracker) (anomaly : anomaly_detector)
    (probe_id bpf_path : bytes) (tcp : tcp_client) (w1 : world) : exec (option (Z * world)) :=
  m ← bpf_loader_init LONG malloc_ok verifier strerror log (mc_file mc bpf_path);
  match m (mc_status mc, w1) with
  | None => Done None
  | Some (r, (bpf_status, w2)) =>
      let use_bpf := r =? 0 in
      res ← rounds pton fuel page_size bpf_status use_bpf probe_id (mc_inputs mc)
              (start tracker anomaly (mc_entries mc) (mc_json mc), (tcp, w2));
      match res with
      | None => Done None
      | Some (_, st) => Done (w ← shutdown pton use_bpf bpf_status st; Some (0, w))
      end
  end.

(** From the first allocation on, with the strings of the configuration: the
    exit code and the world, or [None] when the program waits for ever. *)
Definition main_run (mc : machine) (relay_ip : bytes) (relay_port : Z) (probe_id bpf_path : bytes)
    (w0 : world) : exec (option (Z * world)) :=
  let '(ok_ft, ok_records, ok_events) := mc_ok_tracker mc in
  match flow_tracker_create ok_ft ok_records ok_events MAX_FLOWS with
  | None => Done (Some (1, w0))
  | Some tracker =>
      match tcp_client_init (mc_ok_client mc) relay_ip relay_port true with
      | None => Done (Some (1, w0))
      | Some tcp =>
          match tcp_client_connect pton (tcp, w0) with
          | None => Done None
          | Some (_, (tcp, w1)) =>
              match anomaly_detector_create (mc_ok_detector mc) with
              | None => Done (Some (1, w1))
              | Some anomaly => main_serve mc tracker anomaly probe_id bpf_path tcp w1
              end
          end
      end
  end.

(** The strings of the configuration are printed, and so read, before the
    first allocation. *)
Definition main (mc : machine) (w0 : world) : exec (option (Z * world)) :=
  let cfg := config_load_from_env (mc_env mc) (mc_config mc) in
  match main_args (mc_argv mc) (mc_iface mc) with
  | Usage => Done (Some (0, w0))
  | Version => Done (Some (0, w0))
  | Run _ bpf_path =>
      relay_ip ← read_str (c_relay_server_ip cfg);
      probe_id ← read_str (c_probe_id cfg);
      main_run mc relay_ip (c_relay_server_port cfg) probe_id bpf_path w0
  end.

(** ** How it ends *)

(** The memory of [main] has its sizes, the inputs those of the loop. *)
Record machine_ok (mc : machine) : Prop := mk_machine_ok {
  mo_entries : zlen (mc_entries mc) = MAX_FLOWS;
  mo_entry : Forall entry_ok (mc_entries mc);
  mo_json : zlen (mc_json mc) = MAX_JSON_LEN * 16;
  mo_inputs : Forall input_fits (mc_inputs mc);
  mo_frames : frames_of (mc_inputs mc) < 2 ^ 31
}.

(** An allocation fails or the port is not one. *)
Definition startup_fails (mc : machine) (port : Z) : bool :=
  negb (mc_ok_tracker mc).1.1 || negb (mc_ok_tracker mc).1.2 || negb (mc_ok_tracker mc).2 ||
  (port <=? 0) || (65535 <? port) || negb (mc_ok_client mc) || negb (mc_ok_detector mc).

(** The start is the relation [started]. *)
Lemma loader_init_status obj m s w :
  bpf_loader_init LONG malloc_ok verifier strerror log obj = Done m ->
  m (s, w) = m (fresh_status, w).
Proof. intros (insns & _ & [= <-])%bind_Done_inv; done. Qed.

Lemma create_some a b c n : flow_tracker_create a b c n <> None -> a && b && c = true.
Proof. by destruct a, b, c. Qed.

Lemma main_run_exit mc ip port id path w0 code w :
  machine_ok mc -> main_run mc ip port id path w0 = Done (Some (code, w)) ->
  if startup_fails mc port then code = 1 /\ (mc_ok_detector mc = true -> w = w0)
  else code = 0 /\ w_fds w = w_fds w0.
Proof.
  intros [He1 He2 Hj Hin Hfr]. unfold main_run, main_serve, startup_fails.
  destruct (mc_ok_tracker mc) as [[a b] c]. simpl.
  destruct (flow_tracker_create a b c MAX_FLOWS) as [ft|] eqn:Eft.
  2:{ intros [= <- <-]. by destruct a, b, c. }
  assert (Habc : a && b && c = true) by (apply (create_some a b c MAX_FLOWS); by rewrite Eft).
  destruct a, b, c; try done. simpl.
  destruct (tcp_client_init (mc_ok_client mc) ip port true) as [tcp|] eqn:Ec.
  2:{ intros [= <- <-]. revert Ec. unfold tcp_client_init. by destruct (port <=? 0), (65535 <? port), (mc_ok_client mc). }
  assert (Hport : (port <=? 0) || (65535 <? port) || negb (mc_ok_client mc) = false)
    by (revert Ec; unfold tcp_client_init; by destruct (port <=? 0), (65535 <? port), (mc_ok_client mc)).
  rewrite Hport. simpl. assert (Hok : mc_ok_client mc = true)
    by (destruct (mc_ok_client mc); [done|by rewrite orb_true_r in Hport]). rewrite Hok in Ec.
  destruct (tcp_client_connect pton (tcp, w0)) as [[rc [tcp1 w1]]|] eqn:Econ; [|done].
  destruct (mc_ok_detector mc); simpl; [|by intros [= <- <-]].
  intros (m & Em & H)%bind_Done_inv.
  destruct (m (mc_status mc, w1)) as [[r [bs w2]]|] eqn:Er; [|done].
  rewrite (loader_init_status _ _ _ _ Em) in Er.
  apply bind_Done_inv in H as (res & Eres & H). destruct res as [[ls st]|]; [|done].
  destruct (shutdown _ _ _ _) as [w'|] eqn:Esh; [|done]. injection H as <- <-. split; [done|].
  eapply (loop_releases_descriptors LONG malloc_ok verifier strerror log pton (w_fds w0)); try done.
  by eapply main_started.
Qed.

(** The ways the run can go wrong. *)
Lemma main_run_safe mc ip port id path w0 :
  machine_ok mc -> main_run mc ip port id path w0 = Undefined ->
  parse_bpf_elf LONG malloc_ok (mc_file mc path) = Undefined \/
  exists use_bpf bs ft ad st,
    started LONG malloc_ok verifier strerror log pton (w_fds w0) use_bpf bs ft ad st /\
    loop_overruns pton fuel page_size bs use_bpf id (mc_inputs mc)
      (start ft ad (mc_entries mc) (mc_json mc), st).
Proof.
  intros [He1 He2 Hj Hin Hfr]. unfold main_run, main_serve. destruct (mc_ok_tracker mc) as [[a b] c].
  destruct (flow_tracker_create a b c MAX_FLOWS) as [ft|] eqn:Eft; [|done].
  assert (Habc : a && b && c = true) by (apply (create_some a b c MAX_FLOWS); by rewrite Eft).
  destruct a, b, c; try done.
  destruct (tcp_client_init (mc_ok_client mc) ip port true) as [tcp|] eqn:Ec; [|done].
  assert (Hok : mc_ok_client mc = true)
    by (revert Ec; unfold tcp_client_init; by destruct (port <=? 0), (65535 <? port), (mc_ok_client mc)).
  rewrite Hok in Ec. destruct (tcp_client_connect pton (tcp, w0)) as [[rc [tcp1 w1]]|] eqn:Econ; [|done].
  destruct (anomaly_detector_create (mc_ok_detector mc)) as [ad|] eqn:Ead; [|done].
  destruct (mc_ok_detector mc); [|done].
  destruct (bpf_loader_init _ _ _ _ _ _) as [m|] eqn:Em.
  2:{ intros _. left. revert Em. unfold bpf_loader_init, chosen_insns. by destruct (parse_bpf_elf _ _ _). }
  rewrite bind_Done. destruct (m (mc_status mc, w1)) as [[r [bs w2]]|] eqn:Er; [|done].
  rewrite (loader_init_status _ _ _ _ Em) in Er. intros H. right.
  assert (Hst : started LONG malloc_ok verifier strerror log pton (w_fds w0) (r =? 0) bs ft ad (tcp1, w2))
    by (by eapply main_started).
  exists (r =? 0), bs, ft, ad, (tcp1, w2). split; [done|].
  destruct (loop_safe LONG malloc_ok verifier strerror log pton (w_fds w0) (r =? 0) bs ft ad (tcp1, w2) fuel
    page_size id (mc_inputs mc) (mc_entries mc) (mc_json mc))
    as [(res & E & _)|[_ Hov]]; try done.
  rewrite E, bind_Done in H. by destruct res as [[ls st]|].
Qed.

(** The causes of an undefined operation. *)
Lemma main_undefined (mc : machine) (w0 : world) :
  machine_ok mc -> main mc w0 = Undefined ->
  let cfg := config_load_from_env (mc_env mc) (mc_config mc) in
  read_str (c_relay_server_ip cfg) = Undefined \/ read_str (c_probe_id cfg) = Undefined \/
  (exists ifname path, main_args (mc_argv mc) (mc_iface mc) = Run ifname path /\
     parse_bpf_elf LONG malloc_ok (mc_file mc path) = Undefined) \/
  (exists use_bpf bs ft ad st,
     started LONG malloc_ok verifier strerror log pton (w_fds w0) use_bpf bs ft ad st /\
     loop_overruns pton fuel page_size bs use_bpf (cstr (c_probe_id cfg)) (mc_inputs mc)
       (start ft ad (mc_entries mc) (mc_json mc), st)).
Proof.
  intros Hok. unfold main. set (cfg := config_load_from_env _ _). cbv zeta.
  destruct (main_args _ _) as [| |ifname path]; [done..|].
  destruct (read_str (c_relay_server_ip cfg)) as [ip|] eqn:Eip; [|by left].
  destruct (read_str (c_probe_id cfg)) as [id|] eqn:Eid; [|by right; left].
  rewrite !bind_Done. intros [H|(use_bpf & bs & ft & ad & st & Hst & Hov)]%main_run_safe; [| |done].
  - right. right. left. by exists ifname, path.
  - right. right. right. exists use_bpf, bs, ft, ad, st. split; [done|].
    revert Eid. unfold read_str. case_match; [|done]. by intros [= <-].
Qed.

(** C3: the probe is memory safe.  On a machine of [machine_ok], that is: the
    arrays of [main] have their sizes; every frame received is a list of bytes
    no longer than it says; every row the loop reads of a table of /proc/net
    sets fewer than five or exactly nine values (the tables the kernel writes
    do, see [kernel_table_fits]); /proc/stat sets fewer than four or all seven
    counters ([kernel_stat_fits]) and /proc/net/dev can be opened (else values
    that were never set are used); under 2^31 frames in all.  Then, with any
    environment, arguments, object file, answers of the kernel and clocks,
    through any number of rounds on arbitrary frames, [main] performs no
    undefined operation (no access outside an array, no use of an unset local
    of the readers, no overflow of an [int] index), except for three causes: a
    configured string fills its field so that it is not terminated; the object
    file makes [parse_bpf_elf] misbehave (see [parse_bpf_elf_spec] for those
    that do not); or a round comes to a batch that does not fit in [json_buf]
    in one of the two ways of [overruns]. *)
Theorem main_safe (mc : machine) (w0 : world) :
  machine_ok mc ->
  let cfg := config_load_from_env (mc_env mc) (mc_config mc) in
  (exists res, main mc w0 = Done res) \/
  read_str (c_relay_server_ip cfg) = Undefined \/ read_str (c_probe_id cfg) = Undefined \/
  (exists ifname path, main_args (mc_argv mc) (mc_iface mc) = Run ifname path /\
     parse_bpf_elf LONG malloc_ok (mc_file mc path) = Undefined) \/
  (exists use_bpf bs ft ad st,
     started LONG malloc_ok verifier strerror log pton (w_fds w0) use_bpf bs ft ad st /\
     loop_overruns pton fuel page_size bs use_bpf (cstr (c_probe_id cfg)) (mc_inputs mc)
       (start ft ad (mc_entries mc) (mc_json mc), st)).
Proof.
  intros Hok. cbv zeta. destruct (main mc w0) as [res|] eqn:E; [left; by eexists|].
  right. by apply main_undefined.
Qed.

(** How [main] ends.  With [-h] or [-v] it does nothing and returns 0.
    Otherwise it returns 1 exactly when an allocation fails or the configured
    port is not between 1 and 65535, and has then opened nothing (when the
    detector could be allocated); else it returns 0 after the loop, whatever
    happened in it (lost connections, reconnections, failures of the loader or
    of any system call), with exactly the descriptors open that were open when
    it was entered. *)
Lemma main_exit (mc : machine) (w0 w : world) (code : Z) :
  machine_ok mc -> main mc w0 = Done (Some (code, w)) ->
  let port := c_relay_server_port (config_load_from_env (mc_env mc) (mc_config mc)) in
  match main_args (mc_argv mc) (mc_iface mc) with
  | Run _ _ =>
      if startup_fails mc port then code = 1 /\ (mc_ok_detector mc = true -> w = w0)
      else code = 0 /\ w_fds w = w_fds w0
  | _ => code = 0 /\ w = w0
  end.
Proof.
  intros Hok. unfold main. destruct (main_args _ _); [by intros [= <- <-]..|].
  intros (ip & _ & (id & _ & H)%bind_Done_inv)%bind_Done_inv. by eapply main_run_exit.
Qed.
End main.

(** ** A run *)

(** A round on the kernel's tables: a listening socket on the loopback
    address, the times of one processor, no frames. *)
Definition demo_table : option bytes :=
  Some (file_of [lit "  sl  local_address rem_address   st"; row0]).

Definition demo_kernel_round : round_input :=
  mk_round [] [] (fun _ => (0, 0)) (mk_files demo_table None demo_table None) 200 (fun _ => 201) (1, 0)
    (mk_host 1 0 (Some (lit "cpu  20 0 200 0 0 0 0" ++ 10 :: cpu_row 0 10 0 100 0 0 0 0 (lit "0 0")))
       None None (Some [])) 202.

(** The relay refuses the connection, the program loads and attaches, one
    round passes, a signal arrives. *)
Definition demo_machine : machine :=
  mk_machine (mk_env None None None None) None [] (fun _ => Some demo_elf) (true, true, true) true true
    [demo_kernel_round] (mk_config (replicate 64 0) 0 (replicate 64 0) 0) fresh_status demo_entries
    demo_json.

Definition demo_world0 : world := loader_world (Ans (-1) 24 :: replicate 5 (Ans 0 0)).

Lemma demo_table_ok : kernel_table demo_table.
Proof.
  right. eexists _, _. split; [reflexivity|]. split.
  - split; [apply (bool_decide_unpack _); vm_compute; exact I|vm_compute; lia].
  - constructor; [|constructor]. split; [split|].
    + apply (bool_decide_unpack _). vm_compute. exact I.
    + vm_compute. lia.
    + exists (lit "   "), 0, (drop 5 row0). split; [vm_compute; reflexivity|].
      split; [repeat constructor|mlia].
Qed.

Lemma demo_kernel_fits : input_fits demo_kernel_round.
Proof.
  pose proof (kernel_table_fits _ demo_table_ok). constructor; [constructor|by constructor| |done|done].
  apply (kernel_stat_fits (lit "cpu  20 0 200 0 0 0 0") (lit "0 0") 0 10 0 100 0 0 0 0).
  - split; [apply (bool_decide_unpack _); vm_compute; exact I|vm_compute; lia].
  - repeat constructor; mlia.
Qed.

Lemma demo_machine_ok : machine_ok demo_machine.
Proof.
  destruct demo_memory as (H1 & H2 & H3). constructor; [exact H1|exact H2|exact H3| |vm_compute; reflexivity].
  constructor; [exact demo_kernel_fits|constructor].
Qed.

(** The run is none of the exceptions: its strings are terminated, its object
    file is well formed, its batches fit. *)
Lemma main_safe_witness :
  exists res, main 32 (fun _ => true) reads_initialised no_error [] (fun _ => true) 0 4096 demo_machine demo_world0 =
    Done res.
Proof.
  destruct (main_safe 32 (fun _ => true) reads_initialised no_error [] (fun _ => true) 0 4096 demo_machine
    demo_world0 demo_machine_ok) as [H|[H|[H|[(ifname & path & _ & H)|_]]]].
  - exact H.
  - exfalso. vm_compute in H. discriminate H.
  - exfalso. vm_compute in H. discriminate H.
  - exfalso. vm_compute in H. discriminate H.
  - eexists. vm_compute. reflexivity.
Defined.
