(* ===== verification/Resources.v ===== *)
(** Resources: the memory and the streams the program allocates and releases.

    The component files take the success of an allocation as an argument and
    say nothing of who frees what.  Here the calls of [malloc], [calloc],
    [free], [fopen] and [fclose] are made on a heap: the set of live blocks, the
    set of open streams and the answers the allocator will give.  Releasing
    what is not held (a double [free], a second [fclose]) is [Undefined].  The
    functions are those of src/flow_tracker.c, src/anomaly.c, src/tcp_client.c
    and src/bpf_loader.c that allocate or release; each is shown to compute
    what its model in the component file computes and to change the heap by
    exactly what it returns. *)

From stdpp Require Import base list gmap strings numbers option.
From S2P Require Import Prelude CLib Common FlowTracker Anomaly Kernel TcpClient Elf BpfLoader.

(** ** The heap *)

(** A pointer is an address; 0 is NULL.  An answer says whether an allocation
    succeeds; when there are none left, memory is exhausted. *)
Record heap : Type := mk_heap {
  h_blocks : gset Z;
  h_streams : gset Z;
  h_answers : list bool
}.

Definition HM (A : Type) : Type := heap -> exec (A * heap).

#[global] Instance HM_ret : MRet HM := fun A a h => Done (a, h).
#[global] Instance HM_bind : MBind HM := fun A B f m h =>
  match m h with Done (a, h') => f a h' | Undefined => Undefined end.

(** An operation that uses no heap. *)
Definition pure_exec {A} (m : exec A) : HM A := fun h =>
  match m with Done a => Done (a, h) | Undefined => Undefined end.

(** An address that is not NULL and not in use. *)
Definition new_addr (used : gset Z) : Z := free_fd ({[0]} ∪ used).

(** The answer to the allocation number [i] from now. *)
Definition grants (h : heap) (i : nat) : bool := default false (h_answers h !! i).

Definition malloc : HM Z := fun h =>
  let p := new_addr (h_blocks h) in
  if grants h 0
  then Done (p, mk_heap ({[p]} ∪ h_blocks h) (h_streams h) (tail (h_answers h)))
  else Done (0, mk_heap (h_blocks h) (h_streams h) (tail (h_answers h))).

Definition free (p : Z) : HM unit := fun h =>
  if p =? 0 then Done (tt, h)
  else if bool_decide (p ∈ h_blocks h)
  then Done (tt, mk_heap (h_blocks h ∖ {[p]}) (h_streams h) (h_answers h))
  else Undefined.

(** [fopen] of a file that exists or not. *)
Definition fopen (file : option bytes) : HM (option (Z * stream)) := fun h =>
  match file with
  | None => Done (None, h)
  | Some data =>
      let f := new_addr (h_streams h) in
      Done (Some (f, mk_stream data 0), mk_heap (h_blocks h) ({[f]} ∪ h_streams h) (h_answers h))
  end.

Definition fclose (f : Z) : HM unit := fun h =>
  if bool_decide (f ∈ h_streams h)
  then Done (tt, mk_heap (h_blocks h) (h_streams h ∖ {[f]}) (h_answers h))
  else Undefined.

(** ** The components *)

(** A tracker in memory: its block, those of its arrays, its contents. *)
Record tracker_mem : Type := mk_tracker_mem {
  tm_self : Z;
  tm_records : Z;
  tm_events : Z;
  tm_value : flow_tracker
}.

Definition tracker_alloc (max_flows : Z) : HM (option tracker_mem) :=
  ft ← malloc;
  if ft =? 0 then mret None else
  records ← malloc;
  events ← malloc;
  if (records =? 0) || (events =? 0) then
    _ ← free records;
    _ ← free events;
    _ ← free ft;
    mret None
  else
    mret (Some (mk_tracker_mem ft records events
      (mk_ft (replicate (Z.to_nat max_flows) zero_record) max_flows
         (replicate (Z.to_nat (max_flows * 2)) zero_event) 0 (max_flows * 2) 0))).

Definition flow_tracker_destroy (self records events : Z) : HM unit :=
  if self =? 0 then mret tt else
  _ ← free records;
  _ ← free events;
  free self.

Definition detector_alloc : HM (option (Z * anomaly_detector)) :=
  ad ← malloc;
  if ad =? 0 then mret None
  else mret (Some (ad, mk_ad (replicate 1024 zero_src) (replicate 2048 zero_bw) 0 0 100000000 20 0 0 0)).

Definition anomaly_detector_destroy (ad : Z) : HM unit := free ad.

(** [tcp_client_init]: nothing is allocated for a port that is not one. *)
Definition client_alloc (server_ip : bytes) (server_port : Z) (auto_reconnect : bool)
  : HM (option (Z * tcp_client)) :=
  if (server_port <=? 0) || (65535 <? server_port) then mret None else
  client ← malloc;
  if client =? 0 then mret None else
  mret ((client,.) <$> tcp_client_init true server_ip server_port auto_reconnect).

Section elf.
Context (LONG : Z).

(** The section that was found: its block when it is loaded.  The stream [fp]
    is closed on every path. *)
Definition section_load (fp sh_offset sh_size : Z) (f : stream) : HM (outcome * Z) :=
  insns ← malloc;
  if insns =? 0 then (_ ← fclose fp; mret (Fail, 0)) else
  let f := seek_set LONG sh_offset f in
  let '(got, f) := fread (Z.to_nat (to_size LONG sh_size)) f in
  if negb (zlen got =? sh_size) then (_ ← free insns; _ ← fclose fp; mret (Fail, 0)) else
  _ ← pure_exec (mapM (rd got) [0; 1; 2; 3; 4; 5; 6; 7]);
  _ ← fclose fp;
  mret (Program got (s32 (sh_size / 8)), insns).

Fixpoint sections_load (n : nat) (fp e_shoff e_shentsize : Z) (e_shstrndx : option Z) (i : Z) (f : stream)
  : HM (outcome * Z) :=
  match n with
  | O => _ ← fclose fp; mret (Fail, 0)
  | S n =>
      '(found, f) ← pure_exec (section_found LONG e_shoff e_shentsize e_shstrndx i f);
      match found with
      | None => sections_load n fp e_shoff e_shentsize e_shstrndx (i + 1) f
      | Some (sh_offset, sh_size) => section_load fp sh_offset sh_size f
      end
  end.

(** [parse_bpf_elf]: the instructions, their number and their block. *)
Definition elf_load (file : option bytes) : HM (option (bytes * Z * Z)) :=
  r ← fopen file;
  match r with
  | None => mret None
  | Some (fp, f) =>
      let '(e_ident, f) := fread 16 f in
      if negb (Nat.eqb (length e_ident) 16) then (_ ← fclose fp; mret None)
      else if negb (elf_magic e_ident) then (_ ← fclose fp; mret None)
      else
        let '(e_shoff, e_shentsize, e_shnum, e_shstrndx, f) := parse_header f in
        n ← pure_exec (use e_shnum);
        '(r, insns) ← (if n =? 0 then (_ ← fclose fp; mret (Fail, 0)) else
             shoff ← pure_exec (use e_shoff);
             entsize ← pure_exec (use e_shentsize);
             sections_load (Z.to_nat n) fp shoff entsize e_shstrndx 0 f);
        mret (match r with Program bs cnt => Some (bs, cnt, insns) | _ => None end)
  end.
End elf.

(** ** Steps of the heap *)

Lemma HM_step {A B} (m : HM A) (f : A -> HM B) h a h' : m h = Done (a, h') -> (m ≫= f) h = f a h'.
Proof. intros E. unfold mbind, HM_bind. by rewrite E. Qed.

Lemma HM_stuck {A B} (m : HM A) (f : A -> HM B) h : m h = Undefined -> (m ≫= f) h = Undefined.
Proof. intros E. unfold mbind, HM_bind. by rewrite E. Qed.

Lemma pure_done {A B} (x : A) (f : A -> HM B) h : (pure_exec (Done x) ≫= f) h = f x h.
Proof. done. Qed.

Lemma pure_undefined {A B} (f : A -> HM B) h : (pure_exec Undefined ≫= f) h = Undefined.
Proof. done. Qed.

Lemma new_addr_spec used : new_addr used <> 0 /\ new_addr used ∉ used.
Proof. pose proof (free_fd_fresh ({[0]} ∪ used)). unfold new_addr. set_solver. Qed.

(** The heap in which the program holds the blocks [l], beside blocks [F] and
    with streams [T] that are none of its business. *)
Definition holding (l : list Z) (F T : gset Z) (answers : list bool) : heap :=
  mk_heap (list_to_set l ∪ F) T answers.

(** They are blocks, different from each other and from the others. *)
Definition distinct (l : list Z) (F : gset Z) : Prop :=
  NoDup l /\ Forall (fun p => p <> 0 /\ p ∉ F) l.

Lemma holding_perm l l' F T a : l ≡ₚ l' -> holding l F T a = holding l' F T a.
Proof. intros H. unfold holding. by rewrite (list_to_set_perm_L _ _ H). Qed.

Lemma distinct_perm l l' F : l ≡ₚ l' -> distinct l F -> distinct l' F.
Proof. intros H [H1 H2]. split; by rewrite <- H. Qed.

Lemma distinct_tail p l F : distinct (p :: l) F -> distinct l F.
Proof. intros [H1 H2]. split; [by eapply NoDup_cons_1_2|by inversion H2]. Qed.

Lemma holding_size l F T a :
  distinct l F -> Z.of_nat (size (h_blocks (holding l F T a))) = Z.of_nat (length l) + Z.of_nat (size F).
Proof.
  intros [H1 H2]. simpl. rewrite size_union, size_list_to_set by
    (done || (intros p [i Hi]%elem_of_list_to_set%list_elem_of_lookup Hq; by destruct (Forall_lookup_1 _ _ _ _ H2 Hi))).
  lia.
Qed.

Lemma holding_malloc l F T a :
  distinct l F -> default false (head a) = true ->
  exists p, malloc (holding l F T a) = Done (p, holding (p :: l) F T (tail a)) /\ distinct (p :: l) F.
Proof.
  intros [H1 H2] Ha. exists (new_addr (list_to_set l ∪ F)).
  pose proof (new_addr_spec (list_to_set l ∪ F)) as [Hn Hnew]. split.
  - unfold malloc, grants. simpl. destruct a as [|b a]; [done|]. simpl in *. rewrite Ha.
    unfold holding. simpl. by rewrite (assoc_L (∪)).
  - split; [constructor; [set_solver|done]|]. constructor; [split; [done|set_solver]|done].
Qed.

Lemma holding_refused l F T a :
  default false (head a) = false -> malloc (holding l F T a) = Done (0, holding l F T (tail a)).
Proof. intros Ha. unfold malloc, grants. destruct a as [|b a]; simpl in *; [done|by rewrite Ha]. Qed.

Lemma holding_free p l F T a :
  distinct (p :: l) F -> free p (holding (p :: l) F T a) = Done (tt, holding l F T a).
Proof.
  intros [H1 H2]. inversion H2 as [|? ? [H0 HF] _]; subst. pose proof (NoDup_cons_1_1 _ _ H1) as Hp.
  unfold free, holding. simpl. rewrite (proj2 (Z.eqb_neq p 0)) by done. rewrite bool_decide_true by set_solver.
  do 3 f_equal. set_solver.
Qed.

Lemma free_null h : free 0 h = Done (tt, h).
Proof. done. Qed.

(** Any of the blocks can be freed. *)
Lemma holding_free_in p l l' F T a :
  distinct l F -> l ≡ₚ p :: l' -> free p (holding l F T a) = Done (tt, holding l' F T a).
Proof. intros Hd Hp. rewrite (holding_perm _ _ _ _ _ Hp). apply holding_free. by eapply distinct_perm. Qed.

Lemma distinct_nonzero p l F : distinct (p :: l) F -> (p =? 0) = false.
Proof. intros [_ H]. inversion H as [|? ? [? _] _]; subst. by apply Z.eqb_neq. Qed.

Lemma fclose_open f B T a : f ∉ T -> fclose f (mk_heap B ({[f]} ∪ T) a) = Done (tt, mk_heap B T a).
Proof.
  intros Hf. unfold fclose. simpl. rewrite bool_decide_true by set_solver. do 3 f_equal. set_solver.
Qed.

(** ** What the components hold *)

Definition blocks_of (t : tracker_mem) : list Z := [tm_events t; tm_records t; tm_self t].

Lemma head_lookup (a : list bool) : head a = a !! 0%nat.
Proof. by destruct a. Qed.

(** [hstep]: the next operation of the goal's computation takes the step [E]. *)
Tactic Notation "hstep" uconstr(E) := erewrite HM_step by (simple eapply E).

(** The tracker: three blocks or nothing. *)
Lemma tracker_alloc_spec n F T a :
  match flow_tracker_create (default false (a !! 0%nat)) (default false (a !! 1%nat)) (default false (a !! 2%nat)) n with
  | None => exists a', tracker_alloc n (holding [] F T a) = Done (None, holding [] F T a')
  | Some ft =>
      exists t, tracker_alloc n (holding [] F T a) = Done (Some t, holding (blocks_of t) F T (drop 3 a)) /\
        distinct (blocks_of t) F /\ tm_value t = ft
  end.
Proof.
  assert (Hd : distinct [] F) by (split; constructor).
  unfold tracker_alloc, flow_tracker_create. rewrite <- head_lookup.
  destruct (default false (head a)) eqn:E0; simpl.
  2:{ exists (tail a). by hstep (holding_refused [] F T a E0). }
  destruct (holding_malloc [] F T a Hd E0) as (p & Ep & Hp). hstep Ep.
  rewrite (distinct_nonzero _ _ _ Hp).
  replace (a !! 1%nat) with (head (tail a)) by (by destruct a as [|? []]).
  replace (a !! 2%nat) with (head (tail (tail a))) by (by destruct a as [|? [|? []]]).
  replace (drop 3 a) with (tail (tail (tail a))) by (by destruct a as [|? [|? []]]).
  destruct (default false (head (tail a))) eqn:E1; simpl.
  - destruct (holding_malloc _ F T _ Hp E1) as (q & Eq & Hq). hstep Eq.
    destruct (default false (head (tail (tail a)))) eqn:E2; simpl.
    + destruct (holding_malloc _ F T _ Hq E2) as (r & Er & Hr). hstep Er.
      rewrite (distinct_nonzero _ _ _ Hq), (distinct_nonzero _ _ _ Hr). simpl.
      by exists (mk_tracker_mem p q r (mk_ft (replicate (Z.to_nat n) zero_record) n
        (replicate (Z.to_nat (n * 2)) zero_event) 0 (n * 2) 0)).
    + hstep (holding_refused _ F T _ E2). rewrite orb_true_r.
      hstep (holding_free _ _ F T _ Hq). hstep (free_null _).
      hstep (holding_free _ _ F T _ Hp). by eexists.
  - hstep (holding_refused _ F T _ E1).
    destruct (default false (head (tail (tail a)))) eqn:E2.
    + destruct (holding_malloc _ F T _ Hp E2) as (r & Er & Hr). hstep Er. simpl.
      hstep (free_null _). hstep (holding_free _ _ F T _ Hr).
      hstep (holding_free _ _ F T _ Hp). by eexists.
    + hstep (holding_refused _ F T _ E2). simpl.
      do 2 hstep (free_null _). hstep (holding_free _ _ F T _ Hp). by eexists.
Qed.

Lemma flow_tracker_destroy_spec t l l' F T a :
  distinct l F -> l ≡ₚ blocks_of t ++ l' ->
  flow_tracker_destroy (tm_self t) (tm_records t) (tm_events t) (holding l F T a) = Done (tt, holding l' F T a).
Proof.
  intros Hd Hp. apply (distinct_perm _ _ _ Hp) in Hd as Hd'. rewrite (holding_perm _ _ _ _ _ Hp).
  unfold flow_tracker_destroy, blocks_of in *. simpl in *.
  assert (Hs : distinct (tm_self t :: l') F) by (by do 2 apply distinct_tail in Hd').
  rewrite (distinct_nonzero _ _ _ Hs).
  hstep (holding_free_in _ _ (tm_events t :: tm_self t :: l') F T a Hd' (perm_swap _ _ _)).
  assert (He : distinct (tm_events t :: tm_self t :: l') F)
    by (eapply distinct_tail, distinct_perm, Hd'; apply perm_swap).
  hstep (holding_free _ _ F T a He). by apply holding_free.
Qed.

Section beside.
Context (l : list Z) (F T : gset Z) (a : list bool) (Hd : distinct l F).

(** A result that is one new block beside those held. *)
Definition one_block {A} (m : HM (option A)) (block : A -> Z) (spec : option A -> Prop) : Prop :=
  match m (holding l F T a) with
  | Done (None, h) => spec None /\ exists a', h = holding l F T a'
  | Done (Some x, h) => spec (Some x) /\ h = holding (block x :: l) F T (tail a) /\ distinct (block x :: l) F
  | Undefined => False
  end.

Lemma detector_alloc_spec :
  one_block detector_alloc fst (fun r => snd <$> r = anomaly_detector_create (default false (head a))).
Proof.
  unfold one_block, detector_alloc. destruct (default false (head a)) eqn:E.
  - destruct (holding_malloc l F T a Hd E) as (p & Ep & Hp). hstep Ep. by rewrite (distinct_nonzero _ _ _ Hp).
  - hstep (holding_refused l F T a E). simpl. split; [done|by eexists].
Qed.

Lemma client_alloc_spec ip port auto :
  one_block (client_alloc ip port auto) fst
    (fun r => snd <$> r = tcp_client_init (default false (head a)) ip port auto).
Proof.
  unfold one_block, client_alloc, tcp_client_init.
  destruct ((port <=? 0) || (65535 <? port)); [simpl; split; [done|by eexists]|].
  destruct (default false (head a)) eqn:E.
  - destruct (holding_malloc l F T a Hd E) as (p & Ep & Hp). hstep Ep. by rewrite (distinct_nonzero _ _ _ Hp).
  - hstep (holding_refused l F T a E). simpl. split; [done|by eexists].
Qed.
End beside.

(** ** The object file *)

Section elf_memory.
Context (LONG : Z) (l : list Z) (F T : gset Z) (a : list bool) (Hd : distinct l F).
Let ok := default false (head a).

(** The stream is closed; the instructions, if any, are one new block. *)
Definition loaded (r : outcome) (m : exec (outcome * Z * heap)) : Prop :=
  match r with
  | Program _ _ => exists p, m = Done (r, p, holding (p :: l) F T (tail a)) /\ distinct (p :: l) F
  | _ => exists p a', m = Done (r, p, holding l F T a')
  end.

Lemma section_load_spec fp off size f :
  fp ∉ T ->
  match load_section LONG (fun _ => ok) off size f with
  | Undefined => section_load LONG fp off size f (holding l F ({[fp]} ∪ T) a) = Undefined
  | Done (r, _) => r <> Next /\ loaded r (section_load LONG fp off size f (holding l F ({[fp]} ∪ T) a))
  end.
Proof.
  intros Hfp. unfold load_section, section_load. subst ok. destruct (default false (head a)) eqn:E; cbn [negb].
  2:{ split; [done|]. hstep (holding_refused l F ({[fp]} ∪ T) a E). simpl. unfold holding.
      hstep (fclose_open fp _ T _ Hfp). by eexists _, _. }
  destruct (holding_malloc l F ({[fp]} ∪ T) a Hd E) as (p & Ep & Hp). hstep Ep.
  rewrite (distinct_nonzero _ _ _ Hp). destruct (fread _ _) as [got f'].
  destruct (zlen got =? size); cbn [negb].
  - destruct (mapM (rd got) _) as [v|] eqn:Em.
    + rewrite bind_Done. split; [done|]. rewrite pure_done. unfold holding.
      hstep (fclose_open fp _ T _ Hfp). by eexists.
    + apply pure_undefined.
  - split; [done|]. hstep (holding_free p l F _ _ Hp). unfold holding.
    hstep (fclose_open fp _ T _ Hfp). by eexists _, _.
Qed.

Lemma sections_load_spec fp n off entsize strndx i f :
  fp ∉ T ->
  match parse_sections LONG (fun _ => ok) n off entsize strndx i f with
  | Undefined => sections_load LONG n fp off entsize strndx i f (holding l F ({[fp]} ∪ T) a) = Undefined
  | Done r => loaded r (sections_load LONG n fp off entsize strndx i f (holding l F ({[fp]} ∪ T) a))
  end.
Proof.
  intros Hfp. revert i f. induction n as [|n IH]; intros i f.
  { simpl. unfold holding. hstep (fclose_open fp _ T _ Hfp). by eexists _, _. }
  cbn [parse_sections sections_load]. unfold parse_section.
  destruct (section_found LONG off entsize strndx i f) as [[[[o s]|] f']|]; [..|done].
  - rewrite bind_Done. rewrite pure_done. cbv beta iota.
    pose proof (section_load_spec fp o s f' Hfp) as H. destruct (load_section _ _ _ _ _) as [[r f1]|]; [|done].
    destruct H as [Hr H]. rewrite bind_Done. by destruct r.
  - rewrite !bind_Done. rewrite pure_done. apply IH.
Qed.

(** [parse_bpf_elf] on the heap: the same result, the stream closed and one
    block more exactly when there are instructions. *)
Lemma elf_load_spec file :
  match parse_bpf_elf LONG (fun _ => ok) file with
  | Undefined => elf_load LONG file (holding l F T a) = Undefined
  | Done None => exists a', elf_load LONG file (holding l F T a) = Done (None, holding l F T a')
  | Done (Some (bs, cnt)) =>
      exists p, elf_load LONG file (holding l F T a) = Done (Some (bs, cnt, p), holding (p :: l) F T (tail a)) /\
        distinct (p :: l) F
  end.
Proof.
  destruct file as [d|]; [|by eexists]. unfold parse_bpf_elf, elf_load.
  set (fp := new_addr T). assert (Hfp : fp ∉ T) by apply new_addr_spec.
  hstep (eq_refl : fopen (Some d) (holding l F T a) = Done (Some (fp, mk_stream d 0), holding l F ({[fp]} ∪ T) a)).
  cbv beta iota. destruct (fread 16 (mk_stream d 0)) as [e_ident f].
  destruct (Nat.eqb _ 16); cbn [negb]; [|unfold holding; hstep (fclose_open fp _ T _ Hfp); by eexists].
  destruct (elf_magic e_ident); cbn [negb]; [|unfold holding; hstep (fclose_open fp _ T _ Hfp); by eexists].
  destruct (parse_header f) as [[[[off ent] num] str] f1].
  destruct num as [n|]; [|done]. cbn [use]. rewrite bind_Done, pure_done.
  destruct (n =? 0).
  { rewrite bind_Done. erewrite HM_step; [|unfold holding; by hstep (fclose_open fp _ T _ Hfp)]. by eexists. }
  destruct off as [off|]; [|done]. destruct ent as [ent|]; [|done]. cbn [use]. rewrite !bind_Done.
  pose proof (sections_load_spec fp (Z.to_nat n) off ent str 0 f1 Hfp) as H.
  destruct (parse_sections _ _ _ _ _ _ _) as [r|].
  2:{ apply HM_stuck. by rewrite !pure_done. }
  rewrite bind_Done. destruct r as [| |bs cnt]; simpl in H.
  - destruct H as (p & a' & H). erewrite HM_step by (rewrite !pure_done; exact H). by eexists.
  - destruct H as (p & a' & H). erewrite HM_step by (rewrite !pure_done; exact H). by eexists.
  - destruct H as (p & H & Hp). erewrite HM_step by (rewrite !pure_done; exact H). by eexists.
Qed.
End elf_memory.
