(* ===== verification/Signals.v ===== *)
(** Signals: the handlers of src/main.c and the loops that test [g_stop].

    A signal may arrive at any time; it acts on the program only through
    [g_stop], which [main] reads before every round and before every
    [recvfrom].  A run is given, for every round, the signals that arrive
    before each of these tests.  The loop with signals is shown to be the loop
    of [Main] on the rounds of [before_stop], a specification in terms of the
    signals alone: all the rounds before whose test no SIGINT or SIGTERM has
    come, the last one cut to the frames received before the signal if it came
    while the round received; that round is finished, its events are sent. *)

From stdpp Require Import base list gmap strings numbers option.
From S2P Require Import Prelude CLib Common FlowTracker PacketParser Anomaly Serializer ProcNet.
From S2P Require Import HostMetrics Kernel TcpClient BpfLoader Main.

(** ** Handlers *)

Inductive signal : Type := SIGINT | SIGTERM | SIGPIPE | SIGBUS.

(** On the value of [g_stop]. *)
Definition sig_handler (g_stop : Z) : Z := 1.
Definition sigbus_handler (g_stop : Z) : Z := g_stop.

(** What the calls of [signal] have installed; SIG_IGN does nothing. *)
Definition deliver (g_stop : Z) (sig : signal) : Z :=
  match sig with
  | SIGINT => sig_handler g_stop
  | SIGTERM => sig_handler g_stop
  | SIGPIPE => g_stop
  | SIGBUS => sigbus_handler g_stop
  end.

(** The signals of a round: those that come before the test of the loop, and
    those that come before each of the tests of its receive loop.  What comes
    after the last test the round makes acts at the next test of the loop. *)
Record round_sigs : Type := mk_sigs { sg_loop : list signal; sg_receive : list (list signal) }.

Definition no_sigs : round_sigs := mk_sigs [] [].

(** The signals of the next round, none when no more are given. *)
Definition next_sigs (sigs : list round_sigs) : round_sigs := default no_sigs (head sigs).

(** [g_stop] once the signals [sigs] have been handled. *)
Definition handle (g_stop : Z) (sigs : list signal) : Z := foldl deliver g_stop sigs.

(** ** The loops *)

(** [while (!g_stop && pkt_this_round < 1000)]; [pending] are the signals
    before the tests to come.  It returns them with [g_stop]. *)
Fixpoint receive_signals (probe_id : bytes) (arrivals : list arrival) (pkt_this_round : Z) (st : capture)
    (g_stop : Z) (pending : list (list signal)) : exec (Z * capture * (Z * list (list signal))) :=
  let g_stop := handle g_stop (default [] (head pending)) in
  let pending := tail pending in
  if (g_stop =? 0) && (pkt_this_round <? 1000) then
    match arrivals with
    | [] => Done (pkt_this_round, st, (g_stop, pending))
    | a :: arrivals =>
        if a_len a <=? 0 then Done (pkt_this_round, st, (g_stop, pending)) else
        '(ok, st, _) ← handle_packet probe_id a st;
        receive_signals probe_id arrivals (if ok : bool then pkt_this_round + 1 else pkt_this_round) st
          g_stop pending
    end
  else Done (pkt_this_round, st, (g_stop, pending)).

Section rounds.
Context (pton : bytes -> bool) (fuel : nat) (page_size : Z) (bpf_status : bpf_loader_status)
  (use_bpf : bool) (probe_id : bytes).

Definition capture_signals (inp : round_input) (ls : loop_state) (g_stop : Z) (pending : list (list signal))
  : exec (option loop_state * (Z * list (list signal))) :=
  if use_bpf then
    res ← perf_stage fuel page_size bpf_status probe_id inp ls;
    match res with
    | None => Done (None, (g_stop, pending))
    | Some (ls, n) =>
        '(m, c, g) ← receive_signals probe_id (ri_arrivals inp) n (ls_capture ls) g_stop pending;
        Done (Some (set_capture c (m - n) ls), g)
    end
  else Done (Some ls, (g_stop, pending)).

(** A round, and [g_stop] once everything that came during it is handled. *)
Definition round_signals (inp : round_input) (s : loop_state * (tcp_client * world)) (g_stop : Z)
    (pending : list (list signal)) : exec (option (loop_state * (tcp_client * world)) * Z) :=
  '(res, (g_stop, pending)) ← capture_signals inp s.1 g_stop pending;
  match res with
  | None => Done (None, handle g_stop (concat pending))
  | Some ls => res ← after_capture pton probe_id inp ls s.2; Done (res, handle g_stop (concat pending))
  end.

(** [while (!g_stop)].  [None]: it has not ended after these rounds, or it
    waits. *)
Fixpoint rounds_signals (inps : list round_input) (s : loop_state * (tcp_client * world)) (g_stop : Z)
    (sigs : list round_sigs) : exec (option (loop_state * (tcp_client * world))) :=
  let g_stop := handle g_stop (sg_loop (next_sigs sigs)) in
  if g_stop =? 0 then
    match inps with
    | [] => Done None
    | inp :: inps =>
        '(res, g_stop) ← round_signals inp s g_stop (sg_receive (next_sigs sigs));
        match res with
        | None => Done None
        | Some s => rounds_signals inps s g_stop (tail sigs)
        end
    end
  else Done (Some s).
End rounds.

(** ** The rounds that run *)

(** A signal that stops the probe is among them. *)
Definition stops (sigs : list signal) : bool :=
  existsb (fun s => match s with SIGINT | SIGTERM => true | _ => false end) sigs.

(** How many tests of the receive loop come before the first signal that
    stops it. *)
Fixpoint tests_passed (pending : list (list signal)) : nat :=
  match pending with
  | [] => 0
  | sigs :: pending' => if stops sigs then 0 else S (tests_passed pending')
  end.

Definition cut_arrivals (m : nat) (inp : round_input) : round_input :=
  mk_round (take m (ri_arrivals inp)) (ri_perf_buf inp) (ri_perf_clock inp) (ri_files inp)
    (ri_poll inp) (ri_poll_find inp) (ri_now inp) (ri_host inp) (ri_cleanup inp).

(** The rounds of a run: those before whose test no such signal has come; the
    one during which it comes receives no frame after it, and is the last. *)
Fixpoint before_stop (inps : list round_input) (sigs : list round_sigs) : list round_input :=
  match inps with
  | [] => []
  | inp :: inps' =>
      let sg := next_sigs sigs in
      if stops (sg_loop sg) then []
      else if stops (concat (sg_receive sg)) then [cut_arrivals (tests_passed (sg_receive sg)) inp]
      else inp :: before_stop inps' (tail sigs)
  end.

(** Such a signal comes during these rounds, or before the test after them. *)
Fixpoint stopped (inps : list round_input) (sigs : list round_sigs) : bool :=
  let sg := next_sigs sigs in
  stops (sg_loop sg) ||
  match inps with
  | [] => false
  | _ :: inps' => stops (concat (sg_receive sg)) || stopped inps' (tail sigs)
  end.

Lemma handle_stops g sigs : (handle g sigs =? 0) = (g =? 0) && negb (stops sigs).
Proof.
  unfold handle. revert g. induction sigs as [|s sigs IH]; intros g; simpl; [by rewrite andb_true_r|].
  rewrite IH. by destruct s; simpl; rewrite ?andb_false_r.
Qed.

(** When nothing stops the probe, [g_stop] stays 0. *)
Lemma handle_zero sigs : stops sigs = false -> handle 0 sigs = 0.
Proof. intros H. apply Z.eqb_eq. by rewrite handle_stops, H. Qed.

Lemma stops_app l k : stops (l ++ k) = stops l || stops k.
Proof. apply existsb_app. Qed.

(** The receive loop runs on the frames before the signal; what was pending
    and not consumed is handled after it. *)
Lemma receive_signals_spec probe_id arrivals n st pending :
  exists g pending',
    receive_signals probe_id arrivals n st 0 pending =
      (r ← receive_loop probe_id (if stops (concat pending) then take (tests_passed pending) arrivals else arrivals)
             n st;
       Done (r.1.1, r.1.2, (g, pending'))) /\
    (handle g (concat pending') =? 0) = negb (stops (concat pending)).
Proof.
  revert n st pending. induction arrivals as [|a arrivals IH]; intros n st pending; cbn [receive_signals].
  - exists (handle 0 (default [] (head pending))), (tail pending). split.
    + rewrite take_nil. replace (if stops (concat pending) then [] else []) with (@nil arrival) by by case_match.
      simpl. by destruct (handle _ _ =? 0), (n <? 1000).
    + destruct pending as [|sigs pending]; [done|]. simpl. rewrite handle_stops, handle_stops, stops_app.
      by rewrite negb_orb.
  - destruct pending as [|sigs pending]; cbn [concat tests_passed].
    { change (handle 0 (default [] (head (@nil (list signal))))) with 0. change (0 =? 0) with true.
      cbn [andb]. destruct (n <? 1000) eqn:En.
      2:{ exists 0, []. simpl. rewrite En. done. }
      destruct (a_len a <=? 0) eqn:Ea; [exists 0, []; simpl; rewrite En, Ea; done|].
      destruct (handle_packet probe_id a st) as [[[ok st1] fl]|] eqn:Eh.
      2:{ exists 0, []. simpl. rewrite En, Ea, Eh. done. }
      rewrite bind_Done. destruct (IH (if ok then n + 1 else n) st1 []) as (g & p & E & H).
      exists g, p. simpl in *. rewrite En, Ea, Eh, bind_Done. by rewrite E. }
    change (default [] (head (sigs :: pending))) with sigs. change (tail (sigs :: pending)) with pending.
    rewrite handle_stops, stops_app. change (0 =? 0) with true.
    destruct (stops sigs) eqn:Es; rewrite ?Es; cbn [negb andb orb].
    { exists (handle 0 sigs), pending. split; [simpl; rewrite ?Es; by destruct (n <? 1000)|].
      by rewrite handle_stops, handle_stops, Es. }
    rewrite handle_zero by done.
    destruct (n <? 1000) eqn:En.
    2:{ exists 0, pending. split; [|by rewrite handle_stops].
        destruct (stops (concat pending)); simpl; rewrite En; done. }
    destruct (a_len a <=? 0) eqn:Ea.
    { exists 0, pending. split; [|by rewrite handle_stops].
      destruct (stops (concat pending)); simpl; rewrite En, Ea; done. }
    destruct (handle_packet probe_id a st) as [[[ok st1] fl]|] eqn:Eh.
    2:{ exists 0, pending. split; [|by rewrite handle_stops].
        destruct (stops (concat pending)); simpl; rewrite En, Ea, Eh; done. }
    rewrite bind_Done. destruct (IH (if ok then n + 1 else n) st1 pending) as (g & p & E & H).
    exists g, p. split; [|done]. rewrite E.
    destruct (stops (concat pending)); cbn [take receive_loop]; by rewrite En, Ea, Eh, bind_Done.
Qed.

Section ends.
Context (pton : bytes -> bool) (fuel : nat) (page_size : Z) (bpf_status : bpf_loader_status)
  (use_bpf : bool) (probe_id : bytes).

(** The round with the signals [pending]. *)
Definition round_before (inp : round_input) (pending : list (list signal)) : round_input :=
  if stops (concat pending) then cut_arrivals (tests_passed pending) inp else inp.

Lemma round_signals_spec inp s pending :
  exists g, (g =? 0) = negb (stops (concat pending)) /\
    round_signals pton fuel page_size bpf_status use_bpf probe_id inp s 0 pending =
      (r ← round pton fuel page_size bpf_status use_bpf probe_id (round_before inp pending) s; Done (r, g)).
Proof.
  assert (Ha : ri_arrivals (round_before inp pending) =
    if stops (concat pending) then take (tests_passed pending) (ri_arrivals inp) else ri_arrivals inp)
    by (unfold round_before; by case_match).
  assert (Hc : after_capture pton probe_id (round_before inp pending) = after_capture pton probe_id inp)
    by (unfold round_before; by case_match).
  assert (Hp : perf_stage fuel page_size bpf_status probe_id (round_before inp pending) =
    perf_stage fuel page_size bpf_status probe_id inp) by (unfold round_before; by case_match).
  unfold round_signals, round, capture_signals, capture_stage. rewrite Hp, Ha. clear Hp Ha.
  destruct use_bpf.
  2:{ exists (handle 0 (concat pending)). split; [by rewrite handle_stops|]. rewrite !bind_Done. cbv beta iota.
      rewrite Hc. by destruct (after_capture _ _ _ _ _). }
  destruct (perf_stage fuel page_size bpf_status probe_id inp s.1) as [[[ls n]|]|].
  - destruct (receive_signals_spec probe_id (ri_arrivals inp) n (ls_capture ls) pending) as (g & p & E & Hg).
    exists (handle g (concat p)). split; [done|]. rewrite !bind_Done. cbv beta iota. rewrite E.
    destruct (receive_loop _ _ _ _) as [[[n' c] l]|]; [|done]. rewrite !bind_Done. cbv beta iota.
    cbn [fst snd]. rewrite Hc. by destruct (after_capture _ _ _ _ _).
  - exists (handle 0 (concat pending)). split; [by rewrite handle_stops|]. by rewrite !bind_Done.
  - exists (handle 0 (concat pending)). split; [by rewrite handle_stops|]. done.
Qed.

(** A loop entered with [g_stop] set does nothing. *)
Lemma rounds_signals_set inps s g sigs :
  (g =? 0) = false ->
  rounds_signals pton fuel page_size bpf_status use_bpf probe_id inps s g sigs = Done (Some s).
Proof. intros Hg. destruct inps; cbn [rounds_signals]; by rewrite handle_stops, Hg. Qed.

(** The loop with signals is the loop of [Main] on exactly the rounds of
    [before_stop]; it ends only if it is stopped. *)
Lemma rounds_signals_spec inps s sigs :
  rounds_signals pton fuel page_size bpf_status use_bpf probe_id inps s 0 sigs =
    (r ← rounds pton fuel page_size bpf_status use_bpf probe_id (before_stop inps sigs) s;
     Done (if stopped inps sigs then r else None)).
Proof.
  revert s sigs. induction inps as [|inp inps IH]; intros s sigs; cbn [rounds_signals before_stop stopped];
    rewrite handle_stops; destruct (stops (sg_loop (next_sigs sigs))) eqn:El; cbn [negb andb orb]; try done.
  change (0 =? 0) with true. cbn [andb]. rewrite handle_zero by done.
  destruct (round_signals_spec inp s (sg_receive (next_sigs sigs))) as (g & Hg & ->). unfold round_before.
  destruct (stops (concat (sg_receive (next_sigs sigs)))) eqn:Es; cbn [orb].
  - cbn [rounds]. destruct (round _ _ _ _ _ _ _ s) as [[s1|]|]; [|done..]. rewrite !bind_Done. cbv beta iota.
    by rewrite rounds_signals_set.
  - cbn [rounds]. destruct (round _ _ _ _ _ _ inp s) as [[s1|]|] eqn:Er; [|..|done].
    + rewrite !bind_Done. cbv beta iota. apply Z.eqb_eq in Hg as ->. apply IH.
    + rewrite !bind_Done. cbv beta iota. by case_match.
Qed.
End ends.

(** *** What [before_stop] says *)

(** No signal has stopped the probe before a round that runs; a round before
    the last is whole. *)
Lemma before_stop_prefix inps sigs i inp :
  before_stop inps sigs !! i = Some inp ->
  Forall (fun j => stops (sg_loop (default no_sigs (sigs !! j))) = false) (seq 0 (S i)) /\
  Forall (fun j => stops (concat (sg_receive (default no_sigs (sigs !! j)))) = false) (seq 0 i).
Proof.
  assert (Hn : forall sigs, next_sigs sigs = default no_sigs (sigs !! 0%nat)) by (by intros []).
  assert (Ht : forall j (sigs : list round_sigs), sigs !! S j = tail sigs !! j) by (by intros j []).
  revert inps sigs. induction i as [|i IH]; intros [|x inps] sigs; simpl before_stop; try done;
    rewrite Hn; destruct (stops (sg_loop _)) eqn:El; try done.
  - intros _. by repeat constructor.
  - destruct (stops (concat _)) eqn:Es; [done|]. intros H. simpl in H. apply IH in H as [H1 H2].
    change (seq 0 (S (S i))) with (0%nat :: seq 1 (S i)). change (seq 0 (S i)) with (0%nat :: seq 1 i).
    rewrite <- (fmap_S_seq 0 (S i)), <- (fmap_S_seq 0 i).
    split; (constructor; [done|]); apply Forall_fmap;
      [eapply Forall_impl; [|exact H1]|eapply Forall_impl; [|exact H2]]; intros j Hj; simpl; by rewrite Ht.
Qed.
