(* ===== verification/Process.v ===== *)
(** Process: [main] with its memory and its signals.

    [Program] gives [main] the success of its allocations and the rounds of its
    loop.  Here [main] runs on the heap of [Resources] and under the signals of
    [Signals]: who allocates frees, in the order of the code, and the loop ends
    when a test of [g_stop] fails.  The process is shown to be [main] of
    [Program] for the answers of the allocator and exactly the rounds before
    the signal, and to return all memory and streams when it returns 0. *)

From stdpp Require Import base list gmap strings numbers option.
From S2P Require Import Prelude CLib Common FlowTracker PacketParser Anomaly Serializer ProcNet.
From S2P Require Import HostMetrics RuntimeConfig Kernel TcpClient Elf BpfLoader Main Program.
From S2P Require Import Resources Signals.

(** Cutting rounds short keeps them within their bounds. *)
Lemma before_stop_fits inps sigs :
  Forall input_fits inps ->
  Forall input_fits (before_stop inps sigs) /\ frames_of (before_stop inps sigs) <= frames_of inps.
Proof.
  intros Hall. revert sigs. induction Hall as [|inp inps Hin Hall IH]; intros sigs; simpl; [by split|].
  pose proof (frames_of_nonneg inps). fold (frames_of inps). unfold arrivals_of in *.
  destruct (stops (sg_loop _)); [|destruct (stops (concat _))]; simpl.
  - split; [constructor|lia].
  - destruct Hin as [Ha ? ? ? ?]. split.
    + constructor; [|constructor]. constructor; [by apply Forall_take|done..].
    + unfold arrivals_of. simpl. rewrite length_take. lia.
  - destruct (IH (tail sigs)) as [Hf Hn]. split; [by constructor|].
    fold (frames_of (before_stop inps (tail sigs))). unfold arrivals_of. lia.
Qed.

Section process.
Context (LONG : Z) (verifier : bytes -> bool) (strerror : Z -> bytes) (log : bytes).
Context (pton : bytes -> bool) (fuel : nat) (page_size : Z).

(** [bpf_loader_init]: the instructions are freed once the program is loaded,
    if they came from the file. *)
Definition loader_start (obj : option bytes) (s : bpf_loader_status) (w : world)
  : HM (option (Z * (bpf_loader_status * world))) :=
  r ← elf_load LONG obj;
  let '(insns, block) :=
    match r with
    | Some (bs, insn_cnt, p) => (take (Z.to_nat (insn_cnt * 8)) bs, Some p)
    | None => (filter_bytes embedded_bpf_prog, None)
    end in
  match prog_load verifier insns (fresh_status, w) with
  | None => mret None
  | Some (prog_fd, st) =>
      _ ← match block with Some p => free p | None => mret tt end;
      mret (attach_program strerror log prog_fd st)
  end.

(** The end of [main]. *)
Definition process_end (t : tracker_mem) (tcp_block ad_block : Z) (use_bpf : bool)
    (bpf_status : bpf_loader_status) (st : tcp_client * world) : HM (option (Z * world)) :=
  match (if use_bpf
         then '(_, (_, w)) ← bpf_loader_cleanup (bpf_status, st.2); Some w
         else Some st.2) with
  | None => mret None
  | Some w =>
      _ ← anomaly_detector_destroy ad_block;
      _ ← flow_tracker_destroy (tm_self t) (tm_records t) (tm_events t);
      match tcp_client_cleanup pton (st.1, w) with
      | None => mret None
      | Some (_, (_, w)) => _ ← free tcp_block; mret (Some (0, w))
      end
  end.

Definition process_serve (mc : machine) (t : tracker_mem) (tcp_block ad_block : Z) (anomaly : anomaly_detector)
    (probe_id bpf_path : bytes) (sigs : list round_sigs) (tcp : tcp_client) (w1 : world) : HM (option (Z * world)) :=
  res ← loader_start (mc_file mc bpf_path) (mc_status mc) w1;
  match res with
  | None => mret None
  | Some (r, (bpf_status, w2)) =>
      let use_bpf := r =? 0 in
      res ← pure_exec (rounds_signals pton fuel page_size bpf_status use_bpf probe_id (mc_inputs mc)
              (start (tm_value t) anomaly (mc_entries mc) (mc_json mc), (tcp, w2)) 0 sigs);
      match res with
      | None => mret None
      | Some (_, st) => process_end t tcp_block ad_block use_bpf bpf_status st
      end
  end.

Definition process_run (mc : machine) (relay_ip : bytes) (relay_port : Z) (probe_id bpf_path : bytes)
    (sigs : list round_sigs) (w0 : world) : HM (option (Z * world)) :=
  tracker ← tracker_alloc MAX_FLOWS;
  match tracker with
  | None => mret (Some (1, w0))
  | Some t =>
      tcp ← client_alloc relay_ip relay_port true;
      match tcp with
      | None => mret (Some (1, w0))
      | Some (tcp_block, tcp) =>
          match tcp_client_connect pton (tcp, w0) with
          | None => mret None
          | Some (_, (tcp, w1)) =>
              anomaly ← detector_alloc;
              match anomaly with
              | None => mret (Some (1, w1))
              | Some (ad_block, anomaly) => process_serve mc t tcp_block ad_block anomaly probe_id bpf_path sigs tcp w1
              end
          end
      end
  end.

Definition process (mc : machine) (sigs : list round_sigs) (w0 : world) : HM (option (Z * world)) :=
  let cfg := config_load_from_env (mc_env mc) (mc_config mc) in
  match main_args (mc_argv mc) (mc_iface mc) with
  | Usage => mret (Some (0, w0))
  | Version => mret (Some (0, w0))
  | Run _ bpf_path =>
      relay_ip ← pure_exec (read_str (c_relay_server_ip cfg));
      probe_id ← pure_exec (read_str (c_probe_id cfg));
      process_run mc relay_ip (c_relay_server_port cfg) probe_id bpf_path sigs w0
  end.

(** ** The process and [main] *)

(** The machine whose allocations succeed as the heap grants them, and whose
    rounds are [inps]. *)
Definition granted (h : heap) (inps : list round_input) (mc : machine) : machine :=
  mk_machine (mc_env mc) (mc_iface mc) (mc_argv mc) (mc_file mc) (grants h 0, grants h 1, grants h 2)
    (grants h 3) (grants h 4) inps (mc_config mc) (mc_status mc) (mc_entries mc) (mc_json mc).

(** Blocks that are still allocated when [main] returns 1: those of the
    tracker, and that of the client. *)
Definition leaked (h : heap) (port : Z) : Z :=
  if negb (grants h 0 && grants h 1 && grants h 2) then 0
  else if (port <=? 0) || (65535 <? port) || negb (grants h 3) then 3
  else 4.

Lemma loader_start_spec l F T a obj s w :
  distinct l F ->
  match bpf_loader_init LONG (fun _ => default false (head a)) verifier strerror log obj with
  | Undefined => loader_start obj s w (holding l F T a) = Undefined
  | Done m =>
      match m (s, w) with
      | None => exists h, loader_start obj s w (holding l F T a) = Done (None, h)
      | Some r => exists a', loader_start obj s w (holding l F T a) = Done (Some r, holding l F T a')
      end
  end.
Proof.
  intros Hd. unfold bpf_loader_init, chosen_insns, loader_start.
  pose proof (elf_load_spec LONG l F T a Hd obj) as H.
  destruct (parse_bpf_elf _ _ obj) as [[[bs cnt]|]|]; [..|by apply HM_stuck].
  - destruct H as (p & E & Hp). rewrite !bind_Done. erewrite HM_step by exact E. cbv beta iota.
    unfold load_and_attach. rewrite KM_run. simpl. rewrite KM_run.
    destruct (prog_load verifier _ (fresh_status, w)) as [[fd st]|] eqn:El.
    + hstep (holding_free p l F T _ Hp). destruct (attach_program strerror log fd st); by eexists.
    + by eexists.
  - destruct H as (a' & E). rewrite !bind_Done. erewrite HM_step by exact E. cbv beta iota.
    unfold load_and_attach. rewrite KM_run. simpl. rewrite KM_run.
    destruct (prog_load verifier _ (fresh_status, w)) as [[fd st]|] eqn:El.
    + destruct (attach_program strerror log fd st); by eexists.
    + by eexists.
Qed.

Lemma process_end_spec t tcp ad use_bpf bs st F T a :
  distinct (ad :: tcp :: blocks_of t) F ->
  match shutdown pton use_bpf bs st with
  | None => exists h, process_end t tcp ad use_bpf bs st (holding (ad :: tcp :: blocks_of t) F T a) = Done (None, h)
  | Some w =>
      process_end t tcp ad use_bpf bs st (holding (ad :: tcp :: blocks_of t) F T a) =
      Done (Some (0, w), holding [] F T a)
  end.
Proof.
  intros Hd. unfold shutdown, process_end.
  destruct (if use_bpf then _ else _) as [w|]; [|by eexists]. cbn [mbind option_bind].
  hstep (holding_free ad _ F T a Hd). apply distinct_tail in Hd.
  hstep (flow_tracker_destroy_spec t _ [tcp] F T a Hd (Permutation_cons_append _ _)).
  destruct (tcp_client_cleanup pton (st.1, w)) as [[u [c w']]|]; [|by eexists].
  assert (Ht : distinct [tcp] F) by (destruct Hd as [_ Hd]; split; [apply NoDup_singleton|];
    inversion Hd; by constructor; [|constructor]).
  by hstep (holding_free tcp [] F T a Ht).
Qed.

(** What the end of the process says of the end of [main]. *)
Definition ends_as (F T : gset Z) (leak : Z) (p : exec (option (Z * world) * heap)) (m : exec (option (Z * world)))
  : Prop :=
  match p with
  | Undefined => m = Undefined
  | Done (None, _) => m = Done None
  | Done (Some (code, w), h) =>
      m = Done (Some (code, w)) /\ h_streams h = T /\ F ⊆ h_blocks h /\
      Z.of_nat (size (h_blocks h)) = Z.of_nat (size F) + (if code =? 0 then 0 else leak)
  end.

(** A run that is not stopped does not come to the end of [main]. *)
Definition until_stop (stopped : bool) (m : exec (option (Z * world))) : exec (option (Z * world)) :=
  if stopped then m else match m with Done (Some (0, _)) => Done None | _ => m end.

Lemma ends_holding F T leak code w l a m :
  m = Done (Some (code, w)) -> distinct l F -> Z.of_nat (length l) = (if code =? 0 then 0 else leak) ->
  ends_as F T leak (Done (Some (code, w), holding l F T a)) m.
Proof.
  intros -> Hd Hl. simpl. split_and!; [done|done|set_solver|].
  pose proof (holding_size l F T a Hd) as H. simpl in H. lia.
Qed.

Lemma head_drop n (a : list bool) : head (drop n a) = a !! n.
Proof. by rewrite head_lookup, lookup_drop, Nat.add_0_r. Qed.

Lemma tail_drop n (a : list bool) : tail (drop n a) = drop (S n) a.
Proof. rewrite <- Nat.add_1_r, <- drop_drop. by destruct (drop n a). Qed.

(** The loader, the loop and the end. *)
Lemma process_serve_ends mc t ptcp pad ad id path sigs tcp w1 F T a leak b012 b3 b4 :
  distinct (pad :: ptcp :: blocks_of t) F ->
  ends_as F T leak (process_serve mc t ptcp pad ad id path sigs tcp w1 (holding (pad :: ptcp :: blocks_of t) F T a))
    (until_stop (stopped (mc_inputs mc) sigs)
      (main_serve LONG (fun _ => default false (head a)) verifier strerror log pton fuel page_size
         (mk_machine (mc_env mc) (mc_iface mc) (mc_argv mc) (mc_file mc) b012 b3 b4
            (before_stop (mc_inputs mc) sigs) (mc_config mc) (mc_status mc) (mc_entries mc) (mc_json mc))
         (tm_value t) ad id path tcp w1)).
Proof.
  intros Hd. unfold process_serve, main_serve.
  cbn [mc_file mc_status mc_inputs mc_entries mc_json].
  assert (Hu : until_stop (stopped (mc_inputs mc) sigs) Undefined = Undefined) by (unfold until_stop; by destruct (stopped _ _)).
  assert (Hn : until_stop (stopped (mc_inputs mc) sigs) (Done None) = Done None) by (unfold until_stop; by destruct (stopped _ _)).
  pose proof (loader_start_spec _ F T a (mc_file mc path) (mc_status mc) w1 Hd) as Hl.
  destruct (bpf_loader_init _ _ _ _ _ _) as [m|]; [|by rewrite HM_stuck].
  rewrite bind_Done. destruct (m (mc_status mc, w1)) as [[r [bs w2]]|].
  2:{ destruct Hl as [h Hl]. rewrite (HM_step _ _ _ _ _ Hl). done. }
  destruct Hl as [a' Hl]. rewrite (HM_step _ _ _ _ _ Hl). clear Hl. cbv beta iota zeta.
  rewrite rounds_signals_spec.
  destruct (rounds _ _ _ _ _ _ (before_stop _ _) _) as [[[ls st]|]|]; [| |exact Hu].
  2:{ rewrite !bind_Done, Hn. by case_match. }
  rewrite !bind_Done. cbv beta iota. destruct (stopped (mc_inputs mc) sigs); cycle 1.
  { unfold until_stop. by destruct (shutdown _ _ _ _). }
  rewrite pure_done. cbv beta iota. unfold until_stop.
  pose proof (process_end_spec t ptcp pad (r =? 0) bs st F T a' Hd) as He.
  destruct (shutdown pton (r =? 0) bs st) as [w|]; [|by destruct He as [h ->]]. rewrite He.
  by apply (ends_holding F T _ 0 w []); [|split; constructor|].
Qed.

Lemma client_refused ok ip port auto :
  tcp_client_init ok ip port auto = None <-> (port <=? 0) || (65535 <? port) || negb ok = true.
Proof. unfold tcp_client_init. by destruct ((port <=? 0) || (65535 <? port)), ok. Qed.

Lemma process_run_ends mc ip port id path sigs w0 F T a :
  let h := holding [] F T a in
  ends_as F T (leaked h port) (process_run mc ip port id path sigs w0 h)
    (until_stop (stopped (mc_inputs mc) sigs)
      (main_run LONG (fun _ => grants h 5) verifier strerror log pton fuel page_size
         (granted h (before_stop (mc_inputs mc) sigs) mc) ip port id path w0)).
Proof.
  intros h. subst h. pose proof (tracker_alloc_spec MAX_FLOWS F T a) as Ht.
  unfold process_run, main_run, granted, leaked, grants. simpl h_answers.
  cbn [mc_ok_tracker mc_ok_client mc_ok_detector]. cbv iota beta.
  set (b0 := default false (a !! 0%nat)) in *. set (b1 := default false (a !! 1%nat)) in *.
  set (b2 := default false (a !! 2%nat)) in *. set (b3 := default false (a !! 3%nat)).
  assert (Hone : forall w, until_stop (stopped (mc_inputs mc) sigs) (Done (Some (1, w))) = Done (Some (1, w)))
    by (intros w; unfold until_stop; by destruct (stopped _ _)).
  assert (Hn : until_stop (stopped (mc_inputs mc) sigs) (Done None) = Done None) by (unfold until_stop; by destruct (stopped _ _)).
  assert (H012 : flow_tracker_create b0 b1 b2 MAX_FLOWS = None <-> b0 && b1 && b2 = false) by (by destruct b0, b1, b2).
  destruct (flow_tracker_create b0 b1 b2 MAX_FLOWS) as [ft|].
  2:{ destruct Ht as [a' Ea]. erewrite HM_step by exact Ea.
      rewrite (proj1 H012 eq_refl), Hone. by eapply (ends_holding F T 0 1 w0 []); [|split; constructor|]. }
  destruct Ht as (t & Et & Hd & Hft). erewrite HM_step by exact Et. subst ft.
  rewrite (not_false_is_true (b0 && b1 && b2)) by (intros Hf; by apply H012 in Hf). cbn [negb]. cbv iota beta.
  pose proof (client_alloc_spec _ F T (drop 3 a) Hd ip port true) as Hc. unfold one_block in Hc.
  rewrite head_drop in Hc. fold b3 in Hc.
  destruct (client_alloc ip port true _) as [[r h1]|] eqn:Ec; [|done]. rewrite (HM_step _ _ _ _ _ Ec). clear Ec.
  pose proof (client_refused b3 ip port true) as Hp. destruct r as [[ptcp tcp]|].
  2:{ destruct Hc as [Hs [a' ->]]. simpl in Hs. rewrite <- Hs in *.
      rewrite (proj1 Hp eq_refl), Hone. by apply (ends_holding F T 3 1 w0 (blocks_of t)). }
  destruct Hc as (Hs & -> & Hd1). simpl in Hs. simpl fst in Hd1. rewrite <- Hs in *.
  rewrite (not_true_is_false (_ || _ || _)) by (intros Hf; by apply Hp in Hf). cbv iota beta.
  destruct (tcp_client_connect pton (tcp, w0)) as [[rc [tcp1 w1]]|]; [|by rewrite Hn].
  pose proof (detector_alloc_spec _ F T (tail (drop 3 a)) Hd1) as Ha. unfold one_block in Ha.
  rewrite tail_drop, head_drop in Ha. rewrite tail_drop. simpl fst.
  destruct (detector_alloc _) as [[r h1]|] eqn:Ec; [|done]. rewrite (HM_step _ _ _ _ _ Ec). clear Ec.
  destruct r as [[pad ad]|].
  2:{ destruct Ha as [Hs' [a' ->]]. simpl in Hs'. rewrite <- Hs', Hone.
      by apply (ends_holding F T 4 1 w1 (ptcp :: blocks_of t)). }
  destruct Ha as (Hs' & -> & Hd2). simpl in Hs'. simpl fst in *. rewrite <- Hs', tail_drop, <- head_drop.
  by apply process_serve_ends.
Qed.

Lemma heap_holding h : h = holding [] (h_blocks h) (h_streams h) (h_answers h).
Proof. destruct h as [F T a]. unfold holding. simpl. f_equal. set_solver. Qed.

Lemma ends_here h leak w : ends_as (h_blocks h) (h_streams h) leak (Done (Some (0, w), h)) (Done (Some (0, w))).
Proof. simpl. split_and!; [done..|lia]. Qed.

Lemma process_ends_as mc h sigs w0 :
  let port := c_relay_server_port (config_load_from_env (mc_env mc) (mc_config mc)) in
  let m := main LONG (fun _ => grants h 5) verifier strerror log pton fuel page_size
             (granted h (before_stop (mc_inputs mc) sigs) mc) w0 in
  ends_as (h_blocks h) (h_streams h) (leaked h port) (process mc sigs w0 h)
    (match main_args (mc_argv mc) (mc_iface mc) with
     | Run _ _ => until_stop (stopped (mc_inputs mc) sigs) m
     | _ => m
     end).
Proof.
  intros port. unfold process, main.
  cbn [granted mc_env mc_config mc_argv mc_iface]. fold port.
  assert (Hu : until_stop (stopped (mc_inputs mc) sigs) Undefined = Undefined) by (unfold until_stop; by destruct (stopped _ _)).
  destruct (main_args _ _) as [| |ifname path]; [by apply (ends_here h)..|].
  destruct (read_str (c_relay_server_ip _)) as [ip|]; [|exact Hu].
  destruct (read_str (c_probe_id _)) as [id|]; [|exact Hu].
  rewrite !pure_done, !bind_Done.
  pose proof (process_run_ends mc ip port id path sigs w0 (h_blocks h) (h_streams h) (h_answers h)) as H.
  rewrite <- heap_holding in H. by apply H.
Qed.

Lemma granted_ok h mc sigs : machine_ok mc -> machine_ok (granted h (before_stop (mc_inputs mc) sigs) mc).
Proof.
  intros [H1 H2 H3 H4 H5]. destruct (before_stop_fits _ sigs H4) as [Hf Hn]. constructor; simpl; try done. lia.
Qed.

Lemma grown_equal (X Y : gset Z) : X ⊆ Y -> Z.of_nat (size Y) = Z.of_nat (size X) + 0 -> Y = X.
Proof. intros H1 H2. symmetry. apply set_subseteq_size_eq; [done|lia]. Qed.

(** C7: the process is [main].  Whatever the kernel and the allocator answer
    and whatever signals come before each test of [g_stop], provided one that
    stops the probe comes during the rounds given or before the test after
    them, the process on its heap is [main] on exactly the rounds of
    [before_stop]: all the rounds before whose test no SIGINT or SIGTERM has
    come, the last one with only the frames received before the signal.  It has
    the same code, the same world and the same undefined operations (no block
    is freed twice, no stream closed twice).  When it ends, the streams are
    those from before, and of its blocks none is left if it returns 0;
    [leaked] many if it returns 1. *)
Theorem process_refines_main (mc : machine) (h : heap) (sigs : list round_sigs) (w0 : world) :
  stopped (mc_inputs mc) sigs = true ->
  let port := c_relay_server_port (config_load_from_env (mc_env mc) (mc_config mc)) in
  ends_as (h_blocks h) (h_streams h) (leaked h port) (process mc sigs w0 h)
    (main LONG (fun _ => grants h 5) verifier strerror log pton fuel page_size
       (granted h (before_stop (mc_inputs mc) sigs) mc) w0).
Proof.
  intros Hs port. pose proof (process_ends_as mc h sigs w0) as H. cbv zeta in H. rewrite Hs in H.
  by destruct (main_args _ _).
Qed.

(** C4: how the process ends, on a machine of [machine_ok] (arrays of [main]
    of their sizes; in every round frames of bytes, tables of /proc each row of
    which sets fewer than five or nine values, a /proc/stat that sets fewer
    than four or seven, a /proc/net/dev that can be opened; under 2^31 frames).
    With [-h] or [-v] it returns 0 and has changed nothing.  Otherwise, if it
    returns, it returns 1 exactly when one of the first five allocations fails
    or the configured port is not between 1 and 65535, and then has left the
    blocks of the components already created; else a SIGINT or SIGTERM has
    come, and it returns 0 after exactly the rounds before it (those of
    [before_stop]), whatever happened in them (lost connections, failures of
    the loader or of any system call), with exactly the descriptors, the blocks
    and the streams that were there when it was entered. *)
Theorem process_exit (mc : machine) (h h' : heap) (sigs : list round_sigs) (w0 w : world) (code : Z) :
  machine_ok mc -> process mc sigs w0 h = Done (Some (code, w), h') ->
  let port := c_relay_server_port (config_load_from_env (mc_env mc) (mc_config mc)) in
  h_streams h' = h_streams h /\
  match main_args (mc_argv mc) (mc_iface mc) with
  | Run _ _ =>
      if startup_fails (granted h [] mc) port
      then code = 1 /\ Z.of_nat (size (h_blocks h')) = Z.of_nat (size (h_blocks h)) + leaked h port
      else code = 0 /\ stopped (mc_inputs mc) sigs = true /\
           main LONG (fun _ => grants h 5) verifier strerror log pton fuel page_size
             (granted h (before_stop (mc_inputs mc) sigs) mc) w0 = Done (Some (0, w)) /\
           w_fds w = w_fds w0 /\ h_blocks h' = h_blocks h
  | _ => code = 0 /\ w = w0 /\ h_blocks h' = h_blocks h
  end.
Proof.
  intros Hok E port. pose proof (process_ends_as mc h sigs w0) as He. cbv zeta in He.
  rewrite E in He. cbn [ends_as] in He. fold port in He. destruct He as (Em & Hs & Hsub & Hsize).
  split; [done|].
  pose proof (main_exit LONG (fun _ => grants h 5) verifier strerror log pton fuel page_size
    (granted h (before_stop (mc_inputs mc) sigs) mc) w0 w code (granted_ok _ _ _ Hok)) as Hx.
  cbn [granted mc_env mc_config mc_argv mc_iface] in Hx. fold port in Hx.
  change (startup_fails (granted h (before_stop (mc_inputs mc) sigs) mc) port)
    with (startup_fails (granted h [] mc) port) in Hx.
  destruct (main_args _ _).
  1,2: destruct (Hx Em) as [-> Hw]; simpl in Hsize; by eauto using grown_equal.
  assert (Hm : main LONG (fun _ => grants h 5) verifier strerror log pton fuel page_size
    (granted h (before_stop (mc_inputs mc) sigs) mc) w0 = Done (Some (code, w)) /\
    (code = 0 -> stopped (mc_inputs mc) sigs = true)).
  { revert Em. unfold until_stop. destruct (stopped _ _); [done|].
    destruct (main _ _ _ _ _ _ _ _ _ _) as [[[[|c|c] w']|]|]; intros [= <- <-]; done. }
  destruct Hm as [Em' Hstop]. specialize (Hx Em').
  destruct (startup_fails _ _); destruct Hx as [-> Hw]; simpl in Hsize; [done|].
  split_and!; auto using grown_equal.
Qed.
End process.

(** ** A run *)

(** Memory is granted; a SIGTERM arrives while the first round receives. *)
Definition demo_heap : heap := mk_heap {[64]} ∅ (replicate 6 true).
Definition demo_signals : list round_sigs := [mk_sigs [] [[SIGPIPE; SIGTERM]]].
Abbreviation demo_process :=
  (process 32 reads_initialised no_error [] (fun _ => true) 0 4096 demo_machine demo_signals demo_world0).

Lemma process_refines_main_witness :
  ends_as {[64]} ∅ 4 (demo_process demo_heap)
    (main 32 (fun _ => true) reads_initialised no_error [] (fun _ => true) 0 4096
       (granted demo_heap [cut_arrivals 0 demo_kernel_round] demo_machine) demo_world0).
Proof.
  exact (process_refines_main 32 reads_initialised no_error [] (fun _ => true) 0 4096 demo_machine demo_heap
    demo_signals demo_world0 eq_refl).
Defined.

Lemma process_exit_witness :
  exists w h, demo_process demo_heap = Done (Some (0, w), h) /\
    stopped (mc_inputs demo_machine) demo_signals = true /\
    w_fds w = {[0; 1; 2]} /\ h_blocks h = {[64]} /\ h_streams h = ∅.
Proof.
  assert (Hrun : match demo_process demo_heap with Done (Some _, _) => true | _ => false end = true)
    by (vm_compute; reflexivity).
  destruct (demo_process demo_heap) as [[[[code w]|] h]|] eqn:E; [|discriminate Hrun..].
  destruct (process_exit 32 reads_initialised no_error [] (fun _ => true) 0 4096 demo_machine demo_heap h demo_signals
    demo_world0 w code demo_machine_ok E) as [Hs H].
  assert (Hf : startup_fails (granted demo_heap [] demo_machine)
    (c_relay_server_port (config_load_from_env (mc_env demo_machine) (mc_config demo_machine))) = false)
    by (vm_compute; reflexivity).
  rewrite Hf in H. destruct H as (-> & Hst & _ & Hw & Hb). exists w, h. split; [reflexivity|].
  split; [exact Hst|]. split; [exact Hw|]. split; [exact Hb|exact Hs].
Defined.
