(* ===== verification/ByteOrder.v ===== *)
(** ByteOrder: the byte-order macros of bpf/bpf_endian.h, the functions of
    bpf/vmlinux_legacy.h and the address macros of src/config.h.

    The macros of bpf_endian.h choose between a constant expression of shifts
    ([swab32], [swab64]) and a builtin of the compiler, by the byte order of the
    target; vmlinux_legacy.h has masks of its own.  All are compared with one
    reference, [bswap]: the number whose bytes in memory are reversed. *)

From stdpp Require Import base list numbers option.
From S2P Require Import Prelude CLib Common PacketParser Elf BpfLoader.

(** Conversion to an unsigned type of [b] bits. *)
Definition wrap (b x : Z) : Z := x mod 2 ^ b.

(** [___bpf_mvb(x, b, n, m)] for [b] = 32 and 64: every shift is one of
    [__u32] or [__u64]. *)
Definition mvb (b x n m : Z) : Z :=
  wrap b (Z.shiftl (Z.shiftr (wrap b (Z.shiftl (wrap b x) (b - (n + 1) * 8))) (b - 8)) (m * 8)).

Definition swab32 (x : Z) : Z :=
  wrap 32 (Z.lor (Z.lor (Z.lor (mvb 32 x 0 3) (mvb 32 x 1 2)) (mvb 32 x 2 1)) (mvb 32 x 3 0)).

Definition swab64 (x : Z) : Z :=
  wrap 64 (Z.lor (Z.lor (Z.lor (Z.lor (Z.lor (Z.lor (Z.lor
    (mvb 64 x 0 7) (mvb 64 x 1 6)) (mvb 64 x 2 5)) (mvb 64 x 3 4)) (mvb 64 x 4 3)) (mvb 64 x 5 2))
    (mvb 64 x 6 1)) (mvb 64 x 7 0)).

(** The number of [n] bytes whose bytes in memory are those of [x] reversed:
    what [__builtin_bswap32] and [__builtin_bswap64] return. *)
Definition bswap (n : nat) (x : Z) : Z := le_val (reverse (le_bytes n x)).

(** [little]: __BYTE_ORDER__ is __ORDER_LITTLE_ENDIAN__; otherwise the macros
    are the identity. *)
Definition __bpf_ntohl (little : bool) (x : Z) : Z := if little then bswap 4 x else x.
Definition __bpf_htonl (little : bool) (x : Z) : Z := if little then bswap 4 x else x.
Definition __bpf_constant_ntohl (little : bool) (x : Z) : Z := if little then swab32 x else x.
Definition __bpf_constant_htonl (little : bool) (x : Z) : Z := if little then swab32 x else x.
Definition __bpf_be64_to_cpu (little : bool) (x : Z) : Z := if little then bswap 8 x else x.
Definition __bpf_cpu_to_be64 (little : bool) (x : Z) : Z := if little then bswap 8 x else x.
Definition __bpf_constant_be64_to_cpu (little : bool) (x : Z) : Z := if little then swab64 x else x.
Definition __bpf_constant_cpu_to_be64 (little : bool) (x : Z) : Z := if little then swab64 x else x.

(** [constant]: [__builtin_constant_p(x)]. *)
Definition bpf_htonl (little constant : bool) (x : Z) : Z :=
  if constant then __bpf_constant_htonl little x else __bpf_htonl little x.
Definition bpf_ntohl (little constant : bool) (x : Z) : Z :=
  if constant then __bpf_constant_ntohl little x else __bpf_ntohl little x.
Definition bpf_cpu_to_be64 (little constant : bool) (x : Z) : Z :=
  if constant then __bpf_constant_cpu_to_be64 little x else __bpf_cpu_to_be64 little x.
Definition bpf_be64_to_cpu (little constant : bool) (x : Z) : Z :=
  if constant then __bpf_constant_be64_to_cpu little x else __bpf_be64_to_cpu little x.

(** vmlinux_legacy.h. *)
Definition htonl (hostlong : Z) : Z :=
  Z.lor (Z.lor (Z.lor (wrap 32 (Z.shiftl (Z.land hostlong 0x000000FF) 24))
                      (wrap 32 (Z.shiftl (Z.land hostlong 0x0000FF00) 8)))
               (Z.shiftr (Z.land hostlong 0x00FF0000) 8))
        (Z.shiftr (Z.land hostlong 0xFF000000) 24).
Definition ntohl (netlong : Z) : Z := htonl netlong.

(** The bytes of [ip] in the memory of a little-endian machine. *)
Definition IPQUAD (ip : Z) : list Z := le_bytes 4 ip.

(** src/config.h: the four arguments of a format, and back. *)
Definition IP_TO_STRING (ip : Z) : list Z :=
  [Z.land (Z.shiftr ip 24) 0xFF; Z.land (Z.shiftr ip 16) 0xFF; Z.land (Z.shiftr ip 8) 0xFF; Z.land ip 0xFF].
Definition STRING_TO_IP (a b c d : Z) : Z :=
  Z.lor (Z.lor (Z.lor (wrap 32 (Z.shiftl (wrap 32 a) 24)) (wrap 32 (Z.shiftl (wrap 32 b) 16)))
               (wrap 32 (Z.shiftl (wrap 32 c) 8))) (wrap 32 d).

(** ** Bytes of a number *)

Definition byte (n x : Z) : Z := x / 2 ^ (8 * n) mod 2 ^ 8.

Lemma byte_range n x : 0 <= byte n x < 2 ^ 8.
Proof. apply Z.mod_pos_bound. lia. Qed.

Lemma byte_bit n x i : 0 <= n -> 0 <= i -> Z.testbit (byte n x) i = (i <? 8) && Z.testbit x (i + 8 * n).
Proof.
  intros Hn Hi. unfold byte. zcase.
  - rewrite Z.mod_pow2_bits_low, Z.div_pow2_bits by lia. done.
  - by rewrite Z.mod_pow2_bits_high by lia.
Qed.

Lemma wrap_bit b x i : 0 <= b -> 0 <= i -> Z.testbit (wrap b x) i = (i <? b) && Z.testbit x i.
Proof.
  intros Hb Hi. unfold wrap. zcase; [by rewrite Z.mod_pow2_bits_low by lia|by rewrite Z.mod_pow2_bits_high by lia].
Qed.

(** Byte [n] moved to byte [m]. *)
Lemma mvb_byte b x n m :
  0 <= n -> (n + 1) * 8 <= b -> 0 <= m -> (m + 1) * 8 <= b -> mvb b x n m = byte n x * 2 ^ (8 * m).
Proof.
  intros Hn Hnb Hm Hmb. assert (Hb : 8 <= b) by lia. unfold mvb. rewrite <- Z.shiftl_mul_pow2 by lia.
  apply Z.bits_inj'. intros i Hi. rewrite wrap_bit, !Z.shiftl_spec by lia.
  destruct (Z.lt_ge_cases i (8 * m)).
  { rewrite !Z.testbit_neg_r by lia. apply andb_false_r. }
  rewrite Z.shiftr_spec by lia. rewrite wrap_bit by lia. rewrite Z.shiftl_spec by lia. rewrite byte_bit by lia.
  destruct (Z.ltb_spec (i - 8 * m) 8).
  - rewrite wrap_bit by lia. ztest. simpl. f_equal. lia.
  - rewrite (proj2 (Z.ltb_ge (i - m * 8 + (b - 8)) b)) by lia. apply andb_false_r.
Qed.

(** Two numbers whose bits do not meet. *)
Lemma lor_low hi lo k : 0 <= k -> 0 <= lo < 2 ^ k -> Z.lor (hi * 2 ^ k) lo = hi * 2 ^ k + lo.
Proof. intros Hk Hl. rewrite Z.lor_comm, <- Z.shiftl_mul_pow2, lor_shiftl, Z.shiftl_mul_pow2 by lia. lia. Qed.

Lemma le_bytes_byte n x : le_bytes n x = map (fun i => byte (Z.of_nat i) x) (seq 0 n).
Proof.
  unfold le_bytes, byte. apply map_ext. intros i. change 256 with (2 ^ 8). by rewrite <- Z.pow_mul_r by lia.
Qed.

(** The next byte below those collected in [hi]. *)
Lemma lor_next hi x n j k :
  0 <= k -> j = k + 8 -> Z.lor (hi * 2 ^ j) (byte n x * 2 ^ k) = (hi * 2 ^ 8 + byte n x) * 2 ^ k.
Proof.
  intros Hk ->. pose proof (byte_range n x). rewrite lor_low.
  - rewrite (Z.add_comm k), Z.pow_add_r by lia. ring.
  - lia.
  - rewrite (Z.add_comm k), Z.pow_add_r by lia. pose proof (Z.pow_pos_nonneg 2 k). nia.
Qed.

(** The bytes of [x], the first one highest. *)
Definition gather (ns : list Z) (x : Z) : Z := foldl (fun hi n => hi * 2 ^ 8 + byte n x) 0 ns.

Lemma gather_range ns x : 0 <= gather ns x < 2 ^ (8 * zlen ns).
Proof.
  unfold gather. induction ns as [|n ns IH] using rev_ind; [done|]. rewrite foldl_app, length_app. simpl.
  pose proof (byte_range n x). rewrite Nat2Z.inj_add, Z.mul_add_distr_l, Z.pow_add_r by lia. simpl Z.of_nat. lia.
Qed.

Lemma bswap_gather n x : bswap n x = gather (map Z.of_nat (seq 0 n)) x.
Proof.
  unfold bswap, gather. rewrite le_bytes_byte. generalize (seq 0 n). intros l.
  induction l as [|i l IH] using rev_ind; [done|].
  rewrite !map_app, foldl_app, <- IH, reverse_app. cbn [map foldl]. rewrite reverse_singleton.
  cbn [app le_val foldr]. unfold le_val. lia.
Qed.

Lemma wrap_small b x : 0 <= x < 2 ^ b -> wrap b x = x.
Proof. apply Z.mod_small. Qed.

Lemma swab32_bswap x : swab32 x = bswap 4 x.
Proof.
  rewrite bswap_gather. unfold swab32. rewrite !mvb_byte by lia.
  do 3 (rewrite lor_next by lia). rewrite Z.mul_1_r. apply (wrap_small 32), (gather_range [0; 1; 2; 3] x).
Qed.

Lemma swab64_bswap x : swab64 x = bswap 8 x.
Proof.
  rewrite bswap_gather. unfold swab64. rewrite !mvb_byte by lia.
  do 7 (rewrite lor_next by lia). rewrite Z.mul_1_r. apply (wrap_small 64), (gather_range [0; 1; 2; 3; 4; 5; 6; 7] x).
Qed.

(** A byte selected by a mask. *)
Lemma land_byte x n : 0 <= n -> Z.land x (Z.shiftl (Z.ones 8) (8 * n)) = byte n x * 2 ^ (8 * n).
Proof.
  intros Hn. rewrite <- Z.shiftl_mul_pow2 by lia. apply Z.bits_inj'. intros i Hi.
  rewrite Z.land_spec, !Z.shiftl_spec by lia. destruct (Z.lt_ge_cases i (8 * n)).
  { rewrite (Z.testbit_neg_r (Z.ones 8)), (Z.testbit_neg_r (byte n x)) by lia. apply andb_false_r. }
  rewrite byte_bit by lia. replace (i - 8 * n + 8 * n) with i by lia.
  zcase; [by rewrite Z.ones_spec_low, andb_true_r by lia|by rewrite Z.ones_spec_high, andb_false_r by lia].
Qed.

Lemma htonl_bswap x : htonl x = bswap 4 x.
Proof.
  rewrite bswap_gather. unfold htonl.
  rewrite (land_byte x 0 ltac:(lia) : Z.land x 0xFF = _), (land_byte x 1 ltac:(lia) : Z.land x 0xFF00 = _),
    (land_byte x 2 ltac:(lia) : Z.land x 0xFF0000 = _), (land_byte x 3 ltac:(lia) : Z.land x 0xFF000000 = _).
  rewrite !Z.shiftl_mul_pow2, !Z.shiftr_div_pow2 by lia.
  pose proof (byte_range 0 x). pose proof (byte_range 1 x). rewrite !wrap_small by lia.
  replace (byte 2 x * 2 ^ (8 * 2) / 2 ^ 8) with (byte 2 x * 2 ^ 8)
    by (apply Z.div_unique_exact; lia).
  replace (byte 3 x * 2 ^ (8 * 3) / 2 ^ 24) with (byte 3 x * 2 ^ 0) by (apply Z.div_unique_exact; lia).
  replace (byte 0 x * 2 ^ (8 * 0) * 2 ^ 24) with (byte 0 x * 2 ^ 24) by lia.
  replace (byte 1 x * 2 ^ (8 * 1) * 2 ^ 8) with (byte 1 x * 2 ^ 16) by lia.
  do 3 (rewrite lor_next by lia). rewrite Z.mul_1_r. done.
Qed.

(** Bytes of a number made of bytes. *)
Lemma le_bytes_val l : Forall is_byte l -> le_bytes (length l) (le_val l) = l.
Proof.
  induction 1 as [|b l Hb _ IH]; [done|]. simpl length. rewrite le_bytes_S. cbn [le_val foldr]. fold (le_val l).
  unfold is_byte in Hb. rewrite (Z.mul_comm 256), Z.mod_add, Z.div_add, Z.mod_small, Z.div_small, Z.add_0_l by lia.
  by rewrite IH.
Qed.

Lemma le_bytes_are n x : Forall is_byte (le_bytes n x).
Proof.
  rewrite le_bytes_byte. apply Forall_map, Forall_true. intros i. unfold is_byte. pose proof (byte_range (Z.of_nat i) x).
  simpl. lia.
Qed.

Lemma bswap_bytes n x : le_bytes n (bswap n x) = reverse (le_bytes n x).
Proof.
  unfold bswap. rewrite <- (le_bytes_val (reverse (le_bytes n x))) at 2 by (rewrite Forall_reverse; apply le_bytes_are).
  by rewrite length_reverse, length_le_bytes.
Qed.

Lemma bswap_twice n x : 0 <= x < 256 ^ Z.of_nat n -> bswap n (bswap n x) = x.
Proof. intros Hx. unfold bswap at 1. by rewrite bswap_bytes, reverse_involutive, le_val_bytes. Qed.

(** The octets of an address. *)
Lemma ip_octets ip : IP_TO_STRING ip = reverse (le_bytes 4 ip).
Proof.
  rewrite le_bytes_byte. unfold IP_TO_STRING, byte. change 0xFF with (Z.ones 8).
  rewrite !Z.land_ones, !Z.shiftr_div_pow2 by lia. cbn [seq map reverse]. simpl. by rewrite Z.div_1_r.
Qed.

Lemma string_to_ip ip :
  is_u32 ip ->
  match IP_TO_STRING ip with [a; b; c; d] => STRING_TO_IP a b c d = ip | _ => False end.
Proof.
  intros Hip. assert (E : le_bytes 4 ip = [byte 0 ip; byte 1 ip; byte 2 ip; byte 3 ip]) by apply le_bytes_byte.
  pose proof (le_val_bytes 4 ip ltac:(unfold_widths; simpl; lia)) as Hv. rewrite E in Hv. cbn [le_val foldr] in Hv.
  rewrite ip_octets, E. cbn [reverse rev_append].
  unfold STRING_TO_IP. rewrite !Z.shiftl_mul_pow2 by lia.
  pose proof (byte_range 0 ip). pose proof (byte_range 1 ip). pose proof (byte_range 2 ip). pose proof (byte_range 3 ip).
  rewrite !wrap_small by (rewrite ?wrap_small by lia; lia). replace (byte 0 ip) with (byte 0 ip * 2 ^ 0) by lia.
  do 3 (rewrite lor_next by lia). lia.
Qed.

(** C38: the byte-order helpers agree.  On a little-endian target all the 32-
    and 64-bit conversions, by constant shifts, by the compiler's builtin or
    by the masks of vmlinux_legacy.h, are the reversal of the bytes in memory,
    and on a big-endian one those of bpf_endian.h are the identity; on either
    one undoes the other.  The octets printed of an address in network order,
    read from memory by [IPQUAD], are those [IP_TO_STRING] takes from the
    address in host order, and [STRING_TO_IP] puts them together again. *)
Theorem byte_order_agrees (x y : Z) :
  is_u32 x -> is_u64 y ->
  (forall constant, bpf_htonl true constant x = bswap 4 x /\ bpf_cpu_to_be64 true constant y = bswap 8 y /\
     bpf_htonl false constant x = x /\ bpf_cpu_to_be64 false constant y = y) /\
  htonl x = bswap 4 x /\ ntohl (htonl x) = x /\
  (forall little c c', bpf_ntohl little c (bpf_htonl little c' x) = x /\
     bpf_be64_to_cpu little c (bpf_cpu_to_be64 little c' y) = y) /\
  IPQUAD (htonl x) = IP_TO_STRING x /\
  match IP_TO_STRING x with [a; b; c; d] => STRING_TO_IP a b c d = x | _ => False end.
Proof.
  intros Hx Hy. assert (Hx2 : bswap 4 (bswap 4 x) = x) by (apply bswap_twice; exact Hx).
  assert (Hy2 : bswap 8 (bswap 8 y) = y) by (apply bswap_twice; exact Hy).
  split_and!.
  - intros []; simpl; by rewrite ?swab32_bswap, ?swab64_bswap.
  - apply htonl_bswap.
  - unfold ntohl. by rewrite !htonl_bswap.
  - intros [] [] []; simpl; by rewrite ?swab32_bswap, ?swab64_bswap.
  - unfold IPQUAD. by rewrite htonl_bswap, bswap_bytes, ip_octets.
  - by apply string_to_ip.
Qed.

Lemma byte_order_agrees_witness :
  htonl 0xC0A80001 = bswap 4 0xC0A80001 /\ IPQUAD (htonl 0xC0A80001) = IP_TO_STRING 0xC0A80001 /\
  IP_TO_STRING 0xC0A80001 = [192; 168; 0; 1].
Proof.
  destruct (byte_order_agrees 0xC0A80001 0 ltac:(unfold is_u32; lia) ltac:(unfold is_u64; lia))
    as (_ & H1 & _ & _ & H2 & _). split; [exact H1|]. split; [exact H2|]. reflexivity.
Defined.
