(* ===== verification/Bpf.v ===== *)
(** Bpf: what the eBPF programs of bpf/ share.

    The event of bpf/common.h, the byte-order macros of bpf/bpf_endian.h and
    bpf/vmlinux_legacy.h, the hash maps with their capacity, and the ring
    buffer: [bpf_ringbuf_reserve] returns memory that still holds an earlier
    record, so that the reserved event is an argument of a program and the
    submitted one its result.  [stopwatch] is the discipline of the programs
    that measure latencies: an entry probe stores a time under a key, the exit
    probe takes it out. *)

From stdpp Require Import base list gmap strings numbers option.
From S2P Require Import Prelude CLib Common PacketParser.

(** ** The event *)

Definition EVENT_TYPE_HTTP : Z := 2.
Definition EVENT_TYPE_DNS : Z := 3.
Definition EVENT_TYPE_EXEC : Z := 4.
Definition EVENT_TYPE_EXIT : Z := 5.
Definition EVENT_TYPE_FILE_OPEN : Z := 6.
Definition EVENT_TYPE_TCP_CONNECT : Z := 7.
Definition EVENT_TYPE_SYSCALL : Z := 8.
Definition EVENT_TYPE_MAX : Z := 10.
Definition EVENT_TYPE_SCHED_SWITCH : Z := 12.
Definition EVENT_TYPE_MYSQL : Z := 10.
Definition EVENT_TYPE_REDIS : Z := 11.

Definition TASK_COMM_LEN : nat := 16.
Definition DATA_LEN : nat := 256.

(** [struct event]. *)
Record event : Type := mk_event {
  b_timestamp_ns : Z;
  b_type : Z;
  b_pid : Z;
  b_ppid : Z;
  b_src_ip : Z;
  b_dst_ip : Z;
  b_src_port : Z;
  b_dst_port : Z;
  b_protocol : Z;
  b_padding : bytes;
  b_bytes : Z;
  b_packets : Z;
  b_latency_ns : Z;
  b_count : Z;
  b_comm : bytes;
  b_data : bytes
}.

Definition set_b_timestamp_ns (v : Z) (e : event) : event :=
  mk_event v (b_type e) (b_pid e) (b_ppid e) (b_src_ip e) (b_dst_ip e) (b_src_port e)
    (b_dst_port e) (b_protocol e) (b_padding e) (b_bytes e) (b_packets e) (b_latency_ns e)
    (b_count e) (b_comm e) (b_data e).
Definition set_b_type (v : Z) (e : event) : event :=
  mk_event (b_timestamp_ns e) v (b_pid e) (b_ppid e) (b_src_ip e) (b_dst_ip e) (b_src_port
    e) (b_dst_port e) (b_protocol e) (b_padding e) (b_bytes e) (b_packets e) (b_latency_ns
    e) (b_count e) (b_comm e) (b_data e).
Definition set_b_pid (v : Z) (e : event) : event :=
  mk_event (b_timestamp_ns e) (b_type e) v (b_ppid e) (b_src_ip e) (b_dst_ip e)
    (b_src_port e) (b_dst_port e) (b_protocol e) (b_padding e) (b_bytes e) (b_packets e)
    (b_latency_ns e) (b_count e) (b_comm e) (b_data e).
Definition set_b_ppid (v : Z) (e : event) : event :=
  mk_event (b_timestamp_ns e) (b_type e) (b_pid e) v (b_src_ip e) (b_dst_ip e) (b_src_port
    e) (b_dst_port e) (b_protocol e) (b_padding e) (b_bytes e) (b_packets e) (b_latency_ns
    e) (b_count e) (b_comm e) (b_data e).
Definition set_b_src_ip (v : Z) (e : event) : event :=
  mk_event (b_timestamp_ns e) (b_type e) (b_pid e) (b_ppid e) v (b_dst_ip e) (b_src_port
    e) (b_dst_port e) (b_protocol e) (b_padding e) (b_bytes e) (b_packets e) (b_latency_ns
    e) (b_count e) (b_comm e) (b_data e).
Definition set_b_dst_ip (v : Z) (e : event) : event :=
  mk_event (b_timestamp_ns e) (b_type e) (b_pid e) (b_ppid e) (b_src_ip e) v (b_src_port
    e) (b_dst_port e) (b_protocol e) (b_padding e) (b_bytes e) (b_packets e) (b_latency_ns
    e) (b_count e) (b_comm e) (b_data e).
Definition set_b_src_port (v : Z) (e : event) : event :=
  mk_event (b_timestamp_ns e) (b_type e) (b_pid e) (b_ppid e) (b_src_ip e) (b_dst_ip e) v
    (b_dst_port e) (b_protocol e) (b_padding e) (b_bytes e) (b_packets e) (b_latency_ns e)
    (b_count e) (b_comm e) (b_data e).
Definition set_b_dst_port (v : Z) (e : event) : event :=
  mk_event (b_timestamp_ns e) (b_type e) (b_pid e) (b_ppid e) (b_src_ip e) (b_dst_ip e)
    (b_src_port e) v (b_protocol e) (b_padding e) (b_bytes e) (b_packets e) (b_latency_ns
    e) (b_count e) (b_comm e) (b_data e).
Definition set_b_protocol (v : Z) (e : event) : event :=
  mk_event (b_timestamp_ns e) (b_type e) (b_pid e) (b_ppid e) (b_src_ip e) (b_dst_ip e)
    (b_src_port e) (b_dst_port e) v (b_padding e) (b_bytes e) (b_packets e) (b_latency_ns
    e) (b_count e) (b_comm e) (b_data e).
Definition set_b_bytes (v : Z) (e : event) : event :=
  mk_event (b_timestamp_ns e) (b_type e) (b_pid e) (b_ppid e) (b_src_ip e) (b_dst_ip e)
    (b_src_port e) (b_dst_port e) (b_protocol e) (b_padding e) v (b_packets e)
    (b_latency_ns e) (b_count e) (b_comm e) (b_data e).
Definition set_b_packets (v : Z) (e : event) : event :=
  mk_event (b_timestamp_ns e) (b_type e) (b_pid e) (b_ppid e) (b_src_ip e) (b_dst_ip e)
    (b_src_port e) (b_dst_port e) (b_protocol e) (b_padding e) (b_bytes e) v (b_latency_ns
    e) (b_count e) (b_comm e) (b_data e).
Definition set_b_latency_ns (v : Z) (e : event) : event :=
  mk_event (b_timestamp_ns e) (b_type e) (b_pid e) (b_ppid e) (b_src_ip e) (b_dst_ip e)
    (b_src_port e) (b_dst_port e) (b_protocol e) (b_padding e) (b_bytes e) (b_packets e) v
    (b_count e) (b_comm e) (b_data e).
Definition set_b_count (v : Z) (e : event) : event :=
  mk_event (b_timestamp_ns e) (b_type e) (b_pid e) (b_ppid e) (b_src_ip e) (b_dst_ip e)
    (b_src_port e) (b_dst_port e) (b_protocol e) (b_padding e) (b_bytes e) (b_packets e)
    (b_latency_ns e) v (b_comm e) (b_data e).
Definition set_b_comm (v : bytes) (e : event) : event :=
  mk_event (b_timestamp_ns e) (b_type e) (b_pid e) (b_ppid e) (b_src_ip e) (b_dst_ip e)
    (b_src_port e) (b_dst_port e) (b_protocol e) (b_padding e) (b_bytes e) (b_packets e)
    (b_latency_ns e) (b_count e) v (b_data e).
Definition set_b_data (v : bytes) (e : event) : event :=
  mk_event (b_timestamp_ns e) (b_type e) (b_pid e) (b_ppid e) (b_src_ip e) (b_dst_ip e)
    (b_src_port e) (b_dst_port e) (b_protocol e) (b_padding e) (b_bytes e) (b_packets e)
    (b_latency_ns e) (b_count e) (b_comm e) v.

(** A cleared event. *)
Definition blank_event : event :=
  mk_event 0 0 0 0 0 0 0 0 0 (replicate 7 0) 0 0 0 0 (replicate TASK_COMM_LEN 0) (replicate DATA_LEN 0).

(** What the helpers tell about the running task. *)
Record task : Type := mk_task {
  k_pid_tgid : Z;
  k_uid_gid : Z;
  k_comm : bytes
}.

(** The four assignments most programs begin with. *)
Definition stamp (t : task) (ts type : Z) (e : event) : event :=
  set_b_comm (k_comm t) (set_b_pid (u32 (Z.shiftr (k_pid_tgid t) 32)) (set_b_type type (set_b_timestamp_ns ts e))).

(** [__builtin_memset(e->data, 0, sizeof(e->data))]. *)
Definition clear_data (e : event) : event := set_b_data (replicate DATA_LEN 0) e.

(** [bpf_probe_read_kernel_str(dst, n, s)]: the string, cut to [n - 1]
    characters and terminated; what lies beyond is left as it was.  A fault
    clears the destination. *)
Definition read_str_into (dst : bytes) (n : nat) (s : option bytes) : bytes :=
  match s with
  | Some s => blit dst 0 (take (n - 1) (cstr s) ++ [0])
  | None => blit dst 0 (replicate n 0)
  end.

(** ** Byte order *)

(** [___bpf_mvb(x, 16, n, m)], whose operands are promoted to [int]. *)
Definition mvb16 (x n m : Z) : Z := Z.shiftl (Z.shiftr (Z.shiftl (u16 x) (16 - (n + 1) * 8)) (16 - 8)) (m * 8).

Definition swab16 (x : Z) : Z := u16 (Z.lor (mvb16 x 0 1) (mvb16 x 1 0)).

(** The target is little-endian. *)
Definition bpf_ntohs (x : Z) : Z := swab16 x.
Definition bpf_htons (x : Z) : Z := swab16 x.

(** vmlinux_legacy.h. *)
Definition htons (hostshort : Z) : Z :=
  u16 (Z.lor (Z.shiftl (Z.land hostshort 0x00FF) 8) (Z.shiftr (Z.land hostshort 0xFF00) 8)).
Definition ntohs (netshort : Z) : Z := htons netshort.

(** A 16-bit word as it lies in memory. *)
Definition le16 (b0 b1 : Z) : Z := b0 + 256 * b1.

(** A value over 16 bits whose high part is cut off. *)
Lemma u16_swap x : is_u16 x -> u16 (x / 256 + x * 256) = x mod 256 * 256 + x / 256.
Proof.
  intros Hx. assert (0 <= x / 256 < 256)
    by (split; [apply Z.div_pos; mlia|apply Z.div_lt_upper_bound; mlia]).
  pose proof (Z.mod_pos_bound x 256). pose proof (Z.div_mod x 256 ltac:(lia)) as Hd.
  replace (x / 256 + x * 256) with (x mod 256 * 256 + x / 256 + (x / 256) * 2 ^ 16) by lia.
  Local Transparent u16. unfold u16. Local Opaque u16.
  rewrite Z.mod_add by lia. apply Z.mod_small. lia.
Qed.

Lemma swab16_val x : is_u16 x -> swab16 x = x mod 256 * 256 + x / 256.
Proof.
  intros Hx. unfold swab16, mvb16. rewrite (u16_small x) by done.
  change (16 - (0 + 1) * 8) with 8. change (16 - (1 + 1) * 8) with 0. change (16 - 8) with 8.
  change (1 * 8) with 8. change (0 * 8) with 0. rewrite !Z.shiftl_0_r.
  rewrite Z.shiftr_shiftl_l by lia. change (8 - 8) with 0. rewrite Z.shiftl_0_r, Z.shiftr_div_pow2 by lia.
  assert (0 <= x / 2 ^ 8 < 2 ^ 8) by (split; [apply Z.div_pos; mlia|apply Z.div_lt_upper_bound; mlia]).
  rewrite Z.lor_comm, lor_shiftl by lia. by apply u16_swap.
Qed.

(** Swapping a word read from memory gives the big-endian value of its bytes. *)
Lemma ntohs_bytes b0 b1 : is_byte b0 -> is_byte b1 -> bpf_ntohs (le16 b0 b1) = be16 b0 b1.
Proof.
  unfold is_byte, le16. intros H0 H1. unfold bpf_ntohs. rewrite swab16_val, be16_val by (unfold is_byte; mlia).
  rewrite (Z.mul_comm 256), Z.mod_add, Z.div_add, Z.mod_small, Z.div_small by lia. lia.
Qed.

Lemma htons_swab16 x : is_u16 x -> htons x = swab16 x.
Proof.
  intros Hx. rewrite swab16_val by done. unfold htons.
  change 0x00FF with (Z.ones 8). rewrite Z.land_ones by lia.
  replace (Z.shiftr (Z.land x 0xFF00) 8) with (x / 256).
  - assert (0 <= x / 256 < 2 ^ 8) by (split; [apply Z.div_pos; mlia|apply Z.div_lt_upper_bound; mlia]).
    rewrite Z.lor_comm, lor_shiftl by lia. pose proof (Z.mod_pos_bound x 256). change (2 ^ 8) with 256 in *.
    rewrite u16_small by mlia. lia.
  - rewrite Z.shiftr_land. change (Z.shiftr 0xFF00 8) with (Z.ones 8).
    rewrite Z.land_ones, Z.shiftr_div_pow2 by lia. rewrite Z.mod_small; [done|].
    split; [apply Z.div_pos; mlia|apply Z.div_lt_upper_bound; mlia].
Qed.

(** ** Maps *)

(** [bpf_map_update_elem(..., BPF_ANY)] on a hash map of [cap] entries: a new
    key in a full map is refused, and no program looks at the result. *)
Definition map_update (cap : nat) (k v : Z) (m : gmap Z Z) : gmap Z Z :=
  match m !! k with
  | Some _ => <[k := v]> m
  | None => if (size m <? cap)%nat then <[k := v]> m else m
  end.

Lemma map_update_size cap k v m : (size m <= cap)%nat -> (size (map_update cap k v m) <= cap)%nat.
Proof.
  intros H. unfold map_update. destruct (m !! k) as [x|] eqn:E.
  - rewrite map_size_insert_Some by eauto. done.
  - destruct (Nat.ltb_spec (size m) cap); [|done]. rewrite map_size_insert_None by done. lia.
Qed.

(** ** Stopwatches

    [I] is an invocation of a program, [O] what it emits. *)

Inductive side : Type := Enter | Exit.

Section stopwatch.
Context {I O : Type}.

(** The programs that store a time under their key on entry ([sw_start]: the
    time, when the program stores one) and take it out on exit. *)
Class stopwatch : Type := {
  sw_cap : nat;
  sw_unit : Z;
  sw_key : I -> Z;
  sw_now : I -> Z;
  sw_start : I -> option Z;
  sw_latency : O -> Z;
  sw_enter : I -> gmap Z Z -> gmap Z Z;
  sw_exit : I -> gmap Z Z -> gmap Z Z * option O;
  sw_enter_law i m : sw_enter i m =
    match sw_start i with Some ts => map_update sw_cap (sw_key i) ts m | None => m end;
  sw_exit_map i m : (sw_exit i m).1 = delete (sw_key i) m;
  sw_exit_latency i m o : (sw_exit i m).2 = Some o ->
    sw_latency o = match m !! sw_key i with Some t => u64 (sw_now i - t) / sw_unit | None => 0 end
}.

Context `{!stopwatch}.

(** A trace: the invocations of both probes, the latest first. *)
Fixpoint run (trace : list (side * I)) : gmap Z Z :=
  match trace with
  | [] => ∅
  | (Enter, i) :: trace => sw_enter i (run trace)
  | (Exit, i) :: trace => (sw_exit i (run trace)).1
  end.

(** The time of the last entry of [k] that no exit has followed, where [who]
    says whose operation an invocation belongs to. *)
Fixpoint pending {K} `{!EqDecision K} (who : I -> K) (k : K) (trace : list (side * I)) : option Z :=
  match trace with
  | [] => None
  | (Enter, i) :: trace =>
      match sw_start i with
      | Some ts => if decide (who i = k) then Some ts else pending who k trace
      | None => pending who k trace
      end
  | (Exit, i) :: trace => if decide (who i = k) then None else pending who k trace
  end.

(** No entry ever found the map full. *)
Fixpoint never_full (trace : list (side * I)) : Prop :=
  match trace with
  | [] => True
  | (Enter, i) :: trace => (size (run trace) < sw_cap)%nat /\ never_full trace
  | (Exit, i) :: trace => never_full trace
  end.

Lemma run_size trace : (size (run trace) <= sw_cap)%nat.
Proof.
  induction trace as [|[[] i] trace IH]; simpl.
  - rewrite map_size_empty. lia.
  - rewrite sw_enter_law. destruct (sw_start i) as [ts|]; [by apply map_update_size|done].
  - rewrite sw_exit_map. etrans; [|exact IH]. apply map_subseteq_size, delete_subseteq.
Qed.

Lemma run_pending trace k t : run trace !! k = Some t -> pending sw_key k trace = Some t.
Proof.
  revert t. induction trace as [|[[] i] trace IH]; intros t; simpl; [done| |].
  - rewrite sw_enter_law. destruct (sw_start i) as [ts|]; [|apply IH]. unfold map_update.
    destruct (decide (sw_key i = k)) as [->|Hne].
    + destruct (run trace !! k) as [x|] eqn:E; [by rewrite lookup_insert_eq|].
      case_match; [by rewrite lookup_insert_eq|]. congruence.
    + intros Hk. apply IH. revert Hk. repeat case_match; rewrite ?lookup_insert_ne by done; done.
  - rewrite sw_exit_map. destruct (decide (sw_key i = k)) as [->|Hne]; [by rewrite lookup_delete_eq|].
    rewrite lookup_delete_ne by done. apply IH.
Qed.

Lemma run_complete trace k : never_full trace -> run trace !! k = pending sw_key k trace.
Proof.
  induction trace as [|[[] i] trace IH]; simpl; [done| |].
  - intros [Hs Hn]. rewrite sw_enter_law. destruct (sw_start i) as [ts|]; [|by apply IH].
    assert (map_update sw_cap (sw_key i) ts (run trace) = <[sw_key i := ts]> (run trace)) as ->.
    { unfold map_update. case_match; [done|]. by rewrite (proj2 (Nat.ltb_lt _ _)). }
    destruct (decide (sw_key i = k)) as [->|Hne]; [apply lookup_insert_eq|].
    rewrite lookup_insert_ne by done. by apply IH.
  - intros Hn. rewrite sw_exit_map. destruct (decide (sw_key i = k)) as [->|Hne];
      [apply lookup_delete_eq|]. rewrite lookup_delete_ne by done. by apply IH.
Qed.

(** The key separates what [who] separates, among the invocations [ok]. *)
Definition key_identifies {K} (who : I -> K) (ok : I -> Prop) : Prop :=
  forall i j, ok i -> ok j -> sw_key i = sw_key j <-> who i = who j.

Lemma pending_key {K} `{!EqDecision K} (who : I -> K) ok trace i :
  key_identifies who ok -> Forall (fun x => ok x.2) trace -> ok i ->
  pending who (who i) trace = pending sw_key (sw_key i) trace.
Proof.
  intros Hk Ht Hi. induction Ht as [|[s j] trace Hj Ht IH]; [done|]. specialize (Hk j i Hj Hi). simpl.
  destruct s; rewrite IH; destruct (decide (who j = who i)), (decide (sw_key j = sw_key i)); try done; tauto.
Qed.

(** What a stopwatch guarantees: the map stays within its capacity; an exit
    never reports a latency that does not start at the last entry of its own
    operation, except 0; and while no entry found the map full it reports
    exactly that one. *)
Definition measures_latency {K} `{!EqDecision K} (who : I -> K) (ok : I -> Prop) : Prop :=
  forall (trace : list (side * I)) (i : I),
    Forall (fun x => ok x.2) trace -> ok i ->
    (size (run trace) <= sw_cap)%nat /\
    (forall o, (sw_exit i (run trace)).2 = Some o ->
       sw_latency o = 0 \/
       exists t, pending who (who i) trace = Some t /\ sw_latency o = u64 (sw_now i - t) / sw_unit) /\
    (forall o, never_full trace -> (sw_exit i (run trace)).2 = Some o ->
       sw_latency o = match pending who (who i) trace with
                      | Some t => u64 (sw_now i - t) / sw_unit
                      | None => 0
                      end).

Lemma stopwatch_measures {K} `{!EqDecision K} (who : I -> K) ok :
  key_identifies who ok -> measures_latency who ok.
Proof.
  intros Hk trace i Ht Hi. rewrite (pending_key who ok) by done. split; [apply run_size|]. split.
  - intros o Ho. apply sw_exit_latency in Ho.
    destruct (run trace !! sw_key i) as [t|] eqn:E; [right|by left]. apply run_pending in E. eauto.
  - intros o Hn Ho. apply sw_exit_latency in Ho. by rewrite run_complete in Ho.
Qed.
End stopwatch.
Arguments stopwatch : clear implicits.
Arguments measures_latency {I O} W {K _} who ok : rename.
Arguments key_identifies {I O} W {K} who ok : rename.
