(* ===== verification/BpfTrace.v ===== *)
(** BpfTrace: the tracing programs of bpf/.

    A module per file.  An invocation of a program gets the task, the clock
    readings, the reserved event ([None] when the ring buffer is full) and the
    arguments of the probe; it returns the maps and the event it submits.  The
    fields a program does not assign keep what the reserved memory held. *)

From stdpp Require Import base list gmap strings numbers option.
From S2P Require Import Prelude CLib Common PacketParser Bpf.

(** What every invocation has: two clock readings and the reserved event. *)
Record call : Type := mk_call {
  i_task : task;
  i_now : Z;
  i_now2 : Z;
  i_slot : option event
}.

(** [struct sock_common], as far as the programs read it. *)
Record sock_common : Type := mk_sock {
  skc_daddr : Z;
  skc_rcv_saddr : Z;
  skc_dport : Z;
  skc_num : Z
}.

(** [bpf_probe_read_user]: the bytes at an address, [None] on a fault, in which
    case the destination is cleared. *)
Definition user_memory : Type := Z -> nat -> option bytes.

(** The first element of the iterator of a message: [iov_base], [iov_len]. *)
Definition msghdr : Type := option (Z * Z).

(** The exit of a stopwatch that submits an event: [finish] fills it in. *)
Definition exit_event (key : Z) (i : call) (finish : Z -> event -> event) (m : gmap Z Z)
  : gmap Z Z * option event :=
  match m !! key with
  | None => (m, None)
  | Some start =>
      let latency := u64 (i_now i - start) in
      (delete key m,
       match i_slot i with None => None | Some e => Some (finish latency e) end)
  end.

(** ** tcp_connect.bpf.c *)
Module tcp_connect.
Definition start_ts_entries : nat := Z.to_nat 8192.

Definition trace_tcp_v4_connect_entry (i : call) (start_ts : gmap Z Z) : gmap Z Z :=
  map_update start_ts_entries (k_pid_tgid (i_task i)) (i_now i) start_ts.

Definition trace_tcp_v4_connect_exit (i : call) (start_ts : gmap Z Z) : gmap Z Z * option event :=
  exit_event (k_pid_tgid (i_task i)) i
    (fun latency e => set_b_latency_ns latency (stamp (i_task i) (i_now2 i) EVENT_TYPE_TCP_CONNECT e))
    start_ts.

Definition trace_tcp_v4_connect (i : call) (sk : sock_common) : option event :=
  match i_slot i with
  | None => None
  | Some e =>
      let e := stamp (i_task i) (i_now i) EVENT_TYPE_TCP_CONNECT e in
      let e := set_b_dst_ip (skc_daddr sk) e in
      let e := set_b_dst_port (bpf_ntohs (skc_dport sk)) e in
      let e := set_b_src_ip (skc_rcv_saddr sk) e in
      Some (set_b_src_port (bpf_ntohs (skc_num sk)) e)
  end.
End tcp_connect.

(** ** syscall.bpf.c *)
Module syscall.
Definition syscall_start_entries : nat := Z.to_nat 8192.

Definition tracepoint_sys_enter (i : call) (id : Z) (syscall_start : gmap Z Z)
  : gmap Z Z * option event :=
  (map_update syscall_start_entries (k_pid_tgid (i_task i)) (i_now i) syscall_start,
   match i_slot i with
   | None => None
   | Some e => Some (set_b_count (u64 id) (stamp (i_task i) (i_now i) EVENT_TYPE_SYSCALL e))
   end).

Definition tracepoint_sys_exit (i : call) (syscall_start : gmap Z Z) : gmap Z Z * option event :=
  exit_event (k_pid_tgid (i_task i)) i
    (fun latency e => set_b_latency_ns latency (stamp (i_task i) (i_now2 i) EVENT_TYPE_SYSCALL e))
    syscall_start.
End syscall.

(** ** block_trace.bpf.c *)
Module block_trace.
Record maps : Type := mk_maps { block_start : gmap Z Z; block_size_map : gmap Z Z }.

Definition block_entries : nat := Z.to_nat 8192.

(** [struct trace_event_raw_block_rq], as far as it is read. *)
Record request : Type := mk_request { rq_dev : Z; rq_sector : Z; rq_nr_sector : Z }.

Definition block_key (r : request) : Z := Z.lor (u64 (Z.shiftl (rq_dev r) 32)) (rq_sector r).

Definition tracepoint_block_rq_issue (i : call) (r : request) (m : maps) : maps * option event :=
  (mk_maps (map_update block_entries (block_key r) (i_now i) (block_start m))
           (map_update block_entries (block_key r) (rq_nr_sector r) (block_size_map m)),
   match i_slot i with
   | None => None
   | Some e =>
       let e := stamp (i_task i) (i_now i) 16 e in
       let e := set_b_bytes (u64 (rq_nr_sector r * 512)) e in
       let e := set_b_count 0 (set_b_latency_ns 0 (set_b_packets 0 e)) in
       Some (clear_data e)
   end).

Definition tracepoint_block_rq_complete (i : call) (r : request) (m : maps) : maps * option event :=
  match block_start m !! block_key r with
  | None => (m, None)
  | Some start =>
      let latency := u64 (i_now i - start) in
      (mk_maps (delete (block_key r) (block_start m)) (delete (block_key r) (block_size_map m)),
       match i_slot i with
       | None => None
       | Some e =>
           let e := stamp (i_task i) (i_now2 i) 17 e in
           let e := set_b_packets 0 (set_b_bytes 0 (set_b_latency_ns latency e)) in
           Some (clear_data (set_b_count 1 e))
       end)
  end.
End block_trace.

(** ** Payload of messages: http_trace.bpf.c, dns_trace.bpf.c, db_trace.bpf.c *)

(** The first [min(iov_len, sizeof(e->data) - 1)] bytes of the message, and a
    NUL.  Both writes are checked: past the array they are [Undefined]. *)
Definition copy_payload (user : user_memory) (msg : msghdr) (e : event) : exec event :=
  match msg with
  | None => Done e
  | Some (iov_base, iov_len) =>
      if negb (iov_base =? 0) && (0 <? iov_len) then
        let copy_len := iov_len in
        let copy_len := if Z.of_nat DATA_LEN - 1 <? copy_len then Z.of_nat DATA_LEN - 1 else copy_len in
        data ← wr_bytes (b_data e) 0
                 (default (replicate (Z.to_nat copy_len) 0) (user iov_base (Z.to_nat copy_len)));
        data ← wr data copy_len 0;
        Done (set_b_data data e)
      else Done e
  end.

(** A reserved event that is filled in and submitted. *)
Definition submit (slot : option event) (fill : event -> exec event) : exec (option event) :=
  match slot with None => Done None | Some e => ev ← fill e; Done (Some ev) end.

(** The fields the three programs assign alike. *)
Definition message_event (i : call) (type sport dport protocol size direction : Z) (sk : sock_common)
    (e : event) : event :=
  let e := stamp (i_task i) (i_now i) type e in
  let e := set_b_src_ip (skc_rcv_saddr sk) e in
  let e := set_b_dst_ip (skc_daddr sk) e in
  let e := set_b_dst_port dport (set_b_src_port sport e) in
  let e := set_b_bytes size (set_b_protocol protocol e) in
  set_b_count direction (set_b_latency_ns 0 (set_b_packets 1 e)).

Module http_trace.
Definition http_port (p : Z) : bool := (p =? 80) || (p =? 443) || (p =? 8080).

Definition handle_tcp_msg (user : user_memory) (i : call) (sk : sock_common) (msg : msghdr)
    (size direction : Z) : exec (option event) :=
  let sport := skc_num sk in
  let dport := bpf_ntohs (skc_dport sk) in
  if negb (http_port sport) && negb (http_port dport) then Done None else
  submit (i_slot i) (fun e =>
    copy_payload user msg (message_event i EVENT_TYPE_HTTP sport dport 6 size direction sk e)).

Definition trace_tcp_sendmsg user i sk msg size := handle_tcp_msg user i sk msg size 1.
Definition trace_tcp_recvmsg user i sk msg size := handle_tcp_msg user i sk msg size 2.
End http_trace.

Module dns_trace.
Definition handle_udp_msg (user : user_memory) (i : call) (sk : sock_common) (msg : msghdr)
    (size direction : Z) : exec (option event) :=
  let sport := skc_num sk in
  let dport := bpf_ntohs (skc_dport sk) in
  if negb (sport =? 53) && negb (dport =? 53) then Done None else
  submit (i_slot i) (fun e =>
    copy_payload user msg (message_event i EVENT_TYPE_DNS sport dport 17 size direction sk e)).

Definition trace_udp_sendmsg user i sk msg size := handle_udp_msg user i sk msg size 1.
Definition trace_udp_recvmsg user i sk msg size := handle_udp_msg user i sk msg size 2.
End dns_trace.

Module db_trace.
Definition mysql (sport dport : Z) : bool := (sport =? 3306) || (dport =? 3306).
Definition redis (sport dport : Z) : bool := (sport =? 6379) || (dport =? 6379).

Definition handle_db_tcp (user : user_memory) (i : call) (sk : sock_common) (msg : msghdr)
    (size direction : Z) : exec (option event) :=
  let sport := skc_num sk in
  let dport := bpf_ntohs (skc_dport sk) in
  if negb (mysql sport dport) && negb (redis sport dport) then Done None else
  submit (i_slot i) (fun e =>
    copy_payload user msg (message_event i (if mysql sport dport then 10 else 11) sport dport 6
      size direction sk e)).

Definition trace_db_tcp_sendmsg user i sk msg size := handle_db_tcp user i sk msg size 1.
Definition trace_db_tcp_recvmsg user i sk msg size := handle_db_tcp user i sk msg size 2.
End db_trace.

(** ** http_capture.bpf.c: the event is on the stack, cleared *)
Module http_capture.
Definition handle_tcp_msg (i : call) (sk : sock_common) (size direction : Z) : option event :=
  let e := stamp (i_task i) (i_now i) EVENT_TYPE_HTTP blank_event in
  let e := set_b_count direction (set_b_packets 1 (set_b_bytes size (set_b_protocol 6 e))) in
  let e := set_b_dst_ip (skc_daddr sk) (set_b_src_ip (skc_rcv_saddr sk) e) in
  let e := set_b_dst_port (bpf_ntohs (skc_dport sk)) (set_b_src_port (skc_num sk) e) in
  if negb (http_trace.http_port (b_src_port e)) && negb (http_trace.http_port (b_dst_port e))
  then None else Some e.

Definition trace_tcp_sendmsg i sk size := handle_tcp_msg i sk size 1.
Definition trace_tcp_recvmsg i sk size := handle_tcp_msg i sk size 2.
End http_capture.

(** ** file_open.bpf.c *)
Module file_open.
Definition trace_do_filp_open (i : call) (fname : option bytes) : option event :=
  e ← i_slot i;
  let e := clear_data (set_b_ppid 0 (stamp (i_task i) (i_now i) EVENT_TYPE_FILE_OPEN e)) in
  Some (set_b_data (read_str_into (b_data e) DATA_LEN fname) e).

Definition trace_vfs_write (i : call) : option event :=
  e ← i_slot i;
  let e := clear_data (stamp (i_task i) (i_now i) EVENT_TYPE_FILE_OPEN e) in
  Some (set_b_data (blit (b_data e) 0 (lit "WRITE" ++ [0])) e).
End file_open.

(** ** process_exec.bpf.c *)
Module process_exec.
(** [user_str start]: the string at an address of the task's memory, [None] on
    a fault. *)
Definition tracepoint_sched_process_exec (user_str : Z -> option bytes) (i : call)
    (pid parent arg_start arg_end : Z) : option event :=
  e ← i_slot i;
  let e := stamp (i_task i) (i_now i) EVENT_TYPE_EXEC e in
  let e := set_b_ppid (u32 parent) (set_b_pid (u32 pid) e) in
  let arg_len := u64 (arg_end - arg_start) in
  let arg_len := if Z.of_nat DATA_LEN - 1 <? arg_len then Z.of_nat DATA_LEN - 1 else arg_len in
  Some (if 0 <? arg_len
        then set_b_data (read_str_into (b_data e) DATA_LEN (user_str arg_start)) e
        else e).

Definition tracepoint_sched_process_exit (i : call) (pid parent : Z) : option event :=
  e ← i_slot i;
  let e := stamp (i_task i) (i_now i) EVENT_TYPE_EXIT e in
  Some (set_b_ppid (u32 parent) (set_b_pid (u32 pid) e)).
End process_exec.

(** ** sched_trace.bpf.c *)
Module sched_trace.
Definition tracepoint_sched_switch (i : call) (prev_pid next_pid prev_state : Z) (prev_comm : bytes)
  : option event :=
  e ← i_slot i;
  let e := set_b_type EVENT_TYPE_MAX (set_b_timestamp_ns (i_now i) e) in
  let e := set_b_ppid (u32 next_pid) (set_b_pid (u32 prev_pid) e) in
  let e := set_b_latency_ns (u64 prev_state) e in
  let e := set_b_count 0 (set_b_packets 0 (set_b_bytes 0 e)) in
  Some (clear_data (set_b_comm (read_str_into (b_comm e) TASK_COMM_LEN (Some prev_comm)) e)).

Definition tracepoint_sched_wakeup (i : call) (pid : Z) (comm : bytes) : option event :=
  e ← i_slot i;
  let e := set_b_type 13 (set_b_timestamp_ns (i_now i) e) in
  let e := set_b_latency_ns 0 (set_b_ppid 0 (set_b_pid (u32 pid) e)) in
  let e := set_b_count 0 (set_b_packets 0 (set_b_bytes 0 e)) in
  Some (clear_data (set_b_comm (read_str_into (b_comm e) TASK_COMM_LEN (Some comm)) e)).
End sched_trace.

(** ** mem_trace.bpf.c *)
Module mem_trace.
(** [rc] is the return register on entry of [__kmalloc]. *)
Definition trace_kmalloc (i : call) (rc size : Z) : option event :=
  if rc =? 0 then None else
  e ← i_slot i;
  let e := stamp (i_task i) (i_now i) 14 e in
  let e := set_b_latency_ns 0 (set_b_packets 0 (set_b_bytes size e)) in
  Some (clear_data (set_b_count 1 e)).

Definition trace_kfree (i : call) : option event :=
  e ← i_slot i;
  let e := stamp (i_task i) (i_now i) 15 e in
  let e := set_b_latency_ns 0 (set_b_packets 0 (set_b_bytes 0 e)) in
  Some (clear_data (set_b_count 1 e)).
End mem_trace.

(** ** security_trace.bpf.c *)
Module security_trace.
Definition trace_cap_capable (i : call) (cap opt : Z) : option event :=
  e ← i_slot i;
  let e := stamp (i_task i) (i_now i) 18 e in
  let e := set_b_latency_ns (u64 opt) (set_b_count (u64 cap) e) in
  Some (clear_data (set_b_packets 0 (set_b_bytes 0 e))).

Definition trace_security_file_open (i : call) (name : option bytes) : option event :=
  e ← i_slot i;
  let e := set_b_packets 0 (set_b_bytes 0 (stamp (i_task i) (i_now i) 19 e)) in
  Some (set_b_data (read_str_into (b_data e) DATA_LEN name) e).

Definition trace_load_module (i : call) : option event :=
  e ← i_slot i;
  let e := set_b_packets 0 (set_b_bytes 0 (stamp (i_task i) (i_now i) 20 e)) in
  Some (clear_data e).
End security_trace.

(** ** stb_connect.bpf.c *)
Module stb_connect.
Definition connect_start_entries : nat := Z.to_nat 1024.
Definition AF_INET : Z := 2.
Definition AF_INET6 : Z := 10.

(** [struct connect_event_t], as docs/system_design.md:131 gives it: the header
    the program includes, include/common.h, is not in the repository.  The
    fields have the widths of the document: the values stored below fit them. *)
Record connect_values : Type := mk_values {
  n_timestamp_ns : Z;
  n_pid : Z;
  n_uid : Z;
  n_saddr : Z;
  n_daddr : Z;
  n_sport : Z;
  n_dport : Z;
  n_family : Z;
  n_protocol : Z;
  n_event_type : Z;
  n_retval : Z;
  n_latency_us : Z;
  n_comm : bytes
}.

Definition get_pid_tgid (i : call) : Z := k_pid_tgid (i_task i).
Definition get_uid_gid (i : call) : Z := k_uid_gid (i_task i).

(** [Some (family, daddr, dport)] when it returns 0.  The lengths are compared
    as unsigned numbers. *)
Definition read_sockaddr_in (user : user_memory) (user_addr addr_len : Z) : option (Z * Z * Z) :=
  fam ← user user_addr 2%nat;
  let fam := le16 (byte_at fam 0) (byte_at fam 1) in
  if (fam =? AF_INET) && (16 <=? u64 addr_len) then
    addr ← user user_addr 16%nat;
    Some (fam, word32 addr 4, swab16 (le16 (byte_at addr 2) (byte_at addr 3)))
  else if fam =? AF_INET6 then Some (fam, 0, 0)
  else None.

Section connect.
(** The two event types.  No header of the repository defines them;
    tests/test_qa_verify.py takes 0 and 1.  The theorems hold for any values. *)
Context (EVENT_CONNECT_ENTER EVENT_CONNECT_EXIT : Z).

(** The arguments of connect(), and what it returns. *)
Record syscall_args : Type := mk_args { s_user_addr : Z; s_addr_len : Z; s_ret : Z }.

Definition tracepoint__sys_enter_connect (user : user_memory) (i : call) (a : syscall_args)
    (connect_start : gmap Z Z) : gmap Z Z * option connect_values :=
  let addr_len := s32 (s_addr_len a) in
  if u64 addr_len <? 2 then (connect_start, None) else
  match read_sockaddr_in user (s_user_addr a) addr_len with
  | None => (connect_start, None)
  | Some (family, daddr, dport) =>
      if negb (family =? AF_INET) then (connect_start, None) else
      (map_update connect_start_entries (get_pid_tgid i) (i_now i) connect_start,
       Some (mk_values (i_now i) (u32 (Z.shiftr (get_pid_tgid i) 32))
               (Z.land (get_uid_gid i) 0xFFFFFFFF) 0 daddr 0 dport family IPPROTO_TCP
               EVENT_CONNECT_ENTER 0 0 (k_comm (i_task i))))
  end.

Definition tracepoint__sys_exit_connect (i : call) (a : syscall_args) (connect_start : gmap Z Z)
  : gmap Z Z * option connect_values :=
  let '(connect_start, latency_us) :=
    match connect_start !! get_pid_tgid i with
    | Some start_ts =>
        (delete (get_pid_tgid i) connect_start, u64 (i_now i - start_ts) / 1000)
    | None => (connect_start, 0)
    end in
  (connect_start,
   Some (mk_values (i_now i) (u32 (Z.shiftr (get_pid_tgid i) 32))
           (Z.land (get_uid_gid i) 0xFFFFFFFF) 0 0 0 0 AF_INET IPPROTO_TCP
           EVENT_CONNECT_EXIT (s32 (s_ret a)) latency_us (k_comm (i_task i)))).
End connect.
End stb_connect.

(** ** Latencies *)

Lemma exit_event_map key i f m : (exit_event key i f m).1 = delete key m.
Proof. unfold exit_event. destruct (m !! key) eqn:E; [done|]. simpl. by rewrite delete_id. Qed.

Lemma exit_event_latency key i f m o :
  (forall l e, b_latency_ns (f l e) = l) -> (exit_event key i f m).2 = Some o ->
  b_latency_ns o = match m !! key with Some t => u64 (i_now i - t) / 1 | None => 0 end.
Proof.
  intros Hf. unfold exit_event. destruct (m !! key); [|done]. simpl.
  destruct (i_slot i); [|done]. intros [= <-]. by rewrite Hf, Z.div_1_r.
Qed.

(** The invocations of the four programs are stopwatches. *)
#[refine] Instance tcp_connect_watch : stopwatch call event := {
  sw_cap := Z.to_nat 8192;
  sw_unit := 1;
  sw_key i := k_pid_tgid (i_task i);
  sw_now := i_now;
  sw_start i := Some (i_now i);
  sw_latency := b_latency_ns;
  sw_enter := tcp_connect.trace_tcp_v4_connect_entry;
  sw_exit := tcp_connect.trace_tcp_v4_connect_exit
}.
Proof.
  - done.
  - intros i m. apply exit_event_map.
  - intros i m o. by apply exit_event_latency.
Defined.

#[refine] Instance syscall_watch : stopwatch (call * Z) event := {
  sw_cap := Z.to_nat 8192;
  sw_unit := 1;
  sw_key i := k_pid_tgid (i_task i.1);
  sw_now i := i_now i.1;
  sw_start i := Some (i_now i.1);
  sw_latency := b_latency_ns;
  sw_enter i m := (syscall.tracepoint_sys_enter i.1 i.2 m).1;
  sw_exit i := syscall.tracepoint_sys_exit i.1
}.
Proof.
  - done.
  - intros i m. apply exit_event_map.
  - intros i m o. by apply exit_event_latency.
Defined.

(** The map of the start times; the sizes are in a map of their own. *)
#[refine] Instance block_watch : stopwatch (call * block_trace.request) event := {
  sw_cap := Z.to_nat 8192;
  sw_unit := 1;
  sw_key i := block_trace.block_key i.2;
  sw_now i := i_now i.1;
  sw_start i := Some (i_now i.1);
  sw_latency := b_latency_ns;
  sw_enter i m := block_trace.block_start
    (block_trace.tracepoint_block_rq_issue i.1 i.2 (block_trace.mk_maps m ∅)).1;
  sw_exit i m :=
    let '(maps, e) := block_trace.tracepoint_block_rq_complete i.1 i.2 (block_trace.mk_maps m ∅) in
    (block_trace.block_start maps, e)
}.
Proof.
  - done.
  - intros i m. unfold block_trace.tracepoint_block_rq_complete. simpl.
    destruct (m !! _) eqn:E; [done|]. simpl. by rewrite delete_id.
  - intros i m o. unfold block_trace.tracepoint_block_rq_complete. simpl.
    destruct (m !! _); [|done]. simpl. destruct (i_slot i.1); [|done]. intros [= <-]. simpl.
    by rewrite Z.div_1_r.
Defined.

Section connect_watch.
Context (user : user_memory) (EVENT_CONNECT_ENTER EVENT_CONNECT_EXIT : Z).
Import stb_connect.

(** The time is stored when the address is an IPv4 one the program can read. *)
Definition traced (a : syscall_args) : bool :=
  negb (u64 (s32 (s_addr_len a)) <? 2) &&
  match read_sockaddr_in user (s_user_addr a) (s32 (s_addr_len a)) with
  | Some (family, _, _) => family =? AF_INET
  | None => false
  end.

#[refine] Instance connect_watch : stopwatch (call * syscall_args) connect_values := {
  sw_cap := Z.to_nat 1024;
  sw_unit := 1000;
  sw_key i := k_pid_tgid (i_task i.1);
  sw_now i := i_now i.1;
  sw_start i := if traced i.2 then Some (i_now i.1) else None;
  sw_latency := n_latency_us;
  sw_enter i m := (tracepoint__sys_enter_connect EVENT_CONNECT_ENTER user i.1 i.2 m).1;
  sw_exit i := tracepoint__sys_exit_connect EVENT_CONNECT_EXIT i.1 i.2
}.
Proof.
  - intros i m. unfold tracepoint__sys_enter_connect, traced. cbv zeta.
    destruct (u64 _ <? 2); [done|]. simpl. destruct (read_sockaddr_in _ _ _) as [[[f d] p]|]; [|done].
    by destruct (f =? AF_INET).
  - intros i m. unfold tracepoint__sys_exit_connect. destruct (m !! _) eqn:E; simpl; [done|].
    by rewrite delete_id.
  - intros i m o. unfold tracepoint__sys_exit_connect. destruct (m !! _); by intros [= <-].
Defined.
End connect_watch.

(** Requests whose device and sector are below 2^32: for these the key tells
    them apart. *)
Definition request_in_range (i : call * block_trace.request) : Prop :=
  is_u32 (block_trace.rq_dev i.2) /\ is_u32 (block_trace.rq_sector i.2).

Lemma block_key_split r :
  is_u32 (block_trace.rq_dev r) -> is_u32 (block_trace.rq_sector r) ->
  block_trace.block_key r = block_trace.rq_dev r * 2 ^ 32 + block_trace.rq_sector r.
Proof.
  intros Hd Hs. unfold block_trace.block_key, is_u32 in *. rewrite u64_small.
  - rewrite Z.lor_comm, lor_shiftl by lia. lia.
  - rewrite Z.shiftl_mul_pow2 by lia. unfold is_u64. lia.
Qed.

Lemma block_key_identifies :
  key_identifies block_watch (fun i => (block_trace.rq_dev i.2, block_trace.rq_sector i.2)) request_in_range.
Proof.
  intros i j [Hi1 Hi2] [Hj1 Hj2]. cbn [sw_key block_watch]. rewrite !block_key_split by done.
  unfold is_u32 in *. split; [intros H; f_equal; lia|by intros [= -> ->]].
Qed.


(** ** Addresses of connect() *)

Section sockaddr.
Import stb_connect.

(** [struct sockaddr_in] in memory: family, port and address in network order,
    padding. *)
Definition enc_sockaddr_in (port addr : Z) (zero : bytes) : bytes :=
  [AF_INET; 0; port / 256; port mod 256; byte_of addr 0; byte_of addr 1; byte_of addr 2; byte_of addr 3] ++ zero.

(** A memory that holds [b] at [addr] and nothing else. *)
Definition memory_at (addr : Z) (b : bytes) : user_memory := fun a n =>
  if (a =? addr) && (Z.of_nat n <=? zlen b) then Some (take n b) else None.

Lemma memory_at_read addr b n : Z.of_nat n <= zlen b -> memory_at addr b addr n = Some (take n b).
Proof. intros H. unfold memory_at. rewrite Z.eqb_refl. by ztest. Qed.

Lemma read_sockaddr_enc a port addr zero len :
  is_u16 port -> is_u32 addr -> length zero = 8%nat -> 16 <= len < 2 ^ 31 ->
  read_sockaddr_in (memory_at a (enc_sockaddr_in port addr zero)) a len = Some (AF_INET, addr, port).
Proof.
  intros Hp Ha Hz Hl. unfold read_sockaddr_in.
  assert (Hlen : length (enc_sockaddr_in port addr zero) = 16%nat)
    by (unfold enc_sockaddr_in; rewrite length_app, Hz; done).
  rewrite !memory_at_read by (rewrite Hlen; lia). cbn [mbind option_bind].
  change (le16 (byte_at (take 2 (enc_sockaddr_in port addr zero)) 0)
            (byte_at (take 2 (enc_sockaddr_in port addr zero)) 1)) with AF_INET.
  rewrite Z.eqb_refl. cbn [andb]. rewrite u64_small by mlia. ztest.
  f_equal. f_equal; [f_equal|].
  - unfold word32. apply le32_byte_of. done.
  - assert (Hb : is_byte (port / 256) /\ is_byte (port mod 256)).
    { pose proof (Z.mod_pos_bound port 256). unfold is_byte.
      assert (0 <= port / 256 < 256) by (split; [apply Z.div_pos; mlia|apply Z.div_lt_upper_bound; mlia]). lia. }
    change (byte_at (take 16 _) 2) with (port / 256). change (byte_at (take 16 _) 3) with (port mod 256).
    fold (bpf_ntohs (le16 (port / 256) (port mod 256))). rewrite ntohs_bytes by apply Hb. by apply be16_enc16.
Qed.

(** C35: connect() to an IPv4 address is traced as it happened: on entry the
    address and the port of the caller's [sockaddr_in] are decoded and
    reported, and the exit of the same thread reports the result of the call
    and the microseconds in between. *)
Theorem connect_traced (a port addr : Z) (zero : bytes) (len ret enter_type exit_type : Z) (i1 i2 : call)
    (m : gmap Z Z) :
  is_u16 port -> is_u32 addr -> length zero = 8%nat -> 16 <= len < 2 ^ 31 -> - 2 ^ 31 <= ret < 2 ^ 31 ->
  (size m < connect_start_entries)%nat -> k_pid_tgid (i_task i1) = k_pid_tgid (i_task i2) ->
  is_u64 (i_now i2) -> 0 <= i_now i1 <= i_now i2 ->
  let user := memory_at a (enc_sockaddr_in port addr zero) in
  let '(m1, ev1) := tracepoint__sys_enter_connect enter_type user i1 (mk_args a len 0) m in
  let '(m2, ev2) := tracepoint__sys_exit_connect exit_type i2 (mk_args a len ret) m1 in
  m2 = delete (k_pid_tgid (i_task i1)) m /\
  exists v1 v2, ev1 = Some v1 /\ ev2 = Some v2 /\
    n_daddr v1 = addr /\ n_dport v1 = port /\ n_timestamp_ns v1 = i_now i1 /\
    n_retval v2 = ret /\ n_latency_us v2 = (i_now i2 - i_now i1) / 1000.
Proof.
  intros Hp Ha Hz Hl Hr Hm Hk Hn2 Hn1 user. unfold tracepoint__sys_enter_connect, get_pid_tgid, get_uid_gid.
  cbn [s_addr_len s_user_addr]. rewrite s32_small, u64_small by mlia. ztest. subst user.
  rewrite read_sockaddr_enc by done. change (negb (AF_INET =? AF_INET)) with false. cbv iota.
  assert (Hu : map_update connect_start_entries (k_pid_tgid (i_task i1)) (i_now i1) m =
    <[k_pid_tgid (i_task i1) := i_now i1]> m).
  { unfold map_update. case_match; [done|]. by rewrite (proj2 (Nat.ltb_lt _ _)). }
  rewrite Hu. unfold tracepoint__sys_exit_connect, get_pid_tgid, get_uid_gid. rewrite <- Hk, lookup_insert_eq. cbv beta iota.
  split; [by rewrite delete_insert_eq|]. eexists _, _. split_and!; try done; simpl.
  - by apply s32_small.
  - by rewrite u64_small by mlia.
Qed.

Lemma connect_traced_witness :
  exists m2 v, (tracepoint__sys_exit_connect 1 (mk_call (mk_task (7 * 2 ^ 32 + 8) 0 []) 5500 0 None)
      (mk_args 64 16 0)
      (tracepoint__sys_enter_connect 0 (memory_at 64 (enc_sockaddr_in 443 0x0100007f (replicate 8 0)))
         (mk_call (mk_task (7 * 2 ^ 32 + 8) 0 []) 2500 0 None) (mk_args 64 16 0) ∅).1) = (m2, Some v) /\
    n_latency_us v = 3.
Proof.
  pose proof (connect_traced 64 443 0x0100007f (replicate 8 0) 16 0 0 1
    (mk_call (mk_task (7 * 2 ^ 32 + 8) 0 []) 2500 0 None) (mk_call (mk_task (7 * 2 ^ 32 + 8) 0 []) 5500 0 None) ∅
    ltac:(unfold is_u16; lia) ltac:(unfold is_u32; lia) eq_refl ltac:(lia) ltac:(lia)
    ltac:(rewrite map_size_empty; unfold connect_start_entries; lia) eq_refl
    ltac:(unfold is_u64; simpl; lia) ltac:(simpl; lia)) as H.
  cbv zeta in H. destruct (tracepoint__sys_enter_connect _ _ _ _ _) as [m1 ev1]. cbn [fst].
  destruct (tracepoint__sys_exit_connect _ _ _ _) as [m2 ev2].
  destruct H as (_ & v1 & v2 & _ & -> & _ & _ & _ & _ & Hlat). exists m2, v2. split; [reflexivity|exact Hlat].
Defined.
End sockaddr.

(** ** Payloads *)

(** The payload the event should carry. *)
Definition expected_data (user : user_memory) (msg : msghdr) (old : bytes) : bytes :=
  match msg with
  | Some (iov_base, iov_len) =>
      if negb (iov_base =? 0) && (0 <? iov_len) then
        let n := Z.to_nat (Z.min iov_len 255) in
        default (replicate n 0) (user iov_base n) ++ [0] ++ drop (S n) old
      else old
  | None => old
  end.

(** [handle] never writes outside the event.  It submits nothing for a socket
    with none of the wanted ports at either end, nor when the ring buffer is
    full; otherwise an event of the type [kind] gives to the ports, with the
    time, the process, the addresses and ports of the socket (local end as the
    source), the size and the direction of the call, and the first 255 bytes of
    the message, terminated; without a message the data are those of the
    reserved memory. *)
Definition captures (handle : user_memory -> call -> sock_common -> msghdr -> Z -> Z -> exec (option event))
    (wanted : list Z) (kind : Z -> Z -> Z) (protocol : Z) : Prop :=
  forall user i sk msg size dir,
    (forall a n b, user a n = Some b -> length b = n) ->
    (forall e, i_slot i = Some e -> length (b_data e) = 256%nat) ->
    let sport := skc_num sk in
    let dport := bpf_ntohs (skc_dport sk) in
    match handle user i sk msg size dir with
    | Undefined => False
    | Done None => i_slot i = None \/ ~ (sport ∈ wanted \/ dport ∈ wanted)
    | Done (Some ev) =>
        (sport ∈ wanted \/ dport ∈ wanted) /\
        b_type ev = kind sport dport /\ b_protocol ev = protocol /\
        b_src_ip ev = skc_rcv_saddr sk /\ b_dst_ip ev = skc_daddr sk /\
        b_src_port ev = sport /\ b_dst_port ev = dport /\
        b_bytes ev = size /\ b_count ev = dir /\ b_packets ev = 1 /\
        b_timestamp_ns ev = i_now i /\ b_pid ev = u32 (k_pid_tgid (i_task i) / 2 ^ 32) /\
        (exists e, i_slot i = Some e /\ b_data ev = expected_data user msg (b_data e)) /\
        length (b_data ev) = 256%nat
    end.

Lemma insert_after_blit (old got : bytes) :
  (length got < length old)%nat ->
  <[length got := 0]> (blit old 0 got) = got ++ [0] ++ drop (S (length got)) old.
Proof.
  intros H. unfold blit. rewrite take_0. simpl app at 1. simpl (0 + length got)%nat.
  destruct (drop (length got) old) as [|x rest] eqn:E.
  { apply (f_equal length) in E. rewrite length_drop in E. simpl in E. lia. }
  assert (Hr : drop (S (length got)) old = rest)
    by (replace (S (length got)) with (length got + 1)%nat by lia; rewrite <- drop_drop, E; done).
  rewrite Hr. rewrite insert_app_r_alt by lia. by rewrite Nat.sub_diag.
Qed.

(** [copy_payload] stays in the array, and assigns the data only. *)
Lemma copy_payload_data user msg e :
  (forall a n b, user a n = Some b -> length b = n) -> length (b_data e) = DATA_LEN ->
  copy_payload user msg e = Done (set_b_data (expected_data user msg (b_data e)) e) /\
  length (expected_data user msg (b_data e)) = DATA_LEN.
Proof.
  intros Hu Hd. unfold copy_payload, expected_data.
  destruct msg as [[base len]|]; [|split; [by destruct e|done]].
  destruct (negb (base =? 0) && (0 <? len)) eqn:Hb; [|split; [by destruct e|done]].
  change (Z.of_nat DATA_LEN - 1) with 255. change DATA_LEN with 256%nat in *.
  replace (if 255 <? len then 255 else len) with (Z.min len 255) by (zcase; lia).
  assert (0 < len) by lia. set (n := Z.to_nat (Z.min len 255)). set (got := default (replicate n 0) (user base n)).
  assert (Hn : length got = n).
  { subst got. destruct (user base n) eqn:E; simpl; [by eapply Hu|apply length_replicate]. }
  assert (n <= 255)%nat by lia.
  rewrite wr_bytes_Done, bind_Done by lia. cbv beta.
  rewrite wr_Done, bind_Done by (rewrite length_blit; lia). change (Z.to_nat 0) with 0%nat. fold n.
  rewrite <- Hn, insert_after_blit by lia. split; [done|].
  rewrite !length_app, length_drop. simpl. lia.
Qed.

Lemma handle_captures wanted kind protocol handle :
  (forall user i sk msg size dir,
     let sport := skc_num sk in
     let dport := bpf_ntohs (skc_dport sk) in
     handle user i sk msg size dir =
       if bool_decide (sport ∈ wanted \/ dport ∈ wanted)
       then submit (i_slot i) (fun e =>
              copy_payload user msg (message_event i (kind sport dport) sport dport protocol size dir sk e))
       else Done None) ->
  captures handle wanted kind protocol.
Proof.
  intros H user i sk msg size dir Hu Hs sport dport. rewrite H. fold sport dport.
  case_bool_decide as Hw; [|by right]. destruct (i_slot i) as [e|]; [|by left].
  specialize (Hs e eq_refl). cbn [submit].
  set (e' := message_event _ _ _ _ _ _ _ _ _).
  destruct (copy_payload_data user msg e' Hu Hs) as [-> Hl]. rewrite bind_Done. cbv beta iota.
  split_and!; try done; [|by exists e]. simpl. by rewrite Z.shiftr_div_pow2.
Qed.

(** Decides membership in a list of ports by the comparisons of the code. *)
Ltac ports_decide :=
  repeat match goal with |- context [bool_decide ?P] => destruct (bool_decide_reflect P) end;
  rewrite !elem_of_cons, !elem_of_nil in *; try case_decide;
  repeat match goal with |- context [?p =? ?x] => destruct (Z.eqb_spec p x) end;
  first [reflexivity|exfalso; tauto].

(** C36: the payload probes submit an event for exactly the sockets one of
    whose ends has a wanted port (HTTP: 80, 443, 8080; DNS: 53; databases: 3306
    and 6379, MySQL when 3306 is one of them), unless the ring buffer is full,
    and never write outside it.  The event has the type of the protocol, the
    local address and port as the source, the remote ones as the destination,
    the size and direction of the call, the time and the process, and as data
    the first 255 bytes of the message (zeros when reading them faults) and a
    NUL; what follows, and everything when there is no message, is what the
    reserved memory held. *)
Theorem payloads_captured :
  captures http_trace.handle_tcp_msg [80; 443; 8080] (fun _ _ => 2) 6 /\
  captures dns_trace.handle_udp_msg [53] (fun _ _ => 3) 17 /\
  captures db_trace.handle_db_tcp [3306; 6379]
    (fun sport dport => if decide (sport = 3306 \/ dport = 3306) then 10 else 11) 6.
Proof.
  split_and!; apply handle_captures; intros user i sk msg size dir sport dport.
  - unfold http_trace.handle_tcp_msg, http_trace.http_port. fold sport dport.
    ports_decide.
  - unfold dns_trace.handle_udp_msg. fold sport dport. ports_decide.
  - unfold db_trace.handle_db_tcp, db_trace.mysql, db_trace.redis. fold sport dport. ports_decide.
Qed.
