(* ===== verification/BpfNet.v ===== *)
(** BpfNet: the packet programs of bpf/.

    network_flow.bpf.c reports every IPv4 packet of an interface, stb_test,
    stb_passfilter and stb_socket_filter are the socket filters.  The theorem
    relates the flow program to the parser of the probe: what both accept they
    describe alike. *)

From stdpp Require Import base list gmap numbers option.
From S2P Require Import Prelude CLib Common PacketParser Bpf.

(** ** The packet *)

(** [struct __sk_buff]: the bytes of the packet, of which the first
    [skb_headlen] lie between [data] and [data_end]. *)
Record sk_buff : Type := mk_skb { skb_bytes : bytes; skb_headlen : nat }.

Definition skb_len (skb : sk_buff) : Z := u32 (zlen (skb_bytes skb)).
Definition skb_linear (skb : sk_buff) : bytes := take (skb_headlen skb) (skb_bytes skb).

(** [bpf_skb_load_bytes(skb, off, to, n) == 0], with the bytes copied. *)
Definition load_bytes (skb : sk_buff) (off n : nat) : option bytes :=
  if (off + n <=? length (skb_bytes skb))%nat then Some (take n (drop off (skb_bytes skb))) else None.

(** ** Socket filters: the number of bytes of the packet to keep *)

Definition stb_passfilter (skb : sk_buff) : Z := skb_len skb.
Definition stb_packet_filter (skb : sk_buff) : Z := skb_len skb.
Definition stb_test_filter (skb : sk_buff) : Z :=
  if (length (skb_linear skb) <? 14)%nat then 0 else skb_len skb.

(** ** network_flow.bpf.c *)

(** [struct fe]; the padding is cleared. *)
Record fe : Type := mk_fe {
  f_ts : Z;
  f_si : Z;
  f_di : Z;
  f_by : Z;
  f_pk : Z;
  f_sp : Z;
  f_dp : Z;
  f_pr : Z;
  f_dir : Z
}.

(** [struct eth] and the kernel's [struct iphdr] at its end. *)
Definition sizeof_eth : nat := 14.
Definition sizeof_iphdr : nat := 20.

Definition eth_proto (da : bytes) : Z := le16 (byte_at da 12) (byte_at da 13).
Definition ip_protocol (da : bytes) : Z := byte_at da (sizeof_eth + 9).
Definition ip_saddr (da : bytes) : Z := word32 da (sizeof_eth + 12).
Definition ip_daddr (da : bytes) : Z := word32 da (sizeof_eth + 16).

Definition ex (exclude_dest_ips : gmap Z Z) (ip : Z) : bool :=
  match exclude_dest_ips !! ip with Some v => negb (v =? 0) | None => false end.

(** The two ports at the start of a loaded transport header. *)
Definition load_ports (skb : sk_buff) (n : nat) : Z * Z :=
  match load_bytes skb 34 n with
  | Some h => (bpf_ntohs (le16 (byte_at h 0) (byte_at h 1)), bpf_ntohs (le16 (byte_at h 2) (byte_at h 3)))
  | None => (0, 0)
  end.

(** The event, from [struct fe ev={}] to the call that emits it. *)
Definition flow_of (skb : sk_buff) (da : bytes) (now dir : Z) : fe :=
  let '(sp, dp) :=
    if ip_protocol da =? 6 then load_ports skb 20
    else if ip_protocol da =? 17 then load_ports skb 8
    else (0, 0) in
  mk_fe now (ip_saddr da) (ip_daddr da) (skb_len skb) 1 sp dp (ip_protocol da) dir.

(** Both programs return 0; the event they emit is the result here. *)
Definition f1 (exclude_dest_ips : gmap Z Z) (now : Z) (skb : sk_buff) : option fe :=
  let da := skb_linear skb in
  if (length da <? sizeof_eth)%nat then None else
  if negb (eth_proto da =? bpf_htons 0x0800) then None else
  if (length da <? sizeof_eth + sizeof_iphdr)%nat then None else
  if ex exclude_dest_ips (ip_daddr da) then None else
  Some (flow_of skb da now 0).

Definition f2 (exclude_dest_ips : gmap Z Z) (now : Z) (skb : sk_buff) : option fe :=
  let da := skb_linear skb in
  if (length da <? sizeof_eth)%nat then None else
  if negb (eth_proto da =? bpf_htons 0x0800) then None else
  if (length da <? sizeof_eth + sizeof_iphdr)%nat then None else
  if ex exclude_dest_ips (ip_saddr da) then None else
  Some (flow_of skb da now 1).

(** ** Fields of a slice *)

Lemma byte_at_slice p off n i : (i < n)%nat -> byte_at (take n (drop off p)) i = byte_at p (off + i).
Proof. intros H. unfold byte_at. by rewrite lookup_take_lt, lookup_drop by done. Qed.

Lemma byte_at_take p n i : (i < n)%nat -> byte_at (take n p) i = byte_at p i.
Proof. intros H. unfold byte_at. by rewrite lookup_take_lt. Qed.

Lemma word32_take p n i : (i + 3 < n)%nat -> word32 (take n p) i = word32 p i.
Proof. intros H. unfold word32. by rewrite !byte_at_take by lia. Qed.

Lemma word32_slice p off n i : (i + 3 < n)%nat -> word32 (take n (drop off p)) i = word32 p (off + i).
Proof. intros H. unfold word32. rewrite !byte_at_slice by lia. by rewrite !Nat.add_assoc. Qed.

Lemma rd_byte_at p (i : nat) : (i < length p)%nat -> rd p (Z.of_nat i) = Done (byte_at p i).
Proof.
  intros H. unfold rd, byte_at. rewrite (proj2 (Z.leb_le _ _)), Nat2Z.id by lia.
  by destruct (lookup_lt_is_Some_2 p i H) as [x ->].
Qed.

(** The ports of the program are those the parser reads with [ntohs]. *)
Lemma load_ports_net16 skb n :
  Forall is_byte (skb_bytes skb) -> (4 <= n)%nat -> (34 + n <= length (skb_bytes skb))%nat ->
  load_ports skb n = (net16 (take n (drop 34 (skb_bytes skb))) 0, net16 (take n (drop 34 (skb_bytes skb))) 2).
Proof.
  intros Hb Hn Hl. unfold load_ports, load_bytes. rewrite (proj2 (Nat.leb_le _ _)) by done.
  assert (Forall is_byte (take n (drop 34 (skb_bytes skb)))) by by apply Forall_take, Forall_drop.
  by rewrite !ntohs_bytes by by apply byte_at_byte.
Qed.

Lemma eth_type_ipv4 p : Forall is_byte p -> eth_proto p = bpf_htons 0x0800 -> be16 (byte_at p 12) (byte_at p 13) = 0x0800.
Proof.
  intros Hb H. rewrite <- ntohs_bytes by by apply byte_at_byte. fold (eth_proto p). rewrite H. reflexivity.
Qed.

(** ** The program and the parser *)

(** The length test in front, which an accepted frame passes. *)
Ltac short_frame :=
  match goal with |- context [Z.ltb ?a ?b] => destruct (Z.ltb_spec a b); [by intros [=]|] end.

(** What the parser finds in an untagged IPv4 frame without IP options; for
    ICMP it reports the type as the destination port. *)
Lemma parse_raw_plain_ipv4 p q0 q :
  Forall is_byte p -> eth_proto p = bpf_htons 0x0800 -> Z.land (byte_at p 14) 15 = 5 ->
  packet_parse_raw p (zlen p) q0 = Done (true, q) ->
  (34 <= length p)%nat /\
  q_src_ip q = ip_saddr p /\ q_dst_ip q = ip_daddr p /\ q_protocol q = ip_protocol p /\
  (q_protocol q = 1 -> q_src_port q = 0 /\ q_dst_port q = byte_at p 34) /\
  forall headlen, (if q_protocol q =? 1 then (0, 0) else (q_src_port q, q_dst_port q)) =
    let skb := mk_skb p headlen in
    if ip_protocol p =? 6 then load_ports skb 20
    else if ip_protocol p =? 17 then load_ports skb 8 else (0, 0).
Proof.
  intros Hb Het Hihl. unfold packet_parse_raw. short_frame.
  unfold parse_ethernet. change 12 with (Z.of_nat 12). change 13 with (Z.of_nat 13).
  rewrite !rd_byte_at by lia. cbn [mbind exec_bind].
  rewrite eth_type_ipv4 by done. rewrite (u16_small 0x0800) by mlia.
  change (0x0800 =? 0x8100) with false. cbv iota. cbn [mbind exec_bind].
  change (0x0800 =? ETH_P_IP) with true. cbv iota. unfold parse_ipv4. short_frame.
  rewrite memcpy_from_Done by lia. cbn [mbind exec_bind]. change (Z.to_nat 14) with 14%nat.
  destruct (negb _); [by intros [=]|]. rewrite !byte_at_slice, !word32_slice by lia. change (14 + 0)%nat with 14%nat. rewrite Hihl.
  set (evt := set_q_ip _ _ _ _ _). unfold parse_transport_v4. intros Hq.
  split; [lia|]. unfold ip_saddr, ip_daddr, ip_protocol, sizeof_eth.
  change IPPROTO_TCP with 6 in *. change IPPROTO_UDP with 17 in *. change IPPROTO_ICMP with 1 in *.
  change (14 + 9)%nat with 23%nat in *. change (14 + 5 * 4) with 34 in Hq. destruct (Z.eqb_spec (byte_at p 23) 6) as [E|].
  { revert Hq. short_frame. rewrite memcpy_from_Done by lia. intros [= <-]. simpl q_protocol. rewrite E.
    split_and!; try done; try (by intros [=]). intros headlen. by rewrite load_ports_net16 by (simpl; lia || done). }
  destruct (Z.eqb_spec (byte_at p 23) 17) as [E|].
  { revert Hq. short_frame. rewrite memcpy_from_Done by lia. intros [= <-]. simpl q_protocol. rewrite E.
    split_and!; try done; try (by intros [=]). intros headlen. by rewrite load_ports_net16 by (simpl; lia || done). }
  destruct (Z.eqb_spec (byte_at p 23) 1) as [E|].
  { revert Hq. short_frame. rewrite memcpy_from_Done by lia. intros [= <-]. simpl q_protocol. rewrite E.
    split_and!; try done. intros _. simpl. by rewrite byte_at_slice by lia. }
  injection Hq as <-. simpl q_protocol. rewrite (proj2 (Z.eqb_neq _ _)) by done. done.
Qed.

(** The ports the programs report for a packet: none for ICMP. *)
Definition flow_ports (q : pkt_event_t) : Z * Z :=
  if q_protocol q =? 1 then (0, 0) else (q_src_port q, q_dst_port q).

Lemma flow_programs_event p headlen exclude now q0 q :
  Forall is_byte p -> zlen p < 2 ^ 32 -> (34 <= headlen)%nat ->
  eth_proto p = bpf_htons 0x0800 -> Z.land (byte_at p 14) 15 = 5 ->
  packet_parse_raw p (zlen p) q0 = Done (true, q) ->
  let skb := mk_skb p headlen in
  let flow := mk_fe now (q_src_ip q) (q_dst_ip q) (zlen p) 1 (flow_ports q).1 (flow_ports q).2 (q_protocol q) in
  f1 exclude now skb = (if ex exclude (q_dst_ip q) then None else Some (flow 0)) /\
  f2 exclude now skb = (if ex exclude (q_src_ip q) then None else Some (flow 1)).
Proof.
  intros Hb Hl Hh Het Hihl Hq skb flow.
  destruct (parse_raw_plain_ipv4 p q0 q Hb Het Hihl Hq) as (Hlen & Hs & Hd & Hp & _ & Hports).
  specialize (Hports headlen). fold skb (flow_ports q) in Hports. cbv zeta in Hports.
  assert (Hda : eth_proto (skb_linear skb) = eth_proto p /\ ip_protocol (skb_linear skb) = ip_protocol p /\
    ip_saddr (skb_linear skb) = ip_saddr p /\ ip_daddr (skb_linear skb) = ip_daddr p).
  { unfold eth_proto, ip_protocol, ip_saddr, ip_daddr, skb_linear, sizeof_eth. simpl skb_headlen. simpl skb_bytes.
    by rewrite !byte_at_take, !word32_take by lia. }
  destruct Hda as (E1 & E2 & E3 & E4).
  assert (Hll : (34 <= length (skb_linear skb))%nat) by (unfold skb_linear; rewrite length_take; simpl; lia).
  assert (Hsk : skb_len skb = zlen p) by (unfold skb_len; simpl; apply u32_small; mlia).
  unfold f1, f2, flow_of. rewrite E1, E2, E3, E4, Het, Z.eqb_refl, <- Hports, Hsk, <- Hs, <- Hd, <- Hp.
  cbv zeta. cbn [negb]. unfold sizeof_eth, sizeof_iphdr. subst flow. destruct (flow_ports q) as [sp dp].
  rewrite !(proj2 (Nat.ltb_ge _ _)) by lia. done.
Qed.

(** C37: the traffic-control programs and the parser of the probe describe a
    packet alike.  For an untagged IPv4 frame without IP options, below 4 GiB
    and with its first 34 bytes in the linear part of the buffer, that
    [packet_parse_raw] accepts (it refuses fragments other than the first, which
    the programs report with ports read from their data), [f1] and [f2] emit an
    event with the same addresses and protocol and the length of the frame, and
    with the same ports, except that for ICMP the programs report ports 0 where
    the parser reports the type of the message as destination port; they emit
    nothing when the destination (on egress the source) is excluded. *)
Theorem flow_programs_agree (p : bytes) (headlen : nat) (exclude : gmap Z Z) (now : Z) (q0 q : pkt_event_t) :
  Forall is_byte p -> zlen p < 2 ^ 32 -> (34 <= headlen)%nat ->
  eth_proto p = bpf_htons 0x0800 -> Z.land (byte_at p 14) 15 = 5 ->
  packet_parse_raw p (zlen p) q0 = Done (true, q) ->
  let skb := mk_skb p headlen in
  let sp := if q_protocol q =? 1 then 0 else q_src_port q in
  let dp := if q_protocol q =? 1 then 0 else q_dst_port q in
  let flow := mk_fe now (q_src_ip q) (q_dst_ip q) (zlen p) 1 sp dp (q_protocol q) in
  f1 exclude now skb = (if ex exclude (q_dst_ip q) then None else Some (flow 0)) /\
  f2 exclude now skb = (if ex exclude (q_src_ip q) then None else Some (flow 1)) /\
  (q_protocol q = 1 -> q_src_port q = 0 /\ q_dst_port q = byte_at p 34).
Proof.
  intros Hb Hl Hh Het Hihl Hq. cbv zeta.
  destruct (flow_programs_event p headlen exclude now q0 q Hb Hl Hh Het Hihl Hq) as [H1 H2].
  destruct (parse_raw_plain_ipv4 p q0 q Hb Het Hihl Hq) as (_ & _ & _ & _ & Hicmp & _).
  rewrite H1, H2. unfold flow_ports. by destruct (q_protocol q =? 1).
Qed.

(** A UDP packet from 10.0.0.1:5353 to 8.8.8.8:53, with [ihl] words of IP
    header. *)
Definition sample_frame (ihl : Z) (options : bytes) : bytes :=
  replicate 12 1 ++ [8; 0] ++
  [0x40 + ihl; 0; 0; 28; 0; 0; 0; 0; 64; 17; 0; 0; 10; 0; 0; 1; 8; 8; 8; 8] ++ options ++
  [20; 233; 0; 53; 0; 8; 0; 0].

Lemma flow_programs_agree_witness :
  f1 ∅ 7 (mk_skb (sample_frame 5 []) 42) = Some (mk_fe 7 0x0100000a 0x08080808 42 1 5353 53 17 0) /\
  f2 {[0x0100000a := 1]} 7 (mk_skb (sample_frame 5 []) 42) = None.
Proof.
  pose (q := set_q_ports 5353 53 (set_q_ip 0x0100000a 0x08080808 17 4 zero_pkt)).
  assert (Hb : Forall is_byte (sample_frame 5 [])) by (repeat constructor; done).
  assert (Hq : packet_parse_raw (sample_frame 5 []) (zlen (sample_frame 5 [])) zero_pkt = Done (true, q))
    by (vm_compute; reflexivity).
  split.
  - exact (proj1 (flow_programs_agree (sample_frame 5 []) 42 ∅ 7 zero_pkt q Hb ltac:(vm_compute; reflexivity)
      ltac:(lia) ltac:(vm_compute; reflexivity) eq_refl Hq)).
  - exact (proj1 (proj2 (flow_programs_agree (sample_frame 5 []) 42 {[0x0100000a := 1]} 7 zero_pkt q Hb
      ltac:(vm_compute; reflexivity) ltac:(lia) ltac:(vm_compute; reflexivity) eq_refl Hq))).
Defined.

(** With IP options the program takes the ports from the options, the parser
    from the UDP header. *)
Example options_shift_ports :
  let p := sample_frame 6 [148; 4; 0; 0] in
  f1 ∅ 7 (mk_skb p 46) = Some (mk_fe 7 0x0100000a 0x08080808 46 1 37892 0 17 0) /\
  packet_parse_raw p (zlen p) zero_pkt =
    Done (true, set_q_ports 5353 53 (set_q_ip 0x0100000a 0x08080808 17 4 zero_pkt)).
Proof. vm_compute. done. Qed.

(** The socket filters keep every byte of every packet; the test filter drops
    those whose linear part is shorter than an Ethernet header. *)
Lemma filters_keep_all skb :
  zlen (skb_bytes skb) < 2 ^ 32 ->
  stb_passfilter skb = zlen (skb_bytes skb) /\ stb_packet_filter skb = zlen (skb_bytes skb) /\
  (stb_test_filter skb = zlen (skb_bytes skb) \/ (length (skb_linear skb) < 14)%nat).
Proof.
  intros H. assert (Hl : skb_len skb = zlen (skb_bytes skb)) by (apply u32_small; mlia).
  unfold stb_passfilter, stb_packet_filter, stb_test_filter. rewrite Hl.
  split_and!; try done. destruct (Nat.ltb_spec (length (skb_linear skb)) 14); auto.
Qed.
