(* ===== verification/BpfEvents.v ===== *)
(** BpfEvents: what the programs of BpfTrace submit.

    The memory a program reserves is arbitrary.  [submits e ev] says that some
    invocation of some program turns the reserved event [e] into the submitted
    event [ev]; the theorems are about all of them: the event keeps the types
    of [struct event] and its process name is a string, and the programs that
    clear the data never submit bytes of an earlier record. *)

From stdpp Require Import base list gmap strings numbers option.
From S2P Require Import Prelude CLib Common PacketParser Bpf BpfTrace.

(** ** Types *)

(** A byte array of the structure. *)
Definition char_array (n : nat) (b : bytes) : Prop := length b = n /\ Forall is_byte b.

(** The field types of [struct event]. *)
Record event_typed (e : event) : Prop := mk_typed {
  et_timestamp_ns : is_u64 (b_timestamp_ns e);
  et_type : is_u32 (b_type e);
  et_pid : is_u32 (b_pid e);
  et_ppid : is_u32 (b_ppid e);
  et_src_ip : is_u32 (b_src_ip e);
  et_dst_ip : is_u32 (b_dst_ip e);
  et_src_port : is_u16 (b_src_port e);
  et_dst_port : is_u16 (b_dst_port e);
  et_protocol : is_u8 (b_protocol e);
  et_padding : char_array 7 (b_padding e);
  et_bytes : is_u64 (b_bytes e);
  et_packets : is_u64 (b_packets e);
  et_latency_ns : is_u64 (b_latency_ns e);
  et_count : is_u64 (b_count e);
  et_comm : char_array TASK_COMM_LEN (b_comm e);
  et_data : char_array DATA_LEN (b_data e)
}.

(** What the kernel provides: the clocks and the name of the task, which it
    terminates; addresses and ports of a socket; memory. *)
Record call_ok (i : call) : Prop := mk_call_ok {
  co_now : is_u64 (i_now i);
  co_now2 : is_u64 (i_now2 i);
  co_comm : char_array TASK_COMM_LEN (k_comm (i_task i));
  co_comm_nul : 0 ∈ k_comm (i_task i)
}.

Record sock_ok (sk : sock_common) : Prop := mk_sock_ok {
  so_daddr : is_u32 (skc_daddr sk);
  so_saddr : is_u32 (skc_rcv_saddr sk);
  so_num : is_u16 (skc_num sk)
}.

Definition memory_ok (user : user_memory) : Prop :=
  forall a n b, user a n = Some b -> char_array n b.

Definition string_ok (s : option bytes) : Prop := forall b, s = Some b -> Forall is_byte b.

(** ** Helpers keep the types *)

Lemma char_array_blit n b off s :
  char_array n b -> Forall is_byte s -> (off + length s <= n)%nat -> char_array n (blit b off s).
Proof. intros [<- Hb] Hs Hl. split; [by apply length_blit|by apply Forall_blit]. Qed.

Lemma char_array_zeros n : char_array n (replicate n 0).
Proof. split; [apply length_replicate|]. apply Forall_replicate. unfold is_byte. lia. Qed.

Lemma read_str_into_typed n dst s :
  (0 < n)%nat -> char_array n dst -> string_ok s ->
  char_array n (read_str_into dst n s) /\ 0 ∈ read_str_into dst n s.
Proof.
  intros Hn Hd Hs. unfold read_str_into. destruct s as [s|].
  - assert (Hlen : (length (take (n - 1) (cstr s) ++ [0%Z]) <= n)%nat)
      by (rewrite length_app, length_take; simpl; lia).
    split.
    + apply char_array_blit; [done| |done]. apply Forall_app. split; [|by repeat constructor].
      apply Forall_take, cstr_Forall. by apply Hs.
    + unfold blit. rewrite take_0. simpl. rewrite !elem_of_app. left. right. set_solver.
  - split; [apply char_array_blit; [done|apply char_array_zeros|rewrite length_replicate; lia]|].
    unfold blit. rewrite take_0. simpl. apply elem_of_app. left. apply elem_of_replicate. lia.
Qed.

Lemma expected_data_typed user msg e :
  memory_ok user -> char_array DATA_LEN (b_data e) -> char_array DATA_LEN (expected_data user msg (b_data e)).
Proof.
  intros Hu [He1 He2]. split.
  { apply copy_payload_data; [|done]. intros a n b H. by apply (Hu a n b H). }
  unfold expected_data. destruct msg as [[base len]|]; [|done]. case_match; [|done].
  apply Forall_app. split; [|apply Forall_app; split; [by repeat constructor|by apply Forall_drop]].
  destruct (user _ _) eqn:E; simpl; [by eapply Hu|apply char_array_zeros].
Qed.

(** ** Every invocation *)

Section submits.
(** The memory of the task: bytes, and strings. *)
Context (user : user_memory) (user_str : Z -> option bytes).

(** The programs that fill a reserved event. *)
Inductive submits (i : call) : event -> Prop :=
| sub_tcp_connect sk ev :
    sock_ok sk -> tcp_connect.trace_tcp_v4_connect i sk = Some ev -> submits i ev
| sub_tcp_connect_exit m ev :
    (tcp_connect.trace_tcp_v4_connect_exit i m).2 = Some ev -> submits i ev
| sub_sys_enter id m ev : (syscall.tracepoint_sys_enter i id m).2 = Some ev -> submits i ev
| sub_sys_exit m ev : (syscall.tracepoint_sys_exit i m).2 = Some ev -> submits i ev
| sub_block_issue r m ev : (block_trace.tracepoint_block_rq_issue i r m).2 = Some ev -> submits i ev
| sub_block_complete r m ev :
    (block_trace.tracepoint_block_rq_complete i r m).2 = Some ev -> submits i ev
| sub_http sk msg size dir ev :
    sock_ok sk -> is_u64 size -> is_u8 dir ->
    http_trace.handle_tcp_msg user i sk msg size dir = Done (Some ev) -> submits i ev
| sub_dns sk msg size dir ev :
    sock_ok sk -> is_u64 size -> is_u8 dir ->
    dns_trace.handle_udp_msg user i sk msg size dir = Done (Some ev) -> submits i ev
| sub_db sk msg size dir ev :
    sock_ok sk -> is_u64 size -> is_u8 dir ->
    db_trace.handle_db_tcp user i sk msg size dir = Done (Some ev) -> submits i ev
| sub_filp_open fname ev :
    string_ok fname -> file_open.trace_do_filp_open i fname = Some ev -> submits i ev
| sub_vfs_write ev : file_open.trace_vfs_write i = Some ev -> submits i ev
| sub_exec pid parent arg_start arg_end ev :
    process_exec.tracepoint_sched_process_exec user_str i pid parent arg_start arg_end = Some ev ->
    submits i ev
| sub_exit pid parent ev :
    process_exec.tracepoint_sched_process_exit i pid parent = Some ev -> submits i ev
| sub_switch prev next state comm ev :
    Forall is_byte comm -> sched_trace.tracepoint_sched_switch i prev next state comm = Some ev ->
    submits i ev
| sub_wakeup pid comm ev :
    Forall is_byte comm -> sched_trace.tracepoint_sched_wakeup i pid comm = Some ev -> submits i ev
| sub_kmalloc rc size ev :
    is_u64 size -> mem_trace.trace_kmalloc i rc size = Some ev -> submits i ev
| sub_kfree ev : mem_trace.trace_kfree i = Some ev -> submits i ev
| sub_capable cap opt ev : security_trace.trace_cap_capable i cap opt = Some ev -> submits i ev
| sub_file_open name ev :
    string_ok name -> security_trace.trace_security_file_open i name = Some ev -> submits i ev
| sub_load_module ev : security_trace.trace_load_module i = Some ev -> submits i ev
| sub_http_capture sk size dir ev :
    sock_ok sk -> is_u64 size -> is_u8 dir ->
    http_capture.handle_tcp_msg i sk size dir = Some ev -> submits i ev.

Lemma ntohs_u16 x : is_u16 (bpf_ntohs x).
Proof. apply u16_range. Qed.

Lemma lit_bytes_u64 x : is_u8 x -> is_u64 x.
Proof. mlia. Qed.

Lemma blank_event_typed : event_typed blank_event.
Proof. constructor; try apply char_array_zeros; simpl; mlia. Qed.

(** A reserved event and what an invocation makes of it. *)
Definition good (ev : event) : Prop := event_typed ev /\ 0 ∈ b_comm ev.

Lemma message_event_good i type sport dport protocol size dir sk e :
  call_ok i -> sock_ok sk -> is_u32 type -> is_u16 sport -> is_u16 dport -> is_u8 protocol ->
  is_u64 size -> is_u8 dir -> event_typed e ->
  good (message_event i type sport dport protocol size dir sk e).
Proof.
  intros [] [] Ht Hs Hd Hp Hz Hr []. split; [|done].
  constructor; simpl; try done; auto using lit_bytes_u64 with stb.
Qed.

Lemma set_data_good d e : good e -> char_array DATA_LEN d -> good (set_b_data d e).
Proof. intros [[] Hc] Hd. split; [by constructor|done]. Qed.

(** The three payload programs, behind their port test. *)
Lemma payload_good i type sport dport protocol size dir sk msg ev :
  call_ok i -> (forall e, i_slot i = Some e -> event_typed e) -> memory_ok user ->
  sock_ok sk -> is_u32 type -> is_u16 sport -> is_u16 dport -> is_u8 protocol -> is_u64 size -> is_u8 dir ->
  submit (i_slot i) (fun e => copy_payload user msg (message_event i type sport dport protocol size dir sk e)) =
    Done (Some ev) ->
  good ev.
Proof.
  intros Hi He Hu Hsk Ht Hs Hd Hp Hz Hr. destruct (i_slot i) as [e|]; [|done]. cbn [submit].
  pose proof (message_event_good i type sport dport protocol size dir sk e Hi Hsk Ht Hs Hd Hp Hz Hr (He e eq_refl)) as Hm.
  generalize dependent (message_event i type sport dport protocol size dir sk e). intros e' Hm.
  destruct (copy_payload_data user msg e') as [-> _].
  { intros a n b H. by apply (Hu a n b H). }
  { apply Hm. }
  rewrite bind_Done. intros [= <-]. apply set_data_good; [done|].
  apply expected_data_typed; [done|]. apply Hm.
Qed.

(** The goal [good ev], field by field from those of the reserved event. *)
Ltac fields :=
  match goal with |- good _ => split end;
  [constructor; simpl; try done; auto using ntohs_u16, lit_bytes_u64, char_array_zeros with stb|try done].

(** Runs the handler on the reserved event, whose fields become hypotheses. *)
Ltac handler i Hi He :=
  repeat (match goal with
          | |- match ?m !! ?k with _ => _ end = Some _ -> _ => destruct (m !! k)
          | |- (match ?m !! ?k with _ => _ end).2 = Some _ -> _ => destruct (m !! k)
          | |- (if ?b then _ else _) = Some _ -> _ => destruct b
          end; simpl; try (intros [=]; fail));
  destruct (i_slot i) as [e|]; simpl; [|by intros [=]];
  intros [= <-]; specialize (He e eq_refl); destruct Hi, He.

(** Copying a string into an array of the event. *)
Lemma read_data_typed s dst : string_ok s -> char_array DATA_LEN dst -> char_array DATA_LEN (read_str_into dst DATA_LEN s).
Proof. intros. apply read_str_into_typed; [unfold DATA_LEN; lia|done..]. Qed.

Lemma read_comm_typed s dst :
  Forall is_byte s -> char_array TASK_COMM_LEN dst ->
  char_array TASK_COMM_LEN (read_str_into dst TASK_COMM_LEN (Some s)) /\
  0 ∈ read_str_into dst TASK_COMM_LEN (Some s).
Proof. intros. apply read_str_into_typed; [unfold TASK_COMM_LEN; lia|done|]. by intros b [= <-]. Qed.

Lemma fill_good i ev :
  call_ok i -> (forall e, i_slot i = Some e -> event_typed e) -> (forall a, string_ok (user_str a)) ->
  submits i ev -> memory_ok user -> good ev.
Proof.
  intros Hi He Hus Hsub Hu. destruct Hsub;
    match goal with H : _ = Some _ |- _ => revert H | H : _ = Done _ |- _ => revert H end.
  - unfold tcp_connect.trace_tcp_v4_connect. destruct H. handler i Hi He. fields.
  - unfold tcp_connect.trace_tcp_v4_connect_exit, exit_event. handler i Hi He. fields.
  - unfold syscall.tracepoint_sys_enter. handler i Hi He. fields.
  - unfold syscall.tracepoint_sys_exit, exit_event. handler i Hi He. fields.
  - unfold block_trace.tracepoint_block_rq_issue. handler i Hi He. fields.
  - unfold block_trace.tracepoint_block_rq_complete. handler i Hi He. fields.
  - unfold http_trace.handle_tcp_msg. case_match; [done|]. apply payload_good; auto using ntohs_u16; [done|apply H|done].
  - unfold dns_trace.handle_udp_msg. case_match; [done|]. apply payload_good; auto using ntohs_u16; [done|apply H|done].
  - unfold db_trace.handle_db_tcp. case_match; [done|]. apply payload_good; auto using ntohs_u16;
      [by case_match|apply H|done].
  - unfold file_open.trace_do_filp_open. handler i Hi He. fields. apply read_data_typed; [done|].
    apply char_array_zeros.
  - unfold file_open.trace_vfs_write. handler i Hi He. fields. apply char_array_blit; [apply char_array_zeros| |].
    + by repeat constructor.
    + simpl. unfold DATA_LEN. lia.
  - unfold process_exec.tracepoint_sched_process_exec. handler i Hi He. case_match; fields. by apply read_data_typed.
  - unfold process_exec.tracepoint_sched_process_exit. handler i Hi He. fields.
  - unfold sched_trace.tracepoint_sched_switch. handler i Hi He. fields; by apply read_comm_typed.
  - unfold sched_trace.tracepoint_sched_wakeup. handler i Hi He. fields; by apply read_comm_typed.
  - unfold mem_trace.trace_kmalloc. handler i Hi He. fields.
  - unfold mem_trace.trace_kfree. handler i Hi He. fields.
  - unfold security_trace.trace_cap_capable. handler i Hi He. fields.
  - unfold security_trace.trace_security_file_open. handler i Hi He. fields. by apply read_data_typed.
  - unfold security_trace.trace_load_module. handler i Hi He. fields.
  - unfold http_capture.handle_tcp_msg. case_match; [done|]. intros [= <-].
    destruct blank_event_typed, Hi, H. fields.
Qed.
End submits.

(** Whatever the reserved memory holds, every event a program submits has
    the field types of [struct event] (no value exceeds its width, the arrays
    have their sizes and hold bytes) and a terminated process name. *)
Lemma events_well_typed (user : user_memory) (user_str : Z -> option bytes) (i : call) (ev : event) :
  memory_ok user -> (forall a, string_ok (user_str a)) -> call_ok i ->
  (forall e, i_slot i = Some e -> event_typed e) ->
  submits user user_str i ev -> event_typed ev /\ 0 ∈ b_comm ev.
Proof. intros. by eapply fill_good. Qed.

(** ** Stale data *)

Definition with_slot (e : event) (i : call) : call := mk_call (i_task i) (i_now i) (i_now2 i) (Some e).

(** The submitted data do not depend on the reserved memory. *)
Definition fresh_data (h : call -> option event) : Prop :=
  forall i e1 e2 v1 v2, h (with_slot e1 i) = Some v1 -> h (with_slot e2 i) = Some v2 -> b_data v1 = b_data v2.

Ltac same_data := intros <-%(inj Some) <-%(inj Some); reflexivity.

(** A string read into a cleared array. *)
Lemma read_str_zeros n s :
  (0 < n)%nat -> read_str_into (replicate n 0) n (Some s) =
  take (n - 1) (cstr s) ++ replicate (n - length (take (n - 1) (cstr s))) 0.
Proof.
  intros Hn. unfold read_str_into, blit. rewrite take_0. simpl. rewrite <- app_assoc. f_equal.
  rewrite drop_replicate, length_app. simpl. set (k := length _).
  assert (k < n)%nat by (subst k; rewrite length_take; lia).
  by replace (n - k)%nat with (S (n - (k + 1)))%nat by lia.
Qed.

(** The programs that clear the data array leak nothing of earlier
    records: their data depend on the arguments of the probe only.  For the
    opening of a file they are the name, cut to 255 characters, and zeros. *)
Lemma data_not_stale :
  (forall i fname v, file_open.trace_do_filp_open i (Some fname) = Some v ->
     b_data v = take 255 (cstr fname) ++ replicate (256 - length (take 255 (cstr fname))) 0) /\
  fresh_data file_open.trace_vfs_write /\
  (forall prev next state comm, fresh_data (fun i => sched_trace.tracepoint_sched_switch i prev next state comm)) /\
  (forall pid comm, fresh_data (fun i => sched_trace.tracepoint_sched_wakeup i pid comm)) /\
  (forall size rc, fresh_data (fun i => mem_trace.trace_kmalloc i rc size)) /\
  fresh_data mem_trace.trace_kfree /\
  (forall cap opt, fresh_data (fun i => security_trace.trace_cap_capable i cap opt)) /\
  fresh_data security_trace.trace_load_module /\
  (forall r m, fresh_data (fun i => (block_trace.tracepoint_block_rq_issue i r m).2)) /\
  (forall r m, fresh_data (fun i => (block_trace.tracepoint_block_rq_complete i r m).2)).
Proof.
  split_and!; intros.
  - revert H. unfold file_open.trace_do_filp_open. destruct (i_slot i) as [e|]; [|done]. intros [= <-].
    exact (read_str_zeros DATA_LEN fname ltac:(unfold DATA_LEN; lia)).
  - intros i e1 e2 v1 v2. same_data.
  - intros i e1 e2 v1 v2. same_data.
  - intros i e1 e2 v1 v2. same_data.
  - intros i e1 e2 v1 v2. unfold mem_trace.trace_kmalloc. case_match; [done|]. same_data.
  - intros i e1 e2 v1 v2. same_data.
  - intros i e1 e2 v1 v2. same_data.
  - intros i e1 e2 v1 v2. same_data.
  - intros i e1 e2 v1 v2. same_data.
  - intros i e1 e2 v1 v2. unfold block_trace.tracepoint_block_rq_complete.
    destruct (_ !! _); [|done]. same_data.
Qed.

(** [trace_security_file_open] does not clear the data: after the name comes
    what an earlier record held. *)
Example file_open_leaks :
  let slot := set_b_data (lit "secret" ++ replicate 250 0) blank_event in
  let i := mk_call (mk_task 0 0 (replicate 16 0)) 1 1 (Some slot) in
  match security_trace.trace_security_file_open i (Some (lit "a")) with
  | Some v => take 6 (b_data v) = lit "a" ++ [0] ++ lit "cret"
  | None => False
  end.
Proof. vm_compute. reflexivity. Qed.
