(* ===== verification/Layout.v ===== *)
(** Layout: structures in memory.

    The components treat a structure as a record of its fields.  The program
    also treats it as bytes: flow keys are compared with [memcmp], packet events
    are copied out of a perf ring, the eBPF programs hand a [struct event] to
    another process.  The C layout rules are those of Structs; here the
    structures of include/common.h, src/packet_parser.h, src/packet_parser.c,
    bpf/common.h, bpf/network_flow.bpf.c and bpf/vmlinux_legacy.h are given as
    lists of fields, and the byte-level operations are shown to do what the
    record-level models say. *)

From stdpp Require Import base list strings numbers option.
From S2P Require Import Prelude CLib Common Structs FlowTracker PacketParser Elf BpfLoader Main ByteOrder Bpf BpfTrace BpfNet BpfEvents.

Local Open Scope nat_scope.

Definition well_aligned (ts : list ctype) : Prop := Forall (fun t => 0 < alignof t) ts.
Definition fits (ts : list ctype) (vals : list bytes) : Prop := Forall2 (fun t v => length v = sizeof t) ts vals.

(** No byte of the structure is padding. *)
Definition tight (s : cstruct) : bool := Nat.eqb (sum_list (map sizeof (types s))) (struct_size s).

(** ** Properties of the rules *)

Lemma align_up_spec off a : 0 < a -> off <= align_up off a < off + a /\ align_up off a mod a = 0.
Proof.
  intros Ha. unfold align_up. split; [|by apply Nat.Div0.mod_mul].
  pose proof (Nat.div_mod (off + (a - 1)) a). pose proof (Nat.mod_upper_bound (off + (a - 1)) a). lia.
Qed.

Lemma align_up_ge off a : 0 < a -> off <= align_up off a.
Proof. intros Ha. by apply align_up_spec. Qed.

Section placing_facts.
Context (packed : bool).

Lemma field_align_pos t : 0 < alignof t -> 0 < field_align packed t.
Proof. unfold field_align. by destruct packed; [lia|]. Qed.

(** The next field starts where the last one ended or later. *)
Lemma field_ge off t : 0 < alignof t -> off <= align_up off (field_align packed t).
Proof. intros H. apply align_up_ge. by apply field_align_pos. Qed.

Lemma extent_ge off ts : well_aligned ts -> off + sum_list (map sizeof ts) <= extent packed off ts.
Proof.
  intros H. revert off. induction H as [|t ts Ht _ IH]; intros off; simpl; [lia|].
  specialize (IH (align_up off (field_align packed t) + sizeof t)). pose proof (field_ge off t Ht). lia.
Qed.

Lemma extent_off off ts : well_aligned ts -> off <= extent packed off ts.
Proof. intros H. pose proof (extent_ge off ts H). lia. Qed.

Lemma placed_ge off ts i o : well_aligned ts -> placed packed off ts !! i = Some o -> off <= o.
Proof.
  intros H. revert off i. induction H as [|t ts Ht _ IH]; intros off [|i] Hi; simplify_eq/=; [by apply field_ge|].
  apply IH in Hi. pose proof (field_ge off t Ht). lia.
Qed.

Lemma placed_aligned off ts i o t :
  well_aligned ts -> placed packed off ts !! i = Some o -> ts !! i = Some t -> o mod field_align packed t = 0.
Proof.
  intros H. revert off i. induction H as [|t' ts Ht _ IH]; intros off [|i] Hi Hj; simplify_eq/=.
  - by apply align_up_spec, field_align_pos.
  - by eapply IH.
Qed.

Lemma store_length off ts vals mem :
  well_aligned ts -> fits ts vals -> extent packed off ts <= length mem ->
  length (store packed off ts vals mem) = length mem.
Proof.
  intros H. revert off vals mem. induction H as [|t ts Ht Hts IH]; intros off vals mem Hf Hm;
    inversion Hf as [|? v ? vs Hv Hvs]; subst; [done|]. simpl in *.
  pose proof (extent_off (align_up off (field_align packed t) + sizeof t) ts Hts).
  rewrite IH by (done || rewrite length_blit; lia). by rewrite length_blit by lia.
Qed.

Lemma lookup_blit_outside b o v j : o + length v <= length b -> ~ (o <= j < o + length v) -> blit b o v !! j = b !! j.
Proof.
  intros Hb Hj. unfold blit. destruct (decide (j < o)) as [?|?].
  - rewrite lookup_app_l by (rewrite length_take; lia). by rewrite lookup_take_lt.
  - rewrite lookup_app_r, lookup_app_r by (rewrite ?length_take; lia). rewrite length_take, lookup_drop.
    f_equal. lia.
Qed.

(** A byte that belongs to no field is left alone. *)
Lemma store_outside off ts vals mem j :
  well_aligned ts -> fits ts vals -> extent packed off ts <= length mem ->
  (forall i o t, placed packed off ts !! i = Some o -> ts !! i = Some t -> ~ (o <= j < o + sizeof t)) ->
  store packed off ts vals mem !! j = mem !! j.
Proof.
  intros H. revert off vals mem. induction H as [|t ts Ht Hts IH]; intros off vals mem Hf Hm Hj;
    inversion Hf as [|? v ? vs Hv Hvs]; subst; [done|]. simpl in *.
  pose proof (extent_off (align_up off (field_align packed t) + sizeof t) ts Hts).
  rewrite IH; [|done|rewrite length_blit; lia|intros i; apply (Hj (S i))].
  apply lookup_blit_outside; [lia|]. rewrite Hv. by apply (Hj 0).
Qed.

Lemma store_before off ts vals mem :
  well_aligned ts -> fits ts vals -> extent packed off ts <= length mem ->
  take off (store packed off ts vals mem) = take off mem.
Proof.
  intros H Hf Hm. apply list_eq. intros j. destruct (decide (j < off)) as [?|?].
  - rewrite !lookup_take_lt by done. apply store_outside; try done.
    intros i o t Ho _. apply placed_ge in Ho; [lia|done].
  - by rewrite !lookup_take_ge by lia.
Qed.

Lemma slice_take {A} (l l' : list A) o n : take (o + n) l = take (o + n) l' -> take n (drop o l) = take n (drop o l').
Proof. intros H. rewrite !take_drop_commute. by rewrite H. Qed.

Lemma slice_blit b o v : o + length v <= length b -> take (length v) (drop o (blit b o v)) = v.
Proof.
  intros H. rewrite take_drop_commute, (take_blit _ _ _ (o + length v)) by lia.
  by rewrite drop_app_length' by (rewrite length_take; lia).
Qed.

(** A stored field is read back. *)
Lemma store_field off ts vals mem i o v :
  well_aligned ts -> fits ts vals -> extent packed off ts <= length mem ->
  placed packed off ts !! i = Some o -> vals !! i = Some v ->
  take (length v) (drop o (store packed off ts vals mem)) = v.
Proof.
  intros H. revert off vals mem i. induction H as [|t ts Ht Hts IH]; intros off vals mem i Hf Hm Ho Hv; [done|].
  inversion Hf as [|? v' ? vs Hv' Hvs]; subst. simpl in *.
  pose proof (extent_off (align_up off (field_align packed t) + sizeof t) ts Hts).
  destruct i as [|i]; simplify_eq/=; [|eapply IH; try done; rewrite length_blit; lia].
  rewrite <- (slice_blit mem (align_up off (field_align packed t)) v) at 3 by lia.
  apply slice_take. rewrite Hv'. apply store_before; [done|done|rewrite length_blit; lia].
Qed.

(** Without padding the fields follow each other. *)
Lemma store_tight off ts vals mem :
  well_aligned ts -> fits ts vals -> extent packed off ts <= length mem ->
  extent packed off ts = off + sum_list (map sizeof ts) ->
  store packed off ts vals mem = take off mem ++ mjoin vals ++ drop (extent packed off ts) mem.
Proof.
  intros H. revert off vals mem. induction H as [|t ts Ht Hts IH]; intros off vals mem Hf Hm He;
    inversion Hf as [|? v ? vs Hv Hvs]; subst; simpl in *; [by rewrite take_drop|].
  pose proof (extent_ge (align_up off (field_align packed t) + sizeof t) ts Hts).
  pose proof (field_ge off t Ht).
  assert (Ho : align_up off (field_align packed t) = off) by lia. rewrite Ho in *.
  rewrite IH by (done || rewrite ?length_blit; lia).
  rewrite (take_blit _ _ _ (off + sizeof t)) by lia. rewrite <- !app_assoc. do 3 f_equal.
  unfold blit. rewrite app_assoc, drop_app_ge by (rewrite length_app, length_take; lia).
  rewrite length_app, length_take, drop_drop. f_equal. lia.
Qed.
End placing_facts.

Lemma struct_align_pos s : 0 < struct_align s.
Proof. unfold struct_align. induction (map _ _) as [|n l IH]; simpl; lia. Qed.

Lemma extent_size s : extent (cs_packed s) 0 (types s) <= struct_size s.
Proof. apply align_up_ge, struct_align_pos. Qed.

Section structs.
Context (s : cstruct) (vals : list bytes) (mem : bytes).
Context (Ha : well_aligned (types s)) (Hf : fits (types s) vals) (Hm : length mem = struct_size s).

Lemma store_struct_field i o v :
  offsets s !! i = Some o -> vals !! i = Some v -> take (length v) (drop o (store_struct s vals mem)) = v.
Proof. intros. eapply store_field; try done. rewrite Hm. apply extent_size. Qed.

Lemma store_struct_tight : tight s = true -> store_struct s vals mem = mjoin vals.
Proof.
  intros Ht%Nat.eqb_eq. pose proof (extent_ge (cs_packed s) 0 (types s) Ha). pose proof (extent_size s).
  unfold store_struct. rewrite store_tight by (done || lia). rewrite take_0, drop_ge by lia. by rewrite app_nil_r.
Qed.
End structs.

(** A field of a structure without padding, in the sequence of its fields. *)
Lemma joined_field s vals i o v :
  well_aligned (types s) -> fits (types s) vals -> tight s = true ->
  offsets s !! i = Some o -> vals !! i = Some v -> take (length v) (drop o (mjoin vals)) = v.
Proof.
  intros Ha Hf Ht Ho Hv. set (mem := replicate (struct_size s) 0%Z).
  assert (Hm : length mem = struct_size s) by apply length_replicate.
  rewrite <- (store_struct_tight s vals mem Ha Hf Hm Ht). by eapply store_struct_field.
Qed.

(** Fields of the same types are told apart by their bytes. *)
Lemma join_inj ts vals vals' : fits ts vals -> fits ts vals' -> mjoin vals = mjoin vals' -> vals = vals'.
Proof.
  intros H. revert vals'. induction H as [|t v ts vals Hv _ IH]; intros vals' H' E;
    inversion H' as [|? v' ? vs' Hv' Hvs']; subst; [done|]. simpl in E.
  apply app_inj_1 in E as [-> E]; [|congruence]. f_equal. by apply IH.
Qed.

(** ** The structures *)

Local Open Scope string_scope.

Definition flow_key_struct : cstruct := mk_cstruct false
  [("src_ip", U32); ("dst_ip", U32); ("src_port", U16); ("dst_port", U16); ("protocol", U8);
   ("ip_version", U8); ("_pad", chars 2)].

Definition flow_value_struct : cstruct := mk_cstruct false
  [("bytes", U64); ("packets", U64); ("first_seen_ns", U64); ("last_seen_ns", U64); ("pid", U32);
   ("comm", chars 16); ("max_pkt_size", U16); ("min_pkt_size", U16); ("tcp_flags_seen", U32);
   ("retransmits", U32); ("dup_acks", U32); ("out_of_order", U32); ("seq_expected", U32)].

Definition flow_event_struct : cstruct := mk_cstruct true
  [("timestamp_ns", U64); ("probe_id", chars 64); ("category", chars 16); ("event_type", chars 16);
   ("src_ip", U32); ("dst_ip", U32); ("src_port", U16); ("dst_port", U16); ("protocol", chars 8);
   ("ip_version", U8); ("tcp_flags", U8); ("payload_type", U8); ("anomaly", U8); ("pkt_len", U16);
   ("bytes", U64); ("packets", U64); ("latency_us", U64); ("bandwidth_bps", U64); ("retransmits", U32);
   ("dup_acks", U32); ("pid", U32); ("service", chars 32); ("details", chars 128); ("tags", chars 64)].

Definition host_metric_struct : cstruct := mk_cstruct true
  [("timestamp_ns", U64); ("probe_id", chars 64); ("cpu_percent", U64); ("memory_percent", U64);
   ("disk_percent", U64); ("net_rx_bytes", U64); ("net_tx_bytes", U64); ("disk_read_bytes", U64);
   ("disk_write_bytes", U64)].

Definition proc_net_entry_struct : cstruct := mk_cstruct false
  [("local_ip", U32); ("local_port", U16); ("remote_ip", U32); ("remote_port", U16); ("state", U8);
   ("protocol", U8); ("ip_version", U8); ("rx_queue", U64); ("tx_queue", U64); ("uid", U32); ("inode", U32)].

Definition event_struct : cstruct := mk_cstruct false
  [("timestamp_ns", U64); ("type", U32); ("pid", U32); ("ppid", U32); ("src_ip", U32); ("dst_ip", U32);
   ("src_port", U16); ("dst_port", U16); ("protocol", U8); ("padding", chars 7); ("bytes", U64);
   ("packets", U64); ("latency_ns", U64); ("count", U64); ("comm", chars TASK_COMM_LEN);
   ("data", chars DATA_LEN)].

Definition fe_struct : cstruct := mk_cstruct false
  [("ts", U64); ("si", U32); ("di", U32); ("by", U32); ("pk", U32); ("sp", U16); ("dp", U16); ("pr", U8);
   ("dir", U8); ("pad", chars 2)].

Definition sockaddr_struct : cstruct := mk_cstruct false [("sa_family", U16); ("sa_data", chars 14)].

Definition sockaddr_in_struct : cstruct := mk_cstruct false
  [("sin_family", U16); ("sin_port", U16); ("sin_addr", U32); ("sin_zero", chars 8)].

Definition sockaddr_in6_struct : cstruct := mk_cstruct false
  [("sin6_family", U16); ("sin6_port", U16); ("sin6_flowinfo", U32); ("sin6_addr", chars 16);
   ("sin6_scope_id", U32)].

(** [long] has 8 bytes on the BPF target. *)
Definition sys_enter_connect_struct : cstruct := mk_cstruct false
  [("pad", U64); ("id", U64); ("args", Array 3 U64)].

Definition sys_exit_connect_struct : cstruct := mk_cstruct false [("pad", U64); ("id", U64); ("ret", U64)].

Definition trace_entry_struct : cstruct := mk_cstruct false
  [("type", U16); ("flags", U8); ("preempt_count", U8); ("pid", U32)].

Definition udphdr_struct : cstruct := mk_cstruct false
  [("source", U16); ("dest", U16); ("len", U16); ("check", U16)].

Definition structures : list cstruct :=
  [flow_key_struct; flow_value_struct; flow_event_struct; host_metric_struct; proc_net_entry_struct;
   pkt_event_struct; event_struct; fe_struct; sockaddr_struct; sockaddr_in_struct; sockaddr_in6_struct;
   sys_enter_connect_struct; sys_exit_connect_struct; trace_entry_struct; udphdr_struct].

Local Close Scope string_scope.

Lemma structures_sizes : map struct_size structures = [16; 80; 398; 128; 48; 40; 344; 32; 16; 16; 28; 40; 24; 8; 8].
Proof. by vm_compute. Qed.

Lemma structures_aligned s : s ∈ structures -> well_aligned (types s).
Proof.
  intros Hs. assert (H : Forall (fun s => well_aligned (types s)) structures)
    by (repeat (constructor; try (vm_compute; lia))).
  apply list_elem_of_lookup in Hs as [i Hi]. exact (Forall_lookup_1 _ _ _ _ H Hi).
Qed.

(** The value of a scalar and its bytes, for the widths in use. *)
Lemma val_u8 x : is_u8 x -> le_val (le_bytes 1 x) = x.
Proof. intros. by apply le_val_bytes. Qed.
Lemma val_u16 x : is_u16 x -> le_val (le_bytes 2 x) = x.
Proof. intros. by apply le_val_bytes. Qed.
Lemma val_u32 x : is_u32 x -> le_val (le_bytes 4 x) = x.
Proof. intros. by apply le_val_bytes. Qed.
Lemma val_u64 x : is_u64 x -> le_val (le_bytes 8 x) = x.
Proof. intros. by apply le_val_bytes. Qed.

Create Rewrite HintDb scalars.
#[export] Hint Rewrite val_u8 val_u16 val_u32 val_u64 using eauto : scalars.

(** Every field of a structure is read back from where it was stored, at an
    address its type allows, and storing changes no padding. *)
Definition stores_fields (s : cstruct) (vals : list bytes) (mem : bytes) : Prop :=
  let out := store_struct s vals mem in
  length out = struct_size s /\
  (forall i o v, offsets s !! i = Some o -> vals !! i = Some v -> take (length v) (drop o out) = v) /\
  (forall i o t, offsets s !! i = Some o -> types s !! i = Some t -> o mod field_align (cs_packed s) t = 0) /\
  (forall j, (forall i o t, offsets s !! i = Some o -> types s !! i = Some t -> ~ (o <= j < o + sizeof t)) ->
     out !! j = mem !! j).

Lemma structs_store s vals mem :
  s ∈ structures -> fits (types s) vals -> length mem = struct_size s -> stores_fields s vals mem.
Proof.
  intros Hs%structures_aligned Hf Hm. pose proof (extent_size s). unfold stores_fields, store_struct.
  split; [rewrite store_length by (done || lia); done|]. split; [by apply store_struct_field|].
  split; [intros i o t; by apply placed_aligned|]. intros j. apply store_outside; (done || lia).
Qed.

(** ** memcmp of flow keys *)

Definition key_vals (k : flow_key_t) : list bytes :=
  [le_bytes 4 (k_src_ip k); le_bytes 4 (k_dst_ip k); le_bytes 2 (k_src_port k); le_bytes 2 (k_dst_port k);
   le_bytes 1 (k_protocol k); le_bytes 1 (k_ip_version k); le_bytes 2 (k_pad k)].

Lemma key_vals_val k :
  key_ok k -> is_u16 (k_pad k) ->
  map le_val (key_vals k) =
    [k_src_ip k; k_dst_ip k; k_src_port k; k_dst_port k; k_protocol k; k_ip_version k; k_pad k].
Proof. intros [] ?. cbn [map key_vals]. by autorewrite with scalars. Qed.

(** The test [memcmp(p, q, n) == 0]. *)
Definition memcmp_zero (n : nat) (p q : bytes) : bool := bool_decide (take n p = take n q).

(** C17: Two flow keys stored anywhere in memory, over whatever was there, compare
    equal with [memcmp(a, b, sizeof(struct flow_key_t))] exactly when all their
    fields are equal: the structure has no padding, so the byte comparison of
    find_record and of the anomaly detector is the field comparison of the
    model. *)
Theorem key_memcmp (a b : flow_key_t) (ma mb : bytes) :
  key_ok a -> key_ok b -> is_u16 (k_pad a) -> is_u16 (k_pad b) ->
  length ma = struct_size flow_key_struct -> length mb = struct_size flow_key_struct ->
  memcmp_zero (struct_size flow_key_struct)
    (store_struct flow_key_struct (key_vals a) ma) (store_struct flow_key_struct (key_vals b) mb) = key_eqb a b.
Proof.
  intros Ka Kb Pa Pb Ha Hb.
  assert (Hal : well_aligned (types flow_key_struct)) by (apply structures_aligned; by repeat constructor).
  assert (Hfa : forall k, fits (types flow_key_struct) (key_vals k)) by (intros k; repeat constructor; apply length_le_bytes).
  rewrite !store_struct_tight by done. unfold memcmp_zero, key_eqb. apply bool_decide_ext.
  assert (Hl : forall k, length (mjoin (key_vals k)) = struct_size flow_key_struct).
  { intros k. unfold key_vals. cbn [mjoin list_join]. rewrite !length_app, !length_le_bytes. by vm_compute. }
  rewrite !take_ge by (by rewrite Hl). split; [|by intros ->].
  intros E%(join_inj (types flow_key_struct)); [|done..]. apply (f_equal (map le_val)) in E.
  rewrite !key_vals_val in E by done. destruct a, b; simpl in E. by simplify_eq.
Qed.

(** ** Reading a field *)

Section fields.
Context (s : cstruct) (vals : list bytes) (mem : bytes).
Context (Hs : s ∈ structures) (Hf : fits (types s) vals) (Hm : length mem = struct_size s).

(** Reading at its offset. *)
Lemma read_field_stored i o v :
  offsets s !! i = Some o -> vals !! i = Some v -> 0 < length v ->
  read_field (store_struct s vals mem) (Z.of_nat o) (length v) = Done (le_val v).
Proof.
  intros Ho Hv Hn. destruct (structs_store s vals mem Hs Hf Hm) as (Hlen & Hr & _).
  specialize (Hr i o v Ho Hv). unfold read_field. rewrite memcpy_from_Done.
  - rewrite Nat2Z.id, Hr. by rewrite bind_Done.
  - lia.
  - apply (f_equal length) in Hr. rewrite length_take, length_drop in Hr. lia.
Qed.

Lemma word_stored i o off n x :
  offsets s !! i = Some o -> off = Z.of_nat o -> vals !! i = Some (le_bytes n x) -> n <> 0 ->
  (0 <= x < 256 ^ Z.of_nat n)%Z -> read_field (store_struct s vals mem) off n = Done x.
Proof.
  intros Ho -> Hv Hn Hx. pose proof (read_field_stored i o _ Ho Hv) as R.
  rewrite length_le_bytes, le_val_bytes in R by done. apply R. lia.
Qed.
End fields.

(** ** Packet events in the perf buffer *)

Definition pkt_vals (q : pkt_event_t) (pad : bytes) : list bytes :=
  [le_bytes 8 (q_timestamp_ns q); le_bytes 4 (q_src_ip q); le_bytes 4 (q_dst_ip q); le_bytes 2 (q_src_port q);
   le_bytes 2 (q_dst_port q); le_bytes 1 (q_protocol q); le_bytes 1 (q_tcp_flags q); le_bytes 2 (q_pkt_len q);
   le_bytes 4 (q_ifindex q); le_bytes 4 (q_pid q); le_bytes 1 (q_ip_version q); le_bytes 1 (q_payload_type q);
   pad; le_bytes 2 (q_latency_us q)].

(** [read_words Hs Hf Hm]: every word of a stored structure that the goal reads
    is the value of the field at that offset. *)
Ltac read_words Hs Hf Hm :=
  repeat match goal with
  | |- context [read_field (store_struct ?s _ _) ?off ?n] =>
      let i := eval vm_compute in (default 0 (fst <$> list_find (fun o => o = Z.to_nat off) (offsets s))) in
      erewrite (word_stored _ _ _ Hs Hf Hm i (Z.to_nat off) off n) by done; rewrite bind_Done
  end.

Ltac fields_fit := repeat (constructor; [first [apply length_le_bytes | eassumption | done]|]); try by constructor.

(** A packet event laid out as [struct pkt_event_t], in forty bytes of
    memory that held anything and with any bytes in its padding, is read back
    field by field. *)
Lemma pkt_event_roundtrip (q : pkt_event_t) (pad mem : bytes) :
  pkt_ok q -> is_u32 (q_ifindex q) -> length pad = 2 -> length mem = struct_size pkt_event_struct ->
  load_pkt (store_struct pkt_event_struct (pkt_vals q pad) mem) = Done q.
Proof.
  intros [] Hi Hp Hm.
  assert (Hs : pkt_event_struct ∈ structures) by (by repeat constructor).
  assert (Hf : fits (types pkt_event_struct) (pkt_vals q pad)) by fields_fit.
  unfold load_pkt, field_at.
  repeat match goal with
  | |- context [member pkt_event_struct ?name] =>
      let m := eval vm_compute in (member pkt_event_struct name) in change (member pkt_event_struct name) with m
  end. cbv beta iota. cbn [sizeof].
  read_words Hs Hf Hm. by destruct q.
Qed.

(** A key as the flow tracker receives it, and the same key with other padding. *)
Lemma key_memcmp_witness :
  let a := mk_key 16777343 33554559 443 51234 6 4 0 in
  let b := mk_key 16777343 33554559 443 51234 6 4 1 in
  memcmp_zero (struct_size flow_key_struct)
    (store_struct flow_key_struct (key_vals a) (replicate 16 7%Z))
    (store_struct flow_key_struct (key_vals b) (replicate 16 9%Z)) = false.
Proof.
  intros a b. rewrite (key_memcmp a b); [by vm_compute|by repeat split..|by vm_compute|by vm_compute].
Defined.

(** ** Events of the eBPF programs *)

Definition event_vals (e : event) : list bytes :=
  [le_bytes 8 (b_timestamp_ns e); le_bytes 4 (b_type e); le_bytes 4 (b_pid e); le_bytes 4 (b_ppid e);
   le_bytes 4 (b_src_ip e); le_bytes 4 (b_dst_ip e); le_bytes 2 (b_src_port e); le_bytes 2 (b_dst_port e);
   le_bytes 1 (b_protocol e); b_padding e; le_bytes 8 (b_bytes e); le_bytes 8 (b_packets e);
   le_bytes 8 (b_latency_ns e); le_bytes 8 (b_count e); b_comm e; b_data e].

(** The record in the ring buffer: the bytes of the event. *)
Definition event_image (e : event) : bytes := mjoin (event_vals e).

Lemma event_fits e : event_typed e -> fits (types event_struct) (event_vals e).
Proof. intros [? ? ? ? ? ? ? ? ? [] ? ? ? ? [] []]. fields_fit. Qed.

Lemma length_event_image e : event_typed e -> length (event_image e) = 344.
Proof.
  intros [? ? ? ? ? ? ? ? ? [Hp _] ? ? ? ? [Hc _] [Hd _]]. unfold event_image, event_vals. cbn [mjoin list_join].
  rewrite !length_app, !length_le_bytes, Hp, Hc, Hd. by vm_compute.
Qed.

(** The memory a program fills is the image of the event, whatever it held:
    [struct event] has no padding of the compiler's. *)
Lemma event_image_stored e mem :
  event_typed e -> length mem = struct_size event_struct ->
  store_struct event_struct (event_vals e) mem = event_image e.
Proof.
  intros He Hm. apply store_struct_tight; [apply structures_aligned; by repeat constructor|by apply event_fits|done|].
  by vm_compute.
Qed.

(** The words a reader of the record has to tell apart. *)
Example event_offsets :
  map (offsetof event_struct) ["bytes"; "packets"; "latency_ns"; "count"; "comm"; "data"]%string =
    map Some [40; 48; 56; 64; 72; 88].
Proof. by vm_compute. Qed.

(** Any field of it, at its offset. *)
Lemma event_image_slice e i o v :
  event_typed e -> offsets event_struct !! i = Some o -> event_vals e !! i = Some v ->
  take (length v) (drop o (event_image e)) = v.
Proof.
  intros He. apply joined_field; [apply structures_aligned; by repeat constructor|by apply event_fits|by vm_compute].
Qed.

(** ** Socket addresses *)

Lemma le_bytes_swab16 x : is_u16 x -> le_bytes 2 (swab16 x) = [x / 256; x mod 256]%Z.
Proof.
  intros Hx. rewrite swab16_val by done. unfold le_bytes, is_u16 in *. cbn [seq map]. change (256 ^ Z.of_nat 0)%Z with 1%Z.
  change (256 ^ Z.of_nat 1)%Z with 256%Z. repeat (f_equal; try (Z.to_euclidean_division_equations; lia)).
Qed.

Lemma le_bytes_byte_of x : le_bytes 4 x = [byte_of x 0; byte_of x 1; byte_of x 2; byte_of x 3].
Proof.
  unfold le_bytes. rewrite !byte_of_val by lia. done.
Qed.

(** [struct sockaddr_in] as the connect tracer reads it. *)
Lemma sockaddr_in_stored (port addr : Z) (zero mem : bytes) :
  is_u16 port -> is_u32 addr -> length zero = 8 -> length mem = struct_size sockaddr_in_struct ->
  store_struct sockaddr_in_struct
    [le_bytes 2 stb_connect.AF_INET; le_bytes 2 (swab16 port); le_bytes 4 addr; zero] mem =
  enc_sockaddr_in port addr zero.
Proof.
  intros Hp Ha Hz Hm. rewrite store_struct_tight;
    [|apply structures_aligned; by repeat constructor|fields_fit|done|by vm_compute].
  unfold enc_sockaddr_in. cbn [mjoin list_join]. rewrite app_nil_r, le_bytes_swab16, le_bytes_byte_of by done.
  done.
Qed.
