(* ===== verification/Collectors.v ===== *)
(** Collectors: how the Go agent reads the records of the eBPF programs.

    The collectors of internal/collector receive the bytes of a [struct event]
    (or, for the traffic-control programs, of a [struct fe]) and take fields out
    of them at literal offsets.  Each [handleEvent] is given as a function from
    the received slice to what it passes on, so that the layout of Layout.v
    decides which field each collector reports.  The block I/O analyzer of
    pkg/perf/block.go is modelled too, and composed with the programs of
    bpf/block_trace.bpf.c that feed it. *)

From stdpp Require Import base list gmap strings numbers option.
From S2P Require Import Prelude CLib Common Structs FlowTracker PacketParser Elf BpfLoader ByteOrder Bpf BpfTrace BpfNet BpfEvents Layout.

(** ** Slices *)

(** A slice: its array from the first element to the capacity, and its length. *)
Record goslice : Type := mk_slice { gs_array : bytes; gs_len : nat }.

(** A handler returns early, panics, or passes something on. *)
Inductive handled (A : Type) : Type :=
  | Ignored
  | Panicked
  | Reported (a : A).
Arguments Ignored {A}.
Arguments Panicked {A}.
Arguments Reported {A} a.

#[global] Instance handled_ret : MRet handled := fun A a => Reported a.
#[global] Instance handled_bind : MBind handled := fun A B f m =>
  match m with Ignored => Ignored | Panicked => Panicked | Reported a => f a end.
#[global] Instance handled_fmap : FMap handled := fun A B f m => m ≫= fun a => Reported (f a).

(** [d[a:b]] may extend to the capacity. *)
Definition slice (d : goslice) (a b : nat) : handled bytes :=
  if (a <=? b)%nat && (b <=? length (gs_array d))%nat
  then Reported (take (b - a) (drop a (gs_array d))) else Panicked.

(** [d[i]] must be below the length. *)
Definition index (d : goslice) (i : nat) : handled Z :=
  match gs_array d !! i with
  | Some x => if (i <? gs_len d)%nat then Reported x else Panicked
  | None => Panicked
  end.

(** [binary.LittleEndian.Uint16], [Uint32], [Uint64] of [d[a:b]]. *)
Definition uint_le (d : goslice) (a b : nat) : handled Z := le_val <$> slice d a b.
Definition uint_be (d : goslice) (a b : nat) : handled Z := (fun s => le_val (reverse s)) <$> slice d a b.

(** [bytes.Trim(s, "\x00")]. *)
Fixpoint trim_left (s : bytes) : bytes :=
  match s with [] => [] | c :: s' => if c =? 0 then trim_left s' else s end.
Definition trim_nul (s : bytes) : bytes := reverse (trim_left (reverse (trim_left s))).

(** [strings.Contains]. *)
Fixpoint contains (s sub : bytes) : bool :=
  bool_decide (take (length sub) s = sub) || match s with [] => false | _ :: s => contains s sub end.

Definition ipToString (ip : Z) : bytes :=
  dec (byte_of ip 3) ++ lit "." ++ dec (byte_of ip 2) ++ lit "." ++
  dec (byte_of ip 1) ++ lit "." ++ dec (byte_of ip 0).

(** ** What is passed on *)

(** [output.Event], less the time and the probe's name; the fields a collector
    does not set are zero. *)
Record Event : Type := mk_Event {
  o_Category : bytes;
  o_EventType : bytes;
  o_SrcIP : bytes;
  o_DstIP : bytes;
  o_SrcPort : Z;
  o_DstPort : Z;
  o_Protocol : bytes;
  o_Bytes : Z;
  o_Packets : Z;
  o_Details : bytes;
  o_Tags : bytes
}.

Definition text_event (category type details tags : bytes) : Event :=
  mk_Event category type [] [] 0 0 [] 0 0 details tags.

(** The calls of the output and of the analyzers. *)
Inductive call_out : Type :=
  | WriteEvent (e : Event)
  | WriteFileEvent (pid : Z) (comm path op : bytes) (n : Z)
  | WriteProcessEvent (pid ppid : Z) (comm exe args kind : bytes)
  | WriteSyscallEvent (pid : Z) (comm : bytes) (nr latency count : Z)
  | RecordIssue (dev sector size : Z)
  | RecordComplete (dev sector : Z)
  | RecordSwitch (pid nextPid prevState : Z)
  | RecordWakeUp (pid latencyNs : Z)
  | RecordAlloc (pid : Z) (comm : bytes) (size ptr : Z)
  | RecordFree (pid : Z) (comm : bytes) (ptr : Z).

(** ** The handlers *)

Definition too_short (d : goslice) (n : nat) : bool := (gs_len d <? n)%nat.

Definition block_handleEvent (d : goslice) : handled call_out :=
  if too_short d 48 then Ignored else
  etype ← uint_le d 8 12;
  pid ← uint_le d 12 16;
  size ← uint_le d 40 48;
  latency ← uint_le d 48 56;
  if etype =? 16 then Reported (RecordIssue pid size latency)
  else if etype =? 17 then Reported (RecordComplete pid size)
  else Ignored.

Definition int64 (x : Z) : Z := if x <? 2 ^ 63 then x else x - 2 ^ 64.

Definition sched_handleEvent (d : goslice) : handled call_out :=
  if too_short d 48 then Ignored else
  etype ← uint_le d 8 12;
  pid ← uint_le d 12 16;
  ppid ← uint_le d 16 20;
  latency ← uint_le d 48 56;
  if etype =? 12 then Reported (RecordSwitch pid ppid (int64 latency))
  else if etype =? 13 then Reported (RecordWakeUp pid latency)
  else Ignored.

Definition mem_handleEvent (d : goslice) : handled call_out :=
  if too_short d 48 then Ignored else
  etype ← uint_le d 8 12;
  pid ← uint_le d 12 16;
  size ← uint_le d 40 48;
  if etype =? 14 then Reported (RecordAlloc pid [] size 0)
  else if etype =? 15 then Reported (RecordFree pid [] 0)
  else Ignored.

Definition syscall_handleEvent (d : goslice) : handled call_out :=
  if too_short d 88 then Ignored else
  pid ← uint_le d 12 16;
  comm ← trim_nul <$> slice d 72 88;
  latencyNs ← uint_le d 56 64;
  syscallNr ← uint_le d 64 72;
  Reported (WriteSyscallEvent pid comm syscallNr latencyNs 1).

Definition isSensitiveFile (filename : bytes) : bool :=
  existsb (contains filename)
    [lit "/etc/shadow"; lit "/etc/passwd"; lit "/root"; lit "/proc/kcore"; lit "/proc/kallsyms"].

(** The switch over the event type. *)
Definition security_trace_event (etype pid count latency : Z) (payload : bytes) : call_out :=
  let '(eventType, details, tags) :=
    if etype =? 18 then
      (lit "cap_capable", lit "pid=" ++ dec pid ++ lit " cap=" ++ dec count, lit "opt=" ++ dec latency)
    else if etype =? 19 then
      (lit "security_file_open", lit "pid=" ++ dec pid ++ lit " file=" ++ payload,
       if isSensitiveFile payload then lit "sensitive=true" else [])
    else if etype =? 20 then
      (lit "load_module", lit "pid=" ++ dec pid ++ lit " module_load", lit "alert=kernel_module")
    else ([], [], []) in
  WriteEvent (text_event (lit "security") eventType details tags).

Definition security_trace_handleEvent (d : goslice) : handled call_out :=
  if too_short d 48 then Ignored else
  etype ← uint_le d 8 12;
  pid ← uint_le d 12 16;
  count ← uint_le d 64 72;
  latency ← uint_le d 48 56;
  payload ← trim_nul <$> slice d 72 328;
  Reported (security_trace_event etype pid count latency payload).

(** The head of the three protocol collectors. *)
Definition endpoints (d : goslice) : handled (bytes * bytes * Z * Z) :=
  srcIP ← uint_le d 20 24;
  dstIP ← uint_le d 24 28;
  srcPort ← uint_le d 28 30;
  dstPort ← uint_le d 30 32;
  Reported (ipToString srcIP, ipToString dstIP, srcPort, dstPort).

Definition raw_event (protocol kind : string) (etype : Z) (ends : bytes * bytes * Z * Z) (payload : bytes) : call_out :=
  let '(src, dst, sport, dport) := ends in
  WriteEvent (mk_Event (lit "protocol") (lit kind) src dst sport dport (lit protocol)
    (zlen payload) 0 payload (lit "etype=" ++ dec etype)).

Definition http_handleEvent (d : goslice) : handled call_out :=
  if too_short d 48 then Ignored else
  etype ← uint_le d 8 12;
  if negb (etype =? 2) then Ignored else
  pid ← uint_le d 12 16;
  ends ← endpoints d;
  direction ← index d 32;
  pktBytes ← uint_le d 40 48;
  payload ← trim_nul <$> slice d 72 328;
  Reported (raw_event "HTTP" "http_raw" etype ends payload).

Definition dns_handleEvent (d : goslice) : handled call_out :=
  if too_short d 48 then Ignored else
  etype ← uint_le d 8 12;
  if negb (etype =? 3) then Ignored else
  pid ← uint_le d 12 16;
  ends ← endpoints d;
  payload ← slice d 72 328;
  Reported (raw_event "DNS" "dns_raw" etype ends payload).

Definition db_handleEvent (d : goslice) : handled call_out :=
  if too_short d 48 then Ignored else
  etype ← uint_le d 8 12;
  ends ← endpoints d;
  payload ← slice d 72 328;
  Reported (raw_event "DB" "db_raw" etype ends payload).

Definition security_event (etype pid : Z) (comm dataStr : bytes) : handled call_out :=
  if etype =? 6 then Reported (WriteFileEvent pid comm dataStr (lit "open") 0)
  else if etype =? 7 then
    Reported (WriteEvent (text_event (lit "security") (lit "connect")
      (lit "pid=" ++ dec pid ++ lit " comm=" ++ comm) []))
  else Ignored.

Definition security_handleEvent (d : goslice) : handled call_out :=
  if too_short d 48 then Ignored else
  timestampNs ← uint_le d 0 8;
  etype ← uint_le d 8 12;
  pid ← uint_le d 12 16;
  comm ← trim_nul <$> slice d 72 88;
  dataStr ← cstr <$> slice d 88 344;
  security_event etype pid comm dataStr.

Definition process_event (etype pid ppid : Z) (comm argData : bytes) : handled call_out :=
  if etype =? 4 then Reported (WriteProcessEvent pid ppid comm [] argData (lit "execve"))
  else if etype =? 5 then Reported (WriteProcessEvent pid ppid comm [] [] (lit "exit"))
  else Ignored.

Definition performance_handleEvent (d : goslice) : handled call_out :=
  if too_short d 48 then Ignored else
  timestampNs ← uint_le d 0 8;
  etype ← uint_le d 8 12;
  pid ← uint_le d 12 16;
  ppid ← uint_le d 16 20;
  comm ← trim_nul <$> slice d 72 88;
  argData ← trim_nul <$> slice d 88 344;
  process_event etype pid ppid comm argData.

Definition handleFlowEvent (d : goslice) : handled call_out :=
  if too_short d 32 then Ignored else
  srcIP ← uint_be d 8 12;
  dstIP ← uint_be d 12 16;
  pktBytes ← uint_le d 16 20;
  pkts ← uint_le d 20 24;
  srcPort ← uint_le d 24 26;
  dstPort ← uint_le d 26 28;
  proto ← index d 28;
  Reported (WriteEvent (mk_Event (lit "network") (lit "flow") (ipToString srcIP) (ipToString dstIP) srcPort
    dstPort (if proto =? 6 then lit "TCP" else if proto =? 17 then lit "UDP" else lit "IP") pktBytes pkts [] [])).

(** ** Slices of a record *)

Section records.
Context (s : cstruct) (vals : list bytes) (spare : bytes) (n : nat).
Context (Hs : s ∈ structures) (Hf : fits (types s) vals) (Ht : tight s = true).
Local Open Scope nat_scope.

(** The fields one after the other, perhaps with capacity to spare. *)
Let d := mk_slice (mjoin vals ++ spare) n.

Lemma record_field i a b v :
  offsets s !! i = Some a -> vals !! i = Some v -> b = a + length v -> 0 < length v -> slice d a b = Reported v.
Proof.
  intros Ho Hv -> Hn. pose proof (joined_field s vals i a v (structures_aligned s Hs) Hf Ht Ho Hv) as E.
  apply (f_equal length) in E as L. rewrite length_take, length_drop in L. unfold slice. cbn [d gs_array].
  rewrite (proj2 (Nat.leb_le a (a + length v))), (proj2 (Nat.leb_le (a + length v) (length (mjoin vals ++ spare))))
    by (rewrite ?length_app; lia). cbn [andb]. f_equal.
  replace (a + length v - a) with (length v) by lia. rewrite <- E at 2.
  rewrite !take_drop_commute, take_app_le by lia. done.
Qed.

Lemma record_word i a b k x :
  offsets s !! i = Some a -> vals !! i = Some (le_bytes k x) -> b = a + k -> k <> 0 ->
  (0 <= x < 256 ^ Z.of_nat k)%Z -> uint_le d a b = Reported x.
Proof.
  intros Ho Hv -> Hk Hx. unfold uint_le.
  rewrite (record_field i _ _ _ Ho Hv) by (rewrite length_le_bytes; lia). cbn. by rewrite le_val_bytes.
Qed.

Lemma record_word_be i a b k x :
  offsets s !! i = Some a -> vals !! i = Some (le_bytes k x) -> b = a + k -> k <> 0 -> uint_be d a b = Reported (bswap k x).
Proof.
  intros Ho Hv -> Hk. unfold uint_be.
  by rewrite (record_field i _ _ _ Ho Hv) by (rewrite length_le_bytes; lia).
Qed.

Lemma record_byte i a x :
  offsets s !! i = Some a -> vals !! i = Some (le_bytes 1 x) -> is_u8 x -> a < n -> index d a = Reported x.
Proof.
  intros Ho Hv Hx Hn. pose proof (record_field i a (a + 1) _ Ho Hv) as E.
  unfold slice, index in *. cbn [d gs_array gs_len] in *.
  destruct (_ && _); [|by specialize (E eq_refl ltac:(simpl; lia))].
  specialize (E eq_refl ltac:(simpl; lia)). injection E as E. replace (a + 1 - a) with 1 in E by lia.
  apply (f_equal (fun l => l !! 0)) in E. rewrite lookup_take_lt, lookup_drop, Nat.add_0_r in E by lia. rewrite E.
  cbn [le_bytes seq map lookup list_lookup]. rewrite (proj2 (Nat.ltb_lt a n) Hn), Z.div_1_r. f_equal.
  apply Z.mod_small. done.
Qed.
End records.

(** ** The block I/O analyzer *)

(** [BlockIORecord]; the direction is always the text [rw]. *)
Record BlockIORecord : Type := mk_io { io_Timestamp : Z; io_Dev : Z; io_Sector : Z; io_Size : Z }.

(** [BlockIOStats], as far as it is set. *)
Record BlockIOStats : Type := mk_stats {
  st_ReadOps : Z;
  st_ReadBytes : Z;
  st_TotalLatency : Z;
  st_MaxLatencyNs : Z
}.

Record BlockIOAnalyzer : Type := mk_analyzer {
  pending : gmap Z BlockIORecord;
  stats : gmap Z BlockIOStats;
  histogram : gmap Z Z
}.

Definition NewBlockIOAnalyzer : BlockIOAnalyzer := mk_analyzer ∅ ∅ ∅.

Definition io_key (dev sector : Z) : Z := Z.lor (u64 (Z.shiftl dev 32)) sector.

Definition record_issue (dev sector size ts : Z) (a : BlockIOAnalyzer) : BlockIOAnalyzer :=
  mk_analyzer (<[io_key dev sector := mk_io ts dev sector size]> (pending a)) (stats a) (histogram a).

(** [ts.Sub(t)] saturates. *)
Definition go_sub (ts t : Z) : Z := Z.max (- 2 ^ 63) (Z.min (2 ^ 63 - 1) (ts - t)).

Definition record_complete (dev sector ts : Z) (a : BlockIOAnalyzer) : BlockIOAnalyzer :=
  match pending a !! io_key dev sector with
  | None => a
  | Some r =>
      let latency := u64 (go_sub ts (io_Timestamp r)) in
      let stat := default (mk_stats 0 0 0 0) (stats a !! dev) in
      let bucket := latency / 100000 in
      mk_analyzer (delete (io_key dev sector) (pending a))
        (<[dev := mk_stats (u64 (st_ReadOps stat + 1)) (u64 (st_ReadBytes stat + io_Size r))
                    (u64 (st_TotalLatency stat + latency)) (Z.max (st_MaxLatencyNs stat) latency)]> (stats a))
        (<[bucket := u64 (default 0 (histogram a !! bucket) + 1)]> (histogram a))
  end.

(** The collector with its analyzer: one record received at time [now]. *)
Definition block_receive (now : Z) (d : goslice) (a : BlockIOAnalyzer) : BlockIOAnalyzer :=
  match block_handleEvent d with
  | Reported (RecordIssue dev sector size) => record_issue dev sector size now a
  | Reported (RecordComplete dev sector) => record_complete dev sector now a
  | _ => a
  end.

(** ** Reading an event *)

(** The slice a reader returns for a record: the bytes of the event, perhaps
    with capacity to spare. *)
Definition sample (e : event) (spare : bytes) : goslice := mk_slice (event_image e ++ spare) 344.

Section sample.
Context (e : event) (spare : bytes) (He : event_typed e).
Local Open Scope nat_scope.

Lemma sample_slice a b : a <= b -> b <= 344 -> slice (sample e spare) a b = Reported (take (b - a) (drop a (event_image e))).
Proof.
  intros Ha Hb. pose proof (length_event_image e He) as Hl. unfold slice. cbn [gs_array sample].
  rewrite (proj2 (Nat.leb_le a b) Ha), (proj2 (Nat.leb_le b (length (event_image e ++ spare)))) by (rewrite length_app; lia).
  cbn [andb].
  f_equal. rewrite !take_drop_commute, take_app_le by lia. done.
Qed.

Lemma sample_field i a b v :
  offsets event_struct !! i = Some a -> event_vals e !! i = Some v -> b = a + length v -> 0 < length v ->
  slice (sample e spare) a b = Reported v.
Proof. apply record_field; [by repeat constructor|by apply event_fits|by vm_compute]. Qed.

Lemma sample_word i a b n x :
  offsets event_struct !! i = Some a -> event_vals e !! i = Some (le_bytes n x) -> b = a + n -> n <> 0 ->
  (0 <= x < 256 ^ Z.of_nat n)%Z -> uint_le (sample e spare) a b = Reported x.
Proof. apply record_word; [by repeat constructor|by apply event_fits|by vm_compute]. Qed.

(** The slice [72:328]: the process name and the data but for its end. *)
Lemma sample_payload : slice (sample e spare) 72 328 = Reported (b_comm e ++ take 240 (b_data e)).
Proof.
  rewrite sample_slice by lia. f_equal. pose proof (length_event_image e He).
  pose proof (event_image_slice e 14 72 _ He eq_refl eq_refl) as Hc.
  pose proof (event_image_slice e 15 88 _ He eq_refl eq_refl) as Hd.
  destruct He as [? ? ? ? ? ? ? ? ? ? ? ? ? ? [Lc _] [Ld _]]. rewrite Lc, Ld in *.
  change TASK_COMM_LEN with 16 in *. change DATA_LEN with 256 in *.
  rewrite <- Hd, take_take. change (328 - 72) with (16 + 240). change (240 `min` 256) with 240.
  rewrite <- take_take_drop. f_equal; [done|]. by rewrite drop_drop.
Qed.
End sample.

(** [reads He]: the words of the event that the goal reads are its fields. *)
Ltac reads He :=
  repeat match goal with
  | |- context [uint_le (sample ?e ?spare) ?a ?b] =>
      let i := eval vm_compute in (default 0%nat (fst <$> list_find (fun o => o = a) (offsets event_struct))) in
      erewrite (sample_word e spare He i a b) by first [reflexivity | done | lia]; cbn [mbind handled_bind]
  end.

Section reads.
Context (e : event) (spare : bytes) (He : event_typed e).

Lemma sample_long n : (n <= 344)%nat -> too_short (sample e spare) n = false.
Proof. intros H. apply Nat.ltb_ge. done. Qed.

Lemma read_comm : slice (sample e spare) 72 88 = Reported (b_comm e).
Proof. destruct He as [? ? ? ? ? ? ? ? ? ? ? ? ? ? [E _] _]. eapply (sample_field _ _ He 14); rewrite ?E; (done || vm_compute; lia). Qed.

Lemma read_data : slice (sample e spare) 88 344 = Reported (b_data e).
Proof. destruct He as [? ? ? ? ? ? ? ? ? ? ? ? ? ? _ [E _]]. eapply (sample_field _ _ He 15); rewrite ?E; (done || vm_compute; lia). Qed.

(** Address and port words; the octets of an address come out in reverse. *)
Lemma read_endpoints :
  endpoints (sample e spare) =
    Reported (ipToString (b_src_ip e), ipToString (b_dst_ip e), b_src_port e, b_dst_port e).
Proof. pose proof He as []. unfold endpoints. by reads He. Qed.

Lemma read_protocol : index (sample e spare) 32 = Reported (b_protocol e).
Proof.
  eapply (record_byte event_struct (event_vals e)) with (i := 8%nat);
    [by repeat constructor|by apply event_fits|by vm_compute|done|done|by destruct He|vm_compute; lia].
Qed.
End reads.

(** What the collectors make of an event, in terms of its fields. *)
Definition payload_read (e : event) : bytes := b_comm e ++ take 240 (b_data e).

Definition block_reading (e : event) : handled call_out :=
  if b_type e =? 16 then Reported (RecordIssue (b_pid e) (b_bytes e) (b_packets e))
  else if b_type e =? 17 then Reported (RecordComplete (b_pid e) (b_bytes e))
  else Ignored.

Definition sched_reading (e : event) : handled call_out :=
  if b_type e =? 12 then Reported (RecordSwitch (b_pid e) (b_ppid e) (int64 (b_packets e)))
  else if b_type e =? 13 then Reported (RecordWakeUp (b_pid e) (b_packets e))
  else Ignored.

Definition mem_reading (e : event) : handled call_out :=
  if b_type e =? 14 then Reported (RecordAlloc (b_pid e) [] (b_bytes e) 0)
  else if b_type e =? 15 then Reported (RecordFree (b_pid e) [] 0)
  else Ignored.

Definition ends_read (e : event) : bytes * bytes * Z * Z :=
  (ipToString (b_src_ip e), ipToString (b_dst_ip e), b_src_port e, b_dst_port e).

Section readings.
Context (e : event) (spare : bytes) (He : event_typed e).

Lemma block_reads : block_handleEvent (sample e spare) = block_reading e.
Proof. pose proof He as []. unfold block_handleEvent. rewrite sample_long by lia. by reads He. Qed.

Lemma sched_reads : sched_handleEvent (sample e spare) = sched_reading e.
Proof. pose proof He as []. unfold sched_handleEvent. rewrite sample_long by lia. by reads He. Qed.

Lemma security_trace_reads :
  security_trace_handleEvent (sample e spare) =
    Reported (security_trace_event (b_type e) (b_pid e) (b_count e) (b_packets e) (trim_nul (payload_read e))).
Proof.
  pose proof He as []. unfold security_trace_handleEvent. rewrite sample_long, (sample_payload e spare He) by lia.
  by reads He.
Qed.
End readings.

(** C19: On the record of any event, whatever lies in the capacity behind it, no
    collector panics, and each passes on these fields of the event.  The system
    call, memory, file, connect and process collectors read the fields the
    programs wrote; the block, scheduler and capability collectors read the packet
    counter in the place of the latency; the protocol collectors and the security
    tracer report the process name and the first 240 bytes of the data as the
    payload. *)
Theorem collectors_read (e : event) (spare : bytes) :
  event_typed e ->
  let d := sample e spare in
  syscall_handleEvent d =
    Reported (WriteSyscallEvent (b_pid e) (trim_nul (b_comm e)) (b_count e) (b_latency_ns e) 1) /\
  mem_handleEvent d = mem_reading e /\
  security_handleEvent d = security_event (b_type e) (b_pid e) (trim_nul (b_comm e)) (cstr (b_data e)) /\
  performance_handleEvent d =
    process_event (b_type e) (b_pid e) (b_ppid e) (trim_nul (b_comm e)) (trim_nul (b_data e)) /\
  block_handleEvent d = block_reading e /\
  sched_handleEvent d = sched_reading e /\
  security_trace_handleEvent d =
    Reported (security_trace_event (b_type e) (b_pid e) (b_count e) (b_packets e) (trim_nul (payload_read e))) /\
  http_handleEvent d =
    (if b_type e =? 2 then Reported (raw_event "HTTP" "http_raw" 2 (ends_read e) (trim_nul (payload_read e)))
     else Ignored) /\
  dns_handleEvent d =
    (if b_type e =? 3 then Reported (raw_event "DNS" "dns_raw" 3 (ends_read e) (payload_read e)) else Ignored) /\
  db_handleEvent d = Reported (raw_event "DB" "db_raw" (b_type e) (ends_read e) (payload_read e)).
Proof.
  intros He d. pose proof He as []. subst d. rewrite block_reads, sched_reads, security_trace_reads by done.
  unfold syscall_handleEvent, mem_handleEvent, security_handleEvent, performance_handleEvent, http_handleEvent,
    dns_handleEvent, db_handleEvent.
  rewrite !sample_long by lia. reads He. rewrite (read_comm e spare He), (read_data e spare He),
    (read_endpoints e spare He), (read_protocol e spare He), (sample_payload e spare He).
  cbn [fmap handled_fmap mbind handled_bind]. reads He.
  do 7 (split; [done|]). split; [|split]; [| |done];
    (match goal with |- context [b_type e =? ?n] => destruct (Z.eqb_spec (b_type e) n) as [->|_] end); reads He; done.
Qed.

Lemma collectors_read_witness :
  let e := set_b_type 17 (set_b_latency_ns 250000 (set_b_packets 0 blank_event)) in
  block_handleEvent (sample e []) = Reported (RecordComplete 0 0) /\
  syscall_handleEvent (sample e []) = Reported (WriteSyscallEvent 0 [] 0 250000 1).
Proof.
  intros e. assert (He : event_typed e).
  { pose proof blank_event_typed as []. by constructor. }
  pose proof (collectors_read e [] He) as (H1 & _ & _ & _ & H2 & _). split; [exact H2|exact H1].
Defined.

(** ** From the programs to the analyzers *)

(** A request of some sectors, below 4 GiB. *)
Definition request_ok (r : block_trace.request) : Prop :=
  0 < block_trace.rq_nr_sector r /\ block_trace.rq_nr_sector r * 512 < 2 ^ 32.

(** An event of block_trace.bpf.c. *)
Inductive block_event (ev : event) : Prop :=
  | from_issue i r m :
      call_ok i -> (forall e, i_slot i = Some e -> event_typed e) -> request_ok r ->
      (block_trace.tracepoint_block_rq_issue i r m).2 = Some ev -> block_event ev
  | from_complete i r m :
      call_ok i -> (forall e, i_slot i = Some e -> event_typed e) ->
      (block_trace.tracepoint_block_rq_complete i r m).2 = Some ev -> block_event ev.

(** Records read one after the other, each at its time. *)
Definition block_collect (records : list (Z * event * bytes)) (a : BlockIOAnalyzer) : BlockIOAnalyzer :=
  foldl (fun a '(now, e, spare) => block_receive now (sample e spare) a) a records.

Lemma io_key_low dev sector : io_key dev sector mod 2 ^ 32 = sector mod 2 ^ 32.
Proof.
  unfold io_key. with_strategy transparent [u64] unfold u64. rewrite <- !Z.land_ones, Z.land_lor_distr_l by lia.
  replace (Z.land (Z.land _ _) (Z.ones 32)) with 0; [done|].
  rewrite <- Z.land_assoc. change (Z.land (Z.ones 64) (Z.ones 32)) with (Z.ones 32).
  rewrite Z.land_ones, Z.shiftl_mul_pow2 by lia. by rewrite Z.mod_mul by lia.
Qed.

(** The programs in question read no memory of the task. *)
Lemma submitted_typed i ev :
  call_ok i -> (forall e, i_slot i = Some e -> event_typed e) -> submits (fun _ _ => None) (fun _ => None) i ev ->
  event_typed ev.
Proof. intros Hi He Hs. by eapply (fill_good _ _ i ev Hi He) in Hs as [? _]. Qed.

Lemma block_event_fields ev :
  block_event ev ->
  event_typed ev /\
  ((b_type ev = 16 /\ b_bytes ev mod 2 ^ 32 <> 0) \/ (b_type ev = 17 /\ b_bytes ev = 0)).
Proof.
  intros [i r m Hi He Hr E|i r m Hi He E].
  - split; [by eapply submitted_typed, sub_block_issue|].
    left. unfold block_trace.tracepoint_block_rq_issue in E. cbn [snd] in E. destruct (i_slot i); simplify_eq/=.
    split; [done|]. destruct Hr. rewrite u64_small by (unfold is_u64; lia). rewrite Z.mod_small by lia. lia.
  - split; [by eapply submitted_typed, sub_block_complete|].
    right. unfold block_trace.tracepoint_block_rq_complete in E. case_match; [|done]. cbn [snd] in E.
    destruct (i_slot i); by simplify_eq/=.
Qed.

(** Nothing pending can be completed, and nothing was. *)
Definition never_matched (a : BlockIOAnalyzer) : Prop :=
  stats a = ∅ /\ histogram a = ∅ /\ forall k r, pending a !! k = Some r -> k mod 2 ^ 32 <> 0.

Lemma never_matched_step now e spare a :
  block_event e -> never_matched a -> never_matched (block_receive now (sample e spare) a).
Proof.
  intros [He Ht]%block_event_fields (Hs & Hh & Hp). unfold block_receive. rewrite block_reads by done.
  unfold block_reading. destruct Ht as [[-> Hb]|[-> Hb]]; cbn [Z.eqb Pos.eqb].
  - split; [done|]. split; [done|]. intros k r. unfold record_issue. cbn [pending].
    intros [[<- _]|[_ H]]%lookup_insert_Some; [|by eapply Hp]. by rewrite io_key_low.
  - unfold record_complete. destruct (pending a !! _) eqn:E; [|by repeat split].
    exfalso. apply (Hp _ _ E). by rewrite io_key_low, Hb.
Qed.

Lemma never_matched_all records a :
  Forall (fun x => block_event x.1.2) records -> never_matched a -> never_matched (block_collect records a).
Proof.
  intros H. revert a. induction H as [|[[now e] spare] l He _ IH]; intros a Ha; [done|]. simpl.
  apply IH. by apply never_matched_step.
Qed.

(** A request without sectors (a flush), issued and completed by the same
    process and read back first: its completion is matched, under the process
    as the device. *)
Lemma flush_matched i1 i2 r m m' e1 e2 now1 now2 spare1 spare2 :
  call_ok i1 -> call_ok i2 -> (forall e, i_slot i1 = Some e -> event_typed e) ->
  (forall e, i_slot i2 = Some e -> event_typed e) -> i_task i1 = i_task i2 -> block_trace.rq_nr_sector r = 0 ->
  (block_trace.tracepoint_block_rq_issue i1 r m).2 = Some e1 ->
  (block_trace.tracepoint_block_rq_complete i2 r m').2 = Some e2 ->
  let latency := u64 (go_sub now2 now1) in
  stats (block_collect [(now1, e1, spare1); (now2, e2, spare2)] NewBlockIOAnalyzer) =
    {[b_pid e1 := mk_stats 1 0 latency latency]}.
Proof.
  intros Hi1 Hi2 He1 He2 Ht Hr E1 E2 latency.
  pose proof (submitted_typed i1 e1 Hi1 He1 (sub_block_issue _ _ i1 r m e1 E1)) as Ht1.
  pose proof (submitted_typed i2 e2 Hi2 He2 (sub_block_complete _ _ i2 r m' e2 E2)) as Ht2.
  assert (b_type e1 = 16 /\ b_bytes e1 = 0 /\ b_packets e1 = 0 /\ b_pid e1 = u32 (Z.shiftr (k_pid_tgid (i_task i1)) 32))
    as (Hk1 & Hb1 & Hp1 & Hd1).
  { unfold block_trace.tracepoint_block_rq_issue in E1. cbn [snd] in E1. destruct (i_slot i1); simplify_eq/=.
    by rewrite Hr. }
  assert (b_type e2 = 17 /\ b_bytes e2 = 0 /\ b_pid e2 = u32 (Z.shiftr (k_pid_tgid (i_task i1)) 32))
    as (Hk2 & Hb2 & Hd2).
  { rewrite Ht. unfold block_trace.tracepoint_block_rq_complete in E2. case_match; [|done]. cbn [snd] in E2.
    destruct (i_slot i2); by simplify_eq/=. }
  unfold block_collect, block_receive. cbn [foldl]. rewrite !block_reads by done.
  unfold block_reading. rewrite Hk1, Hk2, Hb1, Hb2, Hp1, Hd1, Hd2. cbn [Z.eqb Pos.eqb].
  unfold record_complete, record_issue. cbn [pending stats]. rewrite lookup_insert_eq. cbv zeta.
  cbn [stats io_Timestamp io_Size NewBlockIOAnalyzer]. rewrite lookup_empty. cbn [default st_ReadOps st_ReadBytes
    st_TotalLatency st_MaxLatencyNs]. fold latency. rewrite insert_empty.
  pose proof (u64_range (go_sub now2 now1)) as Hl. fold latency in Hl. unfold is_u64 in Hl.
  do 2 f_equal; [by rewrite u64_small by mlia|lia].
Qed.

(** C21: Composed with the programs that feed them, three collectors lose what
    they collect: whatever block requests of at least one sector and below
    4 GiB are issued and completed, in any order, the analyzer never matches a
    completion with an issue and its statistics stay empty; a context switch is
    ignored; the option word of a capability check is reported as 0.  A
    request without sectors (a flush), issued and completed by one process and
    read back first, is matched: it is counted as a read of 0 bytes on a device
    numbered by the process. *)
Theorem traces_lost :
  (forall records, Forall (fun x => block_event x.1.2) records ->
     stats (block_collect records NewBlockIOAnalyzer) = ∅ /\
     histogram (block_collect records NewBlockIOAnalyzer) = ∅) /\
  (forall i prev next state comm ev spare,
     call_ok i -> (forall e, i_slot i = Some e -> event_typed e) -> Forall is_byte comm ->
     sched_trace.tracepoint_sched_switch i prev next state comm = Some ev ->
     sched_handleEvent (sample ev spare) = Ignored) /\
  (forall i cap opt ev spare,
     call_ok i -> (forall e, i_slot i = Some e -> event_typed e) ->
     security_trace.trace_cap_capable i cap opt = Some ev ->
     exists details, security_trace_handleEvent (sample ev spare) =
       Reported (WriteEvent (text_event (lit "security") (lit "cap_capable") details (lit "opt=0")))) /\
  (forall i1 i2 r m m' e1 e2 now1 now2 spare1 spare2,
     call_ok i1 -> call_ok i2 -> (forall e, i_slot i1 = Some e -> event_typed e) ->
     (forall e, i_slot i2 = Some e -> event_typed e) -> i_task i1 = i_task i2 -> block_trace.rq_nr_sector r = 0 ->
     (block_trace.tracepoint_block_rq_issue i1 r m).2 = Some e1 ->
     (block_trace.tracepoint_block_rq_complete i2 r m').2 = Some e2 ->
     let latency := u64 (go_sub now2 now1) in
     stats (block_collect [(now1, e1, spare1); (now2, e2, spare2)] NewBlockIOAnalyzer) =
       {[b_pid e1 := mk_stats 1 0 latency latency]}).
Proof.
  split; [|split; [|split; [|apply flush_matched]]].
  - intros records H. destruct (never_matched_all records NewBlockIOAnalyzer H) as (? & ? & _); [|done].
    by repeat split.
  - intros i prev next state comm ev spare Hi He Hc E.
    assert (Hev : event_typed ev) by (eapply submitted_typed; [done|done|by eapply sub_switch]).
    rewrite sched_reads by done. unfold sched_trace.tracepoint_sched_switch in E.
    destruct (i_slot i); by simplify_eq/=.
  - intros i cap opt ev spare Hi He E.
    assert (Hev : event_typed ev) by (eapply submitted_typed; [done|done|by eapply sub_capable]).
    rewrite security_trace_reads by done. unfold security_trace.trace_cap_capable in E.
    destruct (i_slot i); simplify_eq/=. by eexists.
Qed.

(** A request issued and completed under the eyes of the kernel program, whose
    own map measures it. *)
Lemma traces_lost_witness :
  let t := mk_task 0x4d0000004e 0 (lit "dd" ++ replicate 14 0) in
  let r := block_trace.mk_request 8 2048 8 in
  let m0 := block_trace.mk_maps ∅ ∅ in
  let '(m, issued) := block_trace.tracepoint_block_rq_issue (mk_call t 1000 1000 (Some blank_event)) r m0 in
  let completed := (block_trace.tracepoint_block_rq_complete (mk_call t 251000 251000 (Some blank_event)) r m).2 in
  exists e1 e2, issued = Some e1 /\ completed = Some e2 /\ b_latency_ns e2 = 250000 /\
    stats (block_collect [(1001, e1, []); (251001, e2, [])] NewBlockIOAnalyzer) = ∅.
Proof.
  intros t r m0. pose proof blank_event_typed as Hb.
  assert (Hc : forall n slot, is_u64 n -> call_ok (mk_call t n n slot)).
  { intros n slot Hn. constructor; [done|done|split; [done|by repeat constructor]|by vm_compute; repeat constructor]. }
  set (e1 := clear_data (set_b_count 0 (set_b_latency_ns 0 (set_b_packets 0 (set_b_bytes 4096 (stamp t 1000 16 blank_event)))))).
  set (e2 := clear_data (set_b_count 1 (set_b_packets 0 (set_b_bytes 0 (set_b_latency_ns 250000
               (stamp t 251000 17 blank_event)))))).
  cbn [block_trace.tracepoint_block_rq_issue]. exists e1, e2.
  assert (E1 : (block_trace.tracepoint_block_rq_issue (mk_call t 1000 1000 (Some blank_event)) r m0).2 = Some e1)
    by (vm_compute; reflexivity).
  set (m := (block_trace.tracepoint_block_rq_issue (mk_call t 1000 1000 (Some blank_event)) r m0).1).
  assert (E2 : (block_trace.tracepoint_block_rq_complete (mk_call t 251000 251000 (Some blank_event)) r m).2 = Some e2)
    by (vm_compute; reflexivity).
  split; [exact E1|]. split; [exact E2|]. split; [reflexivity|].
  apply (proj1 traces_lost). repeat constructor; cbn [fst snd].
  - apply (from_issue e1 (mk_call t 1000 1000 (Some blank_event)) r m0); [apply Hc; done|by intros e [= <-]|split; vm_compute; done|exact E1].
  - apply (from_complete e2 (mk_call t 251000 251000 (Some blank_event)) r m); [apply Hc; done|by intros e [= <-]|exact E2].
Defined.

(** ** Flow records *)

Definition fe_vals (f : fe) : list bytes :=
  [le_bytes 8 (f_ts f); le_bytes 4 (f_si f); le_bytes 4 (f_di f); le_bytes 4 (f_by f); le_bytes 4 (f_pk f);
   le_bytes 2 (f_sp f); le_bytes 2 (f_dp f); le_bytes 1 (f_pr f); le_bytes 1 (f_dir f); [0; 0]].

Record fe_typed (f : fe) : Prop := mk_fe_typed {
  ft_si : is_u32 (f_si f);
  ft_di : is_u32 (f_di f);
  ft_by : is_u32 (f_by f);
  ft_pk : is_u32 (f_pk f);
  ft_sp : is_u16 (f_sp f);
  ft_dp : is_u16 (f_dp f);
  ft_pr : is_u8 (f_pr f)
}.

Lemma ipToString_swapped x : ipToString (bswap 4 x) = ip_to_str x.
Proof.
  pose proof (bswap_bytes 4 x) as H. revert H. generalize (bswap 4 x). intros y. rewrite !le_bytes_byte_of.
  change (reverse [byte_of x 0; byte_of x 1; byte_of x 2; byte_of x 3])
    with [byte_of x 3; byte_of x 2; byte_of x 1; byte_of x 0]. intros [= E0 E1 E2 E3].
  unfold ipToString, ip_to_str. by rewrite E0, E1, E2, E3.
Qed.

Definition proto_name (proto : Z) : bytes :=
  if proto =? 6 then lit "TCP" else if proto =? 17 then lit "UDP" else lit "IP".

(** What the agent makes of the bytes of a record. *)
Lemma flow_record_fields f tail :
  fe_typed f ->
  handleFlowEvent (mk_slice (mjoin (fe_vals f) ++ tail) (32 + length tail)) =
    Reported (WriteEvent (mk_Event (lit "network") (lit "flow") (ip_to_str (f_si f)) (ip_to_str (f_di f))
      (f_sp f) (f_dp f) (proto_name (f_pr f)) (f_by f) (f_pk f) [] [])).
Proof.
  intros []. assert (Hs : fe_struct ∈ structures) by (by repeat constructor).
  assert (Hv : fits (types fe_struct) (fe_vals f)) by fields_fit.
  assert (Hg : tight fe_struct = true) by (by vm_compute).
  unfold handleFlowEvent, too_short. cbn [gs_len]. rewrite (proj2 (Nat.ltb_ge (32 + length tail) 32)) by lia.
  rewrite (record_word_be fe_struct _ _ _ Hs Hv Hg 1 8 12 4 (f_si f)) by done.
  rewrite (record_word_be fe_struct _ _ _ Hs Hv Hg 2 12 16 4 (f_di f)) by done.
  rewrite (record_word fe_struct _ _ _ Hs Hv Hg 3 16 20 4 (f_by f)) by done.
  rewrite (record_word fe_struct _ _ _ Hs Hv Hg 4 20 24 4 (f_pk f)) by done.
  rewrite (record_word fe_struct _ _ _ Hs Hv Hg 5 24 26 2 (f_sp f)) by done.
  rewrite (record_word fe_struct _ _ _ Hs Hv Hg 6 26 28 2 (f_dp f)) by done.
  rewrite (record_byte fe_struct _ _ _ Hs Hv Hg 7 28 (f_pr f)) by (done || lia).
  cbn [mbind handled_bind]. by rewrite !ipToString_swapped.
Qed.

(** An address in dotted notation, and the ports and the name of the protocol
    of a packet as the agent should show them. *)
Definition dotted_quad (a b c d : Z) : bytes :=
  dec a ++ lit "." ++ dec b ++ lit "." ++ dec c ++ lit "." ++ dec d.

Definition shown_transport (t : transport) : Z * Z * bytes :=
  match t with
  | Tcp sport dport _ _ _ => (sport, dport, lit "TCP")
  | Udp sport dport _ => (sport, dport, lit "UDP")
  | _ => (0, 0, lit "IP")
  end.

Lemma ip_to_str_dotted a b c d :
  is_byte a -> is_byte b -> is_byte c -> is_byte d -> ip_to_str (le32 a b c d) = dotted_quad a b c d.
Proof. intros Ha Hb Hc Hd. unfold ip_to_str. by destruct (byte_of_le32 a b c d) as (-> & -> & -> & ->). Qed.

(** The event of the programs for a packet, and what is shown of it. *)
Lemma shown_flow i (q := ip4_event i zero_pkt) :
  transport_ok (i4_payload i) ->
  (flow_ports q, proto_name (q_protocol q)) = shown_transport (i4_payload i) /\
  is_u16 (flow_ports q).1 /\ is_u16 (flow_ports q).2 /\ is_u8 (q_protocol q).
Proof.
  unfold q, ip4_event, flow_ports, proto_name. destruct (i4_payload i) as [? ? ? ? ?|? ? ?|? ?|pr ?]; simpl.
  - intros (? & ? & _). split_and!; (done || mlia).
  - intros (? & ? & _). split_and!; (done || mlia).
  - intros _. split_and!; (done || mlia).
  - intros (Hb & H1 & H2 & H3). change IPPROTO_TCP with 6 in H1. change IPPROTO_UDP with 17 in H2.
    change IPPROTO_ICMP with 1 in H3. rewrite !(proj2 (Z.eqb_neq _ _)) by done. split_and!; (done || mlia).
Qed.

Lemma enc_plain_header macs i :
  length macs = 12%nat -> ip4_ok i -> i4_options i = [] ->
  let p := enc_eth macs None 0x0800 ++ enc_ip4 0 i in
  eth_proto p = bpf_htons 0x0800 /\ Z.land (byte_at p 14) 15 = 5.
Proof.
  intros Hm Hi Ho p. subst p. unfold enc_eth, enc_ip4, enc_ip4_header. rewrite Ho.
  do 13 (destruct macs as [|? macs]; [try discriminate Hm|]); [|discriminate Hm]. by split.
Qed.

(** C20: A packet that a traffic-control program sees reaches the agent intact.
    For every untagged IPv4 packet without IP options that is not a later
    fragment, below 4 GiB and with its first 34 bytes in the linear part of the
    buffer, [f1] (unless the destination is excluded) and [f2] (unless the
    source is) emit a [struct fe] from whose 32 bytes, with whatever the perf
    buffer appends, handleFlowEvent reports the packet's addresses in dotted
    notation, its ports (0 when it is neither TCP nor UDP), its protocol as
    TCP, UDP or IP, its length and one packet. *)
Theorem flow_record_read (macs : bytes) (i : ip4_packet) (headlen : nat) (exclude : gmap Z Z) (now : Z)
    (a b c d a' b' c' d' : Z) (tail : bytes) :
  length macs = 12%nat -> ip4_ok i -> i4_options i = [] ->
  Forall is_byte [a; b; c; d; a'; b'; c'; d'] -> i4_src i = le32 a b c d -> i4_dst i = le32 a' b' c' d' ->
  let p := enc_eth macs None 0x0800 ++ enc_ip4 0 i in
  Forall is_byte p -> zlen p < 2 ^ 32 -> (34 <= headlen)%nat ->
  let '(sport, dport, name) := shown_transport (i4_payload i) in
  let reaches_agent (emitted : option fe) :=
    exists f, emitted = Some f /\
      handleFlowEvent (mk_slice (mjoin (fe_vals f) ++ tail) (32 + length tail)) =
        Reported (WriteEvent (mk_Event (lit "network") (lit "flow") (dotted_quad a b c d) (dotted_quad a' b' c' d')
          sport dport name (zlen p) 1 [] [])) in
  (if default 0 (exclude !! i4_dst i) =? 0 then reaches_agent (f1 exclude now (mk_skb p headlen))
   else f1 exclude now (mk_skb p headlen) = None) /\
  (if default 0 (exclude !! i4_src i) =? 0 then reaches_agent (f2 exclude now (mk_skb p headlen))
   else f2 exclude now (mk_skb p headlen) = None).
Proof.
  intros Hm Hi Ho Hoct Hsrc Hdst p Hb Hl Hh.
  destruct (enc_plain_header macs i Hm Hi Ho) as [Het Hihl]. fold p in Het, Hihl.
  pose proof (packet_parse_raw_enc macs None i 0 zero_pkt Hm Hi ltac:(lia)) as Hq. cbv zeta in Hq.
  change ETH_P_IP with 0x0800 in Hq. fold p in Hq. change (0 =? 0) with true in Hq. cbv iota in Hq.
  destruct (flow_programs_event p headlen exclude now _ _ Hb Hl Hh Het Hihl Hq) as [-> ->].
  destruct (shown_flow i (i4ok_payload i Hi)) as (Hshown & Hsp & Hdp & Hpr).
  set (q := ip4_event i zero_pkt) in *.
  assert (Hqs : q_src_ip q = i4_src i /\ q_dst_ip q = i4_dst i) by (subst q; unfold ip4_event; by destruct (i4_payload i)).
  destruct Hqs as [-> ->]. destruct (shown_transport (i4_payload i)) as [[sport dport] name].
  injection Hshown as Hports Hname. intros reaches_agent.
  assert (Hr : forall dir, reaches_agent (Some (mk_fe now (i4_src i) (i4_dst i) (zlen p) 1
    (flow_ports q).1 (flow_ports q).2 (q_protocol q) dir))).
  { intros dir. eexists. split; [done|]. rewrite flow_record_fields.
    - cbn [f_si f_di f_sp f_dp f_pr f_by f_pk]. rewrite Hports, Hname, Hsrc, Hdst.
      decompose_Forall_hyps. by rewrite !ip_to_str_dotted by done.
    - destruct Hi. constructor; simpl; try done; mlia. }
  unfold ex. split.
  - destruct (exclude !! i4_dst i) as [v|]; [|by apply Hr]. simpl. destruct (v =? 0); [by apply Hr|done].
  - destruct (exclude !! i4_src i) as [v|]; [|by apply Hr]. simpl. destruct (v =? 0); [by apply Hr|done].
Qed.

(** A DNS query from 10.0.0.1, to a destination that is not excluded. *)
Lemma flow_record_read_witness :
  let i := mk_ip4 [0; 0; 28; 0; 0] 0 64 [0; 0] (le32 10 0 0 1) (le32 8 8 8 8) [] (Udp 5353 53 [0; 8; 0; 0]) in
  let p := enc_eth (replicate 12 1) None 0x0800 ++ enc_ip4 0 i in
  exists f, f1 ∅ 7 (mk_skb p 42) = Some f /\
    handleFlowEvent (mk_slice (mjoin (fe_vals f) ++ [0; 0; 0; 0]) 36) =
      Reported (WriteEvent (mk_Event (lit "network") (lit "flow") (lit "10.0.0.1") (lit "8.8.8.8") 5353 53
        (lit "UDP") 42 1 [] [])).
Proof.
  intros i p.
  assert (Hi : ip4_ok i).
  { constructor; simpl; try done; try mlia. exists 0%nat. split; [lia|done]. }
  exact (proj1 (flow_record_read (replicate 12 1) i 42 ∅ 7 10 0 0 1 8 8 8 8 [0; 0; 0; 0] eq_refl Hi eq_refl
    ltac:(repeat constructor; done) eq_refl eq_refl ltac:(repeat constructor; done) ltac:(vm_compute; reflexivity)
    ltac:(lia))).
Defined.

(** The protocol collectors read the same four octets the other way round. *)
Example http_address_reversed :
  ipToString 0x0100000a = lit "1.0.0.10" /\ ip_to_str 0x0100000a = lit "10.0.0.1".
Proof. by vm_compute. Qed.
