(* ===== verification/Declarations.v ===== *)
(** Declarations: what the headers and the eBPF programs declare beside code.

    The constants and macros of include/common.h, src/config.h and bpf/common.h
    that no function of the other files uses, and the maps of the eBPF programs
    with the sizes of their keys and values.  The kernel refuses a map whose
    sizes do not fit its type, so that every program depends on them. *)

From stdpp Require Import base list gmap strings numbers option.
From S2P Require Import Prelude CLib Common Structs TcpClient Elf BpfLoader Bpf BpfTrace BpfNet Layout.

(** ** include/common.h *)

Definition CAT_METRICS : bytes := lit "metrics".
Definition EVT_TCP_STATE : bytes := lit "tcp_state".
Definition EVT_IPTV_STREAM : bytes := lit "iptv_stream".
Definition EVT_IPTV_STUTTER : bytes := lit "iptv_stutter".
Definition EVT_HOST_METRICS : bytes := lit "host_metrics".

Definition PAYLOAD_NONE : Z := 0.
Definition MAX_COMM_LEN : nat := 16.
Definition RING_BUF_SIZE : Z := 4096.
Definition MAX_EVENTS_BATCH : Z := 64.
Definition RECONNECT_BASE_DELAY_MS : Z := 1000.
Definition MAX_MEMORY_MB : Z := 100.

(** The divisions are of [unsigned long long]. *)
Definition NS_TO_SEC (ns : Z) : Z := u64 ns / 1000000000.
Definition NS_TO_MS (ns : Z) : Z := u64 ns / 1000000.
Definition MS_TO_NS (ms : Z) : Z := u64 (u64 ms * 1000000).

(** ** src/config.h *)

Definition CONNECT_START_MAP_SIZE : Z := 1024.
Definition PERF_MAP_SIZE : Z := 64.
Definition MAX_INSTRUCTIONS : Z := 4096.
Definition RING_BUFFER_SIZE : Z := 4096.
Definition JSON_BUFFER_SIZE : Z := 4096.
Definition MAX_EVENTS_PER_BATCH : Z := 32.
Definition BATCH_FLUSH_TIMEOUT_MS : Z := 1000.
Definition CPU_AFFINITY : Z := -1.
Definition MAX_MEMORY_LIMIT : Z := 100 * 1024 * 1024.
Definition LOG_TO_STDOUT : Z := 1.
Definition ENABLE_TCP_CLIENT : Z := 1.
Definition ENABLE_SERIALIZER : Z := 1.
Definition ENABLE_PERF_MONITOR : Z := 1.
Definition ENABLE_LOADER : Z := 1.
Definition DEBUG_MODE : Z := 0.
Definition DEFAULT_SADDR : Z := 0.
Definition DEFAULT_SPORT : Z := 0.

Definition IS_IPV4 (family : Z) : bool := family =? stb_connect.AF_INET.
Definition IS_TCP (protocol : Z) : bool := protocol =? IPPROTO_TCP.

(** ** bpf/common.h *)

Definition EXE_LEN : nat := 64.
Definition ARGS_LEN : nat := 128.
Definition FILENAME_LEN : nat := 128.
Definition HOST_LEN : nat := 64.
Definition URL_LEN : nat := 128.
Definition METHOD_LEN : nat := 8.
Definition TC_ACT_OK : Z := 0.

Definition EVENT_TYPE_FLOW : Z := 1.
Definition EVENT_TYPE_DISK_IO : Z := 9.
Definition EVENT_TYPE_SCHED_WAKEUP : Z := 13.
Definition EVENT_TYPE_KMALLOC : Z := 14.
Definition EVENT_TYPE_KFREE : Z := 15.
Definition EVENT_TYPE_BLOCK_ISSUE : Z := 16.
Definition EVENT_TYPE_BLOCK_COMPLETE : Z := 17.
Definition EVENT_TYPE_CAP_CAPABLE : Z := 18.
Definition EVENT_TYPE_SECURITY_FILE_OPEN : Z := 19.
Definition EVENT_TYPE_LOAD_MODULE : Z := 20.

(** [enum event_type]. *)
Definition event_types : list Z :=
  [EVENT_TYPE_FLOW; EVENT_TYPE_HTTP; EVENT_TYPE_DNS; EVENT_TYPE_EXEC; EVENT_TYPE_EXIT; EVENT_TYPE_FILE_OPEN;
   EVENT_TYPE_TCP_CONNECT; EVENT_TYPE_SYSCALL; EVENT_TYPE_DISK_IO; EVENT_TYPE_MAX; EVENT_TYPE_SCHED_SWITCH;
   EVENT_TYPE_SCHED_WAKEUP; EVENT_TYPE_KMALLOC; EVENT_TYPE_KFREE; EVENT_TYPE_BLOCK_ISSUE;
   EVENT_TYPE_BLOCK_COMPLETE; EVENT_TYPE_CAP_CAPABLE; EVENT_TYPE_SECURITY_FILE_OPEN; EVENT_TYPE_LOAD_MODULE;
   EVENT_TYPE_MYSQL; EVENT_TYPE_REDIS].

(** ** Maps *)

Inductive map_type : Type := RINGBUF | HASH | PERF_EVENT_ARRAY.

Record bpf_map : Type := mk_map {
  bm_type : map_type;
  bm_key_size : nat;
  bm_value_size : nat;
  bm_max_entries : Z;
  bm_map_flags : Z
}.

Definition BPF_F_NO_PREALLOC : Z := 1.

(** The ring buffer every program of its kind declares. *)
Definition event_ring : bpf_map := mk_map RINGBUF 0 0 (4 * 1024 * 1024) 0.

(** A map from [__u64] to [__u64]. *)
Definition u64_map (entries : Z) : bpf_map := mk_map HASH (sizeof U64) (sizeof U64) entries 0.

Definition perf_array : bpf_map := mk_map PERF_EVENT_ARRAY 4 4 64 0.

Module maps.
Definition block_trace_rb := event_ring.
Definition block_start := u64_map 8192.
Definition block_size_map := u64_map 8192.
Definition db_trace_rb := event_ring.
Definition db_start_ts := u64_map 4096.
Definition dns_trace_rb := event_ring.
Definition dns_start_ts := u64_map 4096.
Definition file_open_rb := event_ring.
Definition http_capture_perf_map := perf_array.
Definition http_trace_rb := event_ring.
Definition http_start_ts := u64_map 4096.
Definition mem_trace_rb := event_ring.
Definition alloc_map := mk_map HASH (sizeof U64) (struct_size event_struct) 8192 0.
Definition process_exec_rb := event_ring.
Definition sched_trace_rb := event_ring.
Definition sched_start := mk_map HASH (sizeof U32) (sizeof U64) 8192 0.
Definition security_trace_rb := event_ring.
Definition cap_count := u64_map 4096.
Definition stb_connect_perf_map := perf_array.
Definition connect_start := mk_map HASH (sizeof U64) (sizeof U64) 1024 BPF_F_NO_PREALLOC.
Definition syscall_rb := event_ring.
Definition syscall_start := u64_map 8192.
Definition tcp_connect_rb := event_ring.
Definition tcp_start_ts := u64_map 8192.
Definition flow_events := mk_map PERF_EVENT_ARRAY 4 4 64 0.
Definition exclude_dest_ips := mk_map HASH 4 1 32 0.
End maps.

Import maps.

Definition all_maps : list bpf_map :=
  [block_trace_rb; block_start; block_size_map; db_trace_rb; db_start_ts; dns_trace_rb; dns_start_ts; file_open_rb;
   http_capture_perf_map; http_trace_rb; http_start_ts; mem_trace_rb; alloc_map; process_exec_rb; sched_trace_rb;
   sched_start; security_trace_rb; cap_count; stb_connect_perf_map; connect_start; syscall_rb; syscall_start;
   tcp_connect_rb; tcp_start_ts; flow_events; exclude_dest_ips].

(** What BPF_MAP_CREATE asks of a map, with pages of [page] bytes: a ring
    buffer has no keys or values and is a power of two of whole pages; the keys
    and values of a perf event array are descriptors; a hash map has some of
    each. *)
Definition map_accepted (page : Z) (m : bpf_map) : bool :=
  match bm_type m with
  | RINGBUF =>
      Nat.eqb (bm_key_size m) 0 && Nat.eqb (bm_value_size m) 0 && (0 <? bm_max_entries m) &&
      (2 ^ Z.log2 (bm_max_entries m) =? bm_max_entries m) && (bm_max_entries m mod page =? 0) && (bm_map_flags m =? 0)
  | HASH => (0 <? bm_key_size m)%nat && (0 <? bm_value_size m)%nat && (0 <? bm_max_entries m)
  | PERF_EVENT_ARRAY => Nat.eqb (bm_key_size m) 4 && Nat.eqb (bm_value_size m) 4
  end.

(** ** Facts *)

(** Every map is accepted, with pages of 4 KiB as well as with larger ones. *)
Lemma maps_accepted n : (n <= 10)%nat -> Forall (fun m => map_accepted (4096 * 2 ^ Z.of_nat n) m = true) all_maps.
Proof. intros H. do 11 (destruct n as [|n]; [repeat constructor; by vm_compute|]). lia. Qed.

(** The capacities the programs of BpfTrace.v work with are those declared. *)
Lemma map_capacities :
  tcp_connect.start_ts_entries = Z.to_nat (bm_max_entries tcp_start_ts) /\
  syscall.syscall_start_entries = Z.to_nat (bm_max_entries syscall_start) /\
  block_trace.block_entries = Z.to_nat (bm_max_entries block_start) /\
  block_trace.block_entries = Z.to_nat (bm_max_entries block_size_map) /\
  stb_connect.connect_start_entries = Z.to_nat (bm_max_entries connect_start) /\
  bm_max_entries connect_start = CONNECT_START_MAP_SIZE.
Proof. by repeat split. Qed.

(** Milliseconds survive the conversion up to the range of the nanoseconds. *)
Lemma ms_ns_roundtrip ms : 0 <= ms <= 18446744073709 -> NS_TO_MS (MS_TO_NS ms) = ms /\ NS_TO_SEC (MS_TO_NS ms) = ms / 1000.
Proof.
  intros H. unfold NS_TO_MS, NS_TO_SEC, MS_TO_NS.
  rewrite (u64_small ms), (u64_small (ms * 1000000)), (u64_small (ms * 1000000)) by (unfold is_u64; lia).
  split; [by apply Z.div_mul|]. change 1000000000 with (1000000 * 1000). rewrite <- Z.div_div by lia. by rewrite Z.div_mul.
Qed.

(** Only one number stands for two types: 10, the end marker and MySQL. *)
Lemma event_type_clash i j x :
  event_types !! i = Some x -> event_types !! j = Some x -> i <> j -> x = EVENT_TYPE_MAX /\ x = EVENT_TYPE_MYSQL.
Proof.
  intros Hi Hj Hij.
  assert (H : forall i j x, event_types !! i = Some x -> event_types !! j = Some x -> i = j \/ x = 10).
  { clear. intros i j x Hi Hj.
    apply lookup_lt_Some in Hi as Li. apply lookup_lt_Some in Hj as Lj. simpl in Li, Lj.
    do 21 (destruct i as [|i]; [do 21 (destruct j as [|j]; [vm_compute in Hi, Hj; simplify_eq; auto|]); lia|]). lia. }
  destruct (H i j x Hi Hj) as [?| ->]; done.
Qed.

(** The texts fit their fields of [struct flow_event_t]. *)
Lemma event_texts_fit :
  (length CAT_METRICS < 16)%nat /\
  Forall (fun t => (length t < 16)%nat) [EVT_TCP_STATE; EVT_IPTV_STREAM; EVT_IPTV_STUTTER; EVT_HOST_METRICS].
Proof. split; [|repeat constructor]; vm_compute; lia. Qed.
