(* ===== verification/ProcStreams.v ===== *)
(** ProcStreams: the streams of src/proc_net.c and src/host_metrics.c.

    ProcNet.v and HostMetrics.v read the text of a file that is given to them.
    Here the same functions are written with the calls of the source: [fopen] or
    [popen], [fgets] and [fscanf] that move the position of the stream, [fclose]
    or [pclose].  The state is the table of open streams.  Using a stream that is
    not open, closing it twice, or closing a pipe as a file is [Undefined]; so is
    a loop that outlives its fuel, which is one turn more than the file has
    bytes. *)

From stdpp Require Import base list gmap strings numbers option.
From S2P Require Import Prelude CLib Common FlowTracker Double Serializer Scanf ProcNet HostMetrics Kernel Main.

(** ** Streams *)

Inductive stream_kind : Type := File | Pipe.

#[export] Instance stream_kind_eq_dec : EqDecision stream_kind.
Proof. solve_decision. Defined.

(** An open stream: how it was opened and what is still unread. *)
Record FILE : Type := mk_FILE { fl_kind : stream_kind; fl_rest : bytes }.

Abbreviation table := (gmap Z FILE).

Definition SM (A : Type) : Type := table -> exec (A * table).

#[global] Instance SM_ret : MRet SM := fun A a t => Done (a, t).
#[global] Instance SM_bind : MBind SM := fun A B f m t =>
  match m t with Done (a, t') => f a t' | Undefined => Undefined end.

(** An operation that uses no stream. *)
Definition no_stream {A} (m : exec A) : SM A := fun t =>
  match m with Done a => Done (a, t) | Undefined => Undefined end.

(** A pointer is a number, NULL is 0. *)
Definition stream_open (kind : stream_kind) (text : option bytes) : SM Z := fun t =>
  match text with
  | None => Done (0, t)
  | Some s => let f := free_fd ({[0]} ∪ dom t) in Done (f, <[f := mk_FILE kind s]> t)
  end.

Definition fopen : option bytes -> SM Z := stream_open File.
Definition popen : option bytes -> SM Z := stream_open Pipe.

Definition stream_close (kind : stream_kind) (f : Z) : SM unit := fun t =>
  match t !! f with
  | Some st => if decide (fl_kind st = kind) then Done (tt, delete f t) else Undefined
  | None => Undefined
  end.

Definition fclose : Z -> SM unit := stream_close File.
Definition pclose : Z -> SM unit := stream_close Pipe.

(** [fgets(line, n, f)]: the line, [None] at the end of the file. *)
Definition get_line (n : nat) (f : Z) : SM (option bytes) := fun t =>
  match t !! f with
  | None => Undefined
  | Some st =>
      match fgets n (fl_rest st) with
      | None => Done (None, t)
      | Some (line, rest) => Done (Some line, <[f := mk_FILE (fl_kind st) rest]> t)
      end
  end.

(** [fscanf]: the values assigned. *)
Definition scan_stream (fmt : list directive) (f : Z) : SM (list sval) := fun t =>
  match t !! f with
  | None => Undefined
  | Some st => let '(vs, rest) := scan fmt (fl_rest st) in Done (vs, <[f := mk_FILE (fl_kind st) rest]> t)
  end.

(** ** src/proc_net.c *)

Fixpoint rows_loop (fuel : nat) (f : Z) (is_tcp : bool)
    (entries : list proc_net_entry) (base count max_entries : Z) : SM (list proc_net_entry * Z) :=
  match fuel with
  | O => no_stream Undefined
  | S fuel =>
      if count <? max_entries then
        line ← get_line 1024 f;
        match line with
        | None => mret (entries, count)
        | Some line =>
            row ← no_stream (scan_row line);
            match row with
            | None => rows_loop fuel f is_tcp entries base count max_entries
            | Some v =>
                match entries !! Z.to_nat (base + count) with
                | None => no_stream Undefined
                | Some e =>
                    rows_loop fuel f is_tcp (<[Z.to_nat (base + count) := fill_entry is_tcp v e]> entries)
                      base (count + 1) max_entries
                end
            end
        end
      else mret (entries, count)
  end.

(** One turn of a loop for every byte, and one for the end of the file. *)
Definition fuel_for (file : option bytes) : nat := S (length (default [] file)).

Definition net_file_streams (file : option bytes) (is_tcp : bool)
    (entries : list proc_net_entry) (base max_entries : Z) : SM (list proc_net_entry * Z) :=
  f ← fopen file;
  if f =? 0 then mret (entries, 0) else
  header ← get_line 1024 f;
  match header with
  | None => _ ← fclose f; mret (entries, 0)
  | Some _ =>
      r ← rows_loop (fuel_for file) f is_tcp entries base 0 max_entries;
      _ ← fclose f;
      mret r
  end.

Fixpoint dev_loop (fuel : nat) (f : Z) (total_rx total_tx : Z) : SM (Z * Z) :=
  match fuel with
  | O => no_stream Undefined
  | S fuel =>
      line ← get_line 512 f;
      match line with
      | None => mret (total_rx, total_tx)
      | Some line =>
          match sscanf line dev_fmt with
          | [VStr _; VNum rx; VNum tx] => dev_loop fuel f (u64 (total_rx + rx)) (u64 (total_tx + tx))
          | _ => dev_loop fuel f total_rx total_tx
          end
      end
  end.

Definition net_dev_streams (file : option bytes) (rx_bytes tx_bytes : Z) : SM (Z * Z * Z) :=
  f ← fopen file;
  if f =? 0 then mret (-1, rx_bytes, tx_bytes) else
  _ ← get_line 512 f;
  _ ← get_line 512 f;
  '(total_rx, total_tx) ← dev_loop (fuel_for file) f 0 0;
  _ ← fclose f;
  mret (0, total_rx, total_tx).

(** ** src/host_metrics.c *)

Definition cpu_streams (stat : option bytes) : SM double :=
  f ← fopen stat;
  if f =? 0 then mret d_zero else
  _ ← get_line 256 f;
  vs ← scan_stream cpu_fmt f;
  if (length vs <? 4)%nat then (_ ← fclose f; mret d_zero) else
  _ ← fclose f;
  match vs with
  | [VNum user; VNum nice; VNum system; VNum idle; VNum iowait; VNum irq; VNum softirq] =>
      mret (cpu_busy (u64 user) (u64 nice) (u64 system) (u64 idle) (u64 iowait) (u64 irq)
                     (u64 softirq))
  | _ => no_stream Undefined
  end.

Fixpoint mem_loop (fuel : nat) (f : Z) (total available : Z) : SM (Z * Z) :=
  match fuel with
  | O => no_stream Undefined
  | S fuel =>
      line ← get_line 256 f;
      match line with
      | None => mret (total, available)
      | Some line =>
          match sscanf line total_fmt with
          | [VNum t] => mem_loop fuel f (u64 t) available
          | _ =>
              match sscanf line available_fmt with
              | [VNum a] => mret (total, u64 a)
              | _ => mem_loop fuel f total available
              end
          end
      end
  end.

Definition memory_streams (meminfo : option bytes) : SM double :=
  f ← fopen meminfo;
  if f =? 0 then mret d_zero else
  '(total, available) ← mem_loop (fuel_for meminfo) f 0 0;
  _ ← fclose f;
  if total =? 0 then mret d_zero else mret (percent (u64 (total - available)) total).

Definition disk_streams (df : option bytes) : SM double :=
  f ← popen df;
  if f =? 0 then mret d_zero else
  buf ← get_line 32 f;
  let pct := match buf with Some buf => default d_zero (strtod buf) | None => d_zero end in
  _ ← pclose f;
  mret pct.

Definition metrics_streams (h : host) (metric : host_metric_t) (probe_id : bytes) : SM host_metric_t :=
  let timestamp_ns := u64 (u64 (h_tv_sec h * 1000000000) + h_tv_nsec h) in
  let id := strncpy_field (m_probe_id metric) probe_id in
  cpu ← cpu_streams (h_stat h);
  mem ← memory_streams (h_meminfo h);
  disk ← disk_streams (h_df h);
  '(_, rx, tx) ← net_dev_streams (h_net_dev h) (m_net_rx_bytes metric) (m_net_tx_bytes metric);
  mret (mk_metric timestamp_ns id cpu mem disk rx tx 0 0).

(** ** The polling of a round *)

Definition poll_streams (files : proc_files) (entries : list proc_net_entry)
  : SM (list proc_net_entry * Z) :=
  let quarter := MAX_FLOWS / 4 in
  let rest n := quarter - (if n <? quarter then n else quarter) in
  '(entries, tcp4) ← net_file_streams (pf_tcp files) true entries 0 quarter;
  '(entries, udp4) ← net_file_streams (pf_udp files) false entries tcp4 (rest tcp4);
  '(entries, tcp6) ← net_file_streams (pf_tcp6 files) true entries (tcp4 + udp4) quarter;
  '(entries, udp6) ← net_file_streams (pf_udp6 files) false entries (tcp4 + udp4 + tcp6) (rest tcp6);
  let total_entries := tcp4 + udp4 + tcp6 + udp6 in
  mret (entries, if MAX_FLOWS <? total_entries then MAX_FLOWS else total_entries).

(** ** Steps *)

Lemma SM_step {A B} (m : SM A) (k : A -> SM B) t a t' : m t = Done (a, t') -> (m ≫= k) t = k a t'.
Proof. intros E. unfold mbind, SM_bind. by rewrite E. Qed.

Lemma SM_stuck {A B} (m : SM A) (k : A -> SM B) t : m t = Undefined -> (m ≫= k) t = Undefined.
Proof. intros E. unfold mbind, SM_bind. by rewrite E. Qed.

Lemma stream_open_none kind t : stream_open kind None t = Done (0, t).
Proof. done. Qed.

Lemma stream_open_some kind s t :
  exists f, stream_open kind (Some s) t = Done (f, <[f := mk_FILE kind s]> t) /\ (f =? 0) = false /\ t !! f = None.
Proof.
  exists (free_fd ({[0]} ∪ dom t)). pose proof (free_fd_fresh ({[0]} ∪ dom t)) as H.
  split; [done|]. split; [apply Z.eqb_neq; set_solver|]. apply not_elem_of_dom. set_solver.
Qed.

Section opened.
Context (f : Z) (kind : stream_kind) (t : table) (Ht : t !! f = None).

(** The table in which [f] has [s] left to read. *)
Definition reading (s : bytes) : table := <[f := mk_FILE kind s]> t.

Lemma get_line_reading n s :
  get_line n f (reading s) =
    match fgets n s with
    | None => Done (None, reading s)
    | Some (line, rest) => Done (Some line, reading rest)
    end.
Proof.
  unfold get_line, reading. rewrite lookup_insert_eq. cbn [fl_rest fl_kind].
  destruct (fgets n s) as [[line rest]|]; [|done]. by rewrite insert_insert_eq.
Qed.

Lemma get_line_end n : get_line n f (reading []) = Done (None, reading []).
Proof. apply (get_line_reading n []). Qed.

Lemma close_reading s : stream_close kind f (reading s) = Done (tt, t).
Proof.
  unfold stream_close, reading. rewrite lookup_insert_eq. cbn [fl_kind]. rewrite decide_True by done.
  by rewrite delete_insert_id.
Qed.

Lemma scan_reading fmt s : scan_stream fmt f (reading s) = Done ((scan fmt s).1, reading (scan fmt s).2).
Proof.
  unfold scan_stream, reading. rewrite lookup_insert_eq. cbn [fl_rest fl_kind].
  destruct (scan fmt s). by rewrite insert_insert_eq.
Qed.

(** A line that is skipped, whether there is one or not. *)
Definition after_line (n : nat) (s : bytes) : bytes := match fgets n s with Some (_, s) => s | None => s end.

Lemma skip_line {B} n s (k : option bytes -> SM B) (k' : SM B) :
  (forall line, k line = k') -> (get_line n f ≫= k) (reading s) = k' (reading (after_line n s)).
Proof.
  intros Hk. unfold after_line. pose proof (get_line_reading n s) as E.
  destruct (fgets n s) as [[line rest]|]; rewrite (SM_step _ _ _ _ _ E); by rewrite Hk.
Qed.

Lemma after_line_length n s : (2 <= n)%nat -> (length (after_line n s) <= length s)%nat.
Proof.
  intros Hn. unfold after_line. destruct (fgets n s) as [[l r]|] eqn:E; [|done].
  apply fgets_spec in E as (_ & _ & ?); [lia|done].
Qed.

(** *** Loops *)

(** The loops on the stream do what the loops on the text do, each with fuel
    for what is left. *)
Lemma rows_loop_spec q p s is_tcp entries base count max_entries :
  (length s < q)%nat -> (length s <= p)%nat ->
  match proc_rows p s is_tcp entries base count max_entries with
  | Undefined => rows_loop q f is_tcp entries base count max_entries (reading s) = Undefined
  | Done r =>
      exists rest, rows_loop q f is_tcp entries base count max_entries (reading s) = Done (r, reading rest)
  end.
Proof.
  revert p s entries count. induction q as [|q IH]; intros p s entries count Hq Hp; [lia|]. cbn [rows_loop].
  destruct p as [|p].
  { destruct s; [|simpl in Hp; lia]. cbn [proc_rows]. destruct (count <? max_entries); [|by eexists].
    rewrite (SM_step _ _ _ _ _ (get_line_end 1024)). by eexists. }
  cbn [proc_rows]. destruct (count <? max_entries); [|by eexists]. pose proof (get_line_reading 1024 s) as E.
  destruct (fgets 1024 s) as [[line rest]|] eqn:Eg; rewrite (SM_step _ _ _ _ _ E); [|by eexists].
  apply fgets_spec in Eg as (_ & _ & Hr); [|lia].
  destruct (scan_row line) as [row|]; [|by apply SM_stuck].
  rewrite bind_Done. rewrite (SM_step (no_stream (Done row)) _ _ row (reading rest)) by done. cbv beta iota.
  destruct row as [v|]; [|apply IH; lia]. destruct (entries !! _) as [e|]; [apply IH; lia|done].
Qed.

Lemma dev_loop_spec q p s rx tx :
  (length s < q)%nat -> (length s <= p)%nat ->
  exists rest, dev_loop q f rx tx (reading s) = Done (dev_rows p s rx tx, reading rest).
Proof.
  revert p s rx tx. induction q as [|q IH]; intros p s rx tx Hq Hp; [lia|]. cbn [dev_loop].
  destruct p as [|p].
  { destruct s; [|simpl in Hp; lia]. rewrite (SM_step _ _ _ _ _ (get_line_end 512)). by eexists. }
  cbn [dev_rows]. pose proof (get_line_reading 512 s) as E.
  destruct (fgets 512 s) as [[line rest]|] eqn:Eg; rewrite (SM_step _ _ _ _ _ E); [|by eexists].
  apply fgets_spec in Eg as (_ & _ & Hr); [|lia]. cbv beta iota.
  repeat case_match; apply IH; lia.
Qed.

Lemma mem_loop_spec q p s total available :
  (length s < q)%nat -> (length s <= p)%nat ->
  exists rest, mem_loop q f total available (reading s) = Done (mem_rows p s total available, reading rest).
Proof.
  revert p s total available. induction q as [|q IH]; intros p s total available Hq Hp; [lia|]. cbn [mem_loop].
  destruct p as [|p].
  { destruct s; [|simpl in Hp; lia]. rewrite (SM_step _ _ _ _ _ (get_line_end 256)). by eexists. }
  cbn [mem_rows]. pose proof (get_line_reading 256 s) as E.
  destruct (fgets 256 s) as [[line rest]|] eqn:Eg; rewrite (SM_step _ _ _ _ _ E); [|by eexists].
  apply fgets_spec in Eg as (_ & _ & Hr); [|lia]. cbv beta iota.
  repeat case_match; first [apply IH; lia | by eexists].
Qed.
End opened.

(** ** The readers *)

Lemma net_file_streams_spec file is_tcp entries base max_entries t :
  net_file_streams file is_tcp entries base max_entries t =
    match parse_proc_net_file file is_tcp entries base max_entries with
    | Done r => Done (r, t)
    | Undefined => Undefined
    end.
Proof.
  unfold net_file_streams, parse_proc_net_file. destruct file as [s|].
  2:{ rewrite (SM_step _ _ _ _ _ (stream_open_none File t)). done. }
  destruct (stream_open_some File s t) as (f & Ho & Hf & Ht). rewrite (SM_step _ _ _ _ _ Ho), Hf.
  fold (reading f File t s). pose proof (get_line_reading f File t 1024 s) as E.
  destruct (fgets 1024 s) as [[line rest]|] eqn:Eg; rewrite (SM_step _ _ _ _ _ E); cbv beta iota.
  2:{ rewrite (SM_step _ _ _ _ _ (close_reading f File t Ht s)). done. }
  apply fgets_spec in Eg as (_ & _ & Hr); [|lia].
  pose proof (rows_loop_spec f File t (fuel_for (Some s)) (length rest) rest is_tcp entries base 0 max_entries
    ltac:(unfold fuel_for; simpl; lia) ltac:(lia)) as L.
  destruct (proc_rows _ _ _ _ _ _ _) as [r|]; [|by apply SM_stuck]. destruct L as [rest' L].
  rewrite (SM_step _ _ _ _ _ L), (SM_step _ _ _ _ _ (close_reading f File t Ht rest')). done.
Qed.

Lemma net_dev_streams_spec file rx tx t : net_dev_streams file rx tx t = Done (proc_net_read_dev file rx tx, t).
Proof.
  unfold net_dev_streams, proc_net_read_dev. destruct file as [s|].
  2:{ rewrite (SM_step _ _ _ _ _ (stream_open_none File t)). done. }
  destruct (stream_open_some File s t) as (f & Ho & Hf & Ht). rewrite (SM_step _ _ _ _ _ Ho), Hf.
  fold (reading f File t s) (after_line 512 s) (after_line 512 (after_line 512 s)).
  do 2 erewrite skip_line by done.
  pose proof (after_line_length 512 s ltac:(lia)). pose proof (after_line_length 512 (after_line 512 s) ltac:(lia)).
  destruct (dev_loop_spec f File t (fuel_for (Some s)) (length (after_line 512 (after_line 512 s)))
    (after_line 512 (after_line 512 s)) 0 0) as [rest L]; [unfold fuel_for; simpl; lia|lia|].
  rewrite (SM_step _ _ _ _ _ L). destruct (dev_rows _ _ _ _) as [a b].
  rewrite (SM_step _ _ _ _ _ (close_reading f File t Ht rest)). done.
Qed.

Lemma cpu_streams_spec stat t :
  cpu_streams stat t =
    match read_cpu_percent stat with Done d => Done (d, t) | Undefined => Undefined end.
Proof.
  unfold cpu_streams, read_cpu_percent. destruct stat as [s|].
  2:{ rewrite (SM_step _ _ _ _ _ (stream_open_none File t)). done. }
  destruct (stream_open_some File s t) as (f & Ho & Hf & Ht). rewrite (SM_step _ _ _ _ _ Ho), Hf.
  fold (reading f File t s) (after_line 256 s). erewrite skip_line by done.
  rewrite (SM_step _ _ _ _ _ (scan_reading f File t cpu_fmt (after_line 256 s))).
  unfold cpu_of. generalize (scan cpu_fmt (after_line 256 s)).1 as vs. intros vs.
  destruct (length vs <? 4)%nat; rewrite (SM_step _ _ _ _ _ (close_reading f File t Ht _)); [done|].
  repeat case_match; done.
Qed.

Lemma memory_streams_spec meminfo t : memory_streams meminfo t = Done (read_memory_percent meminfo, t).
Proof.
  unfold memory_streams, read_memory_percent. destruct meminfo as [s|].
  2:{ rewrite (SM_step _ _ _ _ _ (stream_open_none File t)). done. }
  destruct (stream_open_some File s t) as (f & Ho & Hf & Ht). rewrite (SM_step _ _ _ _ _ Ho), Hf.
  fold (reading f File t s).
  destruct (mem_loop_spec f File t (fuel_for (Some s)) (length s) s 0 0) as [rest L];
    [unfold fuel_for; simpl; lia|lia|].
  rewrite (SM_step _ _ _ _ _ L). destruct (mem_rows _ _ _ _) as [total available].
  rewrite (SM_step _ _ _ _ _ (close_reading f File t Ht rest)). by destruct (total =? 0).
Qed.

Lemma disk_streams_spec df t : disk_streams df t = Done (read_disk_percent df, t).
Proof.
  unfold disk_streams, read_disk_percent. destruct df as [s|].
  2:{ rewrite (SM_step _ _ _ _ _ (stream_open_none Pipe t)). done. }
  destruct (stream_open_some Pipe s t) as (f & Ho & Hf & Ht). rewrite (SM_step _ _ _ _ _ Ho), Hf.
  fold (reading f Pipe t s). pose proof (get_line_reading f Pipe t 32 s) as E.
  destruct (fgets 32 s) as [[line rest]|]; rewrite (SM_step _ _ _ _ _ E);
    by rewrite (SM_step _ _ _ _ _ (close_reading f Pipe t Ht _)).
Qed.

(** A reader in sequence with what follows it. *)
Lemma net_file_then {B} file is_tcp entries base max_entries t (k : list proc_net_entry * Z -> SM B)
    (k' : list proc_net_entry * Z -> exec B) :
  (forall r, k r t = match k' r with Done b => Done (b, t) | Undefined => Undefined end) ->
  (net_file_streams file is_tcp entries base max_entries ≫= k) t =
    match parse_proc_net_file file is_tcp entries base max_entries ≫= k' with
    | Done b => Done (b, t)
    | Undefined => Undefined
    end.
Proof.
  intros Hk. pose proof (net_file_streams_spec file is_tcp entries base max_entries t) as E.
  destruct (parse_proc_net_file _ _ _ _ _) as [r|]; [|by apply SM_stuck].
  rewrite (SM_step _ _ _ _ _ E). by rewrite bind_Done.
Qed.

(** C18: Whatever streams are open elsewhere, and whatever the files of /proc and
    the output of df hold or fail to open, a collection of the host metrics and a
    poll of the connection tables use only streams that are open, close each one
    they open exactly once, by the function that belongs to it, on every path, and
    compute what the models on the texts compute; every loop ends within one turn
    per byte of its file.  The only undefined behaviour left is that of the models:
    a collection has none unless /proc/stat sets four to six of the seven
    counters, a poll has none unless a row sets five to eight or ten values. *)
Theorem proc_streams_balanced (t : table) :
  (forall h metric probe_id,
     metrics_streams h metric probe_id t =
       match host_metrics_collect h metric probe_id with Done m => Done (m, t) | Undefined => Undefined end) /\
  (forall files entries,
     poll_streams files entries t =
       match poll_proc files entries with Done r => Done (r, t) | Undefined => Undefined end) /\
  (forall h metric probe_id, stat_fits (h_stat h) ->
     exists m, metrics_streams h metric probe_id t = Done (m, t)) /\
  (forall files entries, files_fit files -> Forall entry_ok entries -> zlen entries = 4096 ->
     exists r, poll_streams files entries t = Done (r, t)).
Proof.
  assert (Hm : forall h metric probe_id,
     metrics_streams h metric probe_id t =
       match host_metrics_collect h metric probe_id with Done m => Done (m, t) | Undefined => Undefined end).
  { intros h metric probe_id. unfold metrics_streams, host_metrics_collect.
    pose proof (cpu_streams_spec (h_stat h) t) as E.
    destruct (read_cpu_percent (h_stat h)) as [cpu|]; [|by apply SM_stuck].
    rewrite bind_Done, (SM_step _ _ _ _ _ E), (SM_step _ _ _ _ _ (memory_streams_spec _ t)),
      (SM_step _ _ _ _ _ (disk_streams_spec _ t)), (SM_step _ _ _ _ _ (net_dev_streams_spec _ _ _ t)).
    by destruct (proc_net_read_dev _ _ _) as [[? rx] tx]. }
  assert (Hp : forall files entries,
     poll_streams files entries t =
       match poll_proc files entries with Done r => Done (r, t) | Undefined => Undefined end).
  { intros files entries. unfold poll_streams, poll_proc.
    do 4 (apply net_file_then; intros [? ?]). done. }
  split_and!; [done|done| |].
  - intros h metric probe_id Hs. rewrite Hm.
    destruct (host_metrics_defined h metric probe_id Hs) as (m & ->). eauto.
  - intros files entries Hf He Hl. rewrite Hp.
    destruct (poll_proc_ok files entries Hf He Hl) as (es & n & -> & _). eauto.
Qed.

Lemma proc_streams_balanced_witness :
  exists m, metrics_streams (mk_host 1 0 None None None (Some [])) unset_metric (lit "p") ∅ = Done (m, ∅).
Proof.
  destruct (proc_streams_balanced ∅) as (_ & _ & H & _).
  apply (H (mk_host 1 0 None None None (Some [])) unset_metric (lit "p")). exact I.
Defined.
